(* ===== verification/_CoqProject ===== *)
-Q . S2P
Prelude.v
Num.v
Binary64.v
Value.v
Options.v
OptionValue.v
Format.v
Scale.v
Easing.v
Animation.v
Redraw.v
Lifecycle.v
DynamicDisplay.v
Canvas.v
Cross.v
Legend.v
Layout.v
Common.v
PageCharts.v
Dashboard.v
StatsPage.v
Stats.v
Points.v
Lines.v
Filling.v
Axes.v
LineChart.v
ShownData.v
Bars.v
StackBounds.v
VerticalBars.v
HorizontalBars.v
ShownBars.v
BarFrames.v
Segments.v
Pies.v
Radars.v
ShownSegments.v
ShownRadars.v
RadarAngles.v
RoundFrames.v
PageAngles.v
Mouse.v
MouseEvents.v
MouseListeners.v
HoverBars.v
