(* ===== verification/Prelude.v ===== *)
(** * A verification of the INAETICS demonstrator's web pages

    The demonstrator is a distributed system (producers, a queue, processors, a data
    store) whose state is shown by two web pages.  This development models the pages,
    under [src/org.inaetics.demonstrator.java_impl/resources/]: the charting library
    [ChartNew.js] and the scripts [inaeticsCommon.js], [inaeticsDashboard.js] and
    [inaeticsStats.js], which ask the coordinator for JSON and show it.

    ** How the parts interact

    A page polls a URL ([getJSON]); the callback of an answer renders tables
    ([renderClusterInfo], [renderSystemStats]) and charts ([renderGraph],
    [renderStatistics]).  A chart is drawn by [new Chart(ctx).Line(data, opts)] or
    drawn again by [updateChart]; both set up the context ([init_and_start]), measure
    the data ([initPassVariableData_part1]), lay the chart out ([setMeasures]), choose
    the scale ([getValueBounds], [calculateScale]), place the points
    ([initPassVariableData_part2]), and draw them frame by frame ([animationLoop],
    [drawLinesDataset]).  Timers, animation frames, resizes and scrolling of the
    window interleave with that.

    ** The files

    - [Prelude]: results of code that throws ([res]), a state monad for code with
      effects ([eff]), and lemmas on them.
    - [Num], [Binary64]: JavaScript numbers.  [Num] has the operations on [spec_float]
      with the precision of binary64, [Binary64] what they compute, as real numbers.
    - [Value]: JavaScript values and conversions ([typeof], [==], [isNumber], ...).
    - [Options]: the tables of defaults of the chart types and how the options of a
      chart are put together ([mergeChartConfig], [chart_config]).
    - [OptionValue]: [setOptionValue] and the functions that read an option at a point.
    - [Format]: [fmtChartJS], [unFormat], [roundToWithThousands].
    - [Scale]: [getValueBounds], [calculateScale], [populateLabels], [calculateOffset].
    - [Easing], [Animation]: the easing functions, the frames of [animationLoop],
      [animationCorrection].
    - [Redraw], [Lifecycle]: a page of charts as a transition system: contexts,
      canvases, the registry of responsive charts, [updateChart], [testRedraw],
      [chartJsResize], and the loops that are pending.  [DynamicDisplay]: charts that
      are drawn when they are scrolled into view.
    - [Stats]: [initPassVariableData_part1], for charts with axes and for pies.
    - [Canvas]: the operations of a drawing context as a list, texts of several lines,
      boxes, markers; what has been stroked and filled ([pen_after]), and how many
      drawing states are saved ([save_depth]).
    - [Cross]: [dispCrossText] and [dispCrossImage].  [Legend]: [drawLegend].
      [Layout]: [setMeasures].
    - [Points]: [initPassVariableData_part2].  [Lines]: [drawLinesDataset].
    - [Axes]: what charts with axes share: the area of the data, labels and lines of the
      axes, the order of a frame.
    - [LineChart], [ShownData]: the function [Line], and what its last frame shows.
    - [Bars], [VerticalBars], [HorizontalBars]: the functions [Bar], [StackedBar],
      [HorizontalBar] and [HorizontalStackedBar], and what they share.  [StackBounds]:
      the bounds of stacks.  [ShownBars], [BarFrames]: what their frames show, and the
      drawing state they leave.  [Filling]: what a list of operations fills.
    - [Segments], [Pies]: the functions [Pie], [Doughnut] and [PolarArea], and the
      segments they share ([drawPieSectors] and the like); [Radars]: the function
      [Radar].  [ShownSegments], [ShownRadars]: what their frames show; [RadarAngles]:
      the labels around a radar; [RoundFrames], [PageAngles]: the state frames leave,
      to the context and to the other charts of a page.
    - [Mouse]: [doMouseAction], [defMouse] and the registry [jsGraphAnnotate];
      [MouseEvents]: annotations over sequences of events; [MouseListeners]: the
      listeners of a canvas over its drawings; [HoverBars]: the mouse on the bars of a
      chart.
    - [Common]: polling, chart options and data of the pages ([inaeticsCommon.js]);
      [PageCharts]: the charts with these options; [Dashboard], [StatsPage]: the pages.

    Definitions have the names of the functions, variables and options they model;
    the fields of a record are the variables of a function that outlive a step.  An
    object of options or statistics is a finite map from names to values ([config]),
    read with [c.["name"]], where a missing property is [undefined].  What a drawing
    function does to its context is the list of operations it calls, in their order.
    A function that can throw returns a [res]; when it throws, operations before the
    exception are not part of the result, except in [Lines], [Redraw], [Dashboard],
    [StatsPage] and [Mouse], where the state after the exception is kept.

    ** What the theorems show

    - The pages: a poller has at most one request in flight, renders the answers in
      order and stops only at a network failure ([Common]); no frame, timer or resize
      of a page throws, and every context has the animation loops it should
      ([Lifecycle]); a chart that waits to be seen is drawn once, when it is
      ([DynamicDisplay]); what the dashboard and the statistics page show is what the
      coordinator answered, whatever came before ([Dashboard], [StatsPage]); their
      charts keep their size ([PageCharts]).
    - The data: sums and extremes of the statistics ([Stats]), the range and the steps
      of a scale, the loop that finds them, and the monotone projection on it
      ([Scale]), logarithmic axes ([LineChart]), stacks of bars ([Points]).
    - The picture: rows of texts do not overlap, labels can be read ([Layout]), the
      legend is a grid ([Legend]), lines go through the points ([Lines]); composed
      with the statistics, the scale and the positions, the last frame of a line chart
      shows exactly the data ([ShownData]), and so does that of a chart of stacked bars
      ([ShownBars]), whose stacks lie within the bounds of its scale ([StackBounds]),
      of the segments of a pie ([ShownSegments]) and of a radar ([ShownRadars]), whose
      labels are placed around it ([RadarAngles]).  Drawing states are restored
      ([Lines], [LineChart], [BarFrames], [RoundFrames]), and charts of a page do not
      interfere through its variables ([PageAngles]).
    - The mouse: an event shows the first entry under it or hides the box, annotations
      are entered and left in turn ([MouseEvents]), and the bars of a stacked chart are
      where their annotations appear ([HoverBars]).
    - Animations: their frames, their end, easing ([Animation], [Easing]).
    - Options and texts: precedence of options ([Options]), options per point
      ([OptionValue]), formats and their inverse ([Format]), lines of texts ([Canvas]).
    - Some theorems show what the code does where it means something else: a page with
      one sample shows nothing of it ([single_number_is_not_drawn]), turned labels leave
      a saved state ([line_chart_saves]), an animation without end
      ([animation_endless]), canvases of dense screens ([dense_screen_stays_blank]),
      charts registered twice ([responsive_registered_twice]), annotations that cannot be left
      ([stale_annotation_throws]), listeners that pile up ([listeners_accumulate]),
      one provider without the other ([utilisation_needs_both]), lines that do not
      follow the axis of the bars ([mixed_chart_heights]), values that move to another
      label ([short_values_move]).

    ** Parameters

    Code that is not in the repository is a parameter: [Math.sin], [Math.pow] and the
    like (the class [MathLib]), [measureText], [toLocaleTimeString], functions given as
    options ([callback]), the templates of labels and texts ([eval_template]: [tmplbis]
    compiles them with [new Function]), the deviation functions of another script
    ([math_deviation]), and whether a canvas fits its window ([fits]).

    ** Fuel and bounds

    [fit_to_steps] (the loop of [calculateScale]) has fuel; [fit_to_steps_terminates]
    gives an amount that is enough for all steps the code can be called with.  The
    functions of [Redraw] that call each other through a resize have fuel too, and the
    theorems of [Lifecycle] say that they end.  The loop that brings an angle of a radar
    into one turn ([label_angle]) has the fuel that [radar_labels_are_placed] shows to
    be enough.  Loops over [k < steps] run as often as
    [loop_count] says, which throws when the bound is infinite, where the code does not
    end.  Numbers are doubles throughout; theorems that speak of integers bound them by
    [safe] (below 2^53) or less, and state the bound.

    ** Not modelled

    How the browser is detected ([checkBrowser], [isIE]: what follows from it is an
    argument), saving of a canvas as an image ([saveCanvas], a call of [Mouse]), the
    stand-ins for methods that old browsers lack, the compilation of templates, and
    [drawMath], a function of another script.  The services in Java and C. *)

From stdpp Require Import base list strings.
From Stdlib Require Import ZArith Lia.

Open Scope Z_scope.

(** ** Results of code that can throw *)

(** The exceptions the modelled code raises. *)
Inductive jserror : Type :=
| TypeError
| RangeError
| ReferenceError
| Diverges.

Inductive res (A : Type) : Type :=
| Ok (a : A)
| Throw (e : jserror).
Arguments Ok {A} a.
Arguments Throw {A} e.

Definition res_bind {A B} (r : res A) (f : A -> res B) : res B :=
  match r with
  | Ok a => f a
  | Throw e => Throw e
  end.

Definition res_map {A B} (f : A -> B) (r : res A) : res B :=
  match r with
  | Ok a => Ok (f a)
  | Throw e => Throw e
  end.

Declare Scope js_scope.
Delimit Scope js_scope with js.
Lemma Ok_inj {A} (a b : A) : Ok a = Ok b -> a = b.
Proof. congruence. Qed.

(** The value of a result, or the given one. *)
Definition ok_or {A} (d : A) (r : res A) : A :=
  match r with
  | Ok a => a
  | Throw _ => d
  end.

Notation "'let*' x ':=' r 'in' k" := (res_bind r (fun x => k))
  (at level 10, x pattern, r at level 100, k at level 200) : js_scope.
Open Scope js_scope.

Fixpoint res_mapM {A B} (f : A -> res B) (l : list A) : res (list B) :=
  match l with
  | [] => Ok []
  | x :: xs => let* y := f x in let* ys := res_mapM f xs in Ok (y :: ys)
  end.

Lemma res_bind_Ok {A B} (r : res A) (f : A -> res B) (b : B) :
  res_bind r f = Ok b -> exists a, r = Ok a /\ f a = Ok b.
Proof. destruct r as [a|e]; [by exists a|done]. Qed.

(** A chart that was prepared, and what is known of it by computing. *)
Lemma known_chart {X C A} (view : C -> A) (fact : A) (r : res (X * option C)) :
  match r with Ok (_, Some chart) => Some (view chart) | _ => None end = Some fact ->
  exists ops chart, r = Ok (ops, Some chart) /\ view chart = fact.
Proof. destruct r as [[ops [chart|]]|e]; try discriminate. intros Hf. exists ops, chart. by injection Hf. Qed.

(** Goes back through the steps of a computation that succeeded. *)
Ltac succeed := repeat match goal with
  | H : res_bind ?r ?f = Ok _ |- _ =>
      let a := fresh "a" in let Ha := fresh "Ha" in
      apply res_bind_Ok in H as (a & Ha & H); cbv beta in H
  | H : (let '(_, _) := ?p in _) = Ok _ |- _ => destruct p; cbv beta iota in H
  end.

(** Hints on numbers, and on the states of pages. *)
Create HintDb num.
Create HintDb page.

(** ** Loops *)

(** [while (cond a) a = body a], for at most [fuel] iterations. *)
Fixpoint while {A} (fuel : nat) (cond : A -> bool) (body : A -> A) (a : A) : res A :=
  if cond a then
    match fuel with
    | O => Throw Diverges
    | S f => while f cond body (body a)
    end
  else Ok a.

(** ** Effects

    A computation on a state that may throw: the state survives the throw, as
    the changes made before an exception do. *)

Definition eff (S A : Type) : Type := S -> S * res A.

Definition eff_ret {S A} (a : A) : eff S A := fun s => (s, Ok a).
Definition eff_bind {S A B} (m : eff S A) (f : A -> eff S B) : eff S B :=
  fun s => let '(s', r) := m s in
           match r with
           | Ok a => f a s'
           | Throw e => (s', Throw e)
           end.
Definition eff_lift {S A} (r : res A) : eff S A := fun s => (s, r).
Definition eff_modify {S} (f : S -> S) : eff S unit := fun s => (f s, Ok tt).
Definition eff_gets {S A} (f : S -> A) : eff S A := fun s => (s, Ok (f s)).

(** An update that may throw and then has no effect. *)
Definition eff_update {S} (f : S -> res S) : eff S unit :=
  fun s => match f s with
           | Ok s' => (s', Ok tt)
           | Throw e => (s, Throw e)
           end.

Notation "'let!' x ':=' m 'in' k" := (eff_bind m (fun x => k))
  (at level 10, x pattern, m at level 100, k at level 200) : js_scope.
Notation "'do!' m 'in' k" := (eff_bind m (fun _ => k))
  (at level 10, m at level 100, k at level 200) : js_scope.

Fixpoint eff_iter {S A} (f : A -> eff S unit) (l : list A) : eff S unit :=
  match l with
  | [] => eff_ret tt
  | x :: xs => do! f x in eff_iter f xs
  end.

(** A loop with a variable that outlives its iterations. *)
Fixpoint eff_fold {S A B} (f : B -> A -> eff S B) (l : list A) (b : B) : eff S B :=
  match l with
  | [] => eff_ret b
  | x :: xs => let! b := f b x in eff_fold f xs b
  end.

(** ** Lists *)

Section Lists.

Context {A B : Type}.

Lemma elem_of_map (f : A -> B) (l : list A) (y : B) : y ∈ map f l <-> exists x, f x = y /\ x ∈ l.
Proof. rewrite list_elem_of_In, in_map_iff. setoid_rewrite list_elem_of_In. done. Qed.

Lemma elem_of_map_2 (f : A -> B) (l : list A) (x : A) : x ∈ l -> f x ∈ map f l.
Proof. intros Hx. apply elem_of_map. by exists x. Qed.

Lemma NoDup_map_inj (f : A -> B) (l : list A) (x y : A) :
  NoDup (map f l) -> x ∈ l -> y ∈ l -> f x = f y -> x = y.
Proof.
  induction l as [|z l IH]; cbn [map]; [by intros _ ?%elem_of_nil|].
  intros [Hz Hl]%NoDup_cons [->|Hx]%elem_of_cons [->|Hy]%elem_of_cons Heq; [done|..].
  - destruct Hz. rewrite Heq. by apply elem_of_map_2.
  - destruct Hz. rewrite <- Heq. by apply elem_of_map_2.
  - by apply IH.
Qed.

Context (P Q : A -> Prop) `{!forall x, Decision (P x), !forall x, Decision (Q x)}.

Lemma NoDup_map_filter (f : A -> B) (l : list A) : NoDup (map f l) -> NoDup (map f (filter P l)).
Proof.
  induction l as [|x l IH]; [done|]. intros [Hx Hl]%NoDup_cons. rewrite filter_cons.
  destruct (decide (P x)); [|auto]. cbn [map]. apply NoDup_cons. split; [|auto].
  intros (y & Hy & [_ Hin]%list_elem_of_filter)%elem_of_map. apply Hx. rewrite <- Hy. by apply elem_of_map_2.
Qed.

Lemma filter_all (l : list A) : (forall x, x ∈ l -> P x) -> filter P l = l.
Proof.
  induction l as [|x l IH]; intros Hl; [done|]. rewrite filter_cons_True by (apply Hl; by left).
  by rewrite IH by (intros y Hy; apply Hl; by right).
Qed.

Lemma filter_agree (l : list A) : (forall x, x ∈ l -> P x <-> Q x) -> filter P l = filter Q l.
Proof.
  induction l as [|x l IH]; intros Hl; [done|]. rewrite !filter_cons.
  assert (P x <-> Q x) by (apply Hl; by left). rewrite IH by (intros y Hy; apply Hl; by right).
  destruct (decide (P x)), (decide (Q x)); tauto.
Qed.

Lemma filter_twice (l : list A) : filter P (filter Q l) = filter (fun x => P x /\ Q x) l.
Proof.
  induction l as [|x l IH]; [done|]. rewrite !filter_cons. destruct (decide (Q x)); [rewrite filter_cons|];
    rewrite IH; destruct (decide (P x)), (decide (P x /\ Q x)); tauto.
Qed.

End Lists.

Lemma map_filter_comp {A B} (f : A -> B) (P : B -> Prop) `{!forall y, Decision (P y)} (l : list A) :
  map f (filter (fun x => P (f x)) l) = filter P (map f l).
Proof.
  induction l as [|x l IH]; [done|]. cbn [map]. rewrite !filter_cons.
  destruct (decide (P (f x))); cbn [map]; by rewrite IH.
Qed.
