(* ===== verification/Num.v ===== *)
(** * JavaScript numbers: IEEE-754 binary64

    ECMAScript's Number type, with the operators and the [Math] functions the
    dashboard code uses.  Arithmetic is the Standard Library's executable
    specification of floating point at precision 53 and maximal exponent 1024. *)

From stdpp Require Import base list strings.
From Stdlib Require Import ZArith Lia SpecFloat DecimalString Ascii.
From S2P Require Import Prelude.

Open Scope Z_scope.

(** ** Values *)

Abbreviation num := spec_float.
Definition prec : Z := 53.
Definition emax : Z := 1024.

Definition NaN : num := S754_nan.
Definition Infinity : num := S754_infinity false.
Definition neg_Infinity : num := S754_infinity true.
Definition n0 : num := S754_zero false.
Definition neg0 : num := S754_zero true.
Definition of_Z (z : Z) : num := binary_normalize prec emax z 0 false.

(** [n * 10^s], rounded to nearest even. *)
Definition dec_abs (sgn : bool) (n : Z) (s : Z) : num :=
  match n with
  | Zpos p =>
      match s with
      | Z0 => binary_round prec emax sgn p 0
      | Zpos _ => binary_round prec emax sgn (Z.to_pos (n * 10 ^ s)) 0
      | Zneg k =>
          let '(mz, ez, lz) := SFdiv_core_binary prec emax n 0 (10 ^ Zpos k) 0 in
          binary_round_aux prec emax sgn mz ez lz
      end
  | _ => S754_zero sgn
  end.

(** The numeric literal [n * 10^s] of a source text. *)
Definition lit (n s : Z) : num := dec_abs (n <? 0) (Z.abs n) s.

Definition MAX_VALUE : num := S754_finite false 9007199254740991 971.
Definition neg_MAX_VALUE : num := S754_finite true 9007199254740991 971.
Definition Math_PI : num := lit 3141592653589793 (-15).
Definition Math_LN10 : num := lit 2302585092994046 (-15).

Definition is_NaN (x : num) : bool := match x with S754_nan => true | _ => false end.
Definition is_finite (x : num) : bool :=
  match x with S754_zero _ | S754_finite _ _ _ => true | _ => false end.

(** ** Operators *)

Definition nadd : num -> num -> num := SFadd prec emax.
Definition nsub : num -> num -> num := SFsub prec emax.
Definition nmul : num -> num -> num := SFmul prec emax.
Definition ndiv : num -> num -> num := SFdiv prec emax.
Definition nneg : num -> num := SFopp.
Definition Math_abs : num -> num := SFabs.
Definition Math_sqrt : num -> num := SFsqrt prec emax.

Definition neq (x y : num) : bool := SFeqb x y.
Definition nlt (x y : num) : bool := SFltb x y.
Definition nle (x y : num) : bool := SFleb x y.
Definition ngt (x y : num) : bool := SFltb y x.
Definition nge (x y : num) : bool := SFleb y x.

Declare Scope num_scope.
Delimit Scope num_scope with num.
Infix "+" := nadd : num_scope.
Infix "-" := nsub : num_scope.
Infix "*" := nmul : num_scope.
Infix "/" := ndiv : num_scope.
Infix "==" := neq (at level 70) : num_scope.
Infix "<" := nlt : num_scope.
Infix "<=" := nle : num_scope.
Infix ">" := ngt : num_scope.
Infix ">=" := nge : num_scope.
Bind Scope num_scope with spec_float.

(** [x / 2^-e] as an integer part: the floor of [m * 2^e]. *)
Definition floor_Z (s : bool) (m : positive) (e : Z) : Z :=
  let v := cond_Zopp s (Zpos m) in
  if 0 <=? e then v * 2 ^ e else v / 2 ^ (- e).

(** An integer as a number, keeping the sign [s] on a zero result. *)
Definition signed_int (s : bool) (z : Z) : num :=
  if z =? 0 then S754_zero s else of_Z z.

Definition Math_floor (x : num) : num :=
  match x with
  | S754_finite s m e => signed_int false (floor_Z s m e)
  | _ => x
  end.

Definition Math_ceil (x : num) : num :=
  match x with
  | S754_finite s m e => signed_int s (- floor_Z (negb s) m e)
  | _ => x
  end.

(** [floor (x + 1/2)] computed exactly. *)
Definition round_Z (s : bool) (m : positive) (e : Z) : Z :=
  let v := cond_Zopp s (Zpos m) in
  if 0 <=? e then v * 2 ^ e else (2 * v + 2 ^ (- e)) / (2 * 2 ^ (- e)).

Definition Math_round (x : num) : num :=
  match x with
  | S754_finite s m e => signed_int s (round_Z s m e)
  | _ => x
  end.

Definition trunc_Z (s : bool) (m : positive) (e : Z) : Z :=
  cond_Zopp s (floor_Z false m e).

(** The binary [Math.max] and [Math.min]: NaN is absorbing, [+0 > -0]. *)
Definition Math_max (x y : num) : num :=
  if is_NaN x || is_NaN y then NaN
  else match x, y with
       | S754_zero sx, S754_zero sy => S754_zero (sx && sy)
       | _, _ => if nlt x y then y else x
       end.

Definition Math_min (x y : num) : num :=
  if is_NaN x || is_NaN y then NaN
  else match x, y with
       | S754_zero sx, S754_zero sy => S754_zero (sx || sy)
       | _, _ => if nlt y x then y else x
       end.

(** [Math.max.apply(Math, l)] *)
Definition Math_max_list (l : list num) : num := fold_left Math_max l neg_Infinity.
Definition Math_min_list (l : list num) : num := fold_left Math_min l Infinity.

(** The remainder operator [%]: exact, with the sign of the dividend. *)
Definition nrem (x y : num) : num :=
  match x, y with
  | S754_nan, _ | _, S754_nan => NaN
  | S754_infinity _, _ => NaN
  | _, S754_zero _ => NaN
  | _, S754_infinity _ => x
  | S754_zero _, _ => x
  | S754_finite sx mx ex, S754_finite _ my ey =>
      let e := Z.min ex ey in
      let r := (Zpos mx * 2 ^ (ex - e)) mod (Zpos my * 2 ^ (ey - e)) in
      match r with
      | Zpos p => binary_round prec emax sx p e
      | _ => S754_zero sx
      end
  end.

(** ** The implementation-approximated functions of [Math]

    ECMAScript leaves their results to the implementation; the model takes
    them as an interface. *)
Class MathLib : Type := {
  Math_log : num -> num;
  Math_pow : num -> num -> num;
  Math_sin : num -> num;
  Math_cos : num -> num;
  Math_asin : num -> num;
  Math_acos : num -> num
}.

(** The values ECMAScript does prescribe, as far as the code relies on them. *)
Class MathLaws (M : MathLib) : Prop := {
  pow_zero : forall x s, Math_pow x (S754_zero s) = of_Z 1;
  sin_zero : forall s, Math_sin (S754_zero s) = S754_zero s;
  cos_zero : forall s, Math_cos (S754_zero s) = of_Z 1;
  log_one : Math_log (of_Z 1) = n0;
  log_zero : forall s, Math_log (S754_zero s) = neg_Infinity;
  asin_zero : forall s, Math_asin (S754_zero s) = S754_zero s;
  acos_one : Math_acos (of_Z 1) = n0
}.

(** ** Conversion to strings (Number::toString, radix 10) *)

Definition string_of_Z_abs (n : Z) : string :=
  NilZero.string_of_uint (N.to_uint (Z.abs_N n)).

Fixpoint string_repeat (c : Ascii.ascii) (n : nat) : string :=
  match n with
  | O => EmptyString
  | S k => String c (string_repeat c k)
  end.

Definition zeros (n : Z) : string := string_repeat "0"%char (Z.to_nat n).

(** [floor (m * 2^e / 10^s)] *)
Definition scaled_floor (m : positive) (e s : Z) : Z :=
  (Zpos m * 2 ^ Z.max e 0 * 10 ^ Z.max (- s) 0) / (2 ^ Z.max (- e) 0 * 10 ^ Z.max s 0).

(** The decimal exponent [E] with [10^E <= m * 2^e < 10^(E+1)]. *)
Definition exponent10 (m : positive) (e : Z) : Z :=
  let g := ((Z.log2 (Zpos m) + e) * 301029995663) / 10 ^ 12 in
  if 1 <=? scaled_floor m e (g + 1) then g + 1
  else if 1 <=? scaled_floor m e g then g else g - 1.

Definition reads_back (x : num) (n s : Z) : bool :=
  bool_decide (SFcompare (dec_abs false n s) x = Some Eq).

(** The shortest [k]-digit decimal that reads back as [m * 2^e], closest to it:
    its digits as an integer, and its decimal scale. *)
Fixpoint shortest (fuel : nat) (m : positive) (e E k : Z) : Z * Z :=
  let s := E - k + 1 in
  let lo := scaled_floor m e s in
  match fuel with
  | O => (lo, s)
  | S f =>
      let x := S754_finite false m e in
      let below := reads_back x lo s in
      let above := reads_back x (lo + 1) s in
      if below && above then
        (if 2 * lo + 1 <=? scaled_floor (m * 2) e s then (lo + 1, s) else (lo, s))
      else if below then (lo, s)
      else if above then (lo + 1, s)
      else shortest f m e E (k + 1)
  end.

Definition split_at (n : Z) (s : string) : string * string :=
  (String.substring 0 (Z.to_nat n) s,
   String.substring (Z.to_nat n) (String.length s) s).

Definition decimal_notation (digits : string) (pos : Z) : string :=
  let k := Z.of_nat (String.length digits) in
  if (k <=? pos) && (pos <=? 21) then (digits ++ zeros (pos - k))%string
  else if (0 <? pos) && (pos <=? 21) then
    let '(a, b) := split_at pos digits in (a ++ "." ++ b)%string
  else if (-6 <? pos) && (pos <=? 0) then ("0." ++ zeros (- pos) ++ digits)%string
  else
    let ex := pos - 1 in
    let es := ((if (ex <? 0)%Z then "-" else "+") ++ string_of_Z_abs ex)%string in
    if k =? 1 then (digits ++ "e" ++ es)%string
    else let '(a, b) := split_at 1 digits in (a ++ "." ++ b ++ "e" ++ es)%string.

(** A carry in [shortest] leaves trailing zeros, which belong to the scale. *)
Fixpoint strip_zeros (fuel : nat) (n s : Z) : Z * Z :=
  match fuel with
  | O => (n, s)
  | S f => if (n mod 10 =? 0) && (0 <? n) then strip_zeros f (n / 10) (s + 1) else (n, s)
  end.

Definition num_to_string (x : num) : string :=
  match x with
  | S754_nan => "NaN"
  | S754_zero _ => "0"
  | S754_infinity s => if s then "-Infinity" else "Infinity"
  | S754_finite s m e =>
      let '(n, sc) := shortest 17 m e (exponent10 m e) 1 in
      let '(n, sc) := strip_zeros 17 n sc in
      let digits := string_of_Z_abs n in
      let k := Z.of_nat (String.length digits) in
      ((if s then "-" else "") ++ decimal_notation digits (sc + k))%string
  end.

(** [x.toFixed(f)]: [f] decimals, rounding halves up; outside of the range
    [0..100] it throws, and from 10^21 on it falls back to [toString]. *)
Definition to_fixed (x : num) (f : Z) : res string :=
  if (f <? 0) || (100 <? f) then Throw RangeError
  else match x with
       | S754_finite s m e =>
           if nge (Math_abs x) (lit 1 21) then Ok (num_to_string x)
           else
             let n := round_Z false (Z.to_pos (Zpos m * 10 ^ f)) e in
             let ds := string_of_Z_abs n in
             let ds := (zeros (f + 1 - Z.of_nat (String.length ds)) ++ ds)%string in
             let '(a, b) := split_at (Z.of_nat (String.length ds) - f) ds in
             Ok ((if s then "-" else "") ++ (if (f =? 0)%Z then a else a ++ "." ++ b))%string
       | S754_zero _ =>
           Ok (if (f =? 0)%Z then "0" else "0." ++ zeros f)%string
       | _ => Ok (num_to_string x)
       end.

(** ** Conversion from strings *)

Definition digit_of (c : ascii) : option Z :=
  let n := Z.of_nat (nat_of_ascii c) - 48 in
  if (0 <=? n) && (n <=? 9) then Some n else None.

Definition is_space (c : ascii) : bool :=
  let n := nat_of_ascii c in
  bool_decide (n = 32 \/ n = 9 \/ n = 10 \/ n = 11 \/ n = 12 \/ n = 13 \/ n = 160)%nat.

Fixpoint trim_left (s : string) : string :=
  match s with
  | String c r => if is_space c then trim_left r else s
  | EmptyString => s
  end.

Fixpoint string_rev_app (s acc : string) : string :=
  match s with
  | EmptyString => acc
  | String c r => string_rev_app r (String c acc)
  end.
Definition string_rev (s : string) : string := string_rev_app s "".

(** [String.prototype.trim] *)
Definition trim (s : string) : string :=
  string_rev (trim_left (string_rev (trim_left s))).

(** The value and the number of the leading digits, and what follows them. *)
Fixpoint take_digits (s : string) (acc cnt : Z) : Z * Z * string :=
  match s with
  | String c r =>
      match digit_of c with
      | Some d => take_digits r (10 * acc + d) (cnt + 1)
      | None => (acc, cnt, s)
      end
  | EmptyString => (acc, cnt, s)
  end.

Definition take_sign (s : string) : bool * string :=
  match s with
  | String "-"%char r => (true, r)
  | String "+"%char r => (false, r)
  | _ => (false, s)
  end.

Fixpoint starts_with (p s : string) : option string :=
  match p, s with
  | EmptyString, _ => Some s
  | String a p', String b s' => if Ascii.eqb a b then starts_with p' s' else None
  | _, EmptyString => None
  end.

Definition take_exponent (s : string) : Z * string :=
  match s with
  | String ("e" | "E")%char r =>
      let '(neg, r1) := take_sign r in
      let '(v, c, r2) := take_digits r1 0 0 in
      if c =? 0 then (0, s) else ((if neg then - v else v), r2)
  | _ => (0, s)
  end.

(** The longest prefix that is a StrDecimalLiteral. *)
Definition decimal_prefix (s : string) : option (num * string) :=
  let '(neg, s1) := take_sign s in
  match starts_with "Infinity" s1 with
  | Some r => Some (S754_infinity neg, r)
  | None =>
      let '(v, c, s2) := take_digits s1 0 0 in
      let '(v', c', s3) :=
        match s2 with
        | String "."%char r =>
            let '(v', c', s3) := take_digits r v 0 in
            if (c =? 0) && (c' =? 0) then (v, 0, s2) else (v', c', s3)
        | _ => (v, 0, s2)
        end in
      if (c =? 0) && (c' =? 0) then None
      else let '(ex, s4) := take_exponent s3 in
           Some (dec_abs neg v' (ex - c'), s4)
  end.

(** StringToNumber, without the hexadecimal, octal and binary notations. *)
Definition string_to_num (s : string) : num :=
  match trim s with
  | EmptyString => n0
  | t => match decimal_prefix t with
         | Some (x, EmptyString) => x
         | _ => NaN
         end
  end.

Definition parseFloat_string (s : string) : num :=
  match decimal_prefix (trim_left s) with
  | Some (x, _) => x
  | None => NaN
  end.

(** [parseInt] without a radix, for the decimal notation. *)
Definition parseInt_string (s : string) : num :=
  let '(neg, s1) := take_sign (trim_left s) in
  let '(v, c, _) := take_digits s1 0 0 in
  if c =? 0 then NaN else dec_abs neg v 0.
