(* ===== verification/Binary64.v ===== *)
(** * The arithmetic of binary64 numbers, over the reals

    Numbers of the model are read as real numbers ([B2X]); every operator rounds
    its exact result ([rounds]).  Rounding is monotone and keeps representable
    bounds, which is what the theorems on scales, offsets and loops need. *)

From stdpp Require Import base list.
From Stdlib Require Import ZArith Lia SpecFloat Reals Lra.
From S2P Require Import Prelude Num.

Open Scope R_scope.

(** ** Powers of two *)

Definition bpow (e : Z) : R := powerRZ 2 e.

Lemma bpow_pos (e : Z) : 0 < bpow e.
Proof. apply powerRZ_lt. lra. Qed.

Lemma bpow_plus (a b : Z) : bpow (a + b) = bpow a * bpow b.
Proof. apply powerRZ_add. lra. Qed.

Lemma bpow_0 : bpow 0 = 1.
Proof. done. Qed.

Lemma bpow_1 : bpow 1 = 2.
Proof. unfold bpow. simpl. lra. Qed.

Lemma bpow_m1 : bpow (-1) = / 2.
Proof. unfold bpow. simpl. by rewrite Rmult_1_r. Qed.

Lemma bpow_opp (e : Z) : bpow (- e) * bpow e = 1.
Proof. rewrite <- bpow_plus. by replace (- e + e)%Z with 0%Z by lia. Qed.

Lemma IZR_pow2 (n : Z) : (0 <= n)%Z -> IZR (2 ^ n) = bpow n.
Proof.
  intros Hn. rewrite <- (Z2Nat.id n) by done. unfold bpow.
  rewrite <- pow_powerRZ. by rewrite <- pow_IZR.
Qed.

Lemma bpow_le (a b : Z) : (a <= b)%Z -> bpow a <= bpow b.
Proof.
  intros Hab. replace b with (a + (b - a))%Z by lia. rewrite bpow_plus.
  rewrite <- (IZR_pow2 (b - a)) by lia.
  assert (1 <= IZR (2 ^ (b - a))) by (apply IZR_le; pose proof (Z.pow_pos_nonneg 2 (b - a)); lia).
  pose proof (bpow_pos a). nra.
Qed.

Lemma bpow_lt (a b : Z) : (a < b)%Z -> bpow a < bpow b.
Proof.
  intros Hab. apply Rlt_le_trans with (bpow (a + 1)); [|apply bpow_le; lia].
  rewrite bpow_plus, bpow_1. pose proof (bpow_pos a). lra.
Qed.

(** ** Integers next to a real number *)

(** [l] tells where [y] lies between the integers [m] and [m + 1]. *)
Definition between (m : Z) (l : location) (y : R) : Prop :=
  match l with
  | loc_Exact => y = IZR m
  | loc_Inexact Lt => IZR m < y < IZR m + / 2
  | loc_Inexact Eq => y = IZR m + / 2
  | loc_Inexact Gt => IZR m + / 2 < y < IZR m + 1
  end.

(** [q] is the integer nearest to [y], the even one of two. *)
Definition nearest (y : R) (q : Z) : Prop :=
  IZR q - / 2 <= y <= IZR q + / 2 /\
  (y = IZR q - / 2 \/ y = IZR q + / 2 -> Z.even q = true).

Lemma round_nearest_even_nearest (m : Z) (l : location) (y : R) :
  between m l y -> nearest y (round_nearest_even m l).
Proof.
  unfold between, nearest, round_nearest_even.
  destruct l as [|[| |]]; intros Hy.
  - split; [lra|]. intros [|]; lra.
  - destruct (Z.even m) eqn:Hm.
    + split; [lra|]. done.
    + rewrite plus_IZR. split; [lra|]. intros _.
      rewrite Z.add_1_r, Z.even_succ, <- Z.negb_even, Hm. done.
  - split; [lra|]. intros [|]; lra.
  - rewrite plus_IZR. split; [lra|]. intros [|]; lra.
Qed.

Lemma nearest_mono (y y' : R) (q q' : Z) : nearest y q -> nearest y' q' -> y <= y' -> (q <= q')%Z.
Proof.
  intros [Hy He] [Hy' He'] Hle. destruct (Z_le_gt_dec q q') as [|Hgt]; [done|exfalso].
  assert (IZR q' + 1 <= IZR q) by (rewrite <- plus_IZR; apply IZR_le; lia).
  assert (Hq : IZR q = IZR (q' + 1)) by (rewrite plus_IZR; lra).
  apply eq_IZR in Hq. subst q. rewrite plus_IZR in *.
  assert (Z.even q' = true) by (apply He'; lra).
  assert (Z.even (q' + 1) = true) by (apply He; lra).
  rewrite Z.add_1_r, Z.even_succ, <- Z.negb_even in *. by destruct (Z.even q').
Qed.

Lemma nearest_int (k : Z) : nearest (IZR k) k.
Proof. split; [lra|]. intros [|]; lra. Qed.

(** ** Shifting right *)

Definition record_between (mrs : shr_record) (y : R) : Prop :=
  (0 <= shr_m mrs)%Z /\ between (shr_m mrs) (loc_of_shr_record mrs) y.

Lemma shr_record_of_loc_between (m : Z) (l : location) (y : R) :
  (0 <= m)%Z -> between m l y -> record_between (shr_record_of_loc m l) y.
Proof. intros Hm Hy. split; by destruct l as [|[| |]]. Qed.

Lemma IZR_xI (p : positive) : IZR (Zpos p~1) = 2 * IZR (Zpos p) + 1.
Proof. by rewrite Pos2Z.inj_xI, plus_IZR, mult_IZR. Qed.

Lemma IZR_xO (p : positive) : IZR (Zpos p~0) = 2 * IZR (Zpos p).
Proof. by rewrite Pos2Z.inj_xO, mult_IZR. Qed.

Lemma shr_1_between (mrs : shr_record) (y : R) :
  record_between mrs y -> record_between (shr_1 mrs) (y / 2).
Proof.
  destruct mrs as [m r s]. intros [Hm Hy]. unfold record_between, between in *.
  cbn [shr_m] in Hm, Hy.
  destruct m as [|[p|p|]|p]; [| | | |lia]; cbn [shr_1 shr_m]; (split; [lia|]);
    destruct r, s; cbn [loc_of_shr_record orb shr_m] in *;
    try rewrite (IZR_xI p) in Hy; try rewrite (IZR_xO p) in Hy; clear Hm; lra.
Qed.

Lemma iter_shr_1_between (n : positive) (mrs : shr_record) (y : R) :
  record_between mrs y -> record_between (SpecFloat.iter_pos shr_1 n mrs) (y * bpow (- Zpos n)).
Proof.
  revert mrs y. induction n as [n IH|n IH|]; intros mrs y Hy; cbn [SpecFloat.iter_pos].
  - apply shr_1_between, IH, IH in Hy.
    replace (- Zpos n~1)%Z with (-1 + - Zpos n + - Zpos n)%Z by lia.
    rewrite !bpow_plus, bpow_m1, <- !Rmult_assoc. exact Hy.
  - apply IH, IH in Hy.
    replace (- Zpos n~0)%Z with (- Zpos n + - Zpos n)%Z by lia.
    by rewrite bpow_plus, <- Rmult_assoc.
  - apply shr_1_between in Hy. change (- (1))%Z with (-1)%Z. by rewrite bpow_m1.
Qed.

(** ** Digits and exponents *)

Lemma digits2_pos_log2 (p : positive) : Zpos (digits2_pos p) = (Z.log2 (Zpos p) + 1)%Z.
Proof.
  induction p as [p IH|p IH|]; cbn [digits2_pos]; [| |done].
  - rewrite Pos2Z.inj_succ, IH, Pos2Z.inj_xI, Z.log2_succ_double; lia.
  - rewrite Pos2Z.inj_succ, IH, Pos2Z.inj_xO, Z.log2_double; lia.
Qed.

Lemma Zdigits2_bounds (m : Z) : (0 < m)%Z -> (2 ^ (Zdigits2 m - 1) <= m < 2 ^ Zdigits2 m)%Z.
Proof.
  intros Hm. destruct m as [|p|p]; [lia| |lia]. cbn [Zdigits2].
  rewrite digits2_pos_log2. pose proof (Z.log2_spec (Zpos p) ltac:(lia)).
  replace (Z.log2 (Zpos p) + 1 - 1)%Z with (Z.log2 (Zpos p)) by lia. by rewrite Z.add_1_r.
Qed.

Lemma Zdigits2_le (m n : Z) : (0 <= m)%Z -> (m < 2 ^ n)%Z -> (0 <= n)%Z -> (Zdigits2 m <= n)%Z.
Proof.
  intros Hm Hlt Hn. destruct (decide (m = 0%Z)) as [->|]; [done|].
  pose proof (Zdigits2_bounds m ltac:(lia)). 
  destruct (Z_le_gt_dec (Zdigits2 m) n) as [|Hgt]; [done|exfalso].
  pose proof (Z.pow_le_mono_r 2 n (Zdigits2 m - 1) ltac:(lia) ltac:(lia)). lia.
Qed.

Lemma Zdigits2_ge (m n : Z) : (2 ^ (n - 1) <= m)%Z -> (1 <= n)%Z -> (n <= Zdigits2 m)%Z.
Proof.
  intros Hle Hn. assert (0 < m)%Z by (pose proof (Z.pow_pos_nonneg 2 (n - 1)); lia).
  pose proof (Zdigits2_bounds m ltac:(lia)).
  destruct (Z_le_gt_dec n (Zdigits2 m)) as [|Hgt]; [done|exfalso].
  pose proof (Z.pow_le_mono_r 2 (Zdigits2 m) (n - 1) ltac:(lia) ltac:(lia)). lia.
Qed.

Abbreviation fexp64 := (fexp prec emax).
Definition emin64 : Z := (-1074)%Z.

Lemma fexp64_eq (e : Z) : fexp64 e = Z.max (e - 53) emin64.
Proof. done. Qed.

(** ** Rounding a non-negative real *)

(** [e] is the exponent of the last place of numbers as large as [x]. *)
Definition last_place (x : R) (e : Z) : Prop :=
  (emin64 <= e)%Z /\ x < bpow (e + 53) /\ (e = emin64 \/ bpow (e + 52) <= x).

(** [v] is [x] rounded to 53 digits, the exponent being unbounded above. *)
Definition round_abs (x v : R) : Prop :=
  exists q e, last_place x e /\ nearest (x * bpow (- e)) q /\ (0 <= q <= 2 ^ 53)%Z /\ v = IZR q * bpow e.

(** A non-negative number of 53 digits. *)
Definition representable (f : R) : Prop :=
  exists M g, (0 <= M <= 2 ^ 53)%Z /\ (emin64 <= g)%Z /\ f = IZR M * bpow g.

Lemma scaled_le (x y : R) (e : Z) : x <= y <-> x * bpow e <= y * bpow e.
Proof. pose proof (bpow_pos e). split; nra. Qed.

Lemma scaled_back (x : R) (e : Z) : x * bpow (- e) * bpow e = x.
Proof. rewrite Rmult_assoc, bpow_opp. lra. Qed.

Lemma bpow_shift (x : R) (a b : Z) : bpow a <= x <-> bpow (a + b) <= x * bpow b.
Proof. rewrite bpow_plus. apply scaled_le. Qed.

Lemma round_abs_le (x v f : R) : round_abs x v -> representable f -> x <= f -> v <= f.
Proof.
  intros (q & e & (Hmin & Hup & Hlow) & Hq & Hrange & ->) (M & g & HM & Hg & ->) Hle.
  apply (scaled_le _ _ (- e)) in Hle. apply (scaled_le _ _ (- e)). rewrite Rmult_assoc, <- bpow_plus.
  replace (e + - e)%Z with 0%Z by lia. rewrite bpow_0, Rmult_1_r.
  destruct (Z_le_gt_dec e g) as [Heg|Heg].
  - rewrite (Rmult_assoc (IZR M)), <- bpow_plus, <- (IZR_pow2 (g + - e)), <- mult_IZR in Hle |- * by lia.
    apply IZR_le. eapply nearest_mono; [exact Hq|apply nearest_int|done].
  - destruct Hlow as [->|Hlow]; [lia|].
    assert (HMg : IZR M * bpow g * bpow (- e) <= bpow 52).
    { rewrite Rmult_assoc, <- bpow_plus.
      apply Rle_trans with (IZR (2 ^ 53) * bpow (g + - e)).
      - apply Rmult_le_compat_r; [apply Rlt_le, bpow_pos|apply IZR_le, HM].
      - rewrite (IZR_pow2 53), <- bpow_plus by lia. apply bpow_le. lia. }
    rewrite (bpow_shift _ _ (- e)) in Hlow. replace (e + 52 + - e)%Z with 52%Z in Hlow by lia.
    rewrite <- (IZR_pow2 52) in Hlow, HMg by lia.
    apply Rle_trans with (IZR (2 ^ 52)); [|lra].
    apply IZR_le. eapply nearest_mono; [exact Hq|apply nearest_int|lra].
Qed.

Lemma round_abs_ge (x v f : R) : round_abs x v -> representable f -> f <= x -> f <= v.
Proof.
  intros (q & e & (Hmin & Hup & Hlow) & Hq & Hrange & ->) (M & g & HM & Hg & ->) Hle.
  apply (scaled_le _ _ (- e)) in Hle. apply (scaled_le _ _ (- e)). rewrite (Rmult_assoc (IZR q)), <- bpow_plus.
  replace (e + - e)%Z with 0%Z by lia. rewrite bpow_0, Rmult_1_r.
  destruct (Z_le_gt_dec e g) as [Heg|Heg].
  - rewrite (Rmult_assoc (IZR M)), <- bpow_plus, <- (IZR_pow2 (g + - e)), <- mult_IZR in Hle |- * by lia.
    apply IZR_le. eapply nearest_mono; [apply nearest_int|exact Hq|done].
  - destruct Hlow as [->|Hlow]; [lia|].
    assert (HMg : IZR M * bpow g * bpow (- e) <= bpow 52).
    { rewrite Rmult_assoc, <- bpow_plus.
      apply Rle_trans with (IZR (2 ^ 53) * bpow (g + - e)).
      - apply Rmult_le_compat_r; [apply Rlt_le, bpow_pos|apply IZR_le, HM].
      - rewrite (IZR_pow2 53), <- bpow_plus by lia. apply bpow_le. lia. }
    rewrite (bpow_shift _ _ (- e)) in Hlow. replace (e + 52 + - e)%Z with 52%Z in Hlow by lia.
    rewrite <- (IZR_pow2 52) in Hlow, HMg by lia.
    apply Rle_trans with (IZR (2 ^ 52)); [lra|].
    apply IZR_le. eapply nearest_mono; [apply nearest_int|exact Hq|lra].
Qed.

Lemma representable_bpow (e : Z) : (emin64 <= e)%Z -> representable (bpow e).
Proof. intros He. exists 1%Z, e. split; [lia|]. split; [done|]. lra. Qed.

Lemma round_abs_mono (x x' v v' : R) : round_abs x v -> round_abs x' v' -> x <= x' -> v <= v'.
Proof.
  intros Hv Hv' Hle.
  pose proof Hv as (q & e & (Hmin & Hup & Hlow) & Hq & _ & Hveq).
  pose proof Hv' as (q' & e' & (Hmin' & Hup' & Hlow') & Hq' & _ & Hveq').
  destruct (Z.lt_trichotomy e e') as [Hlt|[->|Hgt]].
  - destruct Hlow' as [->|Hlow']; [lia|].
    assert (bpow (e + 53) <= bpow (e' + 52)) by (apply bpow_le; lia).
    assert (representable (bpow (e' + 52))) by (apply representable_bpow; lia).
    apply Rle_trans with (bpow (e' + 52)); [eapply round_abs_le|eapply round_abs_ge]; eauto. lra.
  - subst v v'. apply Rmult_le_compat_r; [apply Rlt_le, bpow_pos|].
    apply IZR_le. eapply nearest_mono; [exact Hq|exact Hq'|]. by apply scaled_le.
  - destruct Hlow as [->|Hlow]; [lia|].
    assert (bpow (e' + 53) <= bpow (e + 52)) by (apply bpow_le; lia). lra.
Qed.

Lemma round_abs_exact (x v : R) : round_abs x v -> representable x -> v = x.
Proof.
  intros Hv Hx. apply Rle_antisym; [eapply round_abs_le|eapply round_abs_ge]; eauto; lra.
Qed.

(** ** Numbers as reals *)

Definition valid (x : num) : bool := valid_binary prec emax x.

(** The first power of two beyond all finite numbers. *)
Definition big : R := bpow 1024.
Definition sgn (s : bool) : R := if s then -1 else 1.

Lemma big_pos : 0 < big.
Proof. apply bpow_pos. Qed.

(** The infinities lie at [big] and [- big]; NaN has no place and stands at 0. *)
Definition B2X (x : num) : R :=
  match x with
  | S754_finite s m e => sgn s * (IZR (Zpos m) * bpow e)
  | S754_infinity s => sgn s * big
  | _ => 0
  end.

Lemma bounded_spec (m : positive) (e : Z) :
  SpecFloat.bounded prec emax m e = true <->
  (emin64 <= e <= 971 /\ Zpos m < 2 ^ 53 /\ (e = emin64 \/ 2 ^ 52 <= Zpos m))%Z.
Proof.
  unfold SpecFloat.bounded, canonical_mantissa. rewrite andb_true_iff, Z.eqb_eq, Z.leb_le, fexp64_eq.
  change (emax - prec)%Z with 971%Z. change (Zpos (digits2_pos m)) with (Zdigits2 (Zpos m)).
  pose proof (Zdigits2_bounds (Zpos m) ltac:(lia)) as Hb. split.
  - intros [Heq Hle]. split; [lia|]. split.
    + apply Z.lt_le_trans with (2 ^ Zdigits2 (Zpos m))%Z; [lia|]. apply Z.pow_le_mono_r; lia.
    + destruct (decide (e = emin64)) as [|Hne]; [by left|right].
      replace 52%Z with (Zdigits2 (Zpos m) - 1)%Z by lia. lia.
  - intros (He & Hm & Hn). split; [|lia].
    pose proof (Zdigits2_le (Zpos m) 53 ltac:(lia) ltac:(lia) ltac:(lia)).
    destruct Hn as [->|Hn]; [lia|].
    pose proof (Zdigits2_ge (Zpos m) 53 ltac:(lia) ltac:(lia)). lia.
Qed.

(** ** [binary_round_aux] rounds *)

Lemma between_bounds (m : Z) (l : location) (y : R) : between m l y -> IZR m <= y < IZR m + 1.
Proof. unfold between. destruct l as [|[| |]]; lra. Qed.

Lemma between_int (m k : Z) (l : location) : between m l (IZR k) -> m = k.
Proof.
  intros Hb%between_bounds. rewrite <- plus_IZR in Hb.
  destruct Hb as [H1%le_IZR H2%lt_IZR]. lia.
Qed.

Lemma shr_fexp_between (m e : Z) (l : location) (x : R) :
  (0 <= m)%Z -> between m l (x * bpow (- e)) ->
  record_between (shr_fexp prec emax m e l).1
    (x * bpow (- Z.max e (fexp64 (Zdigits2 m + e)))) /\
  (shr_fexp prec emax m e l).2 = Z.max e (fexp64 (Zdigits2 m + e)).
Proof.
  intros Hm Hb. unfold shr_fexp. apply shr_record_of_loc_between in Hb; [|done].
  set (f := fexp64 (Zdigits2 m + e)). destruct (f - e)%Z as [|p|p] eqn:Hd; cbn [shr fst snd].
  - replace (Z.max e f) with e by lia. done.
  - replace (Z.max e f) with (e + Zpos p)%Z by lia. split; [|done].
    replace (- (e + Zpos p))%Z with (- e + - Zpos p)%Z by lia.
    rewrite bpow_plus, <- Rmult_assoc. by apply iter_shr_1_between.
  - replace (Z.max e f) with e by lia. done.
Qed.

Lemma last_place_of (m e : Z) (l : location) (x : R) :
  (0 <= m)%Z -> between m l (x * bpow (- e)) -> (e <= fexp64 (Zdigits2 m + e))%Z ->
  last_place x (fexp64 (Zdigits2 m + e)).
Proof.
  intros Hm Hb%between_bounds He. rewrite fexp64_eq in He |- *. unfold last_place.
  split; [lia|].
  assert (Hx : IZR m * bpow e <= x < (IZR m + 1) * bpow e).
  { rewrite <- (scaled_back x e). pose proof (bpow_pos e). split; nra. }
  destruct (decide (m = 0%Z)) as [->|Hm0].
  - cbn [Zdigits2] in *. rewrite Z.add_0_l in *.
    assert (e <= emin64)%Z by lia. replace (Z.max (e - 53) emin64) with emin64 by lia.
    split; [|by left]. apply Rlt_le_trans with (bpow e); [lra|]. apply bpow_le. lia.
  - pose proof (Zdigits2_bounds m ltac:(lia)) as [Hlo Hhi].
    assert (0 < Zdigits2 m)%Z by (destruct m; cbn; lia).
    assert (Hup : x < bpow (Zdigits2 m + e)).
    { rewrite bpow_plus, <- IZR_pow2 by lia.
      assert (IZR m + 1 <= IZR (2 ^ Zdigits2 m)) by (rewrite <- plus_IZR; apply IZR_le; lia).
      pose proof (bpow_pos e). nra. }
    assert (Hdown : bpow (Zdigits2 m - 1 + e) <= x).
    { rewrite bpow_plus, <- IZR_pow2 by lia. apply IZR_le in Hlo. pose proof (bpow_pos e). nra. }
    split.
    + apply Rlt_le_trans with (bpow (Zdigits2 m + e)); [done|]. apply bpow_le. lia.
    + destruct (Z_le_gt_dec (Zdigits2 m + e - 53) emin64); [left; lia|right].
      eapply Rle_trans; [|exact Hdown]. apply bpow_le. lia.
Qed.

Lemma last_place_nearest (x : R) (e q : Z) :
  0 <= x -> last_place x e -> nearest (x * bpow (- e)) q ->
  (0 <= q <= 2 ^ 53)%Z /\ (e = emin64 \/ 2 ^ 52 <= q)%Z.
Proof.
  intros Hx (Hmin & Hup & Hlow) Hq. pose proof (bpow_pos (- e)). split; [split|].
  - eapply nearest_mono; [apply nearest_int|exact Hq|nra].
  - eapply nearest_mono; [exact Hq|apply nearest_int|]. rewrite IZR_pow2 by lia.
    replace 53%Z with (e + 53 + - e)%Z by lia. rewrite bpow_plus. nra.
  - destruct Hlow as [|Hlow]; [by left|right].
    eapply nearest_mono; [apply nearest_int|exact Hq|]. rewrite IZR_pow2 by lia.
    replace 52%Z with (e + 52 + - e)%Z by lia. rewrite bpow_plus. nra.
Qed.

(** The second normalisation of [binary_round_aux]: [k] is [q], or [q / 2]
    after a carry. *)
Lemma renormalised (q e : Z) :
  (0 <= q <= 2 ^ 53)%Z -> (emin64 <= e)%Z -> (e = emin64 \/ 2 ^ 52 <= q)%Z ->
  exists k e', shr_m (shr_fexp prec emax q e loc_Exact).1 = k /\
    (shr_fexp prec emax q e loc_Exact).2 = e' /\ IZR k * bpow e' = IZR q * bpow e /\
    (0 <= k < 2 ^ 53)%Z /\ (emin64 <= e')%Z /\ (e' = emin64 \/ 2 ^ 52 <= k)%Z.
Proof.
  intros Hq He Hn.
  assert (Hb : between q loc_Exact (IZR q * bpow e * bpow (- e))).
  { cbn. rewrite Rmult_assoc, <- bpow_plus. replace (e + - e)%Z with 0%Z by lia. rewrite bpow_0. lra. }
  apply shr_fexp_between in Hb as [[_ Hb] Heq]; [|lia]. rewrite fexp64_eq in Hb, Heq.
  destruct (decide (q = 2 ^ 53)%Z) as [->|Hne].
  - change (Zdigits2 (2 ^ 53)) with 54%Z in *. exists (2 ^ 52)%Z, (e + 1)%Z.
    replace (Z.max e (Z.max (54 + e - 53) emin64)) with (e + 1)%Z in * by lia.
    assert (Hk : IZR (2 ^ 53) * bpow e * bpow (- (e + 1)) = IZR (2 ^ 52)).
    { rewrite Rmult_assoc, <- bpow_plus. replace (e + - (e + 1))%Z with (-1)%Z by lia.
      rewrite !IZR_pow2, <- bpow_plus by lia. done. }
    rewrite Hk in Hb. apply between_int in Hb. split; [done|]. split; [done|]. split; [|lia].
    rewrite !IZR_pow2, <- !bpow_plus by lia. f_equal. lia.
  - pose proof (Zdigits2_le q 53 ltac:(lia) ltac:(lia) ltac:(lia)).
    replace (Z.max e (Z.max (Zdigits2 q + e - 53) emin64)) with e in * by lia.
    exists q, e. rewrite Rmult_assoc, <- bpow_plus in Hb.
    replace (e + - e)%Z with 0%Z in Hb by lia. rewrite bpow_0, Rmult_1_r in Hb.
    apply between_int in Hb. repeat split; lia || done.
Qed.

Lemma binary_round_aux_rounds (s : bool) (m e : Z) (l : location) (x : R) :
  (0 <= m)%Z -> 0 <= x -> between m l (x * bpow (- e)) -> (e <= fexp64 (Zdigits2 m + e))%Z ->
  let r := binary_round_aux prec emax s m e l in
  exists v, valid r = true /\ is_NaN r = false /\ round_abs x v /\ B2X r = sgn s * Rmin v big.
Proof.
  intros Hm Hx Hb He. unfold binary_round_aux.
  pose proof (last_place_of m e l x Hm Hb He) as Hlast.
  pose proof (shr_fexp_between m e l x Hm Hb) as [[Hm' Hb'] He'].
  replace (Z.max e (fexp64 (Zdigits2 m + e))) with (fexp64 (Zdigits2 m + e)) in * by lia.
  destruct (shr_fexp prec emax m e l) as [mrs' e']. cbn [fst snd] in *. subst e'.
  set (e' := fexp64 (Zdigits2 m + e)) in *. clearbody e'.
  apply round_nearest_even_nearest in Hb'.
  set (q := round_nearest_even (shr_m mrs') (loc_of_shr_record mrs')) in *. clearbody q.
  destruct (last_place_nearest x e' q Hx Hlast Hb') as [Hq Hn].
  assert (Hround : round_abs x (IZR q * bpow e')) by (exists q, e'; auto).
  destruct (renormalised q e' Hq ltac:(apply Hlast) Hn) as (k & e'' & Hk & He'' & Hv & Hk53 & Hmin & Hn').
  destruct (shr_fexp prec emax q e' loc_Exact) as [mrs'' e3]. cbn [fst snd] in *. subst e3.
  rewrite Hk. exists (IZR q * bpow e'). rewrite <- Hv in *. change (emax - prec)%Z with 971%Z.
  destruct k as [|k|k]; [| |lia].
  - split; [done|]. split; [done|]. split; [done|]. cbn [B2X].
    rewrite Rmult_0_l, Rmin_left; [lra|]. apply Rlt_le, big_pos.
  - destruct (Z.leb_spec e'' 971).
    + split; [apply bounded_spec; lia|]. split; [done|]. split; [done|].
      rewrite Rmin_left; [done|]. apply Rle_trans with (IZR (2 ^ 53) * bpow 971).
      * apply Rmult_le_compat; [apply IZR_le; lia|apply Rlt_le, bpow_pos|apply IZR_le; lia|apply bpow_le; lia].
      * rewrite IZR_pow2, <- bpow_plus by lia. by right.
    + destruct Hn' as [->|Hn']; [unfold emin64 in *; lia|].
      split; [done|]. split; [done|]. split; [done|].
      rewrite Rmin_right; [done|]. unfold big. apply Rle_trans with (IZR (2 ^ 52) * bpow 972).
      * rewrite IZR_pow2, <- bpow_plus by lia. by right.
      * apply Rmult_le_compat; [apply IZR_le; lia|apply Rlt_le, bpow_pos|apply IZR_le; lia|apply bpow_le; lia].
Qed.

(** ** Rounding of signed reals *)

Definition rounds (x : R) (r : num) : Prop :=
  valid r = true /\ is_NaN r = false /\
  exists v, round_abs (Rabs x) v /\
    (0 <= x -> B2X r = Rmin v big) /\ (x <= 0 -> B2X r = - Rmin v big).

(** The reals the rounding of which is exact. *)
Definition exact (f : R) : Prop := representable (Rabs f) /\ Rabs f <= big.

Lemma round_abs_nonneg (x v : R) : round_abs x v -> 0 <= v.
Proof.
  intros (q & e & _ & _ & [Hq _] & ->). apply IZR_le in Hq. pose proof (bpow_pos e). nra.
Qed.

Lemma exact_0 : exact 0.
Proof.
  unfold exact. rewrite Rabs_R0. split; [|apply Rlt_le, big_pos].
  exists 0%Z, 0%Z. split; [lia|]. split; [done|]. lra.
Qed.

Lemma round_abs_0 (v : R) : round_abs 0 v -> v = 0.
Proof.
  intros Hv. apply (round_abs_exact _ _ Hv). pose proof exact_0 as [H0 _].
  by rewrite Rabs_R0 in H0.
Qed.

Lemma binary_round_aux_signed (s : bool) (m e : Z) (l : location) (x : R) :
  (0 <= m)%Z -> 0 <= x -> between m l (x * bpow (- e)) -> (e <= fexp64 (Zdigits2 m + e))%Z ->
  rounds (sgn s * x) (binary_round_aux prec emax s m e l).
Proof.
  intros Hm Hx Hb He.
  destruct (binary_round_aux_rounds s m e l x Hm Hx Hb He) as (v & Hval & Hnan & Hround & Hr).
  split; [done|]. split; [done|]. exists v.
  assert (Habs : Rabs (sgn s * x) = x).
  { unfold sgn. destruct s; [|rewrite Rmult_1_l; by apply Rabs_pos_eq].
    rewrite <- Rabs_Ropp. replace (- (-1 * x)) with x by lra. by apply Rabs_pos_eq. }
  rewrite Habs. split; [done|]. rewrite Hr.
  assert (Hzero : x = 0 -> Rmin v big = 0).
  { intros ->. rewrite (round_abs_0 _ Hround). apply Rmin_left, Rlt_le, big_pos. }
  unfold sgn. destruct s; split; intros H0; try lra; rewrite Hzero; lra.
Qed.

Lemma rounds_le (x f : R) (r : num) : rounds x r -> exact f -> x <= f -> B2X r <= f.
Proof.
  intros (_ & _ & v & Hv & Hpos & Hneg) [Hf Hbig] Hle.
  pose proof (round_abs_nonneg _ _ Hv). pose proof big_pos.
  destruct (Rle_lt_dec 0 x) as [Hx|Hx].
  - rewrite Hpos by done. eapply Rle_trans; [apply Rmin_l|].
    rewrite Rabs_pos_eq in Hv, Hf by lra. by eapply round_abs_le.
  - rewrite Hneg by lra. destruct (Rle_lt_dec 0 f) as [Hf0|Hf0].
    + assert (0 <= Rmin v big) by (apply Rmin_glb; lra). lra.
    + rewrite Rabs_left in Hf, Hbig by done. rewrite Rabs_left in Hv by done.
      assert (- f <= Rmin v big); [|lra].
      apply Rmin_glb; [|done]. eapply round_abs_ge; eauto. lra.
Qed.

Lemma rounds_ge (x f : R) (r : num) : rounds x r -> exact f -> f <= x -> f <= B2X r.
Proof.
  intros (_ & _ & v & Hv & Hpos & Hneg) [Hf Hbig] Hle.
  pose proof (round_abs_nonneg _ _ Hv). pose proof big_pos.
  destruct (Rle_lt_dec x 0) as [Hx|Hx].
  - rewrite Hneg by done. rewrite Rabs_left1 in Hv, Hf by lra.
    apply Ropp_le_cancel. rewrite Ropp_involutive. eapply Rle_trans; [apply Rmin_l|].
    eapply round_abs_le; eauto. lra.
  - rewrite Hpos by lra. destruct (Rle_lt_dec f 0) as [Hf0|Hf0].
    + assert (0 <= Rmin v big) by (apply Rmin_glb; lra). lra.
    + rewrite Rabs_pos_eq in Hf, Hbig by lra. rewrite Rabs_pos_eq in Hv by lra.
      apply Rmin_glb; [|done]. by eapply round_abs_ge.
Qed.

Lemma Rmin_mono (a b c : R) : a <= b -> Rmin a c <= Rmin b c.
Proof. intros. apply Rmin_glb; [eapply Rle_trans; [apply Rmin_l|done]|apply Rmin_r]. Qed.

Lemma rounds_mono (x x' : R) (r r' : num) : rounds x r -> rounds x' r' -> x <= x' -> B2X r <= B2X r'.
Proof.
  intros Hr Hr' Hle. destruct (Rle_lt_dec 0 x) as [Hx|Hx]; [|destruct (Rle_lt_dec 0 x') as [Hx'|Hx']].
  - destruct Hr as (_ & _ & v & Hv & Hpos & _), Hr' as (_ & _ & v' & Hv' & Hpos' & _).
    rewrite Hpos, Hpos' by lra. rewrite Rabs_pos_eq in Hv, Hv' by lra.
    apply Rmin_mono. by eapply round_abs_mono.
  - apply Rle_trans with 0; [eapply rounds_le|eapply rounds_ge]; eauto using exact_0; lra.
  - destruct Hr as (_ & _ & v & Hv & _ & Hneg), Hr' as (_ & _ & v' & Hv' & _ & Hneg').
    rewrite Hneg, Hneg' by lra. rewrite Rabs_left in Hv, Hv' by lra.
    apply Ropp_le_contravar, Rmin_mono. eapply round_abs_mono; eauto. lra.
Qed.

Lemma rounds_exact (x : R) (r : num) : rounds x r -> exact x -> B2X r = x.
Proof. intros Hr Hx. apply Rle_antisym; [eapply rounds_le|eapply rounds_ge]; eauto; lra. Qed.

(** ** The order *)

Lemma finite_bounds (s : bool) (m : positive) (e : Z) :
  valid (S754_finite s m e) = true ->
  0 < IZR (Zpos m) * bpow e < big /\ exact (B2X (S754_finite s m e)).
Proof.
  intros (He & Hm & _)%bounded_spec.
  assert (0 < IZR (Zpos m)) by (apply IZR_lt; lia). pose proof (bpow_pos e).
  assert (Hlt : IZR (Zpos m) * bpow e < big).
  { apply Rlt_le_trans with (IZR (2 ^ 53) * bpow e).
    - apply Rmult_lt_compat_r; [done|]. by apply IZR_lt.
    - rewrite IZR_pow2, <- bpow_plus by lia. apply bpow_le. lia. }
  split; [split; [nra|done]|].
  assert (Habs : Rabs (B2X (S754_finite s m e)) = IZR (Zpos m) * bpow e).
  { cbn [B2X]. unfold sgn. destruct s.
    - rewrite Rabs_left; nra.
    - rewrite Rmult_1_l, Rabs_pos_eq; nra. }
  unfold exact. rewrite Habs. split; [|lra]. exists (Zpos m), e. split; [lia|]. split; [lia|done].
Qed.

Lemma valid_exact (x : num) : valid x = true -> exact (B2X x).
Proof.
  destruct x as [s|s| |s m e]; intros Hv; try apply exact_0; [|by apply finite_bounds].
  unfold exact. replace (Rabs (B2X (S754_infinity s))) with big.
  - split; [|lra]. by apply representable_bpow.
  - pose proof big_pos. cbn [B2X]. unfold sgn. destruct s; [rewrite Rabs_left|rewrite Rabs_pos_eq]; lra.
Qed.

(** The order of two positive finite numbers. *)
Lemma compare_finite (m1 m2 : positive) (e1 e2 : Z) :
  SpecFloat.bounded prec emax m1 e1 = true -> SpecFloat.bounded prec emax m2 e2 = true ->
  match SFcompare (S754_finite false m1 e1) (S754_finite false m2 e2) with
  | Some Lt => IZR (Zpos m1) * bpow e1 < IZR (Zpos m2) * bpow e2
  | Some Eq => m1 = m2 /\ e1 = e2
  | Some Gt => IZR (Zpos m1) * bpow e1 > IZR (Zpos m2) * bpow e2
  | None => False
  end.
Proof.
  assert (Hlt : forall m1 e1 m2 e2, SpecFloat.bounded prec emax m1 e1 = true ->
    SpecFloat.bounded prec emax m2 e2 = true -> (e1 < e2)%Z ->
    IZR (Zpos m1) * bpow e1 < IZR (Zpos m2) * bpow e2).
  { clear. intros m1 e1 m2 e2 (He1 & Hm1 & _)%bounded_spec (He2 & Hm2 & Hn)%bounded_spec Hlt.
    destruct Hn as [->|Hn]; [lia|]. apply Rlt_le_trans with (IZR (2 ^ 53) * bpow e1).
    - apply Rmult_lt_compat_r; [apply bpow_pos|by apply IZR_lt].
    - apply Rle_trans with (IZR (2 ^ 52) * bpow e2).
      + rewrite !IZR_pow2, <- !bpow_plus by lia. apply bpow_le. lia.
      + apply Rmult_le_compat_r; [apply Rlt_le, bpow_pos|by apply IZR_le]. }
  intros H1 H2. cbn [SFcompare]. destruct (Z.compare_spec e1 e2) as [->|Hc|Hc].
  - change (Pos.compare_cont Eq m1 m2) with (m1 ?= m2)%positive. pose proof (bpow_pos e2).
    destruct (Pos.compare_spec m1 m2) as [->|Hm|Hm]; [done| |].
    + apply Rmult_lt_compat_r; [done|]. apply IZR_lt. lia.
    + apply Rmult_lt_compat_r; [done|]. apply IZR_lt. lia.
  - by apply Hlt.
  - by apply Hlt.
Qed.

(** Comparing numbers compares the reals; [x = y] up to the sign of zero. *)
Lemma SFcompare_B2X (x y : num) :
  valid x = true -> valid y = true -> is_NaN x = false -> is_NaN y = false ->
  match SFcompare x y with
  | Some Lt => B2X x < B2X y
  | Some Eq => B2X x = B2X y /\ (x = y \/ B2X x = 0)
  | Some Gt => B2X x > B2X y
  | None => False
  end.
Proof.
  intros Hx Hy Nx Ny. pose proof big_pos.
  destruct x as [s|s| |s m e], y as [s'|s'| |s' m' e']; try done;
    try (pose proof (finite_bounds _ _ _ Hx) as [Bx _]); try (pose proof (finite_bounds _ _ _ Hy) as [By _]).
  all: cbn [SFcompare B2X]; unfold sgn.
  all: repeat match goal with b : bool |- _ => destruct b end.
  all: try (first [lra | split; [lra|auto]]; fail).
  all: pose proof (compare_finite m m' e e' Hx Hy) as Hc; cbn [SFcompare] in Hc.
  all: destruct (e ?= e')%Z; try lra.
  all: change (PosDef.Pos.compare_cont Eq m m') with (Pos.compare_cont Eq m m') in *.
  all: destruct (Pos.compare_cont Eq m m'); cbn [CompOpp]; try lra.
  all: destruct Hc as [-> ->]; auto.
Qed.

(** The numbers other than NaN. *)
Definition ordered (x : num) : Prop := valid x = true /\ is_NaN x = false.

Lemma nle_spec (x y : num) : ordered x -> ordered y -> (nle x y = true <-> B2X x <= B2X y).
Proof.
  intros [Vx Nx] [Vy Ny]. pose proof (SFcompare_B2X x y Vx Vy Nx Ny) as Hc.
  unfold nle, SFleb. destruct (SFcompare x y) as [[| |]|]; [| | |done]; split; try done; lra.
Qed.

Lemma nlt_spec (x y : num) : ordered x -> ordered y -> (nlt x y = true <-> B2X x < B2X y).
Proof.
  intros [Vx Nx] [Vy Ny]. pose proof (SFcompare_B2X x y Vx Vy Nx Ny) as Hc.
  unfold nlt, SFltb. destruct (SFcompare x y) as [[| |]|]; [| | |done]; split; try done; lra.
Qed.

Lemma neq_spec (x y : num) : ordered x -> ordered y -> (neq x y = true <-> B2X x = B2X y).
Proof.
  intros [Vx Nx] [Vy Ny]. pose proof (SFcompare_B2X x y Vx Vy Nx Ny) as Hc.
  unfold neq, SFeqb. destruct (SFcompare x y) as [[| |]|]; [| | |done]; split; try done; try lra.
Qed.

(** Numbers that are not zero are equal when their values are. *)
Lemma B2X_inj (x y : num) : ordered x -> ordered y -> B2X x = B2X y -> B2X x <> 0 -> x = y.
Proof.
  intros [Vx Nx] [Vy Ny] Heq Hne. pose proof (SFcompare_B2X x y Vx Vy Nx Ny) as Hc.
  destruct (SFcompare x y) as [[| |]|]; [| | |done]; try lra. destruct Hc as [_ [|]]; done.
Qed.

Lemma rounds_ordered (x : R) (r : num) : rounds x r -> ordered r.
Proof. intros (? & ? & _). by split. Qed.

(** ** The operators round *)

Lemma Pos_iter_xO (m d : positive) : Zpos (Pos.iter xO m d) = (Zpos m * 2 ^ Zpos d)%Z.
Proof.
  revert m. induction d as [|d IH] using Pos.peano_ind; intros m; [cbn; lia|].
  rewrite Pos.iter_succ, Pos2Z.inj_xO, IH, Pos2Z.inj_succ, Z.pow_succ_r; lia.
Qed.

Lemma shl_align_value (m : positive) (e e' : Z) :
  let r := shl_align m e e' in
  r.2 = Z.min e e' /\ Zpos r.1 = (Zpos m * 2 ^ (e - Z.min e e'))%Z.
Proof.
  unfold shl_align. destruct (e' - e)%Z as [|d|d] eqn:Hd; cbn [fst snd].
  - replace (Z.min e e') with e by lia. rewrite Z.sub_diag. lia.
  - replace (Z.min e e') with e by lia. rewrite Z.sub_diag. lia.
  - replace (Z.min e e') with e' by lia. split; [done|].
    rewrite Pos_iter_xO. do 2 f_equal. lia.
Qed.

Lemma shl_align_real (m : positive) (e e' : Z) :
  let r := shl_align m e e' in IZR (Zpos r.1) * bpow r.2 = IZR (Zpos m) * bpow e.
Proof.
  pose proof (shl_align_value m e e') as [H2 H1]. cbn. rewrite H2, H1, mult_IZR, IZR_pow2 by lia.
  rewrite Rmult_assoc, <- bpow_plus. do 2 f_equal. lia.
Qed.

Lemma Zdigits2_shift (m : positive) (n : Z) :
  (0 <= n)%Z -> Zdigits2 (Zpos m * 2 ^ n) = (Zdigits2 (Zpos m) + n)%Z.
Proof.
  intros Hn. assert (0 < 2 ^ n)%Z by (by apply Z.pow_pos_nonneg).
  destruct (Zpos m * 2 ^ n)%Z as [|p|p] eqn:Hp; [lia| |lia]. cbn [Zdigits2].
  rewrite !digits2_pos_log2, <- Hp, Z.log2_mul_pow2; lia.
Qed.

Lemma exact_location (m e : Z) : between m loc_Exact (IZR m * bpow e * bpow (- e)).
Proof.
  cbn. rewrite Rmult_assoc, <- bpow_plus. replace (e + - e)%Z with 0%Z by lia. rewrite bpow_0. lra.
Qed.

Lemma binary_round_rounds (s : bool) (m : positive) (e : Z) :
  rounds (sgn s * (IZR (Zpos m) * bpow e)) (binary_round prec emax s m e).
Proof.
  unfold binary_round. set (f := fexp64 (Zpos (digits2_pos m) + e)).
  pose proof (shl_align_value m e f) as [H2 H1]. pose proof (shl_align_real m e f) as Hv.
  destruct (shl_align m e f) as [m' e']. cbn [fst snd] in *. rewrite <- Hv.
  apply binary_round_aux_signed; [lia| |apply exact_location|].
  - apply Rmult_le_pos; [by apply IZR_le|apply Rlt_le, bpow_pos].
  - rewrite H1, Zdigits2_shift by lia.
    replace (Zdigits2 (Zpos m) + (e - Z.min e f) + e')%Z with (Zpos (digits2_pos m) + e)%Z
      by (cbn [Zdigits2]; lia). fold f. lia.
Qed.

Lemma rounds_0 (s : bool) : rounds 0 (S754_zero s).
Proof.
  split; [done|]. split; [done|]. exists 0. rewrite Rabs_R0, Rmin_left by apply Rlt_le, big_pos.
  split; [|cbn; split; lra]. exists 0%Z, emin64. split.
  - split; [lia|]. split; [apply bpow_pos|by left].
  - split; [|split; [lia|lra]]. rewrite Rmult_0_l. apply nearest_int.
Qed.

Lemma binary_normalize_rounds (m e : Z) (s : bool) :
  rounds (IZR m * bpow e) (binary_normalize prec emax m e s).
Proof.
  destruct m as [|m|m]; cbn [binary_normalize].
  - rewrite Rmult_0_l. apply rounds_0.
  - pose proof (binary_round_rounds false m e) as H. by rewrite Rmult_1_l in H.
  - pose proof (binary_round_rounds true m e) as H. cbn [sgn] in H.
    by replace (IZR (Zneg m) * bpow e) with (-1 * (IZR (Zpos m) * bpow e))
      by (change (Zneg m) with (- Zpos m)%Z; rewrite opp_IZR; lra).
Qed.

Lemma of_Z_rounds (z : Z) : rounds (IZR z) (of_Z z).
Proof.
  pose proof (binary_normalize_rounds z 0 false) as H. by rewrite bpow_0, Rmult_1_r in H.
Qed.

(** A finite number is its own rounding. *)
Lemma rounds_self (x : num) : valid x = true -> is_finite x = true -> rounds (B2X x) x.
Proof.
  destruct x as [s|s| |s m e]; try done; intros Hv _; [apply rounds_0|].
  pose proof (finite_bounds s m e Hv) as [Hb _].
  split; [done|]. split; [done|]. exists (IZR (Zpos m) * bpow e).
  assert (Habs : Rabs (B2X (S754_finite s m e)) = IZR (Zpos m) * bpow e).
  { cbn [B2X]. unfold sgn. destruct s; [rewrite Rabs_left|rewrite Rabs_pos_eq]; lra. }
  rewrite Habs, Rmin_left by lra. split; [|cbn [B2X]; unfold sgn; destruct s; split; lra].
  apply bounded_spec in Hv as (He & Hm & Hn). exists (Zpos m), e.
  split; [|split; [|split; [lia|done]]].
  - split; [lia|]. split.
    + replace (e + 53)%Z with (53 + e)%Z by lia. rewrite bpow_plus, <- (IZR_pow2 53) by lia.
      apply Rmult_lt_compat_r; [apply bpow_pos|by apply IZR_lt].
    + destruct Hn as [|Hn]; [by left|right].
      replace (e + 52)%Z with (52 + e)%Z by lia. rewrite bpow_plus, <- (IZR_pow2 52) by lia.
      apply Rmult_le_compat_r; [apply Rlt_le, bpow_pos|by apply IZR_le].
  - replace (IZR (Zpos m) * bpow e * bpow (- e)) with (IZR (Zpos m)); [apply nearest_int|].
    symmetry. apply (exact_location (Zpos m) e).
Qed.

Lemma finite_ordered (x : num) : valid x = true -> is_finite x = true -> ordered x.
Proof. destruct x; split; done. Qed.

Lemma nadd_rounds (x y : num) :
  valid x = true -> valid y = true -> is_finite x = true -> is_finite y = true ->
  rounds (B2X x + B2X y) (nadd x y).
Proof.
  intros Vx Vy Fx Fy. pose proof (rounds_self x Vx Fx) as Rx. pose proof (rounds_self y Vy Fy) as Ry.
  destruct x as [s|s| |s m e], y as [s'|s'| |s' m' e']; try done; unfold nadd; cbn [SFadd].
  - cbn [B2X]. rewrite Rplus_0_r. destruct s, s'; apply rounds_0.
  - cbn [B2X] in *. by rewrite Rplus_0_l.
  - cbn [B2X] in *. by rewrite Rplus_0_r.
  - pose proof (shl_align_real m e (Z.min e e')) as H1. pose proof (shl_align_value m e (Z.min e e')) as [E1 _].
    pose proof (shl_align_real m' e' (Z.min e e')) as H2. pose proof (shl_align_value m' e' (Z.min e e')) as [E2 _].
    cbn zeta in *. rewrite E1 in H1. rewrite E2 in H2.
    replace (Z.min e (Z.min e e')) with (Z.min e e') in H1 by lia.
    replace (Z.min e' (Z.min e e')) with (Z.min e e') in H2 by lia.
    cbn [B2X]. rewrite <- H1, <- H2.
    set (a := (shl_align m e _).1). set (b := (shl_align m' e' _).1).
    replace (sgn s * _ + sgn s' * _)
      with (IZR (cond_Zopp s (Zpos a) + cond_Zopp s' (Zpos b)) * bpow (Z.min e e'));
      [apply binary_normalize_rounds|].
    rewrite plus_IZR. unfold cond_Zopp, sgn. destruct s, s'; rewrite ?opp_IZR; lra.
Qed.

Lemma nneg_B2X (x : num) : B2X (nneg x) = - B2X x.
Proof. destruct x as [s|s| |s m e]; cbn; unfold sgn; try destruct s; cbn [negb]; lra. Qed.

Lemma nneg_valid (x : num) : valid (nneg x) = valid x.
Proof. by destruct x. Qed.

Lemma nneg_finite (x : num) : is_finite (nneg x) = is_finite x.
Proof. by destruct x. Qed.

(** Subtraction adds the opposite, except that [0 - 0] keeps its sign. *)
Lemma nsub_rounds (x y : num) :
  valid x = true -> valid y = true -> is_finite x = true -> is_finite y = true ->
  rounds (B2X x - B2X y) (nsub x y).
Proof.
  intros Vx Vy Fx Fy. rewrite <- nneg_valid in Vy. rewrite <- nneg_finite in Fy.
  pose proof (nadd_rounds x (nneg y) Vx Vy Fx Fy) as H. rewrite nneg_B2X in H.
  replace (nsub x y) with (nadd x (nneg y)); [done|].
  destruct x as [s|s| |s m e], y as [s'|s'| |s' m' e']; try done; unfold nadd, nsub, nneg;
    cbn [SFadd SFsub SFopp]; [by destruct s, s'|].
  f_equal. unfold cond_Zopp. destruct s'; cbn [negb]; lia.
Qed.

Lemma product_exponent (m m' : positive) (e e' : Z) :
  SpecFloat.bounded prec emax m e = true -> SpecFloat.bounded prec emax m' e' = true ->
  (e + e' <= fexp64 (Zdigits2 (Zpos (m * m')) + (e + e')))%Z.
Proof.
  intros (He & Hm & Hn)%bounded_spec (He' & Hm' & Hn')%bounded_spec. rewrite fexp64_eq.
  destruct (decide (e = emin64 /\ e' = emin64)) as [[-> ->]|Hne]; [unfold emin64; lia|].
  assert (2 ^ 52 <= Zpos (m * m'))%Z by (rewrite Pos2Z.inj_mul; nia).
  pose proof (Zdigits2_ge (Zpos (m * m')) 53 ltac:(lia) ltac:(lia)). lia.
Qed.

Lemma sgn_xorb (s s' : bool) : sgn (xorb s s') = sgn s * sgn s'.
Proof. unfold sgn. destruct s, s'; cbn [xorb]; lra. Qed.

Lemma nmul_rounds (x y : num) :
  valid x = true -> valid y = true -> is_finite x = true -> is_finite y = true ->
  rounds (B2X x * B2X y) (nmul x y).
Proof.
  intros Vx Vy Fx Fy.
  destruct x as [s|s| |s m e], y as [s'|s'| |s' m' e']; try done; unfold nmul; cbn [SFmul B2X];
    rewrite ?Rmult_0_l, ?Rmult_0_r; try apply rounds_0.
  replace (sgn s * _ * _) with (sgn (xorb s s') * (IZR (Zpos (m * m')) * bpow (e + e'))).
  - apply binary_round_aux_signed; [lia| |apply exact_location|by apply product_exponent].
    apply Rmult_le_pos; [by apply IZR_le|apply Rlt_le, bpow_pos].
  - rewrite sgn_xorb, Pos2Z.inj_mul, mult_IZR, bpow_plus. ring.
Qed.

(** *** Division *)

Lemma new_location_eq (d k : Z) :
  new_location d k =
  if (k =? 0)%Z then loc_Exact
  else loc_Inexact (if Z.even d then (2 * k ?= d)%Z
                    else match (2 * k + 1 ?= d)%Z with Gt => Gt | _ => Lt end).
Proof. unfold new_location. destruct k; (destruct (Z.even d); [done|]); try done; cbn; by case_match. Qed.

Lemma new_location_between (q k d : Z) :
  (0 <= k < d)%Z -> between q (new_location d k) (IZR q + IZR k / IZR d).
Proof.
  intros Hk. assert (0 < IZR d) by (apply IZR_lt; lia).
  assert (Hdiv : forall a, IZR k / IZR d = a <-> IZR k = a * IZR d).
  { intros a. split; [intros <-; field; lra|intros ->; field; lra]. }
  assert (Hlt : forall a, IZR k / IZR d < a <-> IZR k < a * IZR d).
  { intros a. split; intros Ha.
    - apply (Rmult_lt_compat_r (IZR d)) in Ha; [|done]. by replace (IZR k / IZR d * IZR d) with (IZR k) in Ha by (field; lra).
    - apply Rmult_lt_reg_r with (IZR d); [done|]. by replace (IZR k / IZR d * IZR d) with (IZR k) by (field; lra). }
  assert (Hgt : forall a, a < IZR k / IZR d <-> a * IZR d < IZR k).
  { intros a. split; intros Ha.
    - apply (Rmult_lt_compat_r (IZR d)) in Ha; [|done]. by replace (IZR k / IZR d * IZR d) with (IZR k) in Ha by (field; lra).
    - apply Rmult_lt_reg_r with (IZR d); [done|]. by replace (IZR k / IZR d * IZR d) with (IZR k) by (field; lra). }
  assert (Hkd : IZR k < IZR d) by (apply IZR_lt; lia).
  rewrite new_location_eq. destruct (Z.eqb_spec k 0) as [->|Hk0].
  { unfold Rdiv. rewrite Rmult_0_l. cbn [between]. lra. }
  assert (Hpos : 0 < IZR k / IZR d) by (apply Hgt; rewrite Rmult_0_l; apply IZR_lt; lia).
  assert (Hone : IZR k / IZR d < 1) by (apply Hlt; lra).
  assert (Hhalf : forall c, (2 * k ?= d)%Z = c -> match c with
    | Eq => IZR k / IZR d = / 2 | Lt => IZR k / IZR d < / 2 | Gt => / 2 < IZR k / IZR d end).
  { intros c <-. destruct (Z.compare_spec (2 * k) d) as [He|Hl|Hg].
    - apply Hdiv. apply (f_equal IZR) in He. rewrite mult_IZR in He. lra.
    - apply Hlt. apply IZR_lt in Hl. rewrite mult_IZR in Hl. lra.
    - apply Hgt. apply IZR_lt in Hg. rewrite mult_IZR in Hg. lra. }
  specialize (Hhalf _ eq_refl). destruct (Z.even d) eqn:Hd; cbn [between].
  - destruct (2 * k ?= d)%Z; lra.
  - destruct (Z.compare_spec (2 * k + 1) d) as [He|Hl|Hg]; cbn [between].
    + replace (2 * k ?= d)%Z with Lt in Hhalf by (symmetry; apply Z.compare_lt_iff; lia). lra.
    + replace (2 * k ?= d)%Z with Lt in Hhalf by (symmetry; apply Z.compare_lt_iff; lia). lra.
    + replace (2 * k ?= d)%Z with Gt in Hhalf; [lra|].
      symmetry. apply Z.compare_gt_iff.
      destruct (decide (2 * k = d)%Z) as [<-|]; [by rewrite Z.even_mul in Hd|lia].
Qed.

(** The division of mantissas: a quotient with its location, at an exponent low
    enough to keep 53 digits. *)
Lemma SFdiv_core_spec (m m' : positive) (e e' : Z) :
  let '(q, f, l) := SFdiv_core_binary prec emax (Zpos m) e (Zpos m') e' in
  (0 <= q)%Z /\
  between q l (IZR (Zpos m) * bpow e / (IZR (Zpos m') * bpow e') * bpow (- f)) /\
  (f <= fexp64 (Zdigits2 q + f))%Z.
Proof.
  unfold SFdiv_core_binary.
  set (D := (Zdigits2 (Zpos m) + e - (Zdigits2 (Zpos m') + e'))%Z).
  set (f := Z.min (fexp64 D) (e - e')). assert (Hs : (0 <= e - e' - f)%Z) by lia.
  assert (Hm : match (e - e' - f)%Z with Z0 => Zpos m | Zpos _ => Z.shiftl (Zpos m) (e - e' - f)
                                       | Zneg _ => 0%Z end = (Zpos m * 2 ^ (e - e' - f))%Z).
  { rewrite <- Z.shiftl_mul_pow2 by done. by destruct (e - e' - f)%Z. }
  cbn zeta. rewrite Hm. clear Hm. set (M := (Zpos m * 2 ^ (e - e' - f))%Z).
  assert (HM : (0 <= M)%Z) by (unfold M; pose proof (Z.pow_nonneg 2 (e - e' - f)); nia).
  pose proof (Z_div_mod M (Zpos m') ltac:(lia)) as Hdiv.
  destruct (Z.div_eucl M (Zpos m')) as [q r]. destruct Hdiv as [HMq Hr].
  assert (Hq : (0 <= q)%Z) by nia. split; [done|]. split.
  - assert (0 < IZR (Zpos m')) by (apply IZR_lt; lia).
    replace (_ / _ * _) with (IZR q + IZR r / IZR (Zpos m')); [by apply new_location_between|].
    apply (f_equal IZR) in HMq. rewrite plus_IZR, mult_IZR in HMq. unfold M in HMq.
    rewrite mult_IZR, IZR_pow2 in HMq by done.
    replace (e - e' - f)%Z with (e + - e' + - f)%Z in HMq by lia. rewrite !bpow_plus in HMq.
    pose proof (bpow_pos e'). pose proof (bpow_opp e').
    apply Rmult_eq_reg_r with (IZR (Zpos m')); [|lra].
    transitivity (IZR (Zpos m') * IZR q + IZR r); [field; lra|]. rewrite <- HMq.
    apply Rmult_eq_reg_r with (bpow e'); [|lra].
    transitivity (IZR (Zpos m) * bpow e * bpow (- f) * (bpow (- e') * bpow e')); [ring|].
    rewrite H1. field. lra.
  - rewrite fexp64_eq. destruct (Z_le_gt_dec f emin64) as [|Hf]; [lia|].
    assert (HfD : (f <= D - 53)%Z) by (unfold f in *; rewrite fexp64_eq in *; lia).
    pose proof (Zdigits2_bounds (Zpos m) ltac:(lia)). pose proof (Zdigits2_bounds (Zpos m') ltac:(lia)).
    assert (2 ^ 52 <= q)%Z; [|pose proof (Zdigits2_ge q 53 ltac:(lia) ltac:(lia)); lia].
    assert (Hd : (0 < Zdigits2 (Zpos m) /\ 0 < Zdigits2 (Zpos m'))%Z) by (cbn [Zdigits2]; lia).
    assert (2 ^ (52 + Zdigits2 (Zpos m')) <= M)%Z.
    { apply Z.le_trans with (2 ^ (Zdigits2 (Zpos m) - 1) * 2 ^ (e - e' - f))%Z.
      - rewrite <- Z.pow_add_r by lia. apply Z.pow_le_mono_r; lia.
      - unfold M. apply Z.mul_le_mono_nonneg_r; [by apply Z.pow_nonneg|lia]. }
    rewrite Z.pow_add_r in * by lia. nia.
Qed.

Lemma ndiv_rounds (x y : num) :
  valid x = true -> valid y = true -> is_finite x = true -> is_finite y = true -> B2X y <> 0 ->
  rounds (B2X x / B2X y) (ndiv x y).
Proof.
  intros Vx Vy Fx Fy Hy.
  destruct x as [s|s| |s m e], y as [s'|s'| |s' m' e']; try done; unfold ndiv; cbn [SFdiv B2X] in *.
  - unfold Rdiv. rewrite Rmult_0_l. apply rounds_0.
  - pose proof (SFdiv_core_spec m m' e e') as Hcore.
    destruct (SFdiv_core_binary _ _ _ _ _ _) as [[q f] l]. destruct Hcore as (Hq & Hb & Hf).
    pose proof (finite_bounds _ _ _ Vx) as [Bx _]. pose proof (finite_bounds _ _ _ Vy) as [By _].
    replace (_ / _) with (sgn (xorb s s') * (IZR (Zpos m) * bpow e / (IZR (Zpos m') * bpow e'))).
    + apply binary_round_aux_signed; try done. apply Rlt_le, Rdiv_lt_0_compat; lra.
    + rewrite sgn_xorb. destruct By as [By _]. unfold sgn.
      assert (IZR (Zpos m') <> 0 /\ bpow e' <> 0) as [? ?] by (split; intros H0; rewrite H0 in By; lra).
      destruct s, s'; field; done.
Qed.

(** ** Integers *)

Lemma rounds_finite (x : R) (r : num) : rounds x r -> Rabs x < big -> is_finite r = true \/ big <= 2 * Rabs x.
Proof.
  intros Hr Hx. destruct (Rle_lt_dec big (2 * Rabs x)) as [|Hlt]; [by right|left].
  assert (Hh : exact (bpow 1023) /\ exact (- bpow 1023)).
  { pose proof (bpow_pos 1023). unfold exact. rewrite Rabs_Ropp, Rabs_pos_eq by lra.
    assert (bpow 1023 <= big) by (apply bpow_le; lia).
    assert (representable (bpow 1023)) by (by apply representable_bpow). auto. }
  assert (Hbig : big = 2 * bpow 1023).
  { unfold big. change 1024%Z with (1 + 1023)%Z. by rewrite bpow_plus, bpow_1. }
  pose proof (bpow_pos 1023).
  assert (Hup : B2X r <= bpow 1023) by (eapply rounds_le; [done|apply Hh|]; pose proof (Rle_abs x); lra).
  assert (Hlo : - bpow 1023 <= B2X r).
  { eapply rounds_ge; [done|apply Hh|]. pose proof (Rle_abs (- x)). rewrite Rabs_Ropp in *. lra. }
  destruct Hr as (_ & Hn & _). destruct r as [s|s| |s m e]; try done.
  cbn [B2X] in *. unfold sgn in *. destruct s; lra.
Qed.

Lemma rounds_small_finite (x : R) (r : num) : rounds x r -> Rabs x <= bpow 1000 -> is_finite r = true.
Proof.
  intros Hr Hx. assert (bpow 1000 < bpow 1023) by (apply bpow_lt; lia).
  assert (Hbig : big = 2 * bpow 1023).
  { unfold big. change 1024%Z with (1 + 1023)%Z. by rewrite bpow_plus, bpow_1. }
  pose proof (bpow_pos 1023). destruct (rounds_finite x r Hr); [lra|done|lra].
Qed.

(** The integers that are numbers: up to [2^53]. *)
Definition safe (z : Z) : Prop := (Z.abs z <= 2 ^ 53)%Z.

Lemma safe_exact (z : Z) : safe z -> exact (IZR z).
Proof.
  intros Hz. unfold exact. rewrite <- abs_IZR. split.
  - exists (Z.abs z), 0%Z. split; [split; [lia|done]|]. split; [done|]. rewrite bpow_0. lra.
  - apply Rle_trans with (IZR (2 ^ 53)); [by apply IZR_le|].
    rewrite IZR_pow2 by lia. apply bpow_le. lia.
Qed.

Lemma of_Z_B2X (z : Z) : safe z -> B2X (of_Z z) = IZR z.
Proof. intros Hz. apply rounds_exact; [apply of_Z_rounds|by apply safe_exact]. Qed.

Lemma of_Z_valid (z : Z) : valid (of_Z z) = true.
Proof. apply (of_Z_rounds z). Qed.

Lemma of_Z_ordered (z : Z) : ordered (of_Z z).
Proof. apply (rounds_ordered (IZR z)), of_Z_rounds. Qed.

Lemma of_Z_finite (z : Z) : safe z -> is_finite (of_Z z) = true.
Proof.
  intros Hz. apply (rounds_small_finite (IZR z)); [apply of_Z_rounds|].
  rewrite <- abs_IZR. apply Rle_trans with (IZR (2 ^ 53)); [by apply IZR_le|].
  rewrite IZR_pow2 by lia. apply bpow_le. lia.
Qed.

#[export] Hint Resolve of_Z_valid of_Z_ordered of_Z_finite : num.

Lemma nlt_of_Z (a b : Z) : safe a -> safe b -> nlt (of_Z a) (of_Z b) = (a <? b)%Z.
Proof.
  intros Ha Hb. apply eq_true_iff_eq.
  rewrite nlt_spec, !of_Z_B2X, Z.ltb_lt by auto with num. split; [apply lt_IZR|apply IZR_lt].
Qed.

Lemma nle_of_Z (a b : Z) : safe a -> safe b -> nle (of_Z a) (of_Z b) = (a <=? b)%Z.
Proof.
  intros Ha Hb. apply eq_true_iff_eq.
  rewrite nle_spec, !of_Z_B2X, Z.leb_le by auto with num. split; [apply le_IZR|apply IZR_le].
Qed.

Lemma neq_of_Z (a b : Z) : safe a -> safe b -> neq (of_Z a) (of_Z b) = (a =? b)%Z.
Proof.
  intros Ha Hb. apply eq_true_iff_eq.
  rewrite neq_spec, !of_Z_B2X, Z.eqb_eq by auto with num. split; [apply eq_IZR|by intros ->].
Qed.

(** A number whose value is a non-zero integer is that integer. *)
Lemma eq_of_Z (x : num) (z : Z) : ordered x -> safe z -> z <> 0%Z -> B2X x = IZR z -> x = of_Z z.
Proof.
  intros Hx Hz Hne Hv. apply B2X_inj; auto with num; rewrite Hv, ?of_Z_B2X by done; [done|].
  by apply not_0_IZR.
Qed.

Lemma nneg_of_Z (z : Z) : safe z -> z <> 0%Z -> nneg (of_Z z) = of_Z (- z).
Proof.
  intros Hz Hne. apply eq_of_Z; [|unfold safe in *; lia|lia|].
  - pose proof (of_Z_valid z) as Hv. pose proof (of_Z_ordered z) as [_ Hn].
    split; [by rewrite nneg_valid|by destruct (of_Z z)].
  - by rewrite nneg_B2X, of_Z_B2X, opp_IZR.
Qed.

Lemma nadd_nneg (x : num) : is_finite x = true -> x <> neg0 -> nadd x (nneg x) = n0.
Proof.
  destruct x as [[|]|s| |s m e]; try done. intros _ _. unfold nadd, nneg. cbn [SFopp SFadd].
  destruct s; cbn [negb cond_Zopp]; by rewrite ?Z.add_opp_diag_r, ?Z.add_opp_diag_l.
Qed.

Lemma nadd_of_Z (a b : Z) : safe a -> safe b -> safe (a + b) -> nadd (of_Z a) (of_Z b) = of_Z (a + b).
Proof.
  intros Ha Hb Hab. pose proof (nadd_rounds (of_Z a) (of_Z b)) as Hr.
  rewrite !of_Z_B2X, <- plus_IZR in Hr by done.
  specialize (Hr (of_Z_valid _) (of_Z_valid _) (of_Z_finite _ Ha) (of_Z_finite _ Hb)).
  destruct (decide (a + b = 0)%Z) as [H0|Hne].
  - replace b with (- a)%Z by lia. rewrite Z.add_opp_diag_r.
    destruct (decide (a = 0%Z)) as [->|Ha0]; [done|].
    rewrite <- nneg_of_Z by done. apply nadd_nneg; [auto with num|].
    intros Hz. pose proof (of_Z_B2X a Ha) as Hv. rewrite Hz in Hv. cbn in Hv.
    symmetry in Hv. by apply eq_IZR_R0 in Hv.
  - apply eq_of_Z; [by eapply rounds_ordered|done|done|].
    apply rounds_exact; [done|by apply safe_exact].
Qed.

Lemma nsub_nadd (x y : num) : is_finite x = true -> is_finite y = true -> nsub x y = nadd x (nneg y).
Proof.
  destruct x as [s|s| |s m e], y as [s'|s'| |s' m' e']; try done; intros _ _; unfold nadd, nsub, nneg;
    cbn [SFadd SFsub SFopp]; [by destruct s, s'|].
  f_equal. unfold cond_Zopp. destruct s'; cbn [negb]; lia.
Qed.

Lemma nsub_of_Z (a b : Z) : safe a -> safe b -> safe (a - b) -> nsub (of_Z a) (of_Z b) = of_Z (a - b).
Proof.
  intros Ha Hb Hab. destruct (decide (b = 0%Z)) as [->|Hne].
  - rewrite Z.sub_0_r. pose proof (of_Z_finite a Ha). destruct (decide (a = 0%Z)) as [->|Hne]; [done|].
    change (of_Z 0) with (S754_zero false).
    by destruct (of_Z a) as [[|]|s| |s m e].
  - rewrite nsub_nadd, nneg_of_Z by auto with num. apply nadd_of_Z; unfold safe in *; lia.
Qed.

Lemma nmul_of_Z (a b : Z) :
  safe a -> safe b -> safe (a * b) -> (a * b <> 0)%Z -> nmul (of_Z a) (of_Z b) = of_Z (a * b).
Proof.
  intros Ha Hb Hab Hne. pose proof (nmul_rounds (of_Z a) (of_Z b)) as Hr.
  rewrite !of_Z_B2X, <- mult_IZR in Hr by done.
  specialize (Hr (of_Z_valid _) (of_Z_valid _) (of_Z_finite _ Ha) (of_Z_finite _ Hb)).
  apply eq_of_Z; [by eapply rounds_ordered|done|done|].
  apply rounds_exact; [done|by apply safe_exact].
Qed.

Lemma nmul_of_Z_nonneg (a b : Z) :
  (0 <= a)%Z -> (0 <= b)%Z -> safe a -> safe b -> safe (a * b) -> nmul (of_Z a) (of_Z b) = of_Z (a * b).
Proof.
  intros H1 H2 Ha Hb Hab. destruct (decide (a * b = 0)%Z) as [H0|]; [|by apply nmul_of_Z].
  assert (Hz : forall z, (0 <= z)%Z -> safe z -> nmul n0 (of_Z z) = n0 /\ nmul (of_Z z) n0 = n0).
  { intros z Hpos Hz. destruct (decide (z = 0)%Z) as [->|Hne]; [done|].
    pose proof (of_Z_B2X z Hz) as Hv. pose proof (of_Z_finite z Hz) as Hf. pose proof (of_Z_valid z) as Hval.
    assert (Hlt : 0 < IZR z) by (apply IZR_lt; lia). rewrite <- Hv in Hlt.
    destruct (of_Z z) as [s|s| |[|] m e]; [cbn in Hlt; lra|done|done| |done].
    pose proof (finite_bounds true m e Hval) as [[Hp _] _]. cbn [B2X] in Hlt. unfold sgn in Hlt. lra. }
  rewrite H0. apply Z.mul_eq_0 in H0 as [-> | ->]; [by apply Hz|by apply Hz].
Qed.

(** ** Floors *)

Lemma pow2_opp_real (e : Z) : (e < 0)%Z -> IZR (2 ^ (- e)) * bpow e = 1.
Proof. intros He. rewrite IZR_pow2 by lia. apply bpow_opp. Qed.

Lemma div_bounds (a b : Z) : (0 < b)%Z -> (a / b * b <= a < (a / b + 1) * b)%Z.
Proof. intros Hb. pose proof (Z.div_mod a b ltac:(lia)). pose proof (Z.mod_pos_bound a b Hb). lia. Qed.

Lemma floor_Z_bounds (s : bool) (m : positive) (e : Z) :
  IZR (floor_Z s m e) <= B2X (S754_finite s m e) < IZR (floor_Z s m e) + 1.
Proof.
  unfold floor_Z. set (v := cond_Zopp s (Zpos m)).
  assert (Hv : B2X (S754_finite s m e) = IZR v * bpow e).
  { unfold v. cbn [B2X]. unfold sgn, cond_Zopp. destruct s; rewrite ?opp_IZR; lra. }
  rewrite Hv. destruct (Z.leb_spec 0 e) as [He|He].
  - rewrite mult_IZR, IZR_pow2 by done. lra.
  - pose proof (div_bounds v (2 ^ (- e)) ltac:(apply Z.pow_pos_nonneg; lia)) as [H1 H2].
    apply IZR_le in H1. apply IZR_lt in H2. rewrite mult_IZR in H1, H2. rewrite plus_IZR in H2.
    pose proof (pow2_opp_real e He). pose proof (bpow_pos e).
    set (k := IZR (v / 2 ^ (- e))) in *. set (p := IZR (2 ^ (- e))) in *. clearbody k p.
    apply (Rmult_le_compat_r (bpow e)) in H1; [|lra]. apply (Rmult_lt_compat_r (bpow e)) in H2; [|lra].
    rewrite Rmult_assoc in H1, H2. rewrite H in H1, H2. lra.
Qed.

Lemma round_Z_bounds (s : bool) (m : positive) (e : Z) :
  IZR (round_Z s m e) <= B2X (S754_finite s m e) + / 2 < IZR (round_Z s m e) + 1.
Proof.
  unfold round_Z. set (v := cond_Zopp s (Zpos m)).
  assert (Hv : B2X (S754_finite s m e) = IZR v * bpow e).
  { unfold v. cbn [B2X]. unfold sgn, cond_Zopp. destruct s; rewrite ?opp_IZR; lra. }
  rewrite Hv. destruct (Z.leb_spec 0 e) as [He|He].
  - rewrite mult_IZR, IZR_pow2 by done. lra.
  - assert (Hp : (0 < 2 ^ (- e))%Z) by (apply Z.pow_pos_nonneg; lia).
    pose proof (div_bounds (2 * v + 2 ^ (- e)) (2 * 2 ^ (- e)) ltac:(lia)) as [H1 H2].
    apply IZR_le in H1. apply IZR_lt in H2. rewrite !mult_IZR, plus_IZR, mult_IZR in H1, H2.
    rewrite plus_IZR in H2. pose proof (pow2_opp_real e He). pose proof (bpow_pos e).
    set (k := IZR (_ / _)) in *. set (p := IZR (2 ^ (- e))) in *. clearbody k p.
    apply (Rmult_le_compat_r (bpow e)) in H1; [|lra]. apply (Rmult_lt_compat_r (bpow e)) in H2; [|lra].
    replace (k * (2 * p) * bpow e) with (2 * k * (p * bpow e)) in H1 by ring.
    replace ((k + 1) * (2 * p) * bpow e) with (2 * (k + 1) * (p * bpow e)) in H2 by ring.
    replace ((2 * IZR v + p) * bpow e) with (2 * (IZR v * bpow e) + p * bpow e) in H1, H2 by ring.
    rewrite H in H1, H2. lra.
Qed.

Lemma signed_int_B2X (s : bool) (z : Z) : safe z -> B2X (signed_int s z) = IZR z.
Proof.
  intros Hz. unfold signed_int. destruct (Z.eqb_spec z 0) as [->|]; [done|by apply of_Z_B2X].
Qed.

Lemma signed_int_ordered (s : bool) (z : Z) : ordered (signed_int s z).
Proof. unfold signed_int. destruct (z =? 0)%Z; [by split|auto with num]. Qed.

(** The floor of an integer's number. *)
Lemma of_Z_shape (z : Z) : safe z -> z <> 0%Z ->
  exists s m e, of_Z z = S754_finite s m e /\ floor_Z s m e = z /\ s = (z <? 0)%Z.
Proof.
  intros Hz Hne. pose proof (of_Z_B2X z Hz) as Hv. pose proof (of_Z_finite z Hz) as Hf.
  pose proof (of_Z_valid z) as Hval. apply not_0_IZR in Hne.
  destruct (of_Z z) as [s|s| |s m e]; [cbn in Hv; lra|done|done|].
  exists s, m, e. split; [done|]. pose proof (floor_Z_bounds s m e) as Hb. rewrite Hv in Hb. split.
  - destruct Hb as [H1%le_IZR H2]. rewrite <- plus_IZR in H2. apply lt_IZR in H2. lia.
  - pose proof (finite_bounds s m e Hval) as [[Hp _] _]. cbn [B2X] in Hv. unfold sgn in Hv.
    destruct s, (Z.ltb_spec z 0) as [Hlt|Hge]; try done; [apply IZR_le in Hge|apply IZR_lt in Hlt]; lra.
Qed.

Lemma Math_floor_of_Z (z : Z) : safe z -> Math_floor (of_Z z) = of_Z z.
Proof.
  intros Hz. destruct (decide (z = 0%Z)) as [->|Hne]; [done|].
  destruct (of_Z_shape z Hz Hne) as (s & m & e & Heq & Hfl & _).
  rewrite Heq. cbn [Math_floor]. rewrite Hfl. unfold signed_int.
  by rewrite (proj2 (Z.eqb_neq z 0) Hne).
Qed.

Lemma Math_ceil_of_Z (z : Z) : safe z -> Math_ceil (of_Z z) = of_Z z.
Proof.
  intros Hz. destruct (decide (z = 0%Z)) as [->|Hne]; [done|].
  destruct (of_Z_shape z Hz Hne) as (s & m & e & Heq & _).
  assert (Hz' : safe (- z)) by (unfold safe in *; lia).
  destruct (of_Z_shape (- z) Hz' ltac:(lia)) as (s' & m' & e' & Heq' & Hfl' & _).
  rewrite <- nneg_of_Z, Heq in Heq' by done. injection Heq' as <- <- <-.
  rewrite Heq. cbn [Math_ceil]. rewrite Hfl', Z.opp_involutive. unfold signed_int.
  by rewrite (proj2 (Z.eqb_neq z 0) Hne).
Qed.

Lemma Math_max_of_Z (a b : Z) : safe a -> safe b -> Math_max (of_Z a) (of_Z b) = of_Z (Z.max a b).
Proof.
  intros Ha Hb. unfold Math_max.
  destruct (of_Z_ordered a) as [_ ->], (of_Z_ordered b) as [_ ->]. cbn [orb].
  rewrite nlt_of_Z by done.
  assert (Hc : (if (a <? b)%Z then of_Z b else of_Z a) = of_Z (Z.max a b))
    by (destruct (Z.ltb_spec a b); f_equal; lia).
  rewrite Hc. destruct (decide (a = 0%Z)) as [->|Ha0], (decide (b = 0%Z)) as [->|Hb0]; [done| | |].
  all: try (destruct (of_Z_shape a Ha Ha0) as (? & ? & ? & Heq & _); rewrite Heq; by case_match).
  destruct (of_Z_shape b Hb Hb0) as (? & ? & ? & Heq & _). by rewrite Heq.
Qed.

Lemma Math_min_of_Z (a b : Z) : safe a -> safe b -> Math_min (of_Z a) (of_Z b) = of_Z (Z.min a b).
Proof.
  intros Ha Hb. unfold Math_min.
  destruct (of_Z_ordered a) as [_ ->], (of_Z_ordered b) as [_ ->]. cbn [orb].
  rewrite nlt_of_Z by done.
  assert (Hc : (if (b <? a)%Z then of_Z b else of_Z a) = of_Z (Z.min a b))
    by (destruct (Z.ltb_spec b a); f_equal; lia).
  rewrite Hc. destruct (decide (a = 0%Z)) as [->|Ha0], (decide (b = 0%Z)) as [->|Hb0]; [done| | |].
  all: try (destruct (of_Z_shape a Ha Ha0) as (? & ? & ? & Heq & _); rewrite Heq; by case_match).
  destruct (of_Z_shape b Hb Hb0) as (? & ? & ? & Heq & _). by rewrite Heq.
Qed.

(** ** Results are numbers *)

Lemma nadd_valid (x y : num) : valid x = true -> valid y = true -> valid (nadd x y) = true.
Proof.
  intros Vx Vy. destruct (is_finite x) eqn:Fx, (is_finite y) eqn:Fy.
  - by apply (nadd_rounds x y).
  - by destruct x as [[|]|[|]| |], y as [[|]|[|]| |].
  - by destruct x as [[|]|[|]| |], y as [[|]|[|]| |].
  - by destruct x as [[|]|[|]| |], y as [[|]|[|]| |].
Qed.

Lemma nsub_valid (x y : num) : valid x = true -> valid y = true -> valid (nsub x y) = true.
Proof.
  intros Vx Vy. destruct (is_finite x) eqn:Fx, (is_finite y) eqn:Fy.
  - by apply (nsub_rounds x y).
  - by destruct x as [[|]|[|]| |], y as [[|]|[|]| |].
  - by destruct x as [[|]|[|]| |], y as [[|]|[|]| |].
  - by destruct x as [[|]|[|]| |], y as [[|]|[|]| |].
Qed.

Lemma nmul_valid (x y : num) : valid x = true -> valid y = true -> valid (nmul x y) = true.
Proof.
  intros Vx Vy. destruct (is_finite x) eqn:Fx, (is_finite y) eqn:Fy.
  - by apply (nmul_rounds x y).
  - by destruct x, y.
  - by destruct x, y.
  - by destruct x, y.
Qed.

Lemma finite_nonzero (s : bool) (m : positive) (e : Z) : B2X (S754_finite s m e) <> 0.
Proof.
  cbn [B2X]. assert (0 < IZR (Zpos m)) by (apply IZR_lt; lia). pose proof (bpow_pos e).
  unfold sgn. destruct s; nra.
Qed.

Lemma ndiv_valid (x y : num) : valid x = true -> valid y = true -> valid (ndiv x y) = true.
Proof.
  intros Vx Vy. destruct x as [s|s| |s m e], y as [s'|s'| |s' m' e']; try done.
  apply (ndiv_rounds (S754_finite s m e) (S754_finite s' m' e')); try done. apply finite_nonzero.
Qed.

#[export] Hint Resolve nadd_valid nsub_valid nmul_valid ndiv_valid : num.

(** All numbers lie between the infinities. *)
Lemma B2X_bounds (x : num) : valid x = true -> - big <= B2X x <= big.
Proof.
  intros Hx. pose proof big_pos. destruct x as [s|s| |s m e]; cbn [B2X]; unfold sgn.
  - lra.
  - destruct s; lra.
  - lra.
  - pose proof (finite_bounds s m e Hx) as [Hb _]. destruct s; lra.
Qed.

Lemma finite_above (x : num) : valid x = true -> is_finite x = true -> - big < B2X x < big.
Proof.
  intros Vx Fx. pose proof big_pos. destruct x as [s|s| |s m e]; try done; cbn [B2X]; [lra|].
  pose proof (finite_bounds s m e Vx) as [Hb _]. unfold sgn. destruct s; lra.
Qed.

(** Division by a positive finite number is monotone. *)
Lemma ndiv_mono (x x' y : num) :
  ordered x -> ordered x' -> valid y = true -> is_finite y = true -> 0 < B2X y ->
  B2X x <= B2X x' -> B2X (ndiv x y) <= B2X (ndiv x' y).
Proof.
  intros [Vx Nx] [Vx' Nx'] Vy Fy Hy Hle. pose proof big_pos.
  assert (Hs : exists m e, y = S754_finite false m e).
  { destruct y as [s|s| |s m e]; try done; [cbn in Hy; lra|].
    pose proof (finite_bounds s m e Vy) as [Hb _]. cbn [B2X] in Hy. unfold sgn in Hy.
    destruct s; [lra|by exists m, e]. }
  destruct Hs as (m & e & ->).
  pose proof (B2X_bounds _ (ndiv_valid x _ Vx Vy)). pose proof (B2X_bounds _ (ndiv_valid x' _ Vx' Vy)).
  destruct (is_finite x) eqn:Fx, (is_finite x') eqn:Fx'.
  - eapply rounds_mono; [by apply ndiv_rounds; try done; apply finite_nonzero..|].
    apply Rmult_le_compat_r; [|done]. by apply Rlt_le, Rinv_0_lt_compat.
  - destruct x' as [s|[|]| |s m' e']; try done.
    + pose proof (finite_above x Vx Fx). unfold B2X at 2, sgn in Hle. lra.
    + change (ndiv (S754_infinity false) _) with (S754_infinity false).
      unfold B2X at 2, sgn. lra.
  - destruct x as [s|[|]| |s m' e']; try done.
    + change (ndiv (S754_infinity true) _) with (S754_infinity true).
      unfold B2X at 1, sgn. lra.
    + pose proof (finite_above x' Vx' Fx'). unfold B2X at 1, sgn in Hle. lra.
  - destruct x as [s|[|]| |s m' e'], x' as [s'|[|]| |s' m'' e'']; try done;
      unfold B2X, sgn in Hle |- *; cbn [ndiv SFdiv xorb]; lra.
Qed.

(** ** Orders and clamps *)

Lemma nlt_asym (x y : num) : nlt x y = true -> nlt y x = false.
Proof.
  destruct x as [s|s| |s m e], y as [s'|s'| |s' m' e']; try destruct s; try destruct s'; try done.
  all: unfold nlt, SFltb; cbn [SFcompare]; rewrite (Z.compare_antisym e e'); destruct (Z.compare_spec e e') as [->|?|?]; cbn [CompOpp]; try done.
  all: change (PosDef.Pos.compare_cont Eq m' m) with (m' ?= m)%positive;
    change (PosDef.Pos.compare_cont Eq m m') with (m ?= m')%positive;
    rewrite (Pos.compare_antisym m m'); by destruct (m ?= m')%positive.
Qed.

Lemma clamp_same (z : Z) (x : num) : safe z -> z <> 0%Z -> is_NaN x = false ->
  Math_min (of_Z z) (Math_max (of_Z z) x) = of_Z z.
Proof.
  intros Hz Hne Hx. destruct (of_Z_shape z Hz Hne) as (s & m & e & -> & _).
  assert (Hmax : Math_max (S754_finite s m e) x = if nlt (S754_finite s m e) x then x else S754_finite s m e).
  { unfold Math_max. rewrite Hx. by destruct x. }
  rewrite Hmax. destruct (nlt (S754_finite s m e) x) eqn:Hlt.
  - unfold Math_min. rewrite Hx. cbn [is_NaN orb]. rewrite (nlt_asym _ _ Hlt). by destruct x.
  - unfold Math_min. cbn [is_NaN orb]. destruct (nlt (S754_finite s m e) (S754_finite s m e)); reflexivity.
Qed.

(** A positive integer's number is not zero, however large. *)
Lemma neq_of_Z_0 (z : Z) : (1 <= z)%Z -> neq (of_Z z) n0 = false.
Proof.
  intros Hz. assert (Hge : (1 <= B2X (of_Z z))%R).
  { apply (rounds_ge (IZR z) 1); [apply of_Z_rounds|apply (safe_exact 1); unfold safe; lia|by apply IZR_le]. }
  apply not_true_iff_false. intros Heq. apply neq_spec in Heq; [|apply of_Z_ordered|by split].
  change (B2X n0) with 0%R in Heq. lra.
Qed.

(** ** Extremes *)

Lemma Math_max_B2X (x y : num) : ordered x -> ordered y ->
  ordered (Math_max x y) /\ B2X (Math_max x y) = Rmax (B2X x) (B2X y).
Proof.
  intros Hx Hy. pose proof (nlt_spec x y Hx Hy) as Hlt. pose proof Hx as [_ Nx]. pose proof Hy as [_ Ny].
  assert (Hm : B2X (Math_max x y) = B2X (if nlt x y then y else x) /\ ordered (Math_max x y)).
  { unfold Math_max. rewrite Nx, Ny. cbn [orb].
    destruct x as [sx|sx| |sx mx ex], y as [sy|sy| |sy my ey]; try done;
      split; try (by destruct (nlt _ _)); by destruct sx, sy. }
  destruct Hm as [-> Ho]. split; [done|]. destruct (nlt x y); unfold Rmax; destruct (Rle_dec (B2X x) (B2X y)); try done.
  - exfalso. assert (B2X x < B2X y) by (by apply Hlt). lra.
  - destruct (Rle_lt_or_eq_dec (B2X x) (B2X y)) as [Hs|]; [done| |done]. by apply Hlt in Hs.
Qed.

Lemma Math_min_B2X (x y : num) : ordered x -> ordered y ->
  ordered (Math_min x y) /\ B2X (Math_min x y) = Rmin (B2X x) (B2X y).
Proof.
  intros Hx Hy. pose proof (nlt_spec y x Hy Hx) as Hlt. pose proof Hx as [_ Nx]. pose proof Hy as [_ Ny].
  assert (Hm : B2X (Math_min x y) = B2X (if nlt y x then y else x) /\ ordered (Math_min x y)).
  { unfold Math_min. rewrite Nx, Ny. cbn [orb].
    destruct x as [sx|sx| |sx mx ex], y as [sy|sy| |sy my ey]; try done;
      split; try (by destruct (nlt _ _)); by destruct sx, sy. }
  destruct Hm as [-> Ho]. split; [done|]. destruct (nlt y x); unfold Rmin; destruct (Rle_dec (B2X x) (B2X y)); try done.
  - assert (B2X y < B2X x) by (by apply Hlt). lra.
  - assert (B2X y < B2X x) as Hs by lra. by apply Hlt in Hs.
Qed.

Lemma MAX_VALUE_above (x : num) :
  valid x = true -> is_finite x = true -> B2X neg_MAX_VALUE <= B2X x <= B2X MAX_VALUE.
Proof.
  intros Vx Fx. cbn [B2X MAX_VALUE neg_MAX_VALUE]. unfold sgn.
  assert (Hbig : forall m e, (Zpos m < 2 ^ 53)%Z -> (e <= 971)%Z ->
    0 < IZR (Zpos m) * bpow e <= IZR 9007199254740991 * bpow 971).
  { intros m e Hm He. pose proof (bpow_pos e). pose proof (bpow_le e 971 He).
    assert (0 < IZR (Zpos m) <= IZR 9007199254740991) by (split; [apply IZR_lt|apply IZR_le]; lia). nra. }
  pose proof (Hbig 1%positive 971%Z ltac:(lia) ltac:(lia)).
  destruct x as [s|s| |s m e]; try done; cbn [B2X]; unfold sgn.
  - lra.
  - apply bounded_spec in Vx as (He & Hm & _). pose proof (Hbig m e ltac:(lia) ltac:(lia)). destruct s; lra.
Qed.
