(* ===== verification/Value.v ===== *)
(** * JavaScript values

    The dynamically typed values that options, chart data and statistics
    carry, with the coercions and the equality the code applies to them, and
    objects used as dictionaries of options. *)

From stdpp Require Import base list strings gmap.
From Stdlib Require Import ZArith Lia SpecFloat Ascii.
From S2P Require Import Prelude Num.

Open Scope Z_scope.

(** ** Values *)

#[warnings="-register-all"]
Inductive jsval : Type :=
| VUndef
| VNull
| VBool (b : bool)
| VNum (n : num)
| VStr (s : string)
| VArr (l : list jsval)
| VObj (fields : list (string * jsval))
| VFun (id : positive).

(** A function value is known by an identifier; what a call returns is a
    parameter of the code that calls it. *)

Definition VInt (z : Z) : jsval := VNum (of_Z z).

Definition typeof (v : jsval) : string :=
  match v with
  | VUndef => "undefined"
  | VNull => "object"
  | VBool _ => "boolean"
  | VNum _ => "number"
  | VStr _ => "string"
  | VArr _ => "object"
  | VObj _ => "object"
  | VFun _ => "function"
  end.

Definition is_undefined (v : jsval) : bool :=
  match v with VUndef => true | _ => false end.

Definition is_function (v : jsval) : bool :=
  match v with VFun _ => true | _ => false end.

Definition truthy (v : jsval) : bool :=
  match v with
  | VUndef | VNull => false
  | VBool b => b
  | VNum n => negb (is_NaN n) && negb (neq n n0)
  | VStr s => negb (String.eqb s "")
  | _ => true
  end.

(** ** Coercions *)

Fixpoint join (sep : string) (l : list string) : string :=
  match l with
  | [] => ""
  | [x] => x
  | x :: xs => x ++ sep ++ join sep xs
  end.

Fixpoint to_str (v : jsval) : string :=
  match v with
  | VUndef => "undefined"
  | VNull => "null"
  | VBool b => if b then "true" else "false"
  | VNum n => num_to_string n
  | VStr s => s
  | VArr l =>
      join "," (map (fun x => match x with
                              | VUndef | VNull => ""
                              | _ => to_str x
                              end) l)
  | VObj _ => "[object Object]"
  | VFun _ => "function"
  end.

Definition to_num (v : jsval) : num :=
  match v with
  | VUndef => NaN
  | VNull => n0
  | VBool b => if b then of_Z 1 else n0
  | VNum n => n
  | VStr s => string_to_num s
  | VArr _ => string_to_num (to_str v)
  | VObj _ | VFun _ => NaN
  end.

(** [parseFloat(v)]: a number is printed and read again, which yields the
    number itself, negative zero excepted. *)
Definition parseFloat (v : jsval) : num :=
  match v with
  | VNum (S754_zero _) => n0
  | VNum n => n
  | _ => parseFloat_string (to_str v)
  end.

Definition parseInt (v : jsval) : num := parseInt_string (to_str v).

(** The operator [+]. *)
Definition is_stringy (v : jsval) : bool :=
  match v with VStr _ | VArr _ | VObj _ | VFun _ => true | _ => false end.

Definition js_add (v w : jsval) : jsval :=
  if is_stringy v || is_stringy w then VStr (to_str v ++ to_str w)
  else VNum (to_num v + to_num w)%num.

(** The operator [==], without identity of objects. *)
Definition loose_eq (v w : jsval) : bool :=
  match v, w with
  | VUndef, VUndef | VUndef, VNull | VNull, VUndef | VNull, VNull => true
  | VUndef, _ | VNull, _ | _, VUndef | _, VNull => false
  | VStr a, VStr b => String.eqb a b
  | VStr a, VArr _ | VStr a, VObj _ | VStr a, VFun _ => String.eqb a (to_str w)
  | VArr _, VStr b | VObj _, VStr b | VFun _, VStr b => String.eqb (to_str v) b
  | VArr _, VArr _ | VArr _, VObj _ | VArr _, VFun _
  | VObj _, VArr _ | VObj _, VObj _ | VObj _, VFun _
  | VFun _, VArr _ | VFun _, VObj _ | VFun _, VFun _ => false
  | _, _ => (to_num v == to_num w)%num
  end.

(** ** Objects as dictionaries *)

Definition field (fs : list (string * jsval)) (k : string) : jsval :=
  match find (fun kv => String.eqb kv.1 k) fs with
  | Some (_, v) => v
  | None => VUndef
  end.

Abbreviation config := (gmap string jsval).

Definition prop (c : config) (k : string) : jsval := default VUndef (c !! k).
Notation "c .[ k ]" := (prop c k) (at level 1, k at level 200, left associativity) : js_scope.

Lemma prop_insert (c : config) (k : string) (v : jsval) : (<[k := v]> c).[k] = v.
Proof. unfold prop. by rewrite lookup_insert_eq. Qed.

Lemma prop_insert_ne (c : config) (k k' : string) (v : jsval) :
  String.eqb k k' = false -> (<[k := v]> c).[k'] = c.[k'].
Proof. intros Hne%String.eqb_neq. unfold prop. by rewrite lookup_insert_ne. Qed.

(** Property access on a value: undefined and null throw. *)
Definition get_prop (v : jsval) (k : string) : res jsval :=
  match v with
  | VUndef | VNull => Throw TypeError
  | VObj fs => Ok (field fs k)
  | VArr l => Ok (if String.eqb k "length" then VInt (Z.of_nat (length l)) else VUndef)
  | VStr s => Ok (if String.eqb k "length" then VInt (Z.of_nat (String.length s)) else VUndef)
  | _ => Ok VUndef
  end.

(** [a[i]] for a number [i]. *)
Definition index_of_num (i : num) : option nat :=
  match i with
  | S754_zero _ => Some 0%nat
  | S754_finite false m e =>
      if (i == Math_floor i)%num then Some (Z.to_nat (floor_Z false m e)) else None
  | _ => None
  end.

Definition get_index (v : jsval) (i : num) : res jsval :=
  match v with
  | VUndef | VNull => Throw TypeError
  | VArr l => Ok (match index_of_num i with
                  | Some k => default VUndef (l !! k)
                  | None => VUndef
                  end)
  | VObj fs => Ok (field fs (num_to_string i))
  | _ => Ok VUndef
  end.

(** What a loop over the indices below [v.length] meets: the elements of an
    array, the characters of a string, nothing in other values. *)
Definition elements_of (v : jsval) : list jsval :=
  match v with
  | VArr l => l
  | VStr s => map (fun c => VStr (String c "")) (String.list_ascii_of_string s)
  | _ => []
  end.

(** ** isNumber (ChartNew.js) *)

(** The global [isFinite] coerces its argument to a number. *)
Definition isFinite (v : jsval) : bool := is_finite (to_num v).
Definition isNaN (v : jsval) : bool := is_NaN (to_num v).

Definition isNumber (n : jsval) : bool := negb (is_NaN (parseFloat n)) && isFinite n.
