(* ===== verification/Options.v ===== *)
(** * Chart options (ChartNew.js)

    The tables of default options of the nine chart types, the options they
    share, and the way a chart resolves the options it runs with: a cascade of
    [mergeChartConfig] calls. *)

From stdpp Require Import base list strings gmap.
From Stdlib Require Import ZArith.
From S2P Require Import Prelude Num Value.

Open Scope Z_scope.
Open Scope string_scope.

(** ** Merging *)

(** An object literal: a later field of the same name wins. *)
Definition of_fields (l : list (string * jsval)) : config :=
  fold_left (fun m kv => <[kv.1 := kv.2]> m) l ∅.

(** [for (var attrname in src) dst[attrname] = src[attrname]] *)
Definition assign_all (dst src : config) : config :=
  map_fold (fun k v acc => <[k := v]> acc) dst src.

Definition mergeChartConfig (defaults userDefined : config) : config :=
  assign_all (assign_all ∅ defaults) userDefined.

(** ** The tables of defaults *)

(** <<chart.PolarArea.defaults>> *)
Definition PolarArea_defaults : list (string * jsval) := [
  ("inGraphDataShow", VBool false);
  ("inGraphDataPaddingRadius", VInt 5);
  ("inGraphDataPaddingAngle", VInt 0);
  ("inGraphDataTmpl", VStr "<%=(v1 == ''? '' : v1+':')+ v2 + ' (' + v6 + ' %)'%>");
  ("inGraphDataAlign", VStr "off-center");
  ("inGraphDataVAlign", VStr "off-center");
  ("inGraphDataRotate", VInt 0);
  ("inGraphDataFontFamily", VStr "'Arial'");
  ("inGraphDataFontSize", VInt 12);
  ("inGraphDataFontStyle", VStr "normal");
  ("inGraphDataFontColor", VStr "#666");
  ("inGraphDataRadiusPosition", VInt 3);
  ("inGraphDataAnglePosition", VInt 2);
  ("scaleOverlay", VBool true);
  ("scaleOverride", VBool false);
  ("scaleOverride2", VBool false);
  ("scaleGridLinesStep", VInt 1);
  ("scaleSteps", VNull);
  ("scaleStepWidth", VNull);
  ("scaleStartValue", VNull);
  ("scaleShowLine", VBool true);
  ("scaleLineColor", VStr "rgba(0,0,0,.1)");
  ("scaleLineWidth", VInt 1);
  ("scaleLineStyle", VStr "solid");
  ("scaleShowLabels", VBool true);
  ("scaleShowLabels2", VBool true);
  ("scaleLabel", VStr "<%=value%>");
  ("scaleFontFamily", VStr "'Arial'");
  ("scaleFontSize", VInt 12);
  ("scaleFontStyle", VStr "normal");
  ("scaleFontColor", VStr "#666");
  ("scaleShowLabelBackdrop", VBool true);
  ("scaleBackdropColor", VStr "rgba(255,255,255,0.75)");
  ("scaleBackdropPaddingY", VInt 2);
  ("scaleBackdropPaddingX", VInt 2);
  ("segmentShowStroke", VBool true);
  ("segmentStrokeColor", VStr "#fff");
  ("segmentStrokeStyle", VStr "solid");
  ("segmentStrokeWidth", VInt 2);
  ("animation", VBool true);
  ("animationByData", VStr "ByArc");
  ("animationSteps", VInt 100);
  ("animationEasing", VStr "easeOutBounce");
  ("animateRotate", VBool true);
  ("animateScale", VBool false);
  ("onAnimationComplete", VNull);
  ("annotateLabel", VStr "<%=(v1 == ''? '' : v1+':')+ v2 + ' (' + v6 + ' %)'%>");
  ("startAngle", VInt 90)
].

(** <<chart.Radar.defaults>> *)
Definition Radar_defaults : list (string * jsval) := [
  ("inGraphDataShow", VBool false);
  ("inGraphDataPaddingRadius", VInt 5);
  ("inGraphDataTmpl", VStr "<%=v3%>");
  ("inGraphDataAlign", VStr "off-center");
  ("inGraphDataVAlign", VStr "off-center");
  ("inGraphDataRotate", VInt 0);
  ("inGraphDataFontFamily", VStr "'Arial'");
  ("inGraphDataFontSize", VInt 12);
  ("inGraphDataFontStyle", VStr "normal");
  ("inGraphDataFontColor", VStr "#666");
  ("inGraphDataRadiusPosition", VInt 3);
  ("yAxisMinimumInterval", VStr "none");
  ("scaleGridLinesStep", VInt 1);
  ("scaleOverlay", VBool false);
  ("scaleOverride", VBool false);
  ("scaleOverride2", VBool false);
  ("scaleSteps", VNull);
  ("scaleStepWidth", VNull);
  ("scaleStartValue", VNull);
  ("scaleShowLine", VBool true);
  ("scaleLineColor", VStr "rgba(0,0,0,.1)");
  ("scaleLineStyle", VStr "solid");
  ("scaleLineWidth", VInt 1);
  ("scaleShowLabels", VBool false);
  ("scaleShowLabels2", VBool true);
  ("scaleLabel", VStr "<%=value%>");
  ("scaleFontFamily", VStr "'Arial'");
  ("scaleFontSize", VInt 12);
  ("scaleFontStyle", VStr "normal");
  ("scaleFontColor", VStr "#666");
  ("scaleShowLabelBackdrop", VBool true);
  ("scaleBackdropColor", VStr "rgba(255,255,255,0.75)");
  ("scaleBackdropPaddingY", VInt 2);
  ("scaleBackdropPaddingX", VInt 2);
  ("angleShowLineOut", VBool true);
  ("angleLineColor", VStr "rgba(0,0,0,.1)");
  ("angleLineStyle", VStr "solid");
  ("angleLineWidth", VInt 1);
  ("pointLabelFontFamily", VStr "'Arial'");
  ("pointLabelFontStyle", VStr "normal");
  ("pointLabelFontSize", VInt 12);
  ("pointLabelFontColor", VStr "#666");
  ("pointDot", VBool true);
  ("pointDotRadius", VInt 3);
  ("pointDotStrokeWidth", VInt 1);
  ("pointDotStrokeStyle", VStr "solid");
  ("datasetFill", VBool true);
  ("datasetStrokeWidth", VInt 2);
  ("datasetStrokeStyle", VStr "solid");
  ("animation", VBool true);
  ("animationSteps", VInt 60);
  ("animationEasing", VStr "easeOutQuart");
  ("onAnimationComplete", VNull);
  ("annotateLabel", VStr "<%=(v1 == '' ? '' : v1) + (v1!='' && v2 !='' ? ' - ' : '')+(v2 == '' ? '' : v2)+(v1!='' || v2 !='' ? ':' : '') + v3%>");
  ("pointHitDetectionRadius", VInt 10);
  ("startAngle", VInt 90)
].

(** <<chart.Pie.defaults>> *)
Definition Pie_defaults : list (string * jsval) := [
  ("inGraphDataShow", VBool false);
  ("inGraphDataPaddingRadius", VInt 5);
  ("inGraphDataPaddingAngle", VInt 0);
  ("inGraphDataTmpl", VStr "<%=(v1 == ''? '' : v1+':')+ v2 + ' (' + v6 + ' %)'%>");
  ("inGraphDataAlign", VStr "off-center");
  ("inGraphDataVAlign", VStr "off-center");
  ("inGraphDataRotate", VInt 0);
  ("inGraphDataFontFamily", VStr "'Arial'");
  ("inGraphDataFontSize", VInt 12);
  ("inGraphDataFontStyle", VStr "normal");
  ("inGraphDataFontColor", VStr "#666");
  ("inGraphDataRadiusPosition", VInt 3);
  ("inGraphDataAnglePosition", VInt 2);
  ("inGraphDataMinimumAngle", VInt 0);
  ("segmentShowStroke", VBool true);
  ("segmentStrokeColor", VStr "#fff");
  ("segmentStrokeStyle", VStr "solid");
  ("segmentStrokeWidth", VInt 2);
  ("animation", VBool true);
  ("animationByData", VBool false);
  ("animationSteps", VInt 100);
  ("animationEasing", VStr "easeOutBounce");
  ("animateRotate", VBool true);
  ("animateScale", VBool false);
  ("onAnimationComplete", VNull);
  ("annotateLabel", VStr "<%=(v1 == ''? '' : v1+':')+ v2 + ' (' + v6 + ' %)'%>");
  ("startAngle", VInt 90);
  ("radiusScale", VInt 1)
].

(** <<chart.Doughnut.defaults>> *)
Definition Doughnut_defaults : list (string * jsval) := [
  ("inGraphDataShow", VBool false);
  ("inGraphDataPaddingRadius", VInt 5);
  ("inGraphDataPaddingAngle", VInt 0);
  ("inGraphDataTmpl", VStr "<%=(v1 == ''? '' : v1+':')+ v2 + ' (' + v6 + ' %)'%>");
  ("inGraphDataAlign", VStr "off-center");
  ("inGraphDataVAlign", VStr "off-center");
  ("inGraphDataRotate", VInt 0);
  ("inGraphDataFontFamily", VStr "'Arial'");
  ("inGraphDataFontSize", VInt 12);
  ("inGraphDataFontStyle", VStr "normal");
  ("inGraphDataFontColor", VStr "#666");
  ("inGraphDataRadiusPosition", VInt 3);
  ("inGraphDataAnglePosition", VInt 2);
  ("inGraphDataMinimumAngle", VInt 0);
  ("segmentShowStroke", VBool true);
  ("segmentStrokeColor", VStr "#fff");
  ("segmentStrokeStyle", VStr "solid");
  ("segmentStrokeWidth", VInt 2);
  ("percentageInnerCutout", VInt 50);
  ("animation", VBool true);
  ("animationByData", VBool false);
  ("animationSteps", VInt 100);
  ("animationEasing", VStr "easeOutBounce");
  ("animateRotate", VBool true);
  ("animateScale", VBool false);
  ("onAnimationComplete", VNull);
  ("annotateLabel", VStr "<%=(v1 == ''? '' : v1+':')+ v2 + ' (' + v6 + ' %)'%>");
  ("startAngle", VInt 90);
  ("radiusScale", VInt 1)
].

(** <<chart.Line.defaults>> *)
Definition Line_defaults : list (string * jsval) := [
  ("inGraphDataShow", VBool false);
  ("inGraphDataPaddingX", VInt 3);
  ("inGraphDataPaddingY", VInt 3);
  ("inGraphDataTmpl", VStr "<%=v3%>");
  ("inGraphDataAlign", VStr "left");
  ("inGraphDataVAlign", VStr "bottom");
  ("inGraphDataRotate", VInt 0);
  ("inGraphDataFontFamily", VStr "'Arial'");
  ("inGraphDataFontSize", VInt 12);
  ("inGraphDataFontStyle", VStr "normal");
  ("inGraphDataFontColor", VStr "#666");
  ("drawXScaleLine", VArr [VObj [("position", VStr "bottom")]]);
  ("scaleOverlay", VBool false);
  ("scaleOverride", VBool false);
  ("scaleOverride2", VBool false);
  ("scaleSteps", VNull);
  ("scaleStepWidth", VNull);
  ("scaleStartValue", VNull);
  ("scaleSteps2", VNull);
  ("scaleStepWidth2", VNull);
  ("scaleStartValue2", VNull);
  ("scaleLabel2", VStr "<%=value%>");
  ("scaleLineColor", VStr "rgba(0,0,0,.1)");
  ("scaleLineStyle", VStr "solid");
  ("scaleLineWidth", VInt 1);
  ("scaleShowLabels", VBool true);
  ("scaleShowLabels2", VBool true);
  ("scaleLabel", VStr "<%=value%>");
  ("scaleFontFamily", VStr "'Arial'");
  ("scaleFontSize", VInt 12);
  ("scaleFontStyle", VStr "normal");
  ("scaleFontColor", VStr "#666");
  ("scaleShowGridLines", VBool true);
  ("scaleXGridLinesStep", VInt 1);
  ("scaleYGridLinesStep", VInt 1);
  ("scaleGridLineColor", VStr "rgba(0,0,0,.05)");
  ("scaleGridLineStyle", VStr "solid");
  ("scaleGridLineWidth", VInt 1);
  ("showYAxisMin", VBool true);
  ("rotateLabels", VStr "smart");
  ("logarithmic", VBool false);
  ("logarithmic2", VBool false);
  ("scaleTickSizeLeft", VInt 5);
  ("scaleTickSizeRight", VInt 5);
  ("scaleTickSizeBottom", VInt 5);
  ("scaleTickSizeTop", VInt 5);
  ("bezierCurve", VBool true);
  ("bezierCurveTension", VNum (lit 4 (-1)));
  ("pointDot", VBool true);
  ("pointDotRadius", VInt 4);
  ("pointDotStrokeStyle", VStr "solid");
  ("pointDotStrokeWidth", VInt 2);
  ("datasetStrokeStyle", VStr "solid");
  ("datasetStrokeWidth", VInt 2);
  ("datasetFill", VBool true);
  ("animation", VBool true);
  ("animationSteps", VInt 60);
  ("animationEasing", VStr "easeOutQuart");
  ("extrapolateMissingData", VBool true);
  ("onAnimationComplete", VNull);
  ("annotateLabel", VStr "<%=(v1 == '' ? '' : v1) + (v1!='' && v2 !='' ? ' - ' : '')+(v2 == '' ? '' : v2)+(v1!='' || v2 !='' ? ':' : '') + v3%>");
  ("pointHitDetectionRadius", VInt 10)
].

(** <<chart.StackedBar.defaults>> *)
Definition StackedBar_defaults : list (string * jsval) := [
  ("inGraphDataShow", VBool false);
  ("inGraphDataPaddingX", VInt 0);
  ("inGraphDataPaddingY", VInt (-3));
  ("inGraphDataTmpl", VStr "<%=v3%>");
  ("inGraphDataAlign", VStr "center");
  ("inGraphDataVAlign", VStr "top");
  ("inGraphDataRotate", VInt 0);
  ("inGraphDataFontFamily", VStr "'Arial'");
  ("inGraphDataFontSize", VInt 12);
  ("inGraphDataFontStyle", VStr "normal");
  ("inGraphDataFontColor", VStr "#666");
  ("inGraphDataXPosition", VInt 2);
  ("inGraphDataYPosition", VInt 3);
  ("scaleOverlay", VBool false);
  ("scaleOverride", VBool false);
  ("scaleOverride2", VBool false);
  ("scaleSteps", VNull);
  ("scaleStepWidth", VNull);
  ("scaleStartValue", VNull);
  ("scaleLineColor", VStr "rgba(0,0,0,.1)");
  ("scaleLineStyle", VStr "solid");
  ("scaleLineWidth", VInt 1);
  ("scaleShowLabels", VBool true);
  ("scaleShowLabels2", VBool true);
  ("scaleLabel", VStr "<%=value%>");
  ("scaleFontFamily", VStr "'Arial'");
  ("scaleFontSize", VInt 12);
  ("scaleFontStyle", VStr "normal");
  ("scaleFontColor", VStr "#666");
  ("scaleShowGridLines", VBool true);
  ("scaleXGridLinesStep", VInt 1);
  ("scaleYGridLinesStep", VInt 1);
  ("scaleGridLineColor", VStr "rgba(0,0,0,.05)");
  ("scaleGridLineStyle", VStr "solid");
  ("scaleGridLineWidth", VInt 1);
  ("showYAxisMin", VBool true);
  ("rotateLabels", VStr "smart");
  ("scaleTickSizeLeft", VInt 5);
  ("scaleTickSizeRight", VInt 5);
  ("scaleTickSizeBottom", VInt 5);
  ("scaleTickSizeTop", VInt 5);
  ("pointDot", VBool true);
  ("pointDotRadius", VInt 4);
  ("pointDotStrokeStyle", VStr "solid");
  ("pointDotStrokeWidth", VInt 2);
  ("barShowStroke", VBool true);
  ("barStrokeWidth", VInt 2);
  ("barValueSpacing", VInt 5);
  ("barDatasetSpacing", VInt 1);
  ("spaceBetweenBar", VInt 0);
  ("animation", VBool true);
  ("animationSteps", VInt 60);
  ("animationEasing", VStr "easeOutQuart");
  ("onAnimationComplete", VNull);
  ("annotateLabel", VStr "<%=(v1 == '' ? '' : v1) + (v1!='' && v2 !='' ? ' - ' : '')+(v2 == '' ? '' : v2)+(v1!='' || v2 !='' ? ':' : '') + v3 + ' (' + v6 + ' %)'%>");
  ("pointHitDetectionRadius", VInt 10)
].

(** <<chart.HorizontalStackedBar.defaults>> *)
Definition HorizontalStackedBar_defaults : list (string * jsval) := [
  ("inGraphDataShow", VBool false);
  ("inGraphDataPaddingX", VInt (-3));
  ("inGraphDataPaddingY", VInt 0);
  ("inGraphDataTmpl", VStr "<%=v3%>");
  ("inGraphDataAlign", VStr "right");
  ("inGraphDataVAlign", VStr "middle");
  ("inGraphDataRotate", VInt 0);
  ("inGraphDataFontFamily", VStr "'Arial'");
  ("inGraphDataFontSize", VInt 12);
  ("inGraphDataFontStyle", VStr "normal");
  ("inGraphDataFontColor", VStr "#666");
  ("inGraphDataXPosition", VInt 3);
  ("inGraphDataYPosition", VInt 2);
  ("scaleOverlay", VBool false);
  ("scaleOverride", VBool false);
  ("scaleOverride2", VBool false);
  ("scaleSteps", VNull);
  ("scaleStepWidth", VNull);
  ("scaleStartValue", VNull);
  ("scaleLineColor", VStr "rgba(0,0,0,.1)");
  ("scaleLineStyle", VStr "solid");
  ("scaleLineWidth", VInt 1);
  ("scaleShowLabels", VBool true);
  ("scaleShowLabels2", VBool true);
  ("scaleLabel", VStr "<%=value%>");
  ("scaleFontFamily", VStr "'Arial'");
  ("scaleFontSize", VInt 12);
  ("scaleFontStyle", VStr "normal");
  ("scaleFontColor", VStr "#666");
  ("scaleShowGridLines", VBool true);
  ("scaleXGridLinesStep", VInt 1);
  ("scaleYGridLinesStep", VInt 1);
  ("scaleGridLineColor", VStr "rgba(0,0,0,.05)");
  ("scaleGridLineStyle", VStr "solid");
  ("scaleGridLineWidth", VInt 1);
  ("scaleTickSizeLeft", VInt 5);
  ("scaleTickSizeRight", VInt 5);
  ("scaleTickSizeBottom", VInt 5);
  ("scaleTickSizeTop", VInt 5);
  ("showYAxisMin", VBool true);
  ("rotateLabels", VStr "smart");
  ("barShowStroke", VBool true);
  ("barStrokeWidth", VInt 2);
  ("barValueSpacing", VInt 5);
  ("barDatasetSpacing", VInt 1);
  ("spaceBetweenBar", VInt 0);
  ("animation", VBool true);
  ("animationSteps", VInt 60);
  ("animationEasing", VStr "easeOutQuart");
  ("onAnimationComplete", VNull);
  ("annotateLabel", VStr "<%=(v1 == '' ? '' : v1) + (v1!='' && v2 !='' ? ' - ' : '')+(v2 == '' ? '' : v2)+(v1!='' || v2 !='' ? ':' : '') + v3 + ' (' + v6 + ' %)'%>");
  ("reverseOrder", VBool false)
].

(** <<chart.Bar.defaults>> *)
Definition Bar_defaults : list (string * jsval) := [
  ("inGraphDataShow", VBool false);
  ("inGraphDataPaddingX", VInt 0);
  ("inGraphDataPaddingY", VInt 3);
  ("inGraphDataTmpl", VStr "<%=v3%>");
  ("inGraphDataAlign", VStr "center");
  ("inGraphDataVAlign", VStr "bottom");
  ("inGraphDataRotate", VInt 0);
  ("inGraphDataFontFamily", VStr "'Arial'");
  ("inGraphDataFontSize", VInt 12);
  ("inGraphDataFontStyle", VStr "normal");
  ("inGraphDataFontColor", VStr "#666");
  ("inGraphDataXPosition", VInt 2);
  ("inGraphDataYPosition", VInt 3);
  ("scaleOverlay", VBool false);
  ("scaleOverride", VBool false);
  ("scaleOverride2", VBool false);
  ("scaleSteps", VNull);
  ("scaleStepWidth", VNull);
  ("scaleStartValue", VNull);
  ("scaleSteps2", VNull);
  ("scaleStepWidth2", VNull);
  ("scaleStartValue2", VNull);
  ("scaleLineColor", VStr "rgba(0,0,0,.1)");
  ("scaleLineStyle", VStr "solid");
  ("scaleLineWidth", VInt 1);
  ("scaleShowLabels", VBool true);
  ("scaleShowLabels2", VBool true);
  ("scaleLabel", VStr "<%=value%>");
  ("scaleLabel2", VStr "<%=value%>");
  ("scaleFontFamily", VStr "'Arial'");
  ("scaleFontSize", VInt 12);
  ("scaleFontStyle", VStr "normal");
  ("scaleFontColor", VStr "#666");
  ("scaleShowGridLines", VBool true);
  ("scaleXGridLinesStep", VInt 1);
  ("scaleYGridLinesStep", VInt 1);
  ("scaleGridLineColor", VStr "rgba(0,0,0,.05)");
  ("scaleGridLineWidth", VInt 1);
  ("scaleGridLineStyle", VStr "solid");
  ("showYAxisMin", VBool true);
  ("rotateLabels", VStr "smart");
  ("logarithmic", VBool false);
  ("logarithmic2", VBool false);
  ("scaleTickSizeLeft", VInt 5);
  ("scaleTickSizeRight", VInt 5);
  ("scaleTickSizeBottom", VInt 5);
  ("scaleTickSizeTop", VInt 5);
  ("barShowStroke", VBool true);
  ("barStrokeWidth", VInt 2);
  ("barValueSpacing", VInt 5);
  ("barDatasetSpacing", VInt 1);
  ("barBorderRadius", VInt 0);
  ("pointDot", VBool true);
  ("pointDotRadius", VInt 4);
  ("pointDotStrokeStyle", VStr "solid");
  ("pointDotStrokeWidth", VInt 2);
  ("extrapolateMissingData", VBool true);
  ("animation", VBool true);
  ("animationSteps", VInt 60);
  ("animationEasing", VStr "easeOutQuart");
  ("onAnimationComplete", VNull);
  ("bezierCurve", VBool true);
  ("bezierCurveTension", VNum (lit 4 (-1)));
  ("annotateLabel", VStr "<%=(v1 == '' ? '' : v1) + (v1!='' && v2 !='' ? ' - ' : '')+(v2 == '' ? '' : v2)+(v1!='' || v2 !='' ? ':' : '') + v3 + ' (' + v6 + ' %)'%>");
  ("pointHitDetectionRadius", VInt 10)
].

(** <<chart.HorizontalBar.defaults>> *)
Definition HorizontalBar_defaults : list (string * jsval) := [
  ("inGraphDataShow", VBool false);
  ("inGraphDataPaddingX", VInt 3);
  ("inGraphDataPaddingY", VInt 0);
  ("inGraphDataTmpl", VStr "<%=v3%>");
  ("inGraphDataAlign", VStr "left");
  ("inGraphDataVAlign", VStr "middle");
  ("inGraphDataRotate", VInt 0);
  ("inGraphDataFontFamily", VStr "'Arial'");
  ("inGraphDataFontSize", VInt 12);
  ("inGraphDataFontStyle", VStr "normal");
  ("inGraphDataFontColor", VStr "#666");
  ("inGraphDataXPosition", VInt 3);
  ("inGraphDataYPosition", VInt 2);
  ("scaleOverlay", VBool false);
  ("scaleOverride", VBool false);
  ("scaleOverride2", VBool false);
  ("scaleSteps", VNull);
  ("scaleStepWidth", VNull);
  ("scaleStartValue", VNull);
  ("scaleLineColor", VStr "rgba(0,0,0,.1)");
  ("scaleLineStyle", VStr "solid");
  ("scaleLineWidth", VInt 1);
  ("scaleShowLabels", VBool true);
  ("scaleShowLabels2", VBool true);
  ("scaleLabel", VStr "<%=value%>");
  ("scaleFontFamily", VStr "'Arial'");
  ("scaleFontSize", VInt 12);
  ("scaleFontStyle", VStr "normal");
  ("scaleFontColor", VStr "#666");
  ("scaleShowGridLines", VBool true);
  ("scaleXGridLinesStep", VInt 1);
  ("scaleYGridLinesStep", VInt 1);
  ("scaleGridLineColor", VStr "rgba(0,0,0,.05)");
  ("scaleGridLineStyle", VStr "solid");
  ("scaleGridLineWidth", VInt 1);
  ("scaleTickSizeLeft", VInt 5);
  ("scaleTickSizeRight", VInt 5);
  ("scaleTickSizeBottom", VInt 5);
  ("scaleTickSizeTop", VInt 5);
  ("showYAxisMin", VBool true);
  ("rotateLabels", VStr "smart");
  ("barShowStroke", VBool true);
  ("barStrokeWidth", VInt 2);
  ("barValueSpacing", VInt 5);
  ("barDatasetSpacing", VInt 1);
  ("barBorderRadius", VInt 0);
  ("animation", VBool true);
  ("animationSteps", VInt 60);
  ("animationEasing", VStr "easeOutQuart");
  ("onAnimationComplete", VNull);
  ("annotateLabel", VStr "<%=(v1 == '' ? '' : v1) + (v1!='' && v2 !='' ? ' - ' : '')+(v2 == '' ? '' : v2)+(v1!='' || v2 !='' ? ':' : '') + v3 + ' (' + v6 + ' %)'%>");
  ("reverseOrder", VBool false)
].

(** <<chart.defaults.commonOptions>>, up to the options of the mouse annotations *)
Definition commonOptions_head : list (string * jsval) := [
  ("chartTextScale", VInt 1);
  ("chartLineScale", VInt 1);
  ("chartSpaceScale", VInt 1);
  ("multiGraph", VBool false);
  ("clearRect", VBool true);
  ("dynamicDisplay", VBool false);
  ("graphSpaceBefore", VInt 5);
  ("graphSpaceAfter", VInt 5);
  ("canvasBorders", VBool false);
  ("canvasBackgroundColor", VStr "none");
  ("canvasBordersWidth", VInt 3);
  ("canvasBordersStyle", VStr "solid");
  ("canvasBordersColor", VStr "black");
  ("zeroValue", VNum (lit 1 (-10)));
  ("graphTitle", VStr "");
  ("graphTitleFontFamily", VStr "'Arial'");
  ("graphTitleFontSize", VInt 24);
  ("graphTitleFontStyle", VStr "bold");
  ("graphTitleFontColor", VStr "#666");
  ("graphTitleSpaceBefore", VInt 5);
  ("graphTitleSpaceAfter", VInt 5);
  ("graphTitleBorders", VBool false);
  ("graphTitleBordersColor", VStr "black");
  ("graphTitleBordersXSpace", VInt 3);
  ("graphTitleBordersYSpace", VInt 3);
  ("graphTitleBordersWidth", VInt 1);
  ("graphTitleBordersStyle", VStr "solid");
  ("graphTitleBackgroundColor", VStr "none");
  ("graphSubTitle", VStr "");
  ("graphSubTitleFontFamily", VStr "'Arial'");
  ("graphSubTitleFontSize", VInt 18);
  ("graphSubTitleFontStyle", VStr "normal");
  ("graphSubTitleFontColor", VStr "#666");
  ("graphSubTitleSpaceBefore", VInt 5);
  ("graphSubTitleSpaceAfter", VInt 5);
  ("graphSubTitleBorders", VBool false);
  ("graphSubTitleBordersColor", VStr "black");
  ("graphSubTitleBordersXSpace", VInt 3);
  ("graphSubTitleBordersYSpace", VInt 3);
  ("graphSubTitleBordersWidth", VInt 1);
  ("graphSubTitleBordersStyle", VStr "solid");
  ("graphSubTitleBackgroundColor", VStr "none");
  ("footNote", VStr "");
  ("footNoteFontFamily", VStr "'Arial'");
  ("footNoteFontSize", VInt 8);
  ("footNoteFontStyle", VStr "bold");
  ("footNoteFontColor", VStr "#666");
  ("footNoteSpaceBefore", VInt 5);
  ("footNoteSpaceAfter", VInt 5);
  ("footNoteBorders", VBool false);
  ("footNoteBordersColor", VStr "black");
  ("footNoteBordersXSpace", VInt 3);
  ("footNoteBordersYSpace", VInt 3);
  ("footNoteBordersWidth", VInt 1);
  ("footNoteBordersStyle", VStr "solid");
  ("footNoteBackgroundColor", VStr "none");
  ("legend", VBool false);
  ("showSingleLegend", VBool false);
  ("maxLegendCols", VInt 999);
  ("legendPosY", VInt 4);
  ("legendPosX", VInt (-2));
  ("legendFontFamily", VStr "'Arial'");
  ("legendFontSize", VInt 12);
  ("legendFontStyle", VStr "normal");
  ("legendFontColor", VStr "#666");
  ("legendBlockSize", VInt 15);
  ("legendBorders", VBool true);
  ("legendBordersStyle", VStr "solid");
  ("legendBordersWidth", VInt 1);
  ("legendBordersColors", VStr "#666");
  ("legendBordersSpaceBefore", VInt 5);
  ("legendBordersSpaceAfter", VInt 5);
  ("legendBordersSpaceLeft", VInt 5);
  ("legendBordersSpaceRight", VInt 5);
  ("legendSpaceBeforeText", VInt 5);
  ("legendSpaceAfterText", VInt 5);
  ("legendSpaceLeftText", VInt 5);
  ("legendSpaceRightText", VInt 5);
  ("legendSpaceBetweenTextVertical", VInt 5);
  ("legendSpaceBetweenTextHorizontal", VInt 5);
  ("legendSpaceBetweenBoxAndText", VInt 5);
  ("legendFillColor", VStr "rgba(0,0,0,0)");
  ("legendXPadding", VInt 0);
  ("legendYPadding", VInt 0);
  ("inGraphDataBorders", VBool false);
  ("inGraphDataBordersColor", VStr "black");
  ("inGraphDataBordersXSpace", VInt 3);
  ("inGraphDataBordersYSpace", VInt 3);
  ("inGraphDataBordersWidth", VInt 1);
  ("inGraphDataBordersStyle", VStr "solid");
  ("inGraphDataBackgroundColor", VStr "none");
  ("annotateDisplay", VBool false);
  ("annotateRelocate", VBool false);
  ("savePng", VBool false);
  ("savePngOutput", VStr "NewWindow");
  ("savePngFunction", VStr "mousedown right");
  ("savePngBackgroundColor", VStr "WHITE");
  ("annotateFunction", VStr "mousemove");
  ("annotateFontFamily", VStr "'Arial'");
  ("annotateBorder", VStr "none");
  ("annotateBorderRadius", VStr "2px");
  ("annotateBackgroundColor", VStr "rgba(0,0,0,0.8)");
  ("annotateFontSize", VInt 12);
  ("annotateFontColor", VStr "white");
  ("annotateFontStyle", VStr "normal");
  ("annotatePadding", VStr "3px");
  ("annotateClassName", VStr "");
  ("annotateFunctionIn", VNull);
  ("annotateFunctionOut", VNull)
].

(** <<chart.defaults.commonOptions>>, from the texts and images drawn across the chart on *)
Definition commonOptions_tail : list (string * jsval) := [
  ("crossText", VArr [VStr ""]);
  ("crossTextIter", VArr [VStr "all"]);
  ("crossTextOverlay", VArr [VBool true]);
  ("crossTextFontFamily", VArr [VStr "'Arial'"]);
  ("crossTextFontSize", VArr [VInt 12]);
  ("crossTextFontStyle", VArr [VStr "normal"]);
  ("crossTextFontColor", VArr [VStr "rgba(220,220,220,1)"]);
  ("crossTextRelativePosX", VArr [VInt 2]);
  ("crossTextRelativePosY", VArr [VInt 2]);
  ("crossTextBaseline", VArr [VStr "middle"]);
  ("crossTextAlign", VArr [VStr "center"]);
  ("crossTextPosX", VArr [VInt 0]);
  ("crossTextPosY", VArr [VInt 0]);
  ("crossTextAngle", VArr [VInt 0]);
  ("crossTextFunction", VNull);
  ("crossTextBorders", VArr [VBool false]);
  ("crossTextBordersColor", VArr [VStr "black"]);
  ("crossTextBordersXSpace", VArr [VInt 3]);
  ("crossTextBordersYSpace", VArr [VInt 3]);
  ("crossTextBordersWidth", VArr [VInt 1]);
  ("crossTextBordersStyle", VArr [VStr "solid"]);
  ("crossTextBackgroundColor", VArr [VStr "none"]);
  ("crossImage", VArr [VUndef]);
  ("crossImageIter", VArr [VStr "all"]);
  ("crossImageOverlay", VArr [VBool true]);
  ("crossImageRelativePosX", VArr [VInt 2]);
  ("crossImageRelativePosY", VArr [VInt 2]);
  ("crossImageBaseline", VArr [VStr "middle"]);
  ("crossImageAlign", VArr [VStr "center"]);
  ("crossImagePosX", VArr [VInt 0]);
  ("crossImagePosY", VArr [VInt 0]);
  ("crossImageAngle", VArr [VInt 0]);
  ("spaceTop", VInt 0);
  ("spaceBottom", VInt 0);
  ("spaceRight", VInt 0);
  ("spaceLeft", VInt 0);
  ("decimalSeparator", VStr ".");
  ("thousandSeparator", VStr "");
  ("roundNumber", VStr "none");
  ("roundPct", VInt (-1));
  ("templatesOpenTag", VStr "<%=");
  ("templatesCloseTag", VStr "%>");
  ("fmtV1", VStr "none");
  ("fmtV2", VStr "none");
  ("fmtV3", VStr "none");
  ("fmtV4", VStr "none");
  ("fmtV5", VStr "none");
  ("fmtV6", VStr "none");
  ("fmtV6T", VStr "none");
  ("fmtV7", VStr "none");
  ("fmtV8", VStr "none");
  ("fmtV8T", VStr "none");
  ("fmtV9", VStr "none");
  ("fmtV10", VStr "none");
  ("fmtV11", VStr "none");
  ("fmtV12", VStr "none");
  ("fmtV13", VStr "none");
  ("fmtXLabel", VStr "none");
  ("fmtYLabel", VStr "none");
  ("fmtYLabel2", VStr "none");
  ("fmtLegend", VStr "none");
  ("animationStartValue", VInt 0);
  ("animationStopValue", VInt 1);
  ("animationCount", VInt 1);
  ("animationPauseTime", VInt 5);
  ("animationBackward", VBool false);
  ("animationStartWithDataset", VInt 1);
  ("animationStartWithData", VInt 1);
  ("animationLeftToRight", VBool false);
  ("animationByDataset", VBool false);
  ("defaultStrokeColor", VStr "rgba(220,220,220,1)");
  ("defaultFillColor", VStr "rgba(220,220,220,0.5)");
  ("defaultLineWidth", VInt 2);
  ("graphMaximized", VBool false);
  ("contextMenu", VBool true);
  ("mouseDownRight", VNull);
  ("mouseDownLeft", VNull);
  ("mouseDownMiddle", VNull);
  ("mouseMove", VNull);
  ("mouseOut", VNull);
  ("mouseWheel", VNull);
  ("savePngName", VStr "canvas");
  ("responsive", VBool false);
  ("responsiveMinWidth", VInt 0);
  ("responsiveMinHeight", VInt 0);
  ("responsiveMaxWidth", VInt 9999999);
  ("responsiveMaxHeight", VInt 9999999);
  ("maintainAspectRatio", VBool true);
  ("responsiveScaleContent", VBool false);
  ("responsiveWindowInitialWidth", VBool false);
  ("pointMarker", VStr "circle")
].

Definition commonOptions : list (string * jsval) := commonOptions_head ++ commonOptions_tail.

(** <<chart.defaults.xyAxisCommonOptions>> *)
Definition xyAxisCommonOptions : list (string * jsval) := [
  ("yAxisMinimumInterval", VStr "none");
  ("yAxisMinimumInterval2", VStr "none");
  ("yScaleLabelsMinimumWidth", VInt 0);
  ("xScaleLabelsMinimumWidth", VInt 0);
  ("yAxisLeft", VBool true);
  ("yAxisRight", VBool false);
  ("xAxisBottom", VBool true);
  ("xAxisTop", VBool false);
  ("xAxisSpaceBetweenLabels", VInt 5);
  ("fullWidthGraph", VBool false);
  ("yAxisLabel", VStr "");
  ("yAxisLabel2", VStr "");
  ("yAxisFontFamily", VStr "'Arial'");
  ("yAxisFontSize", VInt 16);
  ("yAxisFontStyle", VStr "normal");
  ("yAxisFontColor", VStr "#666");
  ("yAxisLabelSpaceRight", VInt 5);
  ("yAxisLabelSpaceLeft", VInt 5);
  ("yAxisSpaceRight", VInt 5);
  ("yAxisSpaceLeft", VInt 5);
  ("yAxisLabelBorders", VBool false);
  ("yAxisLabelBordersColor", VStr "black");
  ("yAxisLabelBordersXSpace", VInt 3);
  ("yAxisLabelBordersYSpace", VInt 3);
  ("yAxisLabelBordersWidth", VInt 1);
  ("yAxisLabelBordersStyle", VStr "solid");
  ("yAxisLabelBackgroundColor", VStr "none");
  ("xAxisLabel", VStr "");
  ("xAxisFontFamily", VStr "'Arial'");
  ("xAxisFontSize", VInt 16);
  ("xAxisFontStyle", VStr "normal");
  ("xAxisFontColor", VStr "#666");
  ("xAxisLabelSpaceBefore", VInt 5);
  ("xAxisLabelSpaceAfter", VInt 5);
  ("xAxisSpaceBefore", VInt 5);
  ("xAxisSpaceAfter", VInt 5);
  ("xAxisLabelBorders", VBool false);
  ("xAxisLabelBordersColor", VStr "black");
  ("xAxisLabelBordersXSpace", VInt 3);
  ("xAxisLabelBordersYSpace", VInt 3);
  ("xAxisLabelBordersWidth", VInt 1);
  ("xAxisLabelBordersStyle", VStr "solid");
  ("xAxisLabelBackgroundColor", VStr "none");
  ("yAxisUnit", VStr "");
  ("yAxisUnit2", VStr "");
  ("yAxisUnitFontFamily", VStr "'Arial'");
  ("yAxisUnitFontSize", VInt 8);
  ("yAxisUnitFontStyle", VStr "normal");
  ("yAxisUnitFontColor", VStr "#666");
  ("yAxisUnitSpaceBefore", VInt 5);
  ("yAxisUnitSpaceAfter", VInt 5);
  ("yAxisUnitBorders", VBool false);
  ("yAxisUnitBordersColor", VStr "black");
  ("yAxisUnitBordersXSpace", VInt 3);
  ("yAxisUnitBordersYSpace", VInt 3);
  ("yAxisUnitBordersWidth", VInt 1);
  ("yAxisUnitBordersStyle", VStr "solid");
  ("yAxisUnitBackgroundColor", VStr "none")
].

(** ** The options a chart runs with *)

Inductive chart_type : Type :=
| PolarArea | Radar | Pie | Doughnut | Line
| StackedBar | HorizontalStackedBar | Bar | HorizontalBar.

#[export] Instance chart_type_eq_dec : EqDecision chart_type.
Proof. solve_decision. Defined.

Definition tpchart_name (t : chart_type) : string :=
  match t with
  | PolarArea => "PolarArea" | Radar => "Radar" | Pie => "Pie" | Doughnut => "Doughnut"
  | Line => "Line" | StackedBar => "StackedBar"
  | HorizontalStackedBar => "HorizontalStackedBar" | Bar => "Bar"
  | HorizontalBar => "HorizontalBar"
  end.

(** The page's own defaults: [charJSPersonalDefaultOptions] and its variant
    for each chart type. *)
Record personal_options : Type := {
  charJSPersonalDefaultOptions : config;
  charJSPersonalDefaultOptionsOf : chart_type -> config
}.

(** The globals as ChartNew.js initialises them. *)
Definition no_personal_options : personal_options := {|
  charJSPersonalDefaultOptions := ∅;
  charJSPersonalDefaultOptionsOf := fun _ => ∅
|}.

(** [(options) ? mergeChartConfig(defaults, options) : defaults] *)
Definition with_options (defaults : config) (options : option config) : config :=
  match options with
  | Some o => mergeChartConfig defaults o
  | None => defaults
  end.

Definition with_personal (env : personal_options) (t : chart_type) (defaults : config) : config :=
  mergeChartConfig (mergeChartConfig defaults (charJSPersonalDefaultOptions env))
    (charJSPersonalDefaultOptionsOf env t).

Definition PolarArea_config (env : personal_options) (options : option config) : config :=
  with_options (with_personal env PolarArea
    (mergeChartConfig (of_fields commonOptions) (of_fields PolarArea_defaults))) options.

Definition Radar_config (env : personal_options) (options : option config) : config :=
  with_options (with_personal env Radar
    (mergeChartConfig (of_fields commonOptions) (of_fields Radar_defaults))) options.

Definition Pie_config (env : personal_options) (options : option config) : config :=
  with_options (with_personal env Pie
    (mergeChartConfig (of_fields commonOptions) (of_fields Pie_defaults))) options.

Definition Doughnut_config (env : personal_options) (options : option config) : config :=
  with_options (with_personal env Doughnut
    (mergeChartConfig (of_fields commonOptions) (of_fields Doughnut_defaults))) options.

Definition Line_config (env : personal_options) (options : option config) : config :=
  with_options (with_personal env Line
    (mergeChartConfig (of_fields xyAxisCommonOptions)
    (mergeChartConfig (of_fields commonOptions) (of_fields Line_defaults)))) options.

Definition StackedBar_config (env : personal_options) (options : option config) : config :=
  with_options (with_personal env StackedBar
    (mergeChartConfig (of_fields xyAxisCommonOptions)
    (mergeChartConfig (of_fields commonOptions) (of_fields StackedBar_defaults)))) options.

Definition HorizontalStackedBar_config (env : personal_options) (options : option config) : config :=
  with_options (with_personal env HorizontalStackedBar
    (mergeChartConfig (of_fields xyAxisCommonOptions)
    (mergeChartConfig (of_fields commonOptions) (of_fields HorizontalStackedBar_defaults)))) options.

Definition Bar_config (env : personal_options) (options : option config) : config :=
  with_options (with_personal env Bar
    (mergeChartConfig (of_fields xyAxisCommonOptions)
    (mergeChartConfig (of_fields commonOptions) (of_fields Bar_defaults)))) options.

Definition HorizontalBar_config (env : personal_options) (options : option config) : config :=
  with_options (with_personal env HorizontalBar
    (mergeChartConfig (of_fields xyAxisCommonOptions)
    (mergeChartConfig (of_fields commonOptions) (of_fields HorizontalBar_defaults)))) options.

Definition chart_config (t : chart_type) : personal_options -> option config -> config :=
  match t with
  | PolarArea => PolarArea_config
  | Radar => Radar_config
  | Pie => Pie_config
  | Doughnut => Doughnut_config
  | Line => Line_config
  | StackedBar => StackedBar_config
  | HorizontalStackedBar => HorizontalStackedBar_config
  | Bar => Bar_config
  | HorizontalBar => HorizontalBar_config
  end.

Definition chart_defaults (t : chart_type) : list (string * jsval) :=
  match t with
  | PolarArea => PolarArea_defaults
  | Radar => Radar_defaults
  | Pie => Pie_defaults
  | Doughnut => Doughnut_defaults
  | Line => Line_defaults
  | StackedBar => StackedBar_defaults
  | HorizontalStackedBar => HorizontalStackedBar_defaults
  | Bar => Bar_defaults
  | HorizontalBar => HorizontalBar_defaults
  end.

Definition has_axes (t : chart_type) : bool :=
  match t with
  | PolarArea | Radar | Pie | Doughnut => false
  | _ => true
  end.

(** ** The cascade *)

Lemma assign_all_union (dst src : config) : assign_all dst src = src ∪ dst.
Proof.
  unfold assign_all.
  apply (map_fold_weak_ind (fun r (m : config) => r = m ∪ dst)).
  - by rewrite map_empty_union.
  - intros k v m r Hk ->. by rewrite insert_union_l.
Qed.

(** The field of an object literal that counts. *)
Fixpoint last_field (l : list (string * jsval)) (k : string) : option jsval :=
  match l with
  | [] => None
  | (k', v) :: r => match last_field r k with
                    | Some w => Some w
                    | None => if String.eqb k' k then Some v else None
                    end
  end.

Lemma lookup_of_fields (l : list (string * jsval)) (k : string) : of_fields l !! k = last_field l k.
Proof.
  unfold of_fields. enough (Hm : forall m : config, fold_left (fun m kv => <[kv.1 := kv.2]> m) l m !! k =
    match last_field l k with Some v => Some v | None => m !! k end).
  { rewrite Hm, lookup_empty. by destruct (last_field l k). }
  induction l as [|[k' v] r IH]; intros m; [done|]. cbn [fold_left last_field fst snd]. rewrite IH.
  destruct (last_field r k); [done|].
  destruct (String.eqb_spec k' k) as [->|Hne]; [apply lookup_insert_eq|by apply lookup_insert_ne].
Qed.

Lemma mergeChartConfig_union (defaults userDefined : config) :
  mergeChartConfig defaults userDefined = userDefined ∪ defaults.
Proof. unfold mergeChartConfig. by rewrite !assign_all_union, map_union_empty. Qed.

(** The layers of a chart's configuration, the strongest first. *)
Definition layers (t : chart_type) (env : personal_options) (options : option config) : list config :=
  (match options with Some o => [o] | None => [] end)
  ++ [charJSPersonalDefaultOptionsOf env t; charJSPersonalDefaultOptions env;
      of_fields (chart_defaults t); of_fields commonOptions]
  ++ (if has_axes t then [of_fields xyAxisCommonOptions] else []).

(** The first layer that defines an option decides its value. *)
Fixpoint first_defined (ls : list config) (k : string) : option jsval :=
  match ls with
  | [] => None
  | m :: ls' => match m !! k with Some v => Some v | None => first_defined ls' k end
  end.

Lemma lookup_union_list (ls : list config) (k : string) :
  (foldr union ∅ ls : config) !! k = first_defined ls k.
Proof.
  induction ls as [|m ls IH]; [done|].
  simpl. rewrite lookup_union, IH. by destruct (m !! k), (first_defined ls k).
Qed.

Lemma chart_config_layers (t : chart_type) (env : personal_options) (options : option config) :
  chart_config t env options = foldr union ∅ (layers t env options).
Proof.
  destruct t, options; unfold layers; cbn [chart_config chart_defaults has_axes app foldr];
    unfold PolarArea_config, Radar_config, Pie_config, Doughnut_config, Line_config,
      StackedBar_config, HorizontalStackedBar_config, Bar_config, HorizontalBar_config,
      with_options, with_personal;
    by rewrite !mergeChartConfig_union, map_union_empty, ?(assoc_L union).
Qed.

(** Options that were resolved once are not changed by resolving them again: a
    redraw hands the chart its own configuration. *)
Lemma chart_config_idemp (t : chart_type) (env : personal_options) (c : config) :
  chart_config t env (Some (chart_config t env (Some c))) = chart_config t env (Some c).
Proof.
  apply map_eq; intros k. rewrite !chart_config_layers, !lookup_union_list.
  unfold layers; cbn [app first_defined]. rewrite lookup_union_list.
  cbn [app first_defined]. by case_match; [|case_match].
Qed.

(** C17: *)
Theorem chart_config_precedence (t : chart_type) (env : personal_options) (options : option config) (k : string) :
  chart_config t env options !! k = first_defined (layers t env options) k.
Proof. by rewrite chart_config_layers, lookup_union_list. Qed.
