(* ===== verification/OptionValue.v ===== *)
(** * Reading options and choosing drawing styles (ChartNew.js)

    [setOptionValue] computes the value of an option at a data point, from the
    dataset's own value, the chart's option and a scale; [isBooleanOptionTrue]
    tests a whole option; [tpdraw] and [lineStyleFn] pick how a dataset and a
    line are drawn. *)

From stdpp Require Import base list strings gmap.
From Stdlib Require Import ZArith SpecFloat.
From S2P Require Import Prelude Num Binary64 Value Options.

Open Scope Z_scope.

(** ** Chart data *)

(** A dataset of a chart with axes: its points and its other properties. *)
Record dataset : Type := {
  ds_data : list jsval;
  ds_props : config
}.

Record chart_data : Type := {
  labels : list jsval;
  datasets : list dataset
}.

(** ** Options at a data point *)

Section OptionValue.

(** What a callback option returns when it is called with the reference, the
    positions and the other variables (the context, the data and the
    statistics it also receives are those of the chart). *)
Context (callback : positive -> string -> Z -> Z -> jsval -> res jsval).

(** [o[Math.min(o.length-1, Math.max(0, pos))]] *)
Definition clamped_index (o : jsval) (pos : Z) : res jsval :=
  let* len := get_prop o "length" in
  get_index o (Math_min (to_num len - of_Z 1)%num (Math_max n0 (of_Z pos))).

Definition option_at (v : jsval) (posi posj : Z) : res jsval :=
  if posj =? -1 then clamped_index v posi else clamped_index v posj.

Definition rescaled (rescale : num) (rv : jsval) : jsval :=
  if (rescale == of_Z 1)%num then rv else VNum (Math_ceil (to_num rv * rescale)%num).

Definition setOptionValue (rescale : num) (reference : string) (optionvar defaultvalue : jsval)
    (posi posj : Z) (othervars : jsval) : res jsval :=
  if is_undefined optionvar then
    match defaultvalue with
    | VFun f => callback f reference posi posj othervars
    | _ =>
        let* rv := if String.eqb (typeof defaultvalue) "object"
                   then option_at defaultvalue posi posj
                   else Ok defaultvalue in
        Ok (rescaled rescale rv)
    end
  else
    let* rv := match optionvar with
               | VFun f => callback f reference posi posj othervars
               | _ => if String.eqb (typeof optionvar) "object"
                      then option_at optionvar posi posj
                      else Ok optionvar
               end in
    Ok (rescaled rescale rv).

End OptionValue.

(** ** Whole options *)

(** [for(j=0;j<o.length;j++) if (o[j]) return true; return false;] *)
Definition some_truthy (o : jsval) : res bool :=
  match o with
  | VNull | VUndef => Throw TypeError
  | VArr l => Ok (existsb truthy l)
  | VObj fs =>
      match to_num (field fs "length") with
      | S754_infinity false => Throw Diverges
      | S754_finite false m e =>
          let len := Z.to_nat (- floor_Z true m e) in
          Ok (existsb (fun j => truthy (field fs (string_of_Z_abs (Z.of_nat j)))) (seq 0 len))
      | _ => Ok false
      end
  | _ => Ok false
  end.

(** The function's parameter is called [optionVar] while its body reads
    [optionvar]: a global variable, given here as the first argument
    ([VUndef] when no script declares it, as [typeof] reports it). *)
Definition isBooleanOptionTrue (optionvar : jsval) (optionVar defaultvalue : jsval) : res jsval :=
  if is_undefined optionvar then
    if is_function defaultvalue then Ok (VBool true)
    else if String.eqb (typeof defaultvalue) "object" then
      let* b := some_truthy defaultvalue in Ok (VBool b)
    else Ok defaultvalue
  else if is_function optionvar then Ok (VBool true)
  else if String.eqb (typeof optionvar) "object" then
    let* b := some_truthy optionvar in Ok (VBool b)
  else Ok optionvar.

(** ** Drawing styles *)

(** How a dataset is drawn in a chart of type [tpchart]. *)
Definition tpdraw (tpchart : chart_type) (dataval : dataset) : chart_type :=
  match tpchart with
  | Bar => if loose_eq (ds_props dataval).["type"] (VStr "Line") then Line else tpchart
  | _ => tpchart
  end.

(** [chartJSLineStyle] *)
Definition chartJSLineStyle : list (string * list Z) := [
  ("solid", []);
  ("dotted", [1; 4]);
  ("shortDash", [2; 1]);
  ("dashed", [4; 2]);
  ("dashSpace", [4; 6]);
  ("longDashDot", [7; 2; 1; 2]);
  ("longDashShortDash", [10; 4; 4; 4]);
  ("gradient", [1; 2; 2; 3; 3; 4; 4; 5; 5; 6; 6; 7; 7; 8; 8; 9; 9; 10; 10;
                9; 9; 8; 8; 7; 7; 6; 6; 5; 5; 4; 4; 3; 3; 2; 2; 1])
]%string.

(** The table is an array used as a dictionary: the names of the methods arrays
    inherit are functions, so they are not of type "object" and fall back to
    the solid style like every unknown name; [__proto__] is left out. *)
Definition lineStyleFn (data : string) : list Z :=
  match find (fun kv => String.eqb kv.1 data) chartJSLineStyle with
  | Some (_, l) => l
  | None => []
  end.

(** ** Elements of array options *)

(** The element nearest to position [pos]. *)
Definition nearest_element (l : list jsval) (pos : Z) : jsval :=
  default VUndef (l !! Z.to_nat (Z.min (Z.of_nat (length l) - 1) (Z.max 0 pos))).

Lemma index_of_num_of_Z (z : Z) : safe z -> 0 <= z -> index_of_num (of_Z z) = Some (Z.to_nat z).
Proof.
  intros Hz Hpos. destruct (decide (z = 0)) as [->|Hne]; [done|].
  destruct (of_Z_shape z Hz Hne) as (s & m & e & Heq & Hfl & Hs).
  replace (z <? 0) with false in Hs by (symmetry; apply Z.ltb_ge; lia). subst s.
  pose proof (Math_floor_of_Z z Hz) as Hm. rewrite Heq in *. cbn [index_of_num].
  rewrite Hm, Hfl. pose proof (neq_of_Z z z Hz Hz) as Hq. rewrite Heq in Hq.
  by rewrite Hq, Z.eqb_refl.
Qed.

Lemma index_of_num_minus_1 : index_of_num (of_Z (-1)) = None.
Proof. done. Qed.

Lemma clamped_index_array (l : list jsval) (pos : Z) :
  safe (Z.of_nat (length l)) -> safe pos ->
  clamped_index (VArr l) pos = Ok (nearest_element l pos).
Proof.
  intros Hl Hp. unfold clamped_index, nearest_element. cbn [get_prop res_bind].
  change (to_num (if String.eqb "length" "length" then _ else _)) with (of_Z (Z.of_nat (length l))).
  change n0 with (of_Z 0). unfold safe in *.
  rewrite nsub_of_Z, Math_max_of_Z, Math_min_of_Z by (unfold safe; lia).
  cbn [get_index]. f_equal. destruct l as [|v l].
  - cbn [length]. replace (Z.min _ _) with (-1) by lia. done.
  - rewrite index_of_num_of_Z by (unfold safe; cbn [length] in *; lia). done.
Qed.

Section Elements.

Context (callback : positive -> string -> Z -> Z -> jsval -> res jsval).

(** The value an option takes when it is an array of values, or when it is left
    to a default that is one. *)
Definition array_option (optionvar defaultvalue : jsval) (l : list jsval) : Prop :=
  optionvar = VArr l \/ (optionvar = VUndef /\ defaultvalue = VArr l).

(** An array option takes at a data point the element at the point's
    position, the last element for points beyond its end and the first for
    negative positions; the position is that of the dataset when there is no
    point. *)
Theorem setOptionValue_array (rescale : num) (reference : string) (optionvar defaultvalue : jsval)
    (l : list jsval) (posi posj : Z) (othervars : jsval) :
  array_option optionvar defaultvalue l ->
  safe (Z.of_nat (length l)) -> safe posi -> safe posj ->
  setOptionValue callback rescale reference optionvar defaultvalue posi posj othervars
  = Ok (rescaled rescale (nearest_element l (if posj =? -1 then posi else posj))).
Proof.
  intros [->|[-> ->]] Hl Hi Hj; unfold setOptionValue;
    cbn [is_undefined typeof String.eqb Ascii.eqb Bool.eqb]; unfold option_at;
    destruct (posj =? -1); by rewrite clamped_index_array.
Qed.

(** An option that is left out and whose default is [null] cannot be read:
    the access to its length throws, for every position. *)
Theorem setOptionValue_null_default (rescale : num) (reference : string) (posi posj : Z) (othervars : jsval) :
  setOptionValue callback rescale reference VUndef VNull posi posj othervars = Throw TypeError /\
  setOptionValue callback rescale reference VNull (VInt 0) posi posj othervars = Throw TypeError.
Proof.
  unfold setOptionValue. cbn [is_undefined typeof]. rewrite String.eqb_refl. unfold option_at.
  by destruct (posj =? -1).
Qed.

End Elements.

Definition no_callback (f : positive) (reference : string) (i j : Z) (v : jsval) : res jsval :=
  Throw TypeError.

(** The third point of a dataset whose colours are listed for two points. *)
Lemma setOptionValue_array_witness :
  setOptionValue no_callback (of_Z 1) "" (VArr [VStr "red"; VStr "blue"]%string) VNull 0 2 VNull
  = Ok (VStr "blue"%string).
Proof.
  refine (eq_trans (setOptionValue_array no_callback (of_Z 1) "" (VArr [VStr "red"; VStr "blue"]%string) VNull
    [VStr "red"; VStr "blue"]%string 0 2 VNull _ _ _ _) _).
  - by left.
  - unfold safe. cbn. lia.
  - unfold safe. lia.
  - unfold safe. lia.
  - reflexivity.
Defined.

(** ** Flags given as arrays *)

(** [isBooleanOptionTrue] does not look at its argument.  Called with an
    array of flags one of which is set, it answers with the default on a page
    without a global variable [optionvar]; it would find the flag if the array
    were the value of that global. *)
Lemma isBooleanOptionTrue_reads_global (l : list jsval) (b : bool) :
  existsb truthy l = true ->
  isBooleanOptionTrue VUndef (VArr l) (VBool b) = Ok (VBool b) /\
  isBooleanOptionTrue (VArr l) VUndef (VBool b) = Ok (VBool true).
Proof.
  intros Hl. split; [done|]. unfold isBooleanOptionTrue.
  cbn [is_undefined is_function typeof]. rewrite String.eqb_refl. cbn [some_truthy res_bind].
  by rewrite Hl.
Qed.
