(* ===== verification/Format.v ===== *)
(** * Formatting of numbers (ChartNew.js, inaeticsCommon.js)

    [fmtChartJS] turns a value into the text a chart shows, with the configured
    separators and rounding; [unFormat] reads such a text back;
    [roundToWithThousands] rounds percentages.  The page replaces
    [fmtChartJSPerso], the formatter of named formats. *)

From stdpp Require Import base list strings gmap.
From Stdlib Require Import ZArith SpecFloat Ascii.
From S2P Require Import Prelude Num Binary64 Value Options.

Open Scope Z_scope.
Open Scope string_scope.

(** ** String operations *)

(** The text after the first occurrence of a non-empty [sep], with the text
    before it. *)
Fixpoint split_first (sep s : string) : option (string * string) :=
  match starts_with sep s with
  | Some r => Some ("", r)
  | None =>
      match s with
      | EmptyString => None
      | String c s' =>
          match split_first sep s' with
          | Some (a, b) => Some (String c a, b)
          | None => None
          end
      end
  end.

(** [s.replace(sep, by)] for strings: the first occurrence. *)
Definition replace_first (sep by_ s : string) : string :=
  match split_first sep s with
  | Some (a, b) => a ++ by_ ++ b
  | None => s
  end.

(** [while (s.indexOf(sep) >= 0) s = s.replace(sep, "")] *)
Fixpoint remove_all (fuel : nat) (sep s : string) : string :=
  match fuel with
  | O => s
  | S f =>
      match split_first sep s with
      | Some (a, b) => remove_all f sep (a ++ b)
      | None => s
      end
  end.

(** [s.replace(/\./g, by)] *)
Fixpoint replace_dots (by_ s : string) : string :=
  match s with
  | EmptyString => ""
  | String c r => if Ascii.eqb c "." then by_ ++ replace_dots by_ r
                  else String c (replace_dots by_ r)
  end.

Definition is_digit (c : ascii) : bool :=
  match digit_of c with Some _ => true | None => false end.

(** A word character of a regular expression, [\w]. *)
Definition is_word (c : ascii) : bool :=
  let n := nat_of_ascii c in
  bool_decide ((48 <= n <= 57) \/ (65 <= n <= 90) \/ (97 <= n <= 122) \/ n = 95)%nat.

Fixpoint digit_run (s : string) : nat :=
  match s with
  | String c r => if is_digit c then S (digit_run r) else 0
  | EmptyString => 0
  end.

(** [s.replace(/\B(?=(\d{3})+(?!\d))/g, sep)]: the separator goes before a digit
    that follows a word character and starts a run of digits whose length is a
    multiple of three. *)
Fixpoint group_from (prev_word : bool) (sep s : string) : string :=
  match s with
  | EmptyString => ""
  | String c r =>
      let here := prev_word && is_digit c && (Nat.modulo (digit_run s) 3 =? 0)%nat in
      (if here then sep else "") ++ String c (group_from (is_word c) sep r)
  end.
Definition group_thousands (sep s : string) : string := group_from false sep s.

(** ** Formatting *)

Definition is_num (v : jsval) : bool := match v with VNum _ => true | _ => false end.
Definition is_str (v : jsval) : bool := match v with VStr _ => true | _ => false end.

(** [typeof value == "number"] etc. are tests on constructors. *)

(** The formatter of named formats that ChartNew.js brings. *)
Definition fmtChartJSPerso_ChartNew (value : jsval) (fmt : string) : res jsval :=
  if String.eqb fmt "SampleJS_Format" then
    match value with
    | VNum n => Ok (VStr ("My Format : " ++ num_to_string n ++ " $"))
    | _ => Ok (js_add value (VStr "XX"))
    end
  else if String.eqb fmt "Change_Month" then
    match value with
    | VStr s => Ok (VStr (s ++ " 2014"))
    | VUndef | VNull => Throw TypeError
    | _ => Ok (VStr (to_str value ++ "YY"))
    end
  else Ok value.

Section Format.

(** [new Date(value).toLocaleTimeString('nl-NL', { hour12: false })] *)
Context (toLocaleTimeString : jsval -> string).

(** The formatter the dashboard pages install in its place. *)
Definition fmtChartJSPerso (value : jsval) (fmt : string) : res jsval :=
  if String.eqb fmt "DateTime" then Ok (VStr (toLocaleTimeString value)) else Ok value.

(** [+(Math.round(v + "e+" + r) + "e-" + r)] *)
Definition round_decimals (v : num) (r : jsval) : num :=
  let shifted := string_to_num (num_to_string v ++ "e+" ++ to_str r) in
  string_to_num (num_to_string (Math_round shifted) ++ "e-" ++ to_str r).

(** [+(Math.round(v / divval)) * divval] with [divval = "1e+" + r] *)
Definition round_to_multiple (v : num) (r : jsval) : num :=
  let divval := string_to_num ("1e+" ++ to_str r) in
  (Math_round (v / divval) * divval)%num.

Definition round_at (v : num) (place : jsval) : num :=
  if (to_num place <= n0)%num then round_decimals v (VNum (nneg (to_num place)))
  else round_to_multiple v place.

Definition fmt_number (c : config) (value : num) : jsval :=
  let value := if loose_eq c.["roundNumber"] (VStr "none") then value
               else round_at value c.["roundNumber"] in
  let dsep := to_str c.["decimalSeparator"] in
  let tsep := to_str c.["thousandSeparator"] in
  if negb (String.eqb dsep ".") || negb (String.eqb tsep "") then
    let return_value := replace_dots dsep (num_to_string value) in
    if negb (String.eqb tsep "") then
      let '(part1, part2) :=
        match split_first dsep return_value with
        | Some (a, _) =>
            (* substring(posdec + 1), reversed *)
            (a, string_rev (String.substring (String.length a + 1)
                              (String.length return_value) return_value))
        | None => (return_value, "")
        end in
      let part1 := group_thousands tsep part1 in
      let part2 := string_rev part2 in
      VStr (if negb (String.eqb part2 "") then part1 ++ dsep ++ part2 else part1)
    else VStr return_value
  else VNum value.

Definition fmtChartJS (c : config) (value : jsval) (fmt : string) : res jsval :=
  if String.eqb fmt "notformatted" then Ok value
  else if String.eqb fmt "none" then
    match value with
    | VNum n => Ok (fmt_number c n)
    | _ => Ok value
    end
  else fmtChartJSPerso value fmt.

Definition unFormat (c : config) (v : jsval) : jsval :=
  let dsep := to_str c.["decimalSeparator"] in
  let tsep := to_str c.["thousandSeparator"] in
  match v with
  | VStr s =>
      if negb (String.eqb dsep ".") || negb (String.eqb tsep "") then
        let v1 := if negb (String.eqb tsep "") then remove_all (String.length s) tsep s else s in
        let v1 := if negb (String.eqb dsep ".") then replace_first dsep "." v1 else v1 in
        VNum (of_Z 1 * string_to_num v1)%num
      else v
  | _ => v
  end.

Definition roundToWithThousands (c : config) (v : jsval) (place : jsval) : res jsval :=
  let newval := (of_Z 1 * to_num (unFormat c v))%num in
  let newval := if loose_eq place (VStr "none") then newval else round_at newval place in
  fmtChartJS c (VNum newval) "none".

End Format.

(** ** Reading back what was formatted *)

Fixpoint all_chars (P : ascii -> bool) (s : string) : bool :=
  match s with
  | EmptyString => true
  | String c r => P c && all_chars P r
  end.

(** The text of the separator that is a single character. *)
Definition one (c : ascii) : string := String c "".

Lemma app_cons (x : ascii) (a b : string) : String x a ++ b = String x (a ++ b).
Proof. done. Qed.

Lemma app_nil (b : string) : "" ++ b = b.
Proof. done. Qed.

Lemma app_string_assoc (a b c : string) : (a ++ b) ++ c = a ++ (b ++ c).
Proof. induction a as [|x a IH]; [done|]. by rewrite !app_cons, IH. Qed.

Lemma length_app (a b : string) : String.length (a ++ b) = (String.length a + String.length b)%nat.
Proof. induction a as [|x a IH]; [done|]. rewrite app_cons. cbn [String.length]. by rewrite IH. Qed.

Lemma app_empty_r (a : string) : a ++ "" = a.
Proof. induction a as [|x a IH]; [done|]. by rewrite !app_cons, IH. Qed.

Lemma split_first_char (c : ascii) (s : string) :
  split_first (one c) s =
  match s with
  | EmptyString => None
  | String x r => if Ascii.eqb c x then Some ("", r)
                  else match split_first (one c) r with
                       | Some (a, b) => Some (String x a, b)
                       | None => None
                       end
  end.
Proof.
  destruct s as [|x r]; [done|]. cbn [split_first one starts_with].
  by destruct (Ascii.eqb c x).
Qed.

Lemma split_first_none (c : ascii) (s : string) :
  all_chars (fun x => negb (Ascii.eqb c x)) s = true -> split_first (one c) s = None.
Proof.
  induction s as [|x r IH]; [done|]. cbn [all_chars]. intros [Hx Hr]%andb_prop.
  rewrite split_first_char. apply negb_true_iff in Hx. by rewrite Hx, IH.
Qed.

Lemma split_first_app (c : ascii) (a b : string) :
  all_chars (fun x => negb (Ascii.eqb c x)) a = true -> split_first (one c) (a ++ String c b) = Some (a, b).
Proof.
  induction a as [|x r IH]; rewrite ?app_cons, ?app_nil, split_first_char.
  - by rewrite Ascii.eqb_refl.
  - cbn [all_chars]. intros [Hx%negb_true_iff Hr]%andb_prop. by rewrite Hx, (IH Hr).
Qed.

(** All occurrences of a character are removed. *)
Fixpoint without (c : ascii) (s : string) : string :=
  match s with
  | EmptyString => ""
  | String x r => if Ascii.eqb c x then without c r else String x (without c r)
  end.

Lemma without_app (c : ascii) (a b : string) : without c (a ++ b) = without c a ++ without c b.
Proof.
  induction a as [|x a IH]; [done|]. rewrite app_cons. cbn [without].
  destruct (Ascii.eqb c x); by rewrite IH.
Qed.

Lemma without_id (c : ascii) (s : string) :
  all_chars (fun x => negb (Ascii.eqb c x)) s = true -> without c s = s.
Proof.
  induction s as [|x r IH]; [done|]. cbn [all_chars without].
  intros [Hx%negb_true_iff Hr]%andb_prop. by rewrite Hx, IH.
Qed.

Lemma split_first_spec (c : ascii) (s : string) :
  match split_first (one c) s with
  | Some (a, b) => without c (a ++ b) = without c s /\ String.length (a ++ b) = (String.length s - 1)%nat
                   /\ (0 < String.length s)%nat
  | None => without c s = s
  end.
Proof.
  induction s as [|x r IH]; [done|]. rewrite split_first_char. cbn [without].
  destruct (Ascii.eqb c x) eqn:Hx; [rewrite app_nil; cbn; repeat split; lia|].
  destruct (split_first (one c) r) as [[a b]|].
  - destruct IH as (IH1 & IH2 & IH3). rewrite app_cons. cbn [without String.length].
    rewrite Hx, IH1. repeat split; lia.
  - by rewrite IH.
Qed.

Lemma remove_all_without (c : ascii) (fuel : nat) (s : string) :
  (String.length s <= fuel)%nat -> remove_all fuel (one c) s = without c s.
Proof.
  revert s. induction fuel as [|f IH]; intros s Hs; [by destruct s; [|cbn in Hs; lia]|].
  cbn [remove_all]. pose proof (split_first_spec c s) as Hc.
  destruct (split_first (one c) s) as [[a b]|]; [|done].
  destruct Hc as (H1 & H2 & H3). rewrite IH; [done|lia].
Qed.

Lemma group_from_without (c : ascii) (prev : bool) (s : string) :
  all_chars (fun x => negb (Ascii.eqb c x)) s = true -> without c (group_from prev (one c) s) = s.
Proof.
  revert prev. induction s as [|x r IH]; intros prev; [done|].
  cbn [all_chars group_from]. intros [Hx%negb_true_iff Hr]%andb_prop.
  destruct (prev && is_digit x && _); unfold one; rewrite ?app_cons, app_nil; cbn [without];
    rewrite ?Ascii.eqb_refl, Hx; fold (one c); by rewrite IH.
Qed.

Lemma replace_dots_app (d a b : string) : replace_dots d (a ++ b) = replace_dots d a ++ replace_dots d b.
Proof.
  induction a as [|x a IH]; [done|]. rewrite app_cons. cbn [replace_dots].
  destruct (Ascii.eqb x "."); by rewrite ?app_cons, IH, ?app_string_assoc.
Qed.

Lemma replace_dots_id (d s : string) :
  all_chars (fun x => negb (Ascii.eqb "." x)) s = true -> replace_dots d s = s.
Proof.
  induction s as [|x r IH]; [done|]. cbn [all_chars replace_dots]. rewrite Ascii.eqb_sym.
  intros [Hx%negb_true_iff Hr]%andb_prop. by rewrite Hx, IH.
Qed.

Lemma substring_all (n : nat) (s : string) : (String.length s <= n)%nat -> String.substring 0 n s = s.
Proof.
  revert n. induction s as [|x s IH]; intros [|n] Hn; cbn in *; try done; try lia.
  by rewrite IH by lia.
Qed.

Lemma substring_skip (a s : string) (k n : nat) :
  String.substring (String.length a + k) n (a ++ s) = String.substring k n s.
Proof. induction a as [|x a IH]; [done|]. rewrite app_cons. cbn [String.length Nat.add]. exact IH. Qed.

Lemma string_rev_app_app (a b acc : string) : string_rev_app (a ++ b) acc = string_rev_app b (string_rev_app a acc).
Proof. revert acc. induction a as [|x a IH]; intros acc; [done|]. rewrite app_cons. apply IH. Qed.

Lemma string_rev_app_involutive (s acc : string) : string_rev_app (string_rev_app s acc) "" = string_rev_app acc s.
Proof. revert acc. induction s as [|x s IH]; intros acc; [done|]. cbn [string_rev_app]. by rewrite IH. Qed.

Lemma string_rev_involutive (s : string) : string_rev (string_rev s) = s.
Proof. unfold string_rev. by rewrite string_rev_app_involutive. Qed.

Lemma all_chars_impl (P Q : ascii -> bool) (s : string) :
  (forall x, P x = true -> Q x = true) -> all_chars P s = true -> all_chars Q s = true.
Proof.
  intros HPQ. induction s as [|x s IH]; [done|]. cbn [all_chars]. intros [Hx Hs]%andb_prop.
  by rewrite HPQ, IH.
Qed.

(** The characters of the integer part of a printed number. *)
Definition is_num_char (c : ascii) : bool := is_digit c || Ascii.eqb c "-".

(** The text of a number in decimal notation: an integer part, and decimals
    unless the number is an integer. *)
Definition plain_decimal (s int frac : string) : Prop :=
  s = (int ++ frac)%string /\ all_chars is_num_char int = true /\
  (frac = "" \/ exists b, frac = String "." b /\ b <> "" /\ all_chars is_digit b = true).

Lemma not_in_digits (c : ascii) (s : string) :
  is_num_char c = false -> all_chars is_num_char s = true ->
  all_chars (fun x => negb (Ascii.eqb c x)) s = true.
Proof.
  intros Hc. apply all_chars_impl. intros x Hx. destruct (Ascii.eqb_spec c x) as [->|]; [congruence|done].
Qed.

Lemma digits_num_chars (s : string) : all_chars is_digit s = true -> all_chars is_num_char s = true.
Proof. apply all_chars_impl. intros x Hx. unfold is_num_char. by rewrite Hx. Qed.

Section Separators.

Context (d t : ascii).
Hypothesis (Hd : is_num_char d = false) (Ht : is_num_char t = false) (Hdt : Ascii.eqb t d = false).

(** The text of a plain decimal with the separators [d] and [t]. *)
Definition separated (int frac : string) : string :=
  match frac with
  | EmptyString => group_thousands (one t) int
  | String _ b => group_thousands (one t) int ++ String d b
  end.

Lemma group_no_decimal_sep (prev : bool) (int : string) :
  all_chars is_num_char int = true ->
  all_chars (fun x => negb (Ascii.eqb d x)) (group_from prev (one t) int) = true.
Proof.
  revert prev. induction int as [|x r IH]; intros prev; [done|].
  cbn [all_chars group_from]. intros [Hx Hr]%andb_prop.
  assert (Hdx : Ascii.eqb d x = false) by (destruct (Ascii.eqb_spec d x) as [->|]; [congruence|done]).
  destruct (prev && is_digit x && _); unfold one; rewrite ?app_cons, app_nil; cbn [all_chars];
    fold (one t); rewrite Hdx, (IH _ Hr); [|done]. by rewrite Ascii.eqb_sym, Hdt.
Qed.

(** Removing the thousands and putting the dot back restores the text. *)
Lemma separated_read (int frac s : string) :
  plain_decimal s int frac ->
  (if negb (String.eqb (one d) ".")
   then replace_first (one d) "." (without t (separated int frac))
   else without t (separated int frac)) = s.
Proof.
  intros (-> & Hint & Hfrac). unfold separated, group_thousands.
  pose proof (not_in_digits t int Ht Hint) as Hti. pose proof (not_in_digits d int Hd Hint) as Hdi.
  destruct Hfrac as [->|(b & -> & Hb & Hbd)].
  - rewrite group_from_without, app_empty_r by done. unfold replace_first.
    by rewrite split_first_none; [destruct (negb _)|].
  - pose proof (not_in_digits t b Ht (digits_num_chars b Hbd)) as Htb.
    rewrite without_app, group_from_without by done. cbn [without].
    rewrite Hdt, (without_id t b Htb).
    destruct (String.eqb_spec (one d) ".") as [Heq|Hne]; cbn [negb].
    + by injection Heq as ->.
    + unfold replace_first. rewrite (split_first_app d int b Hdi). by rewrite app_cons, app_nil.
Qed.

Lemma fmt_number_separated (c : config) (x : num) (int frac : string) :
  loose_eq c.["roundNumber"] (VStr "none") = true ->
  to_str c.["decimalSeparator"] = one d -> to_str c.["thousandSeparator"] = one t ->
  plain_decimal (num_to_string x) int frac ->
  fmt_number c x = VStr (separated int frac).
Proof.
  intros Hr Hds Hts (Hs & Hint & Hfrac). unfold fmt_number. rewrite Hr, Hds, Hts, Hs.
  change (String.eqb (one t) "") with false. cbn [negb]. rewrite orb_true_r.
  pose proof (not_in_digits "." int eq_refl Hint) as Hdot.
  pose proof (not_in_digits d int Hd Hint) as Hdi.
  rewrite replace_dots_app, (replace_dots_id _ int Hdot).
  destruct Hfrac as [->|(b & -> & Hb & Hbd)].
  - cbn [replace_dots]. by rewrite app_empty_r, split_first_none.
  - cbn [replace_dots Ascii.eqb Bool.eqb].
    rewrite (replace_dots_id _ b) by (apply (not_in_digits "." b eq_refl), digits_num_chars, Hbd).
    change (one d ++ b)%string with (String d b).
    rewrite (split_first_app d int b Hdi), substring_skip.
    change (String.substring 1 ?n (String d b)) with (String.substring 0 n b).
    rewrite substring_all, string_rev_involutive.
    + by destruct b.
    + rewrite length_app. cbn [String.length]. lia.
Qed.

End Separators.

Section RoundTrip.

Context (toLocaleTimeString : jsval -> string).

(** C28: with one-character separators that no number contains, a number that
    prints in decimal notation is shown with them and [unFormat] reads the
    number back from what is shown. *)
Theorem unFormat_fmtChartJS (c : config) (x : num) (d t : ascii) (int frac : string) :
  is_num_char d = false -> is_num_char t = false -> Ascii.eqb t d = false ->
  loose_eq c.["roundNumber"] (VStr "none") = true ->
  to_str c.["decimalSeparator"] = one d -> to_str c.["thousandSeparator"] = one t ->
  plain_decimal (num_to_string x) int frac ->
  fmtChartJS toLocaleTimeString c (VNum x) "none" = Ok (VStr (separated d t int frac)) /\
  unFormat c (VStr (separated d t int frac)) = VNum (of_Z 1 * string_to_num (num_to_string x))%num.
Proof.
  intros Hd Ht Hdt Hr Hds Hts Hs. split.
  - unfold fmtChartJS. cbn [String.eqb Ascii.eqb Bool.eqb]. f_equal.
    by apply fmt_number_separated.
  - unfold unFormat. rewrite Hds, Hts. change (String.eqb (one t) "") with false.
    cbn [negb]. rewrite orb_true_r, remove_all_without by lia.
    by rewrite (separated_read d t Hd Ht Hdt int frac _ Hs).
Qed.

End RoundTrip.

(** 1234567.5 with a Dutch reader's separators. *)
Definition dutch_format : config := of_fields [
  ("roundNumber", VStr "none"); ("decimalSeparator", VStr ","); ("thousandSeparator", VStr ".")].

Lemma unFormat_fmtChartJS_witness :
  fmtChartJS to_str dutch_format (VNum (lit 12345675 (-1))) "none" = Ok (VStr "1.234.567,5") /\
  unFormat dutch_format (VStr "1.234.567,5") = VNum (lit 12345675 (-1)).
Proof.
  refine (unFormat_fmtChartJS to_str dutch_format (lit 12345675 (-1)) "," "." "1234567" ".5"
    eq_refl eq_refl eq_refl eq_refl eq_refl eq_refl _).
  split; [vm_compute; reflexivity|]. split; [reflexivity|]. right.
  exists "5". split; [reflexivity|]. split; [discriminate|reflexivity].
Defined.
