(* ===== verification/Scale.v ===== *)
(** * The value axis (ChartNew.js)

    The range of the data ([getValueBounds]), the steps and labels of the axis
    ([calculateScale], [populateLabels]) and the projection of a value on the
    axis ([calculateOffset]). *)

From stdpp Require Import base list strings gmap.
From Stdlib Require Import ZArith Lia SpecFloat Reals Lra.
From S2P Require Import Prelude Num Binary64 Value Options OptionValue Format.

Open Scope Z_scope.

(** ** Helpers *)

(** [Max] and [Min] of an array. *)
Definition Max (array : list num) : num := Math_max_list array.
Definition Min (array : list num) : num := Math_min_list array.

Definition Default (userDeclared valueIfFalse : jsval) : jsval :=
  if negb (truthy userDeclared) then valueIfFalse else userDeclared.

Definition CapValue (valueToCap : num) (maxValue minValue : jsval) : num :=
  if isNumber maxValue && (valueToCap > to_num maxValue)%num then to_num maxValue
  else if isNumber minValue && (valueToCap < to_num minValue)%num then to_num minValue
  else valueToCap.

(** Decimals of a number: the pattern
    [/(?:\.(\d+))?(?:[eE]([+-]?\d+))?$/] applied to its text. *)
Definition getDecimalPlaces (x : num) : Z :=
  let s := num_to_string x in
  let fraction := match split_first "." s with
                  | Some (_, b) => let '(_, c, _) := take_digits b 0 0 in c
                  | None => 0
                  end in
  let exponent := match split_first "e" s with
                  | Some (_, b) => (take_exponent ("e" ++ b)).1
                  | None => 0
                  end in
  Z.max 0 (fraction - exponent).

(** The number of iterations of [for (i = 0; i < bound; i++)]. *)
Definition loop_count (bound : num) : res nat :=
  match bound with
  | S754_finite false m e => Ok (Z.to_nat (- floor_Z true m e))
  | S754_infinity false => Throw Diverges
  | _ => Ok 0%nat
  end.

(** ** The scale of an axis

    [calculateScale] also returns the maximum it was given, which none of its
    callers reads. *)

Record scale : Type := {
  steps : num;
  stepValue : num;
  graphMin : num;
  scale_labels : list string
}.

Record bounds : Type := {
  maxValue : num;
  minValue : num;
  maxValue2 : num;
  minValue2 : num;
  dbAxis : bool;
  maxSteps : num;
  minSteps : num
}.

Section Scale.

Context `{MathLib}.
Context (toLocaleTimeString : jsval -> string).
Context (callback : positive -> string -> Z -> Z -> jsval -> res jsval).

(** Evaluation of a template, [new Function("obj", ...)] on its text. *)
Context (eval_template : string -> list (string * jsval) -> res string).

Definition log10 (val : num) : num := (Math_log val / Math_LN10)%num.

Definition calculateOrderOfMagnitude (val : num) : num :=
  if (val == n0)%num then n0 else Math_floor (Math_log val / Math_LN10)%num.

Definition pow10 (x : num) : num := Math_pow (of_Z 10) x.

Definition roundScale (c : config) (value : num) : num :=
  let sscl := to_str c.["yAxisMinimumInterval"] in
  let scldec := match split_first "." sscl with
                | Some (a, _) => if (0 <? String.length a)%nat
                                 then Z.of_nat (String.length sscl - String.length a)
                                 else 0
                | None => 0
                end in
  (Math_round (value * pow10 (of_Z scldec)) / pow10 (of_Z scldec))%num.

(** The user's delimiters of a template are replaced by the standard ones. *)
Definition normalise_template (str : string) (c : config) : string :=
  let opn := to_str c.["templatesOpenTag"] in
  let cls := to_str c.["templatesCloseTag"] in
  let str := match starts_with opn str with
             | Some rest => ("<%=" ++ rest)%string
             | None => str
             end in
  let k := (String.length str - String.length cls)%nat in
  if (String.length cls <=? String.length str)%nat
     && String.eqb (String.substring k (String.length cls) str) cls
  then (String.substring 0 k str ++ "%>")%string
  else str.

Definition tmpl (str : string) (data : list (string * jsval)) (c : config) : res string :=
  eval_template (normalise_template str c) data.

(** One label: [value] printed with the decimals of [unit]. *)
Definition scale_label (c : config) (labelTemplateString fmtYLabel : string)
    (value unit : num) : res string :=
  let* fixed := to_fixed value (getDecimalPlaces unit) in
  let* v := fmtChartJS toLocaleTimeString c
              (VNum (of_Z 1 * string_to_num fixed)%num) fmtYLabel in
  tmpl labelTemplateString [("value", v)] c.

Fixpoint log_labels (c : config) (labelTemplateString fmtYLabel : string)
    (count : nat) (value : num) : res (list string) :=
  match count with
  | O => Ok []
  | S k =>
      let* l := scale_label c labelTemplateString fmtYLabel value value in
      let* ls := log_labels c labelTemplateString fmtYLabel k (value * of_Z 10)%num in
      Ok (l :: ls)
  end.

(** The labels that [populateLabels] appends to its array. *)
Definition populateLabels (axis : Z) (c : config) (labelTemplateString : string)
    (numberOfSteps graphMin stepValue : num) : res (list string) :=
  let '(logarithmic, fmtYLabel) :=
    if axis =? 2 then (c.["logarithmic2"], to_str c.["fmtYLabel2"])
    else (c.["logarithmic"], to_str c.["fmtYLabel"]) in
  if String.eqb labelTemplateString "" then Ok []
  else
    let* count := loop_count (numberOfSteps + of_Z 1)%num in
    if negb (truthy logarithmic) then
      res_mapM (fun i => scale_label c labelTemplateString fmtYLabel
                           (graphMin + stepValue * of_Z (Z.of_nat i))%num stepValue)
        (seq 0 count)
    else log_labels c labelTemplateString fmtYLabel count graphMin.

(** *** The graph's range *)

(** The range of a linear axis, widened to the minimum interval when there is one. *)
Definition widen_range (fuel : nat) (c : config) (interval graphMin graphMax minValue maxValue : num)
    : res (num * num) :=
  let zeroValue := to_num c.["zeroValue"] in
  if (graphMax >= n0)%num then
    let graphMin := (graphMin - nrem graphMin interval)%num in
    let* graphMin := while fuel (fun g => (g > minValue)%num) (fun g => (g - interval)%num) graphMin in
    let graphMax :=
      if (nrem graphMax interval > zeroValue)%num
         && (nrem graphMax interval < interval - zeroValue)%num
      then roundScale c ((of_Z 1 + Math_floor (graphMax / interval)) * interval)%num
      else graphMax in
    let* graphMax := while fuel (fun g => (g < maxValue)%num) (fun g => (g + interval)%num) graphMax in
    Ok (graphMin, graphMax)
  else Ok (graphMin, graphMax).

(** [Math.floor(v / (1 * Math.pow(10, magnitude))) * Math.pow(10, magnitude)],
    with [Math.ceil] for the upper end. *)
Definition round_down (v magnitude : num) : num :=
  (Math_floor (v / (of_Z 1 * pow10 magnitude)) * pow10 magnitude)%num.
Definition round_up (v magnitude : num) : num :=
  (Math_ceil (v / (of_Z 1 * pow10 magnitude)) * pow10 magnitude)%num.

Definition linear_range (fuel : nat) (c : config) (yAxisMinimumInterval : jsval) (maxValue minValue : num)
    : res (num * num * num) :=
  let zeroValue := to_num c.["zeroValue"] in
  let magnitude := calculateOrderOfMagnitude (maxValue - minValue)%num in
  let graphMin := if (Math_abs minValue > zeroValue)%num then round_down minValue magnitude else n0 in
  let graphMax := if (Math_abs maxValue > zeroValue)%num then round_up maxValue magnitude else n0 in
  let* range := match yAxisMinimumInterval with
                | VNum interval => widen_range fuel c interval graphMin graphMax minValue maxValue
                | _ => Ok (graphMin, graphMax)
                end in
  Ok (range.1, range.2, magnitude).

(** The range of a logarithmic axis; [maxValue] is changed on the way. *)
Definition log_range (maxValue minValue : num) : num * num * num * num :=
  let maxValue := if (minValue == maxValue)%num then (maxValue + of_Z 1)%num else maxValue in
  let minValue := if (minValue == n0)%num then lit 1 (-2) else minValue in
  let minMag := calculateOrderOfMagnitude minValue in
  let maxMag := (calculateOrderOfMagnitude maxValue + of_Z 1)%num in
  (pow10 minMag, pow10 maxMag, (maxMag - minMag)%num, maxValue).

(** *** The number of steps *)

Record fitting : Type := {
  fit_step : num;
  fit_steps : num;
  stopLoop : bool
}.

(** One pass of the loop that halves or doubles the step until the number of
    steps lies between [minSteps] and [maxSteps]. *)
Definition fit_once (yAxisMinimumInterval : jsval) (graphRange minSteps : num) (f : fitting) : fitting :=
  if (fit_steps f < minSteps)%num then
    let stop := match yAxisMinimumInterval with
                | VNum interval => (fit_step f / of_Z 2 < interval)%num
                | _ => false
                end in
    if stop then {| fit_step := fit_step f; fit_steps := fit_steps f; stopLoop := true |}
    else let s := (fit_step f / of_Z 2)%num in
         {| fit_step := s; fit_steps := Math_round (graphRange / s)%num; stopLoop := stopLoop f |}
  else let s := (fit_step f * of_Z 2)%num in
       {| fit_step := s; fit_steps := Math_round (graphRange / s)%num; stopLoop := stopLoop f |}.

Definition must_refit (minSteps maxSteps : num) (f : fitting) : bool :=
  negb (stopLoop f) && ((fit_steps f < minSteps)%num || (fit_steps f > maxSteps)%num).

Definition fit_to_steps (fuel : nat) (yAxisMinimumInterval : jsval)
    (graphRange minSteps maxSteps : num) (f : fitting) : res fitting :=
  while fuel (must_refit minSteps maxSteps) (fit_once yAxisMinimumInterval graphRange minSteps) f.

(** The step is made a multiple of the minimum interval. *)
Definition align_step (c : config) (yAxisMinimumInterval : jsval) (graphRange step numberOfSteps : num)
    : num * num :=
  match yAxisMinimumInterval with
  | VNum interval =>
      let zeroValue := to_num c.["zeroValue"] in
      let '(step, numberOfSteps) :=
        if (step < interval)%num then (interval, Math_ceil (graphRange / interval)%num)
        else (step, numberOfSteps) in
      if (nrem step interval > zeroValue)%num && (nrem step interval < interval - zeroValue)%num then
        if (nrem (of_Z 2 * step) interval < zeroValue)%num
           || (nrem (of_Z 2 * step) interval > interval - zeroValue)%num
        then let s := (of_Z 2 * step)%num in (s, Math_ceil (graphRange / s)%num)
        else let s := roundScale c ((of_Z 1 + Math_floor (step / interval)) * interval)%num in
             (s, Math_ceil (graphRange / s)%num)
      else (step, numberOfSteps)
  | _ => (step, numberOfSteps)
  end.

(** [graphMaximized] and explicit limits trim steps without data at both ends. *)
Definition trim_bottom (fuel : nat) (c : config) (minValue step graphMin numberOfSteps : num)
    : res (num * num) :=
  if loose_eq c.["graphMaximized"] (VBool true)
     || loose_eq c.["graphMaximized"] (VStr "bottom")
     || negb (is_undefined c.["graphMin"])
  then while fuel (fun s => (s.1 + step < minValue)%num && (s.2 >= of_Z 3)%num)
         (fun s => ((s.1 + step)%num, (s.2 - of_Z 1)%num)) (graphMin, numberOfSteps)
  else Ok (graphMin, numberOfSteps).

Definition trim_top (fuel : nat) (c : config) (maxValue step graphMin numberOfSteps : num) : res num :=
  if loose_eq c.["graphMaximized"] (VBool true)
     || loose_eq c.["graphMaximized"] (VStr "top")
     || negb (is_undefined c.["graphMax"])
  then while fuel (fun n => (graphMin + (n - of_Z 1) * step >= maxValue)%num && (n >= of_Z 3)%num)
         (fun n => (n - of_Z 1)%num) numberOfSteps
  else Ok numberOfSteps.

Definition linear_scale (fuel : nat) (c : config) (yAxisMinimumInterval : jsval)
    (maxSteps minSteps maxValue minValue : num) : res (num * num * num) :=
  let* (graphMin, graphMax, magnitude) :=
    linear_range fuel c yAxisMinimumInterval maxValue minValue in
  let graphRange := (graphMax - graphMin)%num in
  let step := pow10 magnitude in
  let* f := fit_to_steps fuel yAxisMinimumInterval graphRange minSteps maxSteps
              {| fit_step := step;
                 fit_steps := Math_round (graphRange / step)%num;
                 stopLoop := false |} in
  let '(step, numberOfSteps) :=
    align_step c yAxisMinimumInterval graphRange (fit_step f) (fit_steps f) in
  let* (graphMin, numberOfSteps) := trim_bottom fuel c minValue step graphMin numberOfSteps in
  let* numberOfSteps := trim_top fuel c maxValue step graphMin numberOfSteps in
  Ok (numberOfSteps, step, graphMin).

Definition log_scale (maxValue minValue : num) : num * num * num :=
  let '(graphMin, graphMax, magnitude, _) := log_range maxValue minValue in
  (magnitude, pow10 magnitude, graphMin).

(** The labels are made with [populateLabels(1, ...)] whatever the axis. *)
Definition calculateScale (fuel : nat) (axis : Z) (c : config)
    (maxSteps minSteps maxValue minValue : num) (labelTemplateString : string) : res scale :=
  let '(logarithmic, yAxisMinimumInterval) :=
    if axis =? 2 then (c.["logarithmic2"], c.["yAxisMinimumInterval2"])
    else (c.["logarithmic"], c.["yAxisMinimumInterval"]) in
  let* (numberOfSteps, step, graphMin) :=
    if negb (truthy logarithmic)
    then linear_scale fuel c yAxisMinimumInterval maxSteps minSteps maxValue minValue
    else Ok (log_scale maxValue minValue) in
  let* labels := populateLabels 1 c labelTemplateString numberOfSteps graphMin step in
  Ok {| steps := numberOfSteps; stepValue := step; graphMin := graphMin; scale_labels := labels |}.

(** ** Projection on the axis *)

Definition calculateOffset (logarithmic : jsval) (val : num) (calculatedScale : scale) (scaleHop : num) : num :=
  if negb (truthy logarithmic) then
    let outerValue := (steps calculatedScale * stepValue calculatedScale)%num in
    let adjustedValue := (val - graphMin calculatedScale)%num in
    let scalingFactor := CapValue (adjustedValue / outerValue) (VInt 1) (VInt 0) in
    (scaleHop * steps calculatedScale * scalingFactor)%num
  else CapValue (log10 val * scaleHop - log10 (graphMin calculatedScale) * scaleHop)%num VUndef (VInt 0).

Definition HorizontalCalculateOffset (val : num) (calculatedScale : scale) (scaleHop : num) : num :=
  let outerValue := (steps calculatedScale * stepValue calculatedScale)%num in
  let adjustedValue := (val - graphMin calculatedScale)%num in
  let scalingFactor := CapValue (adjustedValue / outerValue) (VInt 1) (VInt 0) in
  (scaleHop * steps calculatedScale * scalingFactor)%num.

(** ** The range of the data (the variant of the line and bar charts) *)

(** The deviation function a dataset names in [drawMathDeviation], if the name
    evaluates to a function: its value at the dataset's position. *)
Context (math_deviation : jsval -> option (nat -> num)).

Record extent : Type := {
  upper : num;
  lower : num;
  seen : bool
}.

Definition no_extent : extent := {| upper := neg_MAX_VALUE; lower := MAX_VALUE; seen := false |}.

Definition extend (height : num) (e : extent) (v : jsval) : extent :=
  if is_undefined v then e
  else
    let hi := (of_Z 1 * to_num v + height)%num in
    let lo := (of_Z 1 * to_num v - height)%num in
    {| upper := if (hi > upper e)%num then hi else upper e;
       lower := if (lo < lower e)%num then lo else lower e;
       seen := true |}.

Definition dataset_height (i : nat) (d : dataset) : num :=
  match math_deviation (ds_props d).["drawMathDeviation"] with
  | Some f => f i
  | None => n0
  end.

Definition on_second_axis (d : dataset) : bool := loose_eq (ds_props d).["axis"] (VInt 2).

(** The extents of the data on the first and on the second axis. *)
Definition dataset_extents (es : extent * extent) (di : nat * dataset) : extent * extent :=
  let '(i, d) := di in
  let h := dataset_height i d in
  if on_second_axis d
  then (es.1, fold_left (extend h) (ds_data d) es.2)
  else (fold_left (extend h) (ds_data d) es.1, es.2).

Definition data_extents (ds : list dataset) : extent * extent :=
  fold_left dataset_extents (imap pair ds) (no_extent, no_extent).

(** An empty range becomes [0, 0], and a range too small to divide is widened
    around its value. *)
Definition normalise_range (zeroValue : num) (e : extent) : num * num :=
  let '(up, low) := if (upper e < lower e)%num then (n0, n0) else (upper e, lower e) in
  if (Math_abs (up - low) < zeroValue)%num then
    let up := if (Math_abs up < zeroValue)%num then lit 9 (-1) else up in
    if (up > n0)%num then ((up * lit 11 (-1))%num, (low * lit 9 (-1))%num)
    else ((up * lit 9 (-1))%num, (low * lit 11 (-1))%num)
  else (up, low).

(** An explicit limit of the axis: the value of a function, or a number. *)
Definition limit_option (option : jsval) (reference : string) (othervars : jsval) (computed : num) : res num :=
  if is_function option then
    let* v := setOptionValue callback (of_Z 1) reference VUndef option (-1) (-1) othervars in
    Ok (to_num v)
  else if negb (isNaN option) then Ok (to_num option) else Ok computed.

Definition getValueBounds (c : config) (chartTextScale availableHeight : num) (data : chart_data)
    : res bounds :=
  let zeroValue := to_num c.["zeroValue"] in
  let '(e1, e2) := data_extents (datasets data) in
  let other := VObj [("nullValue", VBool true)] in
  let '(upperValue, lowerValue) := normalise_range zeroValue e1 in
  let* lowerValue := limit_option c.["graphMin"] "GRAPHMIN" other lowerValue in
  let* upperValue := limit_option c.["graphMax"] "GRAPHMAX" other upperValue in
  let* (upperValue2, lowerValue2) :=
    if seen e2 then
      let '(u, l) := normalise_range zeroValue e2 in
      let* l := limit_option c.["graphMin2"] "GRAPHMIN" other l in
      let* u := limit_option c.["graphMax2"] "GRAPHMAX" other u in
      Ok (u, l)
    else Ok (upper e2, lower e2) in
  let '(upperValue, lowerValue) :=
    if negb (seen e1) && seen e2 then (upperValue2, lowerValue2) else (upperValue, lowerValue) in
  let labelHeight := Math_ceil (chartTextScale * to_num c.["scaleFontSize"])%num in
  Ok {| maxValue := upperValue;
        minValue := lowerValue;
        maxValue2 := upperValue2;
        minValue2 := lowerValue2;
        dbAxis := seen e2;
        maxSteps := Math_floor (availableHeight / (labelHeight * lit 66 (-2)))%num;
        minSteps := Math_floor (availableHeight / labelHeight * lit 5 (-1))%num |}.

End Scale.

(** ** Capping *)

Lemma isNumber_num (x : num) : isNumber (VNum x) = is_finite x.
Proof. by destruct x as [[|]|[|]| |]. Qed.

Lemma isNumber_VInt (z : Z) : safe z -> isNumber (VInt z) = true.
Proof. intros Hz. unfold VInt. rewrite isNumber_num. auto with num. Qed.

Definition clamped (lo hi x : R) : R := Rmax lo (Rmin hi x).

Lemma clamped_bounds (lo hi x : R) : (lo <= hi)%R -> (lo <= clamped lo hi x <= hi)%R.
Proof.
  intros Hle. unfold clamped. split; [apply Rmax_l|]. apply Rmax_lub; [done|apply Rmin_l].
Qed.

Lemma clamped_mono (lo hi x y : R) : (x <= y)%R -> (clamped lo hi x <= clamped lo hi y)%R.
Proof.
  intros Hle. unfold clamped. apply Rmax_lub; [apply Rmax_l|].
  eapply Rle_trans; [|apply Rmax_r]. rewrite (Rmin_comm hi x), (Rmin_comm hi y). by apply Rmin_mono.
Qed.

(** A number other than NaN is capped like a real. *)
Lemma CapValue_clamped (x : num) (lo hi : Z) :
  ordered x -> safe lo -> safe hi -> lo <= hi ->
  ordered (CapValue x (VInt hi) (VInt lo)) /\
  B2X (CapValue x (VInt hi) (VInt lo)) = clamped (IZR lo) (IZR hi) (B2X x).
Proof.
  intros Hx Hlo Hhi Hle%IZR_le. unfold CapValue.
  rewrite !isNumber_VInt by done. unfold VInt. cbn [andb to_num]. unfold clamped.
  change (of_Z hi < x)%num with (nlt (of_Z hi) x). change (x > of_Z hi)%num with (nlt (of_Z hi) x).
  pose proof (of_Z_B2X hi Hhi) as Ehi. pose proof (of_Z_B2X lo Hlo) as Elo.
  pose proof (nlt_spec (of_Z hi) x ltac:(auto with num) Hx) as H1.
  pose proof (nlt_spec x (of_Z lo) Hx ltac:(auto with num)) as H2.
  rewrite Ehi in H1. rewrite Elo in H2.
  destruct (nlt (of_Z hi) x).
  - split; [auto with num|]. rewrite Ehi. assert (IZR hi < B2X x)%R by by apply H1.
    rewrite Rmin_left, Rmax_right; lra.
  - assert (~ (IZR hi < B2X x))%R by (intros H3; by apply H1 in H3).
    destruct (nlt x (of_Z lo)).
    + split; [auto with num|]. rewrite Elo. assert (B2X x < IZR lo)%R by by apply H2.
      rewrite Rmin_right, Rmax_left; lra.
    + assert (~ (B2X x < IZR lo))%R by (intros H3; by apply H2 in H3).
      split; [done|]. rewrite Rmin_right, Rmax_right; lra.
Qed.

(** ** Projection *)

(** An axis the projection is defined on: all its quantities are finite
    numbers, it has a positive length and it covers a positive range. *)
Record proper_axis (sc : scale) (hop : num) : Prop := {
  axis_valid : valid (graphMin sc) = true /\ is_finite (graphMin sc) = true;
  range_valid : valid (steps sc * stepValue sc)%num = true /\ is_finite (steps sc * stepValue sc)%num = true;
  range_positive : (0 < B2X (steps sc * stepValue sc)%num)%R;
  length_valid : valid (hop * steps sc)%num = true /\ is_finite (hop * steps sc)%num = true;
  length_nonneg : (0 <= B2X (hop * steps sc)%num)%R
}.

Section Projection.

Context `{MathLib}.

(** The fraction of the axis below a value. *)
Definition fraction_of (val : num) (sc : scale) : num :=
  CapValue ((val - graphMin sc) / (steps sc * stepValue sc))%num (VInt 1) (VInt 0).

Lemma nsub_ordered (x y : num) :
  ordered x -> valid y = true -> is_finite y = true -> ordered (x - y)%num.
Proof.
  intros [Vx Nx] Vy Fy. split; [auto with num|].
  destruct (is_finite x) eqn:Fx; [by apply (nsub_rounds x y)|].
  by destruct x as [|[|]| |], y as [| | |].
Qed.

Lemma ndiv_ordered (x y : num) :
  ordered x -> valid y = true -> is_finite y = true -> B2X y <> 0%R -> ordered (x / y)%num.
Proof.
  intros [Vx Nx] Vy Fy Hy. split; [auto with num|].
  destruct (is_finite x) eqn:Fx; [by apply (ndiv_rounds x y)|].
  destruct x as [|[|]| |], y as [| | |]; done.
Qed.

Lemma fraction_clamped (val : num) (sc : scale) (hop : num) :
  proper_axis sc hop -> ordered val ->
  ordered (fraction_of val sc) /\
  B2X (fraction_of val sc)
  = clamped 0 1 (B2X ((val - graphMin sc) / (steps sc * stepValue sc))%num).
Proof.
  intros [[Vg Fg] [Vr Fr] Hr _ _] Hv. unfold fraction_of.
  apply (CapValue_clamped _ 0 1); [|unfold safe; lia..].
  apply ndiv_ordered; [by apply nsub_ordered|done|done|lra].
Qed.

Lemma nsub_mono (x x' y : num) :
  ordered x -> ordered x' -> valid y = true -> is_finite y = true ->
  (B2X x <= B2X x')%R -> (B2X (x - y)%num <= B2X (x' - y)%num)%R.
Proof.
  intros [Vx Nx] [Vx' Nx'] Vy Fy Hle. pose proof big_pos.
  pose proof (B2X_bounds _ (nsub_valid x y Vx Vy)). pose proof (B2X_bounds _ (nsub_valid x' y Vx' Vy)).
  assert (Hinf : forall s, nsub (S754_infinity s) y = S754_infinity s) by (by destruct y).
  destruct (is_finite x) eqn:Fx, (is_finite x') eqn:Fx'.
  - eapply rounds_mono; [by apply nsub_rounds..|]. lra.
  - destruct x' as [s|[|]| |s m' e']; try done; rewrite Hinf.
    + pose proof (finite_above x Vx Fx). unfold B2X at 2, sgn in Hle. lra.
    + unfold B2X at 2, sgn. lra.
  - destruct x as [s|[|]| |s m' e']; try done; rewrite Hinf.
    + unfold B2X at 1, sgn. lra.
    + pose proof (finite_above x' Vx' Fx'). unfold B2X at 1, sgn in Hle. lra.
  - destruct x as [s|[|]| |s m' e'], x' as [s'|[|]| |s' m'' e'']; try done; rewrite !Hinf; lra.
Qed.

(** The projected values, as reals. *)
Lemma offset_rounds (val : num) (sc : scale) (hop : num) :
  proper_axis sc hop -> ordered val ->
  calculateOffset (VBool false) val sc hop = (hop * steps sc * fraction_of val sc)%num /\
  rounds (B2X (hop * steps sc)%num * B2X (fraction_of val sc))
    (calculateOffset (VBool false) val sc hop).
Proof.
  intros Hax Hv. destruct (fraction_clamped val sc hop Hax Hv) as [[Vf Nf] Hf].
  split; [done|]. destruct Hax as [_ _ _ [Vl Fl] _]. apply nmul_rounds; try done.
  pose proof (clamped_bounds 0 1 (B2X ((val - graphMin sc) / (steps sc * stepValue sc))%num) ltac:(lra)) as Hb.
  rewrite <- Hf in Hb. assert (1 < big)%R by (apply (bpow_lt 0 1024); lia).
  destruct (fraction_of val sc) as [s|[|]| |s m e]; try done; cbn [B2X] in Hb; unfold sgn in Hb; lra.
Qed.

(** On a linear axis every value, the infinities included, is drawn between
    the two ends of the axis. *)
Theorem calculateOffset_range (val : num) (sc : scale) (hop : num) :
  proper_axis sc hop -> ordered val ->
  (n0 <= calculateOffset (VBool false) val sc hop)%num = true /\
  (calculateOffset (VBool false) val sc hop <= hop * steps sc)%num = true.
Proof.
  intros Hax Hv. destruct (offset_rounds val sc hop Hax Hv) as [_ Hr].
  destruct (fraction_clamped val sc hop Hax Hv) as [_ Hf].
  destruct Hax as [_ _ _ [Vl Fl] Hl].
  pose proof (clamped_bounds 0 1 (B2X ((val - graphMin sc) / (steps sc * stepValue sc))%num) ltac:(lra)) as Hb.
  rewrite <- Hf in Hb. pose proof (rounds_ordered _ _ Hr).
  rewrite !nle_spec by (done || by apply finite_ordered).
  change (B2X n0) with 0%R. split.
  - eapply rounds_ge; [exact Hr|apply exact_0|]. apply Rmult_le_pos; lra.
  - eapply rounds_le; [exact Hr|by apply valid_exact|].
    rewrite <- (Rmult_1_r (B2X (hop * steps sc)%num)) at 2. apply Rmult_le_compat_l; lra.
Qed.

(** C37: on a linear axis a greater value is never drawn below a smaller one. *)
Theorem calculateOffset_monotone (val val' : num) (sc : scale) (hop : num) :
  proper_axis sc hop -> ordered val -> ordered val' -> (val <= val')%num = true ->
  (calculateOffset (VBool false) val sc hop <= calculateOffset (VBool false) val' sc hop)%num = true.
Proof.
  intros Hax Hv Hv' Hle. apply nle_spec in Hle; [|done..].
  destruct (offset_rounds val sc hop Hax Hv) as [_ Hr].
  destruct (offset_rounds val' sc hop Hax Hv') as [_ Hr'].
  destruct (fraction_clamped val sc hop Hax Hv) as [_ Hf].
  destruct (fraction_clamped val' sc hop Hax Hv') as [_ Hf'].
  apply nle_spec; [by eapply rounds_ordered..|].
  eapply rounds_mono; [exact Hr|exact Hr'|]. rewrite Hf, Hf'.
  destruct Hax as [[Vg Fg] [Vr Fr] Hpos _ Hl]. apply Rmult_le_compat_l; [done|]. apply clamped_mono.
  apply ndiv_mono; [by apply nsub_ordered|by apply nsub_ordered|done|done|done|].
  by apply nsub_mono.
Qed.

End Projection.

(** The axis of a utilisation chart: ten steps of ten per cent, 25 pixels each. *)
Definition percent_axis : scale :=
  {| steps := of_Z 10; stepValue := of_Z 10; graphMin := of_Z 0; scale_labels := [] |}.

Lemma percent_axis_proper : proper_axis percent_axis (of_Z 25).
Proof.
  assert (H1 : (of_Z 10 * of_Z 10)%num = of_Z 100) by (vm_compute; reflexivity).
  assert (H2 : (of_Z 25 * of_Z 10)%num = of_Z 250) by (vm_compute; reflexivity).
  split; cbn [steps stepValue graphMin percent_axis]; rewrite ?H1, ?H2; try (split; reflexivity).
  - rewrite of_Z_B2X by (unfold safe; lia). lra.
  - rewrite of_Z_B2X by (unfold safe; lia). lra.
Qed.

(** A logarithm is not needed on a linear axis. *)
Definition no_math : MathLib := {|
  Math_log := fun x => x; Math_pow := fun x _ => x; Math_sin := fun x => x;
  Math_cos := fun x => x; Math_asin := fun x => x; Math_acos := fun x => x |}.

Lemma calculateOffset_range_witness :
  (n0 <= @calculateOffset no_math (VBool false) (of_Z 150) percent_axis (of_Z 25))%num = true /\
  (@calculateOffset no_math (VBool false) (of_Z 150) percent_axis (of_Z 25) <= of_Z 250)%num = true.
Proof.
  exact (@calculateOffset_range no_math (of_Z 150) percent_axis (of_Z 25) percent_axis_proper (of_Z_ordered 150)).
Defined.

Lemma calculateOffset_monotone_witness :
  (@calculateOffset no_math (VBool false) (of_Z 33) percent_axis (of_Z 25)
   <= @calculateOffset no_math (VBool false) (of_Z 66) percent_axis (of_Z 25))%num = true.
Proof.
  exact (@calculateOffset_monotone no_math (of_Z 33) (of_Z 66) percent_axis (of_Z 25)
    percent_axis_proper (of_Z_ordered 33) (of_Z_ordered 66) eq_refl).
Defined.

(** ** The number of steps *)

Lemma nlt_zero_r (x : num) (s : bool) : nlt x (S754_zero s) = nlt x (of_Z 0).
Proof. change (of_Z 0) with (S754_zero false). unfold nlt, SFltb. by destruct x. Qed.

Lemma nlt_zero_l (x : num) (s : bool) : nlt (S754_zero s) x = nlt (of_Z 0) x.
Proof. change (of_Z 0) with (S754_zero false). unfold nlt, SFltb. by destruct x. Qed.

Lemma safe_0 : safe 0.
Proof. unfold safe. lia. Qed.

Lemma signed_int_lt (s : bool) (z a : Z) : safe a -> safe (a - 1) -> nlt (signed_int s z) (of_Z a) = (z <? a).
Proof.
  intros Ha Ha'. unfold signed_int. destruct (Z.eqb_spec z 0) as [->|_].
  - rewrite nlt_zero_l. by apply nlt_of_Z; [apply safe_0|].
  - apply eq_true_iff_eq. rewrite nlt_spec, (of_Z_B2X a), Z.ltb_lt by auto with num.
    pose proof (of_Z_rounds z) as Hr. split; intros Hlt.
    + destruct (Z_lt_le_dec z a) as [|Hle]; [done|]. apply IZR_le in Hle.
      pose proof (rounds_ge _ _ _ Hr (safe_exact a Ha) Hle). lra.
    + assert (Hle : z <= a - 1) by lia. apply IZR_le in Hle.
      pose proof (rounds_le _ _ _ Hr (safe_exact _ Ha') Hle) as H. rewrite minus_IZR in H. lra.
Qed.

Lemma signed_int_gt (s : bool) (z b : Z) : safe b -> safe (b + 1) -> nlt (of_Z b) (signed_int s z) = (b <? z).
Proof.
  intros Hb Hb'. unfold signed_int. destruct (Z.eqb_spec z 0) as [->|_].
  - rewrite nlt_zero_r. by apply nlt_of_Z; [|apply safe_0].
  - apply eq_true_iff_eq. rewrite nlt_spec, (of_Z_B2X b), Z.ltb_lt by auto with num.
    pose proof (of_Z_rounds z) as Hr. split; intros Hlt.
    + destruct (Z_lt_le_dec b z) as [|Hle]; [done|]. apply IZR_le in Hle.
      pose proof (rounds_le _ _ _ Hr (safe_exact b Hb) Hle). lra.
    + assert (Hle : b + 1 <= z) by lia. apply IZR_le in Hle.
      pose proof (rounds_ge _ _ _ Hr (safe_exact _ Hb') Hle) as H. rewrite plus_IZR in H. lra.
Qed.

(** The rounded quotient is below an integer, or above it, when the quotient is. *)
Lemma Math_round_lt (x : num) (a : Z) :
  is_finite x = true -> safe a -> safe (a - 1) ->
  (nlt (Math_round x) (of_Z a) = true <-> (B2X x + / 2 < IZR a)%R).
Proof.
  intros Fx Ha Ha'. destruct x as [s|s| |s m e]; try done; cbn [Math_round].
  - rewrite nlt_zero_l, nlt_of_Z, Z.ltb_lt by (done || apply safe_0). cbn [B2X]. split; intros H.
    + assert (1 <= a) as H1%IZR_le by lia. lra.
    + apply lt_IZR. lra.
  - rewrite signed_int_lt, Z.ltb_lt by done. pose proof (round_Z_bounds s m e) as Hb. split; intros H.
    + assert (round_Z s m e + 1 <= a) as H1%IZR_le by lia. rewrite plus_IZR in H1. lra.
    + apply lt_IZR. lra.
Qed.

Lemma Math_round_gt (x : num) (b : Z) :
  is_finite x = true -> safe b -> safe (b + 1) ->
  (nlt (of_Z b) (Math_round x) = true <-> (IZR b + / 2 <= B2X x)%R).
Proof.
  intros Fx Hb Hb'. destruct x as [s|s| |s m e]; try done; cbn [Math_round].
  - rewrite nlt_zero_r, nlt_of_Z, Z.ltb_lt by (done || apply safe_0). cbn [B2X]. split; intros H.
    + assert (b + 1 <= 0) as H1%IZR_le by lia. rewrite plus_IZR in H1. lra.
    + apply lt_IZR. lra.
  - rewrite signed_int_gt, Z.ltb_lt by done. pose proof (round_Z_bounds s m e) as Hr. split; intros H.
    + assert (b + 1 <= round_Z s m e) as H1%IZR_le by lia. rewrite plus_IZR in H1. lra.
    + apply lt_IZR. assert (IZR (b + 1) < IZR (round_Z s m e) + 1)%R as H1.
      { rewrite plus_IZR. lra. }
      rewrite <- plus_IZR in H1. apply lt_IZR in H1. apply IZR_lt. lia.
Qed.

(** A positive number that is neither huge nor tiny. *)
Definition moderate (k : Z) (x : num) : Prop :=
  valid x = true /\ is_finite x = true /\ (bpow (- k) <= B2X x <= bpow k)%R.

Lemma moderate_shape (x : num) : moderate 500 x ->
  exists m e, x = S754_finite false m e /\ -600 <= e /\ Zpos m < 2 ^ 53.
Proof.
  intros (Vx & Fx & Hlo & Hhi). pose proof (bpow_pos (- (500))).
  destruct x as [s|s| |s m e]; try done; [cbn [B2X] in Hlo; lra|].
  pose proof (finite_bounds s m e Vx) as [Hb _]. cbn [B2X] in Hlo. unfold sgn in Hlo.
  destruct s; [lra|]. exists m, e. apply bounded_spec in Vx as (He & Hm & Hn).
  split; [done|]. split; [|done]. destruct (Z_le_gt_dec (-600) e) as [|Hgt]; [done|exfalso].
  assert (IZR (Zpos m) * bpow e < bpow (- (500)))%R; [|lra].
  apply Rlt_le_trans with (IZR (2 ^ 53) * bpow e)%R.
  - apply Rmult_lt_compat_r; [apply bpow_pos|by apply IZR_lt].
  - rewrite IZR_pow2, <- bpow_plus by lia. apply bpow_le. lia.
Qed.

Lemma scaled_exact (x : num) (k : Z) : moderate 500 x -> -1 <= k <= 1 -> exact (B2X x * bpow k).
Proof.
  intros Hx Hk. destruct (moderate_shape x Hx) as (m & e & -> & He & Hm).
  destruct Hx as (Vx & Fx & Hlo & Hhi).
  assert (Hpos : (0 <= B2X (S754_finite false m e) * bpow k)%R).
  { pose proof (bpow_pos k). pose proof (bpow_pos (- (500))). apply Rmult_le_pos; lra. }
  unfold exact. rewrite Rabs_pos_eq by done. split.
  - exists (Zpos m), (e + k). split; [lia|]. split; [unfold emin64; lia|].
    cbn [B2X sgn]. rewrite bpow_plus. ring.
  - apply Rle_trans with (bpow 500 * bpow 1)%R; [|rewrite <- bpow_plus; apply bpow_le; lia].
    apply Rmult_le_compat; [pose proof (bpow_pos (- (500))); lra|apply Rlt_le, bpow_pos|done|apply bpow_le; lia].
Qed.

Lemma of_Z_2 : B2X (of_Z 2) = 2%R.
Proof. apply of_Z_B2X. unfold safe. lia. Qed.

Lemma small_exact_finite (x : R) (r : num) : rounds x r -> (0 <= x <= bpow 1000)%R -> is_finite r = true.
Proof. intros Hr Hx. eapply rounds_small_finite; [done|]. rewrite Rabs_pos_eq; lra. Qed.

(** Doubling and halving are exact. *)
Lemma double_exact (x : num) : moderate 500 x ->
  valid (x * of_Z 2)%num = true /\ is_finite (x * of_Z 2)%num = true /\ B2X (x * of_Z 2)%num = (2 * B2X x)%R.
Proof.
  intros Hx. pose proof (scaled_exact x 1 Hx ltac:(lia)) as He. destruct Hx as (Vx & Fx & Hlo & Hhi).
  pose proof (nmul_rounds x (of_Z 2) Vx (of_Z_valid 2) Fx ltac:(reflexivity)) as Hr.
  rewrite of_Z_2 in Hr. rewrite bpow_1 in He.
  split; [auto with num|]. split; [|rewrite (rounds_exact _ _ Hr He); ring].
  eapply small_exact_finite; [exact Hr|]. pose proof (bpow_pos (- (500))).
  assert (bpow 501 = bpow 500 * 2)%R by (rewrite <- bpow_1, <- bpow_plus; done).
  assert (bpow 501 <= bpow 1000)%R by (apply bpow_le; lia). lra.
Qed.

Lemma half_exact (x : num) : moderate 500 x ->
  valid (x / of_Z 2)%num = true /\ is_finite (x / of_Z 2)%num = true /\ B2X (x / of_Z 2)%num = (B2X x / 2)%R.
Proof.
  intros Hx. pose proof (scaled_exact x (-1) Hx ltac:(lia)) as He. destruct Hx as (Vx & Fx & Hlo & Hhi).
  assert (Hnz : B2X (of_Z 2) <> 0%R) by (rewrite of_Z_2; lra).
  pose proof (ndiv_rounds x (of_Z 2) Vx (of_Z_valid 2) Fx ltac:(reflexivity) Hnz) as Hr.
  rewrite of_Z_2 in Hr. rewrite bpow_m1 in He.
  split; [auto with num|]. split; [|apply (rounds_exact _ _ Hr He)].
  eapply small_exact_finite; [exact Hr|]. pose proof (bpow_pos (- (500))).
  assert (bpow 500 <= bpow 1000)%R by (apply bpow_le; lia). lra.
Qed.

Section Fit.

(** The range to divide and the wanted numbers of steps. *)
Context (r : num) (a b : Z) (yAxisMinimumInterval : jsval).
Hypothesis (Hr : moderate 400 r) (Ha : 1 <= a) (Hab : 2 * a <= b + 1) (Hb : b <= 2 ^ 20).
Hypothesis (Hint : match yAxisMinimumInterval with VNum _ => False | _ => True end).

Definition quotient (f : fitting) : R := (B2X r / B2X (fit_step f))%R.

(** The states the loop goes through. *)
Definition fit_inv (f : fitting) : Prop :=
  moderate 500 (fit_step f) /\ (quotient f <= bpow 900)%R /\
  fit_steps f = Math_round (r / fit_step f)%num /\ stopLoop f = false.

Lemma moderate_pos (k : Z) (x : num) : moderate k x -> (0 < B2X x)%R.
Proof. intros (_ & _ & H & _). pose proof (bpow_pos (- k)). lra. Qed.

Lemma quotient_pos (f : fitting) : fit_inv f -> (0 < quotient f)%R.
Proof.
  intros (Hs & _). apply Rdiv_lt_0_compat; eapply moderate_pos; eauto.
Qed.

Lemma quotient_rounds (f : fitting) : fit_inv f ->
  rounds (quotient f) (r / fit_step f)%num /\ is_finite (r / fit_step f)%num = true.
Proof.
  intros Hf. pose proof (quotient_pos f Hf) as Hpos. destruct Hf as (Hs & Hq & _).
  pose proof (moderate_pos _ _ Hs) as Hsp. destruct Hr as (Vr & Fr & _), Hs as (Vs & Fs & _).
  assert (Hrd : rounds (quotient f) (r / fit_step f)%num) by (apply ndiv_rounds; try done; lra).
  split; [done|]. eapply small_exact_finite; [exact Hrd|].
  assert (bpow 900 <= bpow 1000)%R by (apply bpow_le; lia). lra.
Qed.

Lemma half_integer_exact (z : Z) : 1 <= z <= 2 ^ 21 -> exact (IZR z - / 2).
Proof.
  intros [H1 H2]. assert (Hz : (IZR z - / 2 = IZR (2 * z - 1) * bpow (-1))%R).
  { rewrite bpow_m1, minus_IZR, mult_IZR. lra. }
  assert (Hp : (0 <= IZR z - / 2)%R) by (apply IZR_le in H1; lra).
  unfold exact. rewrite Rabs_pos_eq by done. split.
  - exists (2 * z - 1), (-1). split; [lia|]. split; [unfold emin64; lia|done].
  - apply IZR_le in H2. apply Rle_trans with (bpow 21); [|apply bpow_le; lia].
    rewrite IZR_pow2 in H2 by lia. lra.
Qed.

Definition too_few (f : fitting) : bool := (fit_steps f < of_Z a)%num.
Definition too_many (f : fitting) : bool := (of_Z b < fit_steps f)%num.

Lemma too_few_spec (f : fitting) : fit_inv f ->
  (too_few f = true -> (quotient f < IZR a - / 2)%R) /\
  ((IZR a - / 2 <= quotient f)%R -> too_few f = false).
Proof.
  intros Hf. destruct (quotient_rounds f Hf) as [Hrd Hfin]. destruct Hf as (_ & _ & Hst & _).
  unfold too_few. rewrite Hst.
  pose proof (Math_round_lt _ a Hfin ltac:(unfold safe; lia) ltac:(unfold safe; lia)) as Hlt.
  assert (Hge : (IZR a - / 2 <= quotient f)%R -> nlt (Math_round (r / fit_step f)) (of_Z a) = false).
  { intros Hq. apply not_true_iff_false. intros H1. apply Hlt in H1.
    pose proof (rounds_ge _ _ _ Hrd (half_integer_exact a ltac:(lia)) Hq). lra. }
  split; [|done]. intros H1. destruct (Rlt_le_dec (quotient f) (IZR a - / 2)) as [|Hle]; [done|].
  unfold nlt in *. rewrite (Hge Hle) in H1. done.
Qed.

Lemma too_many_spec (f : fitting) : fit_inv f ->
  (too_many f = true -> (IZR (2 * a - 1) < quotient f)%R /\ (IZR b < quotient f)%R) /\
  ((quotient f <= IZR b)%R -> too_many f = false).
Proof.
  intros Hf. destruct (quotient_rounds f Hf) as [Hrd Hfin]. destruct Hf as (_ & _ & Hst & _).
  unfold too_many. rewrite Hst.
  pose proof (Math_round_gt _ b Hfin ltac:(unfold safe; lia) ltac:(unfold safe; lia)) as Hgt.
  assert (Hle : (quotient f <= IZR b)%R -> nlt (of_Z b) (Math_round (r / fit_step f)) = false).
  { intros Hq. apply not_true_iff_false. intros H1. apply Hgt in H1.
    pose proof (rounds_le _ _ _ Hrd (safe_exact b ltac:(unfold safe; lia)) Hq). lra. }
  split; [|done]. intros H1.
  assert (IZR b < quotient f)%R as H2.
  { destruct (Rlt_le_dec (IZR b) (quotient f)) as [|H2]; [done|].
    unfold nlt in *. rewrite (Hle H2) in H1. done. }
  split; [|done]. assert (2 * a - 1 <= b) as H3%IZR_le by lia. lra.
Qed.

(** Halving the step doubles the quotient, and the other way round. *)
Lemma fit_halve (f : fitting) : fit_inv f -> too_few f = true ->
  let g := fit_once yAxisMinimumInterval r (of_Z a) f in
  fit_inv g /\ quotient g = (2 * quotient f)%R /\ too_many g = false.
Proof.
  intros Hf Hfew. destruct (too_few_spec f Hf) as [Hq _]. specialize (Hq Hfew).
  pose proof (quotient_pos f Hf) as Hqp. pose proof Hf as (Hs & _ & _ & Hstop).
  destruct (half_exact _ Hs) as (Vh & Fh & Eh). pose proof (moderate_pos _ _ Hs) as Hsp.
  unfold fit_once. change (fit_steps f < of_Z a)%num with (too_few f). rewrite Hfew.
  replace (match yAxisMinimumInterval with VNum _ => _ | _ => false end) with false
    by (by destruct yAxisMinimumInterval).
  set (g := {| fit_step := _; fit_steps := _; stopLoop := _ |}). cbn zeta.
  assert (Hqg : quotient g = (2 * quotient f)%R).
  { unfold quotient, g. cbn [fit_step]. rewrite Eh. field. lra. }
  assert (Hg : fit_inv g).
  { assert (IZR a <= bpow 20)%R as Ha20 by (rewrite <- IZR_pow2 by lia; apply IZR_le; lia).
    assert (bpow 21 = 2 * bpow 20)%R by (rewrite <- bpow_1, <- bpow_plus; done).
    split; [|split; [|split; [done|exact Hstop]]].
    - split; [done|]. split; [done|]. cbn [g fit_step]. rewrite Eh.
      destruct Hs as (_ & _ & Hlo & Hhi), Hr as (_ & _ & Hrlo & _). split; [|lra].
      assert (B2X r < B2X (fit_step f) * bpow 20)%R as H1.
      { apply Rle_lt_trans with (quotient f * B2X (fit_step f))%R; [right; unfold quotient; field; lra|].
        rewrite Rmult_comm. apply Rmult_lt_compat_l; lra. }
      assert (bpow (- (400)) < B2X (fit_step f) * bpow 20)%R as H2 by lra.
      apply (Rmult_lt_compat_r (bpow (-20))) in H2; [|apply bpow_pos].
      rewrite Rmult_assoc, <- !bpow_plus in H2. replace (20 + -20) with 0 in H2 by lia.
      rewrite bpow_0, Rmult_1_r in H2.
      assert (bpow (- (500)) * 2 <= bpow (- (400) + -20))%R; [|lra].
      rewrite <- bpow_1, <- bpow_plus. apply bpow_le. lia.
    - rewrite Hqg. assert (bpow 21 <= bpow 900)%R by (apply bpow_le; lia). lra. }
  split; [exact Hg|]. split; [exact Hqg|]. apply (too_many_spec g Hg). rewrite Hqg.
  assert (2 * a - 1 <= b) as H3%IZR_le by lia. rewrite minus_IZR, mult_IZR in H3. lra.
Qed.

Lemma fit_double (f : fitting) : fit_inv f -> too_few f = false -> too_many f = true ->
  let g := fit_once yAxisMinimumInterval r (of_Z a) f in
  fit_inv g /\ quotient g = (quotient f / 2)%R /\ too_few g = false.
Proof.
  intros Hf Hfew Hmany. destruct (too_many_spec f Hf) as [Hq _]. specialize (Hq Hmany).
  destruct Hq as [Hq Hqb]. pose proof (quotient_pos f Hf) as Hqp. pose proof Hf as (Hs & Hq9 & _ & Hstop).
  destruct (double_exact _ Hs) as (Vh & Fh & Eh). pose proof (moderate_pos _ _ Hs) as Hsp.
  unfold fit_once. change (fit_steps f < of_Z a)%num with (too_few f). rewrite Hfew.
  set (g := {| fit_step := _; fit_steps := _; stopLoop := _ |}). cbn zeta.
  assert (Hqg : quotient g = (quotient f / 2)%R).
  { unfold quotient, g. cbn [fit_step]. rewrite Eh. field. lra. }
  assert (Hg : fit_inv g).
  { split; [|split; [|split; [done|exact Hstop]]].
    - split; [done|]. split; [done|]. cbn [g fit_step]. rewrite Eh.
      destruct Hs as (_ & _ & Hlo & Hhi), Hr as (_ & _ & _ & Hrhi). split; [lra|].
      assert (B2X (fit_step f) <= B2X r)%R as H1.
      { replace (B2X r) with (quotient f * B2X (fit_step f))%R by (unfold quotient; field; lra).
        assert (1 <= b) as Hb1%IZR_le by lia.
        rewrite <- (Rmult_1_l (B2X (fit_step f))) at 1. apply Rmult_le_compat_r; lra. }
      assert (bpow 400 * 2 <= bpow 500)%R; [|lra].
      rewrite <- bpow_1, <- bpow_plus. apply bpow_le. lia.
    - rewrite Hqg. lra. }
  split; [exact Hg|]. split; [exact Hqg|]. apply (too_few_spec g Hg). rewrite Hqg.
  rewrite minus_IZR, mult_IZR in Hq. lra.
Qed.

Lemma must_refit_spec (f : fitting) : fit_inv f ->
  must_refit (of_Z a) (of_Z b) f = too_few f || too_many f.
Proof. intros (_ & _ & _ & Hstop). unfold must_refit. by rewrite Hstop. Qed.

(** The result of the loop: neither too few nor too many steps. *)
Definition fits_well (res : res fitting) : Prop :=
  exists f, res = Ok f /\ fit_inv f /\ too_few f = false /\ too_many f = false.

Lemma fit_halving (n fuel : nat) (f : fitting) :
  fit_inv f -> too_many f = false -> (IZR a <= quotient f * bpow (Z.of_nat n))%R -> (n <= fuel)%nat ->
  fits_well (fit_to_steps fuel yAxisMinimumInterval r (of_Z a) (of_Z b) f).
Proof.
  revert fuel f. induction n as [|n IH]; intros fuel f Hf Hmany Hn Hfuel.
  - assert (Hfew : too_few f = false).
    { apply (too_few_spec f Hf). change (Z.of_nat 0) with 0 in Hn. rewrite bpow_0 in Hn. lra. }
    exists f. split; [|done]. unfold fit_to_steps.
    destruct fuel; cbn [while]; by rewrite (must_refit_spec f Hf), Hfew, Hmany.
  - destruct fuel as [|fuel]; [lia|]. unfold fit_to_steps. cbn [while].
    rewrite must_refit_spec, Hmany, orb_false_r by done. destruct (too_few f) eqn:Hfew.
    + destruct (fit_halve f Hf Hfew) as (Hg & Hq & Hm). apply IH; [done|done| |lia].
      rewrite Hq. rewrite Nat2Z.inj_succ, <- Z.add_1_l, bpow_plus, bpow_1 in Hn. lra.
    + by exists f.
Qed.

Lemma fit_doubling (n fuel : nat) (f : fitting) :
  fit_inv f -> too_few f = false -> (quotient f <= IZR b * bpow (Z.of_nat n))%R -> (n <= fuel)%nat ->
  fits_well (fit_to_steps fuel yAxisMinimumInterval r (of_Z a) (of_Z b) f).
Proof.
  revert fuel f. induction n as [|n IH]; intros fuel f Hf Hfew Hn Hfuel.
  - assert (Hmany : too_many f = false).
    { apply (too_many_spec f Hf). change (Z.of_nat 0) with 0 in Hn. rewrite bpow_0 in Hn. lra. }
    exists f. split; [|done]. unfold fit_to_steps.
    destruct fuel; cbn [while]; by rewrite (must_refit_spec f Hf), Hfew, Hmany.
  - destruct fuel as [|fuel]; [lia|]. unfold fit_to_steps. cbn [while].
    rewrite must_refit_spec, Hfew by done. cbn [orb]. destruct (too_many f) eqn:Hmany.
    + destruct (fit_double f Hf Hfew Hmany) as (Hg & Hq & Hm). apply IH; [done|done| |lia].
      rewrite Hq. rewrite Nat2Z.inj_succ, <- Z.add_1_l, bpow_plus, bpow_1 in Hn. lra.
    + by exists f.
Qed.

(** C30: the loop that halves or doubles the step of an axis stops, with a number
    of steps between the two bounds and the step it belongs to, whatever the
    sizes of the range and of the first step (up to 2^400 and down to 2^-400). *)
Theorem fit_to_steps_terminates (fuel : nat) (step : num) :
  moderate 400 step -> (820 <= fuel)%nat ->
  exists f, fit_to_steps fuel yAxisMinimumInterval r (of_Z a) (of_Z b)
              {| fit_step := step; fit_steps := Math_round (r / step)%num; stopLoop := false |} = Ok f /\
    fit_steps f = Math_round (r / fit_step f)%num /\
    (fit_steps f < of_Z a)%num = false /\ (fit_steps f > of_Z b)%num = false.
Proof.
  intros Hs Hfuel.
  set (f0 := {| fit_step := step; fit_steps := Math_round (r / step)%num; stopLoop := false |}).
  pose proof (moderate_pos _ _ Hs) as Hsp. pose proof (moderate_pos _ _ Hr) as Hrp.
  pose proof Hs as (Vs & Fs & Hslo & Hshi). pose proof Hr as (Vr & Fr & Hrlo & Hrhi).
  assert (Heq : (quotient f0 * B2X step = B2X r)%R) by (unfold quotient, f0; cbn [fit_step]; field; lra).
  assert (Hup : (quotient f0 <= bpow 800)%R).
  { apply Rmult_le_reg_r with (B2X step); [done|]. rewrite Heq.
    assert (bpow 400 = bpow 800 * bpow (- (400)))%R by (rewrite <- bpow_plus; done).
    pose proof (bpow_pos 800). nra. }
  assert (Hlo : (bpow (-800) <= quotient f0)%R).
  { apply Rmult_le_reg_r with (B2X step); [done|]. rewrite Heq.
    assert (bpow (- (400)) = bpow (-800) * bpow 400)%R by (rewrite <- bpow_plus; done).
    pose proof (bpow_pos (-800)). nra. }
  assert (Hf : fit_inv f0).
  { split; [|split; [|done]].
    - split; [done|]. split; [done|]. cbn [f0 fit_step].
      assert (bpow (- (500)) <= bpow (- (400)))%R by (apply bpow_le; lia).
      assert (bpow 400 <= bpow 500)%R by (apply bpow_le; lia). lra.
    - assert (bpow 800 <= bpow 900)%R by (apply bpow_le; lia). lra. }
  assert (Hgood : fits_well (fit_to_steps fuel yAxisMinimumInterval r (of_Z a) (of_Z b) f0)).
  { destruct (too_many f0) eqn:Hmany.
    - apply (fit_doubling 800); [done| | |lia].
      + apply (too_few_spec f0 Hf). destruct (too_many_spec f0 Hf) as [[Hq _] _]; [done|].
        rewrite minus_IZR, mult_IZR in Hq. assert (1 <= a) as H1%IZR_le by done. lra.
      + assert (1 <= b) as H1%IZR_le by lia. pose proof (bpow_pos 800). cbn [Z.of_nat]. 
        change (Z.of_nat 800) with 800. nra.
    - apply (fit_halving 820); [done|done| |lia]. change (Z.of_nat 820) with 820.
      assert (IZR a <= bpow 20)%R by (rewrite <- IZR_pow2 by lia; apply IZR_le; lia).
      assert (bpow 20 = bpow (-800) * bpow 820)%R by (rewrite <- bpow_plus; done).
      pose proof (bpow_pos 820). nra. }
  destruct Hgood as (f & Hok & (_ & _ & Hst & _) & Hfew & Hmany). by exists f.
Qed.

End Fit.

(** A range of 47 divided, first by ten, into five to fifteen steps. *)
Lemma fit_to_steps_terminates_witness :
  exists f, fit_to_steps 820 (VStr "none"%string) (of_Z 47) (of_Z 5) (of_Z 15)
              {| fit_step := of_Z 10; fit_steps := Math_round (of_Z 47 / of_Z 10)%num; stopLoop := false |} = Ok f /\
    fit_steps f = Math_round (of_Z 47 / fit_step f)%num /\
    (fit_steps f < of_Z 5)%num = false /\ (fit_steps f > of_Z 15)%num = false.
Proof.
  apply (fit_to_steps_terminates (of_Z 47) 5 15 (VStr "none"%string)); try lia; try exact I.
  - split; [reflexivity|]. split; [reflexivity|]. rewrite of_Z_B2X by (unfold safe; lia).
    split; [apply Rle_trans with (bpow 0); [apply bpow_le; lia|rewrite bpow_0; lra]|].
    apply Rle_trans with (bpow 6); [rewrite <- IZR_pow2 by lia; apply IZR_le; lia|apply bpow_le; lia].
  - split; [reflexivity|]. split; [reflexivity|]. rewrite of_Z_B2X by (unfold safe; lia).
    split; [apply Rle_trans with (bpow 0); [apply bpow_le; lia|rewrite bpow_0; lra]|].
    apply Rle_trans with (bpow 6); [rewrite <- IZR_pow2 by lia; apply IZR_le; lia|apply bpow_le; lia].
Defined.

(** ** The labels of the axis *)

Lemma loop_count_of_Z (k : Z) : safe k -> 0 <= k -> loop_count (of_Z k) = Ok (Z.to_nat k).
Proof.
  intros Hk Hpos. destruct (decide (k = 0)) as [->|Hne]; [done|].
  destruct (of_Z_shape k Hk Hne) as (s & m & e & Heq & _ & Hs).
  replace (k <? 0) with false in Hs by (symmetry; apply Z.ltb_ge; lia). subst s.
  pose proof (of_Z_B2X k Hk) as Hv. rewrite Heq in *. cbn [loop_count]. do 2 f_equal.
  pose proof (floor_Z_bounds true m e) as Hb. cbn [B2X sgn] in *.
  replace (-1 * (IZR (Zpos m) * bpow e))%R with (- IZR k)%R in Hb by lra.
  rewrite <- opp_IZR in Hb. destruct Hb as [H1%le_IZR H2]. rewrite <- plus_IZR in H2. apply lt_IZR in H2. lia.
Qed.

Lemma res_mapM_total {A B} (f : A -> res B) (l : list A) :
  (forall x, x ∈ l -> exists y, f x = Ok y) ->
  exists ys, res_mapM f l = Ok ys /\ length ys = length l /\
    forall i x, l !! i = Some x -> exists y, ys !! i = Some y /\ f x = Ok y.
Proof.
  induction l as [|x l IH]; intros Hf; [by exists []|].
  destruct (Hf x) as [y Hy]; [set_solver|]. destruct IH as (ys & Hys & Hlen & Hnth); [set_solver|].
  exists (y :: ys). cbn [res_mapM]. rewrite Hy. cbn [res_bind]. rewrite Hys. split; [done|].
  split; [cbn; lia|]. intros [|i] x' Hx'; [|by apply Hnth].
  injection Hx' as <-. by exists y.
Qed.

Section Labels.

Context (toLocaleTimeString : jsval -> string).
Context (eval_template : string -> list (string * jsval) -> res string).

(** Templates that evaluate whatever they are given. *)
Hypothesis (template_total : forall s d, exists t, eval_template s d = Ok t).

Lemma to_fixed_total (x : num) (f : Z) : 0 <= f <= 100 -> exists s, to_fixed x f = Ok s.
Proof.
  intros Hf. unfold to_fixed.
  replace ((f <? 0) || (100 <? f)) with false
    by (symmetry; apply orb_false_iff; rewrite !Z.ltb_ge; lia).
  destruct x as [s|s| |s m e]; [by eexists..|]. destruct (nge _ _); [by eexists|].
  cbv zeta. destruct (split_at _ _). by eexists.
Qed.

Lemma getDecimalPlaces_nonneg (x : num) : 0 <= getDecimalPlaces x.
Proof. apply Z.le_max_l. Qed.

Lemma fmtChartJS_total (c : config) (v : jsval) (fmt : string) :
  exists w, fmtChartJS toLocaleTimeString c v fmt = Ok w.
Proof.
  unfold fmtChartJS, fmtChartJSPerso. destruct (String.eqb fmt "notformatted"); [by eexists|].
  destruct (String.eqb fmt "none"); [by destruct v; eexists|].
  by destruct (String.eqb fmt "DateTime"); eexists.
Qed.

Lemma scale_label_total (c : config) (labelTemplateString fmtYLabel : string) (value unit : num) :
  getDecimalPlaces unit <= 100 ->
  exists l, scale_label toLocaleTimeString eval_template c labelTemplateString fmtYLabel value unit = Ok l.
Proof.
  intros Hu. unfold scale_label.
  destruct (to_fixed_total value (getDecimalPlaces unit)) as [s ->]; [split; [apply getDecimalPlaces_nonneg|done]|].
  cbn [res_bind].
  destruct (fmtChartJS_total c (VNum (of_Z 1 * string_to_num s)%num) fmtYLabel) as [w ->].
  cbn [res_bind]. apply template_total.
Qed.

(** The format of the labels of an axis. *)
Definition label_format (axis : Z) (c : config) : string :=
  to_str (if axis =? 2 then c.["fmtYLabel2"] else c.["fmtYLabel"]).

Definition is_logarithmic (axis : Z) (c : config) : bool :=
  truthy (if axis =? 2 then c.["logarithmic2"] else c.["logarithmic"]).

(** A linear axis of [n] steps gets [n + 1] labels; label [i] is the text of
    its minimum plus [i] steps. *)
Theorem populateLabels_linear (axis : Z) (c : config) (labelTemplateString : string) (n : Z)
    (graphMin stepValue : num) :
  labelTemplateString <> ""%string -> is_logarithmic axis c = false ->
  0 <= n -> safe (n + 1) -> getDecimalPlaces stepValue <= 100 ->
  exists ls, populateLabels toLocaleTimeString eval_template axis c labelTemplateString (of_Z n) graphMin stepValue = Ok ls /\
    length ls = Z.to_nat (n + 1) /\
    forall i, (i < Z.to_nat (n + 1))%nat -> exists l, ls !! i = Some l /\
      scale_label toLocaleTimeString eval_template c labelTemplateString (label_format axis c)
        (graphMin + stepValue * of_Z (Z.of_nat i))%num stepValue = Ok l.
Proof.
  intros Ht Hlog Hn Hs Hd. unfold is_logarithmic in Hlog. unfold populateLabels, label_format.
  apply String.eqb_neq in Ht.
  destruct (res_mapM_total (fun i => scale_label toLocaleTimeString eval_template c labelTemplateString
    (to_str (if axis =? 2 then c.["fmtYLabel2"] else c.["fmtYLabel"]))
    (graphMin + stepValue * of_Z (Z.of_nat i))%num stepValue) (seq 0 (Z.to_nat (n + 1)))) as (ls & Hls & Hlen & Hnth).
  { intros i _. by apply scale_label_total. }
  exists ls. rewrite length_seq in Hlen. split; [|split; [done|]].
  - destruct (axis =? 2); rewrite Ht, nadd_of_Z, loop_count_of_Z by (unfold safe in *; lia);
      cbn [res_bind]; by rewrite Hlog.
  - intros i Hi. apply (Hnth i i). by apply lookup_seq.
Qed.

End Labels.

(** The template evaluator of the witness prints the value. *)
Definition value_template (s : string) (d : list (string * jsval)) : res string :=
  Ok (to_str (field d "value")).

Definition axis_config : config := of_fields [
  ("fmtYLabel", VStr "none"); ("roundNumber", VStr "none");
  ("decimalSeparator", VStr "."); ("thousandSeparator", VStr "");
  ("templatesOpenTag", VStr "<%="); ("templatesCloseTag", VStr "%>")]%string.

Lemma populateLabels_linear_witness :
  exists ls, populateLabels to_str value_template 1 axis_config "<%=value%>" (of_Z 10) (of_Z 0) (of_Z 10) = Ok ls /\
    length ls = 11%nat.
Proof.
  destruct (populateLabels_linear to_str value_template (fun s d => ex_intro _ _ eq_refl) 1 axis_config
    "<%=value%>" 10 (of_Z 0) (of_Z 10)) as (ls & Hls & Hlen & _).
  - discriminate.
  - reflexivity.
  - lia.
  - unfold safe. lia.
  - vm_compute. discriminate.
  - exists ls. split; [exact Hls|exact Hlen].
Defined.

(** ** The second axis *)

Lemma res_mapM_ext {A B} (f g : A -> res B) (l : list A) : (forall x, f x = g x) -> res_mapM f l = res_mapM g l.
Proof. intros Hfg. induction l as [|x l IH]; cbn [res_mapM]; [done|]. by rewrite Hfg, IH. Qed.

Section Irrelevant.

Context `{MathLib}.
Context (toLocaleTimeString : jsval -> string).
Context (eval_template : string -> list (string * jsval) -> res string).

(** The configuration with another format for the second axis. *)
Context (c : config) (f : jsval).
Let c' : config := <["fmtYLabel2"%string := f]> c.

#[local] Ltac irrelevant := subst c'; rewrite ?prop_insert_ne by reflexivity.

Lemma fmtChartJS_irrelevant (v : jsval) (fmt : string) :
  fmtChartJS toLocaleTimeString c' v fmt = fmtChartJS toLocaleTimeString c v fmt.
Proof. unfold fmtChartJS, fmt_number. by irrelevant. Qed.

Lemma scale_label_irrelevant (t fmt : string) (value unit : num) :
  scale_label toLocaleTimeString eval_template c' t fmt value unit
  = scale_label toLocaleTimeString eval_template c t fmt value unit.
Proof.
  unfold scale_label, tmpl, normalise_template.
  destruct (to_fixed value (getDecimalPlaces unit)); cbn [res_bind]; [|done].
  rewrite fmtChartJS_irrelevant. by irrelevant.
Qed.

Lemma populateLabels_irrelevant (t : string) (n gmin sv : num) :
  populateLabels toLocaleTimeString eval_template 1 c' t n gmin sv
  = populateLabels toLocaleTimeString eval_template 1 c t n gmin sv.
Proof.
  unfold populateLabels. cbn [Z.eqb Pos.eqb].
  replace (c'.["logarithmic"]) with (c.["logarithmic"]) by (by irrelevant).
  replace (c'.["fmtYLabel"]) with (c.["fmtYLabel"]) by (by irrelevant).
  destruct (String.eqb t ""); [done|]. destruct (loop_count _) as [k|e]; cbn [res_bind]; [|done].
  destruct (negb _); [apply res_mapM_ext; intros; apply scale_label_irrelevant|].
  revert gmin. induction k as [|k IH]; intros gmin; cbn [log_labels]; [done|].
  by rewrite scale_label_irrelevant, IH.
Qed.

Lemma linear_scale_irrelevant (fuel : nat) (interval : jsval) (mx mn hi lo : num) :
  linear_scale fuel c' interval mx mn hi lo = linear_scale fuel c interval mx mn hi lo.
Proof.
  unfold linear_scale, linear_range, widen_range, align_step, trim_bottom, trim_top, roundScale.
  by irrelevant.
Qed.

(** The labels of the second axis are printed with the format of the first
    one: what [calculateScale] computes, for axis 2 as for axis 1, does not
    depend on the option [fmtYLabel2]. *)
Lemma calculateScale_ignores_fmtYLabel2 (fuel : nat) (axis : Z)
    (maxSteps minSteps maxValue minValue : num) (labelTemplateString : string) :
  calculateScale toLocaleTimeString eval_template fuel axis (<["fmtYLabel2"%string := f]> c)
    maxSteps minSteps maxValue minValue labelTemplateString
  = calculateScale toLocaleTimeString eval_template fuel axis c
      maxSteps minSteps maxValue minValue labelTemplateString.
Proof.
  fold c'. unfold calculateScale.
  replace (if axis =? 2 then (c'.["logarithmic2"], c'.["yAxisMinimumInterval2"])
           else (c'.["logarithmic"], c'.["yAxisMinimumInterval"]))
    with (if axis =? 2 then (c.["logarithmic2"], c.["yAxisMinimumInterval2"])
          else (c.["logarithmic"], c.["yAxisMinimumInterval"])) by (by irrelevant).
  destruct (if axis =? 2 then _ else _) as [lg iv]. rewrite linear_scale_irrelevant.
  destruct (if negb (truthy lg) then _ else _) as [[[n sv] gmin]|e]; cbn [res_bind]; [|done].
  by rewrite populateLabels_irrelevant.
Qed.

End Irrelevant.

(** ** The range of the data *)

(** A datum: a number, or nothing. *)
Definition numeric (v : jsval) : Prop := v = VUndef \/ exists x, v = VNum x /\ valid x = true.

Lemma numeric_VUndef : numeric VUndef.
Proof. by left. Qed.

Lemma numeric_VInt (z : Z) : numeric (VInt z).
Proof. right. exists (of_Z z). split; [done|apply of_Z_valid]. Qed.

Definition numeric_data (d : dataset) : Prop := Forall numeric (ds_data d).

Definition proper_extent (e : extent) : Prop := ordered (upper e) /\ ordered (lower e).

(** A value lies in an extent. *)
Definition inside (e : extent) (x : num) : Prop :=
  (B2X (lower e) <= B2X x <= B2X (upper e))%R /\ seen e = true.

(** An extent contains another one. *)
Definition wider (e e' : extent) : Prop :=
  (B2X (lower e') <= B2X (lower e))%R /\ (B2X (upper e) <= B2X (upper e'))%R /\
  (seen e = true -> seen e' = true).

Lemma wider_refl (e : extent) : wider e e.
Proof. split; [lra|]. split; [lra|done]. Qed.

Lemma wider_trans (e1 e2 e3 : extent) : wider e1 e2 -> wider e2 e3 -> wider e1 e3.
Proof. intros (? & ? & ?) (? & ? & ?). split; [lra|]. split; [lra|tauto]. Qed.

Lemma inside_wider (e e' : extent) (x : num) : inside e x -> wider e e' -> inside e' x.
Proof. intros [? ?] (? & ? & ?). split; [lra|tauto]. Qed.

Lemma nmul_1_B2X (x : num) : valid x = true -> is_NaN x = false ->
  ordered (of_Z 1 * x)%num /\ B2X (of_Z 1 * x)%num = B2X x.
Proof.
  intros Vx Nx. destruct (is_finite x) eqn:Fx.
  - pose proof (nmul_rounds (of_Z 1) x ltac:(reflexivity) Vx ltac:(reflexivity) Fx) as Hr.
    rewrite (of_Z_B2X 1) in Hr by (unfold safe; lia). rewrite Rmult_1_l in Hr.
    split; [by eapply rounds_ordered|]. apply (rounds_exact _ _ Hr). by apply valid_exact.
  - assert (E : (of_Z 1 * x)%num = x) by (by destruct x as [|[|]| |]). by rewrite E.
Qed.

Lemma nadd_0_B2X (x : num) : ordered x -> ordered (x + n0)%num /\ B2X (x + n0)%num = B2X x.
Proof.
  intros Hx. split.
  - destruct Hx as [Vx Nx]. split; [by apply nadd_valid|by destruct x as [[|]|[|]| |]].
  - by destruct x as [[|]|[|]| |].
Qed.

Lemma nsub_0_B2X (x : num) : ordered x -> ordered (x - n0)%num /\ B2X (x - n0)%num = B2X x.
Proof.
  intros Hx. split.
  - destruct Hx as [Vx Nx]. split; [by apply nsub_valid|by destruct x as [[|]|[|]| |]].
  - by destruct x as [[|]|[|]| |].
Qed.

(** An extent grows to contain a number, and stays when there is none. *)
Lemma extend_wider (e : extent) (v : jsval) : numeric v -> proper_extent e ->
  proper_extent (extend n0 e v) /\ wider e (extend n0 e v) /\
  (forall x, v = VNum x -> is_NaN x = false -> inside (extend n0 e v) x).
Proof.
  intros Hv [Ou Ol]. destruct Hv as [->|(x & -> & Vx)].
  { split; [exact (conj Ou Ol)|]. split; [apply wider_refl|done]. }
  unfold extend. cbn [is_undefined to_num]. destruct (is_NaN x) eqn:Nx.
  { destruct x; try done.
    replace (of_Z 1 * S754_nan + n0 > upper e)%num with false by (by destruct (upper e)).
    split; [exact (conj Ou Ol)|]. split; [split; [apply Rle_refl|split; [apply Rle_refl|done]]|]. by intros ? [= <-]. }
  destruct (nmul_1_B2X x Vx Nx) as [O1 E1].
  destruct (nadd_0_B2X _ O1) as [Oh Eh]. destruct (nsub_0_B2X _ O1) as [Oo Eo].
  set (hi := (of_Z 1 * x + n0)%num) in *. set (lo := (of_Z 1 * x - n0)%num) in *.
  pose proof (nlt_spec (upper e) hi Ou Oh) as Hhi. pose proof (nlt_spec lo (lower e) Oo Ol) as Hlo.
  change (hi > upper e)%num with (nlt (upper e) hi). unfold proper_extent, wider, inside. cbn [upper lower seen].
  split; [split; [by destruct (nlt (upper e) hi)|by destruct (nlt lo (lower e))]|].
  assert (Hu : (B2X (upper e) <= B2X (if nlt (upper e) hi then hi else upper e) /\
                B2X x <= B2X (if nlt (upper e) hi then hi else upper e))%R).
  { destruct (nlt (upper e) hi); [pose proof (proj1 Hhi eq_refl); lra|].
    destruct (Rle_lt_dec (B2X hi) (B2X (upper e))) as [|H1]; [lra|]. apply Hhi in H1. done. }
  assert (Hl : (B2X (if nlt lo (lower e) then lo else lower e) <= B2X (lower e) /\
                B2X (if nlt lo (lower e) then lo else lower e) <= B2X x)%R).
  { destruct (nlt lo (lower e)); [pose proof (proj1 Hlo eq_refl); lra|].
    destruct (Rle_lt_dec (B2X (lower e)) (B2X lo)) as [|H1]; [lra|]. apply Hlo in H1. done. }
  split; [tauto|]. intros x' [= <-] _. split; [tauto|done].
Qed.

Lemma extend_all (l : list jsval) (e : extent) : Forall numeric l -> proper_extent e ->
  let e' := fold_left (extend n0) l e in
  proper_extent e' /\ wider e e' /\
  (forall x, VNum x ∈ l -> is_NaN x = false -> inside e' x).
Proof.
  revert e. induction l as [|v l IH]; intros e Hl He; cbn [fold_left].
  { split; [done|]. split; [apply wider_refl|]. intros x Hx. by apply elem_of_nil in Hx. }
  apply Forall_cons in Hl as [Hv Hl]. destruct (extend_wider e v Hv He) as (Hp & Hw & Hin).
  destruct (IH _ Hl Hp) as (Hp' & Hw' & Hin'). split; [done|].
  split; [by eapply wider_trans|]. intros x Hx Nx. apply elem_of_cons in Hx as [Heq|Hx]; [|by apply Hin'].
  eapply inside_wider; [by apply Hin|exact Hw'].
Qed.

Section Bounds.

(** No dataset draws deviations. *)
Let no_deviation (v : jsval) : option (nat -> num) := None.

Lemma data_extents_enclose (l : list (nat * dataset)) (es : extent * extent) :
  Forall (fun id => numeric_data id.2) l -> proper_extent es.1 -> proper_extent es.2 ->
  let es' := fold_left (dataset_extents no_deviation) l es in
  proper_extent es'.1 /\ proper_extent es'.2 /\ wider es.1 es'.1 /\ wider es.2 es'.2 /\
  (forall i d x, (i, d) ∈ l -> VNum x ∈ ds_data d -> is_NaN x = false ->
     inside (if on_second_axis d then es'.2 else es'.1) x).
Proof.
  revert es. induction l as [|[i d] l IH]; intros [e1 e2] Hl H1 H2; cbn [fold_left fst snd] in *.
  { split; [done|]. split; [done|]. split; [apply wider_refl|]. split; [apply wider_refl|].
    intros i d x Hx. by apply elem_of_nil in Hx. }
  apply Forall_cons in Hl as [Hd Hl]. cbn [snd] in Hd.
  assert (Hstep : exists e1' e2', dataset_extents no_deviation (e1, e2) (i, d) = (e1', e2') /\
    proper_extent e1' /\ proper_extent e2' /\ wider e1 e1' /\ wider e2 e2' /\
    (forall x, VNum x ∈ ds_data d -> is_NaN x = false -> inside (if on_second_axis d then e2' else e1') x)).
  { unfold dataset_extents, dataset_height, no_deviation. cbn [fst snd].
    destruct (on_second_axis d).
    - destruct (extend_all (ds_data d) e2 Hd H2) as (? & ? & ?).
      exists e1, (fold_left (extend n0) (ds_data d) e2). auto 10 using wider_refl.
    - destruct (extend_all (ds_data d) e1 Hd H1) as (? & ? & ?).
      exists (fold_left (extend n0) (ds_data d) e1), e2. auto 10 using wider_refl. }
  destruct Hstep as (e1' & e2' & Heq & P1 & P2 & W1 & W2 & Hin). rewrite Heq.
  destruct (IH (e1', e2') Hl P1 P2) as (Q1 & Q2 & V1 & V2 & Hin'). cbn [fst snd] in *.
  split; [done|]. split; [done|]. split; [by eapply wider_trans|]. split; [by eapply wider_trans|].
  intros i' d' x Hx Hxd Nx. apply elem_of_cons in Hx as [[= -> ->]|Hx]; [|by eapply Hin'].
  eapply inside_wider; [by apply Hin|]. by destruct (on_second_axis d).
Qed.

Lemma no_extent_proper : proper_extent no_extent.
Proof. by split; split. Qed.

Context (callback : positive -> string -> Z -> Z -> jsval -> res jsval).

(** The configuration sets no limit of the axes: none is a function or a number. *)
Definition no_limits (c : config) : Prop :=
  Forall (fun k => is_function c.[k] = false /\ isNaN c.[k] = true)
    ["graphMin"; "graphMax"; "graphMin2"; "graphMax2"]%string.

Lemma limit_option_none (v : jsval) (reference : string) (other : jsval) (x : num) :
  is_function v = false -> isNaN v = true -> limit_option callback v reference other x = Ok x.
Proof. intros Hf Hn. unfold limit_option. by rewrite Hf, Hn. Qed.

(** The extents of the two axes, and whether one is too small to be divided. *)
Definition axis_extent (data : chart_data) (second : bool) : extent :=
  let es := data_extents no_deviation (datasets data) in if second then es.2 else es.1.

Definition too_small (zeroValue : num) (e : extent) : bool :=
  (Math_abs (upper e - lower e) < zeroValue)%num.

Lemma normalise_range_inside (z x : num) (e : extent) :
  proper_extent e -> inside e x -> too_small z e = false -> normalise_range z e = (upper e, lower e).
Proof.
  intros [Ou Ol] [[H1 H2] _] Hz. unfold normalise_range, too_small in *.
  replace (upper e < lower e)%num with false; [by rewrite Hz|].
  symmetry. apply not_true_iff_false. intros Hlt%nlt_spec; [lra|done|done].
Qed.

Lemma data_extents_inside (data : chart_data) (i : nat) (d : dataset) (x : num) :
  Forall numeric_data (datasets data) -> datasets data !! i = Some d -> VNum x ∈ ds_data d ->
  is_NaN x = false ->
  proper_extent (axis_extent data (on_second_axis d)) /\ inside (axis_extent data (on_second_axis d)) x.
Proof.
  intros Hnum Hd Hx Nx. unfold axis_extent, data_extents.
  destruct (data_extents_enclose (imap pair (datasets data)) (no_extent, no_extent)) as (P1 & P2 & _ & _ & Hin).
  - apply Forall_lookup. intros j [j' d'] Hj. rewrite list_lookup_imap in Hj.
    destruct (datasets data !! j) as [d''|] eqn:Hd''; [|done]. injection Hj as <- <-.
    by eapply Forall_lookup in Hnum.
  - apply no_extent_proper.
  - apply no_extent_proper.
  - assert (Hel : (i, d) ∈ imap pair (datasets data)).
    { apply list_elem_of_lookup. exists i. by rewrite list_lookup_imap, Hd. }
    specialize (Hin i d x Hel Hx Nx). by destruct (on_second_axis d).
Qed.

(** Without limits, the range of an axis with a number drawn on it is its extent. *)
Lemma bounds_extent (c : config) (chartTextScale availableHeight : num) (data : chart_data) :
  no_limits c -> Forall numeric_data (datasets data) ->
  exists b, getValueBounds callback no_deviation c chartTextScale availableHeight data = Ok b /\
    forall i d x, datasets data !! i = Some d -> VNum x ∈ ds_data d -> is_NaN x = false ->
      let e := axis_extent data (on_second_axis d) in
      too_small (to_num c.["zeroValue"]) e = false ->
      (if on_second_axis d then (maxValue2 b, minValue2 b) else (maxValue b, minValue b)) = (upper e, lower e).
Proof.
  intros Hlim Hnum. unfold getValueBounds.
  pose proof (fun i d x => data_extents_inside data i d x Hnum) as Hin. unfold axis_extent in *.
  destruct (data_extents no_deviation (datasets data)) as [e1 e2].
  set (z := to_num c.["zeroValue"]) in *.
  destruct (normalise_range z e1) as [u1 l1] eqn:N1, (normalise_range z e2) as [u2 l2] eqn:N2.
  unfold no_limits in Hlim. rewrite !Forall_cons in Hlim. destruct Hlim as (L1 & L2 & L3 & L4 & _).
  rewrite !limit_option_none by tauto. cbn [res_bind].
  destruct (seen e2) eqn:S2; cbn [res_bind]; [destruct (seen e1) eqn:S1; cbn [negb andb]|rewrite andb_false_r];
    eexists; (split; [done|]); intros i d x Hd Hx Nx; cbn zeta; intros Hz;
    destruct (Hin i d x Hd Hx Nx) as [Hp Hi]; pose proof (proj2 Hi);
    destruct (on_second_axis d); cbn [minValue maxValue minValue2 maxValue2 fst snd] in *; try congruence;
    rewrite <- ?N1, <- ?N2; by apply (normalise_range_inside z x).
Qed.

(** C38: when the configuration sets no limits, the range of each axis contains
    all numbers drawn on it, unless they lie closer together than
    [zeroValue]. *)
Theorem getValueBounds_encloses (c : config) (chartTextScale availableHeight : num) (data : chart_data) :
  no_limits c -> Forall numeric_data (datasets data) ->
  exists b, getValueBounds callback no_deviation c chartTextScale availableHeight data = Ok b /\
    forall i d x, datasets data !! i = Some d -> VNum x ∈ ds_data d -> is_NaN x = false ->
      valid x = true -> too_small (to_num c.["zeroValue"]) (axis_extent data (on_second_axis d)) = false ->
      (if on_second_axis d then minValue2 b <= x else minValue b <= x)%num = true /\
      (if on_second_axis d then x <= maxValue2 b else x <= maxValue b)%num = true.
Proof.
  intros Hlim Hnum. destruct (bounds_extent c chartTextScale availableHeight data Hlim Hnum) as (b & Hb & He).
  exists b. split; [exact Hb|]. intros i d x Hd Hx Nx Vx Hz. specialize (He i d x Hd Hx Nx Hz).
  destruct (data_extents_inside data i d x Hnum Hd Hx Nx) as [[Ou Ol] [Hi _]].
  destruct (on_second_axis d); injection He as -> ->; rewrite !nle_spec by (done || by split); tauto.
Qed.

End Bounds.

(** Two datasets, the second with a missing point. *)
Definition bounds_data : chart_data := {|
  labels := [VStr "a"; VStr "b"]%string;
  datasets := [ {| ds_data := [VInt 12; VInt 40]; ds_props := ∅ |};
                {| ds_data := [VUndef; VInt (-3)]; ds_props := ∅ |} ] |}.

Lemma getValueBounds_encloses_witness :
  exists b, getValueBounds no_callback (fun _ => None) ∅ (of_Z 1) (of_Z 300) bounds_data = Ok b /\
    (minValue b <= of_Z (-3))%num = true /\ (of_Z (-3) <= maxValue b)%num = true.
Proof.
  destruct (getValueBounds_encloses no_callback ∅ (of_Z 1) (of_Z 300) bounds_data) as (b & Hb & Hin).
  - repeat constructor.
  - repeat first [exact (numeric_VInt _) | exact numeric_VUndef | constructor].
  - exists b. split; [exact Hb|].
    specialize (Hin 1%nat {| ds_data := [VUndef; VInt (-3)]; ds_props := ∅ |} (of_Z (-3))).
    assert (Haxis : on_second_axis {| ds_data := [VUndef; VInt (-3)]; ds_props := ∅ |} = false)
      by (vm_compute; reflexivity).
    rewrite Haxis in Hin. apply Hin; try reflexivity. right. left.
Defined.
