(* ===== verification/Easing.v ===== *)
(** * Easing functions (ChartNew.js)

    The table [animationOptions] of a chart: how far an animation has come at a
    fraction [t] of its duration. *)

From stdpp Require Import base list strings.
From Stdlib Require Import ZArith SpecFloat.
From S2P Require Import Prelude Num.

Open Scope Z_scope.
Open Scope num_scope.

Notation "# z" := (of_Z z) (at level 1, z at level 0, format "# z") : num_scope.

Definition half : num := #1 / #2.
Definition neg_half : num := #(-1) / #2.

(** ** Polynomial easings *)

Definition linear (t : num) : num := t.
Definition easeInQuad (t : num) : num := t * t.
Definition easeOutQuad (t : num) : num := #(-1) * t * (t - #2).
Definition easeInOutQuad (t : num) : num :=
  let t := t / half in
  if t < #1 then half * t * t
  else let t := t - #1 in neg_half * (t * (t - #2) - #1).

Definition easeInCubic (t : num) : num := t * t * t.
Definition easeOutCubic (t : num) : num :=
  let t := t / #1 - #1 in #1 * (t * t * t + #1).
Definition easeInOutCubic (t : num) : num :=
  let t := t / half in
  if t < #1 then half * t * t * t
  else let t := t - #2 in half * (t * t * t + #2).

Definition easeInQuart (t : num) : num := t * t * t * t.
Definition easeOutQuart (t : num) : num :=
  let t := t / #1 - #1 in #(-1) * (t * t * t * t - #1).
Definition easeInOutQuart (t : num) : num :=
  let t := t / half in
  if t < #1 then half * t * t * t * t
  else let t := t - #2 in neg_half * (t * t * t * t - #2).

Definition easeInQuint (t : num) : num :=
  let t := t / #1 in #1 * t * t * t * t * t.
Definition easeOutQuint (t : num) : num :=
  let t := t / #1 - #1 in #1 * (t * t * t * t * t + #1).
Definition easeInOutQuint (t : num) : num :=
  let t := t / half in
  if t < #1 then half * t * t * t * t * t
  else let t := t - #2 in half * (t * t * t * t * t + #2).

(** ** Circular easings *)

Definition easeInCirc (t : num) : num :=
  if t >= #1 then t
  else let t' := t / #1 in #(-1) * (Math_sqrt (#1 - t' * t') - #1).
Definition easeOutCirc (t : num) : num :=
  let t := t / #1 - #1 in #1 * Math_sqrt (#1 - t * t).
Definition easeInOutCirc (t : num) : num :=
  let t := t / half in
  if t < #1 then neg_half * (Math_sqrt (#1 - t * t) - #1)
  else let t := t - #2 in half * (Math_sqrt (#1 - t * t) + #1).

(** ** Overshooting easings *)

Definition back_s : num := lit 170158 (-5).

Definition easeInBack (t : num) : num :=
  let s := back_s in
  let t := t / #1 in #1 * t * t * ((s + #1) * t - s).
Definition easeOutBack (t : num) : num :=
  let s := back_s in
  let t := t / #1 - #1 in #1 * (t * t * ((s + #1) * t + s) + #1).
Definition easeInOutBack (t : num) : num :=
  let s := back_s * lit 1525 (-3) in
  let t := t / half in
  if t < #1 then half * (t * t * ((s + #1) * t - s))
  else let t := t - #2 in half * (t * t * ((s + #1) * t + s) + #2).

(** ** Bouncing easings *)

Definition easeOutBounce (t : num) : num :=
  let c := lit 75625 (-4) in
  let t := t / #1 in
  if t < #1 / lit 275 (-2) then #1 * (c * t * t)
  else if t < #2 / lit 275 (-2) then
    let t := t - lit 15 (-1) / lit 275 (-2) in #1 * (c * t * t + lit 75 (-2))
  else if t < lit 25 (-1) / lit 275 (-2) then
    let t := t - lit 225 (-2) / lit 275 (-2) in #1 * (c * t * t + lit 9375 (-4))
  else
    let t := t - lit 2625 (-3) / lit 275 (-2) in #1 * (c * t * t + lit 984375 (-6)).
Definition easeInBounce (t : num) : num := #1 - easeOutBounce (#1 - t).
Definition easeInOutBounce (t : num) : num :=
  if t < half then easeInBounce (t * #2) * lit 5 (-1)
  else easeOutBounce (t * #2 - #1) * lit 5 (-1) + #1 * lit 5 (-1).

Section Transcendental.

Context `{MathLib}.

(** ** Sinusoidal and exponential easings *)

Definition easeInSine (t : num) : num := #(-1) * Math_cos (t / #1 * (Math_PI / #2)) + #1.
Definition easeOutSine (t : num) : num := #1 * Math_sin (t / #1 * (Math_PI / #2)).
Definition easeInOutSine (t : num) : num := neg_half * (Math_cos (Math_PI * t / #1) - #1).

Definition easeInExpo (t : num) : num :=
  if t == #0 then #1 else #1 * Math_pow #2 (#10 * (t / #1 - #1)).
Definition easeOutExpo (t : num) : num :=
  if t == #1 then #1 else #1 * (nneg (Math_pow #2 (#(-10) * t / #1)) + #1).
Definition easeInOutExpo (t : num) : num :=
  if t == #0 then #0
  else if t == #1 then #1
  else let t := t / half in
       if t < #1 then half * Math_pow #2 (#10 * (t - #1))
       else let t := t - #1 in half * (nneg (Math_pow #2 (#(-10) * t)) + #2).

(** ** Elastic easings *)

(** The phase: [a = 1] is not below [Math.abs(1)], so the arc sine is taken. *)
Definition elastic_phase (p a : num) : num :=
  if a < Math_abs #1 then p / #4
  else p / (#2 * Math_PI) * Math_asin (#1 / a).

Definition elastic_sin (t s p : num) : num := Math_sin ((t * #1 - s) * (#2 * Math_PI) / p).

Definition easeInElastic (t : num) : num :=
  let a := #1 in
  if t == #0 then #0
  else
    let t := t / #1 in
    if t == #1 then #1
    else
      let p := #1 * lit 3 (-1) in
      let s := elastic_phase p a in
      let t := t - #1 in
      nneg (a * Math_pow #2 (#10 * t) * elastic_sin t s p).
Definition easeOutElastic (t : num) : num :=
  let a := #1 in
  if t == #0 then #0
  else
    let t := t / #1 in
    if t == #1 then #1
    else
      let p := #1 * lit 3 (-1) in
      let s := elastic_phase p a in
      a * Math_pow #2 (#(-10) * t) * elastic_sin t s p + #1.
Definition easeInOutElastic (t : num) : num :=
  let a := #1 in
  if t == #0 then #0
  else
    let t := t / half in
    if t == #2 then #1
    else
      let p := #1 * (lit 3 (-1) * lit 15 (-1)) in
      let s := elastic_phase p a in
      if t < #1 then
        let t := t - #1 in
        lit (-5) (-1) * (a * Math_pow #2 (#10 * t) * elastic_sin t s p)
      else
        let t := t - #1 in
        a * Math_pow #2 (#(-10) * t) * elastic_sin t s p * lit 5 (-1) + #1.

(** ** The table *)

Definition animationOptions : list (string * (num -> num)) := [
  ("linear", linear);
  ("easeInQuad", easeInQuad); ("easeOutQuad", easeOutQuad); ("easeInOutQuad", easeInOutQuad);
  ("easeInCubic", easeInCubic); ("easeOutCubic", easeOutCubic); ("easeInOutCubic", easeInOutCubic);
  ("easeInQuart", easeInQuart); ("easeOutQuart", easeOutQuart); ("easeInOutQuart", easeInOutQuart);
  ("easeInQuint", easeInQuint); ("easeOutQuint", easeOutQuint); ("easeInOutQuint", easeInOutQuint);
  ("easeInSine", easeInSine); ("easeOutSine", easeOutSine); ("easeInOutSine", easeInOutSine);
  ("easeInExpo", easeInExpo); ("easeOutExpo", easeOutExpo); ("easeInOutExpo", easeInOutExpo);
  ("easeInCirc", easeInCirc); ("easeOutCirc", easeOutCirc); ("easeInOutCirc", easeInOutCirc);
  ("easeInElastic", easeInElastic); ("easeOutElastic", easeOutElastic);
  ("easeInOutElastic", easeInOutElastic);
  ("easeInBack", easeInBack); ("easeOutBack", easeOutBack); ("easeInOutBack", easeInOutBack);
  ("easeInBounce", easeInBounce); ("easeOutBounce", easeOutBounce);
  ("easeInOutBounce", easeInOutBounce)
].

Definition easing_function (name : string) : option (num -> num) :=
  option_map snd (find (fun kv => String.eqb kv.1 name) animationOptions).

End Transcendental.

(** ** The ends of an animation *)

(** Equal up to the last place of 1. *)
Definition close (x y : num) : bool := Math_abs (x - y) <= lit 4 (-16).

Definition starts_at_zero (kv : string * (num -> num)) : Prop :=
  kv.1 = "easeInExpo"%string \/ close (kv.2 n0) n0 = true.

Definition sinusoidal (name : string) : bool :=
  existsb (String.eqb name) ["easeInSine"; "easeOutSine"; "easeInOutSine"]%string.

Definition ends_at_one (kv : string * (num -> num)) : Prop :=
  sinusoidal kv.1 = true \/ close (kv.2 #1) #1 = true.

Section Ends.

Context `{M : MathLib, L : !MathLaws M}.

Lemma easeInSine_0 : easeInSine n0 = n0.
Proof.
  unfold easeInSine. replace (n0 / #1 * (Math_PI / #2)) with n0 by (vm_compute; reflexivity).
  rewrite (cos_zero false : Math_cos n0 = #1). vm_compute. reflexivity.
Qed.

Lemma easeOutSine_0 : easeOutSine n0 = n0.
Proof.
  unfold easeOutSine. replace (n0 / #1 * (Math_PI / #2)) with n0 by (vm_compute; reflexivity).
  rewrite (sin_zero false : Math_sin n0 = n0). vm_compute. reflexivity.
Qed.

Lemma easeInOutSine_0 : close (easeInOutSine n0) n0 = true.
Proof.
  unfold easeInOutSine. replace (Math_PI * n0 / #1) with n0 by (vm_compute; reflexivity).
  rewrite (cos_zero false : Math_cos n0 = #1). vm_compute. reflexivity.
Qed.

Lemma easeOutExpo_0 : easeOutExpo n0 = n0.
Proof.
  unfold easeOutExpo. replace (n0 == #1) with false by (vm_compute; reflexivity).
  replace (#(-10) * n0 / #1) with neg0 by (vm_compute; reflexivity).
  rewrite (pow_zero #2 true : Math_pow #2 neg0 = #1). vm_compute. reflexivity.
Qed.

Lemma easeInExpo_1 : easeInExpo #1 = #1.
Proof.
  unfold easeInExpo. replace (#1 == #0) with false by (vm_compute; reflexivity).
  replace (#10 * (#1 / #1 - #1)) with n0 by (vm_compute; reflexivity).
  rewrite (pow_zero #2 false : Math_pow #2 n0 = #1). vm_compute. reflexivity.
Qed.

(** Every easing function but [easeInExpo] starts at zero, up to rounding. *)
Theorem easing_starts_at_zero : Forall starts_at_zero animationOptions.
Proof.
  unfold animationOptions.
  repeat (apply Forall_cons; split); [..|apply Forall_nil_2];
    first [by left | right; cbn [snd];
      rewrite ?easeInSine_0, ?easeOutSine_0, ?easeOutExpo_0, ?easeInOutSine_0; vm_compute; reflexivity].
Qed.

(** Every easing function but the sinusoidal ones, whose values are the
    browser's, ends at one, up to rounding. *)
Theorem easing_ends_at_one : Forall ends_at_one animationOptions.
Proof.
  unfold animationOptions.
  repeat (apply Forall_cons; split); [..|apply Forall_nil_2];
    first [by left | right; cbn [snd]; rewrite ?easeInExpo_1; vm_compute; reflexivity].
Qed.

(** The exception: an animation with [easeInExpo] shows the whole chart at
    its start, where the function jumps to one. *)
Lemma easeInExpo_starts_full : easeInExpo n0 = #1 /\ easing_function "easeInExpo" = Some easeInExpo.
Proof. split; reflexivity. Qed.

End Ends.

(** Functions with the values the standard prescribes. *)
Definition sample_math : MathLib := {|
  Math_log x := if x == #1 then n0 else if x == n0 then neg_Infinity else x;
  Math_pow x y := if y == n0 then #1 else x;
  Math_sin x := x;
  Math_cos x := if x == n0 then #1 else x;
  Math_asin x := x;
  Math_acos x := if x == #1 then n0 else x
|}.

Lemma sample_math_laws : MathLaws sample_math.
Proof. split; reflexivity || by intros; try destruct s. Qed.

Lemma easing_starts_at_zero_witness : Forall starts_at_zero (@animationOptions sample_math).
Proof. exact (@easing_starts_at_zero sample_math sample_math_laws). Defined.

Lemma easing_ends_at_one_witness : Forall ends_at_one (@animationOptions sample_math).
Proof. exact (@easing_ends_at_one sample_math sample_math_laws). Defined.
