(* ===== verification/Animation.v ===== *)
(** * Animations (ChartNew.js)

    [animationLoop] draws a chart frame by frame: its local variables are the
    record [anim], one pass of [animLoop] is a function, and what it schedules
    next is its [outcome].  [animationCorrection] turns the progress of the
    animation into the progress of a single data point. *)

From stdpp Require Import base list strings gmap.
From Stdlib Require Import ZArith Lia SpecFloat Reals Lra.
From S2P Require Import Prelude Num Binary64 Value Options OptionValue Scale Easing.

Open Scope Z_scope.

(** ** The loop's variables *)

Record anim : Type := {
  cntiter : Z;
  percentAnimComplete : num;
  multAnim : Z;
  animationCount : Z;
  beginAnim : Z;
  beginAnimPct : num;
  animFrameAmount : num
}.

(** What [animLoop] does after drawing a frame. *)
Inductive outcome : Type :=
| NextFrame            (** [requestAnimFrame(animLoop)] *)
| NextTimeout          (** [setTimeout(animLoop, ...)], after the pause *)
| Finished.            (** [testRedraw(ctx, data, config)] *)

(** The operations of one frame on the canvas. *)
Inductive frame_op : Type :=
| ClearArea
| CrossImage (overlay : bool)
| CrossText (overlay : bool)
| DrawScale
| DrawData (fraction : num).

(** [ctx.firstPass]: undefined until a responsive chart is drawn, then one of
    the codes listed in [subUpdateChart]. *)
Definition drawn_at_once (firstPass : option Z) : bool :=
  match firstPass with
  | Some p => (p =? 3) || (p =? 4) || (p =? 8) || (p =? 9)
  | None => false
  end.

Section Animation.

Context `{MathLib}.

(** [isIE() < 9 && isIE() != false] *)
Context (old_IE : bool).

(** The number of frames, [CapValue(config.animationSteps, Number.MAX_VALUE, 1)]. *)
Definition frame_count (c : config) : num :=
  CapValue (to_num c.["animationSteps"]) (VNum MAX_VALUE) (VInt 1).

(** [config.animation.StartValue = ...] has no effect on a primitive value and
    throws on undefined and null. *)
Definition assign_on (v : jsval) : res unit :=
  match v with
  | VUndef | VNull => Throw TypeError
  | _ => Ok tt
  end.

Definition out_of_unit (v : num) : bool := (v < n0)%num || (v > of_Z 1)%num.

(** The checks on the configuration before the loop starts. *)
Definition prepare_config (c : config) : res config :=
  let* _ := if out_of_unit (to_num c.["animationStartValue"])
            then assign_on c.["animation"] else Ok tt in
  let* _ := if out_of_unit (to_num c.["animationStopValue"])
            then assign_on c.["animation"] else Ok tt in
  let c := if (to_num c.["animationStopValue"] < to_num c.["animationStartValue"])%num
           then <["animationStopValue" := c.["animationStartValue"]]> c else c in
  Ok (if old_IE then <["animation" := VBool false]> c else c).

(** The loop's variables before the first frame: an animation that starts later
    skips the frames before [animationStartValue]. *)
Definition start_animation (fuel : nat) (c : config) : res anim :=
  let animated := truthy c.["animation"] in
  let amount := if animated then (of_Z 1 / frame_count c)%num else of_Z 1 in
  let start := to_num c.["animationStartValue"] in
  let init := (0, if animated then n0 else of_Z 1) in
  let* (i, pct) :=
    if animated && (start > n0)%num && (start <= of_Z 1)%num
    then while fuel (fun s => (s.2 < start)%num) (fun s => (s.1 + 1, (s.2 + amount)%num)) init
    else Ok init in
  Ok {| cntiter := i; percentAnimComplete := pct; multAnim := 1; animationCount := 1;
        beginAnim := i; beginAnimPct := pct; animFrameAmount := amount |}.

(** The fraction of the data a frame draws. *)
Definition frame_fraction (c : config) (easingFunction : num -> num) (firstPass : option Z) (a : anim) : num :=
  let eased := if truthy c.["animation"]
               then CapValue (easingFunction (percentAnimComplete a)) VNull (VInt 0)
               else of_Z 1 in
  if (of_Z 1 * of_Z (cntiter a) >= of_Z 1 * frame_count c)%num
     || loose_eq c.["animation"] (VBool false) || drawn_at_once firstPass
  then of_Z 1
  else if (eased >= of_Z 1)%num then lit 9999 (-4) else eased.

Definition animateFrame (c : config) (easingFunction : num -> num) (firstPass : option Z) (a : anim)
    : list frame_op :=
  let fraction := frame_fraction c easingFunction firstPass a in
  (if truthy c.["animation"] && negb old_IE && truthy c.["clearRect"] then [ClearArea] else [])
  ++ [CrossImage false; CrossText false]
  ++ (if truthy c.["scaleOverlay"] then [DrawData fraction; DrawScale]
      else [DrawScale; DrawData fraction])
  ++ [CrossImage true; CrossText true].

(** The counters at the beginning of a pass. *)
Definition advance (c : config) (firstPass : option Z) (a : anim) : anim :=
  let i := cntiter a + multAnim a in
  let p := (percentAnimComplete a + of_Z (multAnim a) * animFrameAmount a)%num in
  let p := if loose_eq (VInt i) c.["animationSteps"]
              || loose_eq c.["animation"] (VBool false) || drawn_at_once firstPass
           then of_Z 1
           else if (p >= of_Z 1)%num then lit 999 (-3) else p in
  {| cntiter := i; percentAnimComplete := p; multAnim := multAnim a;
     animationCount := animationCount a; beginAnim := beginAnim a;
     beginAnimPct := beginAnimPct a; animFrameAmount := animFrameAmount a |}.

Definition set_direction (a : anim) (dir : Z) (i : Z) (p : num) (count : Z) : anim :=
  {| cntiter := i; percentAnimComplete := p; multAnim := dir; animationCount := count;
     beginAnim := beginAnim a; beginAnimPct := beginAnimPct a;
     animFrameAmount := animFrameAmount a |}.

Definition more_rounds (c : config) (firstPass : option Z) (a : anim) : bool :=
  ((of_Z (animationCount a) < to_num c.["animationCount"])%num
   || loose_eq c.["animationCount"] (VInt 0))
  && (bool_decide (firstPass = Some 1) || negb (bool_decide (firstPass = Some 2))).

(** What follows a frame. *)
Definition after_frame (c : config) (firstPass : option Z) (a : anim) : anim * outcome :=
  if (multAnim a =? -1) && (cntiter a <=? beginAnim a) then
    (set_direction a 1 (cntiter a) (percentAnimComplete a) (animationCount a), NextFrame)
  else if (percentAnimComplete a < to_num c.["animationStopValue"])%num then (a, NextFrame)
  else if more_rounds c firstPass a then
    (if truthy c.["animationBackward"] && (multAnim a =? 1)
     then set_direction a (-1) (cntiter a)
            (percentAnimComplete a - animFrameAmount a)%num (animationCount a + 1)
     else set_direction a 1 (beginAnim a - 1)
            (beginAnimPct a - animFrameAmount a)%num (animationCount a + 1),
     NextTimeout)
  else (a, Finished).

Definition animLoop (c : config) (easingFunction : num -> num) (firstPass : option Z) (a : anim)
    : list frame_op * anim * outcome :=
  let a := advance c firstPass a in
  let ops := animateFrame c easingFunction firstPass a in
  let '(a', o) := after_frame c firstPass a in
  (ops, a', o).

(** The frames a loop draws, while nothing else changes [firstPass]: at most
    [n] of them, with the last outcome. *)
Fixpoint run_animation (n : nat) (c : config) (easingFunction : num -> num) (firstPass : option Z) (a : anim)
    : list (list frame_op) * option anim :=
  match n with
  | O => ([], Some a)
  | S k =>
      let '(ops, a', o) := animLoop c easingFunction firstPass a in
      match o with
      | Finished => ([ops], None)
      | _ => let '(l, r) := run_animation k c easingFunction firstPass a' in (ops :: l, r)
      end
  end.

(** ** The progress of a data point *)

Record progress : Type := {
  mainVal : num;
  subVal : num;
  animVal : num
}.

Definition progress_of (main sub : num) : progress :=
  {| mainVal := main; subVal := sub; animVal := (main + sub)%num |}.

Definition as_int (v : num) (z : Z) : bool := (v == of_Z z)%num.

(** Whether a dataset or a data point comes before the ones that are animated. *)
Definition before_start (pos : Z) (start : num) : bool :=
  (of_Z pos < start - of_Z 1)%num && negb (as_int (start - of_Z 1)%num (-1)).

Definition first_animated (start : num) : num :=
  if as_int (start - of_Z 1)%num (-1) then n0 else (start - of_Z 1)%num.

(** One dataset after the other: the progress of dataset [vdata], the progress
    handed to its points, and whether they are still to be treated. *)
Definition by_dataset (c : config) (ndatasets : nat) (animationValue : num) (vdata : Z)
    : num * num * bool :=
  let startDataset := first_animated (to_num c.["animationStartWithDataset"]) in
  let nb := (of_Z (Z.of_nat ndatasets) - startDataset)%num in
  let nbstepsperdatasets := (to_num c.["animationSteps"] / nb)%num in
  let at_ k := (k * nbstepsperdatasets / to_num c.["animationSteps"])%num in
  let pos := (of_Z vdata - startDataset)%num in
  if (animationValue >= at_ (pos + of_Z 1))%num then (of_Z 1, animationValue, false)
  else if (animationValue >= at_ pos)%num then
    let red := (animationValue - at_ pos)%num in
    if negb (truthy c.["animationLeftToRight"])
    then ((red * nb)%num, animationValue, true)
    else (n0, (red * nb)%num, true)
  else (n0, animationValue, false).

(** One point after the other, from left to right. *)
Definition left_to_right (c : config) (npoints : nat) (newAnimationValue : num) (vsubdata addone : Z)
    : num * num :=
  let startSub := first_animated (to_num c.["animationStartWithData"]) in
  let n := of_Z (Z.of_nat npoints) in
  let nbstepspervalue :=
    (to_num c.["animationSteps"] / (n - startSub - of_Z 1 + of_Z addone))%num in
  let at_ k := (k * nbstepspervalue / to_num c.["animationSteps"])%num in
  let pos := (of_Z vsubdata - startSub)%num in
  if (newAnimationValue >= at_ pos)%num then
    (of_Z 1,
     if (newAnimationValue <= at_ (of_Z vsubdata + of_Z 1 - startSub))%num
     then ((n - startSub - of_Z 1) * (newAnimationValue - at_ pos))%num
     else n0)
  else (n0, n0).

Definition animationCorrection (animationValue : num) (data : chart_data) (c : config)
    (vdata vsubdata addone : Z) : res progress :=
  if negb (vsubdata =? -1) then
    let animValue := animationValue in
    let animValue :=
      if (animValue < of_Z 1)%num && before_start vdata (to_num c.["animationStartWithDataset"])
      then of_Z 1 else animValue in
    let animValue :=
      if (animValue < of_Z 1)%num && before_start vsubdata (to_num c.["animationStartWithData"])
      then of_Z 1 else animValue in
    let '(animValue, newAnimationValue, totreat) :=
      if (animValue < of_Z 1)%num && truthy c.["animationByDataset"]
      then by_dataset c (length (datasets data)) animationValue vdata
      else (animValue, animationValue, true) in
    if totreat && (animValue < of_Z 1)%num && truthy c.["animationLeftToRight"] then
      match nth_error (datasets data) (Z.to_nat vdata) with
      | Some d =>
          let '(main, sub) := left_to_right c (length (ds_data d)) newAnimationValue vsubdata addone in
          Ok (progress_of main sub)
      | None => Throw TypeError
      end
    else Ok (progress_of animValue n0)
  else
    Ok (progress_of
          (if (animationValue < of_Z 1)%num
              && (of_Z vdata < to_num c.["animationStartWithData"] - of_Z 1)%num
           then of_Z 1 else animationValue) n0).

End Animation.

(** ** The frames of an animation *)

Section Frames.

Context `{MathLib}.
Context (f : num -> num) (firstPass : option Z).

(** The fractions of the data that the operations of a frame draw. *)
Definition fractions (ops : list frame_op) : list num :=
  omap (fun o => match o with DrawData x => Some x | _ => None end) ops.

(** An animation of [n] frames from start to end, played once. *)
Record simple_animation (c : config) (n : Z) : Prop := {
  is_animated : truthy c.["animation"] = true /\ loose_eq c.["animation"] (VBool false) = false;
  has_steps : c.["animationSteps"] = VInt n /\ 1 <= n < 2 ^ 53;
  starts : c.["animationStartValue"] = VInt 0;
  stops : c.["animationStopValue"] = VInt 1;
  plays_once : c.["animationCount"] = VInt 1
}.

Lemma frame_count_steps (c : config) (n : Z) :
  c.["animationSteps"] = VInt n -> 1 <= n < 2 ^ 53 -> frame_count c = of_Z n.
Proof.
  intros Hn Hr. unfold frame_count, CapValue. rewrite Hn.
  change (to_num (VInt n)) with (of_Z n). change (to_num (VNum MAX_VALUE)) with MAX_VALUE.
  change (to_num (VInt 1)) with (of_Z 1).
  assert (Hmax : (of_Z n > MAX_VALUE)%num = false).
  { apply not_true_iff_false. intros Hgt. apply nlt_spec in Hgt; [|by split|auto with num].
    rewrite of_Z_B2X in Hgt by (unfold safe; lia).
    assert (IZR n <= IZR (2 ^ 53))%R by (apply IZR_le; lia).
    assert (B2X MAX_VALUE = IZR 9007199254740991 * bpow 971)%R as Hm by (cbn [B2X sgn MAX_VALUE]; lra).
    assert (IZR (2 ^ 53) <= IZR 9007199254740991 * bpow 971)%R; [|lra].
    apply Rle_trans with (1 * bpow 971)%R.
    - rewrite IZR_pow2, Rmult_1_l by lia. apply bpow_le. lia.
    - apply Rmult_le_compat_r; [apply Rlt_le, bpow_pos|apply IZR_le; lia]. }
  rewrite Hmax, andb_false_r. rewrite nlt_of_Z by (unfold safe; lia).
  replace (n <? 1) with false by (symmetry; apply Z.ltb_ge; lia). by rewrite andb_false_r.
Qed.

Lemma advance_lt (x : num) : ordered x -> (0 <= B2X x)%R ->
  let y := if (x >= of_Z 1)%num then lit 999 (-3) else x in ordered y /\ (0 <= B2X y < 1)%R.
Proof.
  intros Hx Hpos. pose proof (nle_spec (of_Z 1) x (of_Z_ordered 1) Hx) as H1.
  rewrite of_Z_B2X in H1 by (unfold safe; lia). change (x >= of_Z 1)%num with (nle (of_Z 1) x).
  destruct (nle (of_Z 1) x).
  - assert (Ho : ordered (lit 999 (-3))) by (by split). split; [done|].
    assert (Hlo : (of_Z 0 <= lit 999 (-3))%num = true) by (vm_compute; reflexivity).
    assert (Hhi : (lit 999 (-3) < of_Z 1)%num = true) by (vm_compute; reflexivity).
    apply nle_spec in Hlo; [|auto with num|done]. apply nlt_spec in Hhi; [|done|auto with num].
    rewrite of_Z_B2X in Hlo, Hhi by (unfold safe; lia). lra.
  - split; [done|]. split; [done|]. destruct (Rlt_le_dec (B2X x) 1) as [|Hle]; [done|].
    apply H1 in Hle. done.
Qed.

(** The states of the loop, before the pass that draws frame [k + 1]. *)
Record running (k : Z) (a : anim) : Prop := {
  at_frame : cntiter a = k;
  forward : multAnim a = 1 /\ animationCount a = 1;
  unfinished : ordered (percentAnimComplete a) /\ (0 <= B2X (percentAnimComplete a) < 1)%R;
  has_amount : valid (animFrameAmount a) = true /\ is_finite (animFrameAmount a) = true /\
    (0 <= B2X (animFrameAmount a))%R
}.

Lemma percent_next (a : anim) :
  multAnim a = 1 -> ordered (percentAnimComplete a) -> (0 <= B2X (percentAnimComplete a) <= 1)%R ->
  valid (animFrameAmount a) = true -> is_finite (animFrameAmount a) = true -> (0 <= B2X (animFrameAmount a))%R ->
  let x := (percentAnimComplete a + of_Z (multAnim a) * animFrameAmount a)%num in
  ordered x /\ (0 <= B2X x)%R.
Proof.
  intros -> [Vp Np] Hp Va Fa Ha. cbn zeta.
  assert (Na : is_NaN (animFrameAmount a) = false) by (by destruct (animFrameAmount a)).
  destruct (nmul_1_B2X _ Va Na) as [[V1 N1] E1].
  assert (F1 : is_finite (of_Z 1 * animFrameAmount a)%num = true).
  { pose proof (finite_above _ Va Fa). rewrite <- E1 in *.
    destruct (of_Z 1 * animFrameAmount a)%num as [|[|]| |]; try done; cbn [B2X] in *; unfold sgn in *; lra. }
  assert (Fp : is_finite (percentAnimComplete a) = true).
  { assert (1 < big)%R by (apply (bpow_lt 0 1024); lia).
    destruct (percentAnimComplete a) as [|[|]| |]; try done; cbn [B2X] in Hp; unfold sgn in Hp; lra. }
  pose proof (nadd_rounds _ _ Vp V1 Fp F1) as Hr. split; [by eapply rounds_ordered|].
  eapply rounds_ge; [exact Hr|apply exact_0|]. lra.
Qed.

Context (Hpass : drawn_at_once firstPass = false).

Lemma fractions_frame (old_IE : bool) (c : config) (a : anim) :
  fractions (animateFrame old_IE c f firstPass a) = [frame_fraction c f firstPass a].
Proof.
  unfold animateFrame. by destruct (truthy c.["animation"] && negb old_IE && truthy c.["clearRect"]),
    (truthy c.["scaleOverlay"]).
Qed.

(** A frame before the last one: it draws less than all data, and another follows. *)
Lemma animLoop_middle (old_IE : bool) (c : config) (n k : Z) (a : anim) :
  simple_animation c n -> running k a -> 0 <= k -> k + 1 < n ->
  exists ops a', animLoop old_IE c f firstPass a = (ops, a', NextFrame) /\ running (k + 1) a' /\
    exists x, fractions ops = [x] /\ (x >= of_Z 1)%num = false.
Proof.
  intros Hc Ha Hk Hkn. pose proof Ha as [Hat [Hm Hcount] [Hun Hup] (Va & Fa & Ham)].
  pose proof (percent_next a Hm Hun ltac:(lra) Va Fa Ham) as [Ho Hpos]. cbn zeta in *.
  pose proof Hc as [[Han Hanf] [Hst Hr] Hstart Hstop Honce].
  unfold animLoop. set (b := advance c firstPass a).
  assert (Hb : running (k + 1) b).
  { unfold b, advance. split; cbn [cntiter multAnim animationCount percentAnimComplete animFrameAmount];
      [by rewrite Hat, Hm|done| |done].
    rewrite Hpass, Hanf, Hst, Hat, Hm in *.
    change (loose_eq (VInt (k + 1)) (VInt n)) with (neq (of_Z (k + 1)) (of_Z n)).
    rewrite neq_of_Z by (unfold safe; lia).
    replace (k + 1 =? n) with false by (symmetry; apply Z.eqb_neq; lia). cbn [orb].
    by apply advance_lt. }
  pose proof Hb as [Hat' [Hm' Hcount'] [Hob Hpb] _].
  unfold after_frame. rewrite Hm'. cbn [Z.eqb Pos.eqb andb]. rewrite Hstop.
  change (to_num (VInt 1)) with (of_Z 1).
  replace (percentAnimComplete b < of_Z 1)%num with true.
  2: { symmetry. apply nlt_spec; [done|auto with num|]. rewrite of_Z_B2X by (unfold safe; lia). lra. }
  eexists _, b. split; [done|]. split; [done|].
  exists (frame_fraction c f firstPass b). split; [apply fractions_frame|].
  unfold frame_fraction. rewrite Hpass, Hanf, Han, Hat', (frame_count_steps c n Hst Hr), !orb_false_r.
  assert (H1 : forall z, safe z -> 1 <= z -> (of_Z 1 * of_Z z)%num = of_Z z).
  { intros z Hz H1z. rewrite nmul_of_Z by (unfold safe in *; lia). f_equal. lia. }
  rewrite !H1 by (unfold safe; lia).
  change (of_Z (k + 1) >= of_Z n)%num with (nle (of_Z n) (of_Z (k + 1))).
  rewrite nle_of_Z by (unfold safe; lia).
  replace (n <=? k + 1) with false by (symmetry; apply Z.leb_gt; lia).
  set (e := CapValue (f (percentAnimComplete b)) VNull (VInt 0)).
  destruct (e >= of_Z 1)%num eqn:He; [vm_compute; reflexivity|done].
Qed.

(** The last frame: it draws all data, and nothing follows. *)
Lemma animLoop_last (old_IE : bool) (c : config) (n : Z) (a : anim) :
  simple_animation c n -> running (n - 1) a ->
  exists ops a', animLoop old_IE c f firstPass a = (ops, a', Finished) /\ fractions ops = [of_Z 1].
Proof.
  intros Hc [Hat [Hm Hcount] Hun Ham].
  pose proof Hc as [[Han Hanf] [Hst Hr] Hstart Hstop Honce].
  unfold animLoop. set (b := advance c firstPass a).
  assert (Hb : cntiter b = n /\ percentAnimComplete b = of_Z 1 /\ multAnim b = 1 /\ animationCount b = 1).
  { unfold b, advance. cbn [cntiter multAnim animationCount percentAnimComplete].
    rewrite Hat, Hm, Hst. replace (n - 1 + 1) with n by lia.
    change (loose_eq (VInt n) (VInt n)) with (neq (of_Z n) (of_Z n)).
    rewrite neq_of_Z by (unfold safe; lia). by rewrite Z.eqb_refl. }
  destruct Hb as (Hi & Hp & Hm' & Hc').
  unfold after_frame. rewrite Hm'. cbn [Z.eqb Pos.eqb andb]. rewrite Hstop, Hp.
  change (of_Z 1 < to_num (VInt 1))%num with false. cbn iota.
  unfold more_rounds. rewrite Hc', Honce.
  change (of_Z 1 < to_num (VInt 1))%num with false. change (loose_eq (VInt 1) (VInt 0)) with false.
  cbn [orb andb]. eexists _, b. split; [done|]. rewrite fractions_frame. do 2 f_equal.
  unfold frame_fraction. rewrite Hi, (frame_count_steps c n Hst Hr).
  assert (Hge : (of_Z 1 * of_Z n >= of_Z 1 * of_Z n)%num = true).
  { rewrite nmul_of_Z by (unfold safe; lia).
    change (nle (of_Z (1 * n)) (of_Z (1 * n)) = true). rewrite nle_of_Z by (unfold safe; lia). apply Z.leb_refl. }
  by rewrite Hge.
Qed.

Lemma run_running (old_IE : bool) (c : config) (n : Z) (m : nat) (k : Z) (a : anim) :
  simple_animation c n -> running k a -> 0 <= k -> k + Z.of_nat m = n -> (0 < m)%nat ->
  exists frames, run_animation old_IE m c f firstPass a = (frames, None) /\ length frames = m /\
    forall i ops, frames !! i = Some ops ->
      exists x, fractions ops = [x] /\ (x >= of_Z 1)%num = (S i =? m)%nat /\ (S i = m -> x = of_Z 1).
Proof.
  intros Hc. revert k a. induction m as [|m IH]; intros k a Ha Hk Hkm Hm; [lia|].
  cbn [run_animation]. destruct (decide (m = 0%nat)) as [->|Hne].
  - replace k with (n - 1) in Ha by lia.
    destruct (animLoop_last old_IE c n a Hc Ha) as (ops & a' & -> & Hops).
    exists [ops]. split; [done|]. split; [done|]. intros [|i] ops' Hi; [|done].
    injection Hi as <-. by exists (of_Z 1).
  - destruct (animLoop_middle old_IE c n k a Hc Ha Hk ltac:(lia)) as (ops & a' & -> & Ha' & x & Hx & Hlt).
    destruct (IH (k + 1) a' Ha' ltac:(lia) ltac:(lia) ltac:(lia)) as (frames & -> & Hlen & Hfr).
    exists (ops :: frames). split; [done|]. split; [cbn; lia|].
    intros [|i] ops' Hi.
    + injection Hi as <-. exists x. split; [done|]. split; [by rewrite Hlt; destruct m|intros; exfalso; lia].
    + destruct (Hfr i ops' Hi) as (y & Hy & Hge & Hlast). exists y. split; [done|].
      split; [by rewrite Hge|intros; apply Hlast; lia].
Qed.

(** The loop's variables before the first frame. *)
Lemma start_running (fuel : nat) (c : config) (n : Z) :
  truthy c.["animation"] = true -> c.["animationSteps"] = VInt n -> 1 <= n < 2 ^ 53 ->
  c.["animationStartValue"] = VInt 0 ->
  exists a, start_animation fuel c = Ok a /\ running 0 a.
Proof.
  intros Han Hst Hr Hstart. unfold start_animation. rewrite Han, Hstart. cbn [andb]. eexists. split; [done|].
  rewrite (frame_count_steps c n Hst Hr).
  assert (Hn : B2X (of_Z n) = IZR n) by (apply of_Z_B2X; unfold safe; lia).
  assert (H1n : (1 <= IZR n)%R) by (apply IZR_le; lia).
  pose proof (ndiv_rounds (of_Z 1) (of_Z n) eq_refl (of_Z_valid n) eq_refl
    (of_Z_finite n ltac:(unfold safe; lia)) ltac:(lra)) as Hd.
  rewrite Hn, (of_Z_B2X 1) in Hd by (unfold safe; lia).
  assert (Hq : (0 <= 1 / IZR n <= 1)%R).
  { split; [apply Rlt_le, Rdiv_lt_0_compat; lra|]. apply Rmult_le_reg_r with (IZR n); [lra|].
    replace (1 / IZR n * IZR n)%R with 1%R by (field; lra). lra. }
  split; cbn [cntiter multAnim animationCount percentAnimComplete animFrameAmount]; [done|done| |].
  - split; [by split|]. change (B2X n0) with 0%R. lra.
  - split; [apply Hd|]. split.
    + eapply small_exact_finite; [exact Hd|]. assert (bpow 0 <= bpow 1000)%R by (apply bpow_le; lia).
      rewrite bpow_0 in *. lra.
    + eapply rounds_ge; [exact Hd|apply exact_0|lra].
Qed.

(** C19: an animation of [n] steps draws exactly [n] frames and then finishes;
    the last frame draws all data, every earlier one a smaller fraction. *)
Theorem animation_frames (fuel : nat) (c : config) (n : Z) :
  simple_animation c n ->
  exists a frames, prepare_config false c = Ok c /\ start_animation fuel c = Ok a /\
    run_animation false (Z.to_nat n) c f firstPass a = (frames, None) /\
    length frames = Z.to_nat n /\
    forall i ops, frames !! i = Some ops ->
      exists x, fractions ops = [x] /\ (x >= of_Z 1)%num = (S i =? Z.to_nat n)%nat /\
                (S i = Z.to_nat n -> x = of_Z 1).
Proof.
  intros Hc. pose proof Hc as [[Han Hanf] [Hst Hr] Hstart Hstop Honce].
  assert (Hprep : prepare_config false c = Ok c).
  { unfold prepare_config. by rewrite Hstart, Hstop. }
  destruct (start_running fuel c n Han Hst Hr Hstart) as (a & Ha & Hrun).
  destruct (run_running false c n (Z.to_nat n) 0 a Hc Hrun) as (frames & Hf & Hlen & Hfr); [lia|lia|lia|].
  by exists a, frames.
Qed.

End Frames.

(** The animation of a chart whose options say nothing about animations. *)
Definition short_animation : config := of_fields [
  ("animation", VBool true); ("animationSteps", VInt 3);
  ("animationStartValue", VInt 0); ("animationStopValue", VInt 1);
  ("animationCount", VInt 1); ("clearRect", VBool true)]%string.

Lemma short_animation_simple : simple_animation short_animation 3.
Proof. split; try reflexivity; split; [reflexivity|reflexivity|reflexivity|lia]. Qed.

Lemma animation_frames_witness :
  exists a frames, start_animation 0 short_animation = Ok a /\
    run_animation false 3 short_animation linear (Some 1) a = (frames, None) /\ length frames = 3%nat.
Proof.
  destruct (@animation_frames linear (Some 1) eq_refl 0 short_animation 3 short_animation_simple)
    as (a & frames & _ & Ha & Hrun & Hlen & _).
  exists a, frames. split; [exact Ha|]. split; [exact Hrun|exact Hlen].
Defined.

(** ** Charts that are not animated *)

(** A chart that is not animated is drawn in a single frame, completely. *)
Theorem still_frame (old_IE : bool) (f : num -> num) (firstPass : option Z) (fuel : nat) (c : config) :
  c.["animation"] = VBool false -> c.["animationStopValue"] = VInt 1 -> c.["animationCount"] = VInt 1 ->
  exists a ops, start_animation fuel c = Ok a /\
    run_animation old_IE 1 c f firstPass a = ([ops], None) /\ fractions ops = [of_Z 1].
Proof.
  intros Han Hstop Honce. unfold start_animation. rewrite Han. cbn [truthy andb res_bind].
  eexists _, _. split; [done|]. cbn [run_animation]. unfold animLoop, advance.
  cbn [cntiter multAnim animationCount percentAnimComplete beginAnim beginAnimPct animFrameAmount].
  rewrite Han. change (loose_eq (VBool false) (VBool false)) with true. rewrite orb_true_r. cbn [orb].
  unfold after_frame, more_rounds. cbn [cntiter multAnim animationCount percentAnimComplete beginAnim Z.eqb Pos.eqb andb].
  rewrite Hstop, Honce. cbn. split; [done|].
  unfold animateFrame, frame_fraction. rewrite Han. cbn [truthy andb].
  change (loose_eq (VBool false) (VBool false)) with true. rewrite orb_true_r. cbn [orb].
  by destruct (truthy c.["scaleOverlay"]).
Qed.

Lemma still_frame_witness :
  exists a ops, start_animation 0 (<["animation"%string := VBool false]> short_animation) = Ok a /\
    run_animation false 1 (<["animation"%string := VBool false]> short_animation) linear None a = ([ops], None) /\
    fractions ops = [of_Z 1].
Proof.
  exact (still_frame false linear None 0 (<["animation"%string := VBool false]> short_animation)
    eq_refl eq_refl eq_refl).
Defined.

(** ** Stop values beyond one *)

Section Endless.

Context (f : num -> num) (firstPass : option Z) (c : config).

(** The animation is to stop beyond its end. *)
Hypothesis (Hstop : (of_Z 1 < to_num c.["animationStopValue"])%num = true).
Hypothesis (Hvalid : ordered (to_num c.["animationStopValue"])).

Lemma advance_le (a : anim) :
  ordered (percentAnimComplete a + of_Z (multAnim a) * animFrameAmount a)%num ->
  (percentAnimComplete (advance c firstPass a) < to_num c.["animationStopValue"])%num = true.
Proof.
  intros Ho. apply nlt_spec in Hstop as H1; [|auto with num|done].
  rewrite of_Z_B2X in H1 by (unfold safe; lia).
  unfold advance. cbn [percentAnimComplete]. destruct (_ || _ || _).
  - done.
  - set (x := (percentAnimComplete a + of_Z (multAnim a) * animFrameAmount a)%num) in *.
    pose proof (nle_spec (of_Z 1) x (of_Z_ordered 1) Ho) as Hx.
    rewrite of_Z_B2X in Hx by (unfold safe; lia).
    change (x >= of_Z 1)%num with (nle (of_Z 1) x). destruct (nle (of_Z 1) x).
    + assert (Hl : (lit 999 (-3) < of_Z 1)%num = true) by (vm_compute; reflexivity).
      apply nlt_spec in Hl; [|by split|auto with num]. rewrite of_Z_B2X in Hl by (unfold safe; lia).
      apply nlt_spec; [by split|done|]. lra.
    + apply nlt_spec; [done|done|]. destruct (Rle_lt_dec 1 (B2X x)) as [Hle|]; [|lra].
      apply Hx in Hle. done.
Qed.

(** The loop goes on: it has not come further than its end. *)
Definition going (a : anim) : Prop :=
  multAnim a = 1 /\ ordered (percentAnimComplete a) /\ (0 <= B2X (percentAnimComplete a) <= 1)%R /\
  valid (animFrameAmount a) = true /\ is_finite (animFrameAmount a) = true /\
  (0 <= B2X (animFrameAmount a))%R.

Lemma animLoop_going (old_IE : bool) (a : anim) :
  going a -> exists ops a', animLoop old_IE c f firstPass a = (ops, a', NextFrame) /\ going a'.
Proof.
  intros (Hm & Hp & Hr & Va & Fa & Ha). destruct (percent_next a Hm Hp Hr Va Fa Ha) as [Ho Hpos].
  unfold animLoop. pose proof (advance_le a Ho) as Hlt. set (b := advance c firstPass a) in *.
  assert (Hmb : multAnim b = 1) by done.
  unfold after_frame. rewrite Hmb, Hlt. cbn [Z.eqb Pos.eqb andb].
  eexists _, b. split; [done|]. split; [done|].
  assert (Hb : ordered (percentAnimComplete b) /\ (0 <= B2X (percentAnimComplete b) <= 1)%R).
  { unfold b, advance. cbn [percentAnimComplete]. destruct (_ || _ || _).
    - split; [auto with num|]. rewrite of_Z_B2X by (unfold safe; lia). lra.
    - destruct (advance_lt _ Ho Hpos) as [? ?]. split; [done|lra]. }
  by destruct Hb.
Qed.

Lemma run_going (m : nat) (a : anim) : going a -> exists frames a',
  run_animation false m c f firstPass a = (frames, Some a') /\ length frames = m.
Proof.
  revert a. induction m as [|m IH]; intros a Ha; [by exists [], a|].
  cbn [run_animation]. destruct (animLoop_going false a Ha) as (ops & b & -> & Hb).
  destruct (IH b Hb) as (frames & a' & -> & Hlen). exists (ops :: frames), a'. split; [done|]. cbn. lia.
Qed.

(** An animation that is to stop beyond its end ([animationStopValue]
    greater than 1) never finishes: after any number of frames another one is
    requested.  The check that should bring the value back to 1 writes to
    another property. *)
Theorem animation_endless (fuel : nat) (n : Z) (m : nat) :
  truthy c.["animation"] = true -> c.["animationSteps"] = VInt n -> 1 <= n < 2 ^ 53 ->
  c.["animationStartValue"] = VInt 0 ->
  exists a frames a', prepare_config false c = Ok c /\ start_animation fuel c = Ok a /\
    run_animation false m c f firstPass a = (frames, Some a') /\ length frames = m.
Proof.
  intros Han Hst Hr Hstart. destruct (start_running fuel c n Han Hst Hr Hstart) as (a & Ha & Hrun).
  assert (Hprep : prepare_config false c = Ok c).
  { unfold prepare_config. rewrite Hstart. change (out_of_unit (to_num (VInt 0))) with false. cbn [res_bind].
    assert (Hlt : (to_num c.["animationStopValue"] < to_num (VInt 0))%num = false).
    { apply not_true_iff_false. change (to_num (VInt 0)) with (of_Z 0). intros Hlt.
      apply nlt_spec in Hlt; [|done|auto with num]. apply nlt_spec in Hstop as H1; [|auto with num|done].
      rewrite of_Z_B2X in Hlt, H1 by (unfold safe; lia). lra. }
    rewrite Hlt. destruct (out_of_unit _); [|done]. by destruct c.["animation"]. }
  assert (Hgoing : going a).
  { destruct Hrun as [_ [Hm _] [Ho Hb] (Va & Fa & Hpos)]. repeat split; try done; try apply Ho; lra. }
  destruct (run_going m a Hgoing) as (frames & a' & Hf & Hl). by exists a, frames, a'.
Qed.

End Endless.

Definition endless_animation : config := <["animationStopValue"%string := VInt 2]> short_animation.

Lemma animation_endless_witness :
  exists a frames a', prepare_config false endless_animation = Ok endless_animation /\
    start_animation 0 endless_animation = Ok a /\
    run_animation false 1000 endless_animation linear None a = (frames, Some a') /\ length frames = 1000%nat.
Proof.
  apply (animation_endless linear None endless_animation eq_refl (of_Z_ordered 2) 0 3 1000 eq_refl eq_refl); [|reflexivity].
  lia.
Defined.

(** ** Data points when the animation is over *)

Lemma correction_at_end (data : chart_data) (c : config) (vdata vsubdata addone : Z) :
  animationCorrection (of_Z 1) data c vdata vsubdata addone = Ok (progress_of (of_Z 1) n0).
Proof.
  unfold animationCorrection. change (of_Z 1 < of_Z 1)%num with false.
  by destruct (vsubdata =? -1).
Qed.

(** When the animation has come to its end, every data point of every
    dataset is at its end, whatever the options say about the order in which
    the points appear. *)
Theorem animationCorrection_end (data : chart_data) (c : config) (vdata vsubdata addone : Z) :
  animationCorrection (of_Z 1) data c vdata vsubdata addone = Ok (progress_of (of_Z 1) n0).
Proof. apply correction_at_end. Qed.
