(* ===== verification/Redraw.v ===== *)
(** * Drawing, updating and resizing charts (ChartNew.js)

    The life of the charts of a page: every canvas context carries the state of
    its chart (above all [firstPass]); responsive charts are registered in
    [jsGraphResize]; a draw leaves an animation loop pending.  Calls of the page
    ([new Chart(ctx).Line(...)], [updateChart]), window resizes and animation
    frames are the events that change this world. *)

From stdpp Require Import base list strings gmap.
From Stdlib Require Import ZArith SpecFloat.
From S2P Require Import Prelude Num Value Options OptionValue Scale Easing Animation.

Open Scope Z_scope.

(** ** Contexts *)

(** A canvas context, with the canvas it belongs to; [parent] is the canvas's
    parent node. *)
Record context : Type := {
  tpchart : option chart_type;
  firstPass : option Z;
  ChartNewId : option string;
  initialWidth : option num;
  prevWidth : option num;
  prevHeight : option num;
  aspectRatio : option num;
  chartTextScale : option num;
  chartLineScale : option num;
  chartSpaceScale : option num;
  runanimationcompletefunction : bool;
  canvas_id : string;
  canvas_width : num;
  canvas_height : num;
  parent : option nat
}.

(** A canvas nobody drew on. *)
Definition fresh_context (id : string) (width height : num) (par : option nat) : context := {|
  tpchart := None; firstPass := None; ChartNewId := None; initialWidth := None;
  prevWidth := None; prevHeight := None; aspectRatio := None; chartTextScale := None;
  chartLineScale := None; chartSpaceScale := None; runanimationcompletefunction := false;
  canvas_id := id; canvas_width := width; canvas_height := height;
  parent := par
|}.

Definition set_firstPass (p : Z) (x : context) : context := {|
  tpchart := tpchart x; firstPass := Some p; ChartNewId := ChartNewId x;
  initialWidth := initialWidth x; prevWidth := prevWidth x; prevHeight := prevHeight x;
  aspectRatio := aspectRatio x; chartTextScale := chartTextScale x;
  chartLineScale := chartLineScale x; chartSpaceScale := chartSpaceScale x;
  runanimationcompletefunction := runanimationcompletefunction x; canvas_id := canvas_id x;
  canvas_width := canvas_width x; canvas_height := canvas_height x;
  parent := parent x
|}.

Definition set_prev_size (w h : num) (x : context) : context := {|
  tpchart := tpchart x; firstPass := firstPass x; ChartNewId := ChartNewId x;
  initialWidth := initialWidth x; prevWidth := Some w; prevHeight := Some h;
  aspectRatio := aspectRatio x; chartTextScale := chartTextScale x;
  chartLineScale := chartLineScale x; chartSpaceScale := chartSpaceScale x;
  runanimationcompletefunction := runanimationcompletefunction x; canvas_id := canvas_id x;
  canvas_width := canvas_width x; canvas_height := canvas_height x;
  parent := parent x
|}.

Definition set_canvas_size (w h : num) (x : context) : context := {|
  tpchart := tpchart x; firstPass := firstPass x; ChartNewId := ChartNewId x;
  initialWidth := initialWidth x; prevWidth := prevWidth x; prevHeight := prevHeight x;
  aspectRatio := aspectRatio x; chartTextScale := chartTextScale x;
  chartLineScale := chartLineScale x; chartSpaceScale := chartSpaceScale x;
  runanimationcompletefunction := runanimationcompletefunction x; canvas_id := canvas_id x;
  canvas_width := w; canvas_height := h;
  parent := parent x
|}.

Definition set_scales (t l s : option num) (x : context) : context := {|
  tpchart := tpchart x; firstPass := firstPass x; ChartNewId := ChartNewId x;
  initialWidth := initialWidth x; prevWidth := prevWidth x; prevHeight := prevHeight x;
  aspectRatio := aspectRatio x; chartTextScale := t; chartLineScale := l; chartSpaceScale := s;
  runanimationcompletefunction := runanimationcompletefunction x; canvas_id := canvas_id x;
  canvas_width := canvas_width x; canvas_height := canvas_height x;
  parent := parent x
|}.

Definition set_aspectRatio (r : num) (x : context) : context := {|
  tpchart := tpchart x; firstPass := firstPass x; ChartNewId := ChartNewId x;
  initialWidth := initialWidth x; prevWidth := prevWidth x; prevHeight := prevHeight x;
  aspectRatio := Some r; chartTextScale := chartTextScale x;
  chartLineScale := chartLineScale x; chartSpaceScale := chartSpaceScale x;
  runanimationcompletefunction := runanimationcompletefunction x; canvas_id := canvas_id x;
  canvas_width := canvas_width x; canvas_height := canvas_height x;
  parent := parent x
|}.

Definition set_initialWidth (w : num) (x : context) : context := {|
  tpchart := tpchart x; firstPass := firstPass x; ChartNewId := ChartNewId x;
  initialWidth := Some w; prevWidth := prevWidth x; prevHeight := prevHeight x;
  aspectRatio := aspectRatio x; chartTextScale := chartTextScale x;
  chartLineScale := chartLineScale x; chartSpaceScale := chartSpaceScale x;
  runanimationcompletefunction := runanimationcompletefunction x; canvas_id := canvas_id x;
  canvas_width := canvas_width x; canvas_height := canvas_height x;
  parent := parent x
|}.

Definition set_parent (p : option nat) (x : context) : context := {|
  tpchart := tpchart x; firstPass := firstPass x; ChartNewId := ChartNewId x;
  initialWidth := initialWidth x; prevWidth := prevWidth x; prevHeight := prevHeight x;
  aspectRatio := aspectRatio x; chartTextScale := chartTextScale x;
  chartLineScale := chartLineScale x; chartSpaceScale := chartSpaceScale x;
  runanimationcompletefunction := runanimationcompletefunction x; canvas_id := canvas_id x;
  canvas_width := canvas_width x; canvas_height := canvas_height x;
  parent := p
|}.

Definition set_runcomplete (b : bool) (x : context) : context := {|
  tpchart := tpchart x; firstPass := firstPass x; ChartNewId := ChartNewId x;
  initialWidth := initialWidth x; prevWidth := prevWidth x; prevHeight := prevHeight x;
  aspectRatio := aspectRatio x; chartTextScale := chartTextScale x;
  chartLineScale := chartLineScale x; chartSpaceScale := chartSpaceScale x;
  runanimationcompletefunction := b; canvas_id := canvas_id x;
  canvas_width := canvas_width x; canvas_height := canvas_height x;
  parent := parent x
|}.

Definition set_identity (t : option chart_type) (cid : option string) (id : string) (x : context) : context := {|
  tpchart := t; firstPass := firstPass x; ChartNewId := cid;
  initialWidth := initialWidth x; prevWidth := prevWidth x; prevHeight := prevHeight x;
  aspectRatio := aspectRatio x; chartTextScale := chartTextScale x;
  chartLineScale := chartLineScale x; chartSpaceScale := chartSpaceScale x;
  runanimationcompletefunction := runanimationcompletefunction x; canvas_id := id;
  canvas_width := canvas_width x; canvas_height := canvas_height x;
  parent := parent x
|}.

(** ** Positions *)

(** An element of the document, and where the window is. *)
Record dom_box : Type := {
  offsetLeft : num; scrollLeft : num; clientLeft : num;
  offsetTop : num; scrollTop : num; clientTop : num
}.

Record view : Type := {
  pageXOffset : num;
  pageYOffset : num;
  view_width : num;     (** [innerWidth] *)
  view_height : num
}.

(** Whether the middle of a canvas is in the window; its boxes are its own, that of its
    [offsetParent], and so on. *)
Definition isScrolledIntoView (elems : list dom_box) (x : context) (v : view) : bool :=
  let xPosition := fold_left (fun p b => p + (offsetLeft b - scrollLeft b + clientLeft b))%num elems n0 in
  let yPosition := fold_left (fun p b => p + (offsetTop b - scrollTop b + clientTop b))%num elems n0 in
  let midX := (xPosition + canvas_width x / of_Z 2)%num in
  let midY := (yPosition + canvas_height x / of_Z 2)%num in
  (midX >= pageXOffset v)%num && (midX <= pageXOffset v + view_width v)%num
  && (midY >= pageYOffset v)%num && (midY <= pageYOffset v + view_height v)%num.

(** ** Sizes *)

Definition or_num (o : option num) (d : num) : num := default d o.

(** [window.devicePixelRatio], when the browser defines a truthy one. *)
Definition pixel_ratio (dpr : option num) : option num :=
  match dpr with
  | Some r => if truthy (VNum r) then Some r else None
  | None => None
  end.

Definition scaled_content (c : config) (newWidth : num) (x : context) : context :=
  match chartTextScale x with
  | Some _ =>
      if truthy c.["responsiveScaleContent"] then
        let ratio := (newWidth / or_num (initialWidth x) NaN)%num in
        set_scales (Some (to_num c.["chartTextScale"] * ratio)%num)
          (Some (to_num c.["chartLineScale"] * ratio)%num)
          (Some (to_num c.["chartSpaceScale"] * ratio)%num) x
      else x
  | None => x
  end.

Definition resizeCtx (dpr : option num) (newWidth newHeight : num) (c : config) (x : context) : context :=
  match pixel_ratio dpr with
  | Some r => scaled_content c newWidth (set_canvas_size (newWidth / r * r)%num (newHeight / r * r)%num x)
  | None => scaled_content c newWidth (set_canvas_size newWidth newHeight x)
  end.

(** The options a resize gives a default to, on the configuration itself. *)
Definition default_option (k : string) (v : jsval) (c : config) : config :=
  if is_undefined c.[k] then <[k := v]> c else c.

Definition resize_defaults (c : config) : config :=
  default_option "responsiveMaxHeight" (VInt 9999999)
    (default_option "responsiveMaxWidth" (VInt 9999999)
      (default_option "responsiveMinHeight" (VInt 0)
        (default_option "responsiveMinWidth" (VInt 0)
          (default_option "maintainAspectRatio" (VBool true) c)))).

(** The new size of a chart in a parent node of the given size. *)
Definition resizeGraph (c : config) (size : num * num) (x : context) : num * num * context :=
  let c := resize_defaults c in
  let x := match aspectRatio x with
           | Some _ => x
           | None => set_aspectRatio (canvas_width x / canvas_height x)%num x
           end in
  let newWidth := size.1 in
  let newHeight := if truthy c.["maintainAspectRatio"]
                   then (newWidth / or_num (aspectRatio x) NaN)%num else size.2 in
  let newWidth := Math_min (to_num c.["responsiveMaxWidth"])
                    (Math_max (to_num c.["responsiveMinWidth"]) newWidth) in
  let newHeight := Math_min (to_num c.["responsiveMaxHeight"])
                     (Math_max (to_num c.["responsiveMinHeight"]) newHeight) in
  (parseInt (VNum newWidth), parseInt (VNum newHeight), x).

Definition same_size (n : num) (prev : option num) : bool :=
  match prev with Some p => (n == p)%num | None => false end.

(** ** The page *)

Section Page.

Context `{MathLib}.

(** The data of a chart, as far as this file is concerned. *)
Context {D : Type}.

(** [isIE() < 9 && isIE() != false] and [window.devicePixelRatio]. *)
Context (old_IE : bool) (dpr : option num).

(** The page's personal defaults. *)
Context (personal : personal_options).

(** Whether the chart's area leaves room for its scale (otherwise a draw only
    tests for a redraw). *)
Context (fits : chart_type -> context -> D -> config -> bool).

(** A registered responsive chart: an element of [jsGraphResize]. *)
Record registered : Type := {
  reg_id : string;
  reg_type : option chart_type;
  reg_ctx : nat;
  reg_data : D;
  reg_config : config
}.

(** A pending call of a chart's [animLoop]. *)
Record pending_loop : Type := {
  loop_ctx : nat;
  loop_data : D;
  loop_config : config;
  loop_anim : anim
}.

(** An element of [dynamicDisplay]: whether the canvas was seen, and whether its
    chart was displayed. *)
Record dynamic : Type := {
  dyn_ctx : nat;
  dyn_seen : bool;
  dyn_shown : bool;
  dyn_data : D;
  dyn_config : config
}.

Record world : Type := {
  ctxs : gmap nat context;
  jsGraphResize : list registered;
  dynamicDisplay : gmap string dynamic;
  dynamicDisplayList : list string;
  jsGraphAnnotate : gmap string nat;     (** the number of annotations of a chart *)
  container : option nat;                (** the node measured last *)
  node_size : nat -> num * num;          (** [clientWidth] and [clientHeight] of the nodes *)
  boxes : nat -> list dom_box;           (** of the canvases *)
  viewport : view;
  resize_listener : bool;
  loops : list pending_loop;
  clock : Z                              (** [new Date().getTime()] *)
}.

Definition with_ctxs (f : gmap nat context -> gmap nat context) (w : world) : world := {|
  ctxs := f (ctxs w); jsGraphResize := jsGraphResize w; dynamicDisplay := dynamicDisplay w;
  dynamicDisplayList := dynamicDisplayList w; jsGraphAnnotate := jsGraphAnnotate w;
  container := container w; node_size := node_size w; resize_listener := resize_listener w; loops := loops w; clock := clock w;
  boxes := boxes w; viewport := viewport w |}.
Definition with_registry (f : list registered -> list registered) (w : world) : world := {|
  ctxs := ctxs w; jsGraphResize := f (jsGraphResize w); dynamicDisplay := dynamicDisplay w;
  dynamicDisplayList := dynamicDisplayList w; jsGraphAnnotate := jsGraphAnnotate w;
  container := container w; node_size := node_size w; resize_listener := resize_listener w; loops := loops w; clock := clock w;
  boxes := boxes w; viewport := viewport w |}.
Definition with_dynamic (l : list string) (m : gmap string dynamic) (w : world) : world := {|
  ctxs := ctxs w; jsGraphResize := jsGraphResize w; dynamicDisplay := m;
  dynamicDisplayList := l; jsGraphAnnotate := jsGraphAnnotate w;
  container := container w; node_size := node_size w; resize_listener := resize_listener w; loops := loops w; clock := clock w;
  boxes := boxes w; viewport := viewport w |}.
Definition with_annotate (m : gmap string nat) (w : world) : world := {|
  ctxs := ctxs w; jsGraphResize := jsGraphResize w; dynamicDisplay := dynamicDisplay w;
  dynamicDisplayList := dynamicDisplayList w; jsGraphAnnotate := m;
  container := container w; node_size := node_size w; resize_listener := resize_listener w; loops := loops w; clock := clock w;
  boxes := boxes w; viewport := viewport w |}.
Definition with_container (i : nat) (w : world) : world := {|
  ctxs := ctxs w; jsGraphResize := jsGraphResize w; dynamicDisplay := dynamicDisplay w;
  dynamicDisplayList := dynamicDisplayList w; jsGraphAnnotate := jsGraphAnnotate w;
  container := Some i; node_size := node_size w; resize_listener := resize_listener w; loops := loops w; clock := clock w;
  boxes := boxes w; viewport := viewport w |}.
Definition with_listener (w : world) : world := {|
  ctxs := ctxs w; jsGraphResize := jsGraphResize w; dynamicDisplay := dynamicDisplay w;
  dynamicDisplayList := dynamicDisplayList w; jsGraphAnnotate := jsGraphAnnotate w;
  container := container w; node_size := node_size w; resize_listener := true; loops := loops w; clock := clock w;
  boxes := boxes w; viewport := viewport w |}.
Definition with_loops (l : list pending_loop) (w : world) : world := {|
  ctxs := ctxs w; jsGraphResize := jsGraphResize w; dynamicDisplay := dynamicDisplay w;
  dynamicDisplayList := dynamicDisplayList w; jsGraphAnnotate := jsGraphAnnotate w;
  container := container w; node_size := node_size w; resize_listener := resize_listener w; loops := l; clock := clock w;
  boxes := boxes w; viewport := viewport w |}.

Definition get_ctx (w : world) (i : nat) : res context :=
  match ctxs w !! i with Some x => Ok x | None => Throw ReferenceError end.
Definition upd_ctx (i : nat) (f : context -> context) (w : world) : world :=
  with_ctxs (alter f i) w.
Definition upd_dynamic (k : string) (f : dynamic -> dynamic) (w : world) : world :=
  with_dynamic (dynamicDisplayList w) (alter f k (dynamicDisplay w)) w.

(** [getMaximumWidth] and [getMaximumHeight]: the size of the parent node, or
    of the node measured before when the canvas has no parent. *)
Definition measure_parent (i : nat) (w : world) : res (num * num * world) :=
  let* x := get_ctx w i in
  match parent x with
  | Some n => Ok (node_size w n, with_container n w)
  | None => match container w with
            | Some n => Ok (node_size w n, w)
            | None => Throw TypeError
            end
  end.

(** [resizeGraph] on context [i] of the page. *)
Definition resize_graph (i : nat) (c : config) (w : world) : res (num * num * world) :=
  let* (s, w) := measure_parent i w in
  let* x := get_ctx w i in
  let '(nw, nh, x') := resizeGraph c s x in
  Ok (nw, nh, upd_ctx i (fun _ => x') w).

(** The canvas takes its new size in a responsive chart. *)
Definition apply_size (i : nat) (c : config) (nw nh : num) (w : world) : world :=
  if truthy c.["responsive"]
  then upd_ctx i (fun x => set_prev_size nw nh (resizeCtx dpr nw nh c x)) w
  else upd_ctx i (set_prev_size n0 n0) w.

(** *** Dynamic display *)

(** A dynamic chart is only drawn once its canvas was scrolled into view. *)
Definition dynamicFunction (i : nat) (d : D) (c : config) (w : world) : res (bool * world) :=
  if old_IE then Ok (true, w)
  else if negb (truthy c.["dynamicDisplay"]) then Ok (true, w)
  else
    let* x := get_ctx w i in
    let id := if String.eqb (canvas_id x) "" then ("Canvas_" ++ string_of_Z_abs (clock w))%string
              else canvas_id x in
    let w := upd_ctx i (fun x => set_identity (tpchart x) (ChartNewId x) id x) w in
    let seen := isScrolledIntoView (boxes w i) x (viewport w) in
    let w := match dynamicDisplay w !! id with
             | None => with_dynamic (dynamicDisplayList w ++ [id])%list
                         (<[id := {| dyn_ctx := i; dyn_seen := seen; dyn_shown := false;
                                     dyn_data := d; dyn_config := c |}]> (dynamicDisplay w)) w
             | Some e =>
                 if dyn_shown e then w
                 else upd_dynamic id (fun e => {| dyn_ctx := dyn_ctx e; dyn_seen := seen;
                                                  dyn_shown := dyn_shown e; dyn_data := dyn_data e;
                                                  dyn_config := dyn_config e |}) w
             end in
    match dynamicDisplay w !! id with
    | Some e =>
        if negb (dyn_seen e) && negb (dyn_shown e) then Ok (false, w)
        else Ok (true, upd_dynamic id (fun e => {| dyn_ctx := dyn_ctx e; dyn_seen := dyn_seen e;
                                                   dyn_shown := true; dyn_data := dyn_data e;
                                                   dyn_config := dyn_config e |}) w)
    | None => Throw TypeError
    end.

(** *** Registration *)

Definition addResponsiveChart (i : nat) (id : string) (d : D) (c : config) (w : world) : res world :=
  let w := with_listener w in
  let* (nw, nh, w) := resize_graph i c w in
  let* x := get_ctx w i in
  let w := match prevWidth x with
           | Some _ => upd_ctx i (resizeCtx dpr nw nh c) w
           | None => if truthy c.["responsiveScaleContent"] && truthy c.["responsiveWindowInitialWidth"]
                     then upd_ctx i (set_initialWidth nw) w else w
           end in
  let w := upd_ctx i (set_prev_size nw nh) w in
  Ok (with_registry (fun l => (l ++ [{| reg_id := id; reg_type := tpchart x; reg_ctx := i;
                                        reg_data := d; reg_config := c |}])%list) w).

(** The scales, the identity and the initial width a context gets at its first
    draw; the identity is the chart's type and the time. *)
Definition init_context (c : config) (now : Z) (x : context) : context :=
  let x := match initialWidth x with Some _ => x | None => set_initialWidth (canvas_width x) x end in
  let keep o k := match o with Some v => Some v | None => Some (to_num c.[k]) end in
  let x := set_scales (keep (chartTextScale x) "chartTextScale")
             (keep (chartLineScale x) "chartLineScale")
             (keep (chartSpaceScale x) "chartSpaceScale") x in
  match ChartNewId x with
  | Some _ => x
  | None =>
      let name := match tpchart x with Some t => tpchart_name t | None => "undefined" end in
      set_runcomplete true
        (set_identity (tpchart x) (Some (name ++ "_" ++ string_of_Z_abs now)%string) (canvas_id x) x)
  end.

(** [new Chart(context)]: on a screen with a pixel ratio, the canvas grows by it. *)
Definition new_Chart (x : context) : context :=
  match pixel_ratio dpr with
  | Some r => set_canvas_size (canvas_width x * r)%num (canvas_height x * r)%num x
  | None => x
  end.

Definition clear_annotations (c : config) (id : string) (w : world) : world :=
  match jsGraphAnnotate w !! id with
  | None => with_annotate (<[id := 0%nat]> (jsGraphAnnotate w)) w
  | Some _ => if negb (truthy c.["multiGraph"])
              then with_annotate (<[id := 0%nat]> (jsGraphAnnotate w)) w else w
  end.

(** *** Drawing

    [subUpdateChart], [redrawGraph], the chart functions, [init_and_start] and
    [testRedraw] call each other; [fuel] bounds the depth of draws. *)

Definition is_pass (x : context) (l : list Z) : bool :=
  match firstPass x with Some p => existsb (Z.eqb p) l | None => false end.

Section Draw.

(** The draw of a chart one level deeper: [redrawGraph]. *)
Context (redraw : nat -> D -> config -> world -> res world).

(** The chart is drawn again at its new size. *)
Definition redraw_at_size (i : nat) (d : D) (c : config) (nw nh : num) (w : world) : res world :=
  redraw i d c (apply_size i c nw nh w).

Definition subUpdateChart (i : nat) (d : D) (c : config) (w : world) : res world :=
  let* (shown, w) := dynamicFunction i d c w in
  if negb shown then Ok w
  else
    let* x := get_ctx w i in
    match firstPass x with
    | None =>
        let w := upd_ctx i (set_firstPass 1) w in
        let* (nw, nh, w) := resize_graph i c w in
        redraw i d c (upd_ctx i (set_runcomplete true) (apply_size i c nw nh w))
    | Some p =>
        if p =? 0 then
          let w := upd_ctx i (set_firstPass 1) w in
          let* (nw, nh, w) := resize_graph i c w in
          redraw_at_size i d c nw nh w
        else if (p =? 1) || (p =? 2) then Ok (upd_ctx i (set_firstPass 2) w)
        else if (p =? 3) || (p =? 4) then Ok (upd_ctx i (set_firstPass 4) w)
        else if p =? 5 then redraw i d c (upd_ctx i (set_firstPass 1) w)
        else if p =? 6 then
          let* (nw, nh, w) := resize_graph i c w in
          if negb (same_size nw (prevWidth x)) || negb (same_size nh (prevHeight x))
          then redraw_at_size i d c nw nh (upd_ctx i (set_firstPass 3) w)
          else Ok (upd_ctx i (set_firstPass 5) w)
        else if p =? 7 then
          let* (nw, nh, w) := resize_graph i c w in
          redraw_at_size i d c nw nh (upd_ctx i (set_firstPass 3) w)
        else Ok w
    end.

(** The result tells whether the chart was redrawn. *)
Definition testRedraw (i : nat) (d : D) (c : config) (w : world) : res (bool * world) :=
  let* x := get_ctx w i in
  if is_pass x [2; 4; 9] then
    let* w := subUpdateChart i d c (upd_ctx i (set_firstPass 6) w) in Ok (true, w)
  else Ok (false, upd_ctx i (set_firstPass 5) w).

(** The outcome of a frame: another call is pending, or the chart is displayed. *)
Definition settle (i : nat) (d : D) (c : config) (a : anim) (o : outcome) (w : world) : res world :=
  match o with
  | NextFrame | NextTimeout =>
      Ok (with_loops (loops w ++ [{| loop_ctx := i; loop_data := d; loop_config := c; loop_anim := a |}])%list w)
  | Finished =>
      let* (redrawn, w) := testRedraw i d c w in
      let* x := get_ctx w i in
      if negb redrawn && is_function c.["onAnimationComplete"] && runanimationcompletefunction x
      then Ok (upd_ctx i (set_runcomplete false) w) else Ok w
  end.

(** One call of [animLoop]; the easing function has to exist when the
    configuration asks for an animation. *)
Definition run_frame (i : nat) (d : D) (c : config) (a : anim) (w : world) : res world :=
  let* x := get_ctx w i in
  match easing_function (to_str c.["animationEasing"]) with
  | Some f => let '(_, a', o) := animLoop old_IE c f (firstPass x) a in settle i d c a' o w
  | None => if truthy c.["animation"] then Throw TypeError
            else let '(_, a', o) := animLoop old_IE c id (firstPass x) a in settle i d c a' o w
  end.

Definition animationLoop (anim_fuel : nat) (i : nat) (d : D) (c : config) (w : world) : res world :=
  let* c := prepare_config old_IE c in
  let* a := start_animation anim_fuel c in
  if truthy c.["clearRect"]
  then Ok (with_loops (loops w ++ [{| loop_ctx := i; loop_data := d; loop_config := c; loop_anim := a |}])%list w)
  else run_frame i d c a w.

(** The part of [init_and_start] that decides whether the chart is drawn now. *)
Definition init_and_start (i : nat) (d : D) (c : config) (w : world) : res (bool * world) :=
  let w := upd_ctx i (init_context c (clock w)) w in
  let* x := get_ctx w i in
  let id := default ""%string (ChartNewId x) in
  let first := truthy c.["responsive"] && bool_decide (firstPass x = None) in
  let single := negb (truthy c.["multiGraph"]) in
  let* (shown, w) := dynamicFunction i d c w in
  if negb shown then
    if first && single then let* w := addResponsiveChart i id d c w in Ok (false, w)
    else Ok (false, w)
  else if first && single then
    let* w := addResponsiveChart i id d c w in
    let* w := subUpdateChart i d c w in
    Ok (false, w)
  else
    let w := if first then upd_ctx i (set_firstPass 1) w else w in
    Ok (true, clear_annotations c id w).

(** [this.Line = function(data, options) ...] and the other chart functions. *)
Definition draw_chart (anim_fuel : nat) (t : chart_type) (i : nat) (d : D) (options : option config) (w : world)
    : res world :=
  let c := chart_config t personal options in
  let w := upd_ctx i (fun x => set_identity (Some t) (ChartNewId x) (canvas_id x) x) w in
  let* (go, w) := init_and_start i d c w in
  if negb go then Ok w
  else
    let* x := get_ctx w i in
    if fits t x d c then animationLoop anim_fuel i d c w
    else let* (_, w) := testRedraw i d c w in Ok w.

End Draw.

Fixpoint redrawGraph (anim_fuel fuel : nat) (i : nat) (d : D) (c : config) (w : world) : res world :=
  match fuel with
  | O => Throw Diverges
  | S f =>
      let* x := get_ctx w i in
      let w := upd_ctx i new_Chart w in
      match tpchart x with
      | Some t => draw_chart (redrawGraph anim_fuel f) anim_fuel t i d (Some c) w
      | None => Ok w
      end
  end.

(** ** Events *)

Context (anim_fuel fuel : nat).

(** [new Chart(ctx).T(data, options)] *)
Definition chart_draw (t : chart_type) (i : nat) (d : D) (options : option config) (w : world) : res world :=
  let* _ := get_ctx w i in
  draw_chart (redrawGraph anim_fuel fuel) anim_fuel t i d options (upd_ctx i new_Chart w).

Definition update_registered (id : option string) (d : D) (c : config) (cs : gmap nat context) (r : registered)
    : registered :=
  if bool_decide ((cs !! reg_ctx r) ≫= ChartNewId = id) then
    {| reg_id := reg_id r; reg_type := reg_type r; reg_ctx := reg_ctx r;
       reg_data := d; reg_config := c |}
  else r.

Definition updateChart (i : nat) (d : D) (c : config) (animation runcomplete : bool) (w : world) : res world :=
  let* x := get_ctx w i in
  if is_pass x [5] then
    let w := upd_ctx i (fun x => set_firstPass (if animation then 0 else 7)
                                   (set_runcomplete runcomplete x)) w in
    let w := if truthy c.["responsive"]
             then with_registry (map (update_registered (ChartNewId x) d c (ctxs w))) w else w in
    subUpdateChart (redrawGraph anim_fuel fuel) i d c w
  else Ok w.

Fixpoint resize_all (n : nat) (k : nat) (w : world) : res world :=
  match n with
  | O => Ok w
  | S m =>
      match jsGraphResize w !! k with
      | None => Ok w
      | Some r =>
          let* x := get_ctx w (reg_ctx r) in
          let w := if is_pass x [5] then upd_ctx (reg_ctx r) (set_firstPass 6) w else w in
          let* w := subUpdateChart (redrawGraph anim_fuel fuel) (reg_ctx r) (reg_data r) (reg_config r) w in
          resize_all m (S k) w
      end
  end.

(** The listener of the window's resize event. *)
Definition chartJsResize (w : world) : res world := resize_all (length (jsGraphResize w)) 0 w.

(** The [k]-th pending call of an animation loop is made. *)
Definition animation_frame (k : nat) (w : world) : res world :=
  match loops w !! k with
  | None => Ok w
  | Some l =>
      run_frame (redrawGraph anim_fuel fuel) (loop_ctx l) (loop_data l) (loop_config l) (loop_anim l)
        (with_loops (delete k (loops w)) w)
  end.

(** The window changes its size: nodes get new sizes, then the listener runs. *)
Definition window_resize (sizes : nat -> num * num) (w : world) : res world :=
  let w := {| ctxs := ctxs w; jsGraphResize := jsGraphResize w; dynamicDisplay := dynamicDisplay w;
    dynamicDisplayList := dynamicDisplayList w; jsGraphAnnotate := jsGraphAnnotate w;
    container := container w; node_size := sizes; resize_listener := resize_listener w;
    loops := loops w; clock := clock w; boxes := boxes w; viewport := viewport w |} in
  if resize_listener w then chartJsResize w else Ok w.

(** The page's scroll listener displays the dynamic charts that come into view. *)
Fixpoint scrollFunction (l : list string) (w : world) : res world :=
  match l with
  | [] => Ok w
  | k :: ks =>
      match dynamicDisplay w !! k with
      | None => Throw TypeError
      | Some e =>
          let* x := get_ctx w (dyn_ctx e) in
          let* w := if isScrolledIntoView (boxes w (dyn_ctx e)) x (viewport w) && negb (dyn_shown e) then
                      redrawGraph anim_fuel fuel (dyn_ctx e) (dyn_data e) (dyn_config e)
                        (upd_dynamic k (fun e => {| dyn_ctx := dyn_ctx e; dyn_seen := true;
                                                    dyn_shown := dyn_shown e; dyn_data := dyn_data e;
                                                    dyn_config := dyn_config e |}) w)
                    else Ok w in
          scrollFunction ks w
      end
  end.

(** Elements move in the document. *)
Definition reflow (bs : nat -> list dom_box) (v : view) (w : world) : world := {|
  ctxs := ctxs w; jsGraphResize := jsGraphResize w; dynamicDisplay := dynamicDisplay w;
  dynamicDisplayList := dynamicDisplayList w; jsGraphAnnotate := jsGraphAnnotate w;
  container := container w; node_size := node_size w; resize_listener := resize_listener w;
  loops := loops w; clock := clock w; boxes := bs; viewport := v |}.

(** The window is scrolled; it has a listener once there is a dynamic chart. *)
Definition window_scroll (bs : nat -> list dom_box) (v : view) (w : world) : res world :=
  scrollFunction (dynamicDisplayList w) (reflow bs v w).

End Page.
