(* ===== verification/Lifecycle.v ===== *)
(** * The life of a page's charts

    Invariants of the world of Redraw.v under the events of a page: new charts,
    updates, window resizes, animation frames, canvases that come and go.  The
    code of [ctx.firstPass] rests at one of five values, a chart being drawn has
    exactly one pending call of its animation loop, and no event throws. *)

From stdpp Require Import base list strings gmap relations.
From Stdlib Require Import ZArith Lia SpecFloat.
From S2P Require Import Prelude Num Value Options OptionValue Scale Easing Animation Redraw.

Open Scope Z_scope.

Section Lifecycle.

Context `{MathLib} {D : Type}.
Context (old_IE : bool) (dpr : option num) (personal : personal_options).
Context (fits : chart_type -> context -> D -> config -> bool).
Context (anim_fuel fuel : nat).

(** The type of the page's charts. *)
Context (T : chart_type).

(** ** Configurations that run *)

Definition merged (c : config) : config := chart_config T personal (Some c).

Definition easing_known (c : config) : Prop :=
  truthy c.["animation"] = true -> is_Some (easing_function (to_str c.["animationEasing"])).

(** A configuration with which a chart is displayed at once and its animation
    can be set up. *)
Record runs (c : config) : Prop := {
  not_dynamic : truthy c.["dynamicDisplay"] = false /\ truthy (merged c).["dynamicDisplay"] = false;
  prepared : exists c' a, prepare_config old_IE (merged c) = Ok c' /\
    start_animation anim_fuel c' = Ok a /\ easing_known c'
}.

Lemma merged_idemp (c : config) : merged (merged c) = merged c.
Proof. apply chart_config_idemp. Qed.

Lemma merged_insert (k : string) (v : jsval) (c : config) : merged (<[k := v]> c) = <[k := v]> (merged c).
Proof.
  unfold merged. rewrite !chart_config_layers. unfold layers. cbn [app foldr].
  by rewrite insert_union_l.
Qed.

Lemma nlt_irrefl (x : num) : nlt x x = false.
Proof.
  destruct x as [s|s| |s m e]; try done; [by destruct s|].
  unfold nlt, SFltb. cbn [SFcompare]. rewrite Z.compare_refl.
  change (PosDef.Pos.compare_cont Eq m m) with (Pos.compare_cont Eq m m).
  change (Pos.compare_cont Eq m m) with (m ?= m)%positive. rewrite Pos.compare_refl. by destruct s.
Qed.

(** The corrected start and stop of an animation stay as they are. *)
Definition corrected_stop (c : config) : config :=
  if (to_num c.["animationStopValue"] < to_num c.["animationStartValue"])%num
  then <["animationStopValue"%string := c.["animationStartValue"]]> c else c.

Lemma prepare_config_eq (c : config) :
  prepare_config old_IE c =
  (let* _ := if out_of_unit (to_num c.["animationStartValue"]) then assign_on c.["animation"] else Ok tt in
   let* _ := if out_of_unit (to_num c.["animationStopValue"]) then assign_on c.["animation"] else Ok tt in
   Ok (if old_IE then <["animation"%string := VBool false]> (corrected_stop c) else corrected_stop c)).
Proof. done. Qed.

Lemma prepare_config_result (c c' : config) :
  prepare_config old_IE c = Ok c' ->
  c' = if old_IE then <["animation"%string := VBool false]> (corrected_stop c) else corrected_stop c.
Proof.
  rewrite prepare_config_eq. destruct (out_of_unit (to_num c.["animationStartValue"])),
    (out_of_unit (to_num c.["animationStopValue"])), (assign_on c.["animation"]) as [[]|];
    cbn [res_bind]; congruence.
Qed.

Lemma corrected_stop_props (c : config) :
  (corrected_stop c).["animationStartValue"] = c.["animationStartValue"] /\
  (corrected_stop c).["animation"] = c.["animation"] /\
  ((corrected_stop c).["animationStopValue"] = c.["animationStopValue"] \/
   (corrected_stop c).["animationStopValue"] = c.["animationStartValue"]) /\
  corrected_stop (corrected_stop c) = corrected_stop c.
Proof.
  unfold corrected_stop at 1 2 3 4. destruct (_ < _)%num eqn:Hlt.
  - rewrite prop_insert, !prop_insert_ne by reflexivity. split; [done|]. split; [done|].
    split; [by right|]. unfold corrected_stop. rewrite Hlt.
    rewrite prop_insert, !prop_insert_ne by reflexivity. by rewrite nlt_irrefl.
  - split; [done|]. split; [done|]. split; [by left|]. unfold corrected_stop. by rewrite !Hlt.
Qed.

Lemma assign_on_ok (b : bool) (v : jsval) (r : res unit) :
  (if b then assign_on v else Ok tt) = r -> r = Ok tt \/ (b = true /\ r = Throw TypeError).
Proof. destruct b; [|by left]. intros <-. destruct v; auto. Qed.

Lemma prepare_config_idemp (c c' : config) :
  prepare_config old_IE c = Ok c' -> prepare_config old_IE c' = Ok c'.
Proof.
  destruct (corrected_stop_props c) as (H1 & H2 & H3 & H4).
  intros Hok. pose proof (prepare_config_result _ _ Hok) as Hres. rewrite prepare_config_eq in Hok |- *.
  rename Hok into Hc. assert (Hassign : forall b1 b2 v, (let* _ := if b1 : bool then assign_on v else Ok tt in
    let* _ := if b2 : bool then assign_on v else Ok tt in Ok c') = Ok c' ->
    (b1 || b2 = true -> assign_on v = Ok tt)).
  { intros [|] [|] v; cbn [orb]; destruct (assign_on v) as [[]|]; done. }
  set (b1 := out_of_unit (to_num c.["animationStartValue"])) in *.
  set (b2 := out_of_unit (to_num c.["animationStopValue"])) in *.
  assert (Hc' : c' = if old_IE then <["animation"%string := VBool false]> (corrected_stop c) else corrected_stop c).
  { exact Hres. }
  rewrite <- Hc' in Hc. specialize (Hassign b1 b2 _ Hc).
  assert (Hprops : c'.["animationStartValue"] = c.["animationStartValue"] /\
    (c'.["animationStopValue"] = c.["animationStopValue"] \/ c'.["animationStopValue"] = c.["animationStartValue"]) /\
    corrected_stop c' = c' /\ (b1 || b2 = true -> assign_on c'.["animation"] = Ok tt) /\
    (if old_IE then <["animation"%string := VBool false]> c' else c') = c').
  { rewrite Hc'. destruct old_IE.
    - rewrite prop_insert, !prop_insert_ne by reflexivity. split; [done|]. split; [done|].
      split; [|split; [done|by rewrite insert_insert_eq]].
      unfold corrected_stop at 1. rewrite !prop_insert_ne by reflexivity.
      unfold corrected_stop at 1 in H4. destruct (_ < _)%num; [|done].
      rewrite insert_insert_ne by done. by rewrite H4.
    - rewrite H1, H2. done. }
  destruct Hprops as (P1 & P2 & P3 & P4 & P5). rewrite P1, P3, P5. fold b1.
  assert (Hb : out_of_unit (to_num c'.["animationStopValue"]) = true -> b1 || b2 = true).
  { destruct P2 as [->| ->]; [fold b2|fold b1]; intros ->; by rewrite ?orb_true_r. }
  destruct b1; cbn [orb] in *; [rewrite P4 by done; cbn [res_bind]|];
    (destruct (out_of_unit (to_num c'.["animationStopValue"])); [rewrite ?P4 by auto|]; done).
Qed.

Lemma merged_prepared (c c' : config) :
  prepare_config old_IE (merged c) = Ok c' -> merged c' = c'.
Proof.
  intros Hc'%prepare_config_result.
  assert (Hs : merged (corrected_stop (merged c)) = corrected_stop (merged c)).
  { unfold corrected_stop. destruct (_ < _)%num; by rewrite ?merged_insert, merged_idemp. }
  rewrite Hc'. destruct old_IE; by rewrite ?merged_insert, Hs.
Qed.

Lemma prepared_dynamic (c c' : config) :
  prepare_config old_IE c = Ok c' -> c'.["dynamicDisplay"] = c.["dynamicDisplay"].
Proof.
  intros Hc'%prepare_config_result.
  assert (Hs : (corrected_stop c).["dynamicDisplay"] = c.["dynamicDisplay"]).
  { unfold corrected_stop. destruct (_ < _)%num; by rewrite ?prop_insert_ne. }
  rewrite Hc'. destruct old_IE; by rewrite ?prop_insert_ne, Hs.
Qed.

Lemma runs_merged (c : config) : runs c -> runs (merged c).
Proof. intros [[H1 H2] Hp]. split; rewrite !merged_idemp; auto. Qed.

Lemma runs_prepared (c : config) : runs c ->
  exists c' a, prepare_config old_IE (merged c) = Ok c' /\ start_animation anim_fuel c' = Ok a /\
    easing_known c' /\ runs c'.
Proof.
  intros [[H1 H2] (c' & a & Hp & Ha & He)]. exists c', a. split; [done|]. split; [done|]. split; [done|].
  pose proof (merged_prepared _ _ Hp) as Hm. pose proof (prepare_config_idemp _ _ Hp) as Hi.
  split; rewrite Hm; [by rewrite (prepared_dynamic _ _ Hp)|]. by exists c', a.
Qed.

(** A configuration that plays an animation from its start to its end. *)
Lemma runs_intro (c : config) :
  truthy c.["dynamicDisplay"] = false -> truthy (merged c).["dynamicDisplay"] = false ->
  (merged c).["animationStartValue"] = VInt 0 -> (merged c).["animationStopValue"] = VInt 1 ->
  is_Some (easing_function (to_str (merged c).["animationEasing"])) -> runs c.
Proof.
  intros H1 H2 Hstart Hstop He. split; [done|].
  assert (Hp : prepare_config old_IE (merged c) =
      Ok (if old_IE then <["animation"%string := VBool false]> (merged c) else merged c)).
  { unfold prepare_config. by rewrite Hstart, Hstop. }
  rewrite Hp. set (c' := if old_IE then _ else _).
  assert (Hc' : c'.["animationStartValue"] = VInt 0 /\ c'.["animationEasing"] = (merged c).["animationEasing"]).
  { unfold c'. destruct old_IE; by rewrite ?prop_insert_ne. }
  destruct Hc' as [Hst Hea].
  assert (Ha : exists a, start_animation anim_fuel c' = Ok a).
  { unfold start_animation. rewrite Hst. change (to_num (VInt 0) > n0)%num with false.
    rewrite andb_false_r. cbn [andb res_bind]. by eexists. }
  destruct Ha as [a Ha]. exists c', a. split; [done|]. split; [done|]. intros _. by rewrite Hea.
Qed.

(** ** Steps that concern one context *)

Abbreviation page := (world (D := D)).

(** [w] differs from [w0] in the context [i], which was [x0] and is [x], and in
    parts that no invariant mentions. *)
Record local (i : nat) (x0 x : context) (w0 w : page) : Prop := {
  local_before : ctxs w0 !! i = Some x0;
  local_after : ctxs w = <[i := x]> (ctxs w0);
  local_parent : parent x = parent x0;
  local_loops : loops w = loops w0;
  local_registry : jsGraphResize w = jsGraphResize w0;
  local_container : is_Some (container w0) -> is_Some (container w);
  local_dynamic : dynamicDisplayList w = dynamicDisplayList w0
}.

Lemma local_get (i : nat) (x0 x : context) (w0 w : page) : local i x0 x w0 w -> ctxs w !! i = Some x.
Proof. intros [_ -> _ _ _ _ _]. apply lookup_insert_eq. Qed.

Lemma local_refl (i : nat) (x : context) (w : page) : ctxs w !! i = Some x -> local i x x w w.
Proof. intros Hx. split; try done. by rewrite insert_id. Qed.

Lemma local_trans (i : nat) (x0 x1 x2 : context) (w0 w1 w2 : page) :
  local i x0 x1 w0 w1 -> local i x1 x2 w1 w2 -> local i x0 x2 w0 w2.
Proof.
  intros [B1 A1 P1 L1 R1 C1 D1] [B2 A2 P2 L2 R2 C2 D2].
  split; [done|by rewrite A2, A1, insert_insert_eq|congruence|congruence|congruence|tauto|congruence].
Qed.

Lemma local_upd (i : nat) (f : context -> context) (x : context) (w : page) :
  ctxs w !! i = Some x -> parent (f x) = parent x -> local i x (f x) w (upd_ctx i f w).
Proof.
  intros Hx Hp. split; try done. unfold upd_ctx, with_ctxs. cbn [ctxs].
  apply map_eq. intros j. destruct (decide (i = j)) as [<-|Hne]; [|by rewrite lookup_alter_ne, lookup_insert_ne].
  by rewrite lookup_alter_eq, lookup_insert_eq, Hx.
Qed.

(** Parts of the world that are not the contexts, the loops or the registry. *)
Lemma local_other (i : nat) (x : context) (w w' : page) :
  ctxs w !! i = Some x -> ctxs w' = ctxs w -> loops w' = loops w -> jsGraphResize w' = jsGraphResize w ->
  (is_Some (container w) -> is_Some (container w')) -> dynamicDisplayList w' = dynamicDisplayList w -> local i x x w w'.
Proof. intros Hx Hc Hl Hr Hcon Hdyn. split; try done. by rewrite Hc, insert_id. Qed.

(** A canvas can be measured. *)
Definition measurable (w : page) (x : context) : Prop := parent x <> None \/ is_Some (container w).

Lemma measurable_local (i : nat) (x0 x : context) (w0 w : page) :
  local i x0 x w0 w -> measurable w0 x0 -> measurable w x.
Proof. intros [_ _ P _ _ C _] [Hm|Hm]; [left; congruence|right; auto]. Qed.

Lemma resizeGraph_fields (c : config) (s : num * num) (x : context) :
  let x' := snd (resizeGraph c s x) in
  parent x' = parent x /\ firstPass x' = firstPass x /\ tpchart x' = tpchart x /\ prevWidth x' = prevWidth x.
Proof. unfold resizeGraph. cbn [snd]. by destruct (aspectRatio x). Qed.

Lemma resize_graph_local (i : nat) (c : config) (w : page) (x : context) :
  ctxs w !! i = Some x -> measurable w x ->
  exists nw nh w' x', resize_graph i c w = Ok (nw, nh, w') /\ local i x x' w w' /\
    firstPass x' = firstPass x /\ tpchart x' = tpchart x /\ prevWidth x' = prevWidth x /\
    is_Some (container w').
Proof.
  intros Hx Hm. unfold resize_graph, measure_parent, get_ctx. rewrite Hx. cbn [res_bind].
  assert (Hmeas : exists s w1, (match parent x with
      | Some n => Ok (node_size w n, with_container n w)
      | None => match container w with
                | Some n => Ok (node_size w n, w)
                | None => Throw TypeError
                end
      end) = Ok (s, w1) /\ local i x x w w1 /\ is_Some (container w1)).
  { destruct (parent x) as [n|] eqn:Hp.
    - eexists _, _. split; [done|]. split; [by apply local_other|by eexists].
    - destruct Hm as [Hm|[n Hn]]; [done|]. rewrite Hn. eexists _, _. split; [done|].
      split; [by apply local_refl|by eexists]. }
  destruct Hmeas as (sz & w1 & -> & Hl & Hc). cbn [res_bind]. rewrite (local_get _ _ _ _ _ Hl). cbn [res_bind].
  pose proof (resizeGraph_fields c sz x) as Hf. destruct (resizeGraph c sz x) as [[nw nh] x'].
  cbn [snd] in Hf. destruct Hf as (E1 & E2 & E3 & E4).
  exists nw, nh, (upd_ctx i (fun _ => x') w1), x'. split; [reflexivity|]. split; [|by repeat split].
  apply (local_trans i x x x' w w1); [exact Hl|].
  exact (local_upd i (fun _ => x') x w1 (local_get _ _ _ _ _ Hl) E1).
Qed.

Lemma resizeCtx_fields (c : config) (nw nh : num) (x : context) :
  parent (resizeCtx dpr nw nh c x) = parent x /\ firstPass (resizeCtx dpr nw nh c x) = firstPass x /\
  tpchart (resizeCtx dpr nw nh c x) = tpchart x.
Proof.
  unfold resizeCtx, scaled_content. destruct (pixel_ratio dpr); cbn [chartTextScale set_canvas_size];
    destruct (chartTextScale x); by destruct (truthy c.["responsiveScaleContent"]).
Qed.

Lemma apply_size_local (i : nat) (c : config) (nw nh : num) (w : page) (x : context) :
  ctxs w !! i = Some x ->
  exists x', local i x x' w (apply_size dpr i c nw nh w) /\ firstPass x' = firstPass x /\ tpchart x' = tpchart x.
Proof.
  intros Hx. unfold apply_size. destruct (resizeCtx_fields c nw nh x) as (E1 & E2 & E3).
  destruct (truthy c.["responsive"]); eexists; (split; [by apply local_upd|done]).
Qed.

Lemma dynamicFunction_plain (i : nat) (d : D) (c : config) (w : page) :
  truthy c.["dynamicDisplay"] = false -> dynamicFunction old_IE i d c w = Ok (true, w).
Proof. intros Hd. unfold dynamicFunction. rewrite Hd. by destruct old_IE. Qed.

(** *** What a draw does *)

(** A pending call of the loop of context [i]. *)
Definition loop_of (i : nat) (l : pending_loop (D := D)) : Prop := loop_ctx l = i /\ runs (loop_config l) /\ easing_known (loop_config l).

(** The chart is displayed, or it is being drawn and its loop [ls] is pending. *)
Inductive drawn (i : nat) (x : context) : list (pending_loop (D := D)) -> Prop :=
| displayed : firstPass x = Some 5 -> drawn i x []
| drawing p l : firstPass x = Some p -> 1 <= p <= 4 -> loop_of i l -> drawn i x [l].

(** The chart of context [i] was drawn, between [w] and [w']. *)
Record draws (i : nat) (w w' : page) : Prop := {
  drawn_result : exists x0 x ls, ctxs w !! i = Some x0 /\ ctxs w' = <[i := x]> (ctxs w) /\
    loops w' = (loops w ++ ls)%list /\ tpchart x = Some T /\ parent x = parent x0 /\ drawn i x ls;
  drawn_registry : jsGraphResize w' = jsGraphResize w;
  drawn_container : is_Some (container w) -> is_Some (container w');
  drawn_dynamic : dynamicDisplayList w' = dynamicDisplayList w
}.

Lemma draws_local (i : nat) (x0 x : context) (w0 w w' : page) :
  local i x0 x w0 w -> draws i w w' -> draws i w0 w'.
Proof.
  intros Hl [(x1 & x2 & ls & H1 & H2 & H3 & H4 & H5 & H6) Hr Hc Hd].
  pose proof (local_get _ _ _ _ _ Hl) as Hx. rewrite H1 in Hx. injection Hx as ->.
  destruct Hl as [B A P L R C G]. split; [|congruence|tauto|congruence].
  exists x0, x2, ls. rewrite H2, A, insert_insert_eq, H3, L. by rewrite H5, P.
Qed.

(** The page has the same canvases in the same places. *)
Definition same_canvases (w w' : page) : Prop :=
  forall j, parent <$> ctxs w' !! j = parent <$> ctxs w !! j.

(** At most the context [i] is changed. *)
Record changes (i : nat) (w w' : page) : Prop := {
  changes_same : same_canvases w w';
  changes_other j : j <> i -> ctxs w' !! j = ctxs w !! j
}.

(** The canvases nobody drew on are left alone. *)
Record calm (w w' : page) : Prop := {
  calm_same : same_canvases w w';
  calm_fresh j x : ctxs w !! j = Some x -> firstPass x = None -> ctxs w' !! j = Some x
}.

Lemma changes_trans (i : nat) (w0 w1 w2 : page) : changes i w0 w1 -> changes i w1 w2 -> changes i w0 w2.
Proof. intros [S1 O1] [S2 O2]. split; [intros j; by rewrite S2|intros j Hj; by rewrite O2, O1]. Qed.

Lemma calm_refl (w : page) : calm w w.
Proof. by split. Qed.

Lemma calm_trans (w0 w1 w2 : page) : calm w0 w1 -> calm w1 w2 -> calm w0 w2.
Proof. intros [S1 F1] [S2 F2]. split; [intros j; by rewrite S2|auto]. Qed.

Lemma changes_calm (i : nat) (x0 : context) (w w' : page) :
  changes i w w' -> ctxs w !! i = Some x0 -> firstPass x0 <> None -> calm w w'.
Proof.
  intros [Hs Ho] Hx Hp. split; [done|]. intros j x Hj Hf. rewrite Ho; [done|]. intros ->. congruence.
Qed.

Lemma changes_insert (i : nat) (x0 x : context) (w w' : page) :
  ctxs w !! i = Some x0 -> ctxs w' = <[i := x]> (ctxs w) -> parent x = parent x0 -> changes i w w'.
Proof.
  intros Hx Hw Hp. split; intros j; [|intros Hj; by rewrite Hw, lookup_insert_ne].
  rewrite Hw. destruct (decide (i = j)) as [<-|Hne]; [|by rewrite lookup_insert_ne].
  rewrite lookup_insert_eq, Hx. cbn. by rewrite Hp.
Qed.

Lemma changes_local (i : nat) (x0 x : context) (w w' : page) : local i x0 x w w' -> changes i w w'.
Proof. intros [B A P _ _ _ _]. by apply (changes_insert i x0 x). Qed.

Lemma changes_draws (i : nat) (w w' : page) : draws i w w' -> changes i w w'.
Proof. intros [(x0 & x & ls & B & A & _ & _ & P & _) _ _]. by apply (changes_insert i x0 x). Qed.

(** A draw that only changes the context. *)
Lemma draws_displayed (i : nat) (x0 x : context) (w w' : page) :
  local i x0 x w w' -> tpchart x = Some T -> firstPass x = Some 5 -> draws i w w'.
Proof.
  intros [B A P L R C G] Ht Hp. split; [|done|done|done].
  exists x0, x, []. rewrite app_nil_r. repeat split; try done. by apply displayed.
Qed.

Lemma draws_pending (i : nat) (x : context) (w : page) (p : Z) (l : pending_loop (D := D)) :
  ctxs w !! i = Some x -> tpchart x = Some T -> firstPass x = Some p -> 1 <= p <= 4 -> loop_of i l ->
  draws i w (with_loops (loops w ++ [l])%list w).
Proof.
  intros Hx Ht Hp Hr Hl. split; [|done|done|done].
  exists x, x, [l]. rewrite insert_id by done. repeat split; try done. by eapply drawing.
Qed.

(** The events of the page never run a draw deeper than one level. *)
Section Depth.

Context (redraw : nat -> D -> config -> page -> res page).

Lemma testRedraw_displayed (i : nat) (d : D) (c : config) (w : page) (x : context) :
  ctxs w !! i = Some x -> is_pass x [2; 4; 9] = false ->
  testRedraw old_IE dpr redraw i d c w = Ok (false, upd_ctx i (set_firstPass 5) w).
Proof. intros Hx Hp. unfold testRedraw, get_ctx. rewrite Hx. cbn [res_bind]. by rewrite Hp. Qed.

Lemma settle_local (i : nat) (d : D) (c : config) (a : anim) (o : outcome) (w : page) (x : context) (p : Z) :
  ctxs w !! i = Some x -> tpchart x = Some T -> firstPass x = Some p -> p = 1 \/ p = 3 -> runs c -> easing_known c ->
  exists w', settle old_IE dpr redraw i d c a o w = Ok w' /\ draws i w w'.
Proof.
  intros Hx Ht Hp Hr Hc He. unfold settle.
  assert (Hpend : draws i w (with_loops (loops w ++
      [{| loop_ctx := i; loop_data := d; loop_config := c; loop_anim := a |}])%list w)).
  { apply (draws_pending i x w p); try done; lia. }
  destruct o; [by eexists|by eexists|].
  rewrite (testRedraw_displayed i d c w x Hx).
  2: { unfold is_pass. rewrite Hp. by destruct Hr as [-> | ->]. }
  cbn [res_bind]. set (w1 := upd_ctx i (set_firstPass 5) w).
  assert (H1 : local i x (set_firstPass 5 x) w w1) by (by apply local_upd).
  unfold get_ctx. rewrite (local_get _ _ _ _ _ H1). cbn [res_bind].
  destruct (_ && _).
  - eexists. split; [reflexivity|].
    apply (draws_displayed i x (set_runcomplete false (set_firstPass 5 x))); [|done|done].
    apply (local_trans i x (set_firstPass 5 x) _ w w1); [exact H1|].
    apply (local_upd i (set_runcomplete false)); [by apply (local_get _ _ _ _ _ H1)|done].
  - eexists. split; [reflexivity|]. by apply (draws_displayed i x (set_firstPass 5 x)).
Qed.

Lemma run_frame_settles (i : nat) (d : D) (c : config) (a : anim) (w : page) (x : context) :
  ctxs w !! i = Some x -> easing_known c ->
  exists a' o, run_frame old_IE dpr redraw i d c a w = settle old_IE dpr redraw i d c a' o w.
Proof.
  intros Hx He. unfold run_frame, get_ctx. rewrite Hx. cbn [res_bind]. unfold easing_known in He.
  destruct (easing_function (to_str c.["animationEasing"])) as [f|].
  - destruct (animLoop old_IE c f (firstPass x) a) as [[ops a'] o]. by exists a', o.
  - destruct (truthy c.["animation"]); [destruct (He eq_refl) as [? [=]]|].
    destruct (animLoop old_IE c id (firstPass x) a) as [[ops a'] o]. by exists a', o.
Qed.

Lemma animationLoop_draws (i : nat) (d : D) (c : config) (w : page) (x : context) (p : Z) :
  ctxs w !! i = Some x -> tpchart x = Some T -> firstPass x = Some p -> p = 1 \/ p = 3 -> runs c ->
  exists w', animationLoop old_IE dpr redraw anim_fuel i d (merged c) w = Ok w' /\ draws i w w'.
Proof.
  intros Hx Ht Hp Hr Hc. destruct (runs_prepared c Hc) as (c' & a & Hprep & Ha & He & Hc').
  unfold animationLoop. rewrite Hprep. cbn [res_bind]. rewrite Ha. cbn [res_bind].
  destruct (truthy c'.["clearRect"]).
  - eexists. split; [reflexivity|]. apply (draws_pending i x w p); try done; lia.
  - destruct (run_frame_settles i d c' a w x Hx He) as (a' & o & ->). by apply (settle_local i d c' a' o w x p).
Qed.

Lemma init_context_fields (c : config) (now : Z) (x : context) :
  parent (init_context c now x) = parent x /\ firstPass (init_context c now x) = firstPass x /\
  tpchart (init_context c now x) = tpchart x.
Proof.
  unfold init_context. destruct (initialWidth x); cbn [ChartNewId set_scales set_initialWidth];
    by destruct (ChartNewId x).
Qed.

Lemma new_Chart_fields (x : context) :
  parent (new_Chart dpr x) = parent x /\ firstPass (new_Chart dpr x) = firstPass x /\
  tpchart (new_Chart dpr x) = tpchart x.
Proof. unfold new_Chart. by destruct (pixel_ratio dpr). Qed.

Lemma clear_annotations_local (i : nat) (c : config) (id : string) (w : page) (x : context) :
  ctxs w !! i = Some x -> local i x x w (clear_annotations c id w).
Proof.
  intros Hx. unfold clear_annotations.
  destruct (jsGraphAnnotate w !! id), (truthy c.["multiGraph"]); by apply local_other.
Qed.

(** A draw of a chart that is known to the page. *)
Lemma draw_chart_draws (i : nat) (d : D) (c : config) (w : page) (x : context) (p : Z) :
  ctxs w !! i = Some x -> firstPass x = Some p -> p = 1 \/ p = 3 -> runs c ->
  exists w', draw_chart old_IE dpr personal fits redraw anim_fuel T i d (Some c) w = Ok w' /\ draws i w w'.
Proof.
  intros Hx Hp Hr Hc. unfold draw_chart. fold (merged c).
  set (f1 := fun y => set_identity (Some T) (ChartNewId y) (canvas_id y) y).
  assert (H1 : local i x (f1 x) w (upd_ctx i f1 w)) by (by apply local_upd).
  set (w1 := upd_ctx i f1 w) in *. unfold init_and_start.
  destruct (init_context_fields (merged c) (clock w1) (f1 x)) as (Ep & Ef & Et).
  set (f2 := init_context (merged c) (clock w1)) in *.
  assert (H2 : local i x (f2 (f1 x)) w (upd_ctx i f2 w1)).
  { apply (local_trans i x (f1 x) _ w w1); [exact H1|]. apply local_upd; [by apply (local_get _ _ _ _ _ H1)|done]. }
  set (w2 := upd_ctx i f2 w1) in *. set (y := f2 (f1 x)) in *.
  unfold get_ctx at 1. rewrite (local_get _ _ _ _ _ H2). cbn [res_bind].
  rewrite dynamicFunction_plain by apply Hc. cbn [res_bind negb].
  assert (Hfy : firstPass y = Some p) by (rewrite Ef; exact Hp).
  rewrite Hfy. replace (bool_decide (Some p = None)) with false by (symmetry; by apply bool_decide_eq_false_2).
  rewrite andb_false_r. cbn [andb res_bind negb].
  set (w3 := clear_annotations (merged c) (default "" (ChartNewId y)) w2).
  assert (H3 : local i x y w w3).
  { apply (local_trans i x y y w w2); [exact H2|]. apply clear_annotations_local, (local_get _ _ _ _ _ H2). }
  pose proof (local_get _ _ _ _ _ H3) as Hy. unfold get_ctx. rewrite Hy. cbn [res_bind].
  destruct (fits T y d (merged c)).
  - destruct (animationLoop_draws i d c w3 y p Hy Et Hfy Hr Hc) as (w' & -> & Hd).
    exists w'. split; [done|]. by apply (draws_local i x y w w3).
  - rewrite (testRedraw_displayed i d (merged c) w3 y Hy).
    2: { unfold is_pass. rewrite Hfy. by destruct Hr as [-> | ->]. }
    cbn [res_bind]. eexists. split; [reflexivity|]. apply (draws_local i x y w w3); [exact H3|].
    apply (draws_displayed i y (set_firstPass 5 y)); [by apply local_upd|done|done].
Qed.

End Depth.

(** *** The operations of the page *)

Hypothesis (Hfuel : (0 < fuel)%nat).

Abbreviation redraw := (redrawGraph (D := D) old_IE dpr personal fits anim_fuel fuel).

Lemma redraw_draws (i : nat) (d : D) (c : config) (w : page) (x : context) (p : Z) :
  ctxs w !! i = Some x -> tpchart x = Some T -> firstPass x = Some p -> p = 1 \/ p = 3 -> runs c ->
  exists w', redraw i d c w = Ok w' /\ draws i w w'.
Proof.
  intros Hx Ht Hp Hr Hc. destruct fuel as [|n]; [lia|]. cbn [redrawGraph].
  unfold get_ctx. rewrite Hx. cbn [res_bind]. rewrite Ht.
  destruct (new_Chart_fields x) as (E1 & E2 & E3).
  assert (H1 : local i x (new_Chart dpr x) w (upd_ctx i (new_Chart dpr) w)) by (by apply local_upd).
  destruct (draw_chart_draws (redrawGraph old_IE dpr personal fits anim_fuel n) i d c
    (upd_ctx i (new_Chart dpr) w) (new_Chart dpr x) p) as (w' & Hw & Hd); [..|by exists w'; split; [|by eapply draws_local]].
  - apply (local_get _ _ _ _ _ H1).
  - by rewrite E2.
  - done.
  - done.
Qed.

(** A redraw after the context was prepared for it. *)
Lemma redraw_after (i : nat) (d : D) (c : config) (w0 w : page) (x0 x : context) (p : Z) :
  local i x0 x w0 w -> tpchart x = Some T -> firstPass x = Some p -> p = 1 \/ p = 3 -> runs c ->
  exists w', redraw i d c w = Ok w' /\ draws i w0 w'.
Proof.
  intros Hl Ht Hp Hr Hc. destruct (redraw_draws i d c w x p (local_get _ _ _ _ _ Hl) Ht Hp Hr Hc) as (w' & ? & ?).
  exists w'. split; [done|]. by apply (draws_local i x0 x w0 w).
Qed.

Lemma redraw_at_size_draws (i : nat) (d : D) (c : config) (nw nh : num) (w0 w : page) (x0 x : context) (p : Z) :
  local i x0 x w0 w -> tpchart x = Some T -> firstPass x = Some p -> p = 1 \/ p = 3 -> runs c ->
  exists w', redraw_at_size dpr redraw i d c nw nh w = Ok w' /\ draws i w0 w'.
Proof.
  intros Hl Ht Hp Hr Hc. unfold redraw_at_size.
  destruct (apply_size_local i c nw nh w x (local_get _ _ _ _ _ Hl)) as (y & Hy & Ey & Et).
  apply (redraw_after i d c w0 _ x0 y p); [by apply (local_trans i x0 x y w0 w)|congruence|congruence|done|done].
Qed.

(** [subUpdateChart] while a chart is being drawn: the change is noted. *)
Lemma subUpdateChart_busy (i : nat) (d : D) (c : config) (w : page) (x : context) (p : Z) :
  ctxs w !! i = Some x -> firstPass x = Some p -> 1 <= p <= 4 -> runs c ->
  exists q, 1 <= q <= 4 /\ subUpdateChart old_IE dpr redraw i d c w = Ok (upd_ctx i (set_firstPass q) w).
Proof.
  intros Hx Hp Hr Hc. unfold subUpdateChart. rewrite dynamicFunction_plain by apply Hc. cbn [res_bind negb].
  unfold get_ctx. rewrite Hx. cbn [res_bind]. rewrite Hp.
  assert (p = 1 \/ p = 2 \/ p = 3 \/ p = 4) as [-> |[-> |[-> | ->]]] by lia;
    cbn [Z.eqb Pos.eqb orb]; [exists 2|exists 2|exists 4|exists 4]; (split; [lia|reflexivity]).
Qed.

(** The size of a chart is computed, its state becomes [q], and it is drawn again. *)
Lemma redraw_resized (i : nat) (d : D) (c : config) (w0 w : page) (x0 x : context) :
  local i x0 x w0 w -> tpchart x = Some T -> measurable w x -> runs c ->
  exists nw nh w2 y, resize_graph i c w = Ok (nw, nh, w2) /\ is_Some (container w2) /\
    local i x0 y w0 w2 /\ firstPass y = firstPass x /\ tpchart y = Some T /\
    (forall w3 z q, local i y z w2 w3 -> tpchart z = Some T -> firstPass z = Some q -> q = 1 \/ q = 3 ->
      exists w', redraw_at_size dpr redraw i d c nw nh w3 = Ok w' /\ draws i w0 w' /\ is_Some (container w')) /\
    (firstPass x = Some 1 ->
      exists w', redraw i d c (upd_ctx i (set_runcomplete true) (apply_size dpr i c nw nh w2)) = Ok w' /\
        draws i w0 w' /\ is_Some (container w')).
Proof.
  intros Hl Ht Hm Hc. pose proof (local_get _ _ _ _ _ Hl) as Hx.
  destruct (resize_graph_local i c w x Hx Hm) as (nw & nh & w2 & y & Hrg & H2 & Ey & Ety & _ & Hcw).
  exists nw, nh, w2, y. split; [done|]. split; [done|].
  pose proof (local_trans i x0 x y _ _ _ Hl H2) as H3. rewrite Ht in Ety.
  split; [done|]. split; [done|]. split; [done|]. split.
  - intros w3 z q Hz Htz Hq Hqr.
    destruct (redraw_at_size_draws i d c nw nh w2 w3 y z q Hz Htz Hq Hqr Hc) as (w' & -> & Hd).
    exists w'. split; [done|]. split; [by apply (draws_local i x0 y w0 w2)|]. by apply Hd.
  - intros H1. destruct (apply_size_local i c nw nh w2 y (local_get _ _ _ _ _ H2)) as (z & H4 & Ez & Etz).
    pose proof (local_upd i (set_runcomplete true) z _ (local_get _ _ _ _ _ H4) eq_refl) as H5.
    destruct (redraw_after i d c w2 _ y (set_runcomplete true z) 1 (local_trans i y z _ _ _ _ H4 H5))
      as (w' & -> & Hd); [cbn; congruence|cbn; congruence|by left|done|].
    exists w'. split; [done|]. split; [by apply (draws_local i x0 y w0 w2)|]. by apply Hd.
Qed.

(** [subUpdateChart] on a chart that is to be drawn. *)
Lemma subUpdateChart_draws (i : nat) (d : D) (c : config) (w : page) (x : context) (o : option Z) :
  ctxs w !! i = Some x -> tpchart x = Some T -> measurable w x -> runs c ->
  firstPass x = o -> o = None \/ o = Some 0 \/ o = Some 6 \/ o = Some 7 ->
  exists w', subUpdateChart old_IE dpr redraw i d c w = Ok w' /\ draws i w w' /\ is_Some (container w').
Proof.
  intros Hx Ht Hm Hc Hp Ho. unfold subUpdateChart. rewrite dynamicFunction_plain by apply Hc. cbn [res_bind negb].
  unfold get_ctx at 1. rewrite Hx. cbn [res_bind]. rewrite Hp.
  pose proof (local_upd i (set_firstPass 1) x w Hx eq_refl) as H1.
  destruct Ho as [-> |[-> |[-> | ->]]]; cbn [Z.eqb Pos.eqb orb].
  - destruct (redraw_resized i d c w _ x _ H1 Ht Hm Hc) as (nw & nh & w2 & y & -> & _ & _ & _ & _ & _ & Hd).
    cbn [res_bind]. by apply Hd.
  - destruct (redraw_resized i d c w _ x _ H1 Ht Hm Hc) as (nw & nh & w2 & y & -> & _ & H2 & Ey & Ety & Hd & _).
    cbn [res_bind]. apply (Hd w2 y 1); [apply (local_refl _ _ _ (local_get _ _ _ _ _ H2))|done|by rewrite Ey|by left].
  - destruct (redraw_resized i d c w w x x (local_refl _ _ _ Hx) Ht Hm Hc)
      as (nw & nh & w2 & y & -> & Hcw & H2 & Ey & Ety & Hd & _).
    cbn [res_bind]. pose proof (fun q => local_upd i (set_firstPass q) y w2 (local_get _ _ _ _ _ H2) eq_refl) as H3.
    destruct (_ || _); [apply (Hd _ (set_firstPass 3 y) 3); auto|].
    eexists. split; [reflexivity|]. split; [|done].
    apply (draws_displayed i x (set_firstPass 5 y)); [by apply (local_trans i x y _ w w2)|done|done].
  - destruct (redraw_resized i d c w w x x (local_refl _ _ _ Hx) Ht Hm Hc)
      as (nw & nh & w2 & y & -> & Hcw & H2 & Ey & Ety & Hd & _).
    cbn [res_bind]. pose proof (local_upd i (set_firstPass 3) y w2 (local_get _ _ _ _ _ H2) eq_refl) as H3.
    apply (Hd _ (set_firstPass 3 y) 3); auto.
Qed.

(** ** The invariant of a page *)

Definition loops_at (i : nat) (w : page) : list (pending_loop (D := D)) :=
  filter (fun l => loop_ctx l = i) (loops w).

(** A canvas nobody drew on, or a chart that is displayed or being drawn. *)
Inductive state (w : page) (i : nat) (x : context) : Prop :=
| fresh : firstPass x = None -> loops_at i w = [] -> state w i x
| active : tpchart x = Some T -> is_Some (container w) -> drawn i x (loops_at i w) -> state w i x.

Record page_inv (w : page) : Prop := {
  inv_ctx i x : ctxs w !! i = Some x -> state w i x;
  inv_loops l : l ∈ loops w -> is_Some (ctxs w !! loop_ctx l);
  inv_registry r : r ∈ jsGraphResize w -> runs (reg_config r) /\
    exists x, ctxs w !! reg_ctx r = Some x /\ firstPass x <> None;
  inv_dynamic : dynamicDisplayList w = []
}.

(** The invariant while the chart of context [i] is about to be drawn. *)
Record inv_but (i : nat) (w : page) : Prop := {
  but_ctx j x : j <> i -> ctxs w !! j = Some x -> state w j x;
  but_idle : loops_at i w = [];
  but_loops l : l ∈ loops w -> is_Some (ctxs w !! loop_ctx l);
  but_registry r : r ∈ jsGraphResize w -> runs (reg_config r) /\
    exists x, ctxs w !! reg_ctx r = Some x /\ (reg_ctx r <> i -> firstPass x <> None);
  but_dynamic : dynamicDisplayList w = []
}.

Lemma inv_but_intro (i : nat) (w : page) : page_inv w -> loops_at i w = [] -> inv_but i w.
Proof.
  intros [Hc Hl Hr Hdyn] Hi. split; [auto|done|done| |done].
  intros r (Hrun & x & Hx & Hne)%Hr. split; [done|]. by exists x.
Qed.

Lemma state_ext (w w' : page) (i : nat) (x : context) :
  loops w' = loops w -> (is_Some (container w) -> is_Some (container w')) -> state w i x -> state w' i x.
Proof.
  intros Hl Hc [Hf Hi|Ht Hcon Hd]; [apply fresh|apply active]; auto; unfold loops_at in *; by rewrite Hl.
Qed.

Lemma inv_but_local (i : nat) (x y : context) (w w' : page) :
  local i x y w w' -> inv_but i w -> inv_but i w'.
Proof.
  intros [B A P L R C G] [Hc Hi Hl Hr Hdyn]. split.
  - intros j z Hj. rewrite A, lookup_insert_ne by done. intros Hz. by apply (state_ext w w'), Hc.
  - unfold loops_at in *. by rewrite L.
  - intros l. rewrite L, A. intros Hin%Hl. destruct (decide (i = loop_ctx l)) as [<-|Hne];
      [rewrite lookup_insert_eq; by eexists|by rewrite lookup_insert_ne].
  - intros r. rewrite R, A. intros (Hrun & z & Hz & Hne)%Hr. split; [done|].
    destruct (decide (i = reg_ctx r)) as [<-|Hir]; [exists y; by rewrite lookup_insert_eq|].
    exists z. by rewrite lookup_insert_ne.
  - congruence.
Qed.

Lemma drawn_started (i : nat) (x : context) (ls : list pending_loop) : drawn i x ls -> firstPass x <> None.
Proof. by intros [H1|p l H1 _ _]; rewrite H1. Qed.

Lemma drawn_loops (i : nat) (x : context) (ls : list pending_loop) (l : pending_loop) :
  drawn i x ls -> l ∈ ls -> loop_of i l.
Proof. intros Hd Hl. destruct Hd as [|p l' _ _ Hl']; [by apply elem_of_nil in Hl|]. by apply list_elem_of_singleton in Hl as ->. Qed.

Lemma drawn_filter (i j : nat) (x : context) (ls : list pending_loop) :
  drawn i x ls -> filter (fun l => loop_ctx l = j) ls = if decide (i = j) then ls else [].
Proof.
  intros [_|p l _ _ [Hl _]]; [by destruct (decide (i = j))|].
  cbn [filter list_filter]. rewrite Hl. by destruct (decide (i = j)).
Qed.

Lemma inv_but_draws (i : nat) (w w' : page) :
  inv_but i w -> draws i w w' -> is_Some (container w') -> page_inv w'.
Proof.
  intros [Hc Hi Hl Hr Hdyn] [(x0 & x & ls & _ & Hx & Hls & Ht & _ & Hd) Hreg Hcon Hd2] Hcw.
  assert (Hat : forall j, loops_at j w' = (loops_at j w ++ if decide (i = j) then ls else [])%list).
  { intros j. unfold loops_at. rewrite Hls, filter_app. by rewrite (drawn_filter i j x ls Hd). }
  split.
  - intros j y. rewrite Hx. destruct (decide (i = j)) as [<-|Hne].
    + rewrite lookup_insert_eq. intros [= <-]. apply active; [done|done|].
      rewrite Hat, Hi. by destruct (decide (i = i)).
    + rewrite lookup_insert_ne by done. intros Hy. destruct (Hc j y (not_eq_sym Hne) Hy) as [Hf Hj|Hty Hco Hj].
      * apply fresh; [done|]. rewrite Hat, Hj. by destruct (decide (i = j)).
      * apply active; [done|done|]. rewrite Hat. destruct (decide (i = j)); [done|by rewrite app_nil_r].
  - intros l. rewrite Hls, Hx, elem_of_app.
    destruct (decide (i = loop_ctx l)) as [<-|Hne]; [rewrite lookup_insert_eq; by eexists|].
    rewrite lookup_insert_ne by done. intros [Hin|Hin]; [auto|].
    by destruct (drawn_loops i x ls l Hd Hin) as [<- _].
  - intros r. rewrite Hreg, Hx. intros (Hrun & y & Hy & Hne)%Hr. split; [done|].
    destruct (decide (i = reg_ctx r)) as [<-|Hir].
    + exists x. rewrite lookup_insert_eq. split; [done|]. by apply (drawn_started i x ls).
    + exists y. rewrite lookup_insert_ne by done. auto.
  - congruence.
Qed.

(** A chart that is being drawn stays in that state. *)
Lemma inv_busy (i : nat) (x y : context) (w w' : page) (p q : Z) :
  page_inv w -> local i x y w w' -> tpchart y = tpchart x ->
  firstPass x = Some p -> 1 <= p <= 4 -> firstPass y = Some q -> 1 <= q <= 4 -> page_inv w'.
Proof.
  intros [Hc Hl Hr Hdyn] [B A P L R C G] Ht Hp Hpr Hq Hqr. split.
  - intros j z. rewrite A. destruct (decide (i = j)) as [<-|Hne].
    + rewrite lookup_insert_eq. intros [= <-]. apply (state_ext w w' i y L C).
      destruct (Hc i x B) as [Hf|Htx Hco Hd]; [by rewrite Hf in Hp|].
      apply active; [congruence|done|].
      destruct Hd as [Hd|p' l Hd Hpr' Hlo]; [rewrite Hd in Hp; injection Hp; lia|by apply (drawing i y q l)].
    + rewrite lookup_insert_ne by done. intros Hz. apply (state_ext w w' j z L C). auto.
  - intros l. rewrite L, A. intros Hin%Hl. destruct (decide (i = loop_ctx l)) as [<-|Hne];
      [rewrite lookup_insert_eq; by eexists|by rewrite lookup_insert_ne].
  - intros r. rewrite R, A. intros (Hrun & z & Hz & Hne)%Hr. split; [done|].
    destruct (decide (i = reg_ctx r)) as [<-|Hir]; [exists y; rewrite lookup_insert_eq; by rewrite Hq|].
    exists z. by rewrite lookup_insert_ne.
  - congruence.
Qed.

(** *** The events *)

(** [updateChart] *)
Lemma updateChart_inv (i : nat) (d : D) (c : config) (animation rc : bool) (w : page) (x : context) :
  page_inv w -> ctxs w !! i = Some x -> runs c ->
  exists w', updateChart old_IE dpr personal fits anim_fuel fuel i d c animation rc w = Ok w' /\ page_inv w' /\ calm w w'.
Proof.
  intros Hinv Hx Hc. unfold updateChart, get_ctx. rewrite Hx. cbn [res_bind].
  destruct (is_pass x [5]) eqn:H5; [|by exists w; split; [|split; [|apply calm_refl]]].
  unfold is_pass in H5. destruct (firstPass x) as [p|] eqn:Hp; [|done].
  cbn [existsb] in H5. rewrite orb_false_r in H5. apply Z.eqb_eq in H5 as ->.
  destruct (inv_ctx w Hinv i x Hx) as [Hf|Ht Hco Hd]; [by rewrite Hf in Hp|].
  assert (Hidle : loops_at i w = []).
  { inversion Hd as [|p' l Hp' Hr]; [done|]. rewrite Hp' in Hp. injection Hp. lia. }
  set (q := if animation then 0 else 7). set (y := set_firstPass q (set_runcomplete rc x)).
  set (w1 := upd_ctx i (fun x => set_firstPass q (set_runcomplete rc x)) w).
  assert (H1 : local i x y w w1).
  { by apply (local_upd i (fun x => set_firstPass q (set_runcomplete rc x))). }
  pose proof (inv_but_local i x y w w1 H1 (inv_but_intro i w Hinv Hidle)) as Hbut.
  set (reg := map (update_registered (ChartNewId x) d c (ctxs w1))).
  set (w2 := if truthy c.["responsive"] then with_registry reg w1 else w1).
  assert (Hbut2 : inv_but i w2).
  { destruct Hbut as [Bc Bi Bl Br Bd]. unfold w2. destruct (truthy c.["responsive"]); [|done].
    split; [intros j z Hj Hz; by apply (state_ext w1), Bc|done|done| |done].
    intros r Hr%list_elem_of_In. cbn [with_registry jsGraphResize] in Hr. apply in_map_iff in Hr as (r0 & <- & Hr0%list_elem_of_In).
    destruct (Br r0 Hr0) as (Hrun & z & Hz & Hne). unfold update_registered.
    destruct (bool_decide _); split; try done; by exists z. }
  assert (Hy : ctxs w2 !! i = Some y).
  { unfold w2. destruct (truthy c.["responsive"]); apply (local_get _ _ _ _ _ H1). }
  assert (Hm : measurable w2 y).
  { right. unfold w2. by destruct (truthy c.["responsive"]). }
  destruct (subUpdateChart_draws i d c w2 y (Some q) Hy Ht Hm Hc) as (w' & Hw & Hdr & Hcw).
  - done.
  - unfold q. destruct animation; auto.
  - exists w'. split; [exact Hw|]. split; [by apply (inv_but_draws i w2)|].
    apply (changes_calm i x); [|done|by rewrite Hp].
    apply (changes_trans i w w1); [by apply (changes_local i x y)|].
    apply (changes_trans i w1 w2), (changes_draws i); [|done].
    unfold w2. by destruct (truthy c.["responsive"]).
Qed.

(** The listener of the window's resize event. *)
Lemma resize_all_inv (n k : nat) (w : page) :
  page_inv w -> exists w', resize_all old_IE dpr personal fits anim_fuel fuel n k w = Ok w' /\ page_inv w' /\ calm w w'.
Proof.
  revert k w. induction n as [|n IH]; intros k w Hinv; cbn [resize_all]; [by exists w; split; [|split; [|apply calm_refl]]|].
  destruct (jsGraphResize w !! k) as [r|] eqn:Hk; [|by exists w; split; [|split; [|apply calm_refl]]].
  destruct (inv_registry w Hinv r (list_elem_of_lookup_2 _ _ _ Hk)) as (Hrun & x & Hx & Hne).
  set (i := reg_ctx r) in *. unfold get_ctx at 1. rewrite Hx. cbn [res_bind].
  destruct (inv_ctx w Hinv i x Hx) as [Hf|Ht Hco Hd]; [done|].
  assert (Hstep : exists w', subUpdateChart old_IE dpr redraw i (reg_data r) (reg_config r)
      (if is_pass x [5] then upd_ctx i (set_firstPass 6) w else w) = Ok w' /\ page_inv w' /\ calm w w').
  { inversion Hd as [Hp Hidle|p l Hp Hr Hlo Hls].
    - unfold is_pass. rewrite Hp. cbn [existsb Z.eqb Pos.eqb orb].
      pose proof (local_upd i (set_firstPass 6) x w Hx eq_refl) as H1.
      destruct (subUpdateChart_draws i (reg_data r) (reg_config r) _ (set_firstPass 6 x) (Some 6)
        (local_get _ _ _ _ _ H1) Ht) as (w' & Hw & Hdr & Hcw); [by right|done|done|auto|].
      exists w'. split; [exact Hw|]. split.
      2: { apply (changes_calm i x); [|done|done].
           by apply (changes_trans i _ _ _ (changes_local _ _ _ _ _ H1)), (changes_draws i). }
      apply (inv_but_draws i (upd_ctx i (set_firstPass 6) w)); [|done|done].
      apply (inv_but_local i x (set_firstPass 6 x) w); [done|]. by apply inv_but_intro.
    - assert (Hno : is_pass x [5] = false).
      { unfold is_pass. rewrite Hp. cbn [existsb]. rewrite orb_false_r. apply Z.eqb_neq. lia. }
      rewrite Hno. destruct (subUpdateChart_busy i (reg_data r) (reg_config r) w x p Hx Hp Hr Hrun) as (q & Hq & ->).
      eexists. split; [reflexivity|].
      pose proof (local_upd i (set_firstPass q) x w Hx eq_refl) as H1.
      split; [by apply (inv_busy i x (set_firstPass q x) w _ p q)|by apply (changes_calm i x); [apply (changes_local _ _ _ _ _ H1)|..]]. }
  destruct Hstep as (w1 & -> & Hinv1 & H01). cbn [res_bind].
  destruct (IH (S k) w1 Hinv1) as (w' & Hw & Hinv' & H1'). exists w'. split; [done|]. split; [done|].
  by apply (calm_trans w w1).
Qed.

(** A frame of a chart being drawn. *)
Lemma settle_draws (i : nat) (d : D) (c : config) (a : anim) (o : outcome) (w : page) (x : context) (p : Z) :
  ctxs w !! i = Some x -> tpchart x = Some T -> is_Some (container w) -> firstPass x = Some p -> 1 <= p <= 4 ->
  runs c -> easing_known c ->
  exists w', settle old_IE dpr redraw i d c a o w = Ok w' /\ draws i w w' /\ is_Some (container w').
Proof.
  intros Hx Ht Hco Hp Hr Hc He.
  assert (p = 1 \/ p = 3 \/ (p = 2 \/ p = 4)) as [H13|[H13|H24]] by lia.
  1,2: destruct (settle_local redraw i d c a o w x p Hx Ht Hp ltac:(tauto) Hc He) as (w' & Hw & Hd);
    exists w'; split; [done|]; split; [done|by apply Hd].
  unfold settle. destruct o.
  1,2: eexists; split; [reflexivity|]; split; [by apply (draws_pending i x w p)|done].
  unfold testRedraw, get_ctx at 1. rewrite Hx. cbn [res_bind].
  replace (is_pass x [2; 4; 9]) with true by (unfold is_pass; rewrite Hp; by destruct H24 as [-> | ->]).
  pose proof (local_upd i (set_firstPass 6) x w Hx eq_refl) as H1.
  destruct (subUpdateChart_draws i d c _ (set_firstPass 6 x) (Some 6)
        (local_get _ _ _ _ _ H1) Ht) as (w' & -> & Hdr & Hcw); [by right|done|done|auto|].
  cbn [res_bind]. pose proof (draws_local i x _ _ _ _ H1 Hdr) as Hd.
  destruct Hd as [(x0 & y & ls & Hx0 & Hy & Hrest) Hreg Hcon Hdyn]. unfold get_ctx. rewrite Hy, lookup_insert_eq.
  cbn [res_bind negb andb]. exists w'. split; [done|]. split; [|done]. split; [by exists x0, y, ls|done|done|done].
Qed.

(** A call is made: it is not pending any more. *)
Lemma loops_at_delete (k : nat) (l : pending_loop) (w : page) :
  loops w !! k = Some l ->
  (forall j, j <> loop_ctx l -> loops_at j (with_loops (delete k (loops w)) w) = loops_at j w) /\
  (forall l', loops_at (loop_ctx l) w = [l'] ->
    l' = l /\ loops_at (loop_ctx l) (with_loops (delete k (loops w)) w) = []).
Proof.
  intros Hk. unfold loops_at. cbn [with_loops loops]. rewrite delete_take_drop.
  pose proof (take_drop_middle _ _ _ Hk) as Hmid. split.
  - intros j Hj. rewrite <- Hmid at 3. by rewrite !filter_app, filter_cons_False by congruence.
  - intros l' Hat. rewrite <- Hmid in Hat. rewrite filter_app, filter_cons_True in Hat by done.
    rewrite filter_app. destruct (filter _ (take k (loops w))) as [|z zs]; cbn [app] in Hat |- *.
    + injection Hat as <- ->. done.
    + injection Hat as _ Hat. by destruct zs.
Qed.

Lemma animation_frame_inv (k : nat) (w : page) :
  page_inv w ->
  exists w', animation_frame old_IE dpr personal fits anim_fuel fuel k w = Ok w' /\ page_inv w' /\ calm w w'.
Proof.
  intros Hinv. unfold animation_frame. destruct (loops w !! k) as [l|] eqn:Hk; [|by exists w; split; [|split; [|apply calm_refl]]].
  destruct (inv_loops w Hinv l (list_elem_of_lookup_2 _ _ _ Hk)) as [x Hx].
  destruct (loops_at_delete k l w Hk) as [Hother Hown]. set (i := loop_ctx l) in *.
  set (w1 := with_loops (delete k (loops w)) w) in *.
  assert (Hin : l ∈ loops_at i w).
  { apply list_elem_of_filter. split; [done|]. by apply (list_elem_of_lookup_2 _ k). }
  destruct (inv_ctx w Hinv i x Hx) as [_ Hi|Ht Hco Hd]; [rewrite Hi in Hin; by apply elem_of_nil in Hin|].
  inversion Hd as [_ Hi|p l' Hp Hr (_ & Hrun & He) Hi]; [rewrite <- Hi in Hin; by apply elem_of_nil in Hin|].
  destruct (Hown l' (eq_sym Hi)) as [-> Hidle].
  assert (Hbut : inv_but i w1).
  { destruct Hinv as [Hc Hl Hreg Hdyn]. split.
    - intros j z Hj Hz. destruct (Hc j z Hz) as [Hf Hj'|Htz Hcz Hdz];
        [apply fresh|apply active]; try done; by rewrite (Hother j Hj).
    - done.
    - intros l1 Hl1. apply Hl. eapply elem_of_submseteq; [exact Hl1|]. apply sublist_submseteq, sublist_delete.
    - intros r (Hrr & z & Hz & Hnz)%Hreg. split; [done|]. by exists z.
    - done. }
  destruct (run_frame_settles redraw i (loop_data l) (loop_config l) (loop_anim l) w1 x Hx He)
    as (a' & o & ->).
  destruct (settle_draws i (loop_data l) (loop_config l) a' o w1 x p Hx Ht Hco Hp Hr Hrun He)
    as (w' & Hw & Hdr & Hcw).
  exists w'. split; [exact Hw|]. split; [by apply (inv_but_draws i w1)|]. 
  destruct (changes_draws i w1 w' Hdr) as [Hs Ho]. apply (changes_calm i x); [by split|done|by rewrite Hp].
Qed.

(** A chart that fills a part of the page that follows the window's size. *)
Definition responsive (c : config) : Prop :=
  truthy (merged c).["responsive"] = true /\ truthy (merged c).["multiGraph"] = false.

Lemma addResponsiveChart_local (i : nat) (id : string) (d : D) (c : config) (w : page) (x : context) :
  ctxs w !! i = Some x -> measurable w x ->
  exists r w1 y, addResponsiveChart dpr i id d c w = Ok (with_registry (fun l => (l ++ [r])%list) w1) /\
    reg_ctx r = i /\ reg_config r = c /\ local i x y w w1 /\ is_Some (container w1) /\
    firstPass y = firstPass x /\ tpchart y = tpchart x.
Proof.
  intros Hx Hm. unfold addResponsiveChart.
  assert (H1 : local i x x w (with_listener w)) by (by apply local_other).
  destruct (resize_graph_local i c (with_listener w) x Hx Hm) as (nw & nh & w2 & y & -> & H2 & Ey & Ety & _ & Hco).
  cbn [res_bind]. unfold get_ctx. rewrite (local_get _ _ _ _ _ H2). cbn [res_bind].
  pose proof (local_trans i x x y _ _ _ H1 H2) as H3. set (w3 := match prevWidth y with Some _ => _ | None => _ end).
  assert (Hw3 : exists z, local i y z w2 w3 /\ firstPass z = firstPass y /\ tpchart z = tpchart y).
  { destruct (resizeCtx_fields c nw nh y) as (E1 & E2 & E3). unfold w3. pose proof (local_get _ _ _ _ _ H2).
    destruct (prevWidth y); [eexists; split; [by apply local_upd|done]|].
    destruct (_ && _); eexists; (split; [by first [apply local_upd|apply local_refl]|done]). }
  destruct Hw3 as (z & H4 & Ez & Etz).
  pose proof (local_upd i (set_prev_size nw nh) z w3 (local_get _ _ _ _ _ H4) eq_refl) as H5.
  pose proof (local_trans i x y z _ _ _ H3 H4) as H6. pose proof (local_trans i x z _ _ _ _ H6 H5) as H7.
  eexists _, (upd_ctx i (set_prev_size nw nh) w3), (set_prev_size nw nh z).
  split; [reflexivity|]. split; [done|]. split; [done|]. split; [done|].
  split; [by apply H5, H4|]. cbn [firstPass tpchart set_prev_size]. by rewrite Ez, Etz.
Qed.

(** The registration of a chart that is about to be drawn. *)
Lemma inv_but_register (i : nat) (r : registered) (w : page) (x : context) :
  inv_but i w -> ctxs w !! i = Some x -> reg_ctx r = i -> runs (reg_config r) ->
  inv_but i (with_registry (fun l => (l ++ [r])%list) w).
Proof.
  intros [Hc Hi Hl Hreg Hdyn] Hx Hr Hrun. split; [intros j y Hj Hy; by apply (state_ext w), Hc|done|done| |done].
  cbn [with_registry jsGraphResize]. intros r' [Hr'|Hr'%list_elem_of_singleton]%elem_of_app; [by apply Hreg|].
  subst r'. split; [done|]. exists x. by rewrite Hr.
Qed.

(** [new Chart(ctx)] and a chart function, on a new canvas. *)
Lemma chart_draw_inv (i : nat) (d : D) (c : config) (w : page) (x : context) :
  page_inv w -> ctxs w !! i = Some x -> firstPass x = None -> measurable w x -> runs c -> responsive c ->
  exists w', chart_draw old_IE dpr personal fits anim_fuel fuel T i d (Some c) w = Ok w' /\ page_inv w' /\
    changes i w w'.
Proof.
  intros Hinv Hx Hp Hm Hc [Hresp Hmg]. unfold chart_draw, get_ctx at 1. rewrite Hx. cbn [res_bind].
  assert (Hidle : loops_at i w = []).
  { destruct (inv_ctx w Hinv i x Hx) as [|_ _ Hd%drawn_started]; done. }
  pose proof (inv_but_intro i w Hinv Hidle) as Hbut.
  unfold draw_chart. fold (merged c). destruct (new_Chart_fields x) as (E1 & E2 & E3).
  pose proof (local_upd i (new_Chart dpr) x w Hx E1) as L1. set (x1 := new_Chart dpr x) in *.
  set (f2 := fun y => set_identity (Some T) (ChartNewId y) (canvas_id y) y).
  pose proof (local_upd i f2 x1 _ (local_get _ _ _ _ _ L1) eq_refl) as L2.
  pose proof (local_trans i x x1 (f2 x1) _ _ _ L1 L2) as L3. set (w2 := upd_ctx i f2 _) in *.
  unfold init_and_start. destruct (init_context_fields (merged c) (clock w2) (f2 x1)) as (F1 & F2 & F3).
  pose proof (local_upd i (init_context (merged c) (clock w2)) (f2 x1) w2 (local_get _ _ _ _ _ L3) F1) as L4.
  pose proof (local_trans i x (f2 x1) _ _ _ _ L3 L4) as L5. set (y := init_context _ _ (f2 x1)) in *.
  set (w3 := upd_ctx i (init_context _ _) w2) in *.
  unfold get_ctx at 1. rewrite (local_get _ _ _ _ _ L5). cbn [res_bind].
  rewrite dynamicFunction_plain by apply Hc. cbn [res_bind negb]. rewrite Hresp, Hmg.
  assert (Hy : firstPass y = None) by (rewrite F2; by rewrite <- Hp, <- E2).
  rewrite Hy. cbn [bool_decide andb negb]. rewrite bool_decide_eq_true_2 by done. cbn [andb].
  destruct (addResponsiveChart_local i (default "" (ChartNewId y)) d (merged c) w3 y)
    as (r & w4 & z & -> & Hr & Hrc & L6 & Hco & Ez & Etz);
    [by apply (local_get _ _ _ _ _ L5)|by apply (measurable_local i x y w)|].
  cbn [res_bind]. pose proof (local_trans i x y z _ _ _ L5 L6) as L7.
  pose proof (inv_but_local i x z w w4 L7 Hbut) as Hb4. pose proof (runs_merged c Hc) as Hmc.
  pose proof (inv_but_register i r w4 z Hb4 (local_get _ _ _ _ _ L7) Hr ltac:(by rewrite Hrc)) as Hb5.
  set (w5 := with_registry _ w4) in *.
  destruct (subUpdateChart_draws i d (merged c) w5 z None) as (w' & -> & Hd & Hcw);
    [by apply (local_get _ _ _ _ _ L7)|by rewrite Etz, F3|by right|done|by rewrite Ez|by left|].
  cbn [res_bind negb]. exists w'. split; [done|]. split; [by apply (inv_but_draws i w5)|].
  apply (changes_trans i w w4 w' (changes_local _ _ _ _ _ L7)). by destruct (changes_draws i w5 w' Hd) as [Hs Ho]; split.
Qed.

(** *** Events *)

(** The events of a page: a chart is drawn on a new canvas, a chart is updated,
    the window changes its size, a pending frame is due, canvases enter and
    leave the document, elements move, the window is scrolled, time passes. *)
Inductive event : Type :=
| DrawChart (i : nat) (d : D) (c : config)
| UpdateChart (i : nat) (d : D) (c : config) (animation runcomplete : bool)
| ResizeWindow (sizes : nat -> num * num)
| Frame (k : nat)
| NewCanvas (i : nat) (id : string) (width height : num) (par : option nat)
| RemoveCanvas (i : nat)
| Reflow (bs : nat -> list dom_box) (v : view)
| ScrollWindow (bs : nat -> list dom_box) (v : view)
| Tick (ms : Z).

Definition at_time (ms : Z) (w : page) : page := {|
  ctxs := ctxs w; jsGraphResize := jsGraphResize w; dynamicDisplay := dynamicDisplay w;
  dynamicDisplayList := dynamicDisplayList w; jsGraphAnnotate := jsGraphAnnotate w;
  container := container w; node_size := node_size w; resize_listener := resize_listener w;
  loops := loops w; clock := ms; boxes := boxes w; viewport := viewport w |}.

Definition handle (e : event) (w : page) : res page :=
  match e with
  | DrawChart i d c => chart_draw old_IE dpr personal fits anim_fuel fuel T i d (Some c) w
  | UpdateChart i d c a r => updateChart old_IE dpr personal fits anim_fuel fuel i d c a r w
  | ResizeWindow sizes => window_resize old_IE dpr personal fits anim_fuel fuel sizes w
  | Frame k => animation_frame old_IE dpr personal fits anim_fuel fuel k w
  | NewCanvas i id width height par =>
      Ok (with_ctxs (fun m => <[i := fresh_context id width height par]> m) w)
  | RemoveCanvas i => Ok (upd_ctx i (set_parent None) w)
  | Reflow bs v => Ok (reflow bs v w)
  | ScrollWindow bs v => window_scroll old_IE dpr personal fits anim_fuel fuel bs v w
  | Tick ms => Ok (at_time ms w)
  end.

(** What the page may do: draw responsive charts on new canvases that are in the
    document, with configurations that run; every other event may happen at any time. *)
Inductive allowed (w : page) : event -> Prop :=
| may_draw i d c x : ctxs w !! i = Some x -> firstPass x = None -> measurable w x -> runs c -> responsive c ->
    allowed w (DrawChart i d c)
| may_update i d c a r : is_Some (ctxs w !! i) -> runs c -> allowed w (UpdateChart i d c a r)
| may_resize sizes : allowed w (ResizeWindow sizes)
| may_frame k : allowed w (Frame k)
| may_create i id width height par : ctxs w !! i = None ->
    allowed w (NewCanvas i id width height par)
| may_remove i : allowed w (RemoveCanvas i)
| may_reflow bs v : allowed w (Reflow bs v)
| may_scroll bs v : allowed w (ScrollWindow bs v)
| may_tick ms : allowed w (Tick ms).

Lemma new_canvas_inv (i : nat) (x : context) (w : page) :
  page_inv w -> ctxs w !! i = None -> firstPass x = None -> page_inv (with_ctxs (fun m => <[i := x]> m) w).
Proof.
  intros [Hc Hl Hr Hdyn] Hi Hx. split; cbn [with_ctxs ctxs loops jsGraphResize].
  - intros j y. destruct (decide (i = j)) as [<-|Hne].
    + rewrite lookup_insert_eq. intros [= <-]. apply fresh; [done|]. unfold loops_at. cbn [with_ctxs loops].
      destruct (filter _ (loops w)) as [|l ls] eqn:Hf; [done|].
      assert (Hin : l ∈ filter (fun l => loop_ctx l = i) (loops w)) by (rewrite Hf; apply list_elem_of_here).
      apply list_elem_of_filter in Hin as [<- Hin]. destruct (Hl l Hin) as [y Hy]. by rewrite Hy in Hi.
    + rewrite lookup_insert_ne by done. intros Hy. by apply (state_ext w), Hc.
  - intros l Hin%Hl. destruct (decide (i = loop_ctx l)) as [->|]; [by rewrite lookup_insert_eq|by rewrite lookup_insert_ne].
  - intros r (Hrun & y & Hy & Hne)%Hr. split; [done|]. exists y. rewrite lookup_insert_ne; [done|]. by intros ->; rewrite Hi in Hy.
  - done.
Qed.

Lemma remove_canvas_inv (i : nat) (w : page) : page_inv w -> page_inv (upd_ctx i (set_parent None) w).
Proof.
  intros [Hc Hl Hr Hdyn].
  assert (Hat : forall j, ctxs (upd_ctx i (set_parent None) w) !! j =
      (fun x => if decide (i = j) then set_parent None x else x) <$> ctxs w !! j).
  { intros j. cbn. destruct (decide (i = j)) as [<-|Hne]; [by rewrite lookup_alter_eq|].
    rewrite lookup_alter_ne by done. by destruct (ctxs w !! j). }
  split.
  - intros j y. rewrite Hat. intros (x & Hx & ->)%fmap_Some. destruct (Hc j x Hx) as [Hf Hj|Ht Hco Hd].
    + apply fresh; [by destruct (decide (i = j))|done].
    + apply active; [by destruct (decide (i = j))|done|].
      change (loops_at j (upd_ctx i (set_parent None) w)) with (loops_at j w).
      destruct Hd as [Hp|p l Hp Hb Hlo]; [apply displayed|apply (drawing j _ p)]; try done; by destruct (decide (i = j)).
  - intros l Hin. cbn [upd_ctx with_ctxs loops] in Hin. rewrite Hat, fmap_is_Some. auto.
  - intros r (Hrun & x & Hx & Hne)%Hr. split; [done|]. eexists. rewrite Hat, Hx. split; [reflexivity|].
    by destruct (decide (i = reg_ctx r)).
  - done.
Qed.

Lemma resize_inv (sizes : nat -> num * num) (w : page) :
  page_inv w -> exists w', window_resize old_IE dpr personal fits anim_fuel fuel sizes w = Ok w' /\ page_inv w' /\ calm w w'.
Proof.
  intros [Hc Hl Hr Hdyn]. unfold window_resize. set (w1 := {| ctxs := _ |}).
  assert (H1 : page_inv w1) by (split; [intros j y Hy; by apply (state_ext w), Hc|done|done|done]).
  destruct (resize_listener w1); [|by exists w1].
  destruct (resize_all_inv (length (jsGraphResize w1)) 0 w1 H1) as (w' & Hw & Hinv & Hs). exists w'. destruct Hs as [Hs Hf]. by split; [|split].
Qed.

Lemma at_time_inv (ms : Z) (w : page) : page_inv w -> page_inv (at_time ms w).
Proof. intros [Hc Hl Hr Hdyn]. split; [intros j y Hy; by apply (state_ext w), Hc|done|done|done]. Qed.

Lemma reflow_inv (bs : nat -> list dom_box) (v : view) (w : page) : page_inv w -> page_inv (reflow bs v w).
Proof. intros [Hc Hl Hr Hdyn]. split; [intros j y Hy; by apply (state_ext w), Hc|done|done|done]. Qed.

(** Without dynamic charts there is nothing to be displayed by scrolling. *)
Lemma scroll_idle (bs : nat -> list dom_box) (v : view) (w : page) : page_inv w ->
  window_scroll old_IE dpr personal fits anim_fuel fuel bs v w = Ok (reflow bs v w).
Proof. intros Hinv. unfold window_scroll. by rewrite (inv_dynamic _ Hinv). Qed.

Lemma handle_inv (e : event) (w : page) :
  page_inv w -> allowed w e -> exists w', handle e w = Ok w' /\ page_inv w'.
Proof.
  intros Hinv [i d c x Hx Hp Hm Hc Hr|i d c a r [x Hx] Hc|sizes|k|i id wd ht par Hi|i|bs v|bs v|ms]; cbn [handle].
  - destruct (chart_draw_inv i d c w x) as (w' & ? & ? & _); eauto.
  - destruct (updateChart_inv i d c a r w x) as (w' & ? & ? & _); eauto.
  - destruct (resize_inv sizes w) as (w' & ? & ? & _); eauto.
  - destruct (animation_frame_inv k w) as (w' & ? & ? & _); eauto.
  - eexists. split; [reflexivity|]. by apply new_canvas_inv.
  - eexists. split; [reflexivity|]. by apply remove_canvas_inv.
  - eexists. split; [reflexivity|]. by apply reflow_inv.
  - eexists. split; [by apply scroll_idle|]. by apply reflow_inv.
  - eexists. split; [reflexivity|]. by apply at_time_inv.
Qed.

(** A page without canvases. *)
Definition new_page (sizes : nat -> num * num) (ms : Z) : page := {|
  ctxs := ∅; jsGraphResize := []; dynamicDisplay := ∅; dynamicDisplayList := []; jsGraphAnnotate := ∅;
  container := None; node_size := sizes; resize_listener := false; loops := []; clock := ms;
  boxes := fun _ => []; viewport := {| pageXOffset := n0; pageYOffset := n0; view_width := n0; view_height := n0 |} |}.

(** The worlds a page goes through. *)
Inductive step : page -> page -> Prop :=
| step_event e w w' : allowed w e -> handle e w = Ok w' -> step w w'.

Lemma new_page_inv (sizes : nat -> num * num) (ms : Z) : page_inv (new_page sizes ms).
Proof.
  split; cbn; [intros i x Hx; by rewrite lookup_empty in Hx|by intros l ?%elem_of_nil|by intros r ?%elem_of_nil|done].
Qed.

Lemma reachable_inv (sizes : nat -> num * num) (ms : Z) (w : page) : rtc step (new_page sizes ms) w -> page_inv w.
Proof.
  pose proof (new_page_inv sizes ms) as H0.
  generalize dependent (new_page sizes ms). intros w0 H0 Hstep.
  induction Hstep as [|w1 w2 w3 [e w1' w2' Ha He] _ IH]; [done|]. apply IH.
  destruct (handle_inv e w1' H0 Ha) as (w4 & Hw4 & Hinv). congruence.
Qed.



End Lifecycle.

(** ** A page with one chart *)

(** A responsive chart that is animated in its own two frames. *)
Definition sample_config : config := of_fields [("responsive", VBool true); ("animationSteps", VInt 2)]%string.

Abbreviation sample_runs := (@runs sample_math false no_personal_options 0%nat Line).
Abbreviation sample_handle :=
  (@handle sample_math unit false None no_personal_options (fun _ _ _ _ => true) 0%nat 1%nat Line).
Abbreviation sample_step :=
  (@step sample_math unit false None no_personal_options (fun _ _ _ _ => true) 0%nat 1%nat Line).

Lemma sample_config_runs : sample_runs sample_config /\ responsive no_personal_options Line sample_config.
Proof.
  split; [|by split; vm_compute]. apply runs_intro; [vm_compute; reflexivity..|].
  replace (to_str _) with "easeOutQuart"%string by (vm_compute; reflexivity). by eexists.
Qed.

Definition sample_sizes (n : nat) : num * num := (of_Z 450, of_Z 350).

(** A page with a canvas, and the same page after a chart was drawn on it. *)
Definition canvas_page : world (D := unit) :=
  with_ctxs (fun m => <[0%nat := fresh_context "chart" (of_Z 450) (of_Z 350) (Some 0%nat)]> m)
    (new_page sample_sizes 0).

Definition chart_page : world (D := unit) :=
  ok_or canvas_page (sample_handle (DrawChart 0 tt sample_config) canvas_page).

Lemma canvas_page_step : sample_step (new_page sample_sizes 0) canvas_page.
Proof. by apply (step_event _ _ _ _ _ _ _ (NewCanvas 0 "chart" (of_Z 450) (of_Z 350) (Some 0%nat))); [apply may_create|]. Qed.

Lemma draw_allowed : allowed (D:=unit) (H:=sample_math) false no_personal_options 0%nat Line canvas_page (DrawChart 0 tt sample_config).
Proof.
  apply (may_draw _ _ _ _ _ _ _ _ (fresh_context "chart" (of_Z 450) (of_Z 350) (Some 0%nat))).
  - reflexivity.
  - reflexivity.
  - by left.
  - apply sample_config_runs.
  - apply sample_config_runs.
Qed.

Lemma chart_page_step : sample_step canvas_page chart_page.
Proof.
  apply (step_event _ _ _ _ _ _ _ (DrawChart 0 tt sample_config)); [apply draw_allowed|].
  assert (Hinv : page_inv (H := sample_math) false no_personal_options 0 Line canvas_page).
  { apply (new_canvas_inv _ _ _ _ 0%nat); [|reflexivity|reflexivity].
    apply (reachable_inv (H := sample_math) false None no_personal_options (fun _ _ _ _ => true) 0 1 Line (Nat.lt_0_succ 0) sample_sizes 0).
    apply rtc_refl. }
  destruct (handle_inv (H := sample_math) false None no_personal_options (fun _ _ _ _ => true) 0 1 Line ltac:(lia) _ _ Hinv draw_allowed)
    as (w' & Hw & _).
  unfold chart_page. by rewrite Hw.
Qed.

Lemma chart_page_reachable : rtc sample_step (new_page sample_sizes 0) chart_page.
Proof. eapply rtc_l; [apply canvas_page_step|]. apply rtc_once, chart_page_step. Qed.


