(* ===== verification/DynamicDisplay.v ===== *)
(** * Charts that wait to be seen (ChartNew.js)

    With the option [dynamicDisplay] a chart is not drawn before the middle of its
    canvas is in the window: [dynamicFunction] and [scrollFunction] over the events
    of a page, for charts that are not responsive, on screens without a pixel ratio. *)

From stdpp Require Import base list strings gmap.
From Stdlib Require Import ZArith Lia SpecFloat.
From S2P Require Import Prelude Num Value Options OptionValue Scale Easing Animation Redraw Lifecycle.

Open Scope string_scope.
Open Scope list_scope.
Open Scope Z_scope.

(** ** The world with one context or one entry changed *)

Section Worlds.

Context {D : Type}.
Abbreviation page := (world (D := D)).

Definition at_ctx (i : nat) (x : context) (w : page) : page := with_ctxs (fun m => <[i := x]> m) w.
Definition at_entry (k : string) (e : dynamic) (w : page) : page :=
  with_dynamic (dynamicDisplayList w) (<[k := e]> (dynamicDisplay w)) w.

Lemma upd_ctx_at (i : nat) (f : context -> context) (x : context) (w : page) : ctxs w !! i = Some x ->
  upd_ctx i f w = at_ctx i (f x) w.
Proof.
  intros Hx. unfold upd_ctx, at_ctx, with_ctxs. f_equal. apply map_eq. intros j.
  destruct (decide (i = j)) as [<-|Hne]; [by rewrite lookup_alter_eq, lookup_insert_eq, Hx|].
  by rewrite lookup_alter_ne, lookup_insert_ne.
Qed.

Lemma upd_ctx_twice (i : nat) (f : context -> context) (x : context) (w : page) :
  upd_ctx i f (at_ctx i x w) = at_ctx i (f x) w.
Proof.
  rewrite (upd_ctx_at i f x) by apply lookup_insert_eq. unfold at_ctx, with_ctxs. cbn. f_equal. apply insert_insert_eq.
Qed.

Lemma get_ctx_at (i : nat) (x : context) (w : page) : get_ctx (at_ctx i x w) i = Ok x.
Proof. unfold get_ctx. cbn. by rewrite lookup_insert_eq. Qed.

Lemma upd_dynamic_at (k : string) (f : dynamic -> dynamic) (e : dynamic) (w : page) : dynamicDisplay w !! k = Some e ->
  upd_dynamic k f w = at_entry k (f e) w.
Proof.
  intros He. unfold upd_dynamic, at_entry, with_dynamic. f_equal. apply map_eq. intros j.
  destruct (decide (k = j)) as [<-|Hne]; [by rewrite lookup_alter_eq, lookup_insert_eq, He|].
  by rewrite lookup_alter_ne, lookup_insert_ne.
Qed.

Lemma upd_dynamic_twice (k : string) (f : dynamic -> dynamic) (e : dynamic) (w : page) :
  upd_dynamic k f (at_entry k e w) = at_entry k (f e) w.
Proof.
  rewrite (upd_dynamic_at k f e) by apply lookup_insert_eq. unfold at_entry, with_dynamic. cbn. f_equal. apply insert_insert_eq.
Qed.

Lemma entry_at (k : string) (e : dynamic) (w : page) : dynamicDisplay (at_entry k e w) !! k = Some e.
Proof. apply lookup_insert_eq. Qed.

End Worlds.

Section DynamicCharts.

Context `{MathLib} {D : Type}.
Context (dpr : option num) (personal : personal_options).
Context (fits : chart_type -> context -> D -> config -> bool).
Context (anim_fuel fuel : nat).
Hypothesis plain_screen : pixel_ratio dpr = None.

Abbreviation page := (world (D := D)).
Abbreviation draw := (chart_draw false dpr personal fits anim_fuel (S fuel)).
Abbreviation scroll := (scrollFunction false dpr personal fits anim_fuel (S fuel)).

(** A chart that waits to be seen, and the animation it is drawn with. *)
Record waits (T : chart_type) (c : config) (d : D) : Prop := {
  waits_dynamic : truthy (merged personal T c).["dynamicDisplay"] = true;
  waits_alone : truthy (merged personal T c).["responsive"] = false;
  waits_fits : forall x, fits T x d (merged personal T c) = true;
  waits_prepared : exists c' a, prepare_config false (merged personal T c) = Ok c' /\ start_animation anim_fuel c' = Ok a /\
    truthy c'.["clearRect"] = true
}.

Lemma waits_intro (T : chart_type) (c : config) (d : D) (mc : config) : merged personal T c = mc ->
  (mc.["animationStartValue"], mc.["animationStopValue"], truthy mc.["clearRect"], truthy mc.["dynamicDisplay"],
   truthy mc.["responsive"]) = (VInt 0, VInt 1, true, true, false) ->
  (forall x, fits T x d mc = true) -> waits T c d.
Proof.
  intros <- [= Hstart Hstop Hclear Hdyn Halone] Hfits. split; try done. exists (merged personal T c).
  unfold prepare_config, start_animation. rewrite Hstart, Hstop. cbn [res_bind].
  change (to_num (VInt 0) > n0)%num with false. rewrite andb_false_r. cbn [andb res_bind].
  eexists. split; [reflexivity|]. by split.
Qed.

(** A context that only was drawn on: same canvas. *)
Record same_place (x y : context) : Prop := {
  same_id : canvas_id y = canvas_id x;
  same_width : canvas_width y = canvas_width x;
  same_height : canvas_height y = canvas_height x
}.

Lemma same_place_seen (x y : context) (bs : list dom_box) (v : view) : same_place x y ->
  isScrolledIntoView bs y v = isScrolledIntoView bs x v.
Proof. intros [_ Hw Hh]. unfold isScrolledIntoView. by rewrite Hw, Hh. Qed.

Lemma init_context_place (c : config) (now : Z) (x : context) :
  same_place x (init_context c now x) /\ tpchart (init_context c now x) = tpchart x /\
  is_Some (ChartNewId (init_context c now x)).
Proof.
  unfold init_context. destruct (initialWidth x); cbn [ChartNewId set_scales set_initialWidth]; destruct (ChartNewId x) eqn:Hid; cbn;
    by rewrite ?Hid; repeat split; eexists.
Qed.

(** ** Drawing *)

(** What [dynamicFunction] leaves for the entry of a canvas. *)
Definition noted (i : nat) (d : D) (c : config) (seen : bool) (o : option dynamic) : dynamic :=
  match o with
  | Some e => if dyn_shown e then e
              else {| dyn_ctx := dyn_ctx e; dyn_seen := seen; dyn_shown := seen; dyn_data := dyn_data e; dyn_config := dyn_config e |}
  | None => {| dyn_ctx := i; dyn_seen := seen; dyn_shown := seen; dyn_data := d; dyn_config := c |}
  end.

Definition listed (k : string) (w : page) : list string :=
  match dynamicDisplay w !! k with Some _ => dynamicDisplayList w | None => dynamicDisplayList w ++ [k] end.

Lemma dynamicFunction_notes (i : nat) (d : D) (c : config) (w : page) (x : context) :
  truthy c.["dynamicDisplay"] = true -> ctxs w !! i = Some x -> canvas_id x <> "" ->
  (forall e, dynamicDisplay w !! canvas_id x = Some e -> dyn_shown e = false) ->
  let seen := isScrolledIntoView (boxes w i) x (viewport w) in
  dynamicFunction false i d c w =
    Ok (seen, with_dynamic (listed (canvas_id x) w)
                (<[canvas_id x := noted i d c seen (dynamicDisplay w !! canvas_id x)]> (dynamicDisplay w))
                (at_ctx i (set_identity (tpchart x) (ChartNewId x) (canvas_id x) x) w)).
Proof.
  intros Hdyn Hx Hid Hshown seen. unfold dynamicFunction. rewrite Hdyn. cbn [negb]. unfold get_ctx. rewrite Hx. cbn [res_bind].
  assert (Hne : String.eqb (canvas_id x) "" = false) by by apply String.eqb_neq. rewrite Hne.
  rewrite (upd_ctx_at i _ x w Hx). set (w1 := at_ctx i _ w). change (isScrolledIntoView (boxes w1 i) x (viewport w1)) with seen.
  clearbody seen. change (dynamicDisplay w1) with (dynamicDisplay w).
  unfold listed. destruct (dynamicDisplay w !! canvas_id x) as [e|] eqn:He.
  - pose proof (Hshown e eq_refl) as Hs. cbn [noted]. rewrite Hs. rewrite (upd_dynamic_at _ _ e w1 He), entry_at. cbn [dyn_seen dyn_shown].
    rewrite Hs. destruct seen; cbn [negb andb]; [|done]. by rewrite upd_dynamic_twice.
  - cbn [dynamicDisplay with_dynamic]. rewrite lookup_insert_eq. cbn [dyn_seen dyn_shown noted].
    destruct seen; cbn [negb andb]; [|done]. unfold upd_dynamic. cbn [dynamicDisplay dynamicDisplayList with_dynamic].
    by rewrite alter_insert_eq.
Qed.

(** What drawing the chart of context [i] does. *)
Record drawn_if_seen (T : chart_type) (i : nat) (d : D) (c : config) (x : context) (w w' : page) : Prop := {
  if_seen_ctx : exists y, ctxs w' = <[i := y]> (ctxs w) /\ same_place x y /\ tpchart y = Some T;
  if_seen_entry : dynamicDisplay w' = <[canvas_id x := noted i d c (isScrolledIntoView (boxes w i) x (viewport w))
                                          (dynamicDisplay w !! canvas_id x)]> (dynamicDisplay w);
  if_seen_list : dynamicDisplayList w' = listed (canvas_id x) w;
  if_seen_boxes : boxes w' = boxes w;
  if_seen_viewport : viewport w' = viewport w;
  if_seen_loops : map loop_ctx (loops w') =
    map loop_ctx (loops w) ++ (if isScrolledIntoView (boxes w i) x (viewport w) then [i] else [])
}.

Lemma clear_annotations_fields (c : config) (id : string) (w : page) : exists m, clear_annotations c id w = with_annotate m w.
Proof.
  unfold clear_annotations. destruct (jsGraphAnnotate w !! id); [destruct (negb _)|]; try by eexists.
  exists (jsGraphAnnotate w). by destruct w.
Qed.

Lemma draw_if_seen (redraw : nat -> D -> config -> page -> res page) (T : chart_type) (i : nat) (d : D) (c : config)
    (w : page) (x : context) :
  waits T c d -> ctxs w !! i = Some x -> canvas_id x <> "" ->
  (forall e, dynamicDisplay w !! canvas_id x = Some e -> dyn_shown e = false) ->
  exists w', draw_chart false dpr personal fits redraw anim_fuel T i d (Some c) w = Ok w' /\
    drawn_if_seen T i d (merged personal T c) x w w'.
Proof.
  intros [Hdyn Halone Hfits (c' & a & Hprep & Hstart & Hclear)] Hx Hid Hshown.
  unfold draw_chart. fold (merged personal T c). set (mc := merged personal T c) in *.
  rewrite (upd_ctx_at i _ x w Hx). set (x1 := set_identity (Some T) (ChartNewId x) (canvas_id x) x).
  unfold init_and_start. rewrite upd_ctx_twice, get_ctx_at. cbn [res_bind]. rewrite Halone. cbn [andb].
  change (clock (at_ctx i x1 w)) with (clock w).
  destruct (init_context_place mc (clock w) x1) as (Hplace & Htype & _). set (x2 := init_context mc (clock w) x1) in *.
  assert (Hid2 : canvas_id x2 = canvas_id x) by apply (same_id _ _ Hplace).
  assert (Hseen : forall bs v, isScrolledIntoView bs x2 v = isScrolledIntoView bs x v)
    by (intros bs v; exact (same_place_seen x1 x2 bs v Hplace)).
  rewrite (dynamicFunction_notes i d mc (at_ctx i x2 w) x2 Hdyn);
    [|apply lookup_insert_eq|by rewrite Hid2|by rewrite Hid2].
  cbn [res_bind]. rewrite Hseen, Hid2, Htype. change (boxes (at_ctx i x2 w)) with (boxes w).
  change (viewport (at_ctx i x2 w)) with (viewport w). set (seen := isScrolledIntoView (boxes w i) x (viewport w)).
  set (y := set_identity (tpchart x1) (ChartNewId x2) (canvas_id x) x2).
  assert (Hy : same_place x y) by (by split; cbn; rewrite ?(same_width _ _ Hplace), ?(same_height _ _ Hplace)).
  unfold at_ctx at 5. set (w3 := with_dynamic _ _ _).
  assert (Hw3 : ctxs w3 = <[i := y]> (ctxs w)) by (cbn; apply insert_insert_eq).
  destruct seen eqn:Hs; unfold seen in Hs; cbn [negb].
  - destruct (clear_annotations_fields mc (default ""%string (ChartNewId x2)) w3) as (m & ->). unfold get_ctx.
    cbn [res_bind negb with_annotate ctxs]. rewrite Hw3, lookup_insert_eq. cbn [res_bind]. rewrite Hfits.
    unfold animationLoop. rewrite Hprep. cbn [res_bind]. rewrite Hstart. cbn [res_bind]. rewrite Hclear.
    eexists. split; [reflexivity|]. split; try done; rewrite ?Hs; try done.
    + by exists y.
    + exact (map_app _ _ _).
  - exists w3. split; [done|]. split; try done; rewrite ?Hs, ?app_nil_r; try done. by exists y.
Qed.

(** ** Charts on a page *)

Record dyn_chart : Type := {
  dc_type : chart_type;
  dc_ctx : nat;
  dc_data : D;
  dc_config : config;
  dc_context : context       (** before it is drawn *)
}.

Definition dc_id (ch : dyn_chart) : string := canvas_id (dc_context ch).

(** Its canvas can be told from others, and it waits to be seen. *)
Definition well_made (ch : dyn_chart) : Prop := dc_id ch <> "" /\ waits (dc_type ch) (dc_config ch) (dc_data ch).

(** Where the elements and the window are. *)
Definition position : Type := (nat -> list dom_box) * view.

Definition sees (ch : dyn_chart) (p : position) : bool := isScrolledIntoView (p.1 (dc_ctx ch)) (dc_context ch) p.2.

(** How often the chart's animation was started (no frame is due yet). *)
Definition started (ch : dyn_chart) (w : page) : nat := length (filter (fun i => i = dc_ctx ch) (map loop_ctx (loops w))).

(** The chart was asked for, and [b] tells whether it was drawn. *)
Definition asked (ch : dyn_chart) (b : bool) (w : page) : Prop :=
  exists e x, dynamicDisplay w !! dc_id ch = Some e /\ ctxs w !! dc_ctx ch = Some x /\
    dyn_ctx e = dc_ctx ch /\ dyn_shown e = b /\ dyn_data e = dc_data ch /\ dyn_config e = merged personal (dc_type ch) (dc_config ch) /\
    same_place (dc_context ch) x /\ tpchart x = Some (dc_type ch) /\ started ch w = if b then 1%nat else 0%nat.

Definition apart (ch ch' : dyn_chart) : Prop := dc_id ch' <> dc_id ch /\ dc_ctx ch' <> dc_ctx ch.

Lemma started_more (ch : dyn_chart) (i : nat) (b : bool) (w w' : page) :
  map loop_ctx (loops w') = map loop_ctx (loops w) ++ (if b then [i] else []) ->
  started ch w' = (started ch w + if b && bool_decide (i = dc_ctx ch) then 1 else 0)%nat.
Proof.
  intros Hl. unfold started. rewrite Hl, filter_app, length_app. f_equal. destruct b; [|done]. cbn [andb].
  rewrite filter_cons. case_bool_decide as Hi; [by rewrite decide_True|by rewrite decide_False].
Qed.

(** Drawing one chart leaves the others alone. *)
Lemma drawn_elsewhere (ch : dyn_chart) (b : bool) (T : chart_type) (i : nat) (d : D) (c : config) (x : context) (w w' : page) :
  drawn_if_seen T i d c x w w' -> dc_ctx ch <> i -> dc_id ch <> canvas_id x -> asked ch b w -> asked ch b w'.
Proof.
  intros [(y & Hc & _) He _ _ _ Hl] Hi Hid (e & x' & H1 & H2 & H3 & H4 & H5 & H6 & H7 & H8 & H9).
  exists e, x'. rewrite He, Hc, !lookup_insert_ne by done. repeat (split; [done|]).
  rewrite (started_more ch i _ w w' Hl), H9. rewrite bool_decide_eq_false_2 by done. rewrite andb_false_r. lia.
Qed.

Lemma new_Chart_plain (x : context) : new_Chart dpr x = x.
Proof. unfold new_Chart. by rewrite plain_screen. Qed.

Lemma waits_merged (T : chart_type) (c : config) (d : D) : waits T c d -> waits T (merged personal T c) d.
Proof. intros [H1 H2 H3 H4]. split; by rewrite merged_idemp. Qed.

(** *** The first drawing *)

Definition unasked (ch : dyn_chart) (w : page) : Prop :=
  ctxs w !! dc_ctx ch = Some (dc_context ch) /\ dynamicDisplay w !! dc_id ch = None /\ started ch w = 0%nat.

Definition draw_dynamic (ch : dyn_chart) (w : page) : res page := draw (dc_type ch) (dc_ctx ch) (dc_data ch) (Some (dc_config ch)) w.

Lemma first_drawing (ch : dyn_chart) (w : page) : well_made ch -> unasked ch w ->
  exists w', draw_dynamic ch w = Ok w' /\ asked ch (sees ch (boxes w, viewport w)) w' /\
    dynamicDisplayList w' = dynamicDisplayList w ++ [dc_id ch] /\ boxes w' = boxes w /\ viewport w' = viewport w /\
    (forall ch' b, apart ch ch' -> asked ch' b w -> asked ch' b w') /\
    (forall ch', apart ch ch' -> unasked ch' w -> unasked ch' w').
Proof.
  intros [Hid Hwaits] (Hx & Hnone & Hstart). unfold draw_dynamic, chart_draw, get_ctx at 1. rewrite Hx. cbn [res_bind].
  rewrite (upd_ctx_at _ _ _ w Hx), new_Chart_plain. set (w1 := at_ctx (dc_ctx ch) (dc_context ch) w).
  assert (Hw1 : ctxs w1 = ctxs w) by (cbn; by apply insert_id).
  assert (Hx1 : ctxs w1 !! dc_ctx ch = Some (dc_context ch)) by by rewrite Hw1.
  destruct (draw_if_seen (redrawGraph false dpr personal fits anim_fuel (S fuel)) (dc_type ch) (dc_ctx ch) (dc_data ch) (dc_config ch)
    w1 (dc_context ch) Hwaits Hx1 Hid) as (w' & Hrun & Hd).
  { intros e. change (dynamicDisplay w !! dc_id ch = Some e -> dyn_shown e = false). by rewrite Hnone. }
  pose proof Hd as [(y & Hc & Hp & Ht) He Hlist Hb Hv Hl]. change (dynamicDisplay w1) with (dynamicDisplay w) in *.
  fold (dc_id ch) in *. rewrite Hnone in He.
  exists w'. split; [exact Hrun|]. split; [|split; [|split; [done|split; [done|split]]]].
  - exists (noted (dc_ctx ch) (dc_data ch) (merged personal (dc_type ch) (dc_config ch)) (sees ch (boxes w, viewport w)) None), y.
    rewrite He, Hc, !lookup_insert_eq. repeat (split; [done|]).
    rewrite (started_more ch (dc_ctx ch) _ w1 w' Hl), bool_decide_eq_true_2, andb_true_r by done.
    change (started ch w1) with (started ch w). by rewrite Hstart.
  - rewrite Hlist. unfold listed. fold (dc_id ch). change (dynamicDisplay w1) with (dynamicDisplay w). by rewrite Hnone.
  - intros ch' b [H1 H2] Ha. apply (drawn_elsewhere ch' b _ _ _ _ _ w1 w' Hd H2 H1).
    destruct Ha as (e & x' & Ha). exists e, x'. rewrite Hw1. exact Ha.
  - intros ch' [H1 H2] (Hx' & Hn' & Hs'). unfold unasked. rewrite He, Hc, !lookup_insert_ne, Hw1 by done. split; [done|]. split; [done|].
    rewrite (started_more ch' (dc_ctx ch) _ w1 w' Hl), bool_decide_eq_false_2, andb_false_r by done.
    change (started ch' w1) with (started ch' w). by rewrite Hs'.
Qed.

(** *** Scrolling *)

Lemma scroll_one (ch : dyn_chart) (b : bool) (ks : list string) (w : page) : well_made ch -> asked ch b w ->
  exists w', scroll (dc_id ch :: ks) w = scroll ks w' /\ asked ch (b || sees ch (boxes w, viewport w)) w' /\
    dynamicDisplayList w' = dynamicDisplayList w /\ boxes w' = boxes w /\ viewport w' = viewport w /\
    (forall ch' b', apart ch ch' -> asked ch' b' w -> asked ch' b' w').
Proof.
  intros [Hid Hwaits] Ha. pose proof Ha as (e & x & He & Hx & Hce & Hb & Hde & Hconf & Hplace & Htype & Hstart).
  cbn [scrollFunction]. rewrite He. unfold get_ctx at 1. rewrite Hce, Hx. cbn [res_bind].
  rewrite (same_place_seen _ _ (boxes w (dc_ctx ch)) (viewport w) Hplace), Hb.
  change (isScrolledIntoView (boxes w (dc_ctx ch)) (dc_context ch) (viewport w)) with (sees ch (boxes w, viewport w)).
  destruct (sees ch (boxes w, viewport w)) eqn:Hs, b; cbn [andb negb orb res_bind]; try by exists w.
  rewrite (upd_dynamic_at _ _ e w He), Hce, Hb, Hde, Hconf. set (e1 := {| dyn_ctx := dc_ctx ch |}).
  cbn [redrawGraph]. unfold get_ctx at 1. change (ctxs (at_entry (dc_id ch) e1 w)) with (ctxs w). rewrite Hx. cbn [res_bind].
  rewrite Htype, (upd_ctx_at _ _ x) by exact Hx. rewrite new_Chart_plain. set (w1 := at_ctx (dc_ctx ch) x (at_entry (dc_id ch) e1 w)).
  assert (Hw1 : ctxs w1 = ctxs w) by (cbn; by apply insert_id).
  assert (Hidx : canvas_id x = dc_id ch) by apply (same_id _ _ Hplace).
  assert (Hentry : dynamicDisplay w1 !! canvas_id x = Some e1) by (rewrite Hidx; apply lookup_insert_eq).
  destruct (draw_if_seen (redrawGraph false dpr personal fits anim_fuel fuel) (dc_type ch) (dc_ctx ch) (dc_data ch)
    (merged personal (dc_type ch) (dc_config ch)) w1 x (waits_merged _ _ _ Hwaits)) as (w' & Hrun & Hd);
    [by rewrite Hw1|by rewrite Hidx|by rewrite Hentry; intros e2 [= <-]|].
  pose proof Hd as [(y & Hc & Hp & Ht) He' Hlist Hbx Hv Hl].
  assert (Hseen : isScrolledIntoView (boxes w1 (dc_ctx ch)) x (viewport w1) = true)
    by (rewrite <- Hs; exact (same_place_seen _ _ _ _ Hplace)).
  rewrite Hseen, Hentry, Hidx in He'. rewrite Hseen in Hl. cbn [noted dyn_shown e1] in He'.
  exists w'. rewrite Hrun. split; [done|]. split; [|split; [|split; [done|split; [done|]]]].
  - eexists _, y. rewrite He', Hc, !lookup_insert_eq. split; [reflexivity|]. repeat (split; [done|]).
    split; [|split; [done|]].
    + split; etransitivity; [apply (same_id _ _ Hp)|apply (same_id _ _ Hplace)|apply (same_width _ _ Hp)|
        apply (same_width _ _ Hplace)|apply (same_height _ _ Hp)|apply (same_height _ _ Hplace)].
    + rewrite (started_more ch (dc_ctx ch) true w1 w' Hl), bool_decide_eq_true_2 by done.
      change (started ch w1) with (started ch w). by rewrite Hstart.
  - rewrite Hlist. unfold listed. by rewrite Hentry.
  - intros ch' b' [H1 H2] (e2 & x2 & Ha'). apply (drawn_elsewhere ch' b' _ _ _ _ _ w1 w' Hd H2); [by rewrite Hidx|].
    exists e2, x2. rewrite Hw1. cbn [w1 at_ctx with_ctxs dynamicDisplay at_entry with_dynamic]. by rewrite lookup_insert_ne.
Qed.

(** Charts on canvases of their own. *)
Definition distinct (cs : list dyn_chart) : Prop := NoDup (dc_id <$> cs) /\ NoDup (dc_ctx <$> cs).

Lemma distinct_cons (ch : dyn_chart) (cs : list dyn_chart) : distinct (ch :: cs) ->
  distinct cs /\ forall ch', ch' ∈ cs -> apart ch ch' /\ apart ch' ch.
Proof.
  intros [Hi Hc]. rewrite fmap_cons, NoDup_cons in Hi. rewrite fmap_cons, NoDup_cons in Hc. destruct Hi as [Hi Hi'], Hc as [Hc Hc']. split; [done|].
  intros ch' Hin. unfold apart. assert (dc_id ch' <> dc_id ch) by (intros Heq; apply Hi; rewrite <- Heq; by apply list_elem_of_fmap_2).
  assert (dc_ctx ch' <> dc_ctx ch) by (intros Heq; apply Hc; rewrite <- Heq; by apply list_elem_of_fmap_2). done.
Qed.

Lemma scroll_many (cs : list dyn_chart) (b : dyn_chart -> bool) (w : page) : Forall well_made cs -> distinct cs ->
  (forall ch, ch ∈ cs -> asked ch (b ch) w) ->
  exists w', scroll (dc_id <$> cs) w = Ok w' /\ (forall ch, ch ∈ cs -> asked ch (b ch || sees ch (boxes w, viewport w)) w') /\
    dynamicDisplayList w' = dynamicDisplayList w /\
    (forall ch' b', (forall ch, ch ∈ cs -> apart ch ch') -> asked ch' b' w -> asked ch' b' w').
Proof.
  intros Hmade. revert w. induction Hmade as [|ch cs Hch _ IH]; intros w Hdist Hasked.
  { exists w. split; [done|]. split; [by intros ch Hin%elem_of_nil|]. done. }
  destruct (distinct_cons ch cs Hdist) as [Hdist' Hapart].
  destruct (scroll_one ch (b ch) (dc_id <$> cs) w Hch (Hasked ch ltac:(left))) as (w1 & Hrun & Hch1 & Hl1 & Hb1 & Hv1 & Ho1).
  destruct (IH w1 Hdist') as (w' & Hrest & Hall & Hl & Ho).
  { intros ch' Hin. apply Ho1; [by apply Hapart|]. apply Hasked. by right. }
  rewrite Hb1, Hv1 in Hall. exists w'. rewrite fmap_cons, Hrun. split; [done|]. split; [|split; [congruence|]].
  - intros ch' [->|Hin]%elem_of_cons; [|by apply Hall]. apply Ho; [|done]. intros ch' Hin. by apply Hapart.
  - intros ch' b' Hap Ha. apply Ho; [intros ch2 Hin; apply Hap; by right|]. apply Ho1; [apply Hap; left|done].
Qed.

(** The window is scrolled from position to position. *)
Fixpoint scroll_through (ps : list position) (w : page) : res page :=
  match ps with
  | [] => Ok w
  | p :: ps => let* w := window_scroll false dpr personal fits anim_fuel (S fuel) p.1 p.2 w in scroll_through ps w
  end.

Lemma scrolls_through (cs : list dyn_chart) (ps : list position) (b : dyn_chart -> bool) (w : page) :
  Forall well_made cs -> distinct cs -> dynamicDisplayList w = dc_id <$> cs -> (forall ch, ch ∈ cs -> asked ch (b ch) w) ->
  exists w', scroll_through ps w = Ok w' /\ forall ch, ch ∈ cs -> asked ch (b ch || existsb (sees ch) ps) w'.
Proof.
  intros Hmade Hdist. revert b w. induction ps as [|[bs v] ps IH]; intros b w Hlist Hasked; cbn [scroll_through existsb].
  { exists w. split; [done|]. intros ch. rewrite orb_false_r. apply Hasked. }
  unfold window_scroll. cbn [fst snd]. rewrite Hlist.
  destruct (scroll_many cs b (reflow bs v w) Hmade Hdist Hasked) as (w1 & Hrun & Hall & Hl & _).
  rewrite Hrun. cbn [res_bind]. destruct (IH (fun ch => b ch || sees ch (bs, v)) w1) as (w' & Hps & Hend);
    [by rewrite Hl|exact Hall|].
  exists w'. split; [done|]. intros ch Hin. rewrite orb_assoc. by apply Hend.
Qed.

(** Charts are drawn one after the other. *)
Fixpoint draw_dynamics (cs : list dyn_chart) (w : page) : res page :=
  match cs with
  | [] => Ok w
  | ch :: cs => let* w := draw_dynamic ch w in draw_dynamics cs w
  end.

Lemma draws_dynamics (cs : list dyn_chart) (w : page) : Forall well_made cs -> distinct cs -> (forall ch, ch ∈ cs -> unasked ch w) ->
  exists w', draw_dynamics cs w = Ok w' /\ dynamicDisplayList w' = dynamicDisplayList w ++ (dc_id <$> cs) /\
    (forall ch, ch ∈ cs -> asked ch (sees ch (boxes w, viewport w)) w') /\
    (forall ch' b', (forall ch, ch ∈ cs -> apart ch ch') -> asked ch' b' w -> asked ch' b' w').
Proof.
  intros Hmade. revert w. induction Hmade as [|ch cs Hch _ IH]; intros w Hdist Hun.
  { exists w. rewrite app_nil_r. split; [done|]. split; [done|]. split; [by intros ch Hin%elem_of_nil|done]. }
  destruct (distinct_cons ch cs Hdist) as [Hdist' Hapart].
  destruct (first_drawing ch w Hch (Hun ch ltac:(left))) as (w1 & Hrun & Hch1 & Hl1 & Hb1 & Hv1 & Ho1 & Hu1).
  destruct (IH w1 Hdist') as (w' & Hrest & Hl & Hall & Ho).
  { intros ch' Hin. apply Hu1; [by apply Hapart|]. apply Hun. by right. }
  rewrite Hb1, Hv1 in Hall. exists w'. cbn [draw_dynamics]. rewrite Hrun. cbn [res_bind]. split; [done|].
  split; [by rewrite Hl, Hl1, <- app_assoc|]. split.
  - intros ch' [->|Hin]%elem_of_cons; [|by apply Hall]. apply Ho; [|done]. intros ch' Hin. by apply Hapart.
  - intros ch' b' Hap Ha. apply Ho; [intros ch2 Hin; apply Hap; by right|]. apply Ho1; [apply Hap; left|done].
Qed.


End DynamicCharts.

(** *** A page with a chart at its top and one further down *)

Definition below (i : nat) : list dom_box :=
  [{| offsetLeft := n0; scrollLeft := n0; clientLeft := n0; offsetTop := of_Z (2000 * Z.of_nat i); scrollTop := n0; clientTop := n0 |}].

Definition scrolled_to (y : Z) : position :=
  (below, {| pageXOffset := n0; pageYOffset := of_Z y; view_width := of_Z 1000; view_height := of_Z 600 |}).

Definition waiting : config := of_fields [("dynamicDisplay", VBool true); ("animation", VBool false)].

Definition waiting_chart (i : nat) (id : string) : dyn_chart (D := unit) :=
  {| dc_type := Line; dc_ctx := i; dc_data := tt; dc_config := waiting; dc_context := fresh_context id (of_Z 450) (of_Z 350) None |}.

Definition two_charts : list (dyn_chart (D := unit)) := [waiting_chart 0 "upper"; waiting_chart 1 "lower"].

Definition two_canvases : world (D := unit) :=
  reflow (scrolled_to 0).1 (scrolled_to 0).2
    (with_ctxs (fun _ => list_to_map (map (fun ch => (dc_ctx ch, dc_context ch)) two_charts)) (new_page sample_sizes 0)).

Abbreviation two_well_made := (well_made no_personal_options (fun _ _ _ _ => true) 0 (D := unit)).

Lemma waiting_well_made (i : nat) (id : string) : id <> "" -> two_well_made (waiting_chart i id).
Proof.
  intros Hid. split; [exact Hid|]. refine (waits_intro _ _ _ _ _ _ _ eq_refl _ (fun _ => eq_refl)). vm_compute. reflexivity.
Qed.

Lemma two_charts_made : Forall two_well_made two_charts.
Proof.
  assert (Hu : "upper" <> "") by discriminate. assert (Hl : "lower" <> "") by discriminate.
  exact (Forall_cons_2 _ _ _ (waiting_well_made 0 "upper" Hu) (Forall_cons_2 _ _ _ (waiting_well_made 1 "lower" Hl) (Forall_nil_2 _))).
Qed.


(** ** What goes wrong otherwise *)

(** On a screen with a pixel ratio every drawing enlarges the canvas, so that the middle that [scrollFunction] saw in the
    window is not there any more when [dynamicFunction] looks for it: the chart is not drawn, and the canvas stays large. *)
Lemma dense_screen_stays_blank :
  res_map (fun w => (map loop_ctx (loops w), option_map canvas_height (ctxs w !! 1%nat)))
    (let* w := draw_dynamic (H := sample_math) (Some (of_Z 2)) no_personal_options (fun _ _ _ _ => true) 0 1 (waiting_chart 1 "lower")
                 two_canvases in
     scroll_through (H := sample_math) (Some (of_Z 2)) no_personal_options (fun _ _ _ _ => true) 0 1 [scrolled_to 1800] w)
  = Ok ([], Some (of_Z 1400)).
Proof. vm_compute. reflexivity. Qed.

(** A responsive chart is registered when it is asked for and again when it is seen: it is redrawn twice for every resize. *)
Definition responsive_waiting : config := <["responsive" := VBool true]> waiting.

Definition responsive_canvas : world (D := unit) :=
  reflow (scrolled_to 0).1 (scrolled_to 0).2
    (with_ctxs (fun _ => {[1%nat := fresh_context "lower" (of_Z 450) (of_Z 350) (Some 0%nat)]}) (new_page sample_sizes 0)).

Lemma responsive_registered_twice :
  res_map (fun w => map reg_ctx (jsGraphResize w))
    (let* w := chart_draw (H := sample_math) false None no_personal_options (fun _ _ _ _ => true) 0 2 Line 1 tt (Some responsive_waiting)
                 responsive_canvas in
     scroll_through (H := sample_math) None no_personal_options (fun _ _ _ _ => true) 0 1 [scrolled_to 1800] w)
  = Ok [1%nat; 1%nat].
Proof. vm_compute. reflexivity. Qed.
