(* ===== verification/Canvas.v ===== *)
(** * Drawing on a canvas (ChartNew.js)

    Drawing code is a list of operations on the canvas context.  This file has
    the operations, the text extensions ChartNew.js adds to the context, and the
    markers of data points. *)

From stdpp Require Import base list strings gmap.
From Stdlib Require Import ZArith Lia SpecFloat Ascii.
From S2P Require Import Prelude Num Value Options OptionValue Format Easing.

Open Scope string_scope.
Open Scope list_scope.
Open Scope Z_scope.

Create HintDb canvas.

(** ** Operations *)

Inductive canvas_op : Type :=
| Save
| Restore
| BeginPath
| ClosePath
| MoveTo (x y : num)
| LineTo (x y : num)
| QuadraticCurveTo (cx cy x y : num)
| BezierCurveTo (c1x c1y c2x c2y x y : num)
| Arc (x y r start stop : num) (counterclockwise : bool)
| RectPath (x y w h : num)
| FillRect (x y w h : num)
| ClearRect (x y w h : num)
| Stroke
| FillOp
| SetLineDash (segments : list Z)
| SetLineWidth (w : jsval)
| SetStrokeStyle (s : jsval)
| SetFillStyle (s : jsval)
| SetFont (font : string)
| SetTextAlign (a : string)
| SetTextBaseline (b : string)
| Translate (x y : num)
| Rotate (angle : num)
| FillText (text : string) (x y : num)
| DrawImage (image : jsval) (x y : num)
| SetBackground (color : jsval).       (** the style of the canvas element *)

(** The scales of a context, by which texts, lines and spaces grow with it. *)
Record ctx_scales : Type := {
  ctx_text : num;
  ctx_line : num;
  ctx_space : num
}.

(** A canvas that is not scaled. *)
Definition unit_scales : ctx_scales := {| ctx_text := of_Z 1; ctx_line := of_Z 1; ctx_space := of_Z 1 |}.

(** [style + " " + size + "px " + family] *)
Definition font_of (style : jsval) (size : num) (family : jsval) : string :=
  (to_str style ++ " " ++ num_to_string size ++ "px " ++ to_str family)%string.

(** A field of an object, as a number. *)
Definition fnum (o : config) (k : string) : num := to_num o.[k].

(** [Math.ceil(ctx.chartTextScale * config.k)], and with the other two scales. *)
Definition text (s : ctx_scales) (c : config) (k : string) : num := Math_ceil (ctx_text s * fnum c k)%num.
Definition line (s : ctx_scales) (c : config) (k : string) : num := Math_ceil (ctx_line s * fnum c k)%num.
Definition space (s : ctx_scales) (c : config) (k : string) : num := Math_ceil (ctx_space s * fnum c k)%num.

(** The alignments a context knows; it ignores the assignment of another value,
    so that the old one is read back. *)
Definition text_aligns : list string := ["left"; "right"; "center"; "start"; "end"].
Definition text_baselines : list string := ["top"; "hanging"; "middle"; "alphabetic"; "ideographic"; "bottom"].
Definition assigned (allowed : list string) (old : string) (v : jsval) : string :=
  if bool_decide (to_str v ∈ allowed) then to_str v else old.

(** The change of the depth of the stack of saved drawing states; [None] when a
    state is restored that was not saved (which the canvas ignores). *)
Fixpoint save_depth (depth : nat) (ops : list canvas_op) : option nat :=
  match ops with
  | [] => Some depth
  | Save :: l => save_depth (S depth) l
  | Restore :: l => match depth with O => None | S d => save_depth d l end
  | _ :: l => save_depth depth l
  end.

(** The dash pattern in force after some operations. *)
Fixpoint last_dash (dash : list Z) (ops : list canvas_op) : list Z :=
  match ops with
  | [] => dash
  | SetLineDash d :: l => last_dash d l
  | _ :: l => last_dash dash l
  end.

(** The path that is being built, and the paths that were stroked and filled. *)
Record pen : Type := {
  path : list canvas_op;
  stroked : list (list canvas_op);
  filled : list (list canvas_op)
}.

Definition no_pen : pen := {| path := []; stroked := []; filled := [] |}.

Definition pen_op (p : pen) (o : canvas_op) : pen :=
  match o with
  | BeginPath => {| path := []; stroked := stroked p; filled := filled p |}
  | MoveTo _ _ | LineTo _ _ | QuadraticCurveTo _ _ _ _ | BezierCurveTo _ _ _ _ _ _ | Arc _ _ _ _ _ _
  | RectPath _ _ _ _ | ClosePath => {| path := path p ++ [o]; stroked := stroked p; filled := filled p |}
  | Stroke => {| path := path p; stroked := stroked p ++ [path p]; filled := filled p |}
  | FillOp => {| path := path p; stroked := stroked p; filled := filled p ++ [path p] |}
  | _ => p
  end.

Definition pen_after (p : pen) (ops : list canvas_op) : pen := fold_left pen_op ops p.

(** ** Texts of several lines *)

(** The part of a text before its first line break, and what follows the break. *)
Fixpoint take_line (s : string) : string * option string :=
  match s with
  | EmptyString => ("", None)
  | String c r =>
      if Ascii.eqb c (ascii_of_nat 10) then ("", Some r)
      else let '(a, b) := take_line r in (String c a, b)
  end.

(** [text.split("\n")] *)
Fixpoint split_lines (fuel : nat) (s : string) : list string :=
  match take_line s, fuel with
  | (a, Some r), S f => a :: split_lines f r
  | (a, _), _ => [a]
  end.
Definition lines_of (s : string) : list string := split_lines (String.length s) s.

Fixpoint fill_lines (lines : list string) (x y lineHeight : num) : list canvas_op :=
  match lines with
  | [] => []
  | l :: ls => FillText l x y :: fill_lines ls x (y + lineHeight)%num lineHeight
  end.

(** [ctx.fillTextMultiLine(text, x, y, yLevel, lineHeight, horizontal)] *)
Definition fillTextMultiLine (text : string) (x y : num) (yLevel : string) (lineHeight : num)
    (horizontal : bool) : list canvas_op :=
  let lines := lines_of text in
  let n := of_Z (Z.of_nat (length lines)) in
  let y :=
    if String.eqb yLevel "middle" then
      (if horizontal then (y - (n - of_Z 1) / of_Z 2 * lineHeight)%num else y)
    else if String.eqb yLevel "bottom" then
      (if horizontal then (y - (n - of_Z 1) * lineHeight)%num else y)
    else y in
  fill_lines lines x y lineHeight.

Section Text.

(** [ctx.measureText(text).width] *)
Context (measureText : string -> num).

(** [ctx.measureTextMultiLine(text, lineHeight)]: width and height. *)
Definition measureTextMultiLine (text : string) (lineHeight : num) : num * num :=
  let lines := lines_of text in
  (fold_left (fun textWidth l => let lg := measureText l in
                                 if (lg > textWidth)%num then lg else textWidth) lines n0,
   (of_Z (Z.of_nat (length lines)) * lineHeight)%num).

(** [setTextBordersAndBackground]: the background and the border of a text that
    is aligned as the context's text alignment and baseline say. *)
Definition text_box (textAlign textBaseline : string) (textWidth textHeight : num)
    : option (num * num) * option (num * num) :=
  (if String.eqb textAlign "center" then
     Some (nneg textWidth / of_Z 2, textWidth / of_Z 2)%num
   else if String.eqb textAlign "left" then Some (n0, textWidth)
   else if String.eqb textAlign "right" then Some (nneg textWidth, n0)
   else None,
   if String.eqb textBaseline "top" then Some (n0, textHeight)
   else if String.eqb textBaseline "center" || String.eqb textBaseline "middle" then
     Some (nneg textHeight / of_Z 2, textHeight / of_Z 2)%num
   else if String.eqb textBaseline "bottom" then Some (nneg textHeight, n0)
   else None).

Definition setTextBordersAndBackground (textAlign textBaseline : string) (text : jsval)
    (fontsize xpos ypos : num) (borders borderscolor : jsval) (borderswidth bordersxspace bordersyspace : num)
    (bordersstyle : string) (backgroundcolor : jsval) : list canvas_op :=
  let txt := to_str text in
  let textHeight := (fontsize * of_Z (Z.of_nat (length (lines_of txt))))%num in
  let textWidth := measureText txt in
  let '(h, v) := text_box textAlign textBaseline textWidth textHeight in
  let '(xright, xleft) := default (NaN, NaN) h in
  let '(ytop, ybottom) := default (NaN, NaN) v in
  [Save; BeginPath; Translate xpos ypos]
  ++ (if negb (loose_eq backgroundcolor (VStr "none")) then
        [Save; SetFillStyle backgroundcolor;
         FillRect (xright - bordersxspace) (ybottom + bordersyspace)
           (xleft - xright + of_Z 2 * bordersxspace) (ytop - ybottom - of_Z 2 * bordersyspace);
         Stroke; Restore; SetFillStyle (VStr "black")]%num
      else [])
  ++ (if truthy borders then
        [Save; SetLineWidth (VNum borderswidth); SetStrokeStyle borderscolor; SetFillStyle borderscolor;
         SetLineDash (lineStyleFn bordersstyle);
         RectPath (xright - borderswidth / of_Z 2 - bordersxspace)
           (ytop - borderswidth / of_Z 2 - bordersyspace)
           (xleft - xright + borderswidth + of_Z 2 * bordersxspace)
           (ybottom - ytop + borderswidth + of_Z 2 * bordersyspace);
         Stroke; SetLineDash []; Restore]%num
      else [])
  ++ [Restore].

End Text.

(** ** Markers *)

Section Marker.

Context `{MathLib}.

Definition drawMarker (xpos ypos : num) (marker : string) (markersize : num) (markerStrokeStyle : string)
    : list canvas_op :=
  SetLineDash (lineStyleFn markerStrokeStyle) ::
  (if String.eqb marker "square" then
     [RectPath (xpos - markersize) (ypos - markersize) (of_Z 2 * markersize) (of_Z 2 * markersize);
      Stroke; FillOp]%num
   else if String.eqb marker "triangle" then
     let a := (of_Z 2 / of_Z 3 * markersize)%num in
     let dx := (a * Math_sin (of_Z 4 / of_Z 3))%num in
     let dy := (a * Math_cos (of_Z 4 / of_Z 3))%num in
     [MoveTo xpos (ypos - a); LineTo (xpos + dx) (ypos + dy); LineTo (xpos - dx) (ypos + dy);
      LineTo xpos (ypos - a); Stroke; FillOp]%num
   else if String.eqb marker "diamond" then
     [MoveTo xpos (ypos + markersize); LineTo (xpos + markersize) ypos;
      LineTo xpos (ypos - markersize); LineTo (xpos - markersize) ypos;
      LineTo xpos (ypos + markersize); Stroke; FillOp]%num
   else if String.eqb marker "plus" then
     [MoveTo xpos (ypos - markersize); LineTo xpos (ypos + markersize);
      MoveTo (xpos - markersize) ypos; LineTo (xpos + markersize) ypos; Stroke]%num
   else if String.eqb marker "cross" then
     [MoveTo (xpos - markersize) (ypos - markersize); LineTo (xpos + markersize) (ypos + markersize);
      MoveTo (xpos - markersize) (ypos + markersize); LineTo (xpos + markersize) (ypos - markersize);
      Stroke]%num
   else
     [Arc xpos ypos markersize n0 (of_Z 2 * Math_PI * of_Z 1) true; Stroke; FillOp]%num)
  ++ [SetLineDash []].

End Marker.

(** ** Lines of a text *)

Definition newline : ascii := ascii_of_nat 10.

(** [lines.join("\n")] *)
Fixpoint join_lines (lines : list string) : string :=
  match lines with
  | [] => ""
  | [l] => l
  | l :: ls => (l ++ String newline (join_lines ls))%string
  end.

Lemma join_lines_cons (l : string) (ls : list string) :
  ls <> [] -> join_lines (l :: ls) = (l ++ String newline (join_lines ls))%string.
Proof. by destruct ls. Qed.

Lemma take_line_spec (s : string) :
  all_chars (fun c => negb (Ascii.eqb c newline)) (take_line s).1 = true /\
  s = match (take_line s).2 with
      | None => (take_line s).1
      | Some r => ((take_line s).1 ++ String newline r)%string
      end /\
  match (take_line s).2 with None => True | Some r => (String.length r < String.length s)%nat end.
Proof.
  induction s as [|c r IH]; [done|]. cbn [take_line]. change (ascii_of_nat 10) with newline.
  destruct (Ascii.eqb c newline) eqn:Hc.
  - apply Ascii.eqb_eq in Hc as ->. split; [done|]. cbn [fst snd]. split; [by rewrite app_nil|cbn; lia].
  - destruct (take_line r) as [a [b|]]; cbn [fst snd] in *; destruct IH as (H1 & H2 & H3);
      (split; [cbn [all_chars]; by rewrite Hc|]); (split; [by rewrite ?app_cons, <- H2|]); [|done].
    cbn [String.length]. lia.
Qed.

Lemma split_lines_spec (fuel : nat) (s : string) : (String.length s <= fuel)%nat ->
  join_lines (split_lines fuel s) = s /\ split_lines fuel s <> [] /\
  Forall (fun l => all_chars (fun c => negb (Ascii.eqb c newline)) l = true) (split_lines fuel s).
Proof.
  revert s. induction fuel as [|f IH]; intros s Hlen.
  - destruct s; [|cbn in Hlen; lia]. by repeat constructor.
  - cbn [split_lines]. pose proof (take_line_spec s) as (H1 & H2 & H3).
    destruct (take_line s) as [a [r|]]; cbn [fst snd] in *.
    + destruct (IH r ltac:(lia)) as (J & N & F). split; [|by split; [|constructor]].
      rewrite join_lines_cons by done. by rewrite J.
    + by repeat constructor.
Qed.

(** The lines a text is drawn in hold no line break, and joined with line
    breaks they are the text again: nothing of it is lost. *)
Theorem lines_of_join (s : string) :
  join_lines (lines_of s) = s /\
  Forall (fun l => all_chars (fun c => negb (Ascii.eqb c newline)) l = true) (lines_of s).
Proof. destruct (split_lines_spec (String.length s) s ltac:(lia)) as (H1 & _ & H3). by split. Qed.

(** ** The drawing state *)

Lemma save_depth_app (n m : nat) (l1 l2 : list canvas_op) :
  save_depth n l1 = Some m -> save_depth n (l1 ++ l2) = save_depth m l2.
Proof.
  revert n. induction l1 as [|o l1 IH]; intros n; [by intros [= ->]|].
  cbn [app]. destruct o; cbn [save_depth]; auto. by destruct n; auto.
Qed.

Lemma last_dash_app (d : list Z) (l1 l2 : list canvas_op) :
  last_dash d (l1 ++ l2) = last_dash (last_dash d l1) l2.
Proof. revert d. induction l1 as [|o l1 IH]; intros d; [done|]. destruct o; cbn [app last_dash]; auto. Qed.

(** Operations that leave the stack of saved drawing states as it was. *)
Definition balanced (l : list canvas_op) : Prop := forall n, save_depth n l = Some n.

Lemma balanced_nil : balanced [].
Proof. done. Qed.

Lemma balanced_app (l1 l2 : list canvas_op) : balanced l1 -> balanced l2 -> balanced (l1 ++ l2).
Proof. intros H1 H2 n. by rewrite (save_depth_app _ _ _ _ (H1 n)). Qed.

Lemma balanced_cons (o : canvas_op) (l : list canvas_op) : o <> Save -> o <> Restore -> balanced l -> balanced (o :: l).
Proof. intros H1 H2 Hl n. specialize (Hl n). by destruct o. Qed.

(** What is drawn between saving and restoring a drawing state. *)
Lemma balanced_saved (l : list canvas_op) : balanced l -> balanced (Save :: l ++ [Restore]).
Proof. intros Hl n. cbn [save_depth]. by rewrite (save_depth_app _ _ _ _ (Hl (S n))). Qed.

Lemma balanced_fill_lines (ls : list string) (x y h : num) : balanced (fill_lines ls x y h).
Proof. intros n. revert y. by induction ls; intros; cbn. Qed.

Lemma balanced_texts (txt level : string) (x y h : num) (horizontal : bool) :
  balanced (fillTextMultiLine txt x y level h horizontal).
Proof. apply balanced_fill_lines. Qed.

Lemma balanced_marker `{MathLib} (x y size : num) (marker style : string) : balanced (drawMarker x y marker size style).
Proof. intros n. unfold drawMarker. by repeat destruct (String.eqb marker _). Qed.

Lemma balanced_box (m : string -> num) align baseline txt size x y borders bcolor bw bx by_ bstyle background :
  balanced (setTextBordersAndBackground m align baseline txt size x y borders bcolor bw bx by_ bstyle background).
Proof.
  intros n. unfold setTextBordersAndBackground. destruct (text_box _ _ _ _) as [h v].
  by destruct (default (NaN, NaN) h), (default (NaN, NaN) v), (negb _), (truthy borders).
Qed.

#[export] Hint Resolve balanced_nil balanced_app balanced_fill_lines balanced_texts balanced_marker balanced_box : canvas.

(** Markers and the boxes of texts leave the context as they found it: every
    saved drawing state is restored, and the lines that are drawn afterwards are
    solid again. *)
Lemma drawing_state_restored `{MathLib} (measureText : string -> num) (depth : nat)
    (x y size : num) (marker style align baseline : string) (text : jsval)
    (fontsize xpos ypos bw bx by_ : num) (borders bcolor background : jsval) (bstyle : string) :
  let box := setTextBordersAndBackground measureText align baseline text fontsize xpos ypos borders bcolor
               bw bx by_ bstyle background in
  save_depth depth (drawMarker x y marker size style) = Some depth /\
  save_depth depth box = Some depth /\
  (forall dash, last_dash dash (drawMarker x y marker size style) = []) /\ last_dash [] box = [].
Proof.
  cbn zeta. split; [apply balanced_marker|split; [apply balanced_box|split]].
  - intros dash. unfold drawMarker. by repeat destruct (String.eqb marker _).
  - unfold setTextBordersAndBackground. destruct (text_box _ _ _ _) as [h v].
    destruct (default (NaN, NaN) h), (default (NaN, NaN) v), (negb _), (truthy borders); reflexivity.
Qed.
