(* ===== verification/Cross.v ===== *)
(** * Texts and images across a chart (ChartNew.js)

    [dispCrossText] and [dispCrossImage] draw the texts and images of the options
    [crossText...] and [crossImage...] before or after each frame.  Every option
    is an array whose last element counts for all further texts or images. *)

From stdpp Require Import base list strings gmap.
From Stdlib Require Import ZArith Lia SpecFloat.
From S2P Require Import Prelude Num Value Options OptionValue Format Scale Canvas.

Open Scope string_scope.
Open Scope list_scope.
Open Scope Z_scope.

(** The place in the frame: the middle of the chart, the origin of its axes, the
    size of the canvas, the fraction of the data that is shown and the frame. *)
Record cross_place : Type := {
  posX : num;
  posY : num;
  borderX : num;
  borderY : num;
  canvasWidth : num;
  canvasHeight : num;
  overlay : bool;
  animPC : num;
  cntiter : Z
}.

Section Cross.

Context (measureText : string -> string -> num).

(** What [config.crossTextFunction] returns for a text. *)
Context (crossTextFunction : positive -> nat -> jsval -> res jsval).

Context (s : ctx_scales) (c : config) (align0 baseline0 : string) (p : cross_place).

(** [config.k[Min([i, config.k.length - 1])]] *)
Definition pick (k : string) (i : nat) : res jsval :=
  let* len := get_prop c.[k] "length" in
  get_index c.[k] (Min [of_Z (Z.of_nat i); to_num len - of_Z 1]%num).

(** An alignment of "default" depends on the place the text is relative to. *)
Definition default_to (align : jsval) (a : string) : jsval :=
  if loose_eq align (VStr "default") then VStr a else align.

Definition relative_x (rel x : num) (align : jsval) : num * jsval :=
  let rel_is k := (rel == of_Z k)%num in
  if rel_is 0 then (x, default_to align "left")
  else if rel_is 1 then (x + borderX p, default_to align "right")%num
  else if rel_is 2 then (x + posX p, default_to align "center")%num
  else if rel_is (-2) then (x + canvasWidth p / of_Z 2, default_to align "center")%num
  else if rel_is 3 then (x + (x + of_Z 2 * posX p - borderX p), default_to align "left")%num
  else if rel_is 4 then (x + canvasWidth p, default_to align "right")%num
  else (x + posX p, default_to align "center")%num.

Definition relative_y (rel y : num) (baseline : jsval) : num * jsval :=
  let rel_is k := (rel == of_Z k)%num in
  if rel_is 0 then (y, default_to baseline "top")
  else if rel_is 3 then (y + borderY p, default_to baseline "top")%num
  else if rel_is 2 then (y + posY p, default_to baseline "middle")%num
  else if rel_is (-2) then (y + canvasHeight p / of_Z 2, default_to baseline "middle")%num
  else if rel_is 1 then (y + (y + of_Z 2 * posY p - borderY p), default_to baseline "bottom")%num
  else if rel_is 4 then (y + canvasHeight p, default_to baseline "bottom")%num
  else (y + posY p, default_to baseline "middle")%num.

(** The place of text or image [i], and its alignment; [pre] is "crossText" or
    "crossImage". *)
Definition placed_at (pre : string) (i : nat) : res (num * num * jsval * jsval) :=
  let* align := pick (pre ++ "Align") i in
  let* baseline := pick (pre ++ "Baseline") i in
  let* px := pick (pre ++ "PosX") i in
  let* py := pick (pre ++ "PosY") i in
  let* rx := pick (pre ++ "RelativePosX") i in
  let* ry := pick (pre ++ "RelativePosY") i in
  let at_ v := (of_Z 1 * Math_ceil (ctx_space s * to_num v))%num in
  let '(x, align) := relative_x (of_Z 1 * to_num rx)%num (at_ px) align in
  let '(y, baseline) := relative_y (of_Z 1 * to_num ry)%num (at_ py) baseline in
  Ok (x, y, align, baseline).

(** Whether text [i] is drawn in this frame. *)
Definition text_in_frame (i : nat) : res bool :=
  let* over := pick "crossTextOverlay" i in
  let* iter := pick "crossTextIter" i in
  Ok (loose_eq over (VBool (overlay p)) &&
      ((cntiter p =? 1) && loose_eq iter (VStr "first")
       || loose_eq iter (VInt (cntiter p))
       || loose_eq iter (VStr "all")
       || (animPC p == of_Z 1)%num && loose_eq iter (VStr "last"))).

(** Images can also be the background of the chart, drawn before the frames. *)
Definition image_in_frame (i : nat) : res bool :=
  let* over := pick "crossImageOverlay" i in
  let* iter := pick "crossImageIter" i in
  Ok (loose_eq over (VBool (overlay p)) &&
      ((cntiter p =? -1) && loose_eq iter (VStr "background")
       || (cntiter p =? 1) && loose_eq iter (VStr "first")
       || loose_eq iter (VInt (cntiter p))
       || negb (cntiter p =? -1) && loose_eq iter (VStr "all")
       || (animPC p == of_Z 1)%num && loose_eq iter (VStr "last"))).

(** [config.crossText[i].substring(0, 1) == "%"] *)
Definition is_function_text (v : jsval) : res bool :=
  match v with
  | VStr t => Ok (String.prefix "%" t)
  | _ => Throw TypeError
  end.

(** The text that is shown; without a function it is the one of the previous text. *)
Definition shown_text (i : nat) (v before : jsval) : res jsval :=
  let* f := is_function_text v in
  if f then match c.["crossTextFunction"] with
            | VFun g => crossTextFunction g i v
            | _ => Ok before
            end
  else Ok v.

(** [text.toString()] *)
Definition to_string (v : jsval) : res string :=
  match v with VUndef | VNull => Throw TypeError | _ => Ok (to_str v) end.

Definition cross_text (i : nat) (v before : jsval) : res (list canvas_op * jsval) :=
  let* style := pick "crossTextFontStyle" i in
  let* size := pick "crossTextFontSize" i in
  let* family := pick "crossTextFontFamily" i in
  let* color := pick "crossTextFontColor" i in
  let* (x, y, align, baseline) := placed_at "crossText" i in
  let* angle := pick "crossTextAngle" i in
  let* disptxt := shown_text i v before in
  let* borders := pick "crossTextBorders" i in
  let* bcolor := pick "crossTextBordersColor" i in
  let* bwidth := pick "crossTextBordersWidth" i in
  let* bx := pick "crossTextBordersXSpace" i in
  let* by_ := pick "crossTextBordersYSpace" i in
  let* bstyle := pick "crossTextBordersStyle" i in
  let* background := pick "crossTextBackgroundColor" i in
  let size := Math_ceil (ctx_text s * to_num size)%num in
  let font := font_of style size family in
  let align' := assigned text_aligns align0 align in
  let baseline' := assigned text_baselines baseline0 baseline in
  let* str := to_string disptxt in
  Ok ([Save; BeginPath; SetFont font; SetFillStyle color; SetTextAlign (to_str align);
       SetTextBaseline (to_str baseline); Translate (of_Z 1 * x) (of_Z 1 * y);
       Rotate (Math_PI * to_num angle / of_Z 180)]%num
      ++ setTextBordersAndBackground (measureText font) align' baseline' disptxt size n0 n0 borders bcolor
           (Math_ceil (ctx_line s * to_num bwidth)) (Math_ceil (ctx_space s * to_num bx))
           (Math_ceil (ctx_space s * to_num by_)) (to_str bstyle) background
      ++ fillTextMultiLine str n0 n0 baseline' size true
      ++ [Restore], disptxt).

Fixpoint cross_texts (i : nat) (l : list jsval) (before : jsval) : res (list canvas_op) :=
  match l with
  | [] => Ok []
  | v :: l' =>
      let* show := if loose_eq v (VStr "") then Ok false else text_in_frame i in
      if show then
        let* (ops, disptxt) := cross_text i v before in
        let* rest := cross_texts (S i) l' disptxt in
        Ok (ops ++ rest)
      else cross_texts (S i) l' before
  end.

Definition dispCrossText : res (list canvas_op) :=
  match c.["crossText"] with
  | VUndef | VNull => Throw TypeError
  | v => cross_texts 0 (elements_of v) VUndef
  end.

(** ** Images *)

Definition cross_image (i : nat) (image : jsval) : res (list canvas_op) :=
  let* (x, y, align, baseline) := placed_at "crossImage" i in
  let* width := get_prop image "width" in
  let* height := get_prop image "height" in
  let x := if loose_eq align (VStr "right") then (x - to_num width)%num
           else if loose_eq align (VStr "center") then (x - to_num width / of_Z 2)%num else x in
  let y := if loose_eq baseline (VStr "bottom") then (y - to_num height)%num
           else if loose_eq baseline (VStr "middle") then (y - to_num height / of_Z 2)%num else y in
  let* angle := pick "crossImageAngle" i in
  Ok [Save; BeginPath; Translate (of_Z 1 * x) (of_Z 1 * y); Rotate (Math_PI * to_num angle / of_Z 180);
      DrawImage image n0 n0; Restore]%num.

Fixpoint cross_images (i : nat) (l : list jsval) : res (list canvas_op) :=
  match l with
  | [] => Ok []
  | v :: l' =>
      let* show := if is_undefined v then Ok false else image_in_frame i in
      let* ops := if show then cross_image i v else Ok [] in
      let* rest := cross_images (S i) l' in
      Ok (ops ++ rest)
  end.

Definition dispCrossImage : res (list canvas_op) :=
  match c.["crossImage"] with
  | VUndef | VNull => Throw TypeError
  | v => cross_images 0 (elements_of v)
  end.

End Cross.

(** ** The drawing state *)

Lemma cross_text_balanced m f s c align0 baseline0 p i v before ops after :
  cross_text m f s c align0 baseline0 p i v before = Ok (ops, after) -> balanced ops.
Proof.
  unfold cross_text. intros Hc. succeed. apply Ok_inj, (f_equal fst) in Hc. cbn [fst] in Hc. rewrite <- Hc. intros n. cbn [app save_depth].
  erewrite save_depth_app by apply balanced_box. by erewrite save_depth_app by apply balanced_texts.
Qed.

Lemma dispCrossText_balanced m f s c align0 baseline0 p ops :
  dispCrossText m f s c align0 baseline0 p = Ok ops -> balanced ops.
Proof.
  enough (Hl : forall l i before ops, cross_texts m f s c align0 baseline0 p i l before = Ok ops -> balanced ops).
  { unfold dispCrossText. destruct c.["crossText"]; try done; apply Hl. }
  induction l as [|v l IH]; intros i before r; cbn [cross_texts]; [by intros [= <-]|].
  intros Hr. succeed. match goal with b : bool |- _ => destruct b end; [|by eapply IH]. succeed. apply Ok_inj in Hr as <-.
  apply balanced_app; [by eapply cross_text_balanced|by eapply IH].
Qed.

Lemma dispCrossImage_balanced s c p ops : dispCrossImage s c p = Ok ops -> balanced ops.
Proof.
  enough (Hl : forall l i ops, cross_images s c p i l = Ok ops -> balanced ops).
  { unfold dispCrossImage. destruct c.["crossImage"]; try done; apply Hl. }
  induction l as [|v l IH]; intros i r; cbn [cross_images]; [by intros [= <-]|].
  intros Hr. succeed. apply Ok_inj in Hr as <-. apply balanced_app; [|by eapply IH].
  destruct a; [|by apply Ok_inj in Ha0 as <-]. unfold cross_image in Ha0. rename Ha0 into Hc. succeed. by apply Ok_inj in Hc as <-.
Qed.
