(* ===== verification/Legend.v ===== *)
(** * The legend (ChartNew.js)

    [drawLegend] draws a block or a line in the style of each dataset (or
    segment) that has a title, with the title next to it, in a grid whose place
    and size [setMeasures] computes. *)

From stdpp Require Import base list strings gmap.
From Stdlib Require Import ZArith Lia SpecFloat.
From S2P Require Import Prelude Num Binary64 Value Options OptionValue Format Easing Canvas.

Open Scope string_scope.
Open Scope list_scope.
Open Scope Z_scope.

(** What [setMeasures] knows about the legend. *)
Record legend_msr : Type := {
  xLegendBorderPos : num;
  yLegendBorderPos : num;
  legendBorderWidth : num;
  legendBorderHeight : num;
  nbLegendCols : num;
  xFirstLegendTextPos : num;
  yFirstLegendTextPos : num;
  drawLegendOnData : bool;
  reverseLegend : bool;
  legendBox : jsval;
  widestLegend : num
}.

(** The place of an entry in the grid. *)
Record legend_cell : Type := {
  nbcols : num;
  xpos : num;
  ypos : num
}.

Section Legend.

Context `{MathLib}.
Context (toLocaleTimeString : jsval -> string).
Context (callback : positive -> string -> Z -> Z -> jsval -> res jsval).
Context (s : ctx_scales) (c : config) (tpchart : chart_type) (m : legend_msr).

(** The distances between the rows and the columns of the grid. *)
Definition row_height : num := (text s c "legendFontSize" + space s c "legendSpaceBetweenTextVertical")%num.
Definition column_width : num := (widestLegend m + space s c "legendSpaceBetweenTextHorizontal")%num.

(** Before the first entry: the entry is going to start a new row. *)
Definition first_cell : legend_cell :=
  {| nbcols := (nbLegendCols m - of_Z 1)%num; xpos := n0; ypos := (yFirstLegendTextPos m - row_height)%num |}.

Definition next_cell (p : legend_cell) : legend_cell :=
  let n := (nbcols p + of_Z 1)%num in
  if (n == nbLegendCols m)%num
  then {| nbcols := n0; xpos := xFirstLegendTextPos m; ypos := (ypos p + row_height)%num |}
  else {| nbcols := n; xpos := (xpos p + column_width)%num; ypos := ypos p |}.

(** The border around the legend, filled with its background. *)
Definition legend_border : list canvas_op :=
  if loose_eq c.["legendBorders"] (VBool true) then
    let x := xLegendBorderPos m in
    let y := yLegendBorderPos m in
    let x' := (x + legendBorderWidth m)%num in
    let y' := (y + legendBorderHeight m)%num in
    [Save; SetLineDash (lineStyleFn (to_str c.["legendBordersStyle"])); BeginPath;
     SetLineWidth (VNum (line s c "legendBordersWidth")); SetStrokeStyle c.["legendBordersColors"];
     MoveTo x y; LineTo x y'; LineTo x' y'; LineTo x' y; LineTo x y; Stroke; ClosePath; SetLineDash [];
     SetFillStyle (VStr "rgba(0,0,0,0)"); SetFillStyle c.["legendFillColor"]; FillOp; Restore]
  else [].

(** The title of an entry as it is shown; [None] when it has none. *)
Definition legend_title (props : config) : res (option string) :=
  match props.["title"] with
  | VStr t =>
      let* f := fmtChartJS toLocaleTimeString c (VStr t) (to_str c.["fmtLegend"]) in
      match f with
      | VStr u => Ok (if String.eqb (trim u) "" then None else Some (trim u))
      | _ => Throw TypeError
      end
  | _ => Ok None
  end.

(** The rectangle of an entry's block, as the callbacks of its colours get it. *)
Definition block_vars (p : legend_cell) : jsval :=
  VObj [("animationValue", VInt 1); ("xPosLeft", VNum (xpos p)); ("yPosBottom", VNum (ypos p));
        ("xPosRight", VNum (xpos p + text s c "legendBlockSize")%num);
        ("yPosTop", VNum (ypos p - text s c "legendFontSize")%num)].

Definition legend_option (reference : string) (own : jsval) (k : string) (i : nat) (vars : jsval) : res jsval :=
  setOptionValue callback (of_Z 1) reference own c.[k] (Z.of_nat i) (-1) vars.

(** The colour and the dashes of an entry's outline. *)
Definition outline_style (i : nat) (props : config) (p : legend_cell) : res (list canvas_op) :=
  let* stroke := legend_option "LEGENDSTROKECOLOR" props.["strokeColor"] "defaultFillColor" i (block_vars p) in
  let* dash :=
    if drawLegendOnData m
    then legend_option "LEGENDLINEDASH" props.["datasetStrokeStyle"] "datasetStrokeStyle" i (block_vars p)
    else legend_option "LEGENDSEGMENTTROKESTYLE" props.["segmentStrokeStyle"] "segmentStrokeStyle" i (block_vars p) in
  Ok [SetStrokeStyle stroke; SetLineDash (lineStyleFn (to_str dash))].

(** A block in the colour of the area. *)
Definition legend_block (i : nat) (props : config) (p : legend_cell) : res (list canvas_op) :=
  let* style := outline_style i props p in
  let x := xpos p in
  let y := ypos p in
  let x' := (x + text s c "legendBlockSize")%num in
  let y' := (y - text s c "legendFontSize")%num in
  let* fill := legend_option "LEGENDFILLCOLOR" (if drawLegendOnData m then props.["fillColor"] else props.["color"])
                 "defaultFillColor" i (block_vars p) in
  Ok ([SetLineWidth (VNum (line s c "datasetStrokeWidth")); BeginPath] ++ style ++
      [MoveTo x y; LineTo x' y; LineTo x' y'; LineTo x y'; LineTo x y; Stroke; ClosePath; SetFillStyle fill; FillOp]).

(** A marker in the middle of the line. *)
Definition legend_marker (i : nat) (props : config) (x y : num) : res (list canvas_op) :=
  if negb (drawLegendOnData m) then Throw TypeError
  else
    let vars := VObj [("nullvalue", VBool true)] in
    let opt rescale reference own k := setOptionValue callback rescale reference props.[own] c.[k] (Z.of_nat i) (-1) vars in
    let* fill := opt (of_Z 1) "LEGENDMARKERFILLCOLOR" "pointColor" "defaultStrokeColor" in
    let* stroke := opt (of_Z 1) "LEGENDMARKERSTROKESTYLE" "pointStrokeColor" "defaultStrokeColor" in
    let* width := opt (ctx_line s) "LEGENDMARKERLINEWIDTH" "pointDotStrokeWidth" "pointDotStrokeWidth" in
    let* markerShape := opt (of_Z 1) "LEGENDMARKERSHAPE" "markerShape" "markerShape" in
    let* markerRadius := opt (ctx_space s) "LEGENDMARKERRADIUS" "pointDotRadius" "pointDotRadius" in
    let* markerStrokeStyle := opt (of_Z 1) "LEGENDMARKERSTROKESTYLE" "pointDotStrokeStyle" "pointDotStrokeStyle" in
    Ok ([BeginPath; SetFillStyle fill; SetStrokeStyle stroke; SetLineWidth width]
        ++ drawMarker x y (to_str markerShape) (to_num markerRadius) (to_str markerStrokeStyle)).

(** A line in the colour of the line. *)
Definition legend_line (i : nat) (props : config) (p : legend_cell) : res (list canvas_op) :=
  let own := c.["legendColorIndicatorStrokeWidth"] in
  let width := if truthy own then
                 (if (to_num own > text s c "legendFontSize")%num
                  then [SetLineWidth own; SetLineWidth (VNum (text s c "legendFontSize"))]
                  else [SetLineWidth own])
               else [SetLineWidth (VNum (line s c "datasetStrokeWidth"))] in
  let* style := outline_style i props p in
  let y := (ypos p - text s c "legendFontSize" / of_Z 2)%num in
  let x := (xpos p + of_Z 2)%num in
  let* dot := if truthy c.["pointDot"]
              then legend_marker i props (x + text s c "legendBlockSize" / of_Z 2)%num y else Ok [] in
  Ok (width ++ style ++ [MoveTo x y; LineTo (x + text s c "legendBlockSize")%num y; Stroke; FillOp] ++ dot ++ [FillOp]).

(** A block, unless the dataset is a line without an area in a chart of bars. *)
Definition has_block (props : config) : bool :=
  truthy (legendBox m) &&
  negb (bool_decide (tpchart = Bar) && loose_eq props.["type"] (VStr "Line") && negb (truthy c.["datasetFill"])).

Definition legend_entry (i : nat) (props : config) (title : string) (p : legend_cell) : res (list canvas_op) :=
  let* sign := if has_block props then legend_block i props p else legend_line i props p in
  let* color := setOptionValue callback (of_Z 1) "LEGENDFONTCOLOR" VUndef c.["legendFontColor"] (Z.of_nat i) (-1)
                  (VObj [("nullvalue", VBool true)]) in
  Ok ([Save; BeginPath] ++ sign ++
      [Restore; Save; BeginPath;
       SetFont (font_of c.["legendFontStyle"] (text s c "legendFontSize") c.["legendFontFamily"]);
       SetFillStyle color; SetTextAlign "left"; SetTextBaseline "bottom";
       Translate (xpos p + text s c "legendBlockSize" + space s c "legendSpaceBetweenBoxAndText")%num (ypos p);
       FillText title n0 n0; Restore]).

Fixpoint legend_entries (entries : list (nat * config)) (p : legend_cell) : res (list canvas_op) :=
  match entries with
  | [] => Ok []
  | (i, props) :: l =>
      let* t := legend_title props in
      match t with
      | None => legend_entries l p
      | Some title =>
          let p := next_cell p in
          let* ops := legend_entry i props title p in
          let* rest := legend_entries l p in
          Ok (ops ++ rest)
      end
  end.

(** The datasets (or segments) in the order of the legend: from the last one to
    the first one, or the other way round. *)
Definition legend_order (all : list config) : list (nat * config) :=
  if reverseLegend m then imap pair all else reverse (imap pair all).

Definition drawLegend (all : list config) : res (list canvas_op) :=
  let* entries := legend_entries (legend_order all) first_cell in
  Ok (legend_border ++ entries).

End Legend.

(** ** The grid *)

Section Grid.

Context `{MathLib}.
Context (toLocaleTimeString : jsval -> string).
Context (callback : positive -> string -> Z -> Z -> jsval -> res jsval).
Context (s : ctx_scales) (c : config) (tpchart : chart_type) (m : legend_msr).

(** Cell [j] of a grid with [n] columns, row by row: row [j / n], column [j mod n]. *)
Definition cell_at (n j : nat) : legend_cell := {|
  nbcols := of_Z (Z.of_nat (j mod n));
  xpos := Nat.iter (j mod n) (fun x => x + column_width s c m)%num (xFirstLegendTextPos m);
  ypos := Nat.iter (S (j / n)) (fun y => y + row_height s c)%num (yFirstLegendTextPos m - row_height s c)%num |}.

Lemma mod_div_succ (n j : nat) : (n <> 0)%nat ->
  (S (j mod n) = n /\ S j mod n = 0 /\ S j / n = S (j / n))%nat \/
  (S (j mod n) < n /\ S j mod n = S (j mod n) /\ S j / n = j / n)%nat.
Proof.
  intros Hn. pose proof (Nat.div_mod j n Hn) as Hj. pose proof (Nat.mod_upper_bound j n Hn) as Hlt.
  destruct (decide (S (j mod n) = n)) as [He|Hne].
  - left. split; [done|]. assert (S j = n * S (j / n) + 0)%nat as Hs by lia.
    split; [symmetry; by apply (Nat.mod_unique _ _ (S (j / n))); lia|symmetry; apply (Nat.div_unique _ _ _ 0); lia].
  - right. split; [lia|].
    split; [symmetry; by apply (Nat.mod_unique _ _ (j / n)); lia|symmetry; apply (Nat.div_unique _ _ _ (S (j mod n))); lia].
Qed.

Context (n : nat) (Hn : (1 <= n)%nat) (Hsafe : Z.of_nat n < 2 ^ 53) (Hcols : nbLegendCols m = of_Z (Z.of_nat n)).

Lemma first_cell_next : next_cell s c m (first_cell s c m) = cell_at n 0.
Proof.
  unfold next_cell, first_cell, cell_at. cbn [nbcols xpos ypos]. rewrite Hcols.
  rewrite nsub_of_Z, nadd_of_Z by (unfold safe; lia). rewrite neq_of_Z by (unfold safe; lia).
  replace (_ =? _) with true by (symmetry; apply Z.eqb_eq; lia).
  rewrite Nat.Div0.mod_0_l, Nat.Div0.div_0_l. done.
Qed.

Lemma cell_next (j : nat) : next_cell s c m (cell_at n j) = cell_at n (S j).
Proof.
  unfold next_cell, cell_at. cbn [nbcols xpos ypos]. rewrite Hcols.
  pose proof (Nat.mod_upper_bound j n ltac:(lia)).
  rewrite nadd_of_Z by (unfold safe; lia). rewrite neq_of_Z by (unfold safe; lia).
  destruct (mod_div_succ n j ltac:(lia)) as [(H1 & -> & ->)|(H1 & -> & ->)].
  - replace (_ =? _) with true by (symmetry; apply Z.eqb_eq; lia). done.
  - replace (_ =? _) with false by (symmetry; apply Z.eqb_neq; lia).
    by replace (Z.of_nat (j mod n) + 1) with (Z.of_nat (S (j mod n))) by lia.
Qed.

(** The entries that have a title, with it. *)
Fixpoint titled (entries : list (nat * config)) : res (list (nat * config * string)) :=
  match entries with
  | [] => Ok []
  | (i, props) :: l =>
      let* t := legend_title toLocaleTimeString c props in
      let* r := titled l in
      Ok (match t with Some title => (i, props, title) :: r | None => r end)
  end.

(** An entry with the operations that draw it in a cell. *)
Definition drawn_in (j : nat) (e : nat * config * string) (ops : list canvas_op) : Prop :=
  legend_entry callback s c tpchart m e.1.1 e.1.2 e.2 (cell_at n j) = Ok ops.

Lemma legend_entries_cells (entries : list (nat * config)) (p : legend_cell) (j : nat) (ops : list canvas_op) :
  next_cell s c m p = cell_at n j ->
  legend_entries toLocaleTimeString callback s c tpchart m entries p = Ok ops ->
  exists l blocks, titled entries = Ok l /\ ops = concat blocks /\ length blocks = length l /\
    forall i e b, l !! i = Some e -> blocks !! i = Some b -> drawn_in (j + i) e b.
Proof.
  revert p j ops. induction entries as [|[i props] entries IH]; intros p j ops Hp; cbn [legend_entries titled].
  { intros [= <-]. by exists [], []. }
  intros He. apply res_bind_Ok in He as (t & -> & He). cbn [res_bind]. destruct t as [title|].
  - apply res_bind_Ok in He as (o & Ho & He). apply res_bind_Ok in He as (rest & Hrest & He).
    apply Ok_inj in He as <-. rewrite Hp in *.
    destruct (IH _ (S j) _ (cell_next j) Hrest) as (l & blocks & -> & -> & Hlen & Hall).
    exists ((i, props, title) :: l), (o :: blocks). cbn [res_bind concat length].
    repeat split; [by rewrite Hlen|]. intros [|q] e b; cbn [lookup list_lookup].
    + intros [= <-] [= <-]. unfold drawn_in. by rewrite Nat.add_0_r.
    + intros Hl Hb. replace (j + S q)%nat with (S j + q)%nat by lia. by apply Hall.
  - destruct (IH _ j _ Hp He) as (l & blocks & -> & -> & Hlen & Hall). by exists l, blocks.
Qed.

(** C20: the legend is a grid.  Exactly the datasets (or segments) that have a
    title get an entry, in the order of the legend, and entry [j] is drawn in row
    [j / n] and column [j mod n] of the [n] columns that [setMeasures] has made
    room for, at equal distances. *)
Theorem legend_is_a_grid (all : list config) (ops : list canvas_op) :
  drawLegend toLocaleTimeString callback s c tpchart m all = Ok ops ->
  exists l blocks, titled (legend_order m all) = Ok l /\ ops = legend_border s c m ++ concat blocks /\
    length blocks = length l /\
    forall j e b, l !! j = Some e -> blocks !! j = Some b -> drawn_in j e b.
Proof.
  unfold drawLegend. intros Hd. apply res_bind_Ok in Hd as (ops' & He & Hd). apply Ok_inj in Hd as <-.
  destruct (legend_entries_cells _ _ 0 _ first_cell_next He) as (l & blocks & Hl & -> & Hlen & Hall).
  by exists l, blocks.
Qed.

End Grid.

(** ** The drawing state *)

Section Balanced.

Context `{MathLib}.
Context (toLocaleTimeString : jsval -> string).
Context (callback : positive -> string -> Z -> Z -> jsval -> res jsval).
Context (s : ctx_scales) (c : config) (tpchart : chart_type) (m : legend_msr).

Lemma legend_border_balanced : balanced (legend_border s c m).
Proof. unfold legend_border. by destruct (loose_eq _ _). Qed.

Lemma outline_style_balanced i props p ops : outline_style callback s c m i props p = Ok ops -> balanced ops.
Proof. unfold outline_style. intros Ho. succeed. by apply Ok_inj in Ho as <-. Qed.

Lemma legend_block_balanced i props p ops : legend_block callback s c m i props p = Ok ops -> balanced ops.
Proof.
  unfold legend_block. intros Ho. apply res_bind_Ok in Ho as (style & Hs%outline_style_balanced & Ho). succeed.
  apply Ok_inj in Ho as <-. intros n. cbn [app save_depth]. by rewrite (save_depth_app _ _ _ _ (Hs n)).
Qed.

Lemma legend_marker_balanced i props x y ops : legend_marker callback s c m i props x y = Ok ops -> balanced ops.
Proof.
  unfold legend_marker. destruct (negb _); [done|]. intros Ho. succeed. apply Ok_inj in Ho as <-.
  intros n. cbn [app save_depth]. apply balanced_marker.
Qed.

Lemma legend_line_balanced i props p ops : legend_line callback s c m i props p = Ok ops -> balanced ops.
Proof.
  unfold legend_line. intros Ho. apply res_bind_Ok in Ho as (style & Hs%outline_style_balanced & Ho).
  apply res_bind_Ok in Ho as (dot & Hdot & Ho). apply Ok_inj in Ho as <-.
  assert (balanced dot).
  { destruct (truthy c.["pointDot"]); [by eapply legend_marker_balanced|]. by apply Ok_inj in Hdot as <-. }
  apply balanced_app; [by repeat case_match|]. apply balanced_app; [done|].
  apply balanced_app; [done|]. by apply balanced_app.
Qed.

Lemma drawLegend_balanced (all : list config) (ops : list canvas_op) :
  drawLegend toLocaleTimeString callback s c tpchart m all = Ok ops -> balanced ops.
Proof.
  enough (Hl : forall l p ops, legend_entries toLocaleTimeString callback s c tpchart m l p = Ok ops -> balanced ops).
  { unfold drawLegend. intros Hd. succeed. apply Ok_inj in Hd as <-.
    apply balanced_app; [apply legend_border_balanced|by eapply Hl]. }
  induction l as [|[i props] l IH]; intros p o; cbn [legend_entries]; [by intros [= <-]|].
  intros He. apply res_bind_Ok in He as (t & _ & He). destruct t as [title|]; [|by eapply IH].
  apply res_bind_Ok in He as (e & Hent & He). apply res_bind_Ok in He as (rest & Hrest & He).
  apply Ok_inj in He as <-. apply balanced_app; [|by eapply IH].
  unfold legend_entry in Hent. apply res_bind_Ok in Hent as (sign & Hsign & Hent). succeed.
  apply Ok_inj in Hent as <-. assert (Hb : balanced sign).
  { destruct (has_block _ _ _ _); [by eapply legend_block_balanced|by eapply legend_line_balanced]. }
  intros n. cbn [app save_depth]. by rewrite (save_depth_app _ _ _ _ (Hb (S n))).
Qed.

End Balanced.

(** Three titles in two columns: the last one starts the second row. *)
Definition sample_legend : legend_msr := {|
  xLegendBorderPos := n0; yLegendBorderPos := n0; legendBorderWidth := n0; legendBorderHeight := n0;
  nbLegendCols := of_Z 2; xFirstLegendTextPos := of_Z 20; yFirstLegendTextPos := of_Z 30;
  drawLegendOnData := true; reverseLegend := true; legendBox := VBool true; widestLegend := of_Z 40 |}.

Definition titled_config (t : string) : config := {["title" := VStr t]}.
Definition sample_entries : list config := [titled_config "a"; titled_config "b"; ∅; titled_config "c"].

Lemma legend_is_a_grid_witness :
  exists ops b, drawLegend (H := sample_math) (fun _ => "") (fun _ _ _ _ _ => Ok VUndef) unit_scales ∅ Line sample_legend
      sample_entries = Ok ops /\
    drawn_in (H := sample_math) (fun _ _ _ _ _ => Ok VUndef) unit_scales ∅ Line sample_legend 2 2
      (3%nat, titled_config "c", "c") b.
Proof.
  destruct (drawLegend (H := sample_math) (fun _ => "") (fun _ _ _ _ _ => Ok VUndef) unit_scales ∅ Line sample_legend
    sample_entries) as [ops|e] eqn:Hops; [|vm_compute in Hops; discriminate].
  destruct (legend_is_a_grid (H := sample_math) (fun _ => "") (fun _ _ _ _ _ => Ok VUndef) unit_scales ∅ Line sample_legend
    2 ltac:(lia) ltac:(done) eq_refl sample_entries ops Hops) as (l & blocks & Hl & _ & Hlen & Hall).
  assert (Hl' : l = [(0%nat, titled_config "a", "a"); (1%nat, titled_config "b", "b"); (3%nat, titled_config "c", "c")]).
  { apply Ok_inj. rewrite <- Hl. vm_compute. reflexivity. }
  rewrite Hl' in Hlen. destruct blocks as [|b0 [|b1 [|b []]]]; try discriminate.
  exists ops, b. split; [reflexivity|]. rewrite Hl' in Hall. exact (Hall 2%nat _ b eq_refl eq_refl).
Defined.
