(* ===== verification/Layout.v ===== *)
(** * The layout of a chart (ChartNew.js)

    [setMeasures] measures the texts around a chart (titles, units, labels of the
    axes, legend, foot note), finds out how much room they leave for the chart and
    draws them. *)

From stdpp Require Import base list strings gmap.
From Stdlib Require Import ZArith Lia SpecFloat Reals Lra.
From S2P Require Import Prelude Num Binary64 Value Options OptionValue Format Scale Easing Canvas Cross Legend.

Open Scope string_scope.
Open Scope list_scope.
Open Scope Z_scope.

(** ** Arguments and results *)

(** The labels of an axis: an array, [null], or the string "nihil" in the calls
    that only measure. *)
Inductive axis_labels : Type :=
| Nihil
| NoLabels
| Labels (l : list string).

(** What the caller of [setMeasures] wants: the mirrored axes of horizontal
    charts, whether there are axes, and what the legend is about. *)
Record layout_kind : Type := {
  reverseLegend_ : bool;
  reverseAxis : bool;
  drawAxis : bool;
  drawLegendOnData_ : bool;
  legendBox_ : jsval
}.

(** [legendMsr]: undefined in a call that only measures, otherwise whether the
    legend is still to be drawn, inside the chart. *)
Inductive legend_state : Type :=
| LegendUndefined
| LegendDone
| LegendPending (m : legend_msr).

Record measures : Type := {
  leftNotUsableSize : num;
  rightNotUsableSize : num;
  m_availableWidth : num;
  topNotUsableSize : num;
  bottomNotUsableHeightWithoutXLabels : num;
  bottomNotUsableHeightWithXLabels : num;
  m_availableHeight : num;
  widestXLabel : num;
  highestXLabel : num;
  widestYLabel : num;
  widestYLabel2 : num;
  highestYLabel : num;
  rotateLabels : jsval;
  xLabelPos : num;
  legendMsr : legend_state
}.

Section Layout.

Context `{MathLib}.
Context (toLocaleTimeString : jsval -> string).
Context (callback : positive -> string -> Z -> Z -> jsval -> res jsval).
Context (measureText : string -> string -> num).
Context (s : ctx_scales) (c : config) (tpchart : chart_type) (k : layout_kind).

(** The size of the chart, and the size of the canvas in pixels of the device. *)
Context (width height canvas_width canvas_height : num).

(** The labels of the data, and the properties of what the legend lists. *)
Context (labels : list jsval) (entries : list config).

Let tx (key : string) : num := text s c key.
Let ln (key : string) : num := line s c key.
Let sp (key : string) : num := space s c key.

(** ** Measuring texts *)

(** [v.trim() != ""] *)
Definition has_text (v : jsval) : res bool :=
  match v with
  | VStr t => Ok (negb (String.eqb (trim t) ""))
  | _ => Throw TypeError
  end.

(** [v.split("\n").length] *)
Definition nb_lines (v : jsval) : num := of_Z (Z.of_nat (length (lines_of (to_str v)))).

(** [config.k != "none"] *)
Definition coloured (key : string) : bool := negb (loose_eq c.[key] (VStr "none")).

Definition borderWidth : num := if truthy c.["canvasBorders"] then ln "canvasBordersWidth" else n0.

Definition scale_font : string := font_of c.["scaleFontStyle"] (tx "scaleFontSize") c.["scaleFontFamily"].

(** The widest and the highest text so far. *)
Definition larger (wh : num * num) (txt : string) : num * num :=
  let '(w, h) := measureTextMultiLine (measureText scale_font) txt (tx "scaleFontSize") in
  ((if (w > wh.1)%num then w else wh.1), (if (h > wh.2)%num then h else wh.2)).

Definition at_least (minimum w : num) : num := if (w < minimum)%num then minimum else w.

Definition x_label_size : res (num * num) :=
  if drawAxis k then
    let* txts := res_mapM (fun l => fmtChartJS toLocaleTimeString c l (to_str c.["fmtXLabel"])) labels in
    let '(w, h) := fold_left larger (map to_str txts) (of_Z 1, of_Z 1) in
    Ok (at_least (tx "xScaleLabelsMinimumWidth") w, h)
  else Ok (of_Z 1, of_Z 1).

(** The labels of an axis, from the last one to the first one. *)
Definition y_label_size (ylabels : list string) (fmt : string) : res (num * num) :=
  let shown := List.filter (fun l => negb (String.eqb (trim l) "")) (reverse ylabels) in
  let* txts := res_mapM (fun l => fmtChartJS toLocaleTimeString c (VStr l) (to_str c.[fmt])) shown in
  Ok (fold_left larger (map to_str txts) (of_Z 1, of_Z 1)).

(** The widths of the labels of both axes, and the height of those of the first one. *)
Definition y_label_sizes (ylabels ylabels2 : axis_labels) : res (num * num * num) :=
  if drawAxis k then
    let* (w, h) := match ylabels with
                   | Labels l => y_label_size l "fmtYLabel"
                   | _ => Ok (of_Z 1, of_Z 1)
                   end in
    let w := at_least (tx "yScaleLabelsMinimumWidth") w in
    let* w2 := match ylabels2 with
               | Labels l => if truthy c.["yAxisRight"]
                             then let* (w2, _) := y_label_size l "fmtYLabel2" in Ok w2 else Ok w
               | _ => Ok w
               end in
    Ok (w, h, at_least (tx "yScaleLabelsMinimumWidth") w2)
  else Ok (n0, of_Z 1, n0).

(** ** The margins beside the chart *)

(** The label of the vertical axis: its width, and its position on the left and
    on the right. *)
Definition y_axis_label : res (num * num * num) :=
  if drawAxis k && negb (is_undefined c.["yAxisLabel"]) then
    let* some := has_text c.["yAxisLabel"] in
    let '(w, l, r) :=
      if some then
        (tx "yAxisFontSize" * nb_lines c.["yAxisLabel"] + sp "yAxisLabelSpaceLeft" + sp "yAxisLabelSpaceRight",
         borderWidth + sp "spaceLeft" + sp "yAxisLabelSpaceLeft" + tx "yAxisFontSize",
         width - borderWidth - sp "spaceRight" - sp "yAxisLabelSpaceLeft" - tx "yAxisFontSize")%num
      else (n0, n0, n0) in
    let '(w, l, r) :=
      if coloured "yAxisLabelBackgroundColor" || truthy c.["yAxisLabelBorders"] then
        let y := sp "yAxisLabelBordersYSpace" in (w + of_Z 2 * y, l + y, r - y)%num
      else (w, l, r) in
    Ok (if truthy c.["graphTitleBorders"] then
          let b := ln "yAxisLabelBordersWidth" in (w + of_Z 2 * b, l + b, r - b)%num
        else (w, l, r))
  else Ok (n0, n0, n0).

(** The room of an axis on one side. *)
Definition side_margin (shown spaceSide : string) (labelWidth widest : num) : num :=
  if drawAxis k && truthy c.[shown]
  then (borderWidth + sp spaceSide + labelWidth + widest + sp "yAxisSpaceLeft" + sp "yAxisSpaceRight")%num
  else (borderWidth + sp spaceSide)%num.

(** ** The rows above and below the chart *)

(** A title below [base]: its height and the position of its lower end; no title
    takes no room. *)
Definition title_block (pre : string) (base : num) : res (num * num) :=
  let* some := has_text c.[pre] in
  let key k := (pre ++ k)%string in
  if some then
    let h := (tx (key "FontSize") * nb_lines c.[pre] + sp (key "SpaceBefore") + sp (key "SpaceAfter"))%num in
    let y := (base + h - sp (key "SpaceAfter"))%num in
    let '(h, y) :=
      if coloured (key "BackgroundColor") || truthy c.[key "Borders"]
      then (h + of_Z 2 * sp (key "BordersYSpace"), y + sp (key "BordersYSpace"))%num else (h, y) in
    Ok (if truthy c.[key "Borders"]
        then (h + of_Z 2 * ln (key "BordersWidth"), y + ln (key "BordersWidth"))%num else (h, y))
  else Ok (n0, n0).

(** The unit of the vertical axis, whose border takes room even without a text. *)
Definition unit_block (base : num) : res (num * num) :=
  if drawAxis k then
    let* some := has_text c.["yAxisUnit"] in
    let '(h, y) :=
      if some then
        let h := (tx "yAxisUnitFontSize" * nb_lines c.["yAxisUnit"]
                  + sp "yAxisUnitSpaceBefore" + sp "yAxisUnitSpaceAfter")%num in
        (h, base + h - sp "yAxisUnitSpaceAfter")%num
      else (n0, n0) in
    let '(h, y) :=
      if coloured "yAxisUnitBackgroundColor" || truthy c.["yAxisUnitBorders"]
      then (h + of_Z 2 * sp "yAxisUnitBordersYSpace", y + sp "yAxisUnitBordersYSpace")%num else (h, y) in
    Ok (if truthy c.["yAxisUnitBorders"]
        then (h + of_Z 2 * ln "yAxisUnitBordersWidth", y + ln "yAxisUnitBordersWidth")%num else (h, y))
  else Ok (n0, n0).

Definition foot_note : res (num * num) :=
  if is_undefined c.["footNote"] then Ok (n0, n0)
  else
    let* some := has_text c.["footNote"] in
    if some then
      let h := (tx "footNoteFontSize" * nb_lines c.["footNote"]
                + sp "footNoteSpaceBefore" + sp "footNoteSpaceAfter")%num in
      let y := (height - sp "spaceBottom" - borderWidth - sp "footNoteSpaceAfter")%num in
      let '(h, y) :=
        if coloured "footNoteBackgroundColor" || truthy c.["footNoteBorders"]
        then (h + of_Z 2 * sp "footNoteBordersYSpace", y - sp "footNoteBordersYSpace")%num else (h, y) in
      Ok (if truthy c.["footNoteBorders"]
          then (h + of_Z 2 * ln "footNoteBordersWidth", y - ln "footNoteBordersWidth")%num else (h, y))
    else Ok (n0, n0).

Definition x_axis_label (footNoteHeight : num) : res (num * num) :=
  if drawAxis k && negb (is_undefined c.["xAxisLabel"]) then
    let* some := has_text c.["xAxisLabel"] in
    if some then
      let h := (tx "xAxisFontSize" * nb_lines c.["xAxisLabel"]
                + sp "xAxisLabelSpaceBefore" + sp "xAxisLabelSpaceAfter")%num in
      let y := (height - borderWidth - sp "spaceBottom" - footNoteHeight - sp "xAxisLabelSpaceAfter")%num in
      let '(h, y) :=
        if coloured "xAxisLabelBackgroundColor" || truthy c.["footNoteBorders"]
        then (h + of_Z 2 * sp "xAxisLabelBordersYSpace", y - sp "xAxisLabelBordersYSpace")%num else (h, y) in
      Ok (if truthy c.["footNoteBorders"]
          then (h + of_Z 2 * ln "xAxisLabelBordersWidth", y - ln "xAxisLabelBordersWidth")%num else (h, y))
    else Ok (n0, n0)
  else Ok (n0, n0).

(** ** The room of the legend *)

(** What the legend moves. *)
Record margins : Type := {
  g_left : num;
  g_right : num;
  g_top : num;
  g_bottom : num;                (** without the labels of the horizontal axis *)
  yAxisLabelPosLeft : num;
  yAxisLabelPosRight : num;
  yAxisUnitPosY : num;
  xAxisLabelPos : num
}.

(** The legend's grid and its place. *)
Record legend_room : Type := {
  g_x : num;
  g_y : num;
  g_borderX : num;
  g_borderY : num;
  g_borderWidth : num;
  g_borderHeight : num;
  spaceLegendHeight : num
}.

Definition no_legend_room : legend_room :=
  {| g_x := n0; g_y := n0; g_borderX := n0; g_borderY := n0; g_borderWidth := n0; g_borderHeight := n0;
     spaceLegendHeight := n0 |}.

Definition legend_on : bool := negb (is_undefined c.["legend"]) && loose_eq c.["legend"] (VBool true).
Definition legend_borders : bool := loose_eq c.["legendBorders"] (VBool true).

Definition legend_font : string := font_of c.["legendFontStyle"] (tx "legendFontSize") c.["legendFontFamily"].

(** The width of the widest title, and the number of titles. *)
Definition legend_titles : res (num * Z) :=
  if legend_on then
    let titles := omap (fun e => match e.["title"] with
                                 | VStr t => if String.eqb (trim t) "" then None else Some t
                                 | _ => None end) (reverse entries) in
    let* txts := res_mapM (fun t => fmtChartJS toLocaleTimeString c (VStr t) (to_str c.["fmtLegend"])) titles in
    Ok (fold_left (fun w t => let l := measureText legend_font (to_str t) in if (l > w)%num then l else w) txts n0,
        Z.of_nat (length txts))
  else Ok (n0, 0).

(** Whether there is a legend. *)
Definition legend_shown (nbeltLegend : Z) : bool :=
  (1 <? nbeltLegend) || (nbeltLegend =? 1) && truthy c.["showSingleLegend"].

(** [config.legendPosY == z], and the same value in a [switch]. *)
Definition posY_eq (z : Z) : bool := loose_eq c.["legendPosY"] (VInt z).
Definition switch_int (v : jsval) (z : Z) : bool := match v with VNum n => (n == of_Z z)%num | _ => false end.

Definition spH : num := sp "legendSpaceBetweenTextHorizontal".
Definition lnW : num := ln "legendBordersWidth".

(** The width of the legend's columns, the number of its columns and rows. *)
Definition legend_grid (availableWidth widest : num) (nbeltLegend : Z) : num * num * num :=
  let widestLegend := (widest + (tx "legendBlockSize" + sp "legendSpaceBetweenBoxAndText"))%num in
  let inner := Math_ceil (ctx_space s * sp "legendSpaceLeftText")%num in
  let avail :=
    if posY_eq 1 || posY_eq 2 || posY_eq 3 then (availableWidth - inner - sp "legendSpaceRightText")%num
    else (width - sp "spaceLeft" - sp "spaceRight" - of_Z 2 * borderWidth - inner - sp "legendSpaceRightText")%num in
  let avail := if legend_borders
               then (avail - (of_Z 2 * lnW - sp "legendBordersSpaceLeft" - sp "legendBordersSpaceRight"))%num
               else avail in
  let maxLegendOnLine := Min [Math_floor ((avail + spH) / (widestLegend + spH)); fnum c "maxLegendCols"]%num in
  let nbLegendLines := Math_ceil (of_Z nbeltLegend / maxLegendOnLine)%num in
  let nbLegendCols := Math_ceil (of_Z nbeltLegend / nbLegendLines)%num in
  (widestLegend, nbLegendCols, nbLegendLines).

Section LegendRoom.

Context (widestLegend nbLegendCols nbLegendLines : num).

Definition legendHeight : num :=
  (nbLegendLines * (tx "legendFontSize" + sp "legendSpaceBetweenTextVertical") - sp "legendSpaceBetweenTextVertical"
   + sp "legendSpaceBeforeText" + sp "legendSpaceAfterText")%num.

Definition columns_width : num := (nbLegendCols * (widestLegend + spH))%num.

Definition centred_x : num :=
  (sp "spaceLeft" + (width - sp "spaceLeft" - sp "spaceRight" - columns_width + spH) / of_Z 2)%num.

(** The height with the border, and the border around a legend at [x]. *)
Definition bordered_height (h : num) : num :=
  (h + (of_Z 2 * lnW + sp "legendBordersSpaceBefore" + sp "legendBordersSpaceAfter"))%num.

Definition with_border (x y borderY h : num) : legend_room := {|
  g_x := x; g_y := y; g_borderY := borderY; spaceLegendHeight := h;
  g_borderX := Math_floor (x - sp "legendSpaceLeftText" - lnW / of_Z 2)%num;
  g_borderHeight := (Math_ceil (h - lnW) - sp "legendBordersSpaceBefore" - sp "legendBordersSpaceAfter")%num;
  g_borderWidth := (Math_ceil columns_width - spH + lnW + sp "legendSpaceRightText" + sp "legendSpaceLeftText")%num |}.

Definition without_border (x y h : num) : legend_room := {|
  g_x := x; g_y := y; g_borderX := n0; g_borderY := n0; g_borderWidth := n0; g_borderHeight := n0;
  spaceLegendHeight := h |}.

(** A legend whose first line of text has its lower end at [y]; [dy] is what the
    border adds to it. *)
Definition legend_at (y dy : num) : legend_room :=
  if legend_borders then
    let y := (y + dy)%num in
    with_border centred_x y (y - sp "legendSpaceBeforeText" - tx "legendFontSize" - lnW / of_Z 2)%num
      (bordered_height legendHeight)
  else without_border centred_x y legendHeight.

(** The vertical place of the legend: [legendPosY]. *)
Definition legend_posY (yAxisUnitHeight footNoteHeight : num) (g : margins) : legend_room * margins :=
  let v := c.["legendPosY"] in
  let below y := (y + sp "legendSpaceBeforeText" + tx "legendFontSize")%num in
  if switch_int v 0 then
    let r :=
      if legend_borders then
        let by_ := (g_top g + sp "legendBordersSpaceBefore" + lnW / of_Z 2)%num in
        with_border centred_x (below (by_ + lnW / of_Z 2)%num) by_ (bordered_height legendHeight)
      else without_border centred_x (g_top g + sp "legendBordersSpaceBefore" + lnW / of_Z 2)%num legendHeight in
    let h := spaceLegendHeight r in
    let above := (yAxisUnitHeight > n0)%num in
    ({| g_x := g_x r; g_y := if above then (g_y r - yAxisUnitHeight)%num else g_y r;
        g_borderX := g_borderX r;
        g_borderY := if above && legend_borders then (g_borderY r - yAxisUnitHeight)%num else g_borderY r;
        g_borderWidth := g_borderWidth r; g_borderHeight := g_borderHeight r; spaceLegendHeight := h |},
     {| g_left := g_left g; g_right := g_right g; g_top := (g_top g + h)%num; g_bottom := g_bottom g;
        yAxisLabelPosLeft := yAxisLabelPosLeft g; yAxisLabelPosRight := yAxisLabelPosRight g;
        yAxisUnitPosY := if above then (yAxisUnitPosY g + h)%num else yAxisUnitPosY g;
        xAxisLabelPos := xAxisLabelPos g |})
  else if switch_int v 1 then
    (legend_at (below (g_top g)) (sp "legendBordersSpaceBefore" + lnW)%num, g)
  else if switch_int v 2 then
    (legend_at (below (g_top g + (height - g_top g - g_bottom g - legendHeight) / of_Z 2)%num)
       (sp "legendBordersSpaceBefore" - sp "legendBordersSpaceAfter")%num, g)
  else if switch_int v (-2) then
    (legend_at (below ((height - legendHeight) / of_Z 2)%num)
       (sp "legendBordersSpaceBefore" - sp "legendBordersSpaceAfter")%num, g)
  else if switch_int v 3 then
    (legend_at (below (g_top g + (height - g_top g - g_bottom g) - legendHeight)%num)
       (nneg (sp "legendBordersSpaceAfter" + lnW))%num, g)
  else
    let base h := (height - borderWidth - sp "spaceBottom" - footNoteHeight - h)%num in
    let y := below (base legendHeight) in
    let r :=
      if legend_borders then
        let h := bordered_height legendHeight in
        with_border centred_x (y - (lnW + sp "legendBordersSpaceAfter"))%num
          (Math_floor (base h + lnW / of_Z 2 + sp "legendBordersSpaceBefore"))%num h
      else without_border centred_x y legendHeight in
    let h := spaceLegendHeight r in
    (r, {| g_left := g_left g; g_right := g_right g; g_top := g_top g; g_bottom := (g_bottom g + h)%num;
           yAxisLabelPosLeft := yAxisLabelPosLeft g; yAxisLabelPosRight := yAxisLabelPosRight g;
           yAxisUnitPosY := yAxisUnitPosY g; xAxisLabelPos := (xAxisLabelPos g - h)%num |}).

(** The horizontal place of the legend: [legendPosX]; at the sides of the canvas a
    legend beside the chart takes room from it. *)
Definition legend_posX (r : legend_room) (g : margins) : legend_room * margins :=
  let v := c.["legendPosX"] in
  let full := (sp "legendSpaceRightText" + columns_width - spH + sp "legendSpaceLeftText")%num in
  let full := if legend_borders
              then (full + (of_Z 2 * lnW + sp "legendBordersSpaceLeft" + sp "legendBordersSpaceRight"))%num else full in
  let canvas_border := (to_num c.["canvasBorders"] * ln "canvasBordersWidth")%num in
  let beside := (fnum c "legendPosY" >= of_Z 1)%num && (fnum c "legendPosY" <= of_Z 3)%num || posY_eq (-2) in
  let at_ x bx := {| g_x := x; g_y := g_y r; g_borderX := if legend_borders then bx else g_borderX r;
                     g_borderY := g_borderY r; g_borderWidth := g_borderWidth r;
                     g_borderHeight := g_borderHeight r; spaceLegendHeight := spaceLegendHeight r |} in
  let shift := (lnW / of_Z 2 + sp "legendBordersSpaceRight")%num in
  if switch_int v 0 then
    let x := (sp "spaceLeft" + canvas_border + sp "legendSpaceLeftText")%num in
    (at_ (if legend_borders then (x + (lnW / of_Z 2 + sp "legendBordersSpaceLeft"))%num else x)
         (sp "spaceLeft" + canvas_border + sp "legendBordersSpaceLeft")%num,
     if beside then
       {| g_left := (g_left g + full)%num; g_right := g_right g; g_top := g_top g; g_bottom := g_bottom g;
          yAxisLabelPosLeft := (yAxisLabelPosLeft g + full)%num; yAxisLabelPosRight := yAxisLabelPosRight g;
          yAxisUnitPosY := yAxisUnitPosY g; xAxisLabelPos := xAxisLabelPos g |}
     else g)
  else if switch_int v 1 then
    let x := (g_left g + sp "legendSpaceLeftText")%num in
    (at_ (if legend_borders then (x + (lnW / of_Z 2 + sp "legendBordersSpaceLeft"))%num else x) x, g)
  else if switch_int v 2 then
    let x := (g_left g + (width - g_right g - g_left g) / of_Z 2
              - (sp "legendSpaceLeftText" - sp "legendSpaceRightText") - (columns_width - spH) / of_Z 2)%num in
    let x := if legend_borders then (x - shift)%num else x in
    (at_ x (x - lnW / of_Z 2 - sp "legendSpaceLeftText")%num, g)
  else if switch_int v 3 then
    let x := (width - g_right g - sp "legendSpaceRightText" - columns_width + spH / of_Z 2)%num in
    let x := if legend_borders then (x - shift)%num else x in
    (at_ x (x - lnW / of_Z 2 - sp "legendSpaceLeftText")%num, g)
  else if switch_int v 4 then
    let x := (width - sp "spaceRight" - canvas_border - sp "legendSpaceRightText" - columns_width + spH / of_Z 2)%num in
    let x := if legend_borders then (x - shift)%num else x in
    (at_ x (x - sp "legendBordersSpaceLeft" - lnW / of_Z 2)%num,
     if beside then
       {| g_left := g_left g; g_right := (g_right g + full)%num; g_top := g_top g; g_bottom := g_bottom g;
          yAxisLabelPosLeft := yAxisLabelPosLeft g; yAxisLabelPosRight := (yAxisLabelPosRight g - full)%num;
          yAxisUnitPosY := yAxisUnitPosY g; xAxisLabelPos := xAxisLabelPos g |}
     else g)
  else (r, g).

(** The user's own shift of the legend. *)
Definition pad_legend (r : legend_room) : legend_room := {|
  g_x := (g_x r + sp "legendXPadding")%num; g_y := (g_y r + sp "legendYPadding")%num;
  g_borderX := if legend_borders then (g_borderX r + sp "legendXPadding")%num else g_borderX r;
  g_borderY := if legend_borders then (g_borderY r + sp "legendYPadding")%num else g_borderY r;
  g_borderWidth := g_borderWidth r; g_borderHeight := g_borderHeight r; spaceLegendHeight := spaceLegendHeight r |}.

End LegendRoom.

(** The legend's room, its grid and what is left around it. *)
Definition legend_layout (yAxisUnitHeight footNoteHeight : num) (g : margins)
    : res (legend_room * num * num * Z * margins) :=
  let* (widest, nbeltLegend) := legend_titles in
  if legend_shown nbeltLegend then
    let '(widestLegend, cols, rows) := legend_grid (width - g_left g - g_right g)%num widest nbeltLegend in
    let '(r, g) := legend_posY widestLegend cols rows yAxisUnitHeight footNoteHeight g in
    let '(r, g) := legend_posX widestLegend cols r g in
    Ok (pad_legend r, widestLegend, cols, nbeltLegend, g)
  else Ok (no_legend_room, widest, n0, nbeltLegend, g).

(** ** The labels of the horizontal axis *)

(** The number of labels along the horizontal axis; the string "nihil" has five
    characters. *)
Definition nblab (ylabels : axis_labels) : res num :=
  if reverseAxis k then
    match ylabels with
    | Nihil => Ok (of_Z 5)
    | NoLabels => Throw TypeError
    | Labels l => Ok (of_Z (Z.of_nat (length l)))
    end
  else Ok (of_Z (Z.of_nat (length labels))).

Definition degrees (a : num) : num := (a * Math_PI / of_Z 180)%num.

(** The angle of the labels: as configured between 0 and 180 degrees, or only as
    much as it takes ("smart"); angles above 90 are turned upside down. *)
Definition x_label_angle (availableWidth n widestLabel : num) : jsval :=
  let r :=
    if loose_eq c.["rotateLabels"] (VStr "smart") then
      if ((availableWidth + tx "xAxisSpaceBetweenLabels") / n < widestLabel + tx "xAxisSpaceBetweenLabels")%num then
        if (availableWidth / n < Math_abs (Math_cos (degrees (of_Z 45)) * widestLabel))%num then VInt 90 else VInt 45
      else VInt 0
    else
      let r := c.["rotateLabels"] in
      let r := if (to_num r < n0)%num then VInt 0 else r in
      if (to_num r > of_Z 180)%num then VInt 180 else r in
  if (to_num r > of_Z 90)%num then js_add r (VInt 180) else r.

(** The height and the width of a label that is turned by [r]. *)
Definition turned (r : jsval) (widest highest : num) : num * num :=
  let a := degrees (to_num r) in
  let b := degrees (to_num (js_add r (VInt 90))) in
  (Math_abs (Math_sin a * widest) + Math_abs (Math_sin b * highest),
   Math_abs (Math_cos a * widest) + Math_abs (Math_cos b * highest))%num.

(** ** What is drawn around the chart *)

(** The border of the canvas. *)
Definition canvas_border_ops : list canvas_op :=
  if (borderWidth > n0)%num then
    [Save; BeginPath; SetLineWidth (VNum (of_Z 2 * borderWidth)%num);
     SetLineDash (lineStyleFn (to_str c.["canvasBordersStyle"])); SetStrokeStyle c.["canvasBordersColor"];
     MoveTo n0 n0; LineTo n0 height; LineTo width height; LineTo width n0; LineTo n0 n0;
     Stroke; SetLineDash []; Restore]
  else [].

(** The style of a text: centered above its position. *)
Definition text_style (fonts : string) : list canvas_op :=
  let key k := (fonts ++ k)%string in
  [SetFont (font_of c.[key "FontStyle"] (tx (key "FontSize")) c.[key "FontFamily"]);
   SetFillStyle c.[key "FontColor"]; SetTextAlign "center"; SetTextBaseline "bottom"].

Definition text_frame (fonts boxes : string) (txt : jsval) (x y : num) : list canvas_op :=
  let key k := (boxes ++ k)%string in
  let size := tx (fonts ++ "FontSize") in
  setTextBordersAndBackground
    (measureText (font_of c.[(fonts ++ "FontStyle")%string] size c.[(fonts ++ "FontFamily")%string]))
    "center" "bottom" txt size x y c.[key "Borders"] c.[key "BordersColor"] (ln (key "BordersWidth"))
    (sp (key "BordersXSpace")) (sp (key "BordersYSpace")) (to_str c.[key "BordersStyle"]) c.[key "BackgroundColor"].

(** A text at a position; a foot note does not begin a path. *)
Definition text_row (begin : list canvas_op) (fonts : string) (txt : jsval) (x y : num) : list canvas_op :=
  [Save] ++ begin ++ text_style fonts ++ text_frame fonts fonts txt x y ++ [Translate x y]
  ++ fillTextMultiLine (to_str txt) n0 n0 "bottom" (tx (fonts ++ "FontSize")) true ++ [Stroke; Restore].

(** The label of the vertical axis, turned by 90 degrees. *)
Definition turned_label (txt : jsval) (x y angle : num) : list canvas_op :=
  [Save; BeginPath] ++ text_style "yAxis" ++ [Translate x y; Rotate angle]
  ++ text_frame "yAxis" "yAxisLabel" txt n0 n0
  ++ fillTextMultiLine (to_str txt) n0 n0 "bottom" (tx "yAxisFontSize") false ++ [Stroke; Restore].

(** The label of the horizontal axis has the options of its own box. *)
Definition x_label_row (x y : num) : list canvas_op :=
  [Save; BeginPath] ++ text_style "xAxis" ++ text_frame "xAxis" "xAxisLabel" c.["xAxisLabel"] x y ++ [Translate x y]
  ++ fillTextMultiLine (to_str c.["xAxisLabel"]) n0 n0 "bottom" (tx "xAxisFontSize") true ++ [Stroke; Restore].

(** The second axis has its own unit and label, if they are not empty. *)
Definition second (own first : string) : jsval := if loose_eq c.[own] (VStr "") then c.[first] else c.[own].

Definition when (b : bool) (l : list canvas_op) : list canvas_op := if b then l else [].

Definition titles_ops (titleH titleY subH subY unitH unitY left right : num) : list canvas_op :=
  let middle := (sp "spaceLeft" + (width - sp "spaceLeft" - sp "spaceRight") / of_Z 2)%num in
  when (titleH > n0)%num (text_row [BeginPath] "graphTitle" c.["graphTitle"] middle titleY)
  ++ when (subH > n0)%num (text_row [BeginPath] "graphSubTitle" c.["graphSubTitle"] middle subY)
  ++ when (unitH > n0)%num (
       when (truthy c.["yAxisLeft"]) (text_row [BeginPath] "yAxisUnit" c.["yAxisUnit"] left unitY)
       ++ when (truthy c.["yAxisRight"])
            (text_row [BeginPath] "yAxisUnit" (second "yAxisUnit2" "yAxisUnit") (width - right)%num unitY)).

Definition axis_label_ops (labelW labelLeft labelRight labelH labelY0 left top availableWidth availableHeight : num)
    : list canvas_op :=
  let y := (top + availableHeight / of_Z 2)%num in
  let quarter := (of_Z 90 * (Math_PI / of_Z 180))%num in
  when (labelW > n0)%num (
    when (truthy c.["yAxisLeft"]) (turned_label c.["yAxisLabel"] labelLeft y (nneg quarter))
    ++ when (truthy c.["yAxisRight"]) (turned_label (second "yAxisLabel2" "yAxisLabel") labelRight y quarter))
  ++ when ((labelH > n0)%num && truthy c.["xAxisBottom"]) (x_label_row (left + availableWidth / of_Z 2)%num labelY0).

(** The legend is drawn here when it lies outside of the chart. *)
Definition legend_outside : bool :=
  posY_eq 0 || posY_eq 4 || loose_eq c.["legendPosX"] (VInt 0) || loose_eq c.["legendPosX"] (VInt 4).

Definition legend_ops (nbeltLegend : Z) (m : legend_msr) : res (list canvas_op * legend_state) :=
  if legend_shown nbeltLegend then
    if legend_outside then
      let* ops := drawLegend toLocaleTimeString callback s c tpchart m entries in Ok (ops, LegendDone)
    else Ok ([], LegendPending m)
  else Ok ([], LegendDone).

Definition foot_note_ops (x y : num) : res (list canvas_op) :=
  let* some := has_text c.["footNote"] in
  Ok (when some (text_row [] "footNote" c.["footNote"] x y)).

(** ** The measures *)

(** The room around the chart before the legend and the labels of the horizontal
    axis are known: the rows above the chart with their positions, and the
    margins. *)
Record outer : Type := {
  o_title : num * num;
  o_subTitle : num * num;
  o_unit : num;
  o_footNote : num * num;
  o_xAxisLabel : num;
  o_yAxisLabel : num;
  o_margins : margins
}.

Definition outer_room (widestX widestY widestY2 : num) : res outer :=
  let* (labelW, labelLeft, labelRight) := y_axis_label in
  let across := if reverseAxis k then widestX else widestY in
  let across2 := if reverseAxis k then widestX else widestY2 in
  let top0 := (borderWidth + sp "spaceTop")%num in
  let* (titleH, titleY) := title_block "graphTitle" top0 in
  let* (subH, subY) := title_block "graphSubTitle" (top0 + titleH)%num in
  let* (unitH, unitY) := unit_block (top0 + titleH + subH)%num in
  let* (footH, footY) := foot_note in
  let* (labelH, labelY0) := x_axis_label footH in
  Ok {| o_title := (titleH, titleY); o_subTitle := (subH, subY); o_unit := unitH; o_footNote := (footH, footY);
        o_xAxisLabel := labelH; o_yAxisLabel := labelW;
        o_margins := {|
          g_left := side_margin "yAxisLeft" "spaceLeft" labelW across;
          g_right := side_margin "yAxisRight" "spaceRight" labelW across2;
          g_top := (top0 + titleH + subH + unitH + tx "graphSpaceBefore")%num;
          g_bottom := (borderWidth + sp "spaceBottom" + footH + labelH + tx "graphSpaceAfter")%num;
          yAxisLabelPosLeft := labelLeft; yAxisLabelPosRight := labelRight;
          yAxisUnitPosY := unitY; xAxisLabelPos := labelY0 |} |}.

(** The labels of the horizontal axis: their angle, their position, the room they
    take below the chart, and the margins beside it. *)
Definition x_labels_room (ylabels : axis_labels) (widestX highestX widestY highestY footH labelH legendH : num) (g : margins)
    : res (jsval * num * num * num * num) :=
  if drawAxis k && (truthy c.["xAxisBottom"] || truthy c.["xAxisTop"]) then
    let widest := if reverseAxis k then widestY else widestX in
    let highest := if reverseAxis k then highestY else highestX in
    let* n := nblab ylabels in
    let r := x_label_angle (width - g_left g - g_right g)%num n widest in
    let '(turnedH, turnedW) := turned r widest highest in
    let h := (turnedH + sp "xAxisSpaceBefore" + sp "xAxisSpaceAfter")%num in
    let y := (height - borderWidth - sp "spaceBottom" - footH - labelH - (h - sp "xAxisSpaceBefore")
              - tx "graphSpaceAfter")%num in
    let y := if truthy c.["legend"] && truthy c.["xAxisBottom"] && posY_eq 4 then (y - legendH)%num else y in
    Ok (r, y, (g_bottom g + h)%num,
        Max [g_left g; borderWidth + sp "spaceLeft" + turnedW / of_Z 2]%num,
        Max [g_right g; borderWidth + sp "spaceRight" + turnedW / of_Z 2]%num)
  else Ok (VInt 0, n0, g_bottom g, g_left g, g_right g).

Definition setMeasures (ylabels ylabels2 : axis_labels) : res (measures * list canvas_op) :=
  let* (widestX, highestX) := x_label_size in
  let* (widestY, highestY, widestY2) := y_label_sizes ylabels ylabels2 in
  let* o := outer_room widestX widestY widestY2 in
  let* (r, widest, cols, nbeltLegend, g) := legend_layout (o_unit o) (o_footNote o).1 (o_margins o) in
  let* (angle, labelY, bottom, l, rgt) :=
    x_labels_room ylabels widestX highestX widestY highestY (o_footNote o).1 (o_xAxisLabel o) (spaceLegendHeight r) g in
  let availableWidth := (width - l - rgt)%num in
  let availableHeight := (height - g_top g - bottom)%num in
  let place := {| posX := (width / of_Z 2)%num; posY := (height / of_Z 2)%num; borderX := (width / of_Z 2)%num;
                  borderY := (height / of_Z 2)%num; canvasWidth := canvas_width; canvasHeight := canvas_height;
                  overlay := false; animPC := of_Z (-1); cntiter := -1 |} in
  let* image := dispCrossImage s c place in
  let before := when (coloured "canvasBackgroundColor") [SetBackground c.["canvasBackgroundColor"]] ++ image in
  let m := {| xLegendBorderPos := g_borderX r; yLegendBorderPos := g_borderY r;
              legendBorderWidth := g_borderWidth r; legendBorderHeight := g_borderHeight r;
              nbLegendCols := cols; xFirstLegendTextPos := g_x r; yFirstLegendTextPos := g_y r;
              drawLegendOnData := drawLegendOnData_ k; reverseLegend := reverseLegend_ k;
              legendBox := legendBox_ k; widestLegend := widest |} in
  let* (ops, state) :=
    match ylabels with
    | Nihil => Ok ([], LegendUndefined)
    | _ =>
        let* (legend, state) := legend_ops nbeltLegend m in
        let* note := foot_note_ops (l + availableWidth / of_Z 2)%num (o_footNote o).2 in
        Ok (canvas_border_ops
            ++ titles_ops (o_title o).1 (o_title o).2 (o_subTitle o).1 (o_subTitle o).2 (o_unit o) (yAxisUnitPosY g)
                 l rgt
            ++ axis_label_ops (o_yAxisLabel o) (yAxisLabelPosLeft g) (yAxisLabelPosRight g) (o_xAxisLabel o)
                 (xAxisLabelPos g) l (g_top g) availableWidth availableHeight
            ++ legend ++ note, state)
    end in
  Ok ({| leftNotUsableSize := l; rightNotUsableSize := rgt; m_availableWidth := availableWidth;
         topNotUsableSize := g_top g; bottomNotUsableHeightWithoutXLabels := g_bottom g;
         bottomNotUsableHeightWithXLabels := bottom; m_availableHeight := availableHeight;
         widestXLabel := widestX; highestXLabel := highestX; widestYLabel := widestY; widestYLabel2 := widestY2;
         highestYLabel := highestY; rotateLabels := angle; xLabelPos := labelY; legendMsr := state |},
      before ++ ops).

End Layout.

(** ** Rows of texts *)

Section Rows.

Context `{MathLib}.
Context (c : config) (k : layout_kind) (width height : num).

(** An option that is a whole number of pixels. *)
Definition pixels (key : string) : Prop := exists n, c.[key] = VInt n /\ 0 <= n <= 2 ^ 20.

Lemma scaled_pixels (x : num) (n : Z) : 0 <= n <= 2 ^ 20 -> x = of_Z 1 -> Math_ceil (x * of_Z n)%num = of_Z n.
Proof.
  intros Hn ->. rewrite nmul_of_Z_nonneg by (unfold safe; lia). rewrite Z.mul_1_l. apply Math_ceil_of_Z. unfold safe; lia.
Qed.

Lemma pixels_spec (key : string) : pixels key -> exists n, 0 <= n <= 2 ^ 20 /\
  text unit_scales c key = of_Z n /\ line unit_scales c key = of_Z n /\ space unit_scales c key = of_Z n.
Proof.
  intros (n & Hn & Hb). exists n. split; [done|]. unfold text, line, space, fnum. rewrite Hn.
  change (to_num (VInt n)) with (of_Z n). by rewrite !scaled_pixels.
Qed.

(** A title with its font, its spaces and its box. *)
Record title_pixels (pre : string) : Prop := {
  title_sizes : Forall (fun e => pixels (pre ++ e)%string)
                  ["FontSize"; "SpaceBefore"; "SpaceAfter"; "BordersYSpace"; "BordersWidth"];
  title_text : exists t, c.[pre] = VStr t /\ Z.of_nat (String.length t) < 2 ^ 20
}.

(** The room that the box of a title takes on each side of its text. *)
Definition frame (pre : string) : num :=
  ((if coloured c (pre ++ "BackgroundColor") || truthy c.[(pre ++ "Borders")%string]
    then space unit_scales c (pre ++ "BordersYSpace") else n0)
   + (if truthy c.[(pre ++ "Borders")%string] then line unit_scales c (pre ++ "BordersWidth") else n0))%num.

(** The text of a title and its box lie in the row from [b] to [b + h]; [y] is the
    lower end of the text. *)
Definition in_row (pre : string) (b h y : Z) : Prop :=
  has_text c.[pre] = Ok true ->
  exists t f, (text unit_scales c (pre ++ "FontSize") * nb_lines c.[pre])%num = of_Z t /\
    frame pre = of_Z f /\ 0 <= t /\ 0 <= f /\ b + f + t <= y /\ y + f <= b + h.

Lemma split_lines_length (fuel : nat) (t : string) : (length (split_lines fuel t) <= S fuel)%nat.
Proof.
  revert t. induction fuel as [|f IH]; intros t; cbn [split_lines]; destruct (take_line t) as [a [r|]]; cbn [length];
    [lia|lia| |lia]. specialize (IH r). lia.
Qed.

Lemma nb_lines_pixels (t : string) : Z.of_nat (String.length t) < 2 ^ 20 ->
  exists n, nb_lines (VStr t) = of_Z n /\ 0 <= n <= 2 ^ 20.
Proof.
  intros Ht. eexists. split; [reflexivity|]. unfold lines_of. cbn [to_str].
  pose proof (split_lines_length (String.length t) t). lia.
Qed.

Ltac pixel_sums := repeat first
  [ rewrite nadd_of_Z by (unfold safe; lia) | rewrite nsub_of_Z by (unfold safe; lia)
  | rewrite (nmul_of_Z_nonneg 2) by (unfold safe; lia) ].

(** The sizes of a title, in pixels. *)
Lemma title_pixels_spec (pre : string) : title_pixels pre ->
  exists t fs sb sa ys bw, 0 <= fs <= 2 ^ 20 /\ 0 <= sb <= 2 ^ 20 /\ 0 <= sa <= 2 ^ 20 /\ 0 <= ys <= 2 ^ 20 /\
    0 <= bw <= 2 ^ 20 /\ 0 <= t <= 2 ^ 40 /\
    (text unit_scales c (pre ++ "FontSize") * nb_lines c.[pre])%num = of_Z t /\
    space unit_scales c (pre ++ "SpaceBefore") = of_Z sb /\ space unit_scales c (pre ++ "SpaceAfter") = of_Z sa /\
    space unit_scales c (pre ++ "BordersYSpace") = of_Z ys /\ line unit_scales c (pre ++ "BordersWidth") = of_Z bw.
Proof.
  intros [Hs (txt & Htxt & Hlen)].
  repeat (apply Forall_cons in Hs as [?%pixels_spec Hs]).
  destruct H0 as (fs & ? & Hfs & _), H1 as (sb & ? & _ & _ & Hsb), H2 as (sa & ? & _ & _ & Hsa),
    H3 as (ys & ? & _ & _ & Hys), H4 as (bw & ? & _ & Hbw & _).
  destruct (nb_lines_pixels txt Hlen) as (n & Hn & Hb).
  exists (fs * n), fs, sb, sa, ys, bw. rewrite Htxt, Hn, Hfs, nmul_of_Z_nonneg by (unfold safe; nia).
  repeat split; try done; nia.
Qed.

Lemma title_block_row (pre : string) (b : Z) : title_pixels pre -> 0 <= b <= 2 ^ 45 ->
  exists h y, title_block unit_scales c pre (of_Z b) = Ok (of_Z h, of_Z y) /\ 0 <= h <= 2 ^ 42 /\ in_row pre b h y.
Proof.
  intros Hp Hb. destruct (title_pixels_spec pre Hp) as (t & fs & sb & sa & ys & bw & ? & ? & ? & ? & ? & ? & Ht & Hsb &
    Hsa & Hys & Hbw). destruct Hp as [_ (txt & Htxt & _)].
  unfold title_block, in_row, frame. rewrite Ht, Hsb, Hsa, Hys, Hbw, Htxt. cbn [has_text res_bind].
  destruct (String.eqb (trim txt) ""); cbn [negb].
  - exists 0, 0. split; [done|]. split; [lia|done].
  - destruct (coloured c _), (truthy _); cbn [orb]; change n0 with (of_Z 0); pixel_sums; (eexists _, _);
      (split; [reflexivity|]); (split; [lia|]); intros _; (eexists _, _); (split; [reflexivity|]);
      (split; [reflexivity|]); lia.
Qed.

Lemma unit_block_row (b : Z) : title_pixels "yAxisUnit" -> 0 <= b <= 2 ^ 45 ->
  exists h y, unit_block unit_scales c k (of_Z b) = Ok (of_Z h, of_Z y) /\ 0 <= h <= 2 ^ 42 /\
    (drawAxis k = true -> in_row "yAxisUnit" b h y).
Proof.
  intros Hp Hb. destruct (title_pixels_spec _ Hp) as (t & fs & sb & sa & ys & bw & ? & ? & ? & ? & ? & ? & Ht & Hsb &
    Hsa & Hys & Hbw). destruct Hp as [_ (txt & Htxt & _)].
  unfold unit_block, in_row, frame. destruct (drawAxis k); [|exists 0, 0; split; [done|]; split; [lia|done]].
  change ("yAxisUnit" ++ "FontSize")%string with "yAxisUnitFontSize" in *.
  change ("yAxisUnit" ++ "SpaceBefore")%string with "yAxisUnitSpaceBefore" in *.
  change ("yAxisUnit" ++ "SpaceAfter")%string with "yAxisUnitSpaceAfter" in *.
  change ("yAxisUnit" ++ "BordersYSpace")%string with "yAxisUnitBordersYSpace" in *.
  change ("yAxisUnit" ++ "BordersWidth")%string with "yAxisUnitBordersWidth" in *.
  change ("yAxisUnit" ++ "Borders")%string with "yAxisUnitBorders" in *.
  change ("yAxisUnit" ++ "BackgroundColor")%string with "yAxisUnitBackgroundColor" in *.
  rewrite Ht, Hsb, Hsa, Hys, Hbw, Htxt. cbn [has_text res_bind].
  destruct (String.eqb (trim txt) ""); cbn [negb]; destruct (coloured c _), (truthy _); cbn [orb];
    change n0 with (of_Z 0); pixel_sums; (eexists _, _); (split; [reflexivity|]); (split; [lia|]); intros _; try done;
    intros _; (eexists _, _); (split; [reflexivity|]); (split; [reflexivity|]); lia.
Qed.

(** An option that is a text, or is not given. *)
Definition optional_text (key : string) : Prop := c.[key] = VUndef \/ exists t, c.[key] = VStr t.

Lemma optional_text_total (key : string) : optional_text key ->
  is_undefined c.[key] = true \/ is_undefined c.[key] = false /\ exists b, has_text c.[key] = Ok b.
Proof. intros [-> | [t ->]]; [by left|right; split; [done|by eexists]]. Qed.

Lemma foot_note_total : optional_text "footNote" -> exists r, foot_note unit_scales c height = Ok r.
Proof.
  intros [Hu | (Hu & b & Hb)]%optional_text_total; unfold foot_note; rewrite Hu; [by eexists|].
  rewrite Hb. cbn [res_bind]. repeat case_match; by eexists.
Qed.

Lemma x_axis_label_total (f : num) : optional_text "xAxisLabel" -> exists r, x_axis_label unit_scales c k height f = Ok r.
Proof.
  intros [Hu | (Hu & b & Hb)]%optional_text_total; unfold x_axis_label; rewrite Hu, ?andb_false_r; [by eexists|].
  destruct (drawAxis k); [|by eexists]. rewrite Hb. cbn [res_bind andb negb].
  repeat case_match; by eexists.
Qed.

Lemma y_axis_label_total : optional_text "yAxisLabel" -> exists r, y_axis_label unit_scales c k width = Ok r.
Proof.
  intros [Hu | (Hu & b & Hb)]%optional_text_total; unfold y_axis_label; rewrite Hu, ?andb_false_r; [by eexists|].
  destruct (drawAxis k); [|by eexists]. rewrite Hb. cbn [res_bind andb negb].
  repeat case_match; by eexists.
Qed.

(** The options that give the sizes of the rows above a chart. *)
Record rows_in_pixels : Prop := {
  titles_in_pixels : Forall title_pixels ["graphTitle"; "graphSubTitle"; "yAxisUnit"];
  spaces_in_pixels : Forall pixels ["canvasBordersWidth"; "spaceTop"; "graphSpaceBefore"];
  other_texts : Forall optional_text ["yAxisLabel"; "footNote"; "xAxisLabel"]
}.

(** C27: the rows above a chart do not overlap.  On a canvas that is not scaled,
    with sizes that are whole numbers of pixels, the title, the sub-title and the
    unit of the axis each lie with their box inside a row of their own, the rows
    follow one another below the border of the canvas, and the chart starts below
    the last one. *)
Theorem rows_do_not_overlap (widestX widestY widestY2 : num) : rows_in_pixels ->
  exists o b title subTitle unit gap yTitle ySubTitle yUnit,
    outer_room unit_scales c k width height widestX widestY widestY2 = Ok o /\
    (borderWidth unit_scales c + space unit_scales c "spaceTop")%num = of_Z b /\
    0 <= b /\ 0 <= title /\ 0 <= subTitle /\ 0 <= unit /\ 0 <= gap /\
    in_row "graphTitle" b title yTitle /\
    in_row "graphSubTitle" (b + title) subTitle ySubTitle /\
    (drawAxis k = true -> in_row "yAxisUnit" (b + title + subTitle) unit yUnit) /\
    o_title o = (of_Z title, of_Z yTitle) /\ o_subTitle o = (of_Z subTitle, of_Z ySubTitle) /\
    o_unit o = of_Z unit /\ yAxisUnitPosY (o_margins o) = of_Z yUnit /\
    g_top (o_margins o) = of_Z (b + title + subTitle + unit + gap).
Proof.
  intros [Ht Hs Ho].
  apply Forall_cons in Ht as [H1 [H2 [H3 _]%Forall_cons]%Forall_cons].
  apply Forall_cons in Hs as [(bw & ? & _ & Hbw & _)%pixels_spec Hs].
  apply Forall_cons in Hs as [(st & ? & _ & _ & Hst)%pixels_spec Hs].
  apply Forall_cons in Hs as [(gap & ? & Hgap & _)%pixels_spec _].
  apply Forall_cons in Ho as [(label & Hlabel)%y_axis_label_total [Hf [Hx _]%Forall_cons]%Forall_cons].
  destruct (foot_note_total Hf) as [[footH footY] Hfoot].
  destruct (x_axis_label_total footH Hx) as [[labelH labelY0] Hxl].
  set (border := if truthy c.["canvasBorders"] then bw else 0).
  assert (Hborder : borderWidth unit_scales c = of_Z border).
  { unfold borderWidth, border. by destruct (truthy _). }
  assert (0 <= border <= 2 ^ 20) by (unfold border; destruct (truthy _); lia).
  destruct (title_block_row "graphTitle" (border + st) H1 ltac:(lia)) as (h1 & y1 & E1 & B1 & R1).
  destruct (title_block_row "graphSubTitle" (border + st + h1) H2 ltac:(lia)) as (h2 & y2 & E2 & B2 & R2).
  destruct (unit_block_row (border + st + h1 + h2) H3 ltac:(lia)) as (h3 & y3 & E3 & B3 & R3).
  destruct label as [[labelW labelLeft] labelRight]. unfold outer_room. rewrite Hlabel. cbn [res_bind].
  rewrite Hborder, Hst, Hgap. pixel_sums. rewrite E1. cbn [res_bind]. pixel_sums. rewrite E2. cbn [res_bind].
  pixel_sums. rewrite E3. cbn [res_bind]. rewrite Hfoot. cbn [res_bind]. rewrite Hxl. cbn [res_bind]. pixel_sums.
  eexists _, (border + st), h1, h2, h3, gap, y1, y2, y3. split; [reflexivity|].
  split; [reflexivity|]. cbn [o_title o_subTitle o_unit o_margins yAxisUnitPosY g_top].
  repeat (split; [first [done|lia]|]). done.
Qed.

End Rows.

(** A line chart of the statistics page: the options of its kind with a title, a
    unit and a label. *)
Definition page_layout : config := Line_config no_personal_options (Some (of_fields [
  ("graphTitle", VStr "Throughput"); ("graphTitleFontSize", VInt 16); ("yAxisUnit", VStr "samples/s");
  ("yAxisUnitFontSize", VInt 14); ("yAxisLabel", VStr "throughput")])).

Ltac pix n := exists n; split; [vm_compute; reflexivity|lia].
Ltac some_pixels := first [pix 5|pix 3|pix 1|pix 14|pix 16|pix 18|pix 0].

Lemma page_layout_rows : rows_in_pixels page_layout.
Proof.
  split; repeat (apply Forall_cons; split); try done.
  - split; [repeat (apply Forall_cons; split); [some_pixels..|done]|].
    exists "Throughput". split; [vm_compute; reflexivity|done].
  - split; [repeat (apply Forall_cons; split); [some_pixels..|done]|].
    exists "". split; [vm_compute; reflexivity|done].
  - split; [repeat (apply Forall_cons; split); [some_pixels..|done]|].
    exists "samples/s". split; [vm_compute; reflexivity|done].
  - some_pixels.
  - some_pixels.
  - some_pixels.
  - right. eexists. vm_compute. reflexivity.
  - right. eexists. vm_compute. reflexivity.
  - right. eexists. vm_compute. reflexivity.
Qed.

Definition line_kind : layout_kind :=
  {| reverseLegend_ := false; reverseAxis := false; drawAxis := true; drawLegendOnData_ := true;
     legendBox_ := VBool true |}.

Lemma rows_do_not_overlap_witness :
  exists o b title subTitle unit gap yTitle,
    outer_room unit_scales page_layout line_kind (of_Z 450) (of_Z 350) (of_Z 40) (of_Z 30) (of_Z 30) = Ok o /\
    o_title o = (of_Z title, of_Z yTitle) /\ in_row page_layout "graphTitle" b title yTitle /\ 0 <= title /\
    g_top (o_margins o) = of_Z (b + title + subTitle + unit + gap).
Proof.
  destruct (rows_do_not_overlap page_layout line_kind (of_Z 450) (of_Z 350) (of_Z 40) (of_Z 30) (of_Z 30) page_layout_rows)
    as (o & b & title & subTitle & unit & gap & y & y2 & y3 & Ho & _ & _ & Ht & _ & _ & _ & Hrow & _ & _ & Htitle & _ & _
        & _ & Htop).
  exists o, b, title, subTitle, unit, gap, y. by repeat split.
Defined.

(** ** Turned labels *)

(** The angle at which a label is drawn: up to a right angle counterclockwise, or
    turned beyond the vertical so that it can still be read. *)
Definition readable (z : Z) : Prop := 0 <= z <= 90 \/ 270 < z <= 360.

Lemma int_below_0 (z : Z) : safe z -> (to_num (VInt z) < n0)%num = (z <? 0).
Proof. intros Hz. change (nlt (of_Z z) (of_Z 0) = (z <? 0)). by rewrite nlt_of_Z. Qed.

Lemma int_above (z b : Z) : safe z -> safe b -> (to_num (VInt z) > of_Z b)%num = (b <? z).
Proof. intros Hz Hb. change (nlt (of_Z b) (of_Z z) = (b <? z)). by rewrite nlt_of_Z. Qed.

(** The labels of the horizontal axis are readable: whatever angle is
    configured, they are turned by at most 90 degrees to one side, and "smart"
    labels are level, diagonal or upright. *)
Theorem labels_are_readable `{MathLib} (c : config) (availableWidth n widestLabel : num) :
  (c.["rotateLabels"] = VStr "smart" \/ exists r, c.["rotateLabels"] = VInt r /\ safe r) ->
  exists z, x_label_angle unit_scales c availableWidth n widestLabel = VInt z /\ readable z /\
    (c.["rotateLabels"] = VStr "smart" -> z = 0 \/ z = 45 \/ z = 90).
Proof.
  unfold x_label_angle, readable. intros [-> | (r & -> & Hr)].
  - change (loose_eq (VStr "smart") (VStr "smart")) with true. cbv beta iota.
    destruct (_ < _)%num; [destruct (_ < _)%num|]; cbv beta iota;
      (eexists; split; [reflexivity|]; split; [lia|auto]).
  - change (loose_eq (VInt r) (VStr "smart")) with (of_Z r == NaN)%num.
    assert (Hn : (of_Z r == NaN)%num = false) by by destruct (of_Z r).
    rewrite Hn. rewrite int_below_0 by done.
    replace (if r <? 0 then VInt 0 else VInt r) with (VInt (Z.max 0 r)) by (destruct (Z.ltb_spec r 0); f_equal; lia).
    rewrite int_above by (unfold safe in *; lia).
    replace (if 180 <? Z.max 0 r then VInt 180 else VInt (Z.max 0 r)) with (VInt (Z.min 180 (Z.max 0 r)))
      by (destruct (Z.ltb_spec 180 (Z.max 0 r)); f_equal; lia).
    rewrite int_above by (unfold safe; lia).
    destruct (Z.ltb_spec 90 (Z.min 180 (Z.max 0 r))).
    + exists (Z.min 180 (Z.max 0 r) + 180). split; [|split; [lia|done]].
      unfold js_add, VInt. cbn [is_stringy orb to_num]. rewrite nadd_of_Z by (unfold safe; lia). done.
    + eexists. split; [reflexivity|]. split; [lia|done].
Qed.

Lemma labels_are_readable_witness :
  exists z, x_label_angle (H := sample_math) unit_scales {["rotateLabels" := VInt 120]} (of_Z 400) (of_Z 8) (of_Z 30)
            = VInt z /\ readable z.
Proof.
  destruct (labels_are_readable (H := sample_math) {["rotateLabels" := VInt 120]} (of_Z 400) (of_Z 8) (of_Z 30))
    as (z & Hz & Hr & _).
  - right. exists 120. split; [vm_compute; reflexivity|unfold safe; lia].
  - by exists z.
Defined.

(** ** The drawing state *)

Section Restored.

Context `{MathLib}.
Context (toLocaleTimeString : jsval -> string).
Context (callback : positive -> string -> Z -> Z -> jsval -> res jsval).
Context (measureText : string -> string -> num).
Context (s : ctx_scales) (c : config) (tpchart : chart_type) (k : layout_kind).
Context (width height canvas_width canvas_height : num) (labels : list jsval) (entries : list config).

Lemma when_balanced (b : bool) (l : list canvas_op) : balanced l -> balanced (when b l).
Proof. by destruct b. Qed.

Lemma canvas_border_balanced : balanced (canvas_border_ops s c width height).
Proof. unfold canvas_border_ops. by destruct (_ > _)%num. Qed.

Lemma text_row_balanced (begin : list canvas_op) fonts txt x y :
  balanced begin -> balanced (text_row measureText s c begin fonts txt x y).
Proof.
  intros Hb n. unfold text_row, text_style, text_frame. cbn [app save_depth].
  rewrite (save_depth_app _ _ _ _ (Hb (S n))). cbn [app save_depth].
  erewrite save_depth_app by apply balanced_box. cbn [app save_depth].
  by erewrite save_depth_app by apply balanced_texts.
Qed.

Lemma turned_label_balanced txt x y a : balanced (turned_label measureText s c txt x y a).
Proof.
  intros n. unfold turned_label, text_style, text_frame. cbn [app save_depth].
  erewrite save_depth_app by apply balanced_box. by erewrite save_depth_app by apply balanced_texts.
Qed.

Lemma x_label_row_balanced x y : balanced (x_label_row measureText s c x y).
Proof.
  intros n. unfold x_label_row, text_style, text_frame. cbn [app save_depth].
  erewrite save_depth_app by apply balanced_box. cbn [app save_depth].
  by erewrite save_depth_app by apply balanced_texts.
Qed.

Lemma titles_balanced tH tY sH sY uH uY l r : balanced (titles_ops measureText s c width tH tY sH sY uH uY l r).
Proof.
  unfold titles_ops. repeat first [by apply text_row_balanced|apply when_balanced|apply balanced_app].
Qed.

Lemma axis_labels_balanced w l r h y left top aw ah :
  balanced (axis_label_ops measureText s c w l r h y left top aw ah).
Proof.
  unfold axis_label_ops.
  repeat first [apply turned_label_balanced|apply x_label_row_balanced|apply when_balanced|apply balanced_app].
Qed.

Lemma setMeasures_balanced (ylabels ylabels2 : axis_labels) (m : measures) (ops : list canvas_op) :
  setMeasures toLocaleTimeString callback measureText s c tpchart k width height canvas_width canvas_height labels
    entries ylabels ylabels2 = Ok (m, ops) ->
  balanced ops.
Proof.
  unfold setMeasures. intros Hm.
  apply res_bind_Ok in Hm as ([wx hx] & _ & Hm). apply res_bind_Ok in Hm as ([[wy hy] wy2] & _ & Hm).
  apply res_bind_Ok in Hm as (o & _ & Hm). apply res_bind_Ok in Hm as ([[[[r w] cols] nb] g] & _ & Hm).
  apply res_bind_Ok in Hm as ([[[[a y] b] l] rgt] & _ & Hm).
  apply res_bind_Ok in Hm as (image & Himage%dispCrossImage_balanced & Hm).
  apply res_bind_Ok in Hm as ([ops' state] & Hops & Hm). apply Ok_inj, (f_equal snd) in Hm. cbn [snd] in Hm.
  rewrite <- Hm. apply balanced_app; [apply balanced_app; [by apply when_balanced|done]|].
  assert (Hnihil : ops' = [] \/ exists legend note,
    ops' = canvas_border_ops s c width height
      ++ titles_ops measureText s c width (o_title o).1 (o_title o).2 (o_subTitle o).1 (o_subTitle o).2 (o_unit o)
           (yAxisUnitPosY g) l rgt
      ++ axis_label_ops measureText s c (o_yAxisLabel o) (yAxisLabelPosLeft g) (yAxisLabelPosRight g) (o_xAxisLabel o)
           (xAxisLabelPos g) l (g_top g) (width - l - rgt)%num (height - g_top g - b)%num
      ++ legend ++ note /\ balanced legend /\ balanced note); [|destruct Hnihil as [->|(legend & note & -> & Hl & Hn)]].
  - destruct ylabels; [left; by apply Ok_inj, (f_equal fst) in Hops|right..];
      (apply res_bind_Ok in Hops as ([legend st] & Hlegend & Hops); apply res_bind_Ok in Hops as (note & Hnote & Hops);
       apply Ok_inj, (f_equal fst) in Hops; cbn [fst] in Hops; exists legend, note; split; [by rewrite <- Hops|]; split;
       [unfold legend_ops in Hlegend; destruct (legend_shown c nb); [destruct (legend_outside c)|];
         [apply res_bind_Ok in Hlegend as (x & Hx%drawLegend_balanced & Hlegend)|..];
         by apply Ok_inj, (f_equal fst) in Hlegend; cbn [fst] in Hlegend; rewrite <- Hlegend
       |unfold foot_note_ops in Hnote; apply res_bind_Ok in Hnote as (some & _ & Hnote);
         apply Ok_inj in Hnote as <-; apply when_balanced, text_row_balanced; done]).
  - done.
  - apply balanced_app; [apply canvas_border_balanced|]. apply balanced_app; [apply titles_balanced|].
    apply balanced_app; [apply axis_labels_balanced|by apply balanced_app].
Qed.

End Restored.
