(* ===== verification/Common.v ===== *)
(** * The pages' shared functions (inaeticsCommon.js)

    Polling of the coordinator's statistics, and the options and data of the
    charts made from a statistic. *)

From stdpp Require Import base list strings gmap.
From Stdlib Require Import ZArith Lia SpecFloat Ascii.
From S2P Require Import Prelude Num Value Options OptionValue.

Open Scope string_scope.
Open Scope Z_scope.

(** ** Polling *)

(** What a request of [getJSON] can be answered with, and the timer. *)
Inductive poll_event : Type :=
| Loaded (status : Z) (response : jsval)   (** [xhr.onload] *)
| Failed                                   (** a network error: nothing listens to it *)
| TimerFired.                              (** the timeout set after an answer *)

Inductive poll_phase : Type :=
| InFlight
| Waiting
| Stopped.

Record poller (S : Type) : Type := {
  phase : poll_phase;
  page : S;
  console : nat            (** the number of failures logged *)
}.
Arguments phase {S} _.
Arguments page {S} _.
Arguments console {S} _.

Section Poll.

Context {S : Type} (callback : jsval -> eff S unit) (ival : num).

(** The timer is set in the [finally] clause, whatever the callback does. *)
Definition reschedule : poll_phase := if (ival > n0)%num then Waiting else Stopped.

Definition onload (status : Z) (response : jsval) (p : poller S) : poller S :=
  if negb (status =? 200) then
    {| phase := reschedule; page := page p; console := Datatypes.S (console p) |}
  else
    {| phase := reschedule; page := (callback response (page p)).1; console := console p |}.

(** An event that does not belong to the phase cannot happen. *)
Definition poll_step (p : poller S) (e : poll_event) : option (poller S) :=
  match phase p, e with
  | InFlight, Loaded status response => Some (onload status response p)
  | InFlight, Failed => Some {| phase := Stopped; page := page p; console := console p |}
  | Waiting, TimerFired => Some {| phase := InFlight; page := page p; console := console p |}
  | _, _ => None
  end.

Definition getJSON (s : S) : poller S := {| phase := InFlight; page := s; console := 0 |}.

(** The states a poller reaches through events. *)
Inductive poll_run : poller S -> list poll_event -> poller S -> Prop :=
| poll_nil p : poll_run p [] p
| poll_cons p q r e es : poll_step p e = Some q -> poll_run q es r -> poll_run p (e :: es) r.

End Poll.

(** ** Charts of a statistic *)

Definition chartWidth : Z := 450.
Definition chartHeight : Z := 350.

(** [o.k] on a statistic received as JSON. *)
Definition getChartOpts (stats : jsval) : res config :=
  let* type := get_prop stats "type" in
  let* unit := get_prop stats "unit" in
  let* displayName := get_prop stats "displayName" in
  let opts := of_fields [
    ("canvasBorders", VBool false);
    ("inGraphDataShow", VBool false);
    ("responsive", VBool true);
    ("animation", VBool false);
    ("responsiveMinWidth", VInt chartWidth);
    ("responsiveMaxWidth", VInt chartWidth);
    ("responsiveMinHeight", VInt chartHeight);
    ("responsiveMaxHeight", VInt chartHeight);
    ("graphTitleFontSize", VInt 16);
    ("pointDot", VBool false);
    ("bezierCurve", VBool false);
    ("rotateLabels", VInt 60);
    ("datasetFill", VBool true);
    ("yAxisUnitFontSize", VInt 14);
    ("yAxisLabel", type);
    ("yAxisUnit", unit);
    ("fmtXLabel", VStr "DateTime");
    ("graphTitle", displayName)
  ] in
  Ok (if loose_eq type (VStr "utilization") then
        <["scaleStepWidth" := VInt 10]>
          (<["scaleSteps" := VInt 10]>
            (<["scaleStartValue" := VInt 0]>
              (<["scaleOverride" := VBool true]> opts)))
      else opts).

(** [stats.values && stats.values.length > 0 ? stats.values : [0]] *)
Definition series_values (values : jsval) : res jsval :=
  if truthy values then
    let* len := get_prop values "length" in
    Ok (if (to_num len > n0)%num then values else VArr [VInt 0])
  else Ok (VArr [VInt 0]).

Definition getData (stats : jsval) : res chart_data :=
  let* timestamps := get_prop stats "timestamps" in
  let* values := get_prop stats "values" in
  let* values := series_values values in
  Ok {| labels := elements_of (if truthy timestamps then timestamps else VArr [VInt 0]);
        datasets := [ {| ds_data := elements_of values;
                         ds_props := of_fields [
                           ("fillColor", VStr "rgba(151,187,205,0.5)");
                           ("strokeColor", VStr "rgba(151,187,205,1)") ] |} ] |}.

(** [toUpperCase] of a character, for the ASCII letters. *)
Definition upper_char (c : ascii) : ascii :=
  let n := nat_of_ascii c in
  if ((97 <=? n) && (n <=? 122))%nat then ascii_of_nat (n - 32) else c.

Definition capitalizeFirstLetter (s : string) : string :=
  match s with
  | EmptyString => ""
  | String c r => String (upper_char c) r
  end.

(** ** What a poller does *)

Section PollRuns.

Context {S : Type} (callback : jsval -> eff S unit) (ival : num).

Definition is_sent (e : poll_event) : bool := match e with TimerFired => true | _ => false end.
Definition is_answer (e : poll_event) : bool := negb (is_sent e).
Definition is_loaded (e : poll_event) : bool := match e with Loaded _ _ => true | _ => false end.

Definition count (f : poll_event -> bool) (es : list poll_event) : nat := length (List.filter f es).

Definition in_flight (p : poller S) : nat := match phase p with InFlight => 1 | _ => 0 end.

(** The pages a history of events leads to: every answer with status 200 is
    handed to the callback, whose exceptions are dropped. *)
Definition page_after (es : list poll_event) (s : S) : S :=
  fold_left (fun s e => match e with Loaded 200 response => (callback response s).1 | _ => s end) es s.

Definition failures_after (es : list poll_event) : nat :=
  count (fun e => match e with Loaded status _ => negb (status =? 200) | _ => false end) es.

Lemma onload_page (status : Z) (response : jsval) (p : poller S) :
  page (onload callback ival status response p) =
  match status with 200 => (callback response (page p)).1 | _ => page p end.
Proof.
  unfold onload. destruct (Z.eqb_spec status 200) as [->|Hne]; [done|]. cbn [negb page].
  destruct status as [|q|q]; try done. do 8 (destruct q as [q|q|]; try done).
Qed.

Lemma poll_run_invariant (p q : poller S) (es : list poll_event) :
  poll_run callback ival p es q ->
  (in_flight p + count is_sent es = in_flight q + count is_answer es)%nat /\
  page q = page_after es (page p) /\ console q = (console p + failures_after es)%nat.
Proof.
  induction 1 as [p|p q r e es Hstep _ (IH1 & IH2 & IH3)]; [repeat split; cbn; lia|].
  unfold poll_step in Hstep. unfold in_flight in *. destruct (phase p) eqn:Hp, e as [status response| |]; try done;
    injection Hstep as <-; unfold page_after, failures_after, count in *;
    cbn [fold_left List.filter is_sent is_answer negb length phase page console] in *.
  - rewrite <- onload_page in *. split; [|split; [exact IH2|]].
    + unfold onload, reschedule in IH1 |- *. destruct (negb _), (_ > _)%num; cbn [phase] in IH1; lia.
    + rewrite IH3. unfold onload. destruct (negb (status =? 200)); cbn [console length]; lia.
  - split; [lia|]. by split.
  - split; [lia|]. by split.
Qed.

(** C11: a poller never has two requests on their way: at any time the requests
    sent are the answers and failures received, plus one exactly when a request
    is in flight. *)
Theorem poll_never_overlaps (s : S) (es : list poll_event) (q : poller S) :
  poll_run callback ival (getJSON s) es q ->
  (1 + count is_sent es = in_flight q + count is_answer es)%nat.
Proof. intros (H1 & _)%poll_run_invariant. exact H1. Qed.

(** C13: the page is what the successful answers, in their order, made of it, an
    exception of the callback included, and every other answer is logged. *)
Theorem poll_renders_in_order (s : S) (es : list poll_event) (q : poller S) :
  poll_run callback ival (getJSON s) es q ->
  page q = page_after es s /\ console q = failures_after es.
Proof. intros (_ & H2)%poll_run_invariant. exact H2. Qed.

Hypothesis (Hival : (ival > n0)%num = true).

Lemma poll_alive (p q : poller S) (es : list poll_event) :
  poll_run callback ival p es q -> phase p <> Stopped -> Failed ∉ es -> phase q <> Stopped.
Proof.
  induction 1 as [p|p q r e es Hstep _ IH]; [done|]. intros Hp [Hne Hno]%not_elem_of_cons. apply IH; [|done].
  unfold poll_step in Hstep. destruct (phase p) eqn:Hph, e as [status response| |]; try done; injection Hstep as <-; [|done].
  unfold onload, reschedule. rewrite Hival. by destruct (negb _).
Qed.

(** C12: with a positive interval a poller only stops at a network failure, which
    nothing listens to: after any other history, whatever was answered and
    whatever the callback threw, the next event can happen and leads to another
    request; after a failure no event ever happens again. *)
Theorem poll_stops_only_on_failure (s : S) (es : list poll_event) (q : poller S) :
  poll_run callback ival (getJSON s) es q ->
  (Failed ∉ es -> exists e q', poll_step callback ival q e = Some q' /\ phase q' <> Stopped) /\
  (forall q', poll_step callback ival q Failed = Some q' -> forall e, poll_step callback ival q' e = None).
Proof.
  intros Hrun. split.
  - intros Hno. pose proof (poll_alive _ _ _ Hrun ltac:(done) Hno) as Hq.
    destruct (phase q) eqn:Hp; [| |done].
    + exists (Loaded 200 VNull). unfold poll_step. rewrite Hp. eexists. split; [reflexivity|].
      unfold onload, reschedule. by rewrite Hival.
    + exists TimerFired. unfold poll_step. rewrite Hp. by eexists.
  - unfold poll_step. destruct (phase q); try done. intros q' [= <-] e. reflexivity.
Qed.

End PollRuns.

(** A poller that counts the answers it renders and throws at the third. *)
Definition sample_callback (response : jsval) : eff nat unit :=
  fun n => (S n, if (n =? 2)%nat then Throw TypeError else Ok tt).

Definition sample_history : list poll_event :=
  [Loaded 200 VNull; TimerFired; Loaded 500 VNull; TimerFired; Loaded 200 VNull; TimerFired;
   Loaded 200 VNull; TimerFired].

Lemma sample_poll_run : poll_run sample_callback (of_Z 1000) (getJSON 0%nat) sample_history
  {| phase := InFlight; page := 3%nat; console := 1%nat |}.
Proof. repeat (eapply poll_cons; [reflexivity|]). apply poll_nil. Qed.

Lemma poll_never_overlaps_witness : (1 + count is_sent sample_history = 1 + count is_answer sample_history)%nat.
Proof. exact (poll_never_overlaps _ _ _ _ _ sample_poll_run). Defined.

Lemma poll_renders_in_order_witness :
  3%nat = page_after sample_callback sample_history 0%nat /\ 1%nat = failures_after sample_history.
Proof. exact (poll_renders_in_order _ _ _ _ _ sample_poll_run). Defined.

Lemma poll_stops_only_on_failure_witness :
  exists e q', poll_step sample_callback (of_Z 1000) {| phase := InFlight; page := 3%nat; console := 1%nat |} e = Some q' /\
    phase q' <> Stopped.
Proof.
  apply (poll_stops_only_on_failure sample_callback (of_Z 1000) eq_refl _ _ _ sample_poll_run).
  unfold sample_history. repeat (apply not_elem_of_cons; split; [discriminate|]). apply not_elem_of_nil.
Defined.
