(* ===== verification/PageCharts.v ===== *)
(** * The charts of the pages

    What the configurations of [getChartOpts] promise to the life of the charts
    that the dashboard and the statistics page draw with them: the charts are
    responsive, they run, and the window's size never changes theirs. *)

From stdpp Require Import base list strings gmap.
From Stdlib Require Import ZArith Lia SpecFloat.
From S2P Require Import Prelude Num Binary64 Value Options OptionValue Scale Easing Animation Redraw Lifecycle Common.

Open Scope string_scope.
Open Scope Z_scope.

(** ** The configurations *)

(** What the pages' configurations say, whatever the statistic says. *)
Record page_config (c : config) : Prop := {
  says_responsive : c !! "responsive" = Some (VBool true);
  says_width : c !! "responsiveMinWidth" = Some (VInt chartWidth) /\
    c !! "responsiveMaxWidth" = Some (VInt chartWidth);
  says_height : c !! "responsiveMinHeight" = Some (VInt chartHeight) /\
    c !! "responsiveMaxHeight" = Some (VInt chartHeight);
  says_animation : exists b, c !! "animation" = Some (VBool b);
  says_no_more : Forall (fun k => c !! k = None)
    ["dynamicDisplay"; "animationStartValue"; "animationStopValue"; "animationEasing"; "multiGraph";
     "maintainAspectRatio"]
}.

Lemma lookup_insert_other (c : config) (k k' : string) (v : jsval) :
  String.eqb k k' = false -> <[k := v]> c !! k' = c !! k'.
Proof. intros Hne%String.eqb_neq. by apply lookup_insert_ne. Qed.

(** An option the record does not mention makes no difference to it. *)
Lemma page_config_insert (c : config) (k : string) (v : jsval) :
  page_config c ->
  Forall (fun k' => String.eqb k k' = false)
    ["responsive"; "responsiveMinWidth"; "responsiveMaxWidth"; "responsiveMinHeight"; "responsiveMaxHeight";
     "animation"; "dynamicDisplay"; "animationStartValue"; "animationStopValue"; "animationEasing"; "multiGraph";
     "maintainAspectRatio"] ->
  page_config (<[k := v]> c).
Proof.
  intros [R [W1 W2] [H1 H2] [b A] N] Hk. rewrite !Forall_cons in Hk.
  destruct Hk as (K1 & K2 & K3 & K4 & K5 & K6 & K7 & K8 & K9 & K10 & K11 & K12 & _).
  rewrite !Forall_cons in N. split; [..|exists b|repeat constructor]; rewrite ?lookup_insert_other by done; tauto.
Qed.

Lemma page_config_animation (c : config) (b : bool) :
  page_config c -> page_config (<["animation" := VBool b]> c).
Proof.
  intros [R W Hh A N]. rewrite !Forall_cons in N.
  split; [..|exists b; by rewrite lookup_insert_eq|repeat constructor];
    rewrite ?(lookup_insert_other _ "animation") by reflexivity; tauto.
Qed.

Lemma getChartOpts_page_config (stats : jsval) (c : config) : getChartOpts stats = Ok c -> page_config c.
Proof.
  unfold getChartOpts. destruct (get_prop stats "type") as [t|], (get_prop stats "unit") as [u|],
    (get_prop stats "displayName") as [d|]; cbn [res_bind]; try done. intros <-%Ok_inj.
  set (opts := of_fields _).
  assert (Hopts : page_config opts).
  { split; [|split|split|exists false|repeat constructor]; unfold opts; rewrite lookup_of_fields; reflexivity. }
  clearbody opts. destruct (loose_eq t (VStr "utilization")); [|done].
  repeat (apply page_config_insert; [|by repeat constructor]). done.
Qed.

(** A value with properties has chart data and options. *)
Lemma stat_rendered (stat v : jsval) :
  get_prop stat "name" = Ok v -> exists d c, getData stat = Ok d /\ getChartOpts stat = Ok c.
Proof.
  intros Hn. assert (Hp : forall k, exists v, get_prop stat k = Ok v).
  { intros k. destruct stat; try done; by eexists. }
  assert (Hv : forall u, exists v', series_values u = Ok v').
  { intros u. unfold series_values. destruct u; cbn [truthy get_prop res_bind]; try by eexists.
    - by destruct b; eexists.
    - by destruct (_ && _); eexists.
    - by destruct (negb _); eexists. }
  destruct (Hp "timestamps") as [t Ht], (Hp "values") as [vs Hvs], (Hp "type") as [ty Hty], (Hp "unit") as [u Hu],
    (Hp "displayName") as [dn Hdn], (Hv vs) as [v' Hv'].
  unfold getData, getChartOpts. rewrite Ht, Hvs, Hty, Hu, Hdn. cbn [res_bind]. rewrite Hv'. by eexists _, _.
Qed.

(** The pages never ask for an animation: new charts of the statistics page get
    theirs from the page. *)
Lemma getChartOpts_not_animated (stats : jsval) (c : config) :
  getChartOpts stats = Ok c -> truthy c.["animation"] = false.
Proof.
  unfold getChartOpts. destruct (get_prop stats "type") as [t|], (get_prop stats "unit") as [u|],
    (get_prop stats "displayName") as [d|]; cbn [res_bind]; try done. intros <-%Ok_inj.
  set (opts := of_fields _).
  assert (Hopts : opts.["animation"] = VBool false) by (unfold prop, opts; by rewrite lookup_of_fields).
  clearbody opts. destruct (loose_eq t (VStr "utilization")); [|by rewrite Hopts].
  by rewrite !prop_insert_ne, Hopts.
Qed.

(** An option of a chart: the page's, or the default. *)
Lemma merged_prop (T : chart_type) (c : config) (k : string) :
  (merged no_personal_options T c).[k] =
  match c !! k with Some v => v | None => (chart_config T no_personal_options None).[k] end.
Proof.
  unfold merged, prop. rewrite !chart_config_layers, !lookup_union_list. unfold layers. cbn [app first_defined].
  by destruct (c !! k).
Qed.

Lemma prop_absent (c : config) (k : string) : c !! k = None -> c.[k] = VUndef.
Proof. unfold prop. by intros ->. Qed.

Section Charts.

Context `{MathLib}.
Context (old_IE : bool) (anim_fuel : nat).

(** The charts of the pages run, and follow the window. *)
Lemma page_config_runs (c : config) :
  page_config c -> runs old_IE no_personal_options anim_fuel Line c /\ responsive no_personal_options Line c.
Proof.
  intros [R W Hh A N]. rewrite !Forall_cons in N. destruct N as (N1 & N2 & N3 & N4 & N5 & _). split.
  - apply runs_intro.
    + by rewrite prop_absent.
    + rewrite merged_prop, N1. vm_compute. reflexivity.
    + rewrite merged_prop, N2. vm_compute. reflexivity.
    + rewrite merged_prop, N3. vm_compute. reflexivity.
    + rewrite merged_prop, N4. replace (to_str _) with "easeOutQuart" by (vm_compute; reflexivity). by eexists.
  - split; rewrite merged_prop; [by rewrite R|]. rewrite N5. vm_compute. reflexivity.
Qed.

(** ** The size of the charts *)

Lemma default_option_keeps (k k' : string) (v : jsval) (c : config) :
  c.[k'] <> VUndef -> (default_option k v c).[k'] = c.[k'].
Proof.
  intros Hdef. unfold default_option. destruct (is_undefined c.[k]) eqn:Hu; [|done].
  destruct (String.eqb_spec k k') as [->|Hne%String.eqb_neq]; [|by apply prop_insert_ne].
  by destruct c.[k'].
Qed.

Lemma resize_defaults_keeps (k : string) (c : config) : c.[k] <> VUndef -> (resize_defaults c).[k] = c.[k].
Proof. intros Hdef. unfold resize_defaults. repeat first [done | rewrite default_option_keeps]. Qed.

Lemma kept_option (c : config) (k : string) (v : jsval) :
  c !! k = Some v -> v <> VUndef -> (resize_defaults (merged no_personal_options Line c)).[k] = v.
Proof.
  intros Hk Hv. assert (Hm : (merged no_personal_options Line c).[k] = v) by (by rewrite merged_prop, Hk).
  rewrite resize_defaults_keeps; by rewrite Hm.
Qed.

Lemma page_config_sizes (c : config) :
  page_config c ->
  let c' := resize_defaults (merged no_personal_options Line c) in
  c'.["responsiveMinWidth"] = VInt chartWidth /\ c'.["responsiveMaxWidth"] = VInt chartWidth /\
  c'.["responsiveMinHeight"] = VInt chartHeight /\ c'.["responsiveMaxHeight"] = VInt chartHeight.
Proof.
  intros [_ [W1 W2] [H1 H2] _ _]. repeat split; by apply kept_option.
Qed.

(** The sizes of a node do not make the chart's size undefined. *)
Definition sizes_ok (size : num * num) (x : context) : Prop :=
  let r := match aspectRatio x with Some r => r | None => (canvas_width x / canvas_height x)%num end in
  is_NaN size.1 = false /\ is_NaN size.2 = false /\ is_NaN (size.1 / r)%num = false.

Lemma resizeGraph_page (c : config) (size : num * num) (x : context) :
  page_config c -> sizes_ok size x ->
  (resizeGraph (merged no_personal_options Line c) size x).1 = (of_Z chartWidth, of_Z chartHeight).
Proof.
  intros Hc (S1 & S2 & S3). destruct (page_config_sizes c Hc) as (W1 & W2 & H1 & H2).
  unfold resizeGraph. rewrite W1, W2, H1, H2. cbn [fst].
  change (to_num (VInt chartWidth)) with (of_Z chartWidth). change (to_num (VInt chartHeight)) with (of_Z chartHeight).
  rewrite (clamp_same chartWidth size.1) by (try done; vm_compute; done).
  set (h := if truthy _ then _ else _).
  assert (Hh : is_NaN h = false).
  { unfold h. destruct (truthy _); [|done]. destruct (aspectRatio x) as [r|] eqn:Ha; [|done]. by rewrite Ha. }
  rewrite (clamp_same chartHeight h) by (try done; vm_compute; done).
  vm_compute. reflexivity.
Qed.

End Charts.

Lemma get_ctx_some {D : Type} (i : nat) (w : world (D := D)) (x : context) : ctxs w !! i = Some x -> get_ctx w i = Ok x.
Proof. unfold get_ctx. by intros ->. Qed.



(** A displayed chart in a node of the given size, and a statistic. *)
Definition shown_context : context :=
  set_prev_size (of_Z 450) (of_Z 350) (set_firstPass 6 (fresh_context "cpu" (of_Z 450) (of_Z 350) (Some 0%nat))).

Definition shown_page : world (D := unit) :=
  with_ctxs (fun m => <[0%nat := shown_context]> m) (new_page (fun _ => (of_Z 800, of_Z 600)) 0).

Definition sample_stat : jsval := VObj [
  ("name", VStr "cpu"); ("type", VStr "utilization"); ("unit", VStr "%");
  ("displayName", VStr "CPU"); ("values", VArr [VInt 10; VInt 20])].

