(* ===== verification/Dashboard.v ===== *)
(** * The dashboard page (inaeticsDashboard.js)

    The elements of the page that its scripts write to, and the functions that
    render the coordinator's answers and post the user's settings. *)

From stdpp Require Import base list strings gmap relations.
From Stdlib Require Import ZArith Lia SpecFloat Ascii.
From S2P Require Import Prelude Num Value Binary64 Options OptionValue Format Scale Easing Animation Redraw Lifecycle Common PageCharts.

Open Scope string_scope.
Open Scope Z_scope.

(** ** The page *)

(** A row of the table of the cluster's containers. *)
Inductive cluster_row : Type :=
| HeaderRow (headers : list string)
| HostRow (ipAddress : string)
| ContainerRow (cells : list string)
| SpacerRow.

(** What the element [clusterInfo] shows. *)
Inductive cluster_view : Type :=
| EmptyView
| TextView (text : string)
| TableView (rows : list cluster_row).

(** A row of the table [sysStats]: the texts of its two cells. *)
Abbreviation stat_row := (string * string)%type.

Definition interval : Z := 1000.

Section Dashboard.

Context `{MathLib}.
Context (old_IE : bool) (dpr : option num) (personal : personal_options).
Context (fits : chart_type -> context -> chart_data -> config -> bool).
Context (anim_fuel fuel : nat).

Record dashboard : Type := {
  utilisation : string;
  slider : string;
  slider_val : string;
  sysStats : list stat_row;
  clusterInfo : cluster_view;
  canvases : gmap string nat;       (** the canvas elements and their contexts *)
  has_data : gset string;           (** the canvases marked by [hasData] *)
  charts : world (D := chart_data);
  posted : list (string * string)   (** the requests sent by [postJSON], newest first *)
}.

Definition set_utilisation (t : string) (s : dashboard) : dashboard := {|
  utilisation := t; slider := slider s; slider_val := slider_val s; sysStats := sysStats s;
  clusterInfo := clusterInfo s; canvases := canvases s; has_data := has_data s;
  charts := charts s; posted := posted s |}.
Definition set_slider (v o : string) (s : dashboard) : dashboard := {|
  utilisation := utilisation s; slider := v; slider_val := o; sysStats := sysStats s;
  clusterInfo := clusterInfo s; canvases := canvases s; has_data := has_data s;
  charts := charts s; posted := posted s |}.
Definition set_sysStats (f : list stat_row -> list stat_row) (s : dashboard) : dashboard := {|
  utilisation := utilisation s; slider := slider s; slider_val := slider_val s;
  sysStats := f (sysStats s);
  clusterInfo := clusterInfo s; canvases := canvases s; has_data := has_data s;
  charts := charts s; posted := posted s |}.
Definition set_clusterInfo (v : cluster_view) (s : dashboard) : dashboard := {|
  utilisation := utilisation s; slider := slider s; slider_val := slider_val s;
  sysStats := sysStats s; clusterInfo := v; canvases := canvases s; has_data := has_data s;
  charts := charts s; posted := posted s |}.
Definition set_charts (w : world) (s : dashboard) : dashboard := {|
  utilisation := utilisation s; slider := slider s; slider_val := slider_val s;
  sysStats := sysStats s; clusterInfo := clusterInfo s; canvases := canvases s;
  has_data := has_data s; charts := w; posted := posted s |}.
Definition mark_data (id : string) (s : dashboard) : dashboard := {|
  utilisation := utilisation s; slider := slider s; slider_val := slider_val s;
  sysStats := sysStats s; clusterInfo := clusterInfo s; canvases := canvases s;
  has_data := {[id]} ∪ has_data s; charts := charts s; posted := posted s |}.
Definition post (url data : string) (s : dashboard) : dashboard := {|
  utilisation := utilisation s; slider := slider s; slider_val := slider_val s;
  sysStats := sysStats s; clusterInfo := clusterInfo s; canvases := canvases s;
  has_data := has_data s; charts := charts s; posted := (url, data) :: posted s |}.

(** ** Utilisation *)

Definition renderUtilisation (v : jsval) : eff dashboard unit :=
  let! name := eff_lift (get_prop v "name") in
  let! value := eff_lift (get_prop v "value") in
  let! unit := eff_lift (get_prop v "unit") in
  eff_modify (set_utilisation
    (to_str (js_add (js_add (js_add (js_add name (VStr " = ")) value) (VStr " ")) unit))).

(** A chart call made by the page: its effect on the page's charts. *)
Definition chart_call (f : world -> res world) : eff dashboard unit :=
  eff_update (fun s => let* w := f (charts s) in Ok (set_charts w s)).

Definition renderGraph (canvasId : string) (stats : jsval) : eff dashboard unit :=
  let! data := eff_lift (getData stats) in
  let! opts := eff_lift (getChartOpts stats) in
  let! statCanvas := eff_gets (fun s => canvases s !! canvasId) in
  match statCanvas with
  | None => eff_lift (Throw TypeError)
  | Some i =>
      let! marked := eff_gets (fun s => bool_decide (canvasId ∈ has_data s)) in
      if (marked : bool) then
        chart_call (updateChart old_IE dpr personal fits anim_fuel fuel i data opts false false)
      else
        do! chart_call (chart_draw old_IE dpr personal fits anim_fuel fuel Line i data (Some opts)) in
        eff_modify (mark_data canvasId)
  end.

Definition renderUtilisationGraph (stats : jsval) : eff dashboard unit :=
  if negb (truthy stats) then eff_ret tt
  else
    let! first := eff_lift (get_index stats n0) in
    let! name := eff_lift (get_prop first "name") in
    let queueIdx := if loose_eq name (VStr "queue") then 0 else 1 in
    let! queue := eff_lift (get_index stats (of_Z queueIdx)) in
    do! renderGraph "queue-utilisation" queue in
    let! store := eff_lift (get_index stats (of_Z 1 - of_Z queueIdx)%num) in
    renderGraph "datastore-utilisation" store.

(** ** System statistics *)

(** The fields of an object, in enumeration order; [null] and [undefined] have none. *)
Definition enumerate (v : jsval) : list (string * jsval) :=
  match v with VObj fs => fs | _ => [] end.

(** The text a node or an input element gets from a value: none for [null]. *)
Definition text_of (v : jsval) : string :=
  match v with VNull => "" | _ => to_str v end.

(** [tbody.insertRow(0)] creates the row above the others, and
    [tbody.appendChild(tr)] moves it below them. *)
Definition insert_row (row : stat_row) (rows : list stat_row) : list stat_row := row :: rows.
Definition append_moved (rows : list stat_row) : list stat_row :=
  match rows with
  | [] => []
  | r :: rs => rs ++ [r]
  end.

Definition renderStat (kv : string * jsval) : eff dashboard unit :=
  let '(key, v) := kv in
  do! (if String.eqb key "productionRate"
       then eff_modify (set_slider (text_of v) (text_of v)) else eff_ret tt) in
  eff_modify (set_sysStats (fun rows =>
    append_moved (insert_row (capitalizeFirstLetter key, text_of v) rows))).

Definition renderSystemStats (stats : jsval) : eff dashboard unit :=
  do! eff_modify (set_sysStats (fun _ => [])) in
  eff_iter renderStat (enumerate stats).

(** ** Cluster information *)

(** [s.substring(0, s.indexOf('.'))]: the empty text when there is no dot. *)
Definition before_dot (s : string) : string :=
  match split_first "." s with
  | Some (a, _) => a
  | None => ""
  end.

Definition nbsp : ascii := ascii_of_nat 160.

Definition container_row (container : jsval) : res cluster_row :=
  let* name := get_prop container "name" in
  let* cpu := get_prop container "cpuUsage" in
  let* usedMem := get_prop container "usedMem" in
  match name with
  | VStr n =>
      let name := string_repeat nbsp 5 ++ before_dot n in
      let memory := num_to_string (parseInt (VNum (to_num usedMem / of_Z 1000000)%num)) ++ "MB" in
      Ok (ContainerRow [name; text_of cpu; memory])
  | _ => Throw TypeError
  end.

Definition host_rows (host : jsval) : res (list cluster_row) :=
  let* ip := get_prop host "ipAddress" in
  let* containers := get_prop host "containerList" in
  let* _ := get_prop containers "length" in
  let* rows := res_mapM container_row (elements_of containers) in
  Ok ([HostRow (text_of ip)] ++ rows ++ [SpacerRow])%list.

Definition renderClusterInfo (stats : jsval) : eff dashboard unit :=
  do! eff_modify (set_clusterInfo EmptyView) in
  let! len := eff_lift (get_prop stats "length") in
  if match len with VNum n => (n == n0)%num | _ => false end then
    eff_modify (set_clusterInfo (TextView "no info available"))
  else
    let! rows := eff_lift (res_mapM host_rows (elements_of stats)) in
    eff_modify (set_clusterInfo
      (TableView (HeaderRow ["Name"; "CPU"; "Memory"] :: List.concat rows))).

(** ** The user's settings *)

Definition postAndUpdateUtilisation (val : string) : eff dashboard unit :=
  eff_modify (fun s => post "/coordinator/utilisation" ("value=" ++ val)
                         (set_slider (slider s) val s)).

Definition scaleProducer (val : Z) : eff dashboard unit :=
  eff_modify (post "/coordinator/scaleProducer" ("value=" ++ num_to_string (of_Z val))).

(** ** Polling: the requests the page keeps sending *)

Definition dashboard_requests : list (string * (jsval -> eff dashboard unit)) := [
  ("/coordinator/utilisation", renderUtilisation);
  ("/coordinator/statistics?queue,data-store", renderUtilisationGraph);
  ("/coordinator/systemStats", renderSystemStats);
  ("/coordinator/clusterInfo", renderClusterInfo)
].

End Dashboard.

(** ** The table of statistics *)

Section Tables.

Context `{MathLib}.

(** The last production rate among the fields. *)
Definition last_rate (fs : list (string * jsval)) (old : string) : string :=
  fold_left (fun t kv => if String.eqb kv.1 "productionRate" then text_of kv.2 else t) fs old.

Definition stat_rows (fs : list (string * jsval)) : list stat_row :=
  map (fun kv => (capitalizeFirstLetter kv.1, text_of kv.2)) fs.

Lemma renderStat_loop (fs : list (string * jsval)) (s : dashboard) :
  exists s', eff_iter renderStat fs s = (s', Ok tt) /\
    sysStats s' = (sysStats s ++ stat_rows fs)%list /\
    slider s' = last_rate fs (slider s) /\ slider_val s' = last_rate fs (slider_val s) /\
    charts s' = charts s /\ clusterInfo s' = clusterInfo s /\ utilisation s' = utilisation s.
Proof.
  revert s. induction fs as [|[k v] fs IH]; intros s.
  - exists s. rewrite app_nil_r. done.
  - cbn [eff_iter renderStat]. unfold eff_bind at 1 2.
    destruct (String.eqb k "productionRate") eqn:Hk; cbn [eff_modify eff_ret];
      [set (t := set_slider _ _ s)|set (t := s)];
      destruct (IH (set_sysStats (fun rows => append_moved (insert_row (capitalizeFirstLetter k, text_of v) rows)) t))
        as (s' & -> & H1 & H2 & H3 & H4 & H5 & H6);
      exists s'; (split; [done|]); rewrite H1, H2, H3, H4, H5, H6;
      unfold last_rate; cbn [fold_left fst snd]; rewrite Hk; cbn; by rewrite <- app_assoc.
Qed.

(** Whatever the table showed before, an answer of the system's statistics
    makes it show one row per field, in the order of the fields, with the name
    capitalised; the slider takes the production rate when there is one; nothing
    else of the page changes. *)
Theorem renderSystemStats_rows (stats : jsval) (s : dashboard) :
  exists s', renderSystemStats stats s = (s', Ok tt) /\
    sysStats s' = stat_rows (enumerate stats) /\
    slider s' = last_rate (enumerate stats) (slider s) /\
    slider_val s' = last_rate (enumerate stats) (slider_val s) /\
    charts s' = charts s /\ clusterInfo s' = clusterInfo s /\ utilisation s' = utilisation s.
Proof.
  unfold renderSystemStats, eff_bind at 1, eff_modify.
  destruct (renderStat_loop (enumerate stats) (set_sysStats (fun _ => []) s)) as (s' & Hs & Hrest). by exists s'.
Qed.

(** ** The table of the cluster *)

(** The container names of the cluster, and the fields its hosts are sent with. *)
Record container_info : Type := { c_name : string; c_cpu : jsval; c_mem : jsval }.
Record host_info : Type := { h_ip : string; h_containers : list container_info }.

Definition json_container (c : container_info) : jsval :=
  VObj [("name", VStr (c_name c)); ("cpuUsage", c_cpu c); ("usedMem", c_mem c)].
Definition json_host (h : host_info) : jsval :=
  VObj [("ipAddress", VStr (h_ip h)); ("containerList", VArr (map json_container (h_containers h)))].

(** The rows the hosts are shown with. *)
Definition shown_container (c : container_info) : cluster_row :=
  ContainerRow [string_repeat nbsp 5 ++ before_dot (c_name c); text_of (c_cpu c);
    num_to_string (parseInt (VNum (to_num (c_mem c) / of_Z 1000000)%num)) ++ "MB"].
Definition shown_host (h : host_info) : list cluster_row :=
  ([HostRow (h_ip h)] ++ map shown_container (h_containers h) ++ [SpacerRow])%list.

Lemma res_mapM_map {A B C : Type} (f : B -> res C) (j : A -> B) (g : A -> C) (l : list A) :
  (forall a, f (j a) = Ok (g a)) -> res_mapM f (map j l) = Ok (map g l).
Proof. intros Hf. induction l as [|a l IH]; [done|]. cbn [map res_mapM]. by rewrite Hf, IH. Qed.

Lemma container_row_json (c : container_info) : container_row (json_container c) = Ok (shown_container c).
Proof. reflexivity. Qed.

Lemma host_rows_json (h : host_info) : host_rows (json_host h) = Ok (shown_host h).
Proof.
  unfold host_rows. change (get_prop (json_host h) "ipAddress") with (Ok (VStr (h_ip h))).
  change (get_prop (json_host h) "containerList") with (Ok (VArr (map json_container (h_containers h)))).
  cbn [res_bind get_prop elements_of]. change (String.eqb "length" "length") with true. cbn iota.
  rewrite (res_mapM_map _ _ shown_container) by apply container_row_json. done.
Qed.

(** C39: the cluster's hosts are shown in their order, each with its containers
    below it and a line between the hosts; without hosts there is a message. *)
Theorem renderClusterInfo_rows (hosts : list host_info) (s : dashboard) :
  exists s', renderClusterInfo (VArr (map json_host hosts)) s = (s', Ok tt) /\
    clusterInfo s' = match hosts with
                     | [] => TextView "no info available"
                     | _ => TableView (HeaderRow ["Name"; "CPU"; "Memory"] :: List.concat (map shown_host hosts))
                     end /\
    sysStats s' = sysStats s /\ charts s' = charts s.
Proof.
  unfold renderClusterInfo, eff_bind, eff_modify, eff_lift. cbn [get_prop].
  change (String.eqb "length" "length") with true. cbn iota. rewrite length_map.
  destruct hosts as [|h hosts]; [by eexists|].
  assert (Hn : (of_Z (Z.of_nat (length (h :: hosts))) == n0)%num = false).
  { apply neq_of_Z_0. cbn [length]. lia. }
  unfold VInt. rewrite Hn. cbn [elements_of]. rewrite (res_mapM_map _ _ shown_host) by apply host_rows_json.
  by eexists.
Qed.

(** A container is shown by the part of its name before the first dot, and a
    container whose name has no dot is shown without a name. *)
Theorem before_dot_names (a b : string) :
  all_chars (fun x => negb (Ascii.eqb "." x)) a = true ->
  before_dot (a ++ String "." b) = a /\ before_dot a = "".
Proof.
  intros Ha. unfold before_dot. change "." with (one ".").
  by rewrite (split_first_app "." a b Ha), (split_first_none "." a Ha).
Qed.

Lemma before_dot_names_witness :
  before_dot ("producer-1" ++ String "." "service") = "producer-1" /\ before_dot "producer-1" = "".
Proof. apply (before_dot_names "producer-1" "service"). reflexivity. Defined.

End Tables.

(** ** The charts of the dashboard *)

(** Two pages with the same charts. *)
Definition same_charts (s s' : dashboard) : Prop :=
  charts s' = charts s /\ canvases s' = canvases s /\ has_data s' = has_data s.

(** Code that leaves the charts alone, whether it throws or not. *)
Definition quiet {A : Type} (m : eff dashboard A) : Prop := forall s, same_charts s (m s).1.

Lemma quiet_ret {A : Type} (a : A) : quiet (eff_ret a).
Proof. done. Qed.

Lemma quiet_lift {A : Type} (r : res A) : quiet (eff_lift r).
Proof. done. Qed.

Lemma quiet_modify (f : dashboard -> dashboard) : (forall s, same_charts s (f s)) -> quiet (eff_modify f).
Proof. done. Qed.

Lemma quiet_bind {A B : Type} (m : eff dashboard A) (k : A -> eff dashboard B) :
  quiet m -> (forall a, quiet (k a)) -> quiet (eff_bind m k).
Proof.
  intros Hm Hk s. unfold eff_bind. specialize (Hm s). destruct (m s) as [s1 [a|e]]; cbn [fst] in Hm |- *; [|done].
  specialize (Hk a s1). unfold same_charts in *. intuition congruence.
Qed.

Lemma quiet_iter {A : Type} (f : A -> eff dashboard unit) (l : list A) :
  (forall a, quiet (f a)) -> quiet (eff_iter f l).
Proof. intros Hf. induction l as [|a l IH]; [apply quiet_ret|]. by apply quiet_bind. Qed.

(** Quiet code, step by step. *)
Ltac quiet := repeat first
  [ apply quiet_ret | apply quiet_lift | by apply quiet_modify
  | apply quiet_bind; [|intros ?] | apply quiet_iter; intros ?
  | case_match ].

Lemma quiet_renderUtilisation (v : jsval) : quiet (renderUtilisation v).
Proof. unfold renderUtilisation. quiet. Qed.

Lemma quiet_renderSystemStats (v : jsval) : quiet (renderSystemStats v).
Proof. unfold renderSystemStats, renderStat. quiet. Qed.

Lemma quiet_renderClusterInfo `{MathLib} (v : jsval) : quiet (renderClusterInfo v).
Proof. unfold renderClusterInfo. quiet. Qed.

Section DashboardRuns.

Context `{MathLib}.
Context (old_IE : bool) (dpr : option num).
Context (fits : chart_type -> context -> chart_data -> config -> bool).
Context (anim_fuel fuel : nat).
Hypothesis (Hfuel : (0 < fuel)%nat).

Abbreviation dash_inv := (page_inv (D := chart_data) old_IE no_personal_options anim_fuel Line).
Abbreviation render_graph := (renderGraph old_IE dpr no_personal_options fits anim_fuel fuel).
Abbreviation render_utilisation := (renderUtilisationGraph old_IE dpr no_personal_options fits anim_fuel fuel).

(** The dashboard between two events: its charts are in order, and nobody drew
    on a canvas that is not marked. *)
Record dash_ok (s : dashboard) : Prop := {
  dash_charts : dash_inv (charts s);
  dash_canvas id i : canvases s !! id = Some i -> exists x, ctxs (charts s) !! i = Some x /\
    (id ∉ has_data s -> firstPass x = None /\ parent x <> None);
  dash_apart id id' i : canvases s !! id = Some i -> canvases s !! id' = Some i -> id = id';
  dash_has id : id ∈ ["queue-utilisation"; "datastore-utilisation"] -> is_Some (canvases s !! id)
}.

Lemma same_charts_ok (s s' : dashboard) : same_charts s s' -> dash_ok s -> dash_ok s'.
Proof. intros (Hc & Hv & Hd) [H1 H2 H3 H4]. split; [by rewrite Hc|by rewrite Hc, Hv, Hd|by rewrite Hv..]. Qed.

(** The charts change, but no canvas that is not marked. *)
Lemma calm_ok (w' : world (D := chart_data)) (s : dashboard) :
  dash_ok s -> dash_inv w' -> calm (charts s) w' -> dash_ok (set_charts w' s).
Proof.
  intros [H1 H2 H3 H4] Hinv [Hs Hf]. split; [done| |exact H3|exact H4]. cbn [set_charts canvases charts has_data].
  intros id i Hi. destruct (H2 id i Hi) as (x & Hx & Hfresh).
  specialize (Hs i). rewrite Hx in Hs. destruct (ctxs w' !! i) as [y|] eqn:Hy; [|done].
  exists y. split; [done|]. intros Hid. destruct (Hfresh Hid) as [Hp Hpar].
  rewrite (Hf i x Hx Hp) in Hy. injection Hy as <-. done.
Qed.

(** A chart of the dashboard is drawn or updated, and its canvas is marked. *)
Lemma render_graph_draws (id : string) (i : nat) (stats : jsval) (d : chart_data) (c : config) (s : dashboard) :
  dash_ok s -> canvases s !! id = Some i -> getData stats = Ok d -> getChartOpts stats = Ok c ->
  exists s', render_graph id stats s = (s', Ok tt) /\ dash_ok s' /\ canvases s' = canvases s /\
    has_data s' = {[id]} ∪ has_data s.
Proof.
  intros Hok Hi Hd Hc. pose proof Hok as [H1 H2 H3 H4]. destruct (H2 id i Hi) as (x & Hx & Hfresh).
  destruct (page_config_runs old_IE anim_fuel c (getChartOpts_page_config stats c Hc)) as [Hrun Hresp].
  unfold renderGraph, eff_bind, eff_lift, eff_gets, chart_call, eff_update, eff_modify. rewrite Hd, Hc, Hi.
  case_bool_decide as Hm.
  - destruct (updateChart_inv old_IE dpr no_personal_options fits anim_fuel fuel Line Hfuel i d c false false
      (charts s) x H1 Hx Hrun) as (w' & -> & Hinv & Hcalm).
    cbn [res_bind]. eexists. split; [reflexivity|]. split; [by apply calm_ok|]. split; [done|].
    cbn [set_charts has_data].
    by rewrite (subseteq_union_1_L {[id]} (has_data s)); [|apply singleton_subseteq_l].
  - destruct (Hfresh Hm) as [Hp Hpar].
    destruct (chart_draw_inv old_IE dpr no_personal_options fits anim_fuel fuel Line Hfuel i d c (charts s) x
      H1 Hx Hp ltac:(by left) Hrun Hresp) as (w' & -> & Hinv & [Hsame Hother]).
    cbn [res_bind]. eexists. split; [reflexivity|]. split; [|by split].
    split; [done| |exact H3|exact H4]. cbn [mark_data set_charts canvases charts has_data].
    intros id' j Hj. destruct (H2 id' j Hj) as (y & Hy & Hyf). destruct (decide (j = i)) as [->|Hne].
    + specialize (Hsame i). rewrite Hx in Hsame. destruct (ctxs w' !! i) as [z|]; [|done].
      exists z. split; [done|]. rewrite (H3 id' id i Hj Hi). clear. set_solver.
    + exists y. rewrite (Hother j Hne). split; [done|]. intros Hno. apply Hyf. clear -Hno. set_solver.
Qed.

Lemma render_graph_ok (id : string) (stats : jsval) (s : dashboard) : dash_ok s -> dash_ok (render_graph id stats s).1.
Proof.
  intros Hok. destruct (getData stats) as [d|] eqn:Hd, (getChartOpts stats) as [c|] eqn:Hc,
    (canvases s !! id) as [i|] eqn:Hi;
    try (unfold renderGraph, eff_bind, eff_lift, eff_gets; rewrite Hd, ?Hc, ?Hi; exact Hok).
  by destruct (render_graph_draws id i stats d c s Hok Hi Hd Hc) as (s' & -> & Hok' & _).
Qed.

(** Code that keeps the dashboard in order, whether it throws or not. *)
Definition keeps {A : Type} (m : eff dashboard A) : Prop := forall s, dash_ok s -> dash_ok (m s).1.

Lemma keeps_bind {A B : Type} (m : eff dashboard A) (k : A -> eff dashboard B) :
  keeps m -> (forall a, keeps (k a)) -> keeps (eff_bind m k).
Proof.
  intros Hm Hk s Hs. unfold eff_bind. specialize (Hm s Hs). destruct (m s) as [s1 [a|e]]; [by apply Hk|done].
Qed.

Lemma quiet_keeps {A : Type} (m : eff dashboard A) : quiet m -> keeps m.
Proof. intros Hm s Hs. by apply (same_charts_ok s). Qed.

Lemma render_utilisation_keeps (stats : jsval) : keeps (render_utilisation stats).
Proof.
  unfold renderUtilisationGraph. destruct (negb (truthy stats)); [by apply quiet_keeps|].
  do 2 (apply keeps_bind; [by apply quiet_keeps|intros ?]). apply keeps_bind; [by apply quiet_keeps|intros ?].
  apply keeps_bind; [intros s Hs; by apply render_graph_ok|intros _].
  apply keeps_bind; [by apply quiet_keeps|intros ?]. intros s Hs. by apply render_graph_ok.
Qed.

(** *** Histories of the dashboard *)

Definition in_page (w : world (D := chart_data)) (s : dashboard) : dashboard := set_charts w s.

(** What happens to the dashboard: an answer to one of its requests is
    rendered, the user moves the slider or scales the producers, an animation
    frame is due, the window changes its size, time passes. *)
Inductive dash_step : dashboard -> dashboard -> Prop :=
| dash_answer url callback response s :
    (url, callback) ∈ dashboard_requests old_IE dpr no_personal_options fits anim_fuel fuel ->
    dash_step s (callback response s).1
| dash_slider val s : dash_step s (postAndUpdateUtilisation val s).1
| dash_scale val s : dash_step s (scaleProducer val s).1
| dash_frame k s w' : animation_frame old_IE dpr no_personal_options fits anim_fuel fuel k (charts s) = Ok w' ->
    dash_step s (set_charts w' s)
| dash_window sizes s w' :
    window_resize old_IE dpr no_personal_options fits anim_fuel fuel sizes (charts s) = Ok w' ->
    dash_step s (set_charts w' s)
| dash_time ms s : dash_step s (set_charts (at_time ms (charts s)) s).

Lemma callbacks_keep (url : string) (callback : jsval -> eff dashboard unit) (v : jsval) :
  (url, callback) ∈ dashboard_requests old_IE dpr no_personal_options fits anim_fuel fuel -> keeps (callback v).
Proof.
  unfold dashboard_requests. rewrite !elem_of_cons.
  intros [[= _ ->]|[[= _ ->]|[[= _ ->]|[[= _ ->]|Hnil%elem_of_nil]]]]; [..|done].
  - apply quiet_keeps, quiet_renderUtilisation.
  - apply render_utilisation_keeps.
  - apply quiet_keeps, quiet_renderSystemStats.
  - apply quiet_keeps, quiet_renderClusterInfo.
Qed.

Lemma dash_step_ok (s s' : dashboard) : dash_step s s' -> dash_ok s -> dash_ok s'.
Proof.
  intros [url f v t Hin|val t|val t|k t w' Hw|sizes t w' Hw|ms t] Hok.
  - by apply (callbacks_keep url f v Hin).
  - by apply (same_charts_ok t).
  - by apply (same_charts_ok t).
  - destruct (animation_frame_inv old_IE dpr no_personal_options fits anim_fuel fuel Line Hfuel k _ (dash_charts t Hok))
      as (w2 & Hw2 & Hinv2 & Hs). rewrite Hw in Hw2. apply Ok_inj in Hw2 as <-. by apply calm_ok.
  - destruct (resize_inv old_IE dpr no_personal_options fits anim_fuel fuel Line Hfuel sizes _ (dash_charts t Hok))
      as (w2 & Hw2 & Hinv2 & Hs). rewrite Hw in Hw2. apply Ok_inj in Hw2 as <-. by apply calm_ok.
  - apply calm_ok; [done|by apply at_time_inv, Hok|by split].
Qed.

(** The page as it is loaded: two canvases, in the nodes 0 and 1. *)
Definition new_dashboard (sizes : nat -> num * num) (ms : Z) : dashboard := {|
  utilisation := ""; slider := ""; slider_val := ""; sysStats := []; clusterInfo := EmptyView;
  canvases := <["queue-utilisation" := 0%nat]> (<["datastore-utilisation" := 1%nat]> ∅); has_data := ∅;
  charts :=
    with_ctxs (fun m => <[0%nat := fresh_context "queue-utilisation" (of_Z 450) (of_Z 350) (Some 0%nat)]> m)
      (with_ctxs (fun m => <[1%nat := fresh_context "datastore-utilisation" (of_Z 450) (of_Z 350) (Some 1%nat)]> m)
        (new_page sizes ms));
  posted := [] |}.

Lemma new_dashboard_canvas (sizes : nat -> num * num) (ms : Z) (id : string) (i : nat) :
  canvases (new_dashboard sizes ms) !! id = Some i ->
  (id = "queue-utilisation" /\ i = 0%nat) \/ (id = "datastore-utilisation" /\ i = 1%nat).
Proof.
  cbn [new_dashboard canvases]. intros [[<- <-]|[_ [[<- <-]|[_ Hno]]%lookup_insert_Some]]%lookup_insert_Some; [by left|by right|].
  by rewrite lookup_empty in Hno.
Qed.

Lemma new_dashboard_ok (sizes : nat -> num * num) (ms : Z) : dash_ok (new_dashboard sizes ms).
Proof.
  split.
  - cbn [new_dashboard charts]. apply new_canvas_inv; [|reflexivity|reflexivity].
    apply new_canvas_inv; [apply new_page_inv|reflexivity|reflexivity].
  - intros id i [[-> ->]|[-> ->]]%new_dashboard_canvas; by eexists.
  - by intros id id' i [[-> ->]|[-> ->]]%new_dashboard_canvas [[-> ?]|[-> ?]]%new_dashboard_canvas.
  - intros id [->|[->|[]%elem_of_nil]%elem_of_cons]%elem_of_cons; by eexists.
Qed.

Lemma dash_reachable_ok (sizes : nat -> num * num) (ms : Z) (s : dashboard) :
  rtc dash_step (new_dashboard sizes ms) s -> dash_ok s.
Proof.
  intros Hr. pose proof (new_dashboard_ok sizes ms) as H0. generalize dependent (new_dashboard sizes ms).
  intros s0 Hr H0. induction Hr as [|s1 s2 s3 H12 _ IH]; [done|]. by apply IH, (dash_step_ok s1).
Qed.


(** One of the two graphs, when its statistic is an object. *)
Lemma graph_shown (id : string) (stat v : jsval) (s : dashboard) :
  dash_ok s -> id ∈ ["queue-utilisation"; "datastore-utilisation"] -> get_prop stat "name" = Ok v ->
  exists s', render_graph id stat s = (s', Ok tt) /\ dash_ok s' /\ has_data s' = {[id]} ∪ has_data s.
Proof.
  intros Hok Hid Hv. destruct (stat_rendered stat v Hv) as (d & c & Hd & Hc). destruct (dash_has s Hok id Hid) as [i Hi].
  destruct (render_graph_draws id i stat d c s Hok Hi Hd Hc) as (s' & Hs & Hok' & _ & Hh). by exists s'.
Qed.

Lemma render_utilisation_array (a v : jsval) (l : list jsval) (s : dashboard) :
  get_prop a "name" = Ok v ->
  render_utilisation (VArr (a :: l)) s =
  (let k := if loose_eq v (VStr "queue") then 0 else 1 in
   let! queue := eff_lift (get_index (VArr (a :: l)) (of_Z k)) in
   do! render_graph "queue-utilisation" queue in
   let! store := eff_lift (get_index (VArr (a :: l)) (of_Z 1 - of_Z k)%num) in
   render_graph "datastore-utilisation" store) s.
Proof.
  intros Ha. unfold renderUtilisationGraph. cbn [truthy negb].
  assert (Hi : get_index (VArr (a :: l)) n0 = Ok a) by reflexivity.
  unfold eff_bind at 1, eff_lift at 1. rewrite Hi. unfold eff_bind at 1, eff_lift at 1. by rewrite Ha.
Qed.


End DashboardRuns.

Abbreviation sample_dash := (new_dashboard sample_sizes 0).



