(* ===== verification/StatsPage.v ===== *)
(** * The statistics page (inaeticsStats.js)

    One chart per statistic: canvases are created for new statistics, updated
    for known ones and removed when their statistic disappears. *)

From stdpp Require Import base list strings gmap relations.
From Stdlib Require Import ZArith Lia SpecFloat.
From S2P Require Import Prelude Num Value Options OptionValue Scale Easing Animation Redraw Lifecycle Common PageCharts.

Open Scope string_scope.
Open Scope Z_scope.

(** A canvas: its id and its context. *)
Abbreviation canvas := (string * nat)%type.

(** The first canvas of that name, and the others ([charts.splice(j, 1)[0]]). *)
Fixpoint take_canvas (name : jsval) (charts : list canvas) : option (canvas * list canvas) :=
  match charts with
  | [] => None
  | c :: cs =>
      if loose_eq (VStr c.1) name then Some (c, cs)
      else match take_canvas name cs with
           | Some (d, ds) => Some (d, c :: ds)
           | None => None
           end
  end.

Section StatsPage.

Context `{MathLib}.
Context (old_IE : bool) (dpr : option num) (personal : personal_options).
Context (fits : chart_type -> context -> chart_data -> config -> bool).
Context (anim_fuel fuel : nat).

(** The node [stats-container]. *)
Context (container_node : nat).

Record stats_page : Type := {
  stats_container : list canvas;
  next_ctx : nat;
  stats_world : world (D := chart_data)
}.

Definition set_container (l : list canvas) (s : stats_page) : stats_page := {|
  stats_container := l; next_ctx := next_ctx s; stats_world := stats_world s |}.

(** [document.createElement("canvas")], named, sized and appended. *)
Definition create_canvas (name : jsval) (s : stats_page) : stats_page := {|
  stats_container := stats_container s ++ [(to_str name, next_ctx s)];
  next_ctx := S (next_ctx s);
  stats_world := with_ctxs (insert (next_ctx s)
    (fresh_context (to_str name) (of_Z chartWidth) (of_Z chartHeight) (Some container_node)))
    (stats_world s) |}.

Definition stats_call (f : world -> res world) : eff stats_page unit :=
  eff_update (fun s => let* w := f (stats_world s) in
                       Ok {| stats_container := stats_container s; next_ctx := next_ctx s;
                             stats_world := w |}).

(** One statistic: [charts] are the canvases not matched so far. *)
Definition renderStatistic (stat : jsval) (charts : list canvas) : eff stats_page (list canvas) :=
  let! name := eff_lift (get_prop stat "name") in
  let! data := eff_lift (getData stat) in
  let! opts := eff_lift (getChartOpts stat) in
  match take_canvas name charts with
  | Some (c, rest) =>
      do! (if truthy opts.["animation"]
           then stats_call (chart_draw old_IE dpr personal fits anim_fuel fuel Line c.2 data (Some opts))
           else stats_call (updateChart old_IE dpr personal fits anim_fuel fuel c.2 data opts false false)) in
      eff_ret rest
  | None =>
      let! i := eff_gets next_ctx in
      do! eff_modify (create_canvas name) in
      let opts := <["animation" := VBool true]> opts in
      do! stats_call (chart_draw old_IE dpr personal fits anim_fuel fuel Line i data (Some opts)) in
      eff_ret charts
  end.

Fixpoint renderStatistics (stats : list jsval) (charts : list canvas) : eff stats_page (list canvas) :=
  match stats with
  | [] => eff_ret charts
  | s :: ss =>
      let! charts := renderStatistic s charts in
      renderStatistics ss charts
  end.

(** [container.removeChild] on every canvas left over: it has no parent any more,
    but its chart stays registered. *)
Definition remove_canvases (old : list canvas) (s : stats_page) : stats_page := {|
  stats_container := filter (fun c => c.2 ∉ map snd old) (stats_container s);
  next_ctx := next_ctx s;
  stats_world := with_ctxs (fun m => fold_left (fun m c => alter (set_parent None) c.2 m) old m)
                   (stats_world s) |}.

Definition renderStats (stats : jsval) : eff stats_page unit :=
  if negb (truthy stats) then eff_ret tt
  else
    let! charts := eff_gets stats_container in
    let! left_over := renderStatistics (elements_of stats) charts in
    eff_modify (remove_canvases left_over).

End StatsPage.

(** ** What the page shows *)

(** Statistics have names. *)
Definition named (stat : jsval) (n : string) : Prop := get_prop stat "name" = Ok (VStr n).

(** The first canvas of a name, when names are not used twice. *)
Lemma take_canvas_spec (n : string) (charts : list canvas) :
  NoDup (map fst charts) ->
  match take_canvas (VStr n) charts with
  | Some (c, rest) => c ∈ charts /\ c.1 = n /\ rest = filter (fun c => c.1 <> n) charts
  | None => n ∉ map fst charts
  end.
Proof.
  induction charts as [|c cs IH]; cbn [take_canvas map]; [by intros _ ?%elem_of_nil|].
  intros [Hc Hcs]%NoDup_cons. change (loose_eq (VStr c.1) (VStr n)) with (String.eqb c.1 n).
  destruct (String.eqb_spec c.1 n) as [Heq|Hne].
  - split; [by left|]. split; [done|]. rewrite filter_cons_False by tauto. symmetry. apply filter_all.
    intros d Hd Hdn. apply Hc. rewrite Heq, <- Hdn. by apply elem_of_map_2.
  - specialize (IH Hcs). destruct (take_canvas (VStr n) cs) as [[d ds]|].
    + destruct IH as (Hd & Hdn & ->). split; [by right|]. split; [done|]. by rewrite filter_cons_True.
    + intros [Heq|Hin]%elem_of_cons; [by apply Hne|done].
Qed.

Section Shown.

Context `{MathLib}.
Context (old_IE : bool) (dpr : option num).
Context (fits : chart_type -> context -> chart_data -> config -> bool).
Context (anim_fuel fuel : nat) (container_node : nat).
Hypothesis (Hfuel : (0 < fuel)%nat).

Abbreviation page_world := (world (D := chart_data)).
Abbreviation charts_inv := (page_inv (D := chart_data) old_IE no_personal_options anim_fuel Line).
Abbreviation render_one :=
  (renderStatistic old_IE dpr no_personal_options fits anim_fuel fuel container_node).
Abbreviation render_loop :=
  (renderStatistics old_IE dpr no_personal_options fits anim_fuel fuel container_node).
Abbreviation render :=
  (renderStats old_IE dpr no_personal_options fits anim_fuel fuel container_node).

(** The charts of the page are in order, and contexts are handed out once. *)
Record contexts_ok (s : stats_page) : Prop := {
  ok_charts : charts_inv (stats_world s);
  ok_next k : (next_ctx s <= k)%nat -> ctxs (stats_world s) !! k = None
}.

Definition has_context (w : page_world) (c : canvas) : Prop := is_Some (ctxs w !! c.2).

Lemma same_has_context (w w' : page_world) (c : canvas) : same_canvases w w' -> has_context w c <-> has_context w' c.
Proof. intros Hs. unfold has_context. by rewrite <- (fmap_is_Some parent), <- Hs, fmap_is_Some. Qed.

Lemma same_next (s : stats_page) (w' : page_world) :
  contexts_ok s -> same_canvases (stats_world s) w' -> charts_inv w' ->
  forall l, contexts_ok {| stats_container := l; next_ctx := next_ctx s; stats_world := w' |}.
Proof.
  intros [_ Hn] Hs Hw l. split; [done|]. cbn [next_ctx stats_world]. intros k Hk.
  specialize (Hs k). rewrite (Hn k Hk) in Hs. by destruct (ctxs w' !! k).
Qed.

(** What one statistic does to the page. *)
Record rendered (n : string) (charts : list canvas) (s s' : stats_page) : Prop := {
  rendered_ok : contexts_ok s';
  rendered_container : stats_container s' =
    (stats_container s ++ if decide (n ∈ map fst charts) then [] else [(n, next_ctx s)])%list;
  rendered_next : next_ctx s' = if decide (n ∈ map fst charts) then next_ctx s else S (next_ctx s);
  rendered_contexts c : has_context (stats_world s) c -> has_context (stats_world s') c;
  rendered_new c : c ∈ stats_container s' -> c ∉ stats_container s -> has_context (stats_world s') c
}.

Lemma render_known (n : string) (stat : jsval) (charts : list canvas) (s : stats_page) :
  contexts_ok s -> named stat n -> NoDup (map fst charts) -> Forall (has_context (stats_world s)) charts ->
  n ∈ map fst charts ->
  exists s', render_one stat charts s = (s', Ok (filter (fun c => c.1 <> n) charts)) /\ rendered n charts s s'.
Proof.
  intros Hok Hn Hnd Hctx Hin. destruct (stat_rendered stat (VStr n) Hn) as (d & opts & Hd & Ho).
  unfold renderStatistic, eff_bind, eff_lift. rewrite Hn, Hd, Ho.
  pose proof (take_canvas_spec n charts Hnd) as Ht.
  destruct (take_canvas (VStr n) charts) as [[c rest]|]; [|done]. destruct Ht as (Hc & _ & ->).
  rewrite Forall_forall in Hctx. destruct (Hctx c Hc) as [x Hx].
  pose proof (getChartOpts_page_config stat opts Ho) as Hpc.
  destruct (page_config_runs old_IE anim_fuel opts Hpc) as [Hrun _].
  assert (Hna : truthy opts.["animation"] = false).
  { by apply (getChartOpts_not_animated stat). }
  rewrite Hna. unfold stats_call, eff_update.
  destruct (updateChart_inv old_IE dpr no_personal_options fits anim_fuel fuel Line Hfuel c.2 d opts false false
    (stats_world s) x (ok_charts s Hok) Hx Hrun) as (w' & -> & Hinv & [Hsame _]).
  cbn [res_bind]. eexists. split; [reflexivity|].
  split; cbn [stats_container next_ctx stats_world]; try (destruct (decide (n ∈ map fst charts)); [|done]).
  - by apply same_next.
  - by rewrite app_nil_r.
  - done.
  - intros c' Hc'. by apply (same_has_context _ _ c' Hsame).
  - done.
Qed.

Lemma create_canvas_ok (n : string) (s : stats_page) :
  contexts_ok s -> contexts_ok (create_canvas container_node (VStr n) s).
Proof.
  intros [Hinv Hnext]. split; cbn [create_canvas stats_world next_ctx].
  - apply new_canvas_inv; [done|by apply Hnext|done].
  - intros k Hk. cbn [with_ctxs ctxs]. rewrite lookup_insert_ne by lia. apply Hnext. lia.
Qed.

Lemma render_new (n : string) (stat : jsval) (charts : list canvas) (s : stats_page) :
  contexts_ok s -> named stat n -> NoDup (map fst charts) -> n ∉ map fst charts ->
  exists s', render_one stat charts s = (s', Ok charts) /\ rendered n charts s s'.
Proof.
  intros Hok Hn Hnd Hni. destruct (stat_rendered stat (VStr n) Hn) as (d & opts & Hd & Ho).
  unfold renderStatistic, eff_bind, eff_lift. rewrite Hn, Hd, Ho.
  pose proof (take_canvas_spec n charts Hnd) as Ht.
  destruct (take_canvas (VStr n) charts) as [[c rest]|].
  { destruct Ht as (Hc & <- & _). destruct Hni. by apply elem_of_map_2. }
  pose proof (page_config_animation opts true (getChartOpts_page_config stat opts Ho)) as Hpc.
  destruct (page_config_runs old_IE anim_fuel _ Hpc) as [Hrun Hresp].
  unfold eff_gets, eff_modify, stats_call, eff_update.
  pose proof (create_canvas_ok n s Hok) as Hok1. set (s1 := create_canvas container_node (VStr n) s) in *.
  set (x := fresh_context n (of_Z chartWidth) (of_Z chartHeight) (Some container_node)).
  assert (Hx : ctxs (stats_world s1) !! next_ctx s = Some x) by apply lookup_insert_eq.
  destruct (chart_draw_inv old_IE dpr no_personal_options fits anim_fuel fuel Line Hfuel (next_ctx s) d
    (<["animation" := VBool true]> opts) (stats_world s1) x (ok_charts s1 Hok1) Hx eq_refl) as (w' & -> & Hinv & [Hsame _]);
    [by left|done|done|].
  cbn [res_bind]. unfold eff_ret. eexists. split; [reflexivity|].
  assert (Hmono : forall c, has_context (stats_world s) c -> has_context (stats_world s1) c).
  { intros c Hc. unfold has_context in *. cbn [s1 create_canvas stats_world with_ctxs ctxs].
    destruct (decide (next_ctx s = c.2)) as [->|Hne]; [rewrite lookup_insert_eq; by eexists|].
    by rewrite lookup_insert_ne. }
  split; cbn [stats_container next_ctx stats_world]; try (destruct (decide (n ∈ map fst charts)); [done|]).
  - by apply same_next.
  - done.
  - done.
  - intros c Hc. by apply (same_has_context _ _ c Hsame), Hmono.
  - intros c Hc Hold. apply (same_has_context _ _ c Hsame). cbn [s1 create_canvas stats_container] in Hc.
    apply elem_of_app in Hc as [Hc|Hc%list_elem_of_singleton]; [done|]. subst c. by exists x.
Qed.

Lemma render_one_spec (n : string) (stat : jsval) (charts : list canvas) (s : stats_page) :
  contexts_ok s -> named stat n -> NoDup (map fst charts) -> Forall (has_context (stats_world s)) charts ->
  exists s', render_one stat charts s = (s', Ok (filter (fun c => c.1 <> n) charts)) /\ rendered n charts s s'.
Proof.
  intros Hok Hn Hnd Hctx. destruct (decide (n ∈ map fst charts)) as [Hin|Hni]; [by apply (render_known n stat)|].
  rewrite filter_all; [by apply render_new|]. intros c Hc <-. by apply Hni, elem_of_map_2.
Qed.

Lemma ids_filter (n : string) (charts : list canvas) :
  map fst (filter (fun c => c.1 <> n) charts) = filter (fun m => m <> n) (map fst charts).
Proof. exact (map_filter_comp fst (fun m => m <> n) charts). Qed.

(** The loop over the statistics: [charts] are the canvases of known statistics. *)
Lemma render_loop_spec (names : list string) (stats : list jsval) (charts : list canvas) (s : stats_page) :
  contexts_ok s -> Forall2 named stats names -> NoDup names ->
  NoDup (map fst charts) -> Forall (has_context (stats_world s)) charts ->
  Forall (has_context (stats_world s)) (stats_container s) ->
  exists s' new, render_loop stats charts s = (s', Ok (filter (fun c => c.1 ∉ names) charts)) /\
    contexts_ok s' /\ stats_container s' = (stats_container s ++ new)%list /\
    map fst new = filter (fun n => n ∉ map fst charts) names /\
    map snd new = seq (next_ctx s) (length new) /\
    Forall (has_context (stats_world s')) (stats_container s').
Proof.
  intros Hok Hn. revert charts s Hok. induction Hn as [|stat n stats names Hstat Hn IH]; intros charts s Hok Hnd Hndc Hctx Hold.
  - exists s, []. rewrite filter_all, app_nil_r; [done|]. intros c _. apply not_elem_of_nil.
  - apply NoDup_cons in Hnd as [Hnn Hnd].
    destruct (render_one_spec n stat charts s Hok Hstat Hndc Hctx) as (s1 & Hs1 & [Hok1 Hcon1 Hnext1 Hmono1 Hnew1]).
    assert (Hndc1 : NoDup (map fst (filter (fun c : canvas => c.1 <> n) charts))).
    { rewrite ids_filter. by apply NoDup_filter. }
    assert (Hctx1 : Forall (has_context (stats_world s1)) (filter (fun c : canvas => c.1 <> n) charts)).
    { rewrite Forall_forall in *. intros c [_ Hc]%list_elem_of_filter. by apply Hmono1, Hctx. }
    assert (Hold1 : Forall (has_context (stats_world s1)) (stats_container s1)).
    { rewrite Forall_forall in *. intros c Hc. destruct (decide (c ∈ stats_container s)) as [Hin|Hni];
        [by apply Hmono1, Hold|by apply Hnew1]. }
    destruct (IH (filter (fun c => c.1 <> n) charts) s1 Hok1 Hnd Hndc1 Hctx1 Hold1)
      as (s' & new & Hloop & Hok' & Hcon' & Hids & Hnums & Hall).
    exists s', ((if decide (n ∈ map fst charts) then [] else [(n, next_ctx s)]) ++ new)%list.
    cbn [renderStatistics]. unfold eff_bind. rewrite Hs1, Hloop.
    split; [|split; [done|split; [by rewrite Hcon', Hcon1, app_assoc|split; [|split; [|done]]]]].
    + do 2 f_equal. rewrite filter_twice. apply filter_agree. intros c _. rewrite not_elem_of_cons. tauto.
    + rewrite map_app, Hids, ids_filter, filter_cons.
      assert (Hf : filter (fun m => m ∉ filter (fun m => m <> n) (map fst charts)) names =
                   filter (fun m => m ∉ map fst charts) names).
      { apply filter_agree. intros m Hm. rewrite list_elem_of_filter. assert (m <> n) by congruence. tauto. }
      rewrite Hf. destruct (decide (n ∈ map fst charts)), (decide (n ∉ map fst charts)); tauto.
    + rewrite map_app, length_app, Hnums, Hnext1. by destruct (decide (n ∈ map fst charts)).
Qed.

(** *** The page between two answers *)

Record page_ok (s : stats_page) : Prop := {
  page_contexts : contexts_ok s;
  page_ids : NoDup (map fst (stats_container s));
  page_numbers : NoDup (map snd (stats_container s));
  page_canvases : Forall (has_context (stats_world s)) (stats_container s)
}.

Lemma detach_all (l : list canvas) (w : page_world) :
  charts_inv w -> let w' := with_ctxs (fun m => fold_left (fun m c => alter (set_parent None) c.2 m) l m) w in
  charts_inv w' /\ forall i, is_Some (ctxs w' !! i) <-> is_Some (ctxs w !! i).
Proof.
  revert w. induction l as [|c l IH]; intros w Hw; [by destruct w|].
  destruct (IH (upd_ctx c.2 (set_parent None) w) (remove_canvas_inv _ _ _ _ c.2 w Hw)) as [Hinv Hdom].
  split; [exact Hinv|]. intros i. etransitivity; [apply (Hdom i)|]. cbn [upd_ctx with_ctxs ctxs].
  destruct (decide (c.2 = i)) as [->|Hne]; [by rewrite lookup_alter_eq, fmap_is_Some|by rewrite lookup_alter_ne].
Qed.

(** The canvases that are left over leave the page, the others stay. *)
Lemma keep_canvases (names : list string) (old new : list canvas) (next : nat) :
  NoDup (map snd old) -> (forall c, c ∈ old -> (c.2 < next)%nat) -> map snd new = seq next (length new) ->
  filter (fun c => c.2 ∉ map snd (filter (fun c => c.1 ∉ names) old)) (old ++ new)%list =
  (filter (fun c => c.1 ∈ names) old ++ new)%list.
Proof.
  intros Hnd Hlt Hnew. rewrite filter_app. f_equal.
  - apply filter_agree. intros c Hc. rewrite elem_of_map. split.
    + intros Hno. destruct (decide (c.1 ∈ names)) as [|Hni]; [done|]. destruct Hno.
      exists c. split; [done|]. by apply list_elem_of_filter.
    + intros Hin (d & Hd & [Hdn Hdo]%list_elem_of_filter). destruct Hdn.
      assert (d = c) as ->; [|done]. by apply (NoDup_map_inj snd old).
  - apply filter_all. intros c Hc. rewrite elem_of_map. intros (d & Hd & [_ Hdo]%list_elem_of_filter).
    apply (elem_of_map_2 snd) in Hc. rewrite Hnew, elem_of_seq in Hc. specialize (Hlt d Hdo). lia.
Qed.

(** What an answer of the coordinator does to a page. *)
Lemma render_spec (l : list jsval) (names : list string) (s : stats_page) :
  page_ok s -> Forall2 named l names -> NoDup names ->
  exists s' new, render (VArr l) s = (s', Ok tt) /\ page_ok s' /\
    stats_container s' = (filter (fun c => c.1 ∈ names) (stats_container s) ++ new)%list /\
    map fst new = filter (fun n => n ∉ map fst (stats_container s)) names.
Proof.
  intros [Hok Hids Hnums Hcan] Hn Hnd.
  destruct (render_loop_spec names l (stats_container s) s Hok Hn Hnd Hids Hcan Hcan)
    as (s1 & new & Hloop & [Hinv1 Hnext1] & Hcon1 & Hnew & Hseq & Hall1).
  unfold renderStats, eff_bind, eff_gets, eff_modify. cbn [truthy negb elements_of]. rewrite Hloop.
  set (left := filter (fun c => c.1 ∉ names) (stats_container s)).
  assert (Hlt : forall c, c ∈ stats_container s -> (c.2 < next_ctx s)%nat).
  { intros c Hc. rewrite Forall_forall in Hcan. destruct (Hcan c Hc) as [x Hx].
    destruct (decide (next_ctx s <= c.2)%nat) as [Hle|]; [|lia]. by rewrite (ok_next s Hok c.2 Hle) in Hx. }
  pose proof (keep_canvases names (stats_container s) new (next_ctx s) Hnums Hlt Hseq) as Hkeep.
  destruct (detach_all left (stats_world s1) Hinv1) as [Hinv' Hdom].
  eexists _, new. split; [reflexivity|].
  assert (Hcon : stats_container (remove_canvases left s1) =
    (filter (fun c => c.1 ∈ names) (stats_container s) ++ new)%list).
  { cbn [remove_canvases stats_container]. rewrite Hcon1. exact Hkeep. }
  split; [|by split]. split; rewrite ?Hcon.
  - split; [exact Hinv'|]. intros k Hk. cbn [remove_canvases stats_world]. specialize (Hdom k).
    rewrite (Hnext1 k Hk) in Hdom. apply eq_None_not_Some. intros Hs%Hdom. by apply is_Some_None in Hs.
  - rewrite map_app, Hnew. apply NoDup_app.
    split; [by apply NoDup_map_filter|]. split; [|by apply NoDup_filter].
    intros n (c & <- & [_ Hc]%list_elem_of_filter)%elem_of_map [Hno _]%list_elem_of_filter.
    by apply Hno, elem_of_map_2.
  - rewrite map_app, Hseq. apply NoDup_app. split; [by apply NoDup_map_filter|split; [|apply NoDup_seq]].
    intros k (c & <- & [_ Hc]%list_elem_of_filter)%elem_of_map Hk. apply elem_of_seq in Hk. specialize (Hlt c Hc). lia.
  - rewrite Forall_forall in Hall1 |- *. intros c Hc. apply Hdom, Hall1. rewrite Hcon1.
    apply elem_of_app in Hc as [[_ Hc]%list_elem_of_filter|Hc]; apply elem_of_app; auto.
Qed.

(** *** Histories of the page *)

Definition new_stats_page (sizes : nat -> num * num) (ms : Z) : stats_page := {|
  stats_container := []; next_ctx := 0; stats_world := new_page sizes ms |}.

Definition with_world (w : page_world) (s : stats_page) : stats_page := {|
  stats_container := stats_container s; next_ctx := next_ctx s; stats_world := w |}.

(** What happens to the page: an answer is rendered, an animation frame is due,
    the window changes its size, time passes. *)
Inductive stats_step : stats_page -> stats_page -> Prop :=
| step_answer l names s : Forall2 named l names -> NoDup names -> stats_step s (render (VArr l) s).1
| step_frame k s w' : animation_frame old_IE dpr no_personal_options fits anim_fuel fuel k (stats_world s) = Ok w' ->
    stats_step s (with_world w' s)
| step_window sizes s w' :
    window_resize old_IE dpr no_personal_options fits anim_fuel fuel sizes (stats_world s) = Ok w' ->
    stats_step s (with_world w' s)
| step_time ms s : stats_step s (with_world (at_time ms (stats_world s)) s).

Lemma with_world_ok (w' : page_world) (s : stats_page) :
  page_ok s -> charts_inv w' -> same_canvases (stats_world s) w' -> page_ok (with_world w' s).
Proof.
  intros [Hok Hids Hnums Hcan] Hinv Hsame. split; [by apply same_next|done|done|].
  rewrite Forall_forall in *. intros c Hc. apply (same_has_context _ _ c Hsame). by apply Hcan.
Qed.

Lemma stats_step_ok (s s' : stats_page) : stats_step s s' -> page_ok s -> page_ok s'.
Proof.
  intros [l names t Hn Hnd|k t w' Hw|sizes t w' Hw|ms t] Hok; pose proof (ok_charts t (page_contexts t Hok)) as Hinv.
  - destruct (render_spec l names t Hok Hn Hnd) as (t' & new & -> & Hok' & _). exact Hok'.
  - destruct (animation_frame_inv old_IE dpr no_personal_options fits anim_fuel fuel Line Hfuel k _ Hinv)
      as (w2 & Hw2 & Hinv2 & [Hs _]). rewrite Hw in Hw2. apply Ok_inj in Hw2 as <-. by apply with_world_ok.
  - destruct (resize_inv old_IE dpr no_personal_options fits anim_fuel fuel Line Hfuel sizes _ Hinv)
      as (w2 & Hw2 & Hinv2 & [Hs _]). rewrite Hw in Hw2. apply Ok_inj in Hw2 as <-. by apply with_world_ok.
  - apply with_world_ok; [done|by apply at_time_inv|done].
Qed.

Lemma stats_reachable_ok (sizes : nat -> num * num) (ms : Z) (s : stats_page) :
  rtc stats_step (new_stats_page sizes ms) s -> page_ok s.
Proof.
  assert (H0 : page_ok (new_stats_page sizes ms)).
  { split; [split; [apply new_page_inv|intros k _; apply lookup_empty]|constructor..]. }
  intros Hr. induction Hr as [|s1 s2 s3 H12 _ IH]; [done|]. by apply IH, (stats_step_ok s1).
Qed.


End Shown.

Definition sample_stat2 : jsval := VObj [
  ("name", VStr "memory"); ("type", VStr "memory"); ("unit", VStr "MB");
  ("displayName", VStr "Memory"); ("values", VArr [])].

