(* ===== verification/Stats.v ===== *)
(** * Statistics of the data points (ChartNew.js)

    [initPassVariableData_part1]: for every data point, the sums, extremes,
    percentages and neighbours that the labels, annotations and drawing
    functions use.  A point's statistics are an object, a dictionary of fields. *)

From stdpp Require Import base list strings gmap.
From Stdlib Require Import ZArith Lia SpecFloat Reals Lra.
From S2P Require Import Prelude Num Binary64 Value Options OptionValue Format.

Open Scope string_scope.
Open Scope list_scope.
Open Scope Z_scope.

(** ** Charts with axes: the first pass *)

(** [1 * v] *)
Definition as_num (v : jsval) : num := (of_Z 1 * to_num v)%num.

(** Missing points are appended so that every label has one. *)
Definition padded_length (t : chart_type) (nlabels : nat) (d : dataset) : nat :=
  match (ds_props d).["xPos"] with
  | VArr xs => if bool_decide (tpdraw t d = Line) then length xs else nlabels
  | _ => nlabels
  end.
Definition pad (n : nat) (l : list jsval) : list jsval := l ++ replicate (n - length l) VUndef.
Definition pad_dataset (t : chart_type) (nlabels : nat) (d : dataset) : dataset := {|
  ds_data := pad (padded_length t nlabels d) (ds_data d);
  ds_props := ds_props d |}.

(** The arrays of the first pass; those by axis are indexed by the axis (0 for
    the second one, 1 for the first) and a position. *)
Record totals : Type := {
  totvalue : gmap (nat * nat) num;
  mxvalue : gmap (nat * nat) num;
  mnvalue : gmap (nat * nat) num;
  lmaxvalue : gmap (nat * nat) num;
  lminvalue : gmap (nat * nat) num;
  firstNotMissingi : gmap nat Z;
  lastNotMissingi : gmap nat Z;
  firstNotMissingj : gmap nat Z;
  lastNotMissingj : gmap nat Z;
  grandtotal : num
}.

Definition no_totals : totals := {|
  totvalue := ∅; mxvalue := ∅; mnvalue := ∅; lmaxvalue := ∅; lminvalue := ∅;
  firstNotMissingi := ∅; lastNotMissingi := ∅; firstNotMissingj := ∅; lastNotMissingj := ∅;
  grandtotal := n0 |}.

Definition axis_of (d : dataset) : nat := if loose_eq (ds_props d).["axis"] (VInt 2) then 0 else 1.

(** The arrays of a dataset are initialised before its points are read ... *)
Definition init_row (i : nat) (t : totals) : totals := {|
  totvalue := totvalue t; mxvalue := mxvalue t; mnvalue := mnvalue t;
  lmaxvalue := <[(0%nat, i) := neg_MAX_VALUE]> (<[(1%nat, i) := neg_MAX_VALUE]> (lmaxvalue t));
  lminvalue := <[(0%nat, i) := MAX_VALUE]> (<[(1%nat, i) := MAX_VALUE]> (lminvalue t));
  firstNotMissingi := <[i := -1]> (firstNotMissingi t);
  lastNotMissingi := <[i := -1]> (lastNotMissingi t);
  firstNotMissingj := firstNotMissingj t; lastNotMissingj := lastNotMissingj t;
  grandtotal := grandtotal t |}.

(** ... and those of a position when it is met for the first time. *)
Definition init_column (j : nat) (t : totals) : totals :=
  match firstNotMissingj t !! j with
  | Some _ => t
  | None => {|
      totvalue := <[(0%nat, j) := n0]> (<[(1%nat, j) := n0]> (totvalue t));
      mxvalue := <[(0%nat, j) := neg_MAX_VALUE]> (<[(1%nat, j) := neg_MAX_VALUE]> (mxvalue t));
      mnvalue := <[(0%nat, j) := MAX_VALUE]> (<[(1%nat, j) := MAX_VALUE]> (mnvalue t));
      lmaxvalue := lmaxvalue t; lminvalue := lminvalue t;
      firstNotMissingi := firstNotMissingi t; lastNotMissingi := lastNotMissingi t;
      firstNotMissingj := <[j := -1]> (firstNotMissingj t);
      lastNotMissingj := <[j := -1]> (lastNotMissingj t);
      grandtotal := grandtotal t |}
  end.

Definition set_if_unset {K} `{Countable K} (k : K) (v : Z) (m : gmap K Z) : gmap K Z :=
  alter (fun old => if old =? -1 then v else old) k m.

Definition add_point (axis i j : nat) (x : num) (t : totals) : totals := {|
  totvalue := alter (fun s => (s + x)%num) (axis, j) (totvalue t);
  mxvalue := alter (fun s => Math_max s x) (axis, j) (mxvalue t);
  mnvalue := alter (fun s => Math_min s x) (axis, j) (mnvalue t);
  lmaxvalue := alter (fun s => Math_max s x) (axis, i) (lmaxvalue t);
  lminvalue := alter (fun s => Math_min s x) (axis, i) (lminvalue t);
  firstNotMissingi := set_if_unset i (Z.of_nat j) (firstNotMissingi t);
  lastNotMissingi := <[i := Z.of_nat j]> (lastNotMissingi t);
  firstNotMissingj := set_if_unset j (Z.of_nat i) (firstNotMissingj t);
  lastNotMissingj := <[j := Z.of_nat i]> (lastNotMissingj t);
  grandtotal := (grandtotal t + x)%num |}.

Definition scan_point (axis i : nat) (t : totals) (jv : nat * jsval) : totals :=
  let t := init_column jv.1 t in
  if is_undefined jv.2 then t else add_point axis i jv.1 (as_num jv.2) t.

Definition scan_dataset (t : totals) (id : nat * dataset) : totals :=
  fold_left (scan_point (axis_of id.2) id.1) (imap pair (ds_data id.2)) (init_row id.1 t).

Definition scan (ds : list dataset) : totals := fold_left scan_dataset (imap pair ds) no_totals.

(** ** Charts with axes: the second pass *)

Abbreviation stat := config.

Record second_pass : Type := {
  result : gmap (nat * nat) stat;
  cumvalue : gmap (nat * nat) num;
  prevpos : gmap (nat * nat) Z;
  prevnotemptyj : Z;
  prevemptyj : Z
}.

Definition with_result (r : gmap (nat * nat) stat) (s : second_pass) : second_pass := {|
  result := r; cumvalue := cumvalue s; prevpos := prevpos s;
  prevnotemptyj := prevnotemptyj s; prevemptyj := prevemptyj s |}.

Definition numv (o : option num) : jsval := match o with Some x => VNum x | None => VUndef end.
Definition numo (o : option num) : num := default NaN o.
Definition intv (o : option Z) : jsval := match o with Some z => VInt z | None => VUndef end.

Definition set_fields (fs : list (string * jsval)) (o : stat) : stat :=
  fold_left (fun m kv => <[kv.1 := kv.2]> m) fs o.

Section Stats.

Context (toLocaleTimeString : jsval -> string).

Let fmt (c : config) (v : jsval) (k : string) : res jsval :=
  fmtChartJS toLocaleTimeString c v (to_str c.[k]).

Let pct (c : config) (v : jsval) (total : num) (k : string) : res jsval :=
  let* f := fmt c (VNum (of_Z 100 * to_num v / total)%num) k in
  roundToWithThousands toLocaleTimeString c f c.["roundPct"].

Definition is_bar (t : chart_type) : bool :=
  match t with Bar | StackedBar | HorizontalBar | HorizontalStackedBar => true | _ => false end.
Definition is_line (t : chart_type) : bool :=
  match t with Line | Radar => true | _ => false end.

Definition legend_text (d : dataset) : string :=
  match (ds_props d).["title"] with VStr s => trim s | _ => "" end.

(** The label of a point: its abscissa when it has one, or its label. *)
Definition point_text (d : dataset) (labels : list jsval) (j : nat) : jsval :=
  let x := match (ds_props d).["xPos"] with
           | VArr xs => match xs !! j with Some VUndef => VStr "" | Some v => v | None => VStr "" end
           | _ => VStr ""
           end in
  let x := if loose_eq x (VStr "") then
             match labels !! j with Some VUndef => x | Some l => l | None => x end
           else x in
  match x with VStr s => VStr (trim s) | _ => x end.

Definition neighbours (t : chart_type) (tt : totals) (i j : nat) (s : second_pass)
    : list (string * jsval) := [
  ("firstNotMissing", if is_bar t then intv (firstNotMissingj tt !! j) else intv (firstNotMissingi tt !! i));
  ("lastNotMissing", if is_bar t then intv (lastNotMissingj tt !! j) else intv (lastNotMissingi tt !! i));
  ("prevNotMissing", VInt (prevnotemptyj s));
  ("prevMissing", VInt (prevemptyj s));
  ("grandtotal", VNum (grandtotal tt))
].

Definition common_fields (tt : totals) (axis i j : nat) (v : jsval) (lgtxt : string) (lgtxt2 : jsval)
    (cum : num) : list (string * jsval) :=
  let tot := numo (totvalue tt !! (axis, j)) in [
  ("lgtxt", VStr lgtxt);
  ("lgtxt2", lgtxt2);
  ("datavalue", VNum (as_num v));
  ("cumvalue", VNum cum);
  ("totvalue", VNum tot);
  ("pctvalue", VNum (of_Z 100 * to_num v / tot)%num);
  ("pctvalueT", VNum (of_Z 100 * to_num v / grandtotal tt)%num);
  ("maxvalue", numv (mxvalue tt !! (axis, j)));
  ("minvalue", numv (mnvalue tt !! (axis, j)));
  ("lmaxvalue", numv (lmaxvalue tt !! (axis, i)));
  ("lminvalue", numv (lminvalue tt !! (axis, i)));
  ("nextNotMissing", VInt (-1));
  ("j", VInt (Z.of_nat j));
  ("i", VInt (Z.of_nat i))
].

(** The fields a bar gets besides the common ones. *)
Definition bar_fields (c : config) (t : chart_type) (tt : totals) (axis i j : nat) (v : jsval)
    (lgtxt : string) (lgtxt2 : jsval) (cum : num) : res (list (string * jsval)) :=
  let tot := numo (totvalue tt !! (axis, j)) in
  let* v1 := fmt c (VStr lgtxt) "fmtV1" in
  let* v2 := fmt c lgtxt2 "fmtV2" in
  let* v3 := fmt c (VNum (as_num v)) "fmtV3" in
  let* v4 := fmt c (VNum cum) "fmtV4" in
  let* v5 := fmt c (VNum tot) "fmtV5" in
  let* v6 := pct c v tot "fmtV6" in
  let* v6T := pct c v (grandtotal tt) "fmtV6T" in
  let* v11 := fmt c (VInt (Z.of_nat i)) "fmtV11" in
  let* v12 := fmt c (VInt (Z.of_nat j)) "fmtV12" in
  let v3 := if (as_num v == n0)%num && bool_decide (t = HorizontalStackedBar \/ t = StackedBar)
            then VStr "" else v3 in
  Ok [("v1", v1); ("v2", v2); ("v3", v3); ("v4", v4); ("v5", v5); ("v6", v6); ("v6T", v6T);
      ("v11", v11); ("v12", v12)].

(** The fields a point of a line or of a radar gets besides the common ones. *)
Definition line_fields (c : config) (tt : totals) (axis i j : nat) (v : jsval)
    (lgtxt : string) (lgtxt2 : jsval) : res (list (string * jsval)) :=
  let tot := numo (totvalue tt !! (axis, j)) in
  let* v1 := fmt c (VStr lgtxt) "fmtV1" in
  let* v2 := fmt c lgtxt2 "fmtV2" in
  let* v3 := fmt c (VNum (as_num v)) "fmtV3" in
  let* v5 := fmt c (VNum (as_num v)) "fmtV5" in
  let* v6 := fmt c (numv (mxvalue tt !! (axis, j))) "fmtV6" in
  let* v7 := fmt c (VNum tot) "fmtV7" in
  let* v8 := pct c v tot "fmtV8" in
  let* v8T := pct c v (grandtotal tt) "fmtV8T" in
  let* v11 := fmt c (VInt (Z.of_nat i)) "fmtV11" in
  let* v12 := fmt c (VInt (Z.of_nat j)) "fmtV12" in
  Ok [("v1", v1); ("v2", v2); ("v3", v3); ("v5", v5); ("v6", v6); ("v7", v7); ("v8", v8);
      ("v8T", v8T); ("v11", v11); ("v12", v12); ("diffnext", VNum (as_num v))].

(** The differences between a point of a line and the point of the previous
    line of the same axis at this position, which changes too. *)
Definition link_lines (c : config) (ds : list dataset) (axis i j : nat) (v : jsval) (s : second_pass)
    : res second_pass :=
  let* r :=
    match prevpos s !! (axis, j) with
    | Some p =>
        if 0 <=? p then
          let prev := (Z.to_nat p, j) in
          let old := to_num (default ∅ (result s !! prev)).["datavalue"] in
          let diff := VNum (as_num v - old)%num in
          let* v4 := fmt c diff "fmtV4" in
          let before := match ds !! Z.to_nat p with
                        | Some d => default VUndef (ds_data d !! j) | None => VUndef end in
          let next := VNum (to_num before - to_num v)%num in
          Ok (alter (set_fields [("diffnext", next); ("v5", next)]) prev
               (alter (set_fields [("v4", v4); ("diffprev", diff)]) (i, j) (result s)))
        else Ok (alter (set_fields [("v4", VNum (as_num v))]) (i, j) (result s))
    | None => Ok (alter (set_fields [("v4", VNum (as_num v))]) (i, j) (result s))
    end in
  Ok {| result := r; cumvalue := cumvalue s; prevpos := <[(axis, j) := Z.of_nat i]> (prevpos s);
        prevnotemptyj := prevnotemptyj s; prevemptyj := prevemptyj s |}.

(** [for (k = prevnotemptyj; k < j; k++) result[i][k].nextNotMissing = j] *)
Definition link_next (i j : nat) (prev : Z) (r : gmap (nat * nat) stat) : gmap (nat * nat) stat :=
  if prev =? -1 then r
  else fold_left (fun r k => alter (set_fields [("nextNotMissing", VInt (Z.of_nat j))]) (i, k) r)
         (seq (Z.to_nat prev) (j - Z.to_nat prev)) r.

Definition init_cumulative (j : nat) (s : second_pass) : second_pass :=
  match cumvalue s !! (0%nat, j) with
  | Some _ => s
  | None => {| result := result s;
               cumvalue := <[(0%nat, j) := n0]> (<[(1%nat, j) := n0]> (cumvalue s));
               prevpos := <[(0%nat, j) := -1]> (<[(1%nat, j) := -1]> (prevpos s));
               prevnotemptyj := prevnotemptyj s; prevemptyj := prevemptyj s |}
  end.

(** A point with a value. *)
Definition present_point (c : config) (t : chart_type) (tt : totals) (ds : list dataset)
    (labels : list jsval) (d : dataset) (i j : nat) (v : jsval) (s : second_pass) : res second_pass :=
  let axis := axis_of d in
  let cum := (numo (cumvalue s !! (axis, j)) + as_num v)%num in
  let s := {| result := result s; cumvalue := <[(axis, j) := cum]> (cumvalue s);
              prevpos := prevpos s; prevnotemptyj := prevnotemptyj s; prevemptyj := prevemptyj s |} in
  let shared := common_fields tt axis i j v (legend_text d) (point_text d labels j) cum
                ++ neighbours t tt i j s in
  let* s :=
    if is_bar t then
      let* fs := bar_fields c t tt axis i j v (legend_text d) (point_text d labels j) cum in
      Ok (with_result (<[(i, j) := of_fields (shared ++ fs)]> (result s)) s)
    else if is_line t then
      let* fs := line_fields c tt axis i j v (legend_text d) (point_text d labels j) in
      link_lines c ds axis i j v (with_result (<[(i, j) := of_fields (shared ++ fs)]> (result s)) s)
    else Ok s in
  Ok {| result := link_next i j (prevnotemptyj s) (result s);
        cumvalue := cumvalue s; prevpos := prevpos s;
        prevnotemptyj := Z.of_nat j; prevemptyj := prevemptyj s |}.

(** A missing point. *)
Definition missing_point (t : chart_type) (tt : totals) (d : dataset) (i j : nat) (s : second_pass)
    : second_pass :=
  let axis := axis_of d in
  let s := {| result := result s; cumvalue := cumvalue s; prevpos := prevpos s;
              prevnotemptyj := prevnotemptyj s; prevemptyj := Z.of_nat j |} in
  if is_bar t || is_line t then
    with_result (<[(i, j) := of_fields ([("v1", VStr (legend_text d));
                                         ("lmaxvalue", numv (lmaxvalue tt !! (axis, i)));
                                         ("lminvalue", numv (lminvalue tt !! (axis, i)))]
                                        ++ neighbours t tt i j s)]> (result s)) s
  else s.

Definition pass_point (c : config) (tpchart : chart_type) (tt : totals) (ds : list dataset)
    (labels : list jsval) (d : dataset) (i : nat) (s : second_pass) (jv : nat * jsval) : res second_pass :=
  let '(j, v) := jv in
  let s := init_cumulative j s in
  let t := tpdraw tpchart d in
  if is_undefined v then Ok (missing_point t tt d i j s)
  else present_point c t tt ds labels d i j v s.

Fixpoint pass_points (c : config) (tpchart : chart_type) (tt : totals) (ds : list dataset)
    (labels : list jsval) (d : dataset) (i : nat) (l : list (nat * jsval)) (s : second_pass) : res second_pass :=
  match l with
  | [] => Ok s
  | jv :: l' => let* s := pass_point c tpchart tt ds labels d i s jv in
                pass_points c tpchart tt ds labels d i l' s
  end.

Fixpoint pass_datasets (c : config) (tpchart : chart_type) (tt : totals) (ds : list dataset)
    (labels : list jsval) (l : list (nat * dataset)) (s : second_pass) : res second_pass :=
  match l with
  | [] => Ok s
  | (i, d) :: l' =>
      let s := {| result := result s; cumvalue := cumvalue s; prevpos := prevpos s;
                  prevnotemptyj := -1; prevemptyj := -1 |} in
      let* s := pass_points c tpchart tt ds labels d i (imap pair (ds_data d)) s in
      pass_datasets c tpchart tt ds labels l' s
  end.

(** The statistics of a chart with axes or of a radar, with the padded data. *)
Definition initPassVariableData_axes (c : config) (tpchart : chart_type) (data : chart_data)
    : res (gmap (nat * nat) stat * chart_data) :=
  let ds := map (pad_dataset tpchart (length (labels data))) (datasets data) in
  let tt := scan ds in
  let* s := pass_datasets c tpchart tt ds (labels data) (imap pair ds)
              {| result := ∅; cumvalue := ∅; prevpos := ∅; prevnotemptyj := -1; prevemptyj := -1 |} in
  Ok (result s, {| labels := labels data; datasets := ds |}).

(** ** Pies, doughnuts and polar areas *)

(** A segment of the data: an object with a value and a title. *)
Abbreviation segment := config.

Record pie_totals : Type := {
  p_total : num;
  p_max : num;
  p_min : num;
  p_count : Z;
  p_first : Z;
  p_last : Z
}.

Definition skipped (tpchart : chart_type) (v : jsval) : bool :=
  negb (bool_decide (tpchart = PolarArea)) && (as_num v < n0)%num.

Definition pie_scan (tpchart : chart_type) (p : pie_totals) (id : nat * segment) : pie_totals :=
  let v := id.2.["value"] in
  if skipped tpchart v || is_undefined v then p
  else {| p_total := (p_total p + as_num v)%num;
          p_max := Math_max (p_max p) (as_num v);
          p_min := Math_min (p_min p) (as_num v);
          p_count := p_count p + 1;
          p_first := if p_first p =? -1 then Z.of_nat id.1 else p_first p;
          p_last := Z.of_nat id.1 |}.

Definition pie_scan_all (tpchart : chart_type) (data : list segment) : pie_totals :=
  fold_left (pie_scan tpchart) (imap pair data)
    {| p_total := n0; p_max := neg_MAX_VALUE; p_min := MAX_VALUE; p_count := 0;
       p_first := -1; p_last := -1 |}.

(** [((a + 2 * Math.PI) % (2 * Math.PI) + 2 * Math.PI) % (2 * Math.PI)] *)
Definition normalise_angle (a : num) : num :=
  let turn := (of_Z 2 * Math_PI)%num in
  nrem (nrem (a + turn)%num turn + turn)%num turn.

Definition segment_angle (tpchart : chart_type) (p : pie_totals) (v : jsval) : num :=
  let a := if bool_decide (tpchart = PolarArea)
           then if 0 <? p_count p then (Math_PI * of_Z 2 / of_Z (p_count p))%num else n0
           else (as_num v / p_total p * (Math_PI * of_Z 2))%num in
  if (a >= Math_PI * of_Z 2)%num then (Math_PI * of_Z 2 - lit 1 (-3))%num else a.

Record pie_pass : Type := {
  p_result : gmap nat stat;
  p_cumvalue : num;
  p_angle : num;
  p_realAngle : num;
  p_prevNotMissing : Z;
  p_prevMissing : Z
}.

Definition segment_title (d : segment) : string :=
  match d.["title"] with VStr s => trim s | _ => "" end.

(** The texts of a segment, [v1] to [v13]. *)
Definition segment_texts (c : config) (p : pie_totals) (s : pie_pass) (i : nat) (v : jsval)
    (title : string) (cum angle : num) : res (list (string * jsval)) :=
  let* v1 := fmt c (VStr title) "fmtV1" in
  let* v2 := fmt c (VNum (as_num v)) "fmtV2" in
  let* v3 := fmt c (VNum cum) "fmtV3" in
  let* v4 := fmt c (VNum (p_total p)) "fmtV4" in
  let* v5 := fmt c (VNum angle) "fmtV5" in
  let* v6 := pct c v (p_total p) "fmtV6" in
  let* v11 := fmt c (VNum (p_angle s - angle)%num) "fmtV11" in
  let* v12 := fmt c (VNum (p_angle s)) "fmtV12" in
  let* v13 := fmt c (VInt (Z.of_nat i)) "fmtV13" in
  Ok [("v1", v1); ("v2", v2); ("v3", v3); ("v4", v4); ("v5", v5); ("v6", v6);
      ("v7", VInt 0); ("v8", VInt 0); ("v9", VInt 0); ("v10", VInt 0);
      ("v11", v11); ("v12", v12); ("v13", v13)].

Definition segment_fields (p : pie_totals) (s : pie_pass) (i : nat) (v : jsval) (startAngle : num)
    (title : string) (cum angle : num) : list (string * jsval) := [
  ("lgtxt", VStr title);
  ("datavalue", VNum (as_num v));
  ("cumvalue", VNum cum);
  ("totvalue", VNum (p_total p));
  ("segmentAngle", VNum angle);
  ("firstAngle", VNum startAngle);
  ("pctvalue", VNum (of_Z 100 * to_num v / p_total p)%num);
  ("startAngle", VNum (p_angle s));
  ("realStartAngle", VNum (p_realAngle s));
  ("endAngle", VNum (p_angle s + angle)%num);
  ("maxvalue", VNum (p_max p)); ("minvalue", VNum (p_min p));
  ("i", VInt (Z.of_nat i));
  ("firstNotMissing", VInt (p_first p)); ("lastNotMissing", VInt (p_last p));
  ("prevNotMissing", VInt (p_prevNotMissing s)); ("prevMissing", VInt (p_prevMissing s));
  ("nextNotMissing", VInt (-1));
  ("radiusOffset", VInt 0); ("midPosX", VInt 0); ("midPosY", VInt 0);
  ("int_radius", VInt 0); ("ext_radius", VInt 0)
].

Definition pie_point (c : config) (tpchart : chart_type) (p : pie_totals) (startAngle : num)
    (s : pie_pass) (id : nat * segment) : res pie_pass :=
  let '(i, d) := id in
  let v := d.["value"] in
  let title := segment_title d in
  if negb (is_undefined v) && (bool_decide (tpchart = PolarArea) || (as_num v >= n0)%num) then
    let angle := segment_angle tpchart p v in
    let cum := (p_cumvalue s + as_num v)%num in
    let* texts := segment_texts c p s i v title cum angle in
    let r := <[i := of_fields (texts ++ segment_fields p s i v startAngle title cum angle)]> (p_result s) in
    let r := if p_prevNotMissing s =? -1 then r
             else alter (set_fields [("nextNotMissing", VInt (Z.of_nat i))]) (Z.to_nat (p_prevNotMissing s)) r in
    Ok {| p_result := r; p_cumvalue := cum; p_angle := (p_angle s + angle)%num;
          p_realAngle := (p_realAngle s - angle)%num;
          p_prevNotMissing := Z.of_nat i; p_prevMissing := p_prevMissing s |}
  else
    Ok {| p_result := <[i := of_fields [
            ("v1", VStr title);
            ("maxvalue", VNum (p_max p)); ("minvalue", VNum (p_min p));
            ("i", VInt (Z.of_nat i));
            ("firstNotMissing", VInt (p_first p)); ("lastNotMissing", VInt (p_last p));
            ("prevNotMissing", VInt (p_prevNotMissing s))]]> (p_result s);
          p_cumvalue := p_cumvalue s; p_angle := p_angle s; p_realAngle := p_realAngle s;
          p_prevNotMissing := p_prevNotMissing s; p_prevMissing := Z.of_nat i |}.

Fixpoint pie_points (c : config) (tpchart : chart_type) (p : pie_totals) (startAngle : num)
    (l : list (nat * segment)) (s : pie_pass) : res pie_pass :=
  match l with
  | [] => Ok s
  | id :: l' => let* s := pie_point c tpchart p startAngle s id in
                pie_points c tpchart p startAngle l' s
  end.

Definition initPassVariableData_segments (c : config) (tpchart : chart_type) (data : list segment)
    : res (gmap nat stat) :=
  let rad := (to_num c.["startAngle"] * (Math_PI / of_Z 180))%num in
  let start := normalise_angle (nneg (to_num c.["startAngle"]) * (Math_PI / of_Z 180))%num in
  let p := pie_scan_all tpchart data in
  let* s := pie_points c tpchart p start (imap pair data)
              {| p_result := ∅; p_cumvalue := n0; p_angle := start;
                 p_realAngle := normalise_angle rad; p_prevNotMissing := -1; p_prevMissing := -1 |} in
  Ok (p_result s).

End Stats.

(** ** Fields *)

Lemma set_fields_prop (l : list (string * jsval)) (o : config) (k : string) :
  (set_fields l o).[k] = match last_field l k with Some v => v | None => o.[k] end.
Proof.
  unfold set_fields. revert o. induction l as [|[k' v] r IH]; intros o; [done|].
  cbn [fold_left last_field fst snd]. rewrite IH. destruct (last_field r k); [done|].
  unfold prop. destruct (String.eqb_spec k' k) as [->|Hne]; [by rewrite lookup_insert_eq|by rewrite lookup_insert_ne].
Qed.

(** ** What the points know of their dataset *)

Section Known.

Context (toLocaleTimeString : jsval -> string).

(** The kind of chart: bars have the datasets with a value at their position, lines
    the positions of their dataset with a value. *)
Context (t : chart_type).

Definition missing_range (tt : totals) (k : nat * nat) : option Z * option Z :=
  if is_bar t then (firstNotMissingj tt !! k.2, lastNotMissingj tt !! k.2)
  else (firstNotMissingi tt !! k.1, lastNotMissingi tt !! k.1).

Definition knows (tt : totals) (r : gmap (nat * nat) stat) (k : nat * nat) : Prop :=
  exists o, r !! k = Some o /\ o.["firstNotMissing"] = intv (missing_range tt k).1 /\
    o.["lastNotMissing"] = intv (missing_range tt k).2.

Lemma of_fields_prop (l : list (string * jsval)) (k : string) : (of_fields l).[k] = default VUndef (last_field l k).
Proof. unfold prop. by rewrite lookup_of_fields. Qed.

Lemma last_field_app (l1 l2 : list (string * jsval)) (k : string) :
  last_field (l1 ++ l2) k = match last_field l2 k with Some v => Some v | None => last_field l1 k end.
Proof.
  induction l1 as [|[k' v] l1 IH]; cbn [app last_field]; [by destruct (last_field l2 k)|].
  rewrite IH. by destruct (last_field l2 k).
Qed.

(** Fields that do not concern the positions with a value. *)
Definition other_fields (l : list (string * jsval)) : Prop :=
  last_field l "firstNotMissing" = None /\ last_field l "lastNotMissing" = None.

Lemma knows_alter tt l r k' k : other_fields l -> knows tt r k -> knows tt (alter (set_fields l) k' r) k.
Proof.
  intros [H1 H2] (o & Ho & Hf & Hl). destruct (decide (k' = k)) as [->|Hne].
  - exists (set_fields l o). rewrite lookup_alter_eq, Ho, !set_fields_prop, H1, H2. done.
  - exists o. by rewrite lookup_alter_ne.
Qed.

Lemma knows_link_next tt i j prev r k : knows tt r k -> knows tt (link_next i j prev r) k.
Proof.
  unfold link_next. destruct (prev =? -1); [done|]. intros Hk.
  generalize (seq (Z.to_nat prev) (j - Z.to_nat prev)). intros l. revert r Hk.
  induction l as [|x l IH]; intros r Hk; cbn [fold_left]; [done|]. by apply IH, knows_alter.
Qed.

(** A step of the second pass: the point knows, and no other point forgets. *)
Definition learns (tt : totals) (k : nat * nat) (s s' : second_pass) : Prop :=
  knows tt (result s') k /\ forall k', knows tt (result s) k' -> knows tt (result s') k'.

Lemma knows_insert tt l r k : last_field l "firstNotMissing" = Some (intv (missing_range tt k).1) ->
  last_field l "lastNotMissing" = Some (intv (missing_range tt k).2) ->
  knows tt (<[k := of_fields l]> r) k /\ forall k', knows tt r k' -> knows tt (<[k := of_fields l]> r) k'.
Proof.
  intros H1 H2. assert (Hk : knows tt (<[k := of_fields l]> r) k).
  { exists (of_fields l). rewrite lookup_insert_eq, !of_fields_prop, H1, H2. done. }
  split; [done|]. intros k' (o & Ho & ?). destruct (decide (k = k')) as [<-|Hne]; [done|].
  exists o. by rewrite lookup_insert_ne.
Qed.

Lemma link_lines_knows c ds axis i j v s s' tt k :
  link_lines toLocaleTimeString c ds axis i j v s = Ok s' -> knows tt (result s) k -> knows tt (result s') k.
Proof.
  unfold link_lines. intros Hl Hk. apply res_bind_Ok in Hl as (r & Hr & Hl). apply Ok_inj in Hl as <-. cbn [result].
  destruct (prevpos s !! (axis, j)) as [p|]; [destruct (0 <=? p)|].
  - apply res_bind_Ok in Hr as (v4 & _ & Hr). apply Ok_inj in Hr as <-. by repeat apply knows_alter.
  - apply Ok_inj in Hr as <-. by apply knows_alter.
  - apply Ok_inj in Hr as <-. by apply knows_alter.
Qed.

Lemma neighbours_range tt i j s :
  last_field (neighbours t tt i j s) "firstNotMissing" = Some (intv (missing_range tt (i, j)).1) /\
  last_field (neighbours t tt i j s) "lastNotMissing" = Some (intv (missing_range tt (i, j)).2).
Proof. unfold neighbours, missing_range. by destruct (is_bar t). Qed.

(** All datasets are drawn in the kind of the chart. *)
Context (Ht : forall d, tpdraw t d = t) (Hkind : is_bar t || is_line t = true).

Lemma present_point_learns c tt ds labels d i j v s s' :
  present_point toLocaleTimeString c t tt ds labels d i j v s = Ok s' -> learns tt (i, j) s s'.
Proof.
  unfold present_point. intros Hs. apply res_bind_Ok in Hs as (s1 & H1 & Hs). apply Ok_inj in Hs as <-.
  pose proof (fun s => proj1 (neighbours_range tt i j s)) as Hf.
  pose proof (fun s => proj2 (neighbours_range tt i j s)) as Hl.
  assert (Hstep : learns tt (i, j) s s1).
  { destruct (is_bar t); [|destruct (is_line t); [|done]]; apply res_bind_Ok in H1 as (fs & Hfs & H1).
    - assert (Hother : other_fields fs) by (unfold bar_fields in Hfs; succeed; apply Ok_inj in Hfs as <-; by split).
      apply Ok_inj in H1 as <-. cbn [with_result result]. apply knows_insert;
        rewrite last_field_app, ?(proj1 Hother), ?(proj2 Hother), last_field_app; [by rewrite Hf|by rewrite Hl].
    - assert (Hother : other_fields fs) by (unfold line_fields in Hfs; succeed; apply Ok_inj in Hfs as <-; by split).
      match type of H1 with link_lines _ _ _ _ _ _ _ (with_result (<[_ := of_fields ?l]> _) _) = _ =>
        destruct (knows_insert tt l (result s) (i, j)) as [Hnew Hold] end;
        [by rewrite last_field_app, (proj1 Hother), last_field_app, Hf|
         by rewrite last_field_app, (proj2 Hother), last_field_app, Hl|].
      split; [|intros k' Hk']; (eapply link_lines_knows; [exact H1|]); [exact Hnew|by apply Hold]. }
  destruct Hstep as [Hnew Hold]. split; [|intros k' Hk']; apply knows_link_next; auto.
Qed.

Lemma pass_point_learns c tt ds labels d i j v s s' :
  pass_point toLocaleTimeString c t tt ds labels d i s (j, v) = Ok s' -> learns tt (i, j) s s'.
Proof.
  unfold pass_point. rewrite Ht. assert (Hinit : result (init_cumulative j s) = result s).
  { unfold init_cumulative. by destruct (cumvalue s !! _). }
  destruct (is_undefined v); intros Hs.
  - apply Ok_inj in Hs as <-. unfold missing_point. rewrite Hkind. cbn [with_result result]. unfold learns.
    rewrite <- Hinit. pose proof (fun s => proj1 (neighbours_range tt i j s)) as Hf.
    pose proof (fun s => proj2 (neighbours_range tt i j s)) as Hl.
    apply knows_insert; rewrite last_field_app; [by rewrite Hf|by rewrite Hl].
  - unfold learns. rewrite <- Hinit. by eapply present_point_learns.
Qed.

Lemma pass_points_learn c tt ds labels d i l s s' :
  pass_points toLocaleTimeString c t tt ds labels d i l s = Ok s' ->
  (forall j v, (j, v) ∈ l -> knows tt (result s') (i, j)) /\ forall k, knows tt (result s) k -> knows tt (result s') k.
Proof.
  revert s. induction l as [|[j v] l IH]; intros s Hp; cbn [pass_points] in Hp.
  { apply Ok_inj in Hp as <-. split; [by intros j v ?%elem_of_nil|done]. }
  apply res_bind_Ok in Hp as (s1 & [Hnew Hold]%pass_point_learns & Hp). destruct (IH _ Hp) as [Hl Hk].
  split; [|auto]. intros j' v' [[= -> ->]|Hin]%elem_of_cons; [by apply Hk|by eapply Hl].
Qed.

Lemma pass_datasets_learn c tt ds labels l s s' :
  pass_datasets toLocaleTimeString c t tt ds labels l s = Ok s' ->
  (forall i d j, (i, d) ∈ l -> (j < length (ds_data d))%nat -> knows tt (result s') (i, j)) /\
  forall k, knows tt (result s) k -> knows tt (result s') k.
Proof.
  revert s. induction l as [|[i d] l IH]; intros s Hp; cbn [pass_datasets] in Hp.
  { apply Ok_inj in Hp as <-. split; [by intros i d j ?%elem_of_nil|done]. }
  apply res_bind_Ok in Hp as (s1 & [Hnew Hold]%pass_points_learn & Hp). destruct (IH _ Hp) as [Hl Hk].
  split; [|intros k Hs; by apply Hk, Hold]. intros i' d' j [[= -> ->]|Hin]%elem_of_cons Hj; [|by eapply Hl].
  destruct (lookup_lt_is_Some_2 (ds_data d) j Hj) as [v Hv]. apply Hk, (Hnew j v).
  apply list_elem_of_lookup. exists j. by rewrite list_lookup_imap, Hv.
Qed.

(** The statistics of the points of a chart. *)
Lemma axes_know c data r data' :
  initPassVariableData_axes toLocaleTimeString c t data = Ok (r, data') ->
  forall i d j, datasets data' !! i = Some d -> (j < length (ds_data d))%nat -> knows (scan (datasets data')) r (i, j).
Proof.
  unfold initPassVariableData_axes. intros Hp. apply res_bind_Ok in Hp as (s & [Hs _]%pass_datasets_learn & Hp).
  apply Ok_inj in Hp. pose proof (f_equal snd Hp) as Hd. apply (f_equal fst) in Hp. cbn [fst snd] in *. subst r data'.
  intros i d j Hi Hj. cbn [datasets] in *. apply (Hs i d); [|done].
  apply list_elem_of_lookup. exists i. by rewrite list_lookup_imap, Hi.
Qed.

End Known.

(** ** What the first pass computes *)

(** The value of a point that is not missing. *)
Definition present (v : jsval) : option num := if is_undefined v then None else Some (as_num v).

(** The values at a position, from the datasets of an axis, in their order. *)
Definition value_at (a j : nat) (d : dataset) : option num :=
  if decide (axis_of d = a) then ds_data d !! j ≫= present else None.
Definition column (a j : nat) (ds : list dataset) : list num := omap (value_at a j) ds.

(** The sum and the extremes at a position, as they are shown in the points. *)
Definition sums : Type := num * num * num.
Definition no_sums : sums := (n0, neg_MAX_VALUE, MAX_VALUE).
Definition add_sum (s : sums) (x : num) : sums :=
  let '(tot, mx, mn) := s in ((tot + x)%num, Math_max mx x, Math_min mn x).
Definition sums_at (a j : nat) (t : totals) : sums :=
  (default n0 (totvalue t !! (a, j)), default neg_MAX_VALUE (mxvalue t !! (a, j)),
   default MAX_VALUE (mnvalue t !! (a, j))).

(** The arrays have entries for the positions met so far. *)
Definition columns_known (t : totals) : Prop := forall a j, (a < 2)%nat ->
  (is_Some (firstNotMissingj t !! j) <-> is_Some (totvalue t !! (a, j))) /\
  (is_Some (firstNotMissingj t !! j) <-> is_Some (mxvalue t !! (a, j))) /\
  (is_Some (firstNotMissingj t !! j) <-> is_Some (mnvalue t !! (a, j))).

Lemma lookup_init {V : Type} (x : V) (a j k : nat) (m : gmap (nat * nat) V) : (a < 2)%nat ->
  <[(0%nat, j) := x]> (<[(1%nat, j) := x]> m) !! (a, k) = if decide (j = k) then Some x else m !! (a, k).
Proof.
  intros Ha. destruct (decide (j = k)) as [->|Hne].
  - assert (a = 0%nat \/ a = 1%nat) as [-> | ->] by lia; [by rewrite lookup_insert_eq|].
    by rewrite lookup_insert_ne, lookup_insert_eq.
  - by rewrite !lookup_insert_ne by congruence.
Qed.

Lemma init_column_sums (a j k : nat) (t : totals) : (a < 2)%nat -> columns_known t ->
  sums_at a k (init_column j t) = sums_at a k t /\ columns_known (init_column j t) /\
  is_Some (firstNotMissingj (init_column j t) !! j).
Proof.
  intros Ha Hk. unfold init_column. destruct (firstNotMissingj t !! j) as [f|] eqn:Hf; [done|].
  split; [|split; [|cbn; rewrite lookup_insert_eq; by eexists]].
  - unfold sums_at. cbn [totvalue mxvalue mnvalue]. rewrite !lookup_init by done.
    destruct (decide (j = k)) as [<-|]; [|done].
    destruct (Hk a j Ha) as (H1 & H2 & H3). rewrite Hf in H1, H2, H3.
    assert (Hnone : forall o : option num, (is_Some (@None Z) <-> is_Some o) -> o = None).
    { intros [o|] Ho; [|done]. assert (is_Some (@None Z)) as [? ?] by (by apply Ho); done. }
    by rewrite (Hnone _ H1), (Hnone _ H2), (Hnone _ H3).
  - intros b l Hb. cbn [firstNotMissingj totvalue mxvalue mnvalue]. rewrite !lookup_init by done.
    destruct (decide (j = l)) as [<-|Hne]; [|rewrite lookup_insert_ne by done; by apply Hk].
    rewrite lookup_insert_eq. repeat split; intros _; by eexists.
Qed.

Lemma alter_known {V K} `{Countable K} (f : V -> V) (k k' : K) (m : gmap K V) :
  is_Some (alter f k m !! k') <-> is_Some (m !! k').
Proof.
  destruct (decide (k = k')) as [->|Hne]; [by rewrite lookup_alter_eq, fmap_is_Some|by rewrite lookup_alter_ne].
Qed.

Lemma scan_point_sums (a axis i j k : nat) (v : jsval) (t : totals) : (a < 2)%nat -> columns_known t ->
  columns_known (scan_point axis i t (j, v)) /\
  sums_at a k (scan_point axis i t (j, v)) =
    match present v with
    | Some x => if decide (axis = a /\ j = k) then add_sum (sums_at a k t) x else sums_at a k t
    | None => sums_at a k t
    end.
Proof.
  intros Ha Hk. destruct (init_column_sums a j k t Ha Hk) as (Hs & Hk' & Hj). unfold scan_point, present. cbn [fst snd].
  destruct (is_undefined v); [by rewrite Hs|]. rewrite <- Hs. set (t' := init_column j t) in *. split.
  - intros b l Hb. cbn [add_point firstNotMissingj totvalue mxvalue mnvalue]. unfold set_if_unset.
    rewrite !alter_known. by apply Hk'.
  - destruct (Hk' a j Ha) as (H1 & H2 & H3). unfold sums_at. cbn [add_point totvalue mxvalue mnvalue].
    destruct (decide (axis = a /\ j = k)) as [[-> ->]|Hne].
    + apply H1 in Hj as HT. apply H2 in Hj as HM. apply H3 in Hj as HN.
      destruct HT as [x1 E1], HM as [x2 E2], HN as [x3 E3]. by rewrite !lookup_alter_eq, E1, E2, E3.
    + by rewrite !lookup_alter_ne by (intros [= ? ?]; tauto).
Qed.

(** The values a dataset contributes to a position: at most one. *)
Lemma imap_pair_at {A B : Type} (f : A -> option B) (k off : nat) (l : list A) :
  omap (fun jv : nat * A => if decide (jv.1 = k) then f jv.2 else None) (imap (fun n x => ((off + n)%nat, x)) l) =
  match decide (off <= k)%nat with
  | left _ => option_list (l !! (k - off)%nat ≫= f)
  | right _ => []
  end.
Proof.
  revert off. induction l as [|x l IH]; intros off; [by destruct (decide (off <= k)%nat)|].
  rewrite imap_cons. cbn [omap list_omap fst snd]. rewrite Nat.add_0_r.
  erewrite imap_ext; [|intros n y _; cbn; rewrite <- Nat.add_succ_comm; reflexivity]. rewrite IH.
  destruct (decide (off = k)) as [->|Hne].
  - rewrite Nat.sub_diag. destruct (decide (k <= k)%nat), (decide (S k <= k)%nat); try lia. cbn.
    by destruct (f x).
  - destruct (decide (S off <= k)%nat), (decide (off <= k)%nat); try lia; [|done].
    by replace (k - off)%nat with (S (k - S off)) by lia.
Qed.

Lemma fold_scan_points (a axis i k : nat) (l : list (nat * jsval)) (t : totals) : (a < 2)%nat -> columns_known t ->
  columns_known (fold_left (scan_point axis i) l t) /\
  sums_at a k (fold_left (scan_point axis i) l t) =
    fold_left add_sum (omap (fun jv : nat * jsval => if decide (jv.1 = k) then
      (fun v => if decide (axis = a) then present v else None) jv.2 else None) l) (sums_at a k t).
Proof.
  intros Ha. revert t. induction l as [|[j v] l IH]; intros t Hk; [done|].
  destruct (scan_point_sums a axis i j k v t Ha Hk) as [Hk' Hs]. destruct (IH _ Hk') as [Hk'' Hs''].
  cbn [fold_left omap list_omap fst snd]. split; [done|]. rewrite Hs'', Hs.
  destruct (decide (j = k)) as [<-|Hne], (decide (axis = a)) as [<-|Hne'], (decide (_ /\ _)), (present v); tauto.
Qed.

Lemma scan_dataset_sums (a i k : nat) (d : dataset) (t : totals) : (a < 2)%nat -> columns_known t ->
  columns_known (scan_dataset t (i, d)) /\
  sums_at a k (scan_dataset t (i, d)) = fold_left add_sum (option_list (value_at a k d)) (sums_at a k t).
Proof.
  intros Ha Hk. unfold scan_dataset. cbn [fst snd].
  assert (Hk0 : columns_known (init_row i t)) by exact Hk.
  destruct (fold_scan_points a (axis_of d) i k (imap pair (ds_data d)) (init_row i t) Ha Hk0) as [Hk' Hs].
  split; [done|]. rewrite Hs. change (sums_at a k (init_row i t)) with (sums_at a k t). f_equal.
  etransitivity; [exact (imap_pair_at (fun v => if decide (axis_of d = a) then present v else None) k 0 (ds_data d))|].
  rewrite Nat.sub_0_r. destruct (decide (0 <= k)%nat); [|lia]. unfold value_at. f_equal.
  by destruct (decide (axis_of d = a)), (ds_data d !! k).
Qed.

Lemma fold_scan_datasets (a k : nat) (l : list (nat * dataset)) (t : totals) : (a < 2)%nat -> columns_known t ->
  columns_known (fold_left scan_dataset l t) /\
  sums_at a k (fold_left scan_dataset l t) = fold_left add_sum (omap (fun id => value_at a k id.2) l) (sums_at a k t).
Proof.
  intros Ha. revert t. induction l as [|[i d] l IH]; intros t Hk; [done|].
  destruct (scan_dataset_sums a i k d t Ha Hk) as [Hk' Hs]. destruct (IH _ Hk') as [Hk'' Hs''].
  cbn [fold_left]. split; [done|]. rewrite Hs'', Hs. cbn [omap list_omap snd].
  by destruct (value_at a k d).
Qed.

Lemma omap_imap_pair {A B : Type} (f : A -> option B) (l : list A) :
  omap (fun id : nat * A => f id.2) (imap pair l) = omap f l.
Proof.
  assert (Hoff : forall off, omap (fun id : nat * A => f id.2) (imap (fun n x => ((off + n)%nat, x)) l) = omap f l).
  { induction l as [|x l IH]; intros off; [done|]. rewrite imap_cons. cbn [omap list_omap snd].
    erewrite imap_ext; [|intros n y _; cbn; rewrite <- Nat.add_succ_comm; reflexivity]. by rewrite IH. }
  exact (Hoff 0%nat).
Qed.

Lemma fold_sums (l : list num) (t mx mn : num) :
  fold_left add_sum l (t, mx, mn) = (fold_left nadd l t, fold_left Math_max l mx, fold_left Math_min l mn).
Proof. revert t mx mn. by induction l as [|x l IH]; intros t mx mn; [|cbn; rewrite IH]. Qed.

Lemma scan_sums (ds : list dataset) (a j : nat) : (a < 2)%nat ->
  sums_at a j (scan ds) = fold_left add_sum (column a j ds) no_sums.
Proof.
  intros Ha. unfold scan. destruct (fold_scan_datasets a j (imap pair ds) no_totals Ha) as [_ Hs].
  { intros b l _. cbn. rewrite !lookup_empty. repeat split; intros [? ?]; done. }
  rewrite Hs. unfold column. f_equal. exact (omap_imap_pair (value_at a j) ds).
Qed.

(** C16: the sum, the maximum and the minimum that the points at a position are
    shown with are those of the values the datasets of the same axis have at that
    position, missing points left out, added in the order of the datasets. *)
Theorem scan_columns (ds : list dataset) (a j : nat) : (a < 2)%nat ->
  let '(tot, mx, mn) := sums_at a j (scan ds) in
  tot = fold_left nadd (column a j ds) n0 /\
  mx = fold_left Math_max (column a j ds) neg_MAX_VALUE /\ mn = fold_left Math_min (column a j ds) MAX_VALUE.
Proof. intros Ha. rewrite (scan_sums ds a j Ha). unfold no_sums. by rewrite fold_sums. Qed.

(** A number picked from a list by comparing, as [Math.max] does, or its opposite. *)
Lemma fold_extreme (pick : num -> num -> num) (rel : R -> R -> Prop) (l : list num) (m : num) :
  (forall x y, ordered x -> ordered y -> ordered (pick x y) /\ rel (B2X x) (B2X (pick x y)) /\
    rel (B2X y) (B2X (pick x y)) /\ (B2X (pick x y) = B2X x \/ B2X (pick x y) = B2X y)) ->
  (forall x, rel x x) -> (forall x y z, rel x y -> rel y z -> rel x z) ->
  ordered m -> Forall ordered l ->
  let r := fold_left pick l m in
  rel (B2X m) (B2X r) /\ (forall x, x ∈ l -> rel (B2X x) (B2X r)) /\
  (B2X r = B2X m \/ exists x, x ∈ l /\ B2X x = B2X r).
Proof.
  intros Hpick Hrefl Htrans. revert m. induction l as [|x l IH]; intros m Hm Hl; cbn [fold_left].
  - split; [done|]. split; [by intros y ?%elem_of_nil|by left].
  - apply Forall_cons in Hl as [Hx Hl]. destruct (Hpick m x Hm Hx) as (Ho & H1 & H2 & H3).
    destruct (IH (pick m x) Ho Hl) as (R1 & R2 & R3). split; [by eapply Htrans|]. split.
    + intros y [->|Hy]%elem_of_cons; [by eapply Htrans|by apply R2].
    + destruct R3 as [Heq|(y & Hy & Heq)]; [|right; exists y; split; [by right|done]].
      destruct H3 as [H3|H3]; [left; congruence|right; exists x; split; [by left|congruence]].
Qed.

Lemma Math_max_picks (x y : num) : ordered x -> ordered y -> ordered (Math_max x y) /\
  (B2X x <= B2X (Math_max x y) /\ B2X y <= B2X (Math_max x y) /\
   (B2X (Math_max x y) = B2X x \/ B2X (Math_max x y) = B2X y))%R.
Proof.
  intros Hx Hy. destruct (Math_max_B2X x y Hx Hy) as [Ho ->]. split; [done|]. unfold Rmax.
  destruct (Rle_dec _ _); (split; [lra|split; [lra|auto]]).
Qed.

Lemma Math_min_picks (x y : num) : ordered x -> ordered y -> ordered (Math_min x y) /\
  (B2X x >= B2X (Math_min x y) /\ B2X y >= B2X (Math_min x y) /\
   (B2X (Math_min x y) = B2X x \/ B2X (Math_min x y) = B2X y))%R.
Proof.
  intros Hx Hy. destruct (Math_min_B2X x y Hx Hy) as [Ho ->]. split; [done|]. unfold Rmin.
  destruct (Rle_dec _ _); (split; [lra|split; [lra|auto]]).
Qed.

(** The maximum and the minimum at a position are values of the position and
    bound all the others, when there is a value and all are finite. *)
Theorem scan_extremes (ds : list dataset) (a j : nat) : (a < 2)%nat ->
  column a j ds <> [] -> Forall (fun x => valid x = true /\ is_finite x = true) (column a j ds) ->
  let '(_, mx, mn) := sums_at a j (scan ds) in
  (forall x, x ∈ column a j ds -> B2X mn <= B2X x <= B2X mx)%R /\
  (exists x, x ∈ column a j ds /\ B2X x = B2X mx) /\ (exists x, x ∈ column a j ds /\ B2X x = B2X mn).
Proof.
  intros Ha Hne Hfin. rewrite (scan_sums ds a j Ha). unfold no_sums. rewrite fold_sums.
  set (l := column a j ds) in *.
  assert (Hord : Forall ordered l) by (eapply Forall_impl; [exact Hfin|]; intros x [? ?]; by apply finite_ordered).
  assert (Hall : forall x, x ∈ l -> (B2X neg_MAX_VALUE <= B2X x <= B2X MAX_VALUE)%R).
  { intros x Hx. rewrite Forall_forall in Hfin. destruct (Hfin x Hx). by apply MAX_VALUE_above. }
  destruct (fold_extreme Math_max Rle l neg_MAX_VALUE Math_max_picks Rle_refl Rle_trans) as (_ & M2 & M3); [by split|done|].
  destruct (fold_extreme Math_min Rge l MAX_VALUE Math_min_picks Rge_refl Rge_trans) as (_ & N2 & N3); [by split|done|].
  assert (Hx0 : exists x, x ∈ l) by (destruct l as [|x l']; [done|exists x; by left]). destruct Hx0 as [x0 Hx0].
  pose proof (Hall x0 Hx0). pose proof (M2 x0 Hx0). pose proof (N2 x0 Hx0). split; [|split].
  - intros x Hx. specialize (M2 x Hx). specialize (N2 x Hx). lra.
  - destruct M3 as [M3|M3]; [exists x0; split; [done|lra]|done].
  - destruct N3 as [N3|N3]; [exists x0; split; [done|lra]|done].
Qed.

(** Two datasets on the first axis and one on the second, with a missing point. *)
Definition sample_datasets : list dataset := [
  {| ds_data := [VInt 3; VInt 7]; ds_props := of_fields [] |};
  {| ds_data := [VInt 9; VInt 1]; ds_props := of_fields [("axis", VInt 2)] |};
  {| ds_data := [VInt 5; VUndef]; ds_props := of_fields [] |}].

Lemma scan_columns_witness :
  (1 < 2)%nat /\ (let '(tot, mx, mn) := sums_at 1 0 (scan sample_datasets) in
    tot = of_Z 8 /\ mx = of_Z 5 /\ mn = of_Z 3).
Proof.
  split; [lia|]. pose proof (scan_columns sample_datasets 1 0 ltac:(lia)) as Hs.
  destruct (sums_at 1 0 (scan sample_datasets)) as [[tot mx] mn]. destruct Hs as (-> & -> & ->).
  vm_compute. auto.
Defined.

Lemma scan_extremes_witness :
  let '(_, mx, mn) := sums_at 1 0 (scan sample_datasets) in
  (forall x, x ∈ [of_Z 3; of_Z 5] -> B2X mn <= B2X x <= B2X mx)%R.
Proof.
  assert (Hc : column 1 0 sample_datasets = [of_Z 3; of_Z 5]) by (vm_compute; reflexivity).
  pose proof (scan_extremes sample_datasets 1 0) as Hs. rewrite Hc in Hs.
  destruct (sums_at 1 0 (scan sample_datasets)) as [[tot mx] mn].
  apply Hs; [lia|discriminate|]. repeat constructor; vm_compute; reflexivity.
Defined.

(** ** What a pie shows *)

(** The value of a segment that is drawn. *)
Definition shown (t : chart_type) (d : config) : option num :=
  let v := d.["value"] in if skipped t v || is_undefined v then None else Some (as_num v).

Lemma pie_scan_fold (t : chart_type) (l : list (nat * config)) (p : pie_totals) :
  let q := fold_left (pie_scan t) l p in
  let vs := omap (fun id => shown t id.2) l in
  p_total q = fold_left nadd vs (p_total p) /\ p_max q = fold_left Math_max vs (p_max p) /\
  p_min q = fold_left Math_min vs (p_min p) /\ p_count q = p_count p + Z.of_nat (length vs).
Proof.
  revert p. induction l as [|[i d] l IH]; intros p; cbn [fold_left omap list_omap snd fst].
  - cbn. split; [done|]. split; [done|]. split; [done|lia].
  - assert (Hstep : pie_scan t p (i, d) = match shown t d with
      | None => p
      | Some x => {| p_total := (p_total p + x)%num; p_max := Math_max (p_max p) x;
          p_min := Math_min (p_min p) x; p_count := p_count p + 1;
          p_first := if p_first p =? -1 then Z.of_nat i else p_first p; p_last := Z.of_nat i |}
      end) by (unfold pie_scan, shown; cbn [fst snd]; by destruct (_ || _)).
    rewrite Hstep. destruct (shown t d) as [x|]; [|apply IH].
    match goal with |- context [fold_left (pie_scan t) l ?q] => destruct (IH q) as (H1 & H2 & H3 & H4) end.
    cbn [p_total p_max p_min p_count fold_left length] in *. rewrite H1, H2, H3, H4. repeat split. lia.
Qed.

(** The total, the extremes and the number of segments of a pie, a doughnut
    or a polar area are those of the segments that are drawn: the ones with a
    value, which is not negative except in a polar area. *)
Theorem pie_totals_of_shown (t : chart_type) (data : list config) :
  let p := pie_scan_all t data in
  let vs := omap (shown t) data in
  p_total p = fold_left nadd vs n0 /\ p_max p = fold_left Math_max vs neg_MAX_VALUE /\
  p_min p = fold_left Math_min vs MAX_VALUE /\ p_count p = Z.of_nat (length vs).
Proof.
  cbn zeta. unfold pie_scan_all.
  assert (Hs : omap (fun id : nat * config => shown t id.2) (imap pair data) = omap (shown t) data)
    by exact (omap_imap_pair (shown t) data).
  pose proof (pie_scan_fold t (imap pair data) {| p_total := n0; p_max := neg_MAX_VALUE; p_min := MAX_VALUE;
    p_count := 0; p_first := -1; p_last := -1 |}) as Hp. cbn zeta in Hp. rewrite Hs in Hp. exact Hp.
Qed.

(** ** The first and the last position with a value *)

Definition has_value (d : dataset) (j : nat) : bool := negb (is_undefined (default VUndef (ds_data d !! j))).

(** The positions of a dataset that have a value. *)
Definition valued (d : dataset) : list nat := List.filter (has_value d) (seq 0 (length (ds_data d))).

Definition row (i : nat) (t : totals) : option Z * option Z := (firstNotMissingi t !! i, lastNotMissingi t !! i).

Lemma scan_point_row (axis i j i' : nat) (v : jsval) (t : totals) :
  row i' (scan_point axis i t (j, v)) =
    if is_undefined v then row i' t
    else if decide (i = i') then ((fun old => if old =? -1 then Z.of_nat j else old) <$> (row i' t).1, Some (Z.of_nat j))
    else row i' t.
Proof.
  assert (Hinit : row i' (init_column j t) = row i' t).
  { unfold row, init_column. by destruct (firstNotMissingj t !! j). }
  unfold scan_point. cbn [fst snd]. destruct (is_undefined v); [done|].
  rewrite <- Hinit. unfold row. cbn [add_point firstNotMissingi lastNotMissingi fst]. unfold set_if_unset.
  destruct (decide (i = i')) as [->|Hne]; [by rewrite lookup_alter_eq, lookup_insert_eq|].
  by rewrite lookup_alter_ne, lookup_insert_ne.
Qed.

(** The positions with a value in a part of a dataset. *)
Definition shown_of (l : list (nat * jsval)) : list nat :=
  omap (fun jv => if is_undefined jv.2 then None else Some jv.1) l.

Lemma fold_scan_row (axis i : nat) (l : list (nat * jsval)) (t : totals) (f e : Z) :
  row i t = (Some f, Some e) ->
  row i (fold_left (scan_point axis i) l t) =
    (Some (if f =? -1 then default (-1) (Z.of_nat <$> head (shown_of l)) else f),
     Some (default e (Z.of_nat <$> last (shown_of l)))).
Proof.
  revert t f e. induction l as [|[j v] l IH]; intros t f e Ht; cbn [fold_left shown_of omap list_omap].
  { rewrite Ht. cbn. by destruct (Z.eqb_spec f (-1)) as [->|]. }
  cbn [fst snd]. fold (shown_of l). pose proof (scan_point_row axis i j i v t) as Hr.
  destruct (is_undefined v); [by apply IH; rewrite Hr|]. rewrite decide_True, Ht in Hr by done. cbn [fst fmap option_fmap option_map] in Hr.
  rewrite (IH _ _ _ Hr). cbn [head].
  assert (Hlast : default (Z.of_nat j) (Z.of_nat <$> last (shown_of l)) = default e (Z.of_nat <$> last (j :: shown_of l))).
  { destruct (shown_of l) as [|k r]; [done|]. change (last (j :: k :: r)) with (last (k :: r)).
    by destruct (last (k :: r)) eqn:E; [|apply last_None in E]. }
  rewrite <- Hlast. destruct (f =? -1) eqn:Hf; [|by rewrite Hf].
  destruct (Z.eqb_spec (Z.of_nat j) (-1)); [lia|done].
Qed.

Lemma fold_scan_other_row (axis i i' : nat) (l : list (nat * jsval)) (t : totals) : i <> i' ->
  row i' (fold_left (scan_point axis i) l t) = row i' t.
Proof.
  intros Hne. revert t. induction l as [|[j v] l IH]; intros t; [done|]. cbn [fold_left].
  rewrite IH, scan_point_row, decide_False by done. by destruct (is_undefined v).
Qed.

Lemma shown_of_imap (d : dataset) : shown_of (imap pair (ds_data d)) = valued d.
Proof.
  unfold valued, has_value. generalize (ds_data d). intros l.
  induction l as [|v l IH] using rev_ind; [done|].
  rewrite imap_app. unfold shown_of in *. rewrite omap_app, IH, List.length_app, seq_app, List.filter_app.
  f_equal.
  - apply List.filter_ext_in. intros j Hj%in_seq. by rewrite lookup_app_l by lia.
  - cbn [imap omap list_omap fst snd length seq List.filter]. rewrite Nat.add_0_l.
    rewrite lookup_app_r by lia. rewrite Nat.sub_diag, Nat.add_0_r. cbn [lookup list_lookup].
    change (default VUndef (Some v)) with v. by destruct (is_undefined v).
Qed.

Lemma fold_scan_rows (l : list (nat * dataset)) (t : totals) (i : nat) :
  Forall (fun id => id.1 <> i) l -> row i (fold_left scan_dataset l t) = row i t.
Proof.
  revert t. induction l as [|[k d] l IH]; intros t Hl; [done|]. apply Forall_cons in Hl as [Hk Hl]. cbn [fst] in Hk.
  cbn [fold_left]. rewrite (IH _ Hl). unfold scan_dataset. cbn [fst snd].
  rewrite fold_scan_other_row by done. unfold row, init_row. cbn [firstNotMissingi lastNotMissingi].
  by rewrite !lookup_insert_ne.
Qed.

(** The first and the last position of a dataset with a value, -1 if there is none. *)
Lemma scan_rows (ds : list dataset) (i : nat) (d : dataset) : ds !! i = Some d ->
  row i (scan ds) = (Some (default (-1) (Z.of_nat <$> head (valued d))), Some (default (-1) (Z.of_nat <$> last (valued d)))).
Proof.
  intros Hd. unfold scan. rewrite <- (take_drop_middle ds i d Hd), imap_app, fold_left_app.
  cbn [imap fold_left]. rewrite Nat.add_0_r, length_take_le by (apply lookup_lt_Some in Hd; lia).
  rewrite fold_scan_rows.
  - unfold scan_dataset. cbn [fst snd].
    rewrite (fold_scan_row _ _ _ _ (-1) (-1)); [by rewrite shown_of_imap|].
    unfold row, init_row. cbn [firstNotMissingi lastNotMissingi]. by rewrite !lookup_insert_eq.
  - apply Forall_lookup. intros k [i' e] Hk. apply list_lookup_imap_Some in Hk as (e' & _ & [= -> ->]).
    cbn [fst]. lia.
Qed.

(** *** The datasets at a position *)

Definition first_at (j : nat) (t : totals) : option Z := firstNotMissingj t !! j.

Lemma scan_point_first (axis i j k : nat) (v : jsval) (t : totals) :
  first_at k (scan_point axis i t (j, v)) =
    if decide (j = k) then
      let old := default (-1) (first_at k t) in
      Some (if is_undefined v then old else if old =? -1 then Z.of_nat i else old)
    else first_at k t.
Proof.
  assert (Hinit : first_at k (init_column j t) = if decide (j = k) then Some (default (-1) (first_at k t)) else first_at k t).
  { unfold first_at, init_column. destruct (firstNotMissingj t !! j) as [f|] eqn:Hf; cbn [firstNotMissingj];
      destruct (decide (j = k)) as [->|Hne]; rewrite ?Hf, ?lookup_insert_eq, ?lookup_insert_ne by done; done. }
  unfold scan_point. cbn [fst snd]. destruct (is_undefined v); [exact Hinit|].
  unfold first_at in *. cbn [add_point firstNotMissingj]. unfold set_if_unset.
  destruct (decide (j = k)) as [->|Hne]; [by rewrite lookup_alter_eq, Hinit|by rewrite lookup_alter_ne].
Qed.

Lemma fold_scan_first (axis i k : nat) (l : list jsval) (t : totals) :
  first_at k (fold_left (scan_point axis i) (imap pair l) t) =
    match l !! k with
    | Some v => let old := default (-1) (first_at k t) in
                Some (if is_undefined v then old else if old =? -1 then Z.of_nat i else old)
    | None => first_at k t
    end.
Proof.
  induction l as [|v l IH] using rev_ind; [done|]. rewrite imap_app, fold_left_app. cbn [imap fold_left].
  rewrite scan_point_first, IH, Nat.add_0_r. destruct (decide (length l = k)) as [<-|Hne].
  - rewrite lookup_ge_None_2 by done. by rewrite lookup_app_r, Nat.sub_diag by done.
  - destruct (l !! k) as [w|] eqn:Hw; [by rewrite (lookup_app_l_Some _ _ _ _ Hw)|].
    rewrite lookup_ge_None_2; [done|]. rewrite List.length_app. apply lookup_ge_None_1 in Hw. cbn [length]. lia.
Qed.

(** The first dataset with a value at a position. *)
Definition first_dataset (ds : list dataset) (j k : nat) : Prop :=
  (exists d, ds !! k = Some d /\ has_value d j = true) /\
  forall k' d, (k' < k)%nat -> ds !! k' = Some d -> has_value d j = false.

Lemma scan_first (ds : list dataset) (j : nat) :
  ((forall d, d ∈ ds -> has_value d j = false) /\ default (-1) (first_at j (scan ds)) = -1) \/
  exists k, first_dataset ds j k /\ first_at j (scan ds) = Some (Z.of_nat k).
Proof.
  induction ds as [|d ds IH] using rev_ind; [left; split; [by intros d ?%elem_of_nil|done]|].
  assert (Hstep : first_at j (scan (ds ++ [d])) =
    if has_value d j then Some (let old := default (-1) (first_at j (scan ds)) in if old =? -1 then Z.of_nat (length ds) else old)
    else match ds_data d !! j with Some _ => Some (default (-1) (first_at j (scan ds))) | None => first_at j (scan ds) end).
  { unfold scan. rewrite imap_app, fold_left_app. cbn [imap fold_left]. unfold scan_dataset at 1. cbn [fst snd].
    rewrite fold_scan_first, Nat.add_0_r. unfold has_value, first_at. cbn [init_row firstNotMissingj].
    destruct (ds_data d !! j) as [v|]; [|done]. change (default VUndef (Some v)) with v. by destruct (is_undefined v). }
  rewrite Hstep. destruct IH as [[Hnone Hd]|(k & [(e & He & Hv) Hbefore] & Hk)].
  - rewrite Hd. destruct (has_value d j) eqn:Hv.
    + right. exists (length ds). split; [|done]. split.
      * exists d. by rewrite lookup_app_r, Nat.sub_diag.
      * intros k' e Hlt He. rewrite lookup_app_l in He by done. apply Hnone. by eapply list_elem_of_lookup_2.
    + left. split; [|by destruct (ds_data d !! j)]. intros e [He| ->%list_elem_of_singleton]%elem_of_app; auto.
  - right. exists k. rewrite Hk. change (default (-1) (Some (Z.of_nat k))) with (Z.of_nat k). cbv zeta.
    apply lookup_lt_Some in He as Hlt. split; [split|].
    + exists e. by rewrite lookup_app_l.
    + intros k' e' Hk' He'. rewrite lookup_app_l in He' by lia. by eapply Hbefore.
    + destruct (Z.eqb_spec (Z.of_nat k) (-1)); [lia|]. destruct (has_value d j); [done|]. by destruct (ds_data d !! j).
Qed.
