(* ===== verification/Points.v ===== *)
(** * The positions of the data points (ChartNew.js)

    [initPassVariableData_part2]: once the chart's area and scale are known,
    every point of the data gets its place on the canvas, by the way its dataset
    is drawn. *)

From stdpp Require Import base list strings gmap.
From Stdlib Require Import ZArith Lia SpecFloat Reals Lra.
From S2P Require Import Prelude Num Binary64 Value Options OptionValue Format Scale Easing Stats Canvas.

Open Scope string_scope.
Open Scope list_scope.
Open Scope Z_scope.

(** ** What the positions depend on *)

(** The variables of the drawing function, [othervars]. *)
Record vars : Type := {
  xAxisPosY : num;
  yAxisPosX : num;
  valueHop : num;
  nbValueHop : num;
  scaleHop : num;
  zeroY : num;
  calculatedScale : scale;
  logarithmic : jsval;
  scaleHop2 : num;
  zeroY2 : num;
  calculatedScale2 : scale;
  logarithmic2 : jsval;
  availableHeight : num;
  barWidth : num;
  midPosX : num;
  midPosY : num;
  maxSize : num;
  int_radius : num;
  ext_radius : num
}.

(** The scale of an axis as a field of a point. *)
Definition scale_object (s : scale) : jsval :=
  VObj [("steps", VNum (steps s)); ("stepValue", VNum (stepValue s)); ("graphMin", VNum (graphMin s));
        ("labels", VArr (map VStr (scale_labels s)))].

Section Points.

Context `{MathLib}.

(** The limits of the abscissas: [data.xBegin] and [data.xEnd], or the labels. *)
Definition limit_label (given : jsval) (label : option jsval) : num :=
  if is_undefined given then (of_Z 1 * to_num (default VUndef label))%num else to_num given.

(** The abscissa of a point: given by the dataset's [xPos], or by its label.
    For a position between two points the function calls itself without the
    positions of the axis, so that the result of that call is not a number. *)
Definition xPos (c : config) (labels : list jsval) (xBegin xEnd : jsval) (d : dataset)
    (iteration yAxisPosX valueHop nbValueHop : num) : res num :=
  let zeroValue := fnum c "zeroValue" in
  let by_label := (yAxisPosX + valueHop * iteration)%num in
  let k := Math_floor (iteration + zeroValue)%num in
  let xs := (ds_props d).["xPos"] in
  if String.eqb (typeof xs) "object" then
    let* x := get_index xs k in
    if is_undefined x then Ok by_label
    else
      let width := (valueHop * nbValueHop)%num in
      let deb := limit_label xBegin (head labels) in
      let fin := limit_label xEnd (last labels) in
      let fin := if (fin <= deb)%num then (deb + of_Z 100)%num else fin in
      if (of_Z 1 * to_num x >= deb)%num && (to_num x <= fin)%num then
        let p1 := (yAxisPosX + width * ((of_Z 1 * to_num x - deb) / (fin - deb)))%num in
        let p2 := if (Math_abs (iteration - k) > zeroValue)%num then NaN else p1 in
        Ok (p1 + (iteration - k) * (p2 - p1))%num
      else Ok by_label
  else Ok by_label.

(** ** Lines *)

(** The axis of a dataset of a line: its scale, the height of a step, of the
    zero line, and whether it is logarithmic. *)
Definition axis_vars (v : vars) (d : dataset) : num * num * scale * jsval :=
  if on_second_axis d then (scaleHop2 v, zeroY2 v, calculatedScale2 v, logarithmic2 v)
  else (scaleHop v, zeroY v, calculatedScale v, logarithmic v).

(** A point of a line; [first] is the first point of its dataset, which has the
    extremes of the line, unless this is that point. *)
Definition line_point (c : config) (tpchart : chart_type) (labels : list jsval) (xBegin xEnd : jsval) (v : vars)
    (d : dataset) (j : nat) (value : jsval) (first : option config) (o : config) : res config :=
  let '(hop, zero, sc, log) := axis_vars v d in
  let* x := xPos c labels xBegin xEnd d (of_Z (Z.of_nat j)) (yAxisPosX v) (valueHop v) (nbValueHop v) in
  let yAxisPos := (xAxisPosY v - zero)%num in
  let bar := bool_decide (tpchart = Bar) in
  let x := if bar then (x + valueHop v / of_Z 2)%num else x in
  let left := if bar then (yAxisPosX v + valueHop v / of_Z 2)%num else yAxisPosX v in
  let offset k := VNum (calculateOffset log (fnum o k) sc hop - zero)%num in
  let '(hi, lo) := match first with
                   | None => (offset "lmaxvalue", offset "lminvalue")
                   | Some f => (f.["lmaxvalue_offset"], f.["lminvalue_offset"])
                   end in
  let o := set_fields [
    ("xAxisPosY", VNum (xAxisPosY v)); ("yAxisPosX", VNum left);
    ("valueHop", VNum (valueHop v)); ("nbValueHop", VNum (nbValueHop v));
    ("scaleHop", VNum hop); ("zeroY", VNum zero);
    ("calculatedScale", scale_object sc); ("logarithmic", log);
    ("xPos", VNum x); ("yAxisPos", VNum yAxisPos);
    ("lmaxvalue_offset", hi); ("lminvalue_offset", lo)] o in
  let o := if is_undefined value then o
           else let y := (calculateOffset log (to_num value) sc hop - zero)%num in
                set_fields [("yPosOffset", VNum y); ("posY", VNum (yAxisPos - y)%num)] o in
  Ok (set_fields [
    ("posX", VNum x); ("v9", VNum x); ("v10", o.["posY"]);
    ("annotateStartPosX", VNum x); ("annotateEndPosX", VNum x);
    ("annotateStartPosY", VNum (xAxisPosY v));
    ("annotateEndPosY", VNum (xAxisPosY v - availableHeight v)%num);
    ("D1A", VUndef); ("D1B", VUndef)] o).

(** ** Radars *)

(** The line through two points, and the direction across it. *)
Definition spoke_line (zeroValue x0 y0 x1 y1 : num) : list (string * jsval) :=
  if (Math_abs (x0 - x1) < zeroValue)%num
  then [("D1A", VUndef); ("D1B", VUndef); ("D2A", VInt 0)]
  else
    let a := ((y0 - y1) / (x0 - x1))%num in
    [("D1A", VNum a); ("D1B", VNum (nneg a * x0 + y0)%num);
     ("D2A", if (Math_abs a >= zeroValue)%num then VNum (nneg (of_Z 1 / a))%num else VUndef)].

(** A point of a radar; [above] is the same point of the first dataset, where
    the extreme is looked up for all points but the first. *)
Definition radar_point (c : config) (v : vars) (npoints j : nat) (value : jsval) (above : config) (o : config)
    : config :=
  let rotationDegree := (of_Z 2 * Math_PI / of_Z (Z.of_nat npoints))%num in
  let angle := (fnum c "startAngle" * Math_PI / of_Z 180 - of_Z (Z.of_nat j) * rotationDegree)%num in
  let offset := calculateOffset c.["logarithmic"] (to_num value) (calculatedScale v) (scaleHop v) in
  let ox := (Math_cos angle * offset)%num in
  let oy := (Math_sin angle * offset)%num in
  let ex := (midPosX v + Math_cos angle * maxSize v)%num in
  let ey := (midPosY v - Math_sin angle * maxSize v)%num in
  set_fields ([
    ("midPosX", VNum (midPosX v)); ("midPosY", VNum (midPosY v));
    ("int_radius", VInt 0); ("ext_radius", VNum (maxSize v)); ("radiusOffset", VNum (maxSize v));
    ("calculated_offset", VNum offset); ("offsetX", VNum ox); ("offsetY", VNum oy);
    ("v9", VNum (midPosX v + ox)%num); ("v10", VNum (midPosY v - oy)%num);
    ("posX", VNum (midPosX v + ox)%num); ("posY", VNum (midPosY v - oy)%num);
    ("calculated_offset_max",
      if (j =? 0)%nat
      then VNum (calculateOffset c.["logarithmic"] (fnum o "lmaxvalue") (calculatedScale v) (scaleHop v))
      else above.["calculated_offset_max"]);
    ("annotateStartPosX", VNum (midPosX v)); ("annotateEndPosX", VNum ex);
    ("annotateStartPosY", VNum (midPosY v)); ("annotateEndPosY", VNum ey)]
    ++ spoke_line (fnum c "zeroValue") (midPosX v) (midPosY v) ex ey) o.

(** ** Bars *)

Definition corners (left bottom right top : num) : list (string * jsval) := [
  ("v7", VNum left); ("v8", VNum bottom); ("v9", VNum right); ("v10", VNum top)].

(** A bar; [realbars] datasets drawn as bars come before it. *)
Definition bar_point (s : ctx_scales) (c : config) (v : vars) (d : dataset) (realbars : num) (j : nat) (value : jsval)
    (o : config) : config :=
  let left := (yAxisPosX v + space s c "barValueSpacing" + valueHop v * of_Z (Z.of_nat j)
               + barWidth v * realbars + space s c "barDatasetSpacing" * realbars
               + line s c "barStrokeWidth" * realbars)%num in
  let right := (left + barWidth v)%num in
  let '(bottom, height) :=
    if on_second_axis d
    then (xAxisPosY v - zeroY2 v,
          calculateOffset c.["logarithmic2"] (as_num value) (calculatedScale2 v) (scaleHop2 v) - zeroY2 v)%num
    else (xAxisPosY v - zeroY v,
          calculateOffset c.["logarithmic"] (as_num value) (calculatedScale v) (scaleHop v) - zeroY v)%num in
  let top := (bottom - height + line s c "barStrokeWidth" / of_Z 2)%num in
  set_fields ([("xPosLeft", VNum left); ("xPosRight", VNum right); ("yPosBottom", VNum bottom);
               ("barHeight", VNum height); ("yPosTop", VNum top)] ++ corners left bottom right top) o.

Definition horizontal_bar_point (s : ctx_scales) (c : config) (v : vars) (i j : nat) (value : jsval) (o : config)
    : config :=
  let left := (yAxisPosX v + zeroY v)%num in
  let n := of_Z (Z.of_nat i) in
  let top := (xAxisPosY v + space s c "barValueSpacing" - scaleHop v * of_Z (Z.of_nat j + 1)
              + barWidth v * n + space s c "barDatasetSpacing" * n + line s c "barStrokeWidth" * n)%num in
  let bottom := (top + barWidth v)%num in
  let width := (calculateOffset c.["logarithmic"] (as_num value) (calculatedScale v) (valueHop v) - zeroY v)%num in
  let right := (left + width)%num in
  set_fields ([("xPosLeft", VNum left); ("yPosTop", VNum top); ("yPosBottom", VNum bottom);
               ("barWidth", VNum width); ("xPosRight", VNum right)] ++ corners left bottom right top) o.

(** *** Stacked bars *)

(** The ends of the stacks at every position: of the values that are not
    negative, and of the negative ones. *)
Record stacks : Type := {
  tempp : gmap nat num;
  tempn : gmap nat num
}.

Definition no_stacks : stacks := {| tempp := ∅; tempn := ∅ |}.

Definition start_stack (j : nat) (t : stacks) : stacks := {| tempp := <[j := n0]> (tempp t); tempn := <[j := n0]> (tempn t) |}.

(** A value on its stack: where it begins and ends, and the stacks with it. *)
Definition push_value (j : nat) (x : num) (t : stacks) : num * num * stacks :=
  if (x < n0)%num then
    let from := default NaN (tempn t !! j) in
    (from, (from + x)%num, {| tempp := tempp t; tempn := <[j := (from + x)%num]> (tempn t) |})
  else
    let from := default NaN (tempp t !! j) in
    (from, (from + x)%num, {| tempp := <[j := (from + x)%num]> (tempp t); tempn := tempn t |}).

(** [spaceBetweenBar]: the lower end of a stacked bar moves towards the upper
    end, by half of the space for the first bar of a stack; [dir] is the
    direction in which the bars of positive values grow on the canvas. *)
Definition space_between (gap x : num) (first up : bool) (from to : num) : num :=
  if (gap > n0)%num then
    if (x < n0)%num then
      let b := if up then (from + gap)%num else (from - gap)%num in
      let b := if first then (if up then (b - gap / of_Z 2)%num else (b + gap / of_Z 2)%num) else b in
      if (if up then to < b else b < to)%num then to else b
    else if (x > n0)%num then
      let b := if up then (from - gap)%num else (from + gap)%num in
      let b := if first then (if up then (b + gap / of_Z 2)%num else (b - gap / of_Z 2)%num) else b in
      if (if up then to > b else b > to)%num then to else b
    else from
  else from.

(** Whether the value is the only one of its stack so far. *)
Definition starts_stack (j : nat) (x : num) (t : stacks) : bool :=
  if (x < n0)%num then (default NaN (tempn t !! j) == x)%num else (default NaN (tempp t !! j) == x)%num.

Definition stacked_point (s : ctx_scales) (c : config) (v : vars) (j : nat) (value : jsval) (t : stacks) (o : config)
    : config * stacks :=
  let x := as_num value in
  let left := (yAxisPosX v + space s c "barValueSpacing" + valueHop v * of_Z (Z.of_nat j))%num in
  let '(from, to, t) := push_value j x t in
  let right := (left + barWidth v)%num in
  let bottom_offset := calculateOffset c.["logarithmic"] from (calculatedScale v) (scaleHop v) in
  let top_offset := calculateOffset c.["logarithmic"] to (calculatedScale v) (scaleHop v) in
  let top := (xAxisPosY v - top_offset)%num in
  let bottom := space_between (space s c "spaceBetweenBar") x (starts_stack j x t) true
                  (xAxisPosY v - bottom_offset)%num top in
  (set_fields ([("xPosLeft", VNum left); ("botval", VNum from); ("topval", VNum to); ("xPosRight", VNum right);
                ("botOffset", VNum bottom_offset); ("topOffset", VNum top_offset);
                ("yPosBottom", VNum bottom); ("yPosTop", VNum top)] ++ corners left bottom right top) o, t).

Definition horizontal_stacked_point (s : ctx_scales) (c : config) (v : vars) (j : nat) (value : jsval) (t : stacks)
    (o : config) : config * stacks :=
  let x := as_num value in
  let '(from, to, t) := push_value j x t in
  let right_offset := HorizontalCalculateOffset to (calculatedScale v) (valueHop v) in
  let left_offset := HorizontalCalculateOffset from (calculatedScale v) (valueHop v) in
  let right := (yAxisPosX v + right_offset)%num in
  let left := space_between (space s c "spaceBetweenBar") x (starts_stack j x t) false
                (yAxisPosX v + left_offset)%num right in
  let top := (xAxisPosY v + space s c "barValueSpacing" - scaleHop v * of_Z (Z.of_nat j + 1))%num in
  let bottom := (top + barWidth v)%num in
  (set_fields ([("leftval", VNum from); ("rightval", VNum to); ("rightOffset", VNum right_offset);
                ("leftOffset", VNum left_offset); ("xPosRight", VNum right); ("xPosLeft", VNum left);
                ("yPosTop", VNum top); ("yPosBottom", VNum bottom)] ++ corners left bottom right top) o, t).

(** ** All points *)

Record placing : Type := {
  placed : gmap (nat * nat) config;
  bar_stacks : stacks;
  realbars : num
}.

Definition point_of (p : placing) (i j : nat) : res config :=
  match placed p !! (i, j) with Some o => Ok o | None => Throw TypeError end.

Definition set_point (i j : nat) (o : config) (t : stacks) (p : placing) : placing :=
  {| placed := <[(i, j) := o]> (placed p); bar_stacks := t; realbars := realbars p |}.

Section Placing.

Context (s : ctx_scales) (c : config) (tpchart : chart_type).
Context (labels : list jsval) (xBegin xEnd : jsval) (v : vars).

(** The number of points of the first dataset. *)
Context (npoints : nat).

Definition place_point (i : nat) (d : dataset) (j : nat) (value : jsval) (p : placing) : res placing :=
  let t := bar_stacks p in
  match tpdraw tpchart d with
  | Line =>
      let* o := point_of p i j in
      let* first := if (j =? 0)%nat then Ok None else let* f := point_of p i 0 in Ok (Some f) in
      let* o := line_point c tpchart labels xBegin xEnd v d j value first o in
      Ok (set_point i j o t p)
  | Radar =>
      let* o := point_of p i j in
      let* above := if (j =? 0)%nat then Ok o else point_of p 0 j in
      Ok (set_point i j (radar_point c v npoints j value above o) t p)
  | Bar =>
      let* o := point_of p i j in
      Ok (set_point i j (bar_point s c v d (realbars p) j value o) t p)
  | HorizontalBar =>
      let* o := point_of p i j in
      Ok (set_point i j (horizontal_bar_point s c v i j value o) t p)
  | StackedBar =>
      let t := match tempp t !! j with Some _ => t | None => start_stack j t end in
      if is_undefined value then Ok {| placed := placed p; bar_stacks := t; realbars := realbars p |}
      else
        let* o := point_of p i j in
        let '(o, t) := stacked_point s c v j value t o in
        Ok (set_point i j o t p)
  | HorizontalStackedBar =>
      let t := if (i =? 0)%nat then start_stack j t else t in
      if is_undefined value then Ok {| placed := placed p; bar_stacks := t; realbars := realbars p |}
      else
        let* o := point_of p i j in
        let '(o, t) := horizontal_stacked_point s c v j value t o in
        Ok (set_point i j o t p)
  | _ => Ok p
  end.

Fixpoint place_points (i : nat) (d : dataset) (j : nat) (l : list jsval) (p : placing) : res placing :=
  match l with
  | [] => Ok p
  | value :: l' => let* p := place_point i d j value p in place_points i d (S j) l' p
  end.

Definition count_bar (d : dataset) (p : placing) : placing :=
  match tpdraw tpchart d with
  | Bar => {| placed := placed p; bar_stacks := bar_stacks p; realbars := (realbars p + of_Z 1)%num |}
  | _ => p
  end.

Fixpoint place_datasets (i : nat) (l : list dataset) (p : placing) : res placing :=
  match l with
  | [] => Ok p
  | d :: l' => let* p := place_points i d 0 (ds_data d) p in
               place_datasets (S i) l' (count_bar d p)
  end.

(** The statistics of a chart with axes or of a radar, with the positions. *)
Definition initPassVariableData_part2 (statData : gmap (nat * nat) config) (ds : list dataset)
    : res (gmap (nat * nat) config) :=
  let* p := place_datasets 0 ds {| placed := statData; bar_stacks := no_stacks; realbars := n0 |} in
  Ok (placed p).

End Placing.

(** ** Segments *)

Section Segments.

Context (toLocaleTimeString : jsval -> string).

Definition segment_position (c : config) (tpchart : chart_type) (v : vars) (value : jsval) (o : config) : res config :=
  let fmt x k := fmtChartJS toLocaleTimeString c (VNum x) (to_str c.[k]) in
  let* v7 := fmt (midPosX v) "fmtV7" in
  let* v8 := fmt (midPosY v) "fmtV8" in
  let* v9 := fmt (int_radius v) "fmtV9" in
  let radiusOffset :=
    if bool_decide (tpchart = PolarArea)
    then calculateOffset c.["logarithmic"] (as_num value) (calculatedScale v) (scaleHop v)
    else ext_radius v in
  let* v10 := fmt radiusOffset "fmtV10" in
  Ok (set_fields [("v7", v7); ("v8", v8); ("v9", v9); ("radiusOffset", VNum radiusOffset); ("v10", v10);
    ("midPosX", VNum (midPosX v)); ("midPosY", VNum (midPosY v));
    ("int_radius", VNum (int_radius v)); ("ext_radius", VNum (ext_radius v))] o).

Fixpoint place_segments (c : config) (tpchart : chart_type) (v : vars) (i : nat) (l : list config)
    (statData : gmap nat config) : res (gmap nat config) :=
  match l with
  | [] => Ok statData
  | d :: l' =>
      match statData !! i with
      | None => Throw TypeError
      | Some o => let* o := segment_position c tpchart v d.["value"] o in
                  place_segments c tpchart v (S i) l' (<[i := o]> statData)
      end
  end.

End Segments.

End Points.

(** ** Stacks of bars *)

Section Stacks.

Context `{MathLib}.
Context (s : ctx_scales) (c : config) (labels : list jsval) (xBegin xEnd : jsval) (v : vars) (npoints : nat).

(** The heights of the two stacks at a position. *)
Definition stack_at (t : stacks) (j : nat) : num * num := (default n0 (tempp t !! j), default n0 (tempn t !! j)).

Definition add_value (h : num * num) (x : num) : num * num :=
  if (x < n0)%num then (h.1, (h.2 + x)%num) else ((h.1 + x)%num, h.2).

(** Where a value begins on its stack. *)
Definition base (h : num * num) (x : num) : num := if (x < n0)%num then h.2 else h.1.

Definition stacks_known (t : stacks) : Prop := forall j, is_Some (tempp t !! j) <-> is_Some (tempn t !! j).

(** The bar of a value [x] at position [j] that begins at [below]: its ends, its
    sides, and its ends on the canvas when bars have no space between them. *)
Record stacked_on (below : num) (j : nat) (x : num) (o o' : config) : Prop := {
  bar_values : o'.["botval"] = VNum below /\ o'.["topval"] = VNum (below + x)%num;
  bar_sides :
    let left := (yAxisPosX v + space s c "barValueSpacing" + valueHop v * of_Z (Z.of_nat j))%num in
    o'.["xPosLeft"] = VNum left /\ o'.["xPosRight"] = VNum (left + barWidth v)%num;
  bar_ends : (space s c "spaceBetweenBar" > n0)%num = false ->
    let y z := (xAxisPosY v - calculateOffset c.["logarithmic"] z (calculatedScale v) (scaleHop v))%num in
    o'.["yPosBottom"] = VNum (y below) /\ o'.["yPosTop"] = VNum (y (below + x)%num);
  bar_stack : o'.["firstNotMissing"] = o.["firstNotMissing"]
}.

Definition started (j : nat) (t : stacks) : stacks :=
  match tempp t !! j with Some _ => t | None => start_stack j t end.

Lemma started_spec (j : nat) (t : stacks) : stacks_known t ->
  stacks_known (started j t) /\ (forall k, stack_at (started j t) k = stack_at t k) /\
  tempp (started j t) !! j = Some (stack_at t j).1 /\ tempn (started j t) !! j = Some (stack_at t j).2.
Proof.
  intros Hk. unfold started, stack_at. pose proof (Hk j) as Hj. destruct (tempp t !! j) as [a|] eqn:Ha.
  - assert (is_Some (tempn t !! j)) as [b Hb] by (apply Hj; by eexists). rewrite Ha, Hb. done.
  - assert (Hn : tempn t !! j = None).
    { apply eq_None_not_Some. intros Hs%Hj. by apply is_Some_None in Hs. }
    rewrite Hn. cbn [start_stack tempp tempn]. rewrite !lookup_insert_eq. split; [|split; [|done]].
    + intros k. cbn [tempp tempn start_stack]. destruct (decide (j = k)) as [->|Hne].
      * rewrite !lookup_insert_eq. split; intros _; by eexists.
      * rewrite !lookup_insert_ne by done. apply Hk.
    + intros k. destruct (decide (j = k)) as [<-|Hne]; [by rewrite !lookup_insert_eq, Ha, Hn|by rewrite !lookup_insert_ne].
Qed.

Lemma push_value_spec (j : nat) (x : num) (t : stacks) : stacks_known t ->
  is_Some (tempp t !! j) ->
  exists t', push_value j x t = (base (stack_at t j) x, (base (stack_at t j) x + x)%num, t') /\ stacks_known t' /\
    forall k, stack_at t' k = if decide (k = j) then add_value (stack_at t j) x else stack_at t k.
Proof.
  intros Hk [a Ha]. assert (is_Some (tempn t !! j)) as [b Hb] by (apply Hk; by eexists).
  unfold push_value, base, add_value, stack_at. rewrite Ha, Hb. cbn [default fst snd].
  destruct (x < n0)%num; (eexists; split; [reflexivity|]); (split; [intros k|intros k]); cbn [tempp tempn];
    destruct (decide (k = j)) as [->|Hne];
    rewrite ?lookup_insert_eq, ?lookup_insert_ne, ?Ha, ?Hb by done; cbn [default]; try done;
    try apply Hk; split; intros _; by eexists.
Qed.

Lemma place_stacked (i j : nat) (d : dataset) (value : jsval) (p : placing) (o : config) :
  placed p !! (i, j) = Some o -> stacks_known (bar_stacks p) ->
  exists p', place_point s c StackedBar labels xBegin xEnd v npoints i d j value p = Ok p' /\
    stacks_known (bar_stacks p') /\
    (forall k, stack_at (bar_stacks p') k =
      if decide (k = j) then match present value with
                             | Some x => add_value (stack_at (bar_stacks p) j) x
                             | None => stack_at (bar_stacks p) j
                             end
      else stack_at (bar_stacks p) k) /\
    (forall k, k <> (i, j) -> placed p' !! k = placed p !! k) /\
    exists o', placed p' !! (i, j) = Some o' /\
      forall x, present value = Some x -> stacked_on (base (stack_at (bar_stacks p) j) x) j x o o'.
Proof.
  intros Ho Hk. unfold place_point. cbn [tpdraw]. fold (started j (bar_stacks p)).
  destruct (started_spec j (bar_stacks p) Hk) as (Hk1 & Hs1 & Hp1 & Hn1).
  unfold present. destruct (is_undefined value) eqn:Hu.
  - eexists. split; [reflexivity|]. split; [exact Hk1|]. cbn [bar_stacks placed].
    split; [intros k; rewrite Hs1; by destruct (decide (k = j)) as [->|]|]. split; [done|]. by exists o.
  - unfold point_of. rewrite Ho. cbn [res_bind]. unfold stacked_point.
    destruct (push_value_spec j (as_num value) (started j (bar_stacks p)) Hk1) as (t' & -> & Hk' & Hs'); [by eexists|].
    rewrite Hs1 in *. eexists. split; [reflexivity|]. cbn [set_point bar_stacks placed]. split; [exact Hk'|].
    split; [intros k; rewrite Hs', Hs1; by destruct (decide (k = j))|].
    split; [intros k Hne; by rewrite lookup_insert_ne|].
    eexists. rewrite lookup_insert_eq. split; [reflexivity|]. intros x [= <-].
    split; cbv zeta; rewrite !set_fields_prop; [done..| |done]. intros Hgap. unfold space_between. by rewrite Hgap.
Qed.

(** A position of a dataset on its stacks. *)
Definition add_cell (h : num * num) (cell : option jsval) : num * num :=
  match cell ≫= present with Some x => add_value h x | None => h end.

Definition cell (j : nat) (l : list jsval) (k : nat) : option jsval :=
  if (j <=? k)%nat then l !! (k - j)%nat else None.

Lemma cell_cons (j : nat) (value : jsval) (l : list jsval) (k : nat) :
  cell j (value :: l) k = if decide (k = j) then Some value else cell (S j) l k.
Proof.
  unfold cell. destruct (decide (k = j)) as [->|Hne]; [by rewrite Nat.leb_refl, Nat.sub_diag|].
  destruct (Nat.leb_spec j k), (Nat.leb_spec (S j) k); try lia; [|done].
  replace (k - j)%nat with (S (k - S j)) by lia. done.
Qed.

Lemma cell_head (j : nat) (l : list jsval) : cell (S j) l j = None.
Proof. unfold cell. by destruct (Nat.leb_spec (S j) j); [lia|]. Qed.

Lemma place_points_stacked (i : nat) (d : dataset) (l : list jsval) (j : nat) (p : placing) :
  (forall k, is_Some (cell j l k) -> is_Some (placed p !! (i, k))) -> stacks_known (bar_stacks p) ->
  exists p', place_points s c StackedBar labels xBegin xEnd v npoints i d j l p = Ok p' /\
    stacks_known (bar_stacks p') /\
    (forall k, stack_at (bar_stacks p') k = add_cell (stack_at (bar_stacks p) k) (cell j l k)) /\
    (forall k, k.1 <> i \/ cell j l k.2 = None -> placed p' !! k = placed p !! k) /\
    forall k x, cell j l k ≫= present = Some x ->
      exists o o', placed p !! (i, k) = Some o /\ placed p' !! (i, k) = Some o' /\
        stacked_on (base (stack_at (bar_stacks p) k) x) k x o o'.
Proof.
  revert j p. induction l as [|value l IH]; intros j p Hp Hk.
  { exists p. assert (Hn : forall k, cell j [] k = None) by (intros k; unfold cell; by destruct (j <=? k)%nat).
    split; [done|]. split; [done|]. split; [intros k; by rewrite Hn|]. split; [done|]. intros k x. by rewrite Hn. }
  destruct (Hp j) as [o Ho]; [rewrite cell_cons; rewrite decide_True by done; by eexists|].
  destruct (place_stacked i j d value p o Ho Hk) as (p1 & Hp1 & Hk1 & Hs1 & Hr1 & o1 & Ho1 & Hx1).
  destruct (IH (S j) p1) as (p' & Hp' & Hk' & Hs' & Hr' & Hx'); [|done|].
  { intros k Hc. assert (k <> j) by (intros ->; rewrite cell_head in Hc; by destruct Hc).
    rewrite Hr1 by congruence. apply Hp. rewrite cell_cons. by rewrite decide_False. }
  exists p'. cbn [place_points]. rewrite Hp1. cbn [res_bind]. split; [done|]. split; [done|]. split; [|split].
  - intros k. rewrite Hs', Hs1, cell_cons. destruct (decide (k = j)) as [->|]; [by rewrite cell_head|done].
  - intros [i' k] Hout. rewrite cell_cons in Hout. cbn [fst snd] in *. destruct (decide (k = j)) as [->|Hne].
    + destruct Hout; [|done]. rewrite Hr' by (by left). apply Hr1. congruence.
    + rewrite Hr' by done. apply Hr1. congruence.
  - intros k x. rewrite cell_cons. destruct (decide (k = j)) as [->|Hne].
    + cbn [mbind option_bind]. intros Hx. exists o, o1. rewrite Hr' by (right; apply cell_head). auto.
    + intros Hx. destruct (Hx' k x Hx) as (o2 & o3 & Ho2 & Ho3 & Hst). exists o2, o3.
      rewrite Hr1 in Ho2 by congruence. rewrite Hs1, decide_False in Hst by done. done.
Qed.

(** The values of the datasets at a position. *)
Definition values_at (ds : list dataset) (j : nat) : list num := omap (fun d => ds_data d !! j ≫= present) ds.

Lemma fold_values_cons (d : dataset) (ds : list dataset) (j : nat) (h : num * num) :
  fold_left add_value (values_at (d :: ds) j) h = fold_left add_value (values_at ds j) (add_cell h (ds_data d !! j)).
Proof. unfold values_at, add_cell. cbn [omap list_omap]. by destruct (ds_data d !! j ≫= present). Qed.

Lemma cell_0 (l : list jsval) (k : nat) : cell 0 l k = l !! k.
Proof. unfold cell. cbn [Nat.leb]. by rewrite Nat.sub_0_r. Qed.

Lemma place_datasets_stacked (ds : list dataset) (i0 : nat) (p : placing) :
  (forall i d j, ds !! i = Some d -> (j < length (ds_data d))%nat -> is_Some (placed p !! (i0 + i, j)%nat)) ->
  stacks_known (bar_stacks p) ->
  exists p', place_datasets s c StackedBar labels xBegin xEnd v npoints i0 ds p = Ok p' /\
    (forall k, (k.1 < i0)%nat -> placed p' !! k = placed p !! k) /\
    forall i d j x, ds !! i = Some d -> ds_data d !! j ≫= present = Some x ->
      exists o o', placed p !! (i0 + i, j)%nat = Some o /\ placed p' !! (i0 + i, j)%nat = Some o' /\
        stacked_on (base (fold_left add_value (values_at (take i ds) j) (stack_at (bar_stacks p) j)) x) j x o o'.
Proof.
  revert i0 p. induction ds as [|d ds IH]; intros i0 p Hp Hk; [by exists p|].
  destruct (place_points_stacked i0 d (ds_data d) 0 p) as (p1 & Hp1 & Hk1 & Hs1 & Hr1 & Hx1); [|done|].
  { intros k. rewrite cell_0. intros Hl%lookup_lt_is_Some. rewrite <- (Nat.add_0_r i0). by apply (Hp 0%nat d). }
  destruct (IH (S i0) p1) as (p' & Hp' & Hr' & Hx'); [|done|].
  { intros i d' j Hd Hj. rewrite Hr1 by (left; cbn [fst]; lia).
    replace (S i0 + i)%nat with (i0 + S i)%nat by lia. by apply (Hp (S i) d'). }
  exists p'. cbn [place_datasets]. rewrite Hp1. cbn [res_bind count_bar tpdraw]. split; [done|]. split.
  - intros k Hlt. rewrite Hr' by lia. apply Hr1. left. lia.
  - intros [|i] d' j x Hd Hx; cbn [lookup list_lookup] in Hd.
    + injection Hd as <-. rewrite Nat.add_0_r, Hr' by (cbn; lia). cbn [take values_at omap list_omap fold_left].
      apply Hx1. by rewrite cell_0.
    + destruct (Hx' i d' j x Hd Hx) as (o & o' & Ho & Ho' & Hst). exists o, o'.
      replace (i0 + S i)%nat with (S i0 + i)%nat by lia.
      rewrite Hr1 in Ho by (left; cbn [fst]; lia). split; [done|]. split; [done|].
      cbn [take]. rewrite fold_values_cons, <- cell_0, <- Hs1. done.
Qed.

(** The values on the same side of the axis. *)
Definition same_side (x : num) (l : list num) : list num :=
  List.filter (fun y => Bool.eqb (y < n0)%num (x < n0)%num) l.

Definition sum_from (a : num) (l : list num) : num := fold_left (fun a y => (a + y)%num) l a.

Lemma base_sum (x : num) (l : list num) (h : num * num) :
  base (fold_left add_value l h) x = sum_from (base h x) (same_side x l).
Proof.
  revert h. induction l as [|y l IH]; intros h; [done|].
  assert (Hf : same_side x (y :: l) = if Bool.eqb (y < n0)%num (x < n0)%num then y :: same_side x l else same_side x l)
    by done.
  rewrite Hf. cbn [fold_left]. rewrite IH. unfold add_value, base.
  destruct (y < n0)%num, (x < n0)%num; done.
Qed.

(** Every bar gets its place, on the values of its side below it. *)
Lemma part2_stacked (statData : gmap (nat * nat) config) (ds : list dataset) :
  (forall i d j, ds !! i = Some d -> (j < length (ds_data d))%nat -> is_Some (statData !! (i, j))) ->
  exists r, initPassVariableData_part2 s c StackedBar labels xBegin xEnd v npoints statData ds = Ok r /\
    forall i d j x, ds !! i = Some d -> ds_data d !! j ≫= present = Some x ->
      exists o o', statData !! (i, j) = Some o /\ r !! (i, j) = Some o' /\
        stacked_on (sum_from n0 (same_side x (values_at (take i ds) j))) j x o o'.
Proof.
  intros Hs. destruct (place_datasets_stacked ds 0
    {| placed := statData; bar_stacks := no_stacks; realbars := n0 |} Hs) as (p & Hp & _ & Hx).
  { intros j. cbn [no_stacks bar_stacks tempp tempn]. rewrite !lookup_empty. by split; intros [? [=]]. }
  exists (placed p). unfold initPassVariableData_part2. rewrite Hp. split; [done|].
  intros i d j x Hd Hj. destruct (Hx i d j x Hd Hj) as (o & o' & Ho & Ho' & Hst). exists o, o'. split; [done|]. split; [done|].
  rewrite base_sum in Hst. cbn [bar_stacks no_stacks stack_at tempp tempn] in Hst.
  unfold base, stack_at in Hst. cbn in Hst. by destruct (x < n0)%num.
Qed.

(** C18: stacked bars pile up: whatever the data (missing values and values of
    both signs), every bar gets its place, and it reaches from the sum of the
    values before it at its position that lie on its side of the axis to that sum
    with its own value. *)
Theorem stacked_bars_pile (statData : gmap (nat * nat) config) (ds : list dataset) :
  (forall i d j, ds !! i = Some d -> (j < length (ds_data d))%nat -> is_Some (statData !! (i, j))) ->
  exists r, initPassVariableData_part2 s c StackedBar labels xBegin xEnd v npoints statData ds = Ok r /\
    forall i d j x, ds !! i = Some d -> ds_data d !! j ≫= present = Some x ->
      let below := sum_from n0 (same_side x (values_at (take i ds) j)) in
      exists o, r !! (i, j) = Some o /\ o.["botval"] = VNum below /\ o.["topval"] = VNum (below + x)%num.
Proof.
  intros (r & Hr & Hx)%part2_stacked. exists r. split; [done|]. intros i d j x Hd Hj.
  destruct (Hx i d j x Hd Hj) as (o & o' & _ & Ho' & [Hb _ _ _]). by exists o'.
Qed.

End Stacks.

Definition sample_vars : vars := {|
  xAxisPosY := of_Z 300; yAxisPosX := of_Z 50; valueHop := of_Z 100; nbValueHop := of_Z 2; scaleHop := of_Z 20;
  zeroY := n0; calculatedScale := percent_axis; logarithmic := VBool false; scaleHop2 := of_Z 20; zeroY2 := n0;
  calculatedScale2 := percent_axis; logarithmic2 := VBool false; availableHeight := of_Z 200; barWidth := of_Z 40;
  midPosX := n0; midPosY := n0; maxSize := n0; int_radius := n0; ext_radius := n0 |}.

(** Three datasets: the third one's bar begins at 3, above the first one's. *)
Definition stacked_sample : list dataset := [
  {| ds_data := [VInt 3]; ds_props := ∅ |}; {| ds_data := [VInt (-2)]; ds_props := ∅ |};
  {| ds_data := [VInt 4]; ds_props := ∅ |}].

Lemma stacked_bars_pile_witness :
  exists r, initPassVariableData_part2 (H := sample_math) unit_scales ∅ StackedBar
    [] VUndef VUndef sample_vars 1
    {[(0%nat, 0%nat) := ∅; (1%nat, 0%nat) := ∅; (2%nat, 0%nat) := ∅]} stacked_sample = Ok r /\
  exists o, r !! (2%nat, 0%nat) = Some o /\ o.["botval"] = VInt 3 /\ o.["topval"] = VInt 7.
Proof.
  destruct (stacked_bars_pile (H := sample_math) unit_scales ∅ [] VUndef VUndef
    sample_vars 1 {[(0%nat, 0%nat) := ∅; (1%nat, 0%nat) := ∅; (2%nat, 0%nat) := ∅]} stacked_sample) as (r & Hr & Hx).
  - intros [|[|[|i]]] d [|j] [= <-] Hj; cbn in Hj; try lia; by eexists.
  - exists r. split; [exact Hr|]. exact (Hx 2%nat _ 0%nat (of_Z 4) eq_refl eq_refl).
Defined.

(** ** Points of lines *)

Section LinePoints.

Context `{MathLib}.
Context (s : ctx_scales) (c : config) (labels : list jsval) (xBegin xEnd : jsval) (v : vars) (npoints : nat).

(** The kind of the chart: lines are also part of bar charts. *)
Context (tpchart : chart_type).

(** The fields of a point that its place leaves alone. *)
Definition unplaced : list string := ["firstNotMissing"; "lastNotMissing"; "tpchart"].

(** The place of a point of a line: its abscissa, the zero line, and the height
    of its value above it. *)
Record line_place (d : dataset) (j : nat) (value : jsval) (o : config) : Prop := {
  at_abscissa : exists x, o.["xPos"] = VNum (if bool_decide (tpchart = Bar) then (x + valueHop v / of_Z 2)%num else x) /\
    xPos c labels xBegin xEnd d (of_Z (Z.of_nat j)) (yAxisPosX v) (valueHop v) (nbValueHop v) = Ok x;
  on_axis : o.["xAxisPosY"] = VNum (xAxisPosY v) /\ o.["zeroY"] = VNum (axis_vars v d).1.1.2 /\
    o.["yAxisPos"] = VNum (xAxisPosY v - (axis_vars v d).1.1.2)%num;
  at_height : is_undefined value = false ->
    o.["yPosOffset"] = VNum (calculateOffset (axis_vars v d).2 (to_num value) (axis_vars v d).1.2 (axis_vars v d).1.1.1
                             - (axis_vars v d).1.1.2)%num
}.

Lemma line_point_spec (d : dataset) (j : nat) (value : jsval) (first : option config) (o o' : config) :
  line_point c tpchart labels xBegin xEnd v d j value first o = Ok o' ->
  line_place d j value o' /\ Forall (fun k => o'.[k] = o.[k]) unplaced.
Proof.
  unfold line_point. intros Hp.
  destruct (axis_vars v d) as [[[hop zero] sc] log] eqn:Haxis.
  apply res_bind_Ok in Hp as (x & Hx & Hp).
  destruct (match first with None => _ | Some f => _ end) as [hi lo].
  apply Ok_inj in Hp as <-. split; [split|].
  - exists x. split; [|done]. destruct (is_undefined value); rewrite !set_fields_prop; done.
  - rewrite Haxis. destruct (is_undefined value); rewrite !set_fields_prop; done.
  - intros ->. rewrite Haxis, !set_fields_prop. done.
  - unfold unplaced. destruct (is_undefined value); repeat constructor; rewrite !set_fields_prop; done.
Qed.

(** A point got its place in a step. *)
Definition placed_in (p p' : gmap (nat * nat) config) (i : nat) (d : dataset) (j : nat) (value : jsval) : Prop :=
  exists o o', p !! (i, j) = Some o /\ p' !! (i, j) = Some o' /\ line_place d j value o' /\
    Forall (fun k => o'.[k] = o.[k]) unplaced.

Lemma place_point_other (i : nat) (d : dataset) (j : nat) (value : jsval) (p p' : placing) :
  place_point s c tpchart labels xBegin xEnd v npoints i d j value p = Ok p' ->
  forall k, k <> (i, j) -> placed p' !! k = placed p !! k.
Proof.
  intros Hp k Hk. unfold place_point in Hp.
  destruct (tpdraw tpchart d); repeat (case_match; try discriminate); succeed; repeat (case_match; try discriminate);
    succeed; apply Ok_inj in Hp as <-; cbn [set_point placed]; by rewrite ?lookup_insert_ne.
Qed.

Lemma place_line (i : nat) (d : dataset) (j : nat) (value : jsval) (p p' : placing) : tpdraw tpchart d = Line ->
  place_point s c tpchart labels xBegin xEnd v npoints i d j value p = Ok p' ->
  placed_in (placed p) (placed p') i d j value.
Proof.
  intros Ht. unfold place_point. rewrite Ht. intros Hp. apply res_bind_Ok in Hp as (o & Ho & Hp).
  apply res_bind_Ok in Hp as (first & _ & Hp). apply res_bind_Ok in Hp as (o' & Ho' & Hp).
  apply Ok_inj in Hp as <-. exists o, o'. cbn [set_point placed]. rewrite lookup_insert_eq.
  unfold point_of in Ho. destruct (placed p !! (i, j)); [|done].
  apply Ok_inj in Ho as ->. split; [done|]. split; [done|]. by eapply line_point_spec.
Qed.

Section Steps.

(** What the step of a point establishes, and the steps of the other points keep. *)
Context (kind : dataset -> Prop) (goal : gmap (nat * nat) config -> gmap (nat * nat) config -> nat -> dataset -> nat -> jsval -> Prop).
Context (Hstep : forall i d j value p p', kind d ->
  place_point s c tpchart labels xBegin xEnd v npoints i d j value p = Ok p' -> goal (placed p) (placed p') i d j value).
Context (Hkeep : forall i d j value p p' q q', p !! (i, j) = q !! (i, j) -> p' !! (i, j) = q' !! (i, j) ->
  goal p p' i d j value -> goal q q' i d j value).

Lemma place_points_steps (i : nat) (d : dataset) (l : list jsval) (j : nat) (p p' : placing) :
  place_points s c tpchart labels xBegin xEnd v npoints i d j l p = Ok p' ->
  (forall k, k.1 <> i \/ (k.2 < j)%nat -> placed p' !! k = placed p !! k) /\
  (kind d -> forall k value, l !! k = Some value -> goal (placed p) (placed p') i d (j + k) value).
Proof.
  revert j p. induction l as [|w l IH]; intros j p Hp; cbn [place_points] in Hp.
  { apply Ok_inj in Hp as <-. split; [done|]. by intros _ k value [=]. }
  apply res_bind_Ok in Hp as (p1 & H1 & Hp). pose proof (place_point_other _ _ _ _ _ _ H1) as Hr1.
  destruct (IH _ _ Hp) as [Hr Hx]. split.
  - intros [i' k] Hk. cbn [fst snd] in *. rewrite Hr by (cbn; destruct Hk; [by left|right; lia]).
    apply Hr1. intros [= -> ->]. lia.
  - intros Hkind [|k] value Hk; cbn [lookup list_lookup] in Hk.
    + injection Hk as ->. rewrite Nat.add_0_r. eapply Hkeep; [done| |by eapply Hstep].
      symmetry. apply Hr. right. cbn. lia.
    + replace (j + S k)%nat with (S j + k)%nat by lia. eapply Hkeep; [|done|by apply (Hx Hkind)].
      apply Hr1. intros [=]. lia.
Qed.

Lemma place_datasets_steps (ds : list dataset) (i0 : nat) (p p' : placing) :
  place_datasets s c tpchart labels xBegin xEnd v npoints i0 ds p = Ok p' ->
  (forall k, (k.1 < i0)%nat -> placed p' !! k = placed p !! k) /\
  forall i d j value, ds !! i = Some d -> kind d -> ds_data d !! j = Some value ->
    goal (placed p) (placed p') (i0 + i) d j value.
Proof.
  revert i0 p. induction ds as [|e ds IH]; intros i0 p Hp; cbn [place_datasets] in Hp.
  { apply Ok_inj in Hp as <-. split; [done|]. by intros i d j value [=]. }
  apply res_bind_Ok in Hp as (p1 & H1 & Hp). destruct (place_points_steps _ _ _ _ _ _ H1) as [Hr1 Hx1].
  assert (Hcount : placed (count_bar tpchart e p1) = placed p1) by (unfold count_bar; by destruct (tpdraw tpchart e)).
  destruct (IH _ _ Hp) as [Hr Hx]. rewrite Hcount in Hr, Hx. split.
  - intros k Hk. rewrite Hr by lia. apply Hr1. left. lia.
  - intros [|i] d j value Hd Hkind Hj; cbn [lookup list_lookup] in Hd.
    + injection Hd as ->. rewrite Nat.add_0_r. eapply Hkeep; [done| |by apply (Hx1 Hkind)].
      symmetry. apply Hr. cbn. lia.
    + replace (i0 + S i)%nat with (S i0 + i)%nat by lia. eapply Hkeep; [|done|by apply (Hx i d j value Hd Hkind)].
      apply Hr1. left. cbn. lia.
Qed.

End Steps.

(** All points of lines get their places. *)
Lemma part2_lines (statData r : gmap (nat * nat) config) (ds : list dataset) :
  initPassVariableData_part2 s c tpchart labels xBegin xEnd v npoints statData ds = Ok r ->
  forall i d j value, ds !! i = Some d -> tpdraw tpchart d = Line -> ds_data d !! j = Some value ->
    placed_in statData r i d j value.
Proof.
  unfold initPassVariableData_part2. intros Hp. apply res_bind_Ok in Hp as (p & Hp & Hr). apply Ok_inj in Hr as <-.
  refine (proj2 (place_datasets_steps (fun d => tpdraw tpchart d = Line) placed_in _ _ _ _ _ _ Hp)).
  - intros i d j value p1 p2 Ht. by apply place_line.
  - intros i d j value p1 p2 q1 q2 E1 E2 (o & o' & ? & ? & ?). exists o, o'. by rewrite <- E1, <- E2.
Qed.

(** *** Bars *)

(** The scale and the zero line of the axis of a bar, which may be logarithmic. *)
Definition bar_axis (d : dataset) : jsval * scale * num * num :=
  if on_second_axis d then (c.["logarithmic2"], calculatedScale2 v, scaleHop2 v, zeroY2 v)
  else (c.["logarithmic"], calculatedScale v, scaleHop v, zeroY v).

Definition bar_height (d : dataset) (value : jsval) : num :=
  let '(log, sc, hop, zero) := bar_axis d in (calculateOffset log (as_num value) sc hop - zero)%num.

(** A bar stands on the zero line and is as high as its value on the axis. *)
Definition bar_placed (p p' : gmap (nat * nat) config) (i : nat) (d : dataset) (j : nat) (value : jsval) : Prop :=
  exists o', p' !! (i, j) = Some o' /\ o'.["yPosBottom"] = VNum (xAxisPosY v - (bar_axis d).2)%num /\
    o'.["barHeight"] = VNum (bar_height d value).

Lemma part2_bars (statData r : gmap (nat * nat) config) (ds : list dataset) :
  initPassVariableData_part2 s c tpchart labels xBegin xEnd v npoints statData ds = Ok r ->
  forall i d j value, ds !! i = Some d -> tpdraw tpchart d = Bar -> ds_data d !! j = Some value ->
    bar_placed statData r i d j value.
Proof.
  unfold initPassVariableData_part2. intros Hp. apply res_bind_Ok in Hp as (p & Hp & Hr). apply Ok_inj in Hr as <-.
  refine (proj2 (place_datasets_steps (fun d => tpdraw tpchart d = Bar) bar_placed _ _ _ _ _ _ Hp)).
  - intros i d j value p1 p2 Ht Hs. unfold place_point in Hs. rewrite Ht in Hs.
    apply res_bind_Ok in Hs as (o & _ & Hs). apply Ok_inj in Hs as <-. cbn [set_point placed].
    eexists. rewrite lookup_insert_eq. split; [reflexivity|]. unfold bar_point, bar_height, bar_axis.
    destruct (on_second_axis d); rewrite !set_fields_prop; done.
  - intros i d j value p1 p2 q1 q2 E1 E2 (o' & ? & ?). exists o'. by rewrite <- E2.
Qed.

End LinePoints.
