(* ===== verification/Lines.v ===== *)
(** * Drawing lines (ChartNew.js)

    [drawLinesDataset] draws the lines of a line chart, and of the datasets of a
    bar chart that are lines: the line through the points, the area below it,
    the markers, the annotations and the texts of the points.  Its local
    variables and the canvas it draws on are the state [tracing]; a throw keeps
    what was drawn before it. *)

From stdpp Require Import base list strings gmap.
From Stdlib Require Import ZArith Lia SpecFloat.
From S2P Require Import Prelude Num Binary64 Value Options OptionValue Format Scale Easing Animation Stats Canvas.

Open Scope string_scope.
Open Scope list_scope.
Open Scope Z_scope.

(** ** State *)

Record tracing : Type := {
  drawn : list canvas_op;                 (** what the context was told so far *)
  pts : list num;                         (** the points of a curve *)
  firstpt : option nat;                   (** the first point of the line, [None] for -1 *)
  lastxPos : num;
  prevAnimPc : progress;
  currentAnimPc : option progress;
  annotated : list (nat * nat)            (** the points appended to [jsGraphAnnotate] *)
}.

Definition set_drawn (l : list canvas_op) (s : tracing) : tracing :=
  {| drawn := l; pts := pts s; firstpt := firstpt s; lastxPos := lastxPos s; prevAnimPc := prevAnimPc s;
     currentAnimPc := currentAnimPc s; annotated := annotated s |}.
Definition set_pts (l : list num) (s : tracing) : tracing :=
  {| drawn := drawn s; pts := l; firstpt := firstpt s; lastxPos := lastxPos s; prevAnimPc := prevAnimPc s;
     currentAnimPc := currentAnimPc s; annotated := annotated s |}.
Definition set_firstpt (f : option nat) (s : tracing) : tracing :=
  {| drawn := drawn s; pts := pts s; firstpt := f; lastxPos := lastxPos s; prevAnimPc := prevAnimPc s;
     currentAnimPc := currentAnimPc s; annotated := annotated s |}.
Definition set_lastxPos (x : num) (s : tracing) : tracing :=
  {| drawn := drawn s; pts := pts s; firstpt := firstpt s; lastxPos := x; prevAnimPc := prevAnimPc s;
     currentAnimPc := currentAnimPc s; annotated := annotated s |}.
Definition set_prevAnimPc (p : progress) (s : tracing) : tracing :=
  {| drawn := drawn s; pts := pts s; firstpt := firstpt s; lastxPos := lastxPos s; prevAnimPc := p;
     currentAnimPc := currentAnimPc s; annotated := annotated s |}.
Definition set_currentAnimPc (p : progress) (s : tracing) : tracing :=
  {| drawn := drawn s; pts := pts s; firstpt := firstpt s; lastxPos := lastxPos s; prevAnimPc := prevAnimPc s;
     currentAnimPc := Some p; annotated := annotated s |}.
Definition annotate (i j : nat) (s : tracing) : tracing :=
  {| drawn := drawn s; pts := pts s; firstpt := firstpt s; lastxPos := lastxPos s; prevAnimPc := prevAnimPc s;
     currentAnimPc := currentAnimPc s; annotated := annotated s ++ [(i, j)] |}.

Definition no_tracing : tracing :=
  {| drawn := []; pts := []; firstpt := None; lastxPos := of_Z (-1); prevAnimPc := progress_of n0 n0;
     currentAnimPc := None; annotated := [] |}.

Abbreviation tracer := (eff tracing).

Definition emit (l : list canvas_op) : tracer unit := eff_modify (fun s => set_drawn (drawn s ++ l) s).

(** [if (b) m] *)
Definition eff_when {S} (b : bool) (m : eff S unit) : eff S unit := if b then m else eff_ret tt.

(** An element of an array of numbers: outside it is [undefined], which is not a
    number in the arithmetic that follows. *)
Definition elem (l : list num) (k : Z) : num := if k <? 0 then NaN else default NaN (l !! Z.to_nat k).

Section Lines.

Context `{MathLib}.
Context (callback : positive -> string -> Z -> Z -> jsval -> res jsval).
Context (eval_template : string -> list (string * jsval) -> res string).

(** [ctx.measureText(text).width] with a font. *)
Context (measureText : string -> string -> num).

(** The context's scales, and its alignments when the drawing starts. *)
Context (s : ctx_scales) (align0 baseline0 : string).

Context (c : config) (data : chart_data) (statData : gmap (nat * nat) config).

(** ** Access to the data *)

(** [statData[i][v]] *)
Definition stat_at (i : nat) (v : jsval) : res config :=
  match index_of_num (to_num v) with
  | Some k => match statData !! (i, k) with Some o => Ok o | None => Throw TypeError end
  | None => Throw TypeError
  end.

Definition stat (i : nat) (v : jsval) : tracer config := eff_lift (stat_at i v).
Definition stat_Z (i : nat) (j : Z) : tracer config := stat i (VInt j).

(** An option of dataset [i] at point [j]; [own] is the dataset's own value. *)
Definition point_option (rescale : num) (reference : string) (own : jsval) (k : string) (i : nat) (j : Z)
    (othervars : jsval) : tracer jsval :=
  eff_lift (setOptionValue callback rescale reference own c.[k] (Z.of_nat i) j othervars).

Definition nullvalue : jsval := VObj [("nullvalue", VNull)].
Definition nullValue : jsval := VObj [("nullValue", VBool true)].

(** The position of a point at a stage of its animation. *)
Definition y_at (o : config) (m : num) : num := (fnum o "yAxisPos" - m * fnum o "yPosOffset")%num.

(** ** Curves *)

Definition getControlPoints (x0 y0 x1 y1 x2 y2 t : num) : list num :=
  let dist ax ay bx by_ := Math_sqrt (Math_pow (ax - bx) (of_Z 2) + Math_pow (ay - by_) (of_Z 2))%num in
  let d01 := dist x1 y1 x0 y0 in
  let d12 := dist x2 y2 x1 y1 in
  let fa := (t * d01 / (d01 + d12))%num in
  let fb := (t - fa)%num in
  [x1 + fa * (x0 - x2); y1 + fa * (y0 - y2); x1 - fb * (x0 - x2); y1 - fb * (y0 - y2)]%num.

(** The control points for the knots [0, 2, .., n - 4] of [pts]. *)
Definition control_points (p : list num) (n : Z) (t : num) : list num :=
  concat (map (fun k => let ti := 2 * Z.of_nat k in
                        getControlPoints (elem p ti) (elem p (ti + 1)) (elem p (ti + 2)) (elem p (ti + 3))
                          (elem p (ti + 4)) (elem p (ti + 5)) t)
              (seq 0 (Z.to_nat ((n - 1) / 2)))).

Definition within (y minimumpos maximumpos : num) : num := Math_max (Math_min y minimumpos) maximumpos.

Definition spline_curves (p cp : list num) (minimumpos maximumpos : num) : list canvas_op :=
  let len := Z.of_nat (length p) in
  map (fun k => let ti := 2 + 2 * Z.of_nat k in
                BezierCurveTo (elem cp (2 * ti - 2)) (within (elem cp (2 * ti - 1)) minimumpos maximumpos)
                  (elem cp (2 * ti)) (within (elem cp (2 * ti + 1)) minimumpos maximumpos)
                  (elem p (ti + 2)) (elem p (ti + 3)))
      (seq 0 (Z.to_nat ((len - 4) / 2))).

(** The variables [i] and [j] are those of [drawLinesDataset]. *)
Definition drawSpline (i : nat) (j : Z) (d : dataset) (t minimumpos maximumpos : num) : tracer unit :=
  let! p := eff_gets pts in
  let n := Z.of_nat (length p) in
  let p := p ++ [of_Z 2 * elem p (n - 2) - elem p (n - 4)]%num in
  let p := p ++ [of_Z 2 * elem p (n - 1) - elem p (n - 3)]%num in
  do! eff_modify (set_pts p) in
  if n =? 4 then emit [MoveTo (elem p 0) (elem p 1); LineTo (elem p 2) (elem p 3)]
  else
    let cp := control_points p n t in
    do! emit [BeginPath] in
    let! color := point_option (of_Z 1) "STROKECOLOR" (ds_props d).["strokeColor"] "defaultStrokeColor" i j nullvalue in
    do! emit [SetStrokeStyle color; SetLineWidth (VNum (line s c "datasetStrokeWidth"));
              MoveTo (elem p 0) (elem p 1);
              QuadraticCurveTo (elem cp 0) (within (elem cp 1) minimumpos maximumpos) (elem p 2) (elem p 3)] in
    let! dash := point_option (of_Z 1) "LINEDASH" (ds_props d).["datasetStrokeStyle"] "datasetStrokeStyle" i j nullvalue in
    emit ([SetLineDash (lineStyleFn (to_str dash))] ++ spline_curves p cp minimumpos maximumpos ++ [Stroke]).

Definition bezier (i : nat) : tracer bool :=
  let! b := point_option (of_Z 1) "BEZIERCURVE" VUndef "bezierCurve" i (-1) nullValue in
  eff_ret (truthy b).

Definition initbz (i : nat) (x y : num) : tracer unit :=
  let! b := bezier i in eff_when b (eff_modify (set_pts [x; y])).

Definition traceLine (i : nat) (x y : num) : tracer unit :=
  let! b := bezier i in
  if b then eff_modify (fun t => set_pts (pts t ++ [x; y]) t) else emit [LineTo x y].

Definition closebz (i : nat) (j : Z) (d : dataset) : tracer unit :=
  let! b := bezier i in
  eff_when b (
    let! o := stat_Z i 0 in
    let! sc := eff_lift (get_prop o.["calculatedScale"] "steps") in
    let minimumpos := fnum o "xAxisPosY" in
    let maximumpos := (fnum o "xAxisPosY" - to_num sc * fnum o "scaleHop")%num in
    let! tension := point_option (of_Z 1) "BEZIERCURVETENSION" VUndef "bezierCurveTension" i (-1) nullValue in
    do! drawSpline i j d (to_num tension) minimumpos maximumpos in
    eff_modify (set_pts [])).

(** ** Strokes and areas *)

(** The path so far is stroked in the dataset's style. *)
Definition stroke_line (i : nat) (j : Z) (d : dataset) : tracer unit :=
  let! dash := point_option (of_Z 1) "LINEDASH" (ds_props d).["datasetStrokeStyle"] "datasetStrokeStyle" i j nullvalue in
  emit [SetLineDash (lineStyleFn (to_str dash)); Stroke; SetLineDash []].

Definition transparent : canvas_op := SetStrokeStyle (VStr "rgba(0,0,0,0)").

(** [currentAnimPc.mainVal], which throws before the first point. *)
Definition current_main : tracer num :=
  fun t => match currentAnimPc t with
           | Some p => (t, Ok (mainVal p))
           | None => (t, Throw TypeError)
           end.

(** The other variables of the area's colour: the rectangle around the line. *)
Definition area_vars (i : nat) (d : dataset) (m : num) : res jsval :=
  let* o := stat_at i (VInt 0) in
  let* e := stat_at i (VInt (Z.of_nat (length (ds_data d)) - 1)) in
  let k := if truthy c.["animationLeftToRight"] then of_Z 1 else (of_Z 1 * m)%num in
  let base := fnum o "yAxisPos" in
  Ok (VObj [("animationValue", VNum m);
            ("xPosLeft", o.["xPos"]);
            ("yPosBottom", VNum (Math_max base (base - k * fnum o "lminvalue_offset")%num));
            ("xPosRight", e.["xPos"]);
            ("yPosTop", VNum (Math_min base (base - k * fnum o "lmaxvalue_offset")%num))]).

Definition fill_area (i : nat) (j : Z) (d : dataset) : tracer unit :=
  let! m := current_main in
  let! vars := eff_lift (area_vars i d m) in
  let! color := point_option (of_Z 1) "COLOR" (ds_props d).["fillColor"] "defaultFillColor" i j vars in
  emit [SetFillStyle color; FillOp].

(** [statData[i][firstpt]] *)
Definition stat_first (i : nat) : tracer config :=
  let! f := eff_gets firstpt in
  match f with
  | Some k => stat_Z i (Z.of_nat k)
  | None => eff_lift (Throw TypeError)
  end.

(** The path goes down to the axis at [x], back to the first point and is closed. *)
Definition close_area (i : nat) (x y : num) (first_y : config -> res num) : tracer unit :=
  do! emit [LineTo x y] in
  let! f := stat_first i in
  let! fy := eff_lift (first_y f) in
  emit [LineTo (fnum f "xPos") fy; ClosePath].

(** [statData[i][firstpt].xAxisPosY - statData[i][0].zeroY] *)
Definition zero_line (i : nat) (f : config) : res num :=
  let* o := stat_at i (VInt 0) in Ok (fnum f "xAxisPosY" - fnum o "zeroY")%num.

(** ** The points of a line *)

(** A line that is being drawn from left to right ends before point [j]. *)
Definition end_of_line (i j : nat) (d : dataset) (prev : progress) (x y : num) : tracer unit :=
  do! traceLine i x y in
  do! closebz i (Z.of_nat j) d in
  do! stroke_line i (Z.of_nat j) d in
  do! emit [transparent] in
  eff_when (truthy c.["datasetFill"]) (
    let! o := stat_Z i (Z.of_nat j) in
    do! close_area i x (fnum o "yAxisPos") (zero_line i) in
    fill_area i (Z.of_nat j) d).

Definition leave_line (i j : nat) (d : dataset) (prev : progress) : tracer unit :=
  do! stroke_line i (Z.of_nat j) d in
  let! o := stat_Z i (Z.of_nat j) in
  if truthy c.["extrapolateMissingData"] then
    let! a := stat i o.["prevNotMissing"] in
    let! before := stat_Z i (Z.of_nat j - 1) in
    let! b := stat i before.["nextNotMissing"] in
    let y1 := y_at a (mainVal prev) in
    let y2 := (fnum o "yAxisPos" - mainVal prev * fnum b "yPosOffset")%num in
    let diffnb := (fnum before "nextNotMissing" - fnum o "prevNotMissing")%num in
    let diffnbj := (of_Z (Z.of_nat j - 1) - fnum o "prevNotMissing")%num in
    let fact := ((diffnbj + subVal prev) / diffnb)%num in
    let x := (fnum before "xPos" + subVal prev * (fnum o "xPos" - fnum before "xPos"))%num in
    do! end_of_line i j d prev x (y1 + fact * (y2 - y1))%num in
    eff_when (truthy c.["datasetFill"]) (eff_modify (set_firstpt None))
  else eff_when (negb (is_undefined o.["value"])) (
    let! before := stat_Z i (Z.of_nat j - 1) in
    let! b := stat i before.["nextNotMissing"] in
    let x := (fnum before "xPos" + subVal prev * (fnum o "xPos" - fnum before "xPos"))%num in
    end_of_line i j d prev x (fnum o "yAxisPos" - mainVal prev * fnum b "yPosOffset")%num).

(** Point [j] has no value. *)
Definition missing_at (i j : nat) (d : dataset) (cur : progress) : tracer unit :=
  if negb (truthy c.["extrapolateMissingData"]) then
    let! f := eff_gets firstpt in
    match f with
    | None => eff_ret tt
    | Some _ =>
        do! closebz i (Z.of_nat j) d in
        do! stroke_line i (Z.of_nat j) d in
        do! eff_when (truthy c.["datasetFill"]) (
          do! eff_modify (set_lastxPos (of_Z (-1))) in
          do! emit [transparent] in
          let! before := stat_Z i (Z.of_nat j - 1) in
          do! close_area i (fnum before "xPos") (fnum before "yAxisPos") (fun f => Ok (fnum f "yAxisPos")) in
          fill_area i (Z.of_nat j) d) in
        do! emit [BeginPath] in
        do! eff_modify (set_prevAnimPc {| mainVal := n0; subVal := n0; animVal := NaN |}) in
        eff_modify (set_firstpt None)
    end
  else eff_when (subVal cur > n0)%num (
    let! o := stat_Z i (Z.of_nat j) in
    let! after := stat_Z i (Z.of_nat j + 1) in
    let x := (fnum o "xPos" + subVal cur * (fnum after "xPos" - fnum o "xPos"))%num in
    do! eff_modify (set_lastxPos x) in
    let! a := stat i after.["prevNotMissing"] in
    let! b := stat i o.["nextNotMissing"] in
    let y1 := (fnum a "yAxisPos" - fnum a "yPosOffset")%num in
    let y2 := (fnum b "yAxisPos" - fnum b "yPosOffset")%num in
    let diffnb := (fnum o "nextNotMissing" - fnum after "prevNotMissing")%num in
    let diffnbj := (of_Z (Z.of_nat j) - fnum after "prevNotMissing")%num in
    let fact := ((diffnbj + subVal cur) / diffnb)%num in
    traceLine i x (y1 + fact * (y2 - y1))%num).

(** Point [j] has a value: the line starts or goes on there, and reaches towards
    the next point while it is drawn from left to right. *)
Definition present_at (i j : nat) (cur : progress) : tracer unit :=
  do! emit [SetLineWidth (VNum (line s c "datasetStrokeWidth"))] in
  let! f := eff_gets firstpt in
  let! o := stat_Z i (Z.of_nat j) in
  let x := fnum o "xPos" in
  let y := y_at o (mainVal cur) in
  do! (match f with
       | None =>
           do! eff_modify (set_firstpt (Some j)) in
           do! emit [BeginPath; MoveTo x y] in
           do! initbz i x y in
           eff_modify (set_lastxPos x)
       | Some _ =>
           do! eff_modify (set_lastxPos x) in
           traceLine i x y
       end) in
  eff_when ((subVal cur > n0)%num && negb (loose_eq o.["nextNotMissing"] (VInt (-1)))
            && (truthy c.["extrapolateMissing"] || loose_eq o.["nextNotMissing"] (VInt (Z.of_nat j + 1)))) (
    let! after := stat_Z i (Z.of_nat j + 1) in
    let x' := (x + subVal cur * (fnum after "xPos" - x))%num in
    do! eff_modify (set_lastxPos x') in
    let! a := stat i after.["prevNotMissing"] in
    let! b := stat i o.["nextNotMissing"] in
    let y1 := (fnum a "yAxisPos" - fnum a "yPosOffset")%num in
    let y2 := (fnum b "yAxisPos" - fnum b "yPosOffset")%num in
    traceLine i x' (y1 + subVal cur * (y2 - y1))%num).

Definition draw_point (animPc : num) (i : nat) (d : dataset) (first j : nat) : tracer unit :=
  let! prev := eff_gets prevAnimPc in
  if (animVal prev == n0)%num && (first <? j)%nat then eff_ret tt
  else
    let! cur := eff_lift (animationCorrection animPc data c (Z.of_nat i) (Z.of_nat j) 0) in
    do! eff_modify (set_currentAnimPc cur) in
    let! f := eff_gets firstpt in
    if (mainVal cur == n0)%num && (mainVal prev > n0)%num && bool_decide (is_Some f) then
      do! leave_line i j d prev in
      eff_modify (set_prevAnimPc cur)
    else
      do! stroke_line i (Z.of_nat j) d in
      let! color := point_option (of_Z 1) "STROKECOLOR" (ds_props d).["strokeColor"] "defaultStrokeColor"
                      i (Z.of_nat j) nullvalue in
      do! emit [SetStrokeStyle color] in
      do! eff_modify (set_prevAnimPc cur) in
      if is_undefined (default VUndef (ds_data d !! j)) then missing_at i j d cur else present_at i j cur.

(** [for (j = first; j <= last; j++)] *)
Definition positions (first last : nat) : list nat := seq first (S last - first).

(** The line of a dataset, and the area below it. *)
Definition draw_line (animPc : num) (i : nat) (d : dataset) (first last : nat) : tracer unit :=
  do! emit [Save; BeginPath] in
  do! eff_modify (fun t => set_prevAnimPc (progress_of n0 n0) (set_firstpt None (set_lastxPos (of_Z (-1)) t))) in
  do! eff_iter (draw_point animPc i d first) (positions first last) in
  let after := Z.of_nat (Nat.max first (S last)) in
  do! closebz i after d in
  do! stroke_line i after d in
  let! f := eff_gets firstpt in
  do! eff_when (truthy c.["datasetFill"] && bool_decide (is_Some f)) (
    do! emit [transparent] in
    let! o := stat_Z i 0 in
    let! x := eff_gets lastxPos in
    do! close_area i x (fnum o "xAxisPosY" - fnum o "zeroY")%num (zero_line i) in
    fill_area i (-1) d) in
  emit [Restore].

(** ** Markers *)

Definition draw_dot (animPc : num) (i : nat) (d : dataset) (j : nat) : tracer unit :=
  eff_when (negb (is_undefined (default VUndef (ds_data d !! j)))) (
    let! cur := eff_lift (animationCorrection animPc data c (Z.of_nat i) (Z.of_nat j) 0) in
    do! eff_modify (set_currentAnimPc cur) in
    eff_when ((mainVal cur > n0)%num || negb (truthy c.["animationLeftToRight"])) (
      let own k := (ds_props d).[k] in
      let opt rescale reference o k := point_option rescale reference o k i (Z.of_nat j) nullvalue in
      do! emit [BeginPath] in
      let! fill := opt (of_Z 1) "MARKERFILLCOLOR" (own "pointColor") "defaultStrokeColor" in
      do! emit [SetFillStyle fill] in
      let! stroke := opt (of_Z 1) "MARKERSTROKESTYLE" (own "pointStrokeColor") "defaultStrokeColor" in
      do! emit [SetStrokeStyle stroke] in
      let! width := opt (ctx_line s) "MARKERLINEWIDTH" (own "pointDotStrokeWidth") "pointDotStrokeWidth" in
      do! emit [SetLineWidth width] in
      let! markerShape := opt (of_Z 1) "MARKERSHAPE" (own "markerShape") "markerShape" in
      let! markerRadius := opt (ctx_space s) "MARKERRADIUS" (own "pointDotRadius") "pointDotRadius" in
      let! markerStrokeStyle := opt (of_Z 1) "MARKERSTROKESTYLE" (own "pointDotStrokeStyle") "pointDotStrokeStyle" in
      let! o := stat_Z i (Z.of_nat j) in
      emit (drawMarker (fnum o "xPos") (y_at o (mainVal cur)) (to_str markerShape) (to_num markerRadius)
              (to_str markerStrokeStyle)))).

(** ** Texts and annotations of the points *)

(** [tmplbis]: the template of a text, filled in with the statistics of a point. *)
Definition tmplbis (str : jsval) (o : config) : res string :=
  match str with
  | VStr t => eval_template (normalise_template t c) (map_to_list o)
  | _ => Throw TypeError
  end.

(** An option of the texts of the points. *)
Definition text_option (rescale : num) (reference k : string) (i : nat) (j : Z) : tracer jsval :=
  point_option rescale reference VUndef k i j nullValue.

Definition text_font (i : nat) (j : Z) : tracer string :=
  let! style := text_option (of_Z 1) "INGRAPHDATAFONTSTYLE" "inGraphDataFontStyle" i j in
  let! size := text_option (ctx_text s) "INGRAPHDATAFONTSIZE" "inGraphDataFontSize" i j in
  let! family := text_option (of_Z 1) "INGRAPHDATAFONTFAMILY" "inGraphDataFontFamily" i j in
  eff_ret (to_str style ++ " " ++ to_str size ++ "px " ++ to_str family)%string.

(** The border and the background of a text, and the text, at the origin. *)
Definition boxed_text (i : nat) (j : Z) (font align baseline dispString : string) : tracer unit :=
  let! size := text_option (ctx_text s) "INGRAPHDATAFONTSIZE" "inGraphDataFontSize" i j in
  let! borders := text_option (of_Z 1) "INGRAPHDATABORDERS" "inGraphDataBorders" i j in
  let! bcolor := text_option (of_Z 1) "INGRAPHDATABORDERSCOLOR" "inGraphDataBordersColor" i j in
  let! bwidth := text_option (ctx_line s) "INGRAPHDATABORDERSWIDTH" "inGraphDataBordersWidth" i j in
  let! bx := text_option (ctx_space s) "INGRAPHDATABORDERSXSPACE" "inGraphDataBordersXSpace" i j in
  let! by_ := text_option (ctx_space s) "INGRAPHDATABORDERSYSPACE" "inGraphDataBordersYSpace" i j in
  let! bstyle := text_option (of_Z 1) "INGRAPHDATABORDERSSTYLE" "inGraphDataBordersStyle" i j in
  let! background := text_option (of_Z 1) "INGRAPHDATABACKGROUNDCOLOR" "inGraphDataBackgroundColor" i j in
  do! emit (setTextBordersAndBackground (measureText font) align baseline (VStr dispString) (to_num size) n0 n0
              borders bcolor (to_num bwidth) (to_num bx) (to_num by_) (to_str bstyle) background) in
  let! size := text_option (ctx_text s) "INGRAPHDATAFONTSIZE" "inGraphDataFontSize" i j in
  emit (fillTextMultiLine dispString n0 n0 baseline (to_num size) true).

(** The style of a text: its font and, as the context reads them back, its alignments. *)
Definition data_text_style (i : nat) (j : Z) : tracer (string * string * string) :=
  let! align := text_option (of_Z 1) "INGRAPHDATAALIGN" "inGraphDataAlign" i j in
  do! emit [SetTextAlign (to_str align)] in
  let! baseline := text_option (of_Z 1) "INGRAPHDATAVALIGN" "inGraphDataVAlign" i j in
  do! emit [SetTextBaseline (to_str baseline)] in
  let! font := text_font i j in
  do! emit [SetFont font] in
  let! color := text_option (of_Z 1) "INGRAPHDATAFONTCOLOR" "inGraphDataFontColor" i j in
  do! emit [SetFillStyle color] in
  eff_ret (font, assigned text_aligns align0 align, assigned text_baselines baseline0 baseline).

Definition text_string (i : nat) (j : Z) (o : config) : tracer string :=
  let! template := text_option (of_Z 1) "INGRAPHDATATMPL" "inGraphDataTmpl" i j in
  eff_lift (tmplbis template o).

(** The context is turned to the angle of the text. *)
Definition turn_text (i : nat) (j : Z) : tracer unit :=
  let! angle := text_option (of_Z 1) "INGRAPHDATAROTATE" "inGraphDataRotate" i j in
  emit [Rotate (to_num angle * (Math_PI / of_Z 180))%num].

Definition draw_text (i j : nat) : tracer unit :=
  do! emit [Save] in
  let! style := data_text_style i (Z.of_nat j) in
  let! paddingTextX := text_option (ctx_space s) "INGRAPHDATAPADDINGX" "inGraphDataPaddingX" i (Z.of_nat j) in
  let! paddingTextY := text_option (ctx_space s) "INGRAPHDATAPADDINGY" "inGraphDataPaddingY" i (Z.of_nat j) in
  let! o := stat_Z i (Z.of_nat j) in
  let! dispString := text_string i (Z.of_nat j) o in
  let! m := current_main in
  do! emit [Translate (to_num (js_add o.["xPos"] paddingTextX)) (y_at o m - to_num paddingTextY)%num] in
  do! turn_text i (Z.of_nat j) in
  do! boxed_text i (Z.of_nat j) style.1.1 style.1.2 style.2 dispString in
  emit [Restore].

(** The annotation and the text of a point with a value. *)
Definition label_with (draw : tracer unit) (i : nat) (d : dataset) (j : nat) : tracer unit :=
  eff_when (negb (is_undefined (default VUndef (ds_data d !! j)))) (
    let! show := text_option (of_Z 1) "ANNOTATEDISPLAY" "annotateDisplay" i (Z.of_nat j) in
    do! eff_when (truthy show) (eff_modify (annotate i j)) in
    let! show := text_option (of_Z 1) "INGRAPHDATASHOW" "inGraphDataShow" i (Z.of_nat j) in
    eff_when (truthy show) draw).

Definition label_point (i : nat) (d : dataset) (j : nat) : tracer unit := label_with (draw_text i j) i d j.

(** ** All lines *)

(** A position among the statistics, where -1 means that there is none. *)
Definition position (v : jsval) : option nat := index_of_num (to_num v).

Definition draw_dataset (animPc : num) (id : nat * dataset) : tracer unit :=
  let '(i, d) := id in
  let! o := stat_Z i 0 in
  if negb (loose_eq o.["tpchart"] (VStr "Line")) then eff_ret tt
  else match position o.["firstNotMissing"], position o.["lastNotMissing"] with
  | Some first, Some last =>
      do! draw_line animPc i d first last in
      do! eff_when (truthy c.["pointDot"] && (animPc >= of_Z 1)%num)
            (eff_iter (draw_dot animPc i d) (seq 0 (length (ds_data d)))) in
      eff_when (animPc >= fnum c "animationStopValue")%num
        (eff_iter (label_point i d) (seq 0 (length (ds_data d))))
  | _, _ => eff_ret tt
  end.

Definition drawLinesDataset (animPc : num) : tracer unit :=
  do! eff_iter (draw_dataset animPc) (imap pair (datasets data)) in
  emit [SetLineDash []].

End Lines.

(** ** Running a computation *)

Lemma eff_bind_ok {S A B} (m : eff S A) (f : A -> eff S B) (s s' : S) (a : A) :
  m s = (s', Ok a) -> eff_bind m f s = f a s'.
Proof. intros Hm. unfold eff_bind. by rewrite Hm. Qed.

Lemma eff_iter_cons {S A} (f : A -> eff S unit) (x : A) (l : list A) (s s' : S) :
  f x s = (s', Ok tt) -> eff_iter f (x :: l) s = eff_iter f l s'.
Proof. intros Hx. cbn [eff_iter]. by rewrite (eff_bind_ok _ _ _ _ _ Hx). Qed.

Lemma pen_after_app (p : pen) (l1 l2 : list canvas_op) : pen_after p (l1 ++ l2) = pen_after (pen_after p l1) l2.
Proof. apply fold_left_app. Qed.

(** ** Options that are the same for all points *)

Section Plain.

Context `{MathLib}.
Context (callback : positive -> string -> Z -> Z -> jsval -> res jsval).
Context (c : config).

(** An option that is the same for all points. *)
Definition plain (v : jsval) : Prop := typeof v <> "object" /\ typeof v <> "function".

Definition styled (own : jsval) (k : string) : jsval := if is_undefined own then c.[k] else own.

Lemma option_plain (reference : string) (own : jsval) (k : string) (i : nat) (j : Z) (v : jsval) (t : tracing) :
  plain own -> plain c.[k] -> point_option callback c (of_Z 1) reference own k i j v t = (t, Ok (styled own k)).
Proof.
  intros Hown Hk. unfold point_option, eff_lift, setOptionValue, styled. f_equal.
  change (rescaled (of_Z 1)) with (fun rv : jsval => rv).
  destruct own; cbn [is_undefined]; try done.
  - by destruct c.[k] as [| | | | | | |f], Hk.
  - by destruct Hown.
  - by destruct Hown.
  - by destruct Hown.
  - by destruct Hown.
Qed.

Lemma plain_undef : plain VUndef.
Proof. done. Qed.

(** Points without texts, and with the same annotations. *)
Record plain_texts : Prop := {
  no_texts : plain c.["inGraphDataShow"] /\ truthy c.["inGraphDataShow"] = false;
  plain_annotate : plain c.["annotateDisplay"]
}.

Definition shown_points (d : dataset) (l : list nat) : list nat := List.filter (has_value d) l.

Context (Hc : plain_texts).

Lemma label_with_note (draw : tracer unit) (i : nat) (d : dataset) (j : nat) (t : tracing) :
  exists t', label_with callback c draw i d j t = (t', Ok tt) /\
    drawn t' = drawn t /\
    annotated t' = annotated t ++ (if truthy c.["annotateDisplay"] then map (pair i) (shown_points d [j]) else []).
Proof.
  unfold label_with, shown_points. cbn [List.filter]. fold (has_value d j).
  destruct (has_value d j); cbn [eff_when]; [|exists t; destruct (truthy _); by rewrite app_nil_r].
  unfold text_option. erewrite eff_bind_ok by (apply option_plain; [done|apply (plain_annotate Hc)]).
  unfold styled at 1. cbn [is_undefined].
  destruct (no_texts Hc) as [Hpl Hoff].
  destruct (truthy c.["annotateDisplay"]); cbn [eff_when]; (erewrite eff_bind_ok by reflexivity);
    (erewrite eff_bind_ok by (apply option_plain; done)); unfold styled; cbn [is_undefined];
    rewrite Hoff; cbn [eff_when]; (eexists; split; [reflexivity|]); cbn [map]; rewrite ?app_nil_r; done.
Qed.

Lemma labels_note (draw : nat -> tracer unit) (i : nat) (d : dataset) (js : list nat) (t : tracing) :
  exists t', eff_iter (fun j => label_with callback c (draw j) i d j) js t = (t', Ok tt) /\
    drawn t' = drawn t /\
    annotated t' = annotated t ++ (if truthy c.["annotateDisplay"] then map (pair i) (shown_points d js) else []).
Proof.
  revert t. induction js as [|j js IH]; intros t.
  - exists t. destruct (truthy _); by rewrite app_nil_r.
  - destruct (label_with_note (draw j) i d j t) as (t1 & H1 & Hd1 & Ha1). destruct (IH t1) as (t2 & H2 & Hd2 & Ha2).
    exists t2. rewrite (eff_iter_cons (fun j => label_with callback c (draw j) i d j) _ _ _ _ H1). split; [done|]. split; [by rewrite Hd2|].
    rewrite Ha2, Ha1, <- app_assoc. f_equal. destruct (truthy _); [|done].
    rewrite <- map_app. unfold shown_points. by rewrite <- List.filter_app.
Qed.

End Plain.

(** ** A chart at the end of its animation *)

Section Complete.

Context `{MathLib}.
Context (callback : positive -> string -> Z -> Z -> jsval -> res jsval).
Context (eval_template : string -> list (string * jsval) -> res string).
Context (measureText : string -> string -> num).
Context (s : ctx_scales) (align0 baseline0 : string).
Context (c : config) (data : chart_data) (statData : gmap (nat * nat) config).

(** Straight lines, without markers and texts; missing points are bridged. *)
Record plain_lines : Prop := {
  straight : c.["bezierCurve"] = VBool false;
  no_dots : truthy c.["pointDot"] = false;
  bare : plain_texts c;
  plain_dash : plain c.["datasetStrokeStyle"];
  plain_stroke : plain c.["defaultStrokeColor"];
  plain_fill : plain c.["defaultFillColor"]
}.

(** Dataset [i] is a line from point [first] to point [last]. *)
Record line_ready (i : nat) (d : dataset) (first last : nat) : Prop := {
  own_styles : plain (ds_props d).["datasetStrokeStyle"] /\ plain (ds_props d).["strokeColor"] /\
               plain (ds_props d).["fillColor"];
  few_points : Z.of_nat (length (ds_data d)) < 2 ^ 53;
  all_points : forall j, (j < length (ds_data d))%nat -> is_Some (statData !! (i, j));
  is_a_line : exists o, statData !! (i, 0%nat) = Some o /\ o.["tpchart"] = VStr "Line" /\
              o.["firstNotMissing"] = VInt (Z.of_nat first) /\ o.["lastNotMissing"] = VInt (Z.of_nat last);
  in_order : (first <= last < length (ds_data d))%nat;
  starts_present : is_undefined (default VUndef (ds_data d !! first)) = false;
  bridged : truthy c.["extrapolateMissingData"] = true \/
            forall j, (first <= j <= last)%nat -> is_undefined (default VUndef (ds_data d !! j)) = false
}.

(** Statistics of a point that is known to exist. *)
Definition point_stat (i j : nat) : config := default ∅ (statData !! (i, j)).

(** The line through the points, and the area between it and the axis. *)
Definition point_xy (i j : nat) : num * num :=
  (fnum (point_stat i j) "xPos", y_at (point_stat i j) (of_Z 1)).

Definition line_path (i : nat) (l : list nat) : list canvas_op :=
  match l with
  | [] => []
  | j :: l => MoveTo (point_xy i j).1 (point_xy i j).2 :: map (fun j => LineTo (point_xy i j).1 (point_xy i j).2) l
  end.

Definition area_path (i : nat) (l : list nat) : list canvas_op :=
  match l with
  | [] => []
  | j :: _ =>
      let zero o := (fnum o "xAxisPosY" - fnum (point_stat i 0) "zeroY")%num in
      line_path i l ++ [LineTo (fnum (point_stat i (List.last l j)) "xPos") (zero (point_stat i 0));
                        LineTo (fnum (point_stat i j) "xPos") (zero (point_stat i j)); ClosePath]
  end.

Lemma line_path_snoc (i : nat) (l : list nat) (j : nat) : l <> [] ->
  line_path i (l ++ [j]) = line_path i l ++ [LineTo (point_xy i j).1 (point_xy i j).2].
Proof. destruct l as [|k l]; [done|]. intros _. cbn [line_path app]. by rewrite map_app. Qed.

Lemma line_path_prefix (i : nat) (l l' : list nat) : line_path i l `prefix_of` line_path i (l ++ l').
Proof.
  destruct l as [|k l]; [apply prefix_nil|]. cbn [line_path app]. rewrite map_app.
  apply prefix_cons. by exists (map (fun j => LineTo (point_xy i j).1 (point_xy i j).2) l').
Qed.

(** *** Options *)

Context (Hc : plain_lines).

Lemma bezier_off (i : nat) (t : tracing) : bezier callback c i t = (t, Ok false).
Proof.
  unfold bezier. erewrite eff_bind_ok; [|apply option_plain; [done|]].
  - unfold styled. cbn [is_undefined]. by rewrite (straight Hc).
  - by rewrite (straight Hc).
Qed.

Lemma traceLine_straight (i : nat) (x y : num) (t : tracing) :
  traceLine callback c i x y t = emit [LineTo x y] t.
Proof. unfold traceLine. by rewrite (eff_bind_ok _ _ _ _ _ (bezier_off i t)). Qed.

Lemma initbz_straight (i : nat) (x y : num) (t : tracing) : initbz callback c i x y t = (t, Ok tt).
Proof. unfold initbz. by rewrite (eff_bind_ok _ _ _ _ _ (bezier_off i t)). Qed.

Lemma closebz_straight (i : nat) (j : Z) (d : dataset) (t : tracing) :
  closebz callback s c statData i j d t = (t, Ok tt).
Proof. unfold closebz. by rewrite (eff_bind_ok _ _ _ _ _ (bezier_off i t)). Qed.

(** *** One point after the other *)

Abbreviation stroke_line' := (stroke_line callback c).
Abbreviation draw_point' := (draw_point callback s c data statData (of_Z 1)).

Definition pen_of (t : tracing) : pen := pen_after no_pen (drawn t).

Lemma pen_emit (l : list canvas_op) (t : tracing) : pen_of (set_drawn (drawn t ++ l) t) = pen_after (pen_of t) l.
Proof. unfold pen_of. cbn [drawn set_drawn]. apply pen_after_app. Qed.

Definition full : progress := progress_of (of_Z 1) n0.

Lemma stroke_line_plain (i : nat) (j : Z) (d : dataset) (t : tracing) : plain (ds_props d).["datasetStrokeStyle"] ->
  exists dash, stroke_line' i j d t =
    (set_drawn (drawn t ++ [SetLineDash dash; Stroke; SetLineDash []]) t, Ok tt).
Proof.
  intros Hd. eexists. unfold stroke_line.
  by erewrite eff_bind_ok; [|apply option_plain; [done|apply (plain_dash Hc)]].
Qed.

Section Dataset.

Context (i : nat) (d : dataset) (first last : nat) (Hd : line_ready i d first last).

Lemma stat_at_point (j : nat) : (j < length (ds_data d))%nat ->
  stat_at statData i (VInt (Z.of_nat j)) = Ok (point_stat i j).
Proof.
  intros Hj. unfold stat_at, point_stat. change (to_num (VInt (Z.of_nat j))) with (of_Z (Z.of_nat j)).
  pose proof (few_points _ _ _ _ Hd). rewrite index_of_num_of_Z by (unfold safe; lia).
  rewrite Nat2Z.id. by destruct (all_points _ _ _ _ Hd j Hj) as [o ->].
Qed.

Lemma stat_point (j : nat) (t : tracing) : (j < length (ds_data d))%nat ->
  stat_Z statData i (Z.of_nat j) t = (t, Ok (point_stat i j)).
Proof. intros Hj. unfold stat_Z, stat, eff_lift. by rewrite stat_at_point. Qed.

(** The state when the points [l] of the line have been drawn; [stroked0] and
    [filled0] were drawn before the line. *)
Record line_inv (stroked0 filled0 : list (list canvas_op)) (notes : list (nat * nat)) (l : list nat) (t : tracing)
    : Prop := {
  inv_path : path (pen_of t) = line_path i l;
  inv_strokes : exists ss, stroked (pen_of t) = stroked0 ++ ss /\ Forall (fun q => q `prefix_of` line_path i l) ss;
  inv_fills : filled (pen_of t) = filled0;
  inv_first : firstpt t = head l;
  inv_last : forall k, l <> [] -> lastxPos t = fnum (point_stat i (List.last l k)) "xPos";
  inv_notes : annotated t = notes
}.

Lemma stroke_inv stroked0 filled0 notes (l : list nat) (j : Z) (t : tracing) :
  line_inv stroked0 filled0 notes l t ->
  exists t', stroke_line' i j d t = (t', Ok tt) /\ line_inv stroked0 filled0 notes l t' /\
    prevAnimPc t' = prevAnimPc t /\ currentAnimPc t' = currentAnimPc t /\
    exists ss, stroked (pen_of t') = stroked0 ++ ss ++ [line_path i l] /\
    Forall (fun q => q `prefix_of` line_path i l) ss.
Proof.
  intros [Hp (ss & Hs & Hpre) Hf H1 H2 H3].
  destruct (stroke_line_plain i j d t) as [dash ->]; [apply (own_styles _ _ _ _ Hd)|].
  eexists. split; [reflexivity|].
  assert (Hpen : pen_of (set_drawn (drawn t ++ [SetLineDash dash; Stroke; SetLineDash []]) t)
                 = {| path := line_path i l; stroked := stroked0 ++ ss ++ [line_path i l]; filled := filled0 |}).
  { rewrite pen_emit. cbn [pen_after fold_left pen_op]. by rewrite Hp, Hs, Hf, <- app_assoc. }
  split; [|split; [done|split; [done|]]].
  - split; rewrite ?Hpen; cbn [path stroked filled]; auto. exists (ss ++ [line_path i l]). split; [done|].
    apply Forall_app; auto.
  - exists ss. by rewrite Hpen.
Qed.

Lemma default_value (j : nat) : has_value d j = negb (is_undefined (default VUndef (ds_data d !! j))).
Proof. done. Qed.

(** A point with a value goes on with the line. *)
Lemma present_inv stroked0 filled0 notes (l : list nat) (j : nat) (t : tracing) :
  (j < length (ds_data d))%nat -> line_inv stroked0 filled0 notes l t ->
  exists t', present_at callback s c statData i j full t = (t', Ok tt) /\
    line_inv stroked0 filled0 notes (l ++ [j]) t' /\
    prevAnimPc t' = prevAnimPc t /\ currentAnimPc t' = currentAnimPc t.
Proof.
  intros Hj [Hp (ss & Hs & Hpre) Hf H1 H2 H3]. unfold present_at, emit.
  erewrite eff_bind_ok by reflexivity. erewrite eff_bind_ok by reflexivity.
  erewrite eff_bind_ok by (by apply stat_point).
  change (subVal full > n0)%num with false. cbn [andb eff_when firstpt set_drawn]. rewrite H1.
  assert (Hgrow : Forall (fun q => q `prefix_of` line_path i (l ++ [j])) ss).
  { eapply Forall_impl; [exact Hpre|]. intros q Hq. etransitivity; [exact Hq|apply line_path_prefix]. }
  destruct l as [|k l]; cbn [head].
  - unfold eff_modify. erewrite eff_bind_ok; [|erewrite eff_bind_ok by reflexivity;
      erewrite eff_bind_ok by reflexivity; erewrite eff_bind_ok by (apply initbz_straight); reflexivity].
    eexists. split; [reflexivity|]. split; [|done].
    assert (Hst : stroked (pen_of t) = stroked0 ++ ss) by done.
    split; cbn [firstpt lastxPos annotated set_lastxPos set_drawn set_firstpt app head]; try done.
    + unfold pen_of. cbn [drawn set_lastxPos set_drawn set_firstpt]. rewrite !pen_after_app. done.
    + exists ss. split; [|done]. unfold pen_of. cbn [drawn set_lastxPos set_drawn set_firstpt].
      rewrite !pen_after_app. done.
    + unfold pen_of. cbn [drawn set_lastxPos set_drawn set_firstpt]. rewrite !pen_after_app. done.
  - erewrite eff_bind_ok; [|erewrite eff_bind_ok by reflexivity; rewrite traceLine_straight; reflexivity].
    eexists. split; [reflexivity|]. split; [|done].
    split; cbn [firstpt lastxPos annotated set_lastxPos set_drawn set_firstpt]; try done.
    + unfold pen_of. cbn [drawn set_lastxPos set_drawn]. rewrite !pen_after_app, line_path_snoc by done.
      rewrite <- Hp. done.
    + exists ss. split; [|done]. unfold pen_of. cbn [drawn set_lastxPos set_drawn]. by rewrite !pen_after_app.
    + unfold pen_of. cbn [drawn set_lastxPos set_drawn]. by rewrite !pen_after_app.
    + intros k' _. by rewrite last_last.
Qed.

Lemma line_inv_frame stroked0 filled0 notes (l : list nat) (t t' : tracing) :
  pen_of t' = pen_of t -> firstpt t' = firstpt t -> lastxPos t' = lastxPos t -> annotated t' = annotated t ->
  line_inv stroked0 filled0 notes l t -> line_inv stroked0 filled0 notes l t'.
Proof. intros Hp Hf Hl Ha [H1 H2 H3 H4 H5 H6]. split; by rewrite ?Hp, ?Hf, ?Hl, ?Ha. Qed.

Lemma missing_bridged (j : nat) (t : tracing) : (first <= j <= last)%nat -> has_value d j = false ->
  missing_at callback s c statData i j d full t = (t, Ok tt).
Proof.
  intros Hj Hv%negb_false_iff. unfold missing_at. change (subVal full > n0)%num with false.
  destruct (bridged _ _ _ _ Hd) as [->|Hall]; [done|]. by rewrite Hall in Hv.
Qed.

Lemma point_inv stroked0 filled0 notes (l : list nat) (j : nat) (t : tracing) :
  (first <= j <= last)%nat -> line_inv stroked0 filled0 notes l t -> prevAnimPc t = full \/ j = first ->
  exists t', draw_point' i d first j t = (t', Ok tt) /\
    line_inv stroked0 filled0 notes (l ++ shown_points d [j]) t' /\
    prevAnimPc t' = full /\ currentAnimPc t' = Some full.
Proof.
  intros Hj Hinv Hprev. unfold draw_point. erewrite eff_bind_ok by reflexivity.
  replace (_ && (first <? j)%nat) with false.
  2:{ destruct Hprev as [-> | ->]; [done|]. by rewrite Nat.ltb_irrefl, andb_false_r. }
  unfold eff_lift at 1. rewrite correction_at_end. erewrite eff_bind_ok by reflexivity.
  erewrite eff_bind_ok by reflexivity. erewrite eff_bind_ok by reflexivity.
  change (mainVal (progress_of (of_Z 1) n0) == n0)%num with false. cbn [andb]. fold full.
  set (t1 := set_currentAnimPc full t).
  destruct (stroke_inv stroked0 filled0 notes l (Z.of_nat j) t1) as (t2 & Hs & Hinv2 & Hp2 & Hc2 & _);
    [by apply (line_inv_frame _ _ _ l t)|].
  rewrite (eff_bind_ok _ _ _ _ _ Hs).
  erewrite eff_bind_ok by (apply option_plain; [apply (own_styles _ _ _ _ Hd)|apply (plain_stroke Hc)]).
  unfold emit at 1. do 2 erewrite eff_bind_ok by reflexivity.
  match goal with |- context [(if _ then _ else _) ?x] => set (t3 := x) end.
  assert (Hinv3 : line_inv stroked0 filled0 notes l t3).
  { apply (line_inv_frame _ _ _ l t2); [|done..|done]. unfold t3, pen_of. cbn [drawn set_prevAnimPc set_drawn].
    by rewrite pen_after_app. }
  unfold shown_points. cbn [List.filter]. unfold has_value at 1.
  destruct (is_undefined (default VUndef (ds_data d !! j))) eqn:Hv; cbn [negb].
  - rewrite app_nil_r. exists t3. split; [|done]. apply missing_bridged; [done|]. unfold has_value. by rewrite Hv.
  - destruct (present_inv stroked0 filled0 notes l j t3) as (t4 & Ht & Hinv4 & Hp4 & Hc4);
      [pose proof (in_order _ _ _ _ Hd); lia|done|].
    exists t4. rewrite Hp4, Hc4. split; [done|]. split; [done|]. split; [done|exact Hc2].
Qed.

Lemma points_inv stroked0 filled0 notes (js l : list nat) (t : tracing) :
  (forall j, j ∈ js -> (first <= j <= last)%nat) -> line_inv stroked0 filled0 notes l t ->
  prevAnimPc t = full /\ currentAnimPc t = Some full \/ head js = Some first ->
  exists t', eff_iter (draw_point' i d first) js t = (t', Ok tt) /\
    line_inv stroked0 filled0 notes (l ++ shown_points d js) t' /\ currentAnimPc t' = Some full.
Proof.
  revert l t. induction js as [|j js IH]; intros l t Hjs Hinv Hprev.
  - exists t. unfold shown_points. cbn [List.filter]. rewrite app_nil_r. split; [done|]. split; [done|].
    by destruct Hprev as [[_ ->]|].
  - destruct (point_inv stroked0 filled0 notes l j t) as (t1 & H1 & Hinv1 & Hp1 & Hc1);
      [apply Hjs; by left|done|destruct Hprev as [[Hp _]|Hh]; [by left|right; by injection Hh]|].
    rewrite (eff_iter_cons _ _ _ _ _ H1).
    destruct (IH _ t1 (fun k Hk => Hjs k ltac:(by right)) Hinv1) as (t' & Ht & Hinv' & Hc'); [by left|].
    exists t'. split; [done|]. split; [|done].
    replace (l ++ shown_points d (j :: js)) with ((l ++ shown_points d [j]) ++ shown_points d js); [done|].
    rewrite <- app_assoc. unfold shown_points. by rewrite <- List.filter_app.
Qed.

(** *** A whole line *)

Definition line_points : list nat := shown_points d (positions first last).

Lemma positions_range (j : nat) : j ∈ positions first last -> (first <= j <= last)%nat.
Proof. unfold positions. rewrite elem_of_seq. pose proof (in_order _ _ _ _ Hd). lia. Qed.

Lemma positions_cons : exists js, positions first last = first :: js.
Proof.
  unfold positions. pose proof (in_order _ _ _ _ Hd). replace (S last - first)%nat with (S (last - first)) by lia.
  cbn [seq]. by eexists.
Qed.

Lemma line_points_cons : exists l, line_points = first :: l.
Proof.
  unfold line_points, shown_points. destruct positions_cons as [js ->]. cbn [List.filter].
  unfold has_value at 1. rewrite (starts_present _ _ _ _ Hd). cbn [negb]. by eexists.
Qed.

(** The area is filled below the line that was drawn. *)
Lemma area_inv stroked0 filled0 notes (t : tracing) :
  line_inv stroked0 filled0 notes line_points t -> currentAnimPc t = Some full ->
  exists t', (do! emit [transparent] in
              let! o := stat_Z statData i 0 in
              let! x := eff_gets lastxPos in
              do! close_area statData i x (fnum o "xAxisPosY" - fnum o "zeroY")%num (zero_line statData i) in
              fill_area callback c statData i (-1) d) t = (t', Ok tt) /\
    stroked (pen_of t') = stroked (pen_of t) /\
    filled (pen_of t') = filled0 ++ [area_path i line_points] /\
    annotated t' = notes /\ currentAnimPc t' = Some full.
Proof.
  intros Hinv Hcur. pose proof (in_order _ _ _ _ Hd) as Hord.
  destruct line_points_cons as [l Hl]. pose proof (inv_last _ _ _ _ _ Hinv first ltac:(by rewrite Hl)) as Hlast.
  pose proof (inv_path _ _ _ _ _ Hinv) as Hpath. pose proof (inv_fills _ _ _ _ _ Hinv) as Hfills.
  pose proof (inv_first _ _ _ _ _ Hinv) as Hfirst. pose proof (inv_notes _ _ _ _ _ Hinv) as Hnotes.
  unfold emit at 1. erewrite eff_bind_ok by reflexivity.
  rewrite (eff_bind_ok _ _ _ _ _ (stat_point 0 _ ltac:(lia))). erewrite eff_bind_ok by reflexivity.
  assert (Hzero : forall f, zero_line statData i f = Ok (fnum f "xAxisPosY" - fnum (point_stat i 0) "zeroY")%num).
  { intros f. unfold zero_line. change (VInt 0) with (VInt (Z.of_nat 0)). by rewrite (stat_at_point 0) by lia. }
  unfold close_area, emit. erewrite eff_bind_ok; [|erewrite eff_bind_ok by reflexivity; erewrite eff_bind_ok;
    [|unfold stat_first; erewrite eff_bind_ok by reflexivity; cbn [firstpt set_drawn]; rewrite Hfirst, Hl;
      cbn [head]; apply stat_point; lia];
    rewrite Hzero; erewrite eff_bind_ok by reflexivity; reflexivity].
  unfold fill_area, current_main, area_vars. erewrite eff_bind_ok; [|cbn [currentAnimPc set_drawn]; by rewrite Hcur].
  replace (VInt (Z.of_nat (length (ds_data d)) - 1)) with (VInt (Z.of_nat (length (ds_data d) - 1))) by (f_equal; lia).
  change (VInt 0) with (VInt (Z.of_nat 0)). rewrite !stat_at_point by lia. cbn [res_bind].
  erewrite eff_bind_ok by reflexivity.
  erewrite eff_bind_ok by (apply option_plain; [apply (own_styles _ _ _ _ Hd)|apply (plain_fill Hc)]).
  unfold emit, eff_modify. eexists. split; [reflexivity|].
  assert (Harea : area_path i line_points = line_path i line_points ++
    [LineTo (fnum (point_stat i (List.last line_points first)) "xPos")
            (fnum (point_stat i 0) "xAxisPosY" - fnum (point_stat i 0) "zeroY")%num;
     LineTo (fnum (point_stat i first) "xPos")
            (fnum (point_stat i first) "xAxisPosY" - fnum (point_stat i 0) "zeroY")%num; ClosePath]) by by rewrite Hl.
  unfold pen_of. cbn [drawn set_drawn annotated currentAnimPc lastxPos]. rewrite !pen_after_app.
  fold (pen_of t). cbn [pen_after fold_left pen_op transparent path stroked filled].
  split; [done|]. split; [|done]. by rewrite Hfills, Hpath, Harea, Hlast, <- !app_assoc.
Qed.

Lemma draw_line_inv (t : tracing) :
  exists t', draw_line callback s c data statData (of_Z 1) i d first last t = (t', Ok tt) /\
    (exists ss, stroked (pen_of t') = stroked (pen_of t) ++ ss ++ [line_path i line_points] /\
                Forall (fun q => q `prefix_of` line_path i line_points) ss) /\
    filled (pen_of t') = filled (pen_of t) ++ (if truthy c.["datasetFill"] then [area_path i line_points] else []) /\
    annotated t' = annotated t.
Proof.
  unfold draw_line, emit at 1. erewrite eff_bind_ok by reflexivity. erewrite eff_bind_ok by reflexivity.
  match goal with |- context [eff_bind _ _ ?x = _] => set (t1 := x) end.
  assert (Hpen1 : pen_of t1 = {| path := []; stroked := stroked (pen_of t); filled := filled (pen_of t) |}).
  { unfold t1, pen_of. cbn [drawn set_prevAnimPc set_firstpt set_lastxPos set_drawn]. by rewrite pen_after_app. }
  assert (Hinv1 : line_inv (stroked (pen_of t)) (filled (pen_of t)) (annotated t) [] t1).
  { split; rewrite ?Hpen1; try done. exists []. by rewrite app_nil_r. }
  destruct positions_cons as [js Hjs].
  destruct (points_inv _ _ _ (positions first last) [] t1 positions_range Hinv1) as (t2 & H2 & Hinv2 & Hc2).
  { right. by rewrite Hjs. }
  rewrite (eff_bind_ok _ _ _ _ _ H2). cbn [app] in Hinv2. fold line_points in Hinv2.
  rewrite (eff_bind_ok _ _ _ _ _ (closebz_straight i _ d t2)).
  destruct (stroke_inv _ _ _ line_points (Z.of_nat (Nat.max first (S last))) t2 Hinv2)
    as (t3 & H3 & Hinv3 & _ & Hc3 & ss & Hss & Hpre).
  rewrite (eff_bind_ok _ _ _ _ _ H3). erewrite eff_bind_ok by reflexivity.
  assert (Hsome : is_Some (firstpt t3)).
  { rewrite (inv_first _ _ _ _ _ Hinv3). destruct line_points_cons as [l ->]. by eexists. }
  rewrite bool_decide_eq_true_2 by done. rewrite andb_true_r.
  assert (Hend : forall t', pen_of (set_drawn (drawn t' ++ [Restore]) t') = pen_of t').
  { intros t'. by rewrite pen_emit. }
  destruct (truthy c.["datasetFill"]); cbn [eff_when].
  - rewrite Hc2 in Hc3. destruct (area_inv _ _ _ t3 Hinv3 Hc3) as (t4 & H4 & Hs4 & Hf4 & Hn4 & _).
    rewrite (eff_bind_ok _ _ _ _ _ H4). eexists. split; [reflexivity|]. rewrite Hend.
    split; [|by split]. exists ss. by rewrite Hs4, Hss.
  - erewrite eff_bind_ok by reflexivity. eexists. split; [reflexivity|]. rewrite Hend, app_nil_r.
    split; [by exists ss|]. split; [apply (inv_fills _ _ _ _ _ Hinv3)|apply (inv_notes _ _ _ _ _ Hinv3)].
Qed.

End Dataset.

(** *** Annotations *)

(** Whether the last frame of the animation has come, when annotations are shown. *)
Definition annotates : bool := (of_Z 1 >= fnum c "animationStopValue")%num && truthy c.["annotateDisplay"].

(** *** The whole chart *)

(** The points that the line of dataset [i] goes through. *)
Definition joined (i : nat) (d : dataset) : list nat :=
  match position (point_stat i 0).["firstNotMissing"], position (point_stat i 0).["lastNotMissing"] with
  | Some first, Some last => line_points d first last
  | _, _ => []
  end.

Definition all_notes (id : nat * dataset) : list (nat * nat) :=
  if annotates then map (pair id.1) (shown_points id.2 (seq 0 (length (ds_data id.2)))) else [].

(** What is stroked for a line: parts of it, and at last all of it. *)
Definition strokes_of (id : nat * dataset) (ss : list (list canvas_op)) : Prop :=
  let p := line_path id.1 (joined id.1 id.2) in
  exists parts, ss = parts ++ [p] /\ Forall (fun q => q `prefix_of` p) parts.

Definition area_of (id : nat * dataset) : list (list canvas_op) :=
  if truthy c.["datasetFill"] then [area_path id.1 (joined id.1 id.2)] else [].

Lemma draw_dataset_full (i : nat) (d : dataset) (t : tracing) :
  (exists first last, line_ready i d first last) ->
  exists t', draw_dataset callback eval_template measureText s align0 baseline0 c data statData (of_Z 1) (i, d) t
             = (t', Ok tt) /\
    (exists ss, stroked (pen_of t') = stroked (pen_of t) ++ ss /\ strokes_of (i, d) ss) /\
    filled (pen_of t') = filled (pen_of t) ++ area_of (i, d) /\
    annotated t' = annotated t ++ all_notes (i, d).
Proof.
  intros (first & last & Hr). pose proof (in_order _ _ _ _ Hr) as Hord. pose proof (few_points _ _ _ _ Hr) as Hfew.
  destruct (is_a_line _ _ _ _ Hr) as (o & Ho & Hline & Hfirst & Hlast).
  assert (Hstat : point_stat i 0 = o) by (unfold point_stat; by rewrite Ho).
  assert (Hpos : forall k v, (k <= last)%nat -> v = VInt (Z.of_nat k) -> position v = Some k).
  { intros k v Hk ->. unfold position. change (to_num (VInt (Z.of_nat k))) with (of_Z (Z.of_nat k)).
    rewrite index_of_num_of_Z by (unfold safe; lia). by rewrite Nat2Z.id. }
  assert (Hj : joined i d = line_points d first last).
  { unfold joined. rewrite Hstat. by rewrite (Hpos first), (Hpos last) by (lia || done). }
  unfold draw_dataset. erewrite eff_bind_ok by (apply (stat_point i d first last Hr 0); lia).
  rewrite Hstat, Hline. change (negb (loose_eq (VStr "Line") (VStr "Line"))) with false.
  rewrite (Hpos first), (Hpos last) by (lia || done). cbv beta iota.
  destruct (draw_line_inv i d first last Hr t) as (t1 & H1 & (ss & Hss & Hpre) & Hfill & Hnotes).
  rewrite (eff_bind_ok _ _ _ _ _ H1), (no_dots Hc). cbn [andb eff_when]. erewrite eff_bind_ok by reflexivity.
  assert (Hstrokes : strokes_of (i, d) (ss ++ [line_path i (line_points d first last)])).
  { unfold strokes_of. cbn [fst snd]. rewrite Hj. by exists ss. }
  unfold area_of, all_notes, annotates. cbn [fst snd]. rewrite Hj.
  destruct (of_Z 1 >= fnum c "animationStopValue")%num; cbn [eff_when andb].
  - destruct (labels_note callback c (bare Hc) (draw_text callback eval_template measureText s align0 baseline0 c statData i) i d (seq 0 (length (ds_data d))) t1) as (t2 & H2 & Hd2 & Ha2).
    exists t2. unfold pen_of at 1 3. rewrite Hd2. fold (pen_of t1). rewrite Ha2, Hnotes.
    split; [done|]. split; [eexists; by split|]. done.
  - exists t1. rewrite Hnotes, app_nil_r. split; [done|]. split; [eexists; by split|]. done.
Qed.

Lemma draw_datasets_full (l : list (nat * dataset)) (t : tracing) :
  (forall i d, (i, d) ∈ l -> exists first last, line_ready i d first last) ->
  exists t', eff_iter (draw_dataset callback eval_template measureText s align0 baseline0 c data statData (of_Z 1)) l t
             = (t', Ok tt) /\
    (exists sss, stroked (pen_of t') = stroked (pen_of t) ++ concat sss /\ Forall2 strokes_of l sss) /\
    filled (pen_of t') = filled (pen_of t) ++ concat (map area_of l) /\
    annotated t' = annotated t ++ concat (map all_notes l).
Proof.
  revert t. induction l as [|[i d] l IH]; intros t Hl.
  - exists t. cbn [map concat]. rewrite !app_nil_r. split; [done|]. split; [|done].
    exists []. cbn [concat]. by rewrite app_nil_r.
  - destruct (draw_dataset_full i d t) as (t1 & H1 & (ss & Hs1 & Hss) & Hf1 & Ha1); [apply Hl; by left|].
    destruct (IH t1) as (t2 & H2 & (sss & Hs2 & Hsss) & Hf2 & Ha2); [intros k e Hk; apply Hl; by right|].
    exists t2. rewrite (eff_iter_cons _ _ _ _ _ H1). split; [done|]. cbn [map concat].
    rewrite Hf2, Hf1, Ha2, Ha1, <- !app_assoc. split; [|done].
    exists (ss :: sss). split; [by rewrite Hs2, Hs1, <- app_assoc|by constructor].
Qed.

(** What is drawn at the end of the animation: the lines, through the positions of
    the statistics of their points, their areas, and the points to annotate. *)
Lemma lines_through_points :
  (forall i d, datasets data !! i = Some d -> exists first last, line_ready i d first last) ->
  exists t, drawLinesDataset callback eval_template measureText s align0 baseline0 c data statData (of_Z 1) no_tracing
            = (t, Ok tt) /\
    let p := pen_after no_pen (drawn t) in
    (exists sss, stroked p = concat sss /\ Forall2 strokes_of (imap pair (datasets data)) sss) /\
    filled p = concat (map area_of (imap pair (datasets data))) /\
    annotated t = concat (map all_notes (imap pair (datasets data))).
Proof.
  intros Hall. destruct (draw_datasets_full (imap pair (datasets data)) no_tracing) as (t & Ht & Hs & Hf & Ha).
  { intros i d (k & e & Hk)%elem_of_lookup_imap. apply Hall. by destruct Hk as [[= -> ->] ?]. }
  eexists. unfold drawLinesDataset. rewrite (eff_bind_ok _ _ _ _ _ Ht). split; [reflexivity|].
  cbn zeta. cbn [drawn set_drawn annotated]. rewrite !pen_after_app. done.
Qed.

End Complete.

(** *** A small chart *)

Definition sample_config : config := {["bezierCurve" := VBool false; "datasetFill" := VBool true]}.

Definition sample_point (x y : Z) : config := {[
  "tpchart" := VStr "Line"; "firstNotMissing" := VInt 0; "lastNotMissing" := VInt 1;
  "xPos" := VInt x; "yAxisPos" := VInt 300; "yPosOffset" := VInt y; "xAxisPosY" := VInt 300; "zeroY" := VInt 0]}.

Definition sample_line : dataset := {| ds_data := [VInt 2; VInt 4]; ds_props := ∅ |}.
Definition sample_line_data : chart_data := {| labels := []; datasets := [sample_line] |}.
Definition sample_stats : gmap (nat * nat) config := {[(0%nat, 0%nat) := sample_point 50 20; (0%nat, 1%nat) := sample_point 150 40]}.

Lemma sample_plain_lines : plain_lines sample_config.
Proof. split; try done. Qed.

Lemma sample_line_ready : line_ready sample_config sample_stats 0 sample_line 0 1.
Proof.
  split; try done.
  - intros [|[|j]] Hj; cbn in Hj; [by eexists..|lia].
  - by exists (sample_point 50 20).
  - split; [lia|cbn; lia].
  - right. intros [|[|j]] Hj; [done|done|lia].
Qed.

Definition sample_drawing : tracer unit :=
  drawLinesDataset (H := sample_math) (fun _ _ _ _ _ => Ok VUndef) (fun s _ => Ok s) (fun _ _ => n0)
    unit_scales "start" "alphabetic"
    sample_config sample_line_data sample_stats (of_Z 1).

(** ** The drawing state of the context *)

(** A computation that only draws, and goes from [a] saved states to [b]. *)
Definition moves {A} (a b : nat) (m : tracer A) : Prop :=
  forall t t' x, m t = (t', Ok x) ->
    exists l, drawn t' = drawn t ++ l /\ forall n, save_depth (a + n) l = Some (b + n)%nat.

Lemma moves_bind {A B} (a b e : nat) (m : tracer A) (f : A -> tracer B) :
  moves a b m -> (forall x, moves b e (f x)) -> moves a e (eff_bind m f).
Proof.
  intros Hm Hf t t' y. unfold eff_bind. destruct (m t) as [t1 [x|e1]] eqn:H1; [|done]. intros H2.
  destruct (Hm _ _ _ H1) as (l1 & Hl1 & Hd1). destruct (Hf _ _ _ _ H2) as (l2 & Hl2 & Hd2).
  exists (l1 ++ l2). split; [by rewrite Hl2, Hl1, app_assoc|]. intros n. by rewrite (save_depth_app _ (b + n)).
Qed.

Lemma moves_ret {A} (a : nat) (x : A) : moves a a (eff_ret x).
Proof. intros t t' y [= <- _]. exists []. by rewrite app_nil_r. Qed.

Lemma moves_lift {A} (a : nat) (r : res A) : moves a a (eff_lift r).
Proof. intros t t' y [= <- _]. exists []. by rewrite app_nil_r. Qed.

Lemma moves_gets {A} (a : nat) (f : tracing -> A) : moves a a (eff_gets f).
Proof. intros t t' y [= <- _]. exists []. by rewrite app_nil_r. Qed.

Lemma moves_modify (a : nat) (f : tracing -> tracing) :
  (forall t, drawn (f t) = drawn t) -> moves a a (eff_modify f).
Proof. intros Hf t t' y [= <- _]. exists []. by rewrite app_nil_r, Hf. Qed.

Lemma moves_emit (a b : nat) (l : list canvas_op) :
  (forall n, save_depth (a + n) l = Some (b + n)%nat) -> moves a b (emit l).
Proof. intros Hl t t' y [= <- _]. by exists l. Qed.

Lemma moves_when (a : nat) (b : bool) (m : tracer unit) : moves a a m -> moves a a (eff_when b m).
Proof. intros Hm. destruct b; [done|apply moves_ret]. Qed.

Lemma moves_iter {A} (a : nat) (f : A -> tracer unit) (l : list A) : (forall x, moves a a (f x)) -> moves a a (eff_iter f l).
Proof. intros Hf. induction l as [|x l IH]; cbn [eff_iter]; [apply moves_ret|by eapply moves_bind]. Qed.

Lemma moves_deeper {A} (a b k : nat) (m : tracer A) : moves a b m -> moves (k + a) (k + b) m.
Proof.
  intros Hm t t' x Hx. destruct (Hm _ _ _ Hx) as (l & Hl & Hd). exists l. split; [done|]. intros n.
  replace (k + a + n)%nat with (a + (k + n))%nat by lia. rewrite Hd. f_equal. lia.
Qed.

Create HintDb moves.
#[local] Hint Resolve moves_ret moves_lift moves_gets moves_when moves_iter : moves.

(** The structure of a computation is followed down to its operations. *)
Ltac walk :=
  repeat (cbv zeta; match goal with
    | |- forall _, _ => intros
    | |- moves _ _ (eff_bind _ _) => eapply moves_bind
    | |- moves _ _ (eff_when _ _) => apply moves_when
    | |- moves _ _ (eff_iter _ _) => apply moves_iter
    | |- moves _ _ (eff_ret _) => apply moves_ret
    | |- moves _ _ (eff_lift _) => apply moves_lift
    | |- moves _ _ (eff_gets _) => apply moves_gets
    | |- moves _ _ (eff_modify _) => apply moves_modify; done
    | |- moves ?a _ (emit (Save :: _)) => apply (moves_emit a (S a)); intros; reflexivity
    | |- moves _ _ (emit _) => apply moves_emit; intros; reflexivity
    | |- moves _ _ (match ?x with _ => _ end) => destruct x
    | |- moves _ _ _ => solve [eauto with moves nocore]
    end).

Section Moves.

Context `{MathLib}.
Context (callback : positive -> string -> Z -> Z -> jsval -> res jsval).
Context (eval_template : string -> list (string * jsval) -> res string).
Context (measureText : string -> string -> num).
Context (s : ctx_scales) (align0 baseline0 : string).
Context (c : config) (data : chart_data) (statData : gmap (nat * nat) config).

(** Operations other than saving and restoring. *)
Definition no_saving (o : canvas_op) : Prop := o <> Save /\ o <> Restore.

Lemma no_saving_depth (l : list canvas_op) (n : nat) : Forall no_saving l -> save_depth n l = Some n.
Proof. induction 1 as [|o l [H1 H2] _ IH]; [done|]. by destruct o. Qed.

Lemma option_moves a rescale reference own k i j v : moves a a (point_option callback c rescale reference own k i j v).
Proof. apply moves_lift. Qed.
#[local] Hint Resolve option_moves : moves.

Lemma spline_moves a i j d t lo hi : moves a a (drawSpline callback s c i j d t lo hi).
Proof.
  unfold drawSpline. walk.
  apply moves_emit. intros n. apply no_saving_depth. apply Forall_app. split; [by repeat constructor|].
  apply Forall_app. split; [|by repeat constructor]. unfold spline_curves. apply Forall_forall.
  intros o (k & <- & _)%elem_of_map. by split.
Qed.
#[local] Hint Resolve spline_moves : moves.

Lemma bezier_moves a i : moves a a (bezier callback c i).
Proof. unfold bezier. walk. Qed.
#[local] Hint Resolve bezier_moves : moves.

Lemma traceLine_moves a i x y : moves a a (traceLine callback c i x y).
Proof. unfold traceLine. walk. Qed.
Lemma closebz_moves a i j d : moves a a (closebz callback s c statData i j d).
Proof. unfold closebz. walk. Qed.
Lemma stroke_line_moves a i j d : moves a a (stroke_line callback c i j d).
Proof. unfold stroke_line. walk. Qed.
Lemma current_main_moves a : moves a a current_main.
Proof. intros t t' x. unfold current_main. destruct (currentAnimPc t); [|done]. intros [= <- _]. exists []. by rewrite app_nil_r. Qed.
#[local] Hint Resolve traceLine_moves closebz_moves stroke_line_moves current_main_moves : moves.

Lemma stat_moves a i v : moves a a (stat statData i v).
Proof. apply moves_lift. Qed.
Lemma stat_Z_moves a i j : moves a a (stat_Z statData i j).
Proof. apply moves_lift. Qed.
Lemma stat_first_moves a i : moves a a (stat_first statData i).
Proof. unfold stat_first. walk. Qed.
#[local] Hint Resolve stat_moves stat_Z_moves stat_first_moves : moves.

Lemma close_area_moves a i x y f : moves a a (close_area statData i x y f).
Proof. unfold close_area. walk. Qed.
Lemma fill_area_moves a i j d : moves a a (fill_area callback c statData i j d).
Proof. unfold fill_area. walk. Qed.
#[local] Hint Resolve close_area_moves fill_area_moves : moves.

Lemma end_of_line_moves a i j d prev x y : moves a a (end_of_line callback s c statData i j d prev x y).
Proof. unfold end_of_line. walk. Qed.
#[local] Hint Resolve end_of_line_moves : moves.
Lemma leave_line_moves a i j d prev : moves a a (leave_line callback s c statData i j d prev).
Proof. unfold leave_line. walk. Qed.
Lemma missing_at_moves a i j d cur : moves a a (missing_at callback s c statData i j d cur).
Proof. unfold missing_at. walk. Qed.
Lemma initbz_moves a i x y : moves a a (initbz callback c i x y).
Proof. unfold initbz. walk. Qed.
#[local] Hint Resolve leave_line_moves missing_at_moves initbz_moves : moves.
Lemma present_at_moves a i j cur : moves a a (present_at callback s c statData i j cur).
Proof. unfold present_at. walk. Qed.
#[local] Hint Resolve present_at_moves : moves.

Lemma draw_point_moves a animPc i d first j : moves a a (draw_point callback s c data statData animPc i d first j).
Proof. unfold draw_point. walk. Qed.
#[local] Hint Resolve draw_point_moves : moves.

Lemma draw_line_moves a animPc i d first last : moves a a (draw_line callback s c data statData animPc i d first last).
Proof. unfold draw_line. walk. Qed.

Lemma draw_dot_moves a animPc i d j : moves a a (draw_dot callback s c data statData animPc i d j).
Proof. unfold draw_dot. walk. apply moves_emit. intros. apply balanced_marker. Qed.

Lemma text_option_moves a r ref k i j : moves a a (text_option callback c r ref k i j).
Proof. apply moves_lift. Qed.
#[local] Hint Resolve text_option_moves draw_dot_moves : moves.

Lemma text_font_moves a i j : moves a a (text_font callback s c i j).
Proof. unfold text_font. walk. Qed.
Lemma boxed_text_moves a i j font align baseline txt :
  moves a a (boxed_text callback measureText s c i j font align baseline txt).
Proof.
  unfold boxed_text. walk; apply moves_emit; intros; [apply balanced_box|apply balanced_texts].
Qed.
#[local] Hint Resolve text_font_moves boxed_text_moves : moves.

Lemma data_text_style_moves a i j : moves a a (data_text_style callback s align0 baseline0 c i j).
Proof. unfold data_text_style. walk. Qed.
Lemma text_string_moves a i j o : moves a a (text_string callback eval_template c i j o).
Proof. unfold text_string. walk. Qed.
Lemma turn_text_moves a i j : moves a a (turn_text callback c i j).
Proof. unfold turn_text. walk. Qed.
#[local] Hint Resolve data_text_style_moves text_string_moves turn_text_moves : moves.

Lemma draw_text_moves a i j : moves a a (draw_text callback eval_template measureText s align0 baseline0 c statData i j).
Proof. unfold draw_text. walk. Qed.
#[local] Hint Resolve draw_text_moves draw_line_moves : moves.

Lemma label_with_moves a draw i d j : moves a a draw -> moves a a (label_with callback c draw i d j).
Proof. intros Hd. unfold label_with. walk. Qed.
Lemma label_point_moves a i d j :
  moves a a (label_point callback eval_template measureText s align0 baseline0 c statData i d j).
Proof. apply label_with_moves. walk. Qed.
#[local] Hint Resolve label_point_moves : moves.

Lemma draw_dataset_moves a animPc id :
  moves a a (draw_dataset callback eval_template measureText s align0 baseline0 c data statData animPc id).
Proof. unfold draw_dataset. destruct id. walk. Qed.
#[local] Hint Resolve draw_dataset_moves : moves.

Lemma drawLinesDataset_moves a animPc :
  moves a a (drawLinesDataset callback eval_template measureText s align0 baseline0 c data statData animPc).
Proof. unfold drawLinesDataset. walk. Qed.

(** Whatever the data, the options and the stage of the animation, a drawing
    of the lines that comes to its end has restored every drawing state it saved
    (with clipping, colours and transformations), and leaves solid lines. *)
Theorem lines_restore_state (animPc : num) (t : tracing) :
  drawLinesDataset callback eval_template measureText s align0 baseline0 c data statData animPc no_tracing
    = (t, Ok tt) ->
  (forall depth, save_depth depth (drawn t) = Some depth) /\ forall dash, last_dash dash (drawn t) = [].
Proof.
  intros Ht. destruct (drawLinesDataset_moves 0 animPc no_tracing t tt Ht) as (l & Hl & Hd).
  rewrite Hl. split; [exact Hd|]. revert Ht. unfold drawLinesDataset, eff_bind, emit, eff_modify.
  destruct (eff_iter _ _ _) as [t1 [[]|e]]; [|done]. cbv beta iota. intros [= <-]. cbn [drawn set_drawn] in Hl. cbn [drawn no_tracing] in *.
  rewrite <- Hl. intros dash. by rewrite last_dash_app.
Qed.

End Moves.

#[export] Hint Resolve moves_ret moves_lift moves_gets moves_when moves_iter option_moves stat_moves stat_Z_moves
  text_option_moves data_text_style_moves text_string_moves turn_text_moves boxed_text_moves : moves.

Lemma sample_lines_listed (i : nat) (d : dataset) :
  (i, d) ∈ imap pair (datasets sample_line_data) -> exists first last, line_ready sample_config sample_stats i d first last.
Proof.
  intros (k & e & [= -> ->] & Hk)%elem_of_lookup_imap. destruct k as [|k]; [|done]. injection Hk as <-.
  exists 0%nat, 1%nat. exact sample_line_ready.
Qed.

Lemma sample_drawing_done : exists t, sample_drawing no_tracing = (t, Ok tt).
Proof.
  destruct (draw_datasets_full (H := sample_math) (fun _ _ _ _ _ => Ok VUndef) (fun s _ => Ok s) (fun _ _ => n0)
    unit_scales "start" "alphabetic"
    sample_config sample_line_data sample_stats sample_plain_lines (imap pair (datasets sample_line_data)) no_tracing
    sample_lines_listed) as (t & Ht & _).
  eexists. unfold sample_drawing, drawLinesDataset. by rewrite (eff_bind_ok _ _ _ _ _ Ht).
Qed.

Lemma lines_restore_state_witness :
  exists t, sample_drawing no_tracing = (t, Ok tt) /\ save_depth 0 (drawn t) = Some 0%nat.
Proof.
  destruct sample_drawing_done as [t Ht]. exists t. split; [exact Ht|].
  exact (proj1 (lines_restore_state (H := sample_math) _ _ _ _ _ _ _ _ _ _ t Ht) 0%nat).
Defined.
