(* ===== verification/Filling.v ===== *)
(** * Filling (ChartNew.js)

    What drawing code fills: the paths it gives the context before [fill]. *)

From stdpp Require Import base list strings gmap.
From Stdlib Require Import ZArith Lia SpecFloat.
From S2P Require Import Prelude Num Value Options OptionValue Canvas Lines.

Open Scope string_scope.
Open Scope list_scope.
Open Scope Z_scope.

(** ** Paths that are filled *)

Definition path_op (o : canvas_op) : bool :=
  match o with
  | MoveTo _ _ | LineTo _ _ | QuadraticCurveTo _ _ _ _ | BezierCurveTo _ _ _ _ _ _ | Arc _ _ _ _ _ _
  | RectPath _ _ _ _ | ClosePath => true
  | _ => false
  end.

Lemma pen_path (p : pen) (l : list canvas_op) : forallb path_op l = true ->
  pen_after p l = {| path := path p ++ l; stroked := stroked p; filled := filled p |}.
Proof.
  revert p. induction l as [|o l IH]; intros p Hl; [by destruct p; rewrite app_nil_r|].
  cbn [forallb] in Hl. apply andb_true_iff in Hl as [Ho Hl]. change (pen_after p (o :: l)) with (pen_after (pen_op p o) l).
  rewrite (IH _ Hl). destruct o; try discriminate; cbn [pen_op path stroked filled]; by rewrite <- app_assoc.
Qed.

(** A computation that comes to its end, fills the paths [l] and annotates nothing. *)
Definition fills (m : tracer unit) (l : list (list canvas_op)) : Prop :=
  forall t, exists t', m t = (t', Ok tt) /\ filled (pen_of t') = filled (pen_of t) ++ l /\ annotated t' = annotated t.

Lemma fills_nothing : fills (eff_ret tt) [].
Proof. intros t. exists t. by rewrite app_nil_r. Qed.

Lemma fills_bind (m1 : tracer unit) (m2 : unit -> tracer unit) l1 l2 :
  fills m1 l1 -> fills (m2 tt) l2 -> fills (eff_bind m1 m2) (l1 ++ l2).
Proof.
  intros H1 H2 t. destruct (H1 t) as (t1 & E1 & F1 & A1). destruct (H2 t1) as (t2 & E2 & F2 & A2).
  exists t2. rewrite (eff_bind_ok _ _ _ _ _ E1), F2, F1, A2, A1, app_assoc. done.
Qed.

(** A value that is read without changing the state. *)
Lemma fills_read {A} (m : tracer A) (x : A) (f : A -> tracer unit) l :
  (forall t, m t = (t, Ok x)) -> fills (f x) l -> fills (eff_bind m f) l.
Proof. intros Hm Hf t. rewrite (eff_bind_ok _ _ _ _ _ (Hm t)). apply Hf. Qed.

(** Operations that change the style only. *)
Lemma fills_style (l : list canvas_op) : (forall p, pen_after p l = p) -> fills (emit l) [].
Proof. intros Hl t. eexists. split; [reflexivity|]. rewrite pen_emit, Hl, app_nil_r. done. Qed.

Lemma fills_iter {A} (f : A -> tracer unit) (shapes : A -> list (list canvas_op)) (l : list A) :
  (forall x, x ∈ l -> fills (f x) (shapes x)) -> fills (eff_iter f l) (concat (map shapes l)).
Proof.
  induction l as [|x l IH]; intros Hl; [apply fills_nothing|]. cbn [eff_iter map concat].
  apply fills_bind; [apply Hl; by left|]. apply IH. intros y Hy. apply Hl. by right.
Qed.
