(* ===== verification/Axes.v ===== *)
(** * The axes of charts (ChartNew.js)

    The chart types with axes have a function [drawLabels] each; the functions differ
    in where the label of a point is.  The bars also share how they draw their scale. *)

From stdpp Require Import base list strings gmap.
From Stdlib Require Import ZArith Lia SpecFloat.
From S2P Require Import Prelude Num Binary64 Value Options OptionValue Format Scale Stats Canvas Legend Layout.

Open Scope string_scope.
Open Scope list_scope.
Open Scope Z_scope.

(** ** The area of the chart *)

(** The area between the axes, and where its labels and what is cleared for a new
    frame are. *)
Record area : Type := {
  a_scaleHop : num;
  a_scaleHop2 : num;
  a_valueHop : num;
  a_yAxisPosX : num;
  a_xAxisPosY : num;
  a_width : num;
  a_height : num;
  a_xLabelPos : num;
  clrx : num;
  clry : num;
  clrwidth : num;
  clrheight : num
}.

(** The area of a vertical chart whose width is divided into [n] parts. *)
Definition vertical_area `{MathLib} (s : ctx_scales) (c : config) (n : num) (m : measures) (sc sc2 : scale) : area :=
  let ln := line s c in
  let prevHeight := m_availableHeight m in
  let h := (m_availableHeight m - ln "scaleTickSizeBottom" - ln "scaleTickSizeTop")%num in
  let w := (m_availableWidth m - ln "scaleTickSizeLeft" - ln "scaleTickSizeRight")%num in
  let scaleHop := Math_floor (h / steps sc)%num in
  let hop := Math_floor (w / n)%num in
  let hop := if (hop == n0)%num || truthy c.["fullWidthGraph"] then (w / n)%num else hop in
  let h' := (steps sc * scaleHop)%num in
  let shift := (ln "scaleTickSizeBottom" + ln "scaleTickSizeTop" - (prevHeight - h'))%num in
  {| a_scaleHop := scaleHop; a_scaleHop2 := Math_floor (h / steps sc2)%num; a_valueHop := hop;
     a_yAxisPosX := (leftNotUsableSize m + ln "scaleTickSizeLeft")%num;
     a_xAxisPosY := (topNotUsableSize m + h' + ln "scaleTickSizeTop")%num;
     a_width := (n * hop)%num; a_height := h';
     a_xLabelPos := (xLabelPos m + shift)%num;
     clrx := leftNotUsableSize m; clry := topNotUsableSize m;
     clrwidth := (m_availableWidth m - (w - n * hop))%num;
     clrheight := (m_availableHeight m + shift)%num |}.

(** The area of a horizontal chart of [n] labels. *)
Definition horizontal_area `{MathLib} (s : ctx_scales) (c : config) (n : num) (m : measures) (sc : scale) : area :=
  let ln := line s c in
  let h := (m_availableHeight m - ln "scaleTickSizeBottom" - ln "scaleTickSizeTop")%num in
  let w := (m_availableWidth m - ln "scaleTickSizeLeft" - ln "scaleTickSizeRight")%num in
  let scaleHop := Math_floor (h / n)%num in
  let hop := Math_floor (w / steps sc)%num in
  let hop := if (hop == n0)%num || truthy c.["fullWidthGraph"] then (w / steps sc)%num else hop in
  let h' := (n * scaleHop)%num in
  {| a_scaleHop := scaleHop; a_scaleHop2 := NaN; a_valueHop := hop;
     a_yAxisPosX := (leftNotUsableSize m + ln "scaleTickSizeLeft")%num;
     a_xAxisPosY := (topNotUsableSize m + h' + ln "scaleTickSizeTop")%num;
     a_width := (steps sc * hop)%num; a_height := h';
     a_xLabelPos := xLabelPos m;
     clrx := leftNotUsableSize m; clry := topNotUsableSize m;
     clrwidth := (m_availableWidth m - (w - steps sc * hop))%num;
     clrheight := m_availableHeight m |}.

Section Axes.

Context `{MathLib}.
Context (toLocaleTimeString : jsval -> string).
Context (s : ctx_scales) (c : config) (m : measures) (a : area).

Let ln (k : string) : num := line s c k.
Let sp (k : string) : num := space s c k.
Let tx (k : string) : num := text s c k.

Definition solid_stroke (style : string) : list canvas_op :=
  [SetLineDash (lineStyleFn (to_str c.[style])); Stroke; SetLineDash []].

(** [k % config.step == 0] *)
Definition on_grid (k : Z) (step : string) : bool := (nrem (of_Z k) (fnum c step) == n0)%num.

(** ** Labels below the chart *)

Let label_font : string := font_of c.["scaleFontStyle"] (tx "scaleFontSize") c.["scaleFontFamily"].
Let angle : num := to_num (rotateLabels m).

(** The alignment of the labels below the chart; turned labels save the drawing
    state once more. *)
Definition x_labels_head : list canvas_op :=
  [SetTextBaseline "top"]
  ++ (if (angle > of_Z 90)%num then [Save; SetTextAlign "left"]
      else if (angle > n0)%num then [Save; SetTextAlign "right"] else [SetTextAlign "center"])
  ++ [SetFillStyle c.["scaleFontColor"]].

(** A label at an abscissa. *)
Definition x_label (xt : num * string) : list canvas_op :=
  let '(x, t) := xt in
  let txt x y := fillTextMultiLine t x y "top" (tx "scaleFontSize") true in
  [Save]
  ++ (if (angle > n0)%num
      then [Translate (x - highestXLabel m / of_Z 2)%num (a_xLabelPos a);
            Rotate (nneg (angle * (Math_PI / of_Z 180)))%num] ++ txt n0 n0
      else txt x (a_xLabelPos a))
  ++ [Restore].

(** The labels of the data, as they are shown. *)
Definition label_texts (labels : list jsval) : res (list string) :=
  res_mapM (fun l => let* f := fmtChartJS toLocaleTimeString c l (to_str c.["fmtXLabel"]) in Ok (to_str f)) labels.

Definition has_x_axis : bool := truthy c.["xAxisTop"] || truthy c.["xAxisBottom"].

(** The labels below the chart; they are only computed when they are shown. *)
Definition labels_below (shown : bool) (ls : res (list (num * string))) : res (list canvas_op) :=
  if shown then
    let* ls := if truthy c.["xAxisBottom"] then ls else Ok [] in
    Ok (x_labels_head ++ concat (map x_label ls))
  else Ok [].

(** ** Labels beside the chart *)

(** The steps that have a label: from the lower end of the scale (or the first
    step) to the upper end. *)
Definition label_steps (sc : scale) : res (list Z) :=
  let* n := loop_count (steps sc) in
  Ok ((if truthy c.["showYAxisMin"] && (of_Z (-1) < steps sc)%num then [-1] else []) ++ map Z.of_nat (seq 0 n)).

(** Label [j + 1] of a scale. *)
Definition step_text (sc : scale) (j : Z) : string := default "undefined" (scale_labels sc !! Z.to_nat (j + 1)).

Definition side_label (align : string) (x y : num) (t : string) : list canvas_op :=
  [SetTextAlign align] ++ fillTextMultiLine t x y "middle" (tx "scaleFontSize") true.

Definition left_x : num := (a_yAxisPosX a - (ln "scaleTickSizeLeft" + sp "yAxisSpaceRight"))%num.
Definition right_x : num :=
  (a_yAxisPosX a + a_width a + (ln "scaleTickSizeRight" + sp "yAxisSpaceRight"))%num.

(** A label on the left, and on the right if nothing else is there. *)
Definition both_sides (right_free : bool) (y : num) (t : string) : list canvas_op :=
  (if truthy c.["yAxisLeft"] then side_label "right" left_x y t else [])
  ++ (if truthy c.["yAxisRight"] && right_free then side_label "left" right_x y t else []).

(** ** Vertical charts *)

Section Vertical.

Context (x_of : nat -> num) (labels : list jsval) (dbAxis : bool) (sc sc2 : scale).

Definition y_of (hop : num) (j : Z) : num := (a_xAxisPosY a - of_Z (j + 1) * hop)%num.

(** The labels of the first axis, and of the second one. *)
Definition y_step_labels (j : Z) : list canvas_op :=
  if truthy c.["scaleShowLabels"] then both_sides (negb dbAxis) (y_of (a_scaleHop a) j) (step_text sc j) else [].

Definition y2_step_labels (j : Z) : list canvas_op :=
  if truthy c.["scaleShowLabels"] then side_label "left" right_x (y_of (a_scaleHop2 a) j) (step_text sc2 j) else [].

Definition drawLabels : res (list canvas_op) :=
  let* below := labels_below has_x_axis
                  (let* ts := label_texts labels in Ok (imap (fun i t => (x_of i, t)) ts)) in
  let* js := label_steps sc in
  let* beside2 :=
    if truthy c.["yAxisRight"] && dbAxis then
      let* js2 := label_steps sc2 in Ok (concat (map y2_step_labels js2))
    else Ok [] in
  Ok ([SetFont label_font] ++ below ++ [SetTextAlign "right"; SetTextBaseline "middle"]
      ++ concat (map y_step_labels js) ++ beside2).

End Vertical.

(** ** Horizontal charts *)

Section Horizontal.

(** The abscissa of a step and the ordinate of a label. *)
Context (x_of : Z -> num) (y_of : nat -> num) (labels : list jsval) (sc : scale).

Definition horizontal_labels : res (list canvas_op) :=
  let* below := labels_below (truthy c.["scaleShowLabels"] && has_x_axis)
                  (let* js := label_steps sc in Ok (map (fun j => (x_of j, step_text sc j)) js)) in
  let* ts := if truthy c.["yAxisLeft"] || truthy c.["yAxisRight"] then label_texts labels else Ok [] in
  Ok ([SetFont label_font] ++ below ++ [SetTextAlign "right"; SetTextBaseline "middle"]
      ++ concat (imap (fun j t => both_sides true (y_of j) t) ts)).

End Horizontal.

(** ** The scale of bars *)

(** The line of an axis. *)
Definition bar_axis_line (x y x' y' : num) : list canvas_op :=
  [SetLineWidth (VNum (ln "scaleLineWidth")); SetStrokeStyle c.["scaleLineColor"];
   SetLineDash (lineStyleFn (to_str c.["scaleLineStyle"])); BeginPath; MoveTo x y; LineTo x' y'; Stroke; SetLineDash []].

(** The vertical line [i]: a line of the grid or a tick; its abscissa is that of
    the step or label before it. *)
Definition bar_x_tick (x : num) (i : nat) : list canvas_op :=
  let top := if truthy c.["scaleShowGridLines"] && (0 <? i)%nat && on_grid (Z.of_nat i) "scaleXGridLinesStep"
             then (a_xAxisPosY a - a_height a - ln "scaleTickSizeTop")%num else a_xAxisPosY a in
  [BeginPath; MoveTo x (a_xAxisPosY a + ln "scaleTickSizeBottom")%num;
   SetLineWidth (VNum (ln "scaleGridLineWidth")); SetStrokeStyle c.["scaleGridLineColor"]; LineTo x top; Stroke].

(** The horizontal line of a step; those of the grid end at [right]. *)
Definition bar_y_tick (right : num) (j : Z) : list canvas_op :=
  let y := y_of (a_scaleHop a) j in
  let x := if truthy c.["scaleShowGridLines"] && on_grid (j + 1) "scaleYGridLinesStep" then right else a_yAxisPosX a in
  [BeginPath; MoveTo (a_yAxisPosX a - ln "scaleTickSizeLeft")%num y;
   SetLineWidth (VNum (ln "scaleGridLineWidth")); SetStrokeStyle c.["scaleGridLineColor"]; LineTo x y; Stroke].

(** The two axes with their ticks; the horizontal line ends at [right]. *)
Definition bar_scale (right : num) (x_ticks y_ticks : list canvas_op) : list canvas_op :=
  let grid := [SetLineDash (lineStyleFn (to_str c.["scaleGridLineStyle"]))] in
  bar_axis_line (a_yAxisPosX a - ln "scaleTickSizeLeft")%num (a_xAxisPosY a) right (a_xAxisPosY a)
  ++ grid ++ x_ticks
  ++ bar_axis_line (a_yAxisPosX a) (a_xAxisPosY a + ln "scaleTickSizeBottom")%num
       (a_yAxisPosX a) (a_xAxisPosY a - a_height a - ln "scaleTickSizeTop")%num
  ++ grid ++ y_ticks ++ [SetLineDash []].

(** ** The legend *)

(** The legend is drawn with the data when it lies inside of the chart. *)
Definition pending_legend (callback : positive -> string -> Z -> Z -> jsval -> res jsval) (tpchart : chart_type)
    (entries : list config) : res (list canvas_op) :=
  match legendMsr m with
  | LegendUndefined => Throw TypeError
  | LegendDone => Ok []
  | LegendPending lm => drawLegend toLocaleTimeString callback s c tpchart lm entries
  end.

Definition chart_legend (callback : positive -> string -> Z -> Z -> jsval -> res jsval) (tpchart : chart_type)
    (data : chart_data) : res (list canvas_op) :=
  pending_legend callback tpchart (map ds_props (datasets data)).

End Axes.

(** ** A frame *)

(** The scale is drawn over the data or below them. *)
Definition frame_order (c : config) (scale_ops data_ops : list canvas_op) : list canvas_op :=
  if truthy c.["scaleOverlay"] then data_ops ++ scale_ops else scale_ops ++ data_ops.

(** ** The drawing state *)

Lemma frame_order_balanced (c : config) (l1 l2 : list canvas_op) : balanced l1 -> balanced l2 -> balanced (frame_order c l1 l2).
Proof. intros H1 H2. unfold frame_order. destruct (truthy _); by apply balanced_app. Qed.

Lemma concat_balanced {A} (f : A -> list canvas_op) (l : list A) : (forall x, balanced (f x)) -> balanced (concat (map f l)).
Proof. intros Hf. induction l as [|x l IH]; cbn [map concat]; [done|]. by apply balanced_app. Qed.

Lemma concat_imap_balanced {A} (f : nat -> A -> list canvas_op) (l : list A) :
  (forall i x, balanced (f i x)) -> balanced (concat (imap f l)).
Proof.
  revert f. induction l as [|x l IH]; intros f Hf; [done|]. rewrite imap_cons. cbn [concat].
  apply balanced_app; [done|]. apply IH. intros i y. apply Hf.
Qed.

Section Balanced.

Context `{MathLib}.
Context (toLocaleTimeString : jsval -> string).
Context (s : ctx_scales) (c : config) (m : measures) (a : area).

Lemma solid_balanced (style : string) : balanced (solid_stroke c style).
Proof. done. Qed.

Lemma x_label_balanced (xt : num * string) : balanced (x_label s c m a xt).
Proof.
  destruct xt as [x t]. unfold x_label. apply balanced_saved. destruct (_ > _)%num; [|apply balanced_texts].
  apply balanced_cons; [done..|]. apply balanced_cons; [done..|]. apply balanced_texts.
Qed.

Lemma side_label_balanced (align : string) (x y : num) (t : string) : balanced (side_label s c align x y t).
Proof. apply balanced_cons; [done..|]. apply balanced_texts. Qed.

Lemma both_sides_balanced (free : bool) (y : num) (t : string) : balanced (both_sides s c a free y t).
Proof.
  apply balanced_app; [destruct (truthy c.["yAxisLeft"])|destruct (truthy c.["yAxisRight"] && free)];
    by try apply side_label_balanced.
Qed.

(** Whether labels below the chart are turned. *)
Definition turned_labels (shown : bool) : bool :=
  shown && ((to_num (rotateLabels m) > of_Z 90)%num || (to_num (rotateLabels m) > n0)%num).

Lemma labels_below_depth (shown : bool) (ls : res (list (num * string))) (ops : list canvas_op) (n : nat) :
  labels_below s c m a shown ls = Ok ops -> save_depth n ops = Some (if turned_labels shown then S n else n).
Proof.
  unfold labels_below, turned_labels. destruct shown; intros Hl; [|by apply Ok_inj in Hl as <-].
  apply res_bind_Ok in Hl as (l & _ & Hl). apply Ok_inj in Hl as <-.
  assert (Hb : balanced (concat (map (x_label s c m a) l))) by (apply concat_balanced, x_label_balanced).
  unfold x_labels_head. destruct (_ > of_Z 90)%num, (_ > n0)%num; cbn [app save_depth andb orb]; apply Hb.
Qed.

Lemma drawLabels_depth (x_of : nat -> num) (labels : list jsval) (db : bool) (sc sc2 : scale) (ops : list canvas_op) (n : nat) :
  drawLabels toLocaleTimeString s c m a x_of labels db sc sc2 = Ok ops ->
  save_depth n ops = Some (if turned_labels (has_x_axis c) then S n else n).
Proof.
  unfold drawLabels. intros Hd. apply res_bind_Ok in Hd as (below & Hbelow & Hd).
  apply res_bind_Ok in Hd as (js & _ & Hd). apply res_bind_Ok in Hd as (beside & Hbeside & Hd). apply Ok_inj in Hd as <-.
  cbn [app save_depth]. rewrite (save_depth_app _ _ _ _ (labels_below_depth _ _ _ n Hbelow)). cbn [app save_depth].
  apply balanced_app.
  - apply concat_balanced. intros j. unfold y_step_labels. by destruct (truthy c.["scaleShowLabels"]); try apply both_sides_balanced.
  - destruct (_ && _); [apply res_bind_Ok in Hbeside as (js2 & _ & Hbeside)|]; apply Ok_inj in Hbeside as <-; [|done].
    apply concat_balanced. intros j. unfold y2_step_labels.
    by destruct (truthy c.["scaleShowLabels"]); try apply side_label_balanced.
Qed.

Lemma horizontal_labels_depth x_of y_of (labels : list jsval) (sc : scale) (ops : list canvas_op) (n : nat) :
  horizontal_labels toLocaleTimeString s c m a x_of y_of labels sc = Ok ops ->
  save_depth n ops = Some (if turned_labels (truthy c.["scaleShowLabels"] && has_x_axis c) then S n else n).
Proof.
  unfold horizontal_labels. intros Hd. apply res_bind_Ok in Hd as (below & Hbelow & Hd).
  apply res_bind_Ok in Hd as (ts & _ & Hd). apply Ok_inj in Hd as <-.
  cbn [app save_depth]. rewrite (save_depth_app _ _ _ _ (labels_below_depth _ _ _ n Hbelow)). cbn [app save_depth].
  apply concat_imap_balanced. intros j t. apply both_sides_balanced.
Qed.

Lemma bar_scale_balanced (right : num) (xs ys : list canvas_op) :
  balanced xs -> balanced ys -> balanced (bar_scale s c a right xs ys).
Proof. intros Hx Hy. unfold bar_scale. repeat (apply balanced_app; [|]); done. Qed.

Lemma pending_legend_balanced callback tpchart (entries : list config) (ops : list canvas_op) :
  pending_legend toLocaleTimeString s c m callback tpchart entries = Ok ops -> balanced ops.
Proof.
  unfold pending_legend. destruct (legendMsr m); [discriminate| |by eapply drawLegend_balanced]. by intros <-%Ok_inj.
Qed.

Lemma chart_legend_balanced callback tpchart (data : chart_data) (ops : list canvas_op) :
  chart_legend toLocaleTimeString s c m callback tpchart data = Ok ops -> balanced ops.
Proof. apply pending_legend_balanced. Qed.

End Balanced.
