(* ===== verification/LineChart.v ===== *)
(** * Line charts (ChartNew.js)

    [Line]: the data are adapted and measured, the scale is chosen, the chart is
    laid out and its points get their positions; then the frames of the animation
    draw the scale and the lines. *)

From stdpp Require Import base list strings gmap.
From Stdlib Require Import ZArith Lia SpecFloat Reals Lra.
From S2P Require Import Prelude Num Binary64 Value Options OptionValue Format Scale Easing Animation.
From S2P Require Import Stats Canvas Cross Legend Layout Axes Points Lines.

Open Scope string_scope.
Open Scope list_scope.
Open Scope Z_scope.

(** ** The data *)

(** A single point would have no width: it becomes the middle one of three. *)
Definition single_point (data : chart_data) : bool :=
  (fold_left (fun n d => Nat.max n (length (ds_data d))) (datasets data) 0%nat =? 1)%nat.

Definition adapt_single (data : chart_data) : chart_data :=
  if single_point data then
    {| labels := match head (labels data) with
                 | Some (VStr l) => [VStr ""; VStr l; VStr ""]
                 | _ => labels data
                 end;
       datasets := map (fun d => {| ds_data := [VUndef; default VUndef (head (ds_data d)); VUndef];
                                    ds_props := ds_props d |}) (datasets data) |}
  else data.

(** [statData[i][0].tpchart = "Line"] *)
Fixpoint mark_lines (i n : nat) (statData : gmap (nat * nat) config) : res (gmap (nat * nat) config) :=
  match n with
  | O => Ok statData
  | S n' => match statData !! (i, 0%nat) with
            | Some o => mark_lines (S i) n' (<[(i, 0%nat) := <["tpchart" := VStr "Line"]> o]> statData)
            | None => Throw TypeError
            end
  end.

Section LineChart.

Context `{MathLib}.
Context (toLocaleTimeString : jsval -> string).
Context (callback : positive -> string -> Z -> Z -> jsval -> res jsval).
Context (eval_template : string -> list (string * jsval) -> res string).

(** The deviations of [drawMathDeviation], functions of another script. *)
Context (math_deviation : jsval -> option (nat -> num)).
Context (measureText : string -> string -> num).
Context (s : ctx_scales) (align0 baseline0 : string).
Context (width height canvas_width canvas_height : num).

(** ** The scale *)

(** [config.logarithmic], or that of the second axis, once the data are known: a
    logarithmic axis has no room for values that are not positive, and "fuzzy" asks
    for one only if the values span four orders of magnitude. *)
Definition choose_logarithmic (log : jsval) (override : jsval) (minValue maxValue : num) : jsval :=
  let not_false := match log with VBool false => false | _ => true end in
  let log := if not_false && (minValue <= n0)%num then VBool false else log in
  let order v := calculateOrderOfMagnitude (Math_pow (of_Z 10) v) in
  let span := (order (calculateOrderOfMagnitude maxValue + of_Z 1) - order (calculateOrderOfMagnitude minValue))%num in
  if loose_eq log (VStr "fuzzy") && (span < of_Z 4)%num || truthy override then VBool false else log.

Definition with_logarithmic (c : config) (b : bounds) : config :=
  let log := choose_logarithmic c.["logarithmic"] c.["scaleOverride"] (minValue b) (maxValue b) in
  let log2 := choose_logarithmic c.["logarithmic2"] c.["scaleOverride2"] (minValue2 b) (maxValue2 b) in
  <["logarithmic2" := log2]> (<["logarithmic" := log]> c).

(** A scale whose start, steps and width of steps are options. *)
Definition overridden_scale (c : config) (axis : Z) (template start count step : string)
    (rstart rcount rstep : string) : res scale :=
  let opt reference k := setOptionValue callback (of_Z 1) reference VUndef c.[k] (-1) (-1) nullValue in
  let* scaleStartValue := opt rstart start in
  let* scaleSteps := opt rcount count in
  let* scaleStepWidth := opt rstep step in
  let* ls := populateLabels toLocaleTimeString eval_template axis c template (to_num scaleSteps)
               (to_num scaleStartValue) (to_num scaleStepWidth) in
  Ok {| steps := to_num scaleSteps; stepValue := to_num scaleStepWidth; graphMin := to_num scaleStartValue;
        scale_labels := ls |}.

Definition room_for_steps (b : bounds) : bool := (maxSteps b > n0)%num && (minSteps b > n0)%num.

(** The scale of the first axis; [None] when it has no room. *)
Definition first_scale (fuel : nat) (c : config) (b : bounds) : res (option scale) :=
  let template := if truthy c.["scaleShowLabels"] then to_str c.["scaleLabel"] else "" in
  if truthy c.["scaleOverride"] then
    let* sc := overridden_scale c 1 template "scaleStartValue" "scaleSteps" "scaleStepWidth"
                 "SCALESTARTVALUE" "SCALESTEPS" "SCALESTEPWIDTH" in
    Ok (Some sc)
  else if room_for_steps b then
    let* sc := calculateScale toLocaleTimeString eval_template fuel 1 c (maxSteps b) (minSteps b) (maxValue b)
                 (minValue b) template in
    Ok (Some sc)
  else Ok None.

Definition no_scale : scale := {| steps := n0; stepValue := n0; graphMin := n0; scale_labels := [] |}.

(** The scale of the second axis, whose labels are [null] when no dataset has it. *)
Definition second_scale (fuel : nat) (c : config) (b : bounds) : res (option scale) :=
  let template := if truthy c.["scaleShowLabels"] then to_str c.["scaleLabel"] else "" in
  let template2 := if truthy c.["scaleShowLabels2"] then to_str c.["scaleLabel2"] else "" in
  if dbAxis b then
    if truthy c.["scaleOverride2"] then
      let* sc := overridden_scale c 2 template2 "scaleStartValue2" "scaleSteps2" "scaleStepWidth2"
                   "SCALESTARTVALUE2" "SCALESTEPS2" "SCALESTEPWIDTH2" in
      Ok (Some sc)
    else if room_for_steps b then
      let* sc := calculateScale toLocaleTimeString eval_template fuel 2 c (maxSteps b) (minSteps b) (maxValue2 b)
                   (minValue2 b) template in
      Ok (Some sc)
    else Ok None
  else Ok (Some no_scale).

(** ** The area of the chart *)

Definition line_area (c : config) (nlabels : nat) (m : measures) (sc sc2 : scale) : area :=
  vertical_area s c (of_Z (Z.of_nat nlabels - 1)) m sc sc2.

(** ** The scale on the canvas *)

Section Drawing.

Context (c : config) (data : chart_data) (m : measures) (b : bounds) (sc sc2 : scale) (a : area).
Context (zeroY : num).

Let ln (k : string) : num := line s c k.
Let sp (k : string) : num := space s c k.
Let tx (k : string) : num := text s c k.
Let x_of (i : nat) : num := (a_yAxisPosX a + of_Z (Z.of_nat i) * a_valueHop a)%num.

(** A horizontal line along the chart: at the bottom, at the top or at zero; an
    unknown position is that of the previous line. *)
Definition x_scale_line (o : jsval) (before : num) : res (list canvas_op * num) :=
  let* lineWidth := get_prop o "lineWidth" in
  let* lineColor := get_prop o "lineColor" in
  let* position := get_prop o "position" in
  let y :=
    match position with
    | VStr "bottom" => a_xAxisPosY a
    | VStr "top" => (a_xAxisPosY a - a_height a - ln "scaleTickSizeTop")%num
    | VStr "0" | VNum (S754_zero _) => if (zeroY == n0)%num then before else (a_xAxisPosY a - zeroY)%num
    | _ => before
    end in
  Ok ([SetLineWidth (if truthy lineWidth then lineWidth else VNum (ln "scaleLineWidth"));
       SetStrokeStyle (if truthy lineColor then lineColor else c.["scaleLineColor"]); BeginPath;
       MoveTo (a_yAxisPosX a - ln "scaleTickSizeLeft")%num y;
       LineTo (a_yAxisPosX a + a_width a + ln "scaleTickSizeRight")%num y]
      ++ solid_stroke c "scaleLineStyle", y).

Fixpoint x_scale_lines (l : list jsval) (before : num) : res (list canvas_op) :=
  match l with
  | [] => Ok []
  | o :: l' => let* (ops, y) := x_scale_line o before in
               let* rest := x_scale_lines l' y in Ok (ops ++ rest)
  end.

(** The vertical line of a label: a line of the grid or a tick. *)
Definition x_grid_line (i : nat) : list canvas_op :=
  let top := if truthy c.["scaleShowGridLines"] && (0 <? i)%nat && on_grid c (Z.of_nat i) "scaleXGridLinesStep"
             then (a_xAxisPosY a - a_height a - ln "scaleTickSizeTop")%num else a_xAxisPosY a in
  [BeginPath; MoveTo (x_of i) (a_xAxisPosY a + ln "scaleTickSizeBottom")%num;
   SetLineWidth (VNum (ln "scaleGridLineWidth")); SetStrokeStyle c.["scaleGridLineColor"]; LineTo (x_of i) top]
  ++ solid_stroke c "scaleGridLineStyle".

Definition y_axis_line : list canvas_op :=
  [SetLineWidth (VNum (ln "scaleLineWidth")); SetStrokeStyle c.["scaleLineColor"]; BeginPath;
   MoveTo (a_yAxisPosX a) (a_xAxisPosY a + ln "scaleTickSizeBottom")%num;
   LineTo (a_yAxisPosX a) (a_xAxisPosY a - a_height a - ln "scaleTickSizeTop")%num] ++ solid_stroke c "scaleLineStyle".

(** The horizontal line of a step of the scale. *)
Definition y_grid_line (j : nat) : list canvas_op :=
  let y := y_of a (a_scaleHop a) (Z.of_nat j) in
  let right := if truthy c.["scaleShowGridLines"] && on_grid c (Z.of_nat j + 1) "scaleYGridLinesStep"
               then (a_yAxisPosX a + a_width a + ln "scaleTickSizeRight")%num else a_yAxisPosX a in
  [BeginPath; MoveTo (a_yAxisPosX a - ln "scaleTickSizeLeft")%num y;
   SetLineWidth (VNum (ln "scaleGridLineWidth")); SetStrokeStyle c.["scaleGridLineColor"]; LineTo right y]
  ++ solid_stroke c "scaleGridLineStyle".

Definition drawScale : res (list canvas_op) :=
  let* lines := match c.["drawXScaleLine"] with
                | VBool false => Ok []
                | VUndef | VNull => Throw TypeError
                | v => x_scale_lines (elements_of v) NaN
                end in
  let* n := loop_count (steps sc) in
  Ok (lines ++ concat (map x_grid_line (seq 0 (length (labels data)))) ++ y_axis_line
      ++ concat (map y_grid_line (seq 0 n))).

(** The label of a point is below it. *)
Definition line_labels : res (list canvas_op) :=
  drawLabels toLocaleTimeString s c m a x_of (labels data) (dbAxis b) sc sc2.

(** ** The lines of a frame *)

(** [drawLines]; the legend is drawn here when it lies inside of the chart. *)
Definition drawLines (statData : gmap (nat * nat) config) (animPc : num) : res (list canvas_op * list (nat * nat)) :=
  let '(t, r) := drawLinesDataset callback eval_template measureText s align0 baseline0 c data statData animPc no_tracing in
  let* _ := r in
  let* legend := chart_legend toLocaleTimeString s c m callback Line data in
  Ok (drawn t ++ legend, annotated t).

End Drawing.

(** ** The whole chart *)

Definition line_layout (c : config) : layout_kind :=
  {| reverseLegend_ := false; reverseAxis := false; drawAxis := true; drawLegendOnData_ := true;
     legendBox_ := c.["datasetFill"] |}.

(** A line chart that is ready for its animation. *)
Record line_chart : Type := {
  lc_config : config;
  lc_data : chart_data;
  lc_measures : measures;
  lc_bounds : bounds;
  lc_scale : scale;
  lc_scale2 : scale;
  lc_area : area;
  lc_zeroY : num;
  lc_vars : vars;
  lc_stats : gmap (nat * nat) config
}.

Definition measure (c : config) (data : chart_data) (ylabels ylabels2 : axis_labels) : res (measures * list canvas_op) :=
  setMeasures toLocaleTimeString callback measureText s c Line (line_layout c) width height canvas_width canvas_height
    (labels data) (map ds_props (datasets data)) ylabels ylabels2.

(** The height of the zero line, if there are values below it. *)
Definition zero_offset (log : jsval) (least : num) (sc : scale) (hop : num) : num :=
  if (least < n0)%num then calculateOffset log n0 sc hop else n0.

Definition line_vars (c : config) (nlabels : nat) (b : bounds) (sc sc2 : scale) (a : area) : vars := {|
  xAxisPosY := a_xAxisPosY a; yAxisPosX := a_yAxisPosX a; valueHop := a_valueHop a;
  nbValueHop := of_Z (Z.of_nat nlabels - 1); scaleHop := a_scaleHop a;
  zeroY := zero_offset c.["logarithmic"] (minValue b) sc (a_scaleHop a);
  calculatedScale := sc; logarithmic := c.["logarithmic"]; scaleHop2 := a_scaleHop2 a;
  zeroY2 := zero_offset c.["logarithmic2"] (minValue2 b) sc2 (a_scaleHop2 a);
  calculatedScale2 := sc2; logarithmic2 := c.["logarithmic2"]; availableHeight := a_height a;
  barWidth := NaN; midPosX := NaN; midPosY := NaN; maxSize := NaN; int_radius := NaN; ext_radius := NaN |}.

(** Everything before the animation, with what is drawn for it; no chart when there
    is no room for a scale. *)
Definition prepare_line (fuel : nat) (xBegin xEnd : jsval) (c : config) (data : chart_data)
    : res (list canvas_op * option line_chart) :=
  let data := adapt_single data in
  let* (stats, data) := initPassVariableData_axes toLocaleTimeString c Line data in
  let* stats := mark_lines 0 (length (datasets data)) stats in
  let* (m0, background) := measure c data Nihil (Labels [""]) in
  let* b := getValueBounds callback math_deviation c (ctx_text s) (m_availableHeight m0) data in
  let c := with_logarithmic c b in
  let* sc := first_scale fuel c b in
  let* sc2 := second_scale fuel c b in
  if room_for_steps b then
    match sc, sc2 with
    | Some sc, Some sc2 =>
        let* (m, around) := measure c data (Labels (scale_labels sc))
                              (if dbAxis b then Labels (scale_labels sc2) else NoLabels) in
        let a := line_area c (length (labels data)) m sc sc2 in
        let* ls := line_labels c data m b sc sc2 a in
        let v := line_vars c (length (labels data)) b sc sc2 a in
        let* stats := initPassVariableData_part2 s c Line (labels data) xBegin xEnd v
                        (length (default [] (ds_data <$> head (datasets data)))) stats (datasets data) in
        Ok (background ++ around ++ ls,
            Some {| lc_config := c; lc_data := data; lc_measures := m; lc_bounds := b; lc_scale := sc;
                    lc_scale2 := sc2; lc_area := a; lc_zeroY := zeroY v; lc_vars := v; lc_stats := stats |})
    | _, _ => Ok (background, None)
    end
  else Ok (background, None).

(** The scale and the data of a frame. *)
Definition frame_of (lc : line_chart) (animPc : num) : res (list canvas_op * list (nat * nat)) :=
  let* scale_ops := drawScale (lc_config lc) (lc_data lc) (lc_scale lc) (lc_area lc) (lc_zeroY lc) in
  let* (line_ops, notes) := drawLines (lc_config lc) (lc_data lc) (lc_measures lc) (lc_stats lc) animPc in
  Ok (frame_order (lc_config lc) scale_ops line_ops, notes).

End LineChart.

(** ** Logarithmic axes *)

Section Logarithms.

Context `{MathLib}.

(** What is left of the option [logarithmic]. *)
Lemma choose_logarithmic_spec (log override : jsval) (least most : num) :
  truthy (choose_logarithmic log override least most) = true ->
  truthy log = true /\ truthy override = false /\ (least <= n0)%num = false.
Proof.
  unfold choose_logarithmic. destruct (least <= n0)%num.
  - rewrite andb_true_r. destruct log as [| |[|]|x|t|l|l|i]; cbn; destruct override as [| |[|]|y|t'|l'|l'|i']; cbn;
      repeat case_match; done.
  - rewrite andb_false_r. destruct (truthy override); [by rewrite orb_true_r|]. rewrite orb_false_r.
    by destruct (_ && _).
Qed.

(** Numbers from above a limit that is itself above zero. *)
Lemma above_positive (low x : num) : ordered low -> ordered x -> (low <= x)%num = true -> (low <= n0)%num = false ->
  (n0 < x)%num = true.
Proof.
  intros Ol Ox Hx%nle_spec Hlow; [|done|done]. assert (O0 : ordered n0) by done.
  apply nlt_spec; [done|done|]. apply Rnot_le_lt. intros Hle.
  assert ((low <= n0)%num = true) by (apply nle_spec; [done|done|lra]). congruence.
Qed.

End Logarithms.

(** ** How a chart was prepared *)

Section Prepared.

Context `{MathLib}.
Context (toLocaleTimeString : jsval -> string).
Context (callback : positive -> string -> Z -> Z -> jsval -> res jsval).
Context (eval_template : string -> list (string * jsval) -> res string).
Context (measureText : string -> string -> num).
Context (s : ctx_scales) (align0 baseline0 : string).
Context (width height canvas_width canvas_height : num).

(** No dataset draws deviations. *)
Let no_deviation (v : jsval) : option (nat -> num) := None.

Context (fuel : nat) (xBegin xEnd : jsval) (c : config) (data : chart_data).

Let prepare : res (list canvas_op * option line_chart) :=
  prepare_line toLocaleTimeString callback eval_template no_deviation measureText s width height canvas_width canvas_height
    fuel xBegin xEnd c data.
Let measured (c : config) (data : chart_data) : axis_labels -> axis_labels -> res (measures * list canvas_op) :=
  measure toLocaleTimeString callback measureText s width height canvas_width canvas_height c data.

(** The steps of [prepare_line] for a chart that is drawn. *)
Record prepared (ops : list canvas_op) (lc : line_chart) : Prop := {
  p_stats : exists stats stats', initPassVariableData_axes toLocaleTimeString c Line (adapt_single data) = Ok (stats, lc_data lc) /\
    mark_lines 0 (length (datasets (lc_data lc))) stats = Ok stats' /\
    initPassVariableData_part2 s (lc_config lc) Line (labels (lc_data lc)) xBegin xEnd (lc_vars lc)
      (length (default [] (ds_data <$> head (datasets (lc_data lc))))) stats' (datasets (lc_data lc)) = Ok (lc_stats lc);
  p_bounds : exists h, getValueBounds callback no_deviation c (ctx_text s) h (lc_data lc) = Ok (lc_bounds lc);
  p_config : lc_config lc = with_logarithmic c (lc_bounds lc);
  p_area : lc_area lc = line_area s (lc_config lc) (length (labels (lc_data lc))) (lc_measures lc) (lc_scale lc) (lc_scale2 lc);
  p_vars : lc_vars lc = line_vars (lc_config lc) (length (labels (lc_data lc))) (lc_bounds lc) (lc_scale lc)
                          (lc_scale2 lc) (lc_area lc);
  p_drawn : exists m0 background around ls ylabels2, measured c (lc_data lc) Nihil (Labels [""]) = Ok (m0, background) /\
    measured (lc_config lc) (lc_data lc) (Labels (scale_labels (lc_scale lc))) ylabels2 = Ok (lc_measures lc, around) /\
    line_labels toLocaleTimeString s (lc_config lc) (lc_data lc) (lc_measures lc) (lc_bounds lc) (lc_scale lc)
      (lc_scale2 lc) (lc_area lc) = Ok ls /\
    ops = background ++ around ++ ls
}.

Lemma prepare_line_prepared (ops : list canvas_op) (lc : line_chart) :
  prepare = Ok (ops, Some lc) -> prepared ops lc.
Proof.
  unfold prepare, prepare_line. intros Hp.
  apply res_bind_Ok in Hp as ([stats data1] & Hs & Hp). apply res_bind_Ok in Hp as (stats' & Hm & Hp).
  apply res_bind_Ok in Hp as ([m0 bg] & Hbg & Hp). apply res_bind_Ok in Hp as (b & Hb & Hp). cbv zeta in Hp.
  apply res_bind_Ok in Hp as ([sc|] & _ & Hp); apply res_bind_Ok in Hp as ([sc2|] & _ & Hp);
    destruct (room_for_steps b); try (apply Ok_inj, (f_equal snd) in Hp; discriminate).
  apply res_bind_Ok in Hp as ([m around] & Har & Hp). apply res_bind_Ok in Hp as (ls & Hls & Hp).
  apply res_bind_Ok in Hp as (stats2 & Hs2 & Hp). apply Ok_inj in Hp.
  pose proof (f_equal snd Hp) as Hlc. apply (f_equal fst) in Hp. cbn [fst snd] in Hp, Hlc.
  injection Hlc as <-. split; cbn [lc_config lc_data lc_measures lc_bounds lc_scale lc_scale2 lc_area lc_vars lc_stats];
    eauto 15.
Qed.


(** *** A single number *)

Lemma single_point_data : single_point data = true ->
  forall d, d ∈ datasets (adapt_single data) -> length (ds_data d) = 3%nat.
Proof.
  intros Hs d. unfold adapt_single. rewrite Hs. cbn [datasets]. by intros (e & -> & _)%list_elem_of_fmap.
Qed.

Lemma axes_labels (d : chart_data) stats d' : initPassVariableData_axes toLocaleTimeString c Line d = Ok (stats, d') ->
  labels d' = labels d /\ datasets d' = map (pad_dataset Line (length (labels d))) (datasets d).
Proof.
  unfold initPassVariableData_axes. intros Hp. apply res_bind_Ok in Hp as (? & _ & Hp).
  apply Ok_inj, (f_equal snd) in Hp. cbn [snd] in Hp. by subst d'.
Qed.

(** A width divided into no parts, and what is multiplied with or added to it. *)
Lemma no_parts (w : num) : is_finite (w / n0)%num = false.
Proof. by destruct w as [|[|]| |[|] m e]. Qed.

Lemma floor_infinite (x : num) : is_finite x = false -> is_finite (Math_floor x) = false.
Proof. by destruct x. Qed.

Lemma nmul_infinite (x y : num) : is_finite x = false -> is_finite (x * y)%num = false.
Proof. by destruct x as [|[|]| |], y as [|[|]| |]. Qed.

Lemma nadd_infinite (x y : num) : is_finite y = false -> is_finite (x + y)%num = false.
Proof. by destruct x as [[|]|[|]| |], y as [|[|]| |]. Qed.

Lemma hop_of_one_label (c' : config) (m : measures) (sc sc2 : scale) :
  is_finite (a_valueHop (line_area s c' 1 m sc sc2)) = false.
Proof.
  cbn [line_area vertical_area a_valueHop]. change (of_Z (Z.of_nat 1 - 1)) with n0.
  destruct (_ || _); [apply no_parts|]. apply floor_infinite, no_parts.
Qed.

(** C35: a chart of a single number shows nothing of it.  Its dataset becomes three
    points to have a width, but its labels become three only when the label is a
    string: with a number as the only label (a time, or the pages' placeholder) the
    width is divided by zero, and no point has a position on the canvas. *)
Theorem single_number_is_not_drawn (ops : list canvas_op) (lc : line_chart) (l : jsval) :
  prepare = Ok (ops, Some lc) -> single_point data = true -> labels data = [l] -> (forall t, l <> VStr t) ->
  forall i d, datasets (lc_data lc) !! i = Some d -> typeof (ds_props d).["xPos"] <> "object" ->
  forall j, (j < 3)%nat -> exists o, lc_stats lc !! (i, j) = Some o /\ is_finite (fnum o "xPos") = false.
Proof.
  intros Hp Hs Hl Hstr i d Hd Hx j Hj.
  destruct (prepare_line_prepared _ _ Hp) as [(stats & stats' & Hax & _ & Hpart) _ _ Harea Hvars _].
  destruct (axes_labels _ _ _ Hax) as [Hlab Hds].
  assert (Hlabels : labels (lc_data lc) = [l]).
  { rewrite Hlab. unfold adapt_single. rewrite Hs, Hl. cbn [labels head]. by destruct l; try destruct (Hstr s0). }
  assert (Hlen : (3 <= length (ds_data d))%nat).
  { apply (list_elem_of_lookup_2 _ i) in Hd. rewrite Hds in Hd.
    apply list_elem_of_fmap in Hd as (e & -> & He). unfold pad_dataset, pad. cbn [ds_data].
    rewrite List.length_app, (single_point_data Hs e He). lia. }
  destruct (lookup_lt_is_Some_2 (ds_data d) j ltac:(lia)) as [value Hv].
  destruct (part2_lines _ _ _ _ _ _ _ _ _ _ _ Hpart i d j value Hd eq_refl Hv) as (o & o' & _ & Ho' & [(x & Hox & Hpos) _ _] & _).
  exists o'. split; [done|]. unfold fnum. rewrite Hox. cbn [to_num].
  unfold xPos in Hpos. rewrite (proj2 (String.eqb_neq _ _) Hx) in Hpos. apply Ok_inj in Hpos as <-.
  apply nadd_infinite, nmul_infinite. rewrite Hvars. cbn [line_vars valueHop]. rewrite Harea, Hlabels.
  apply hop_of_one_label.
Qed.

(** *** The drawing state *)

Section Labels.

Context (c' : config) (data' : chart_data) (m : measures) (b : bounds) (sc sc2 : scale) (a : area) (zero : num).

Lemma drawScale_balanced (ops : list canvas_op) : drawScale s c' data' sc a zero = Ok ops -> balanced ops.
Proof.
  unfold drawScale. intros Hd. apply res_bind_Ok in Hd as (lines & Hlines & Hd).
  apply res_bind_Ok in Hd as (n & _ & Hd). apply Ok_inj in Hd as <-.
  assert (balanced lines).
  { assert (Hx : forall l before ops, x_scale_lines s c' a zero l before = Ok ops -> balanced ops).
    { intros l. induction l as [|o l IH]; intros before ops Hl; cbn [x_scale_lines] in Hl; [by apply Ok_inj in Hl as <-|].
      apply res_bind_Ok in Hl as ([o1 y] & Ho & Hl). apply res_bind_Ok in Hl as (r & Hr%IH & Hl). apply Ok_inj in Hl as <-.
      apply balanced_app; [|done]. unfold x_scale_line in Ho. succeed.
      apply Ok_inj, (f_equal fst) in Ho. cbn [fst] in Ho. by rewrite <- Ho. }
    repeat case_match; try discriminate; by (apply Ok_inj in Hlines as <- || eapply Hx). }
  repeat (apply balanced_app; [|]); try done; by apply concat_balanced.
Qed.

End Labels.

Let frame (lc : line_chart) (animPc : num) : res (list canvas_op * list (nat * nat)) :=
  frame_of toLocaleTimeString callback eval_template measureText s align0 baseline0 lc animPc.

Lemma drawLines_balanced (c' : config) (data' : chart_data) (m : measures) statData animPc ops notes :
  drawLines toLocaleTimeString callback eval_template measureText s align0 baseline0 c' data' m statData animPc
    = Ok (ops, notes) -> balanced ops.
Proof.
  unfold drawLines. destruct (drawLinesDataset _ _ _ _ _ _ _ _ _ _ _) as [t r] eqn:Ht. intros Hd.
  apply res_bind_Ok in Hd as ([] & -> & Hd). apply res_bind_Ok in Hd as (legend & Hlegend & Hd).
  apply Ok_inj, (f_equal fst) in Hd. cbn [fst] in Hd. rewrite <- Hd.
  destruct (drawLinesDataset_moves callback eval_template measureText s align0 baseline0 c' data' statData 0 animPc
              no_tracing t tt Ht) as (l & -> & Hl).
  apply balanced_app; [exact Hl|by eapply chart_legend_balanced].
Qed.

(** C32: a frame of the animation restores every drawing state it saves, and the
    drawing before it does so too, except for one: the alignment of turned labels is
    saved and never restored, so that every drawing of such a chart leaves one more
    state on the stack of the context. *)
Theorem line_chart_saves (ops : list canvas_op) (lc : line_chart) :
  prepare = Ok (ops, Some lc) ->
  (forall depth, save_depth depth ops =
     Some (if turned_labels (lc_measures lc) (has_x_axis (lc_config lc)) then S depth else depth)) /\
  forall animPc frame_ops notes, frame lc animPc = Ok (frame_ops, notes) ->
    forall depth, save_depth depth frame_ops = Some depth.
Proof.
  intros Hp. destruct (prepare_line_prepared _ _ Hp) as [_ _ _ _ _ (m0 & bg & around & ls & yl & Hbg & Har & Hls & ->)].
  apply setMeasures_balanced in Hbg, Har. split.
  - intros depth. rewrite (save_depth_app _ _ _ _ (Hbg depth)), (save_depth_app _ _ _ _ (Har depth)).
    by eapply drawLabels_depth.
  - intros animPc frame_ops notes Hf. unfold frame, frame_of in Hf.
    apply res_bind_Ok in Hf as (scale_ops & Hs%drawScale_balanced & Hf).
    apply res_bind_Ok in Hf as ([line_ops notes'] & Hl%drawLines_balanced & Hf).
    apply Ok_inj, (f_equal fst) in Hf. cbn [fst] in Hf. rewrite <- Hf. by apply frame_order_balanced.
Qed.

End Prepared.

(** ** A chart of a page *)

(** The options that the pages give their charts, and some more, with the default of
    the rest. *)
Definition sample_page (more : list (string * jsval)) : config := Line_config no_personal_options (Some (of_fields ([
  ("animation", VBool false); ("pointDot", VBool false); ("bezierCurve", VBool false); ("datasetFill", VBool true);
  ("rotateLabels", VInt 60); ("graphTitle", VStr "Throughput"); ("yAxisLabel", VStr "throughput");
  ("yAxisUnit", VStr "samples/s"); ("graphTitleFontSize", VInt 16); ("yAxisUnitFontSize", VInt 14)] ++ more))).

Definition sample_dataset (l : list jsval) : dataset := {| ds_data := l; ds_props := of_fields [
  ("fillColor", VStr "rgba(151,187,205,0.5)"); ("strokeColor", VStr "rgba(151,187,205,1)")] |}.

Definition sample_samples : chart_data := {|
  labels := [VInt 1000; VInt 2000; VInt 3000]; datasets := [sample_dataset [VInt 12; VInt 40; VInt 26]] |}.

Definition single_sample : chart_data := {| labels := [VInt 1000]; datasets := [sample_dataset [VInt 7]] |}.

Definition sample_prepare (c : config) (data : chart_data) : res (list canvas_op * option line_chart) :=
  prepare_line (H := sample_math) (fun _ => "") (fun _ _ _ _ _ => Ok VUndef) (fun s _ => Ok s) (fun _ => None)
    (fun _ _ => of_Z 20) unit_scales (of_Z 450) (of_Z 350) (of_Z 450) (of_Z 350) 100 VUndef VUndef c data.

Definition logarithmic_page : config := sample_page [("logarithmic", VBool true)].

Lemma logarithmic_chart : exists ops lc, sample_prepare logarithmic_page sample_samples = Ok (ops, Some lc) /\
  (truthy (lc_config lc).["logarithmic"], datasets (lc_data lc)) = (true, datasets sample_samples).
Proof. apply known_chart. vm_compute. reflexivity. Qed.

Lemma sample_numeric : Forall numeric_data (datasets sample_samples).
Proof. repeat first [exact (numeric_VInt _) | constructor]. Qed.

Lemma logarithmic_no_limits : no_limits logarithmic_page.
Proof.
  unfold no_limits. do 4 (apply List.Forall_cons; [vm_compute; split; reflexivity|]). apply List.Forall_nil.
Qed.


Lemma single_chart : exists ops lc, sample_prepare (sample_page []) single_sample = Ok (ops, Some lc) /\
  map ds_props (datasets (lc_data lc)) = [ds_props (sample_dataset [])].
Proof. apply known_chart. vm_compute. reflexivity. Qed.

Lemma single_number_is_not_drawn_witness :
  exists ops lc o, sample_prepare (sample_page []) single_sample = Ok (ops, Some lc) /\
    lc_stats lc !! (0%nat, 1%nat) = Some o /\ is_finite (fnum o "xPos") = false.
Proof.
  destruct single_chart as (ops & lc & Hp & Hf).
  destruct (datasets (lc_data lc)) as [|d l] eqn:Hd; [discriminate|].
  destruct (single_number_is_not_drawn (H := sample_math) _ _ _ _ _ _ _ _ _ _ _ _ _ single_sample ops lc (VInt 1000) Hp
    eq_refl eq_refl ltac:(discriminate) 0%nat d) with (j := 1%nat) as (o & Ho & Hx).
  - by rewrite Hd.
  - injection Hf as -> _. vm_compute. discriminate.
  - lia.
  - exists ops, lc, o. split; [exact Hp|]. split; [exact Ho|exact Hx].
Defined.

Lemma turned_chart : exists ops lc, sample_prepare (sample_page []) sample_samples = Ok (ops, Some lc) /\
  turned_labels (lc_measures lc) (has_x_axis (lc_config lc)) = true.
Proof. apply known_chart. vm_compute. reflexivity. Qed.

Lemma line_chart_saves_witness :
  exists ops lc, sample_prepare (sample_page []) sample_samples = Ok (ops, Some lc) /\ save_depth 0 ops = Some 1%nat.
Proof.
  destruct turned_chart as (ops & lc & Hp & Hf). exists ops, lc. split; [exact Hp|].
  destruct (line_chart_saves (H := sample_math) _ _ _ _ _ "start" "alphabetic" _ _ _ _ _ _ _ _ _ ops lc Hp) as [Hd _].
  rewrite Hd, Hf. reflexivity.
Defined.
