(* ===== verification/ShownData.v ===== *)
(** * What a line chart shows (ChartNew.js)

    The functions of a line chart together: the data are measured
    ([initPassVariableData_part1]), scaled and placed ([calculateScale],
    [initPassVariableData_part2]) and drawn ([drawLinesDataset]); what is stroked in
    the last frame are the data. *)

From stdpp Require Import base list strings gmap.
From Stdlib Require Import ZArith Lia SpecFloat Reals Lra.
From S2P Require Import Prelude Num Binary64 Value Options OptionValue Format Scale Easing Animation.
From S2P Require Import Stats Canvas Cross Legend Layout Points Lines LineChart.

Open Scope string_scope.
Open Scope list_scope.
Open Scope Z_scope.

(** ** Positions with a value *)

(** Numbers between the first and the last one with a property. *)
Lemma head_filter_seq (P : nat -> bool) (a n f : nat) : head (List.filter P (seq a n)) = Some f ->
  (a <= f < a + n)%nat /\ P f = true /\ forall x, (a <= x < f)%nat -> P x = false.
Proof.
  revert a. induction n as [|n IH]; intros a; cbn [seq List.filter]; [done|]. destruct (P a) eqn:Ha.
  - intros [= <-]. split; [lia|]. split; [done|]. intros x ?. lia.
  - intros (H1 & H2 & H3)%IH. split; [lia|]. split; [done|]. intros x Hx.
    destruct (decide (x = a)) as [->|]; [done|]. apply H3. lia.
Qed.

Lemma last_filter_seq (P : nat -> bool) (a n e : nat) : last (List.filter P (seq a n)) = Some e ->
  (a <= e < a + n)%nat /\ P e = true /\ forall x, (e < x < a + n)%nat -> P x = false.
Proof.
  induction n as [|n IH]; [done|]. rewrite seq_S, List.filter_app. cbn [List.filter]. destruct (P (a + n)%nat) eqn:Ha.
  - rewrite last_snoc. intros [= <-]. split; [lia|]. split; [done|]. intros x ?. lia.
  - rewrite app_nil_r. intros (H1 & H2 & H3)%IH. split; [lia|]. split; [done|]. intros x Hx.
    destruct (decide (x = a + n)%nat) as [->|]; [done|]. apply H3. lia.
Qed.

Lemma filter_none {A} (P : A -> bool) (l : list A) : (forall x, x ∈ l -> P x = false) -> List.filter P l = [].
Proof.
  induction l as [|x l IH]; intros Hl; [done|]. cbn [List.filter]. rewrite Hl by left. apply IH. intros y Hy. apply Hl. by right.
Qed.

Lemma filter_seq_middle (P : nat -> bool) (n f e : nat) :
  head (List.filter P (seq 0 n)) = Some f -> last (List.filter P (seq 0 n)) = Some e ->
  List.filter P (seq f (S e - f)) = List.filter P (seq 0 n).
Proof.
  intros (H1 & Hf & H2)%head_filter_seq (H3 & He & H4)%last_filter_seq.
  assert (f <= e)%nat by (destruct (decide (f <= e)%nat) as [|Hlt]; [done|]; rewrite H2 in He by lia; done).
  replace n with (f + ((S e - f) + (n - S e)))%nat at 1 by lia. rewrite !seq_app, !List.filter_app.
  rewrite (filter_none P (seq 0 f)) by (intros x Hx%elem_of_seq; apply H2; lia).
  rewrite (filter_none P (seq (0 + f + _) _)) by (intros x Hx%elem_of_seq; apply H4; lia).
  by rewrite app_nil_r.
Qed.

(** ** Marked datasets *)

Lemma mark_lines_spec (n i : nat) (r r' : gmap (nat * nat) config) : mark_lines i n r = Ok r' ->
  (forall k, (i <= k < i + n)%nat -> exists o, r' !! (k, 0%nat) = Some o /\ o.["tpchart"] = VStr "Line") /\
  (forall k, (k < i)%nat -> r' !! (k, 0%nat) = r !! (k, 0%nat)) /\
  forall tt k, knows Line tt r k -> knows Line tt r' k.
Proof.
  revert i r. induction n as [|n IH]; intros i r Hm; cbn [mark_lines] in Hm.
  { apply Ok_inj in Hm as <-. split; [lia|done]. }
  destruct (r !! (i, 0%nat)) as [o|] eqn:Ho; [|done]. destruct (IH _ _ Hm) as (Hl & Hlow & Hk). split; [|split].
  - intros k Hr. destruct (decide (k = i)) as [->|]; [|apply Hl; lia].
    exists (<["tpchart" := VStr "Line"]> o). rewrite Hlow by lia. rewrite lookup_insert_eq, prop_insert. done.
  - intros k Hr. rewrite Hlow by lia. by rewrite lookup_insert_ne by (intros [=]; lia).
  - intros tt k (o' & Ho' & H1 & H2). apply Hk. destruct (decide (k = (i, 0%nat))) as [->|Hne].
    + exists (<["tpchart" := VStr "Line"]> o). rewrite lookup_insert_eq. rewrite Ho in Ho'. injection Ho' as ->.
      by rewrite !prop_insert_ne.
    + exists o'. by rewrite lookup_insert_ne.
Qed.

Section Shown.

Context `{MathLib}.
Context (toLocaleTimeString : jsval -> string).
Context (callback : positive -> string -> Z -> Z -> jsval -> res jsval).
Context (eval_template : string -> list (string * jsval) -> res string).
Context (measureText : string -> string -> num).
Context (s : ctx_scales) (align0 baseline0 : string).
Context (width height canvas_width canvas_height : num).
Context (fuel : nat) (xBegin xEnd : jsval) (c : config) (data : chart_data).

(** A chart that was prepared for its animation, with straight lines. *)
Context (ops : list canvas_op) (lc : line_chart).
Context (Hp : prepare_line toLocaleTimeString callback eval_template (fun _ => None) measureText s width height
                canvas_width canvas_height fuel xBegin xEnd c data = Ok (ops, Some lc)).
Context (Hc : plain_lines (lc_config lc)).

Let ds : list dataset := datasets (lc_data lc).
Let cfg : config := lc_config lc.

(** A dataset with a value, drawn in one style, whose missing points, if it has any
    between its values, are bridged. *)
Record plain_dataset (d : dataset) : Prop := {
  one_style : plain (ds_props d).["datasetStrokeStyle"] /\ plain (ds_props d).["strokeColor"] /\
              plain (ds_props d).["fillColor"];
  countable : Z.of_nat (length (ds_data d)) < 2 ^ 53;
  some_value : valued d <> [];
  no_gaps : truthy cfg.["extrapolateMissingData"] = true \/
            forall a j b, a ∈ valued d -> b ∈ valued d -> (a <= j <= b)%nat -> has_value d j = true
}.

Lemma point_known (i : nat) (d : dataset) (j : nat) (value : jsval) :
  ds !! i = Some d -> ds_data d !! j = Some value ->
  exists o, lc_stats lc !! (i, j) = Some o /\
    line_place cfg (labels (lc_data lc)) xBegin xEnd (lc_vars lc) Line d j value o /\
    (o.["firstNotMissing"], o.["lastNotMissing"]) = (intv (row i (scan ds)).1, intv (row i (scan ds)).2) /\
    (j = 0%nat -> o.["tpchart"] = VStr "Line").
Proof.
  intros Hd Hj. pose proof Hp as Hp'. apply prepare_line_prepared in Hp' as [(stats & stats' & Hax & Hm & Hpart) _ _ _ _ _].
  destruct (mark_lines_spec _ _ _ _ Hm) as (Hline & _ & Hkeep).
  assert (Hlt : (j < length (ds_data d))%nat) by (by eapply lookup_lt_Some).
  destruct (Hkeep _ _ (axes_know _ Line ltac:(done) ltac:(done) _ _ _ _ Hax i d j Hd Hlt)) as (o1 & Ho1 & Hf & Hl).
  destruct (part2_lines _ _ _ _ _ _ _ _ _ _ _ Hpart i d j value Hd eq_refl Hj) as (o & o' & Ho & Ho' & Hplace & Hfields).
  rewrite Ho1 in Ho. injection Ho as ->. unfold unplaced in Hfields. rewrite !Forall_cons in Hfields.
  destruct Hfields as (E1 & E2 & E3 & _). exists o'. split; [done|]. split; [done|]. split.
  - rewrite E1, E2, Hf, Hl. done.
  - intros ->. rewrite E3. apply lookup_lt_Some in Hd. destruct (Hline i ltac:(fold ds; lia)) as (o2 & Ho2 & H2).
    rewrite Ho1 in Ho2. by injection Ho2 as ->.
Qed.

(** The datasets are drawn from their first value to their last one. *)
Lemma dataset_ready (i : nat) (d : dataset) : ds !! i = Some d -> plain_dataset d ->
  exists first last, head (valued d) = Some first /\ list.last (valued d) = Some last /\
    line_ready cfg (lc_stats lc) i d first last.
Proof.
  intros Hd Hpd. pose proof (some_value _ Hpd) as Hsome.
  destruct (head (valued d)) as [f|] eqn:Hf; [|by apply head_None in Hf].
  destruct (list.last (valued d)) as [e|] eqn:He; [|by apply last_None in He].
  exists f, e. split; [done|]. split; [done|].
  destruct (head_filter_seq _ _ _ _ Hf) as (H1 & H2 & H3). destruct (last_filter_seq _ _ _ _ He) as (H4 & H5 & H6).
  assert (f <= e)%nat by (destruct (decide (f <= e)%nat) as [|]; [done|]; rewrite H3 in H5 by lia; done).
  assert (Hrow : row i (scan ds) = (Some (Z.of_nat f), Some (Z.of_nat e))) by (rewrite (scan_rows ds i d Hd), Hf, He; done).
  split.
  - exact (one_style _ Hpd).
  - exact (countable _ Hpd).
  - intros j Hj. destruct (lookup_lt_is_Some_2 _ _ Hj) as [v Hv]. destruct (point_known i d j v Hd Hv) as (o & Ho & _).
    by exists o.
  - destruct (lookup_lt_is_Some_2 (ds_data d) 0 ltac:(lia)) as [v Hv].
    destruct (point_known i d 0 v Hd Hv) as (o & Ho & _ & Hb & Hl). exists o. rewrite Hrow in Hb. cbn [fst snd intv] in Hb.
    injection Hb as -> ->. auto.
  - lia.
  - unfold has_value in H2. by apply negb_true_iff.
  - destruct (no_gaps _ Hpd) as [|Hg]; [by left|right]. intros j Hj.
    assert (Hh : has_value d j = true); [|by apply negb_true_iff in Hh].
    apply (Hg f j e); [| |lia]; apply list_elem_of_In, filter_In; rewrite in_seq; split; (lia || done).
Qed.

(** *** The pictures of the data *)

(** The place of a value on the canvas: at its abscissa, as high above the zero line
    as the scale of its axis says. *)
Definition chart_x (d : dataset) (j : nat) : num :=
  ok_or NaN (xPos cfg (labels (lc_data lc)) xBegin xEnd d (of_Z (Z.of_nat j)) (yAxisPosX (lc_vars lc))
               (valueHop (lc_vars lc)) (nbValueHop (lc_vars lc))).

Definition base_line (d : dataset) : num := (xAxisPosY (lc_vars lc) - (axis_vars (lc_vars lc) d).1.1.2)%num.

Definition chart_y (d : dataset) (j : nat) : num :=
  let '(hop, zero, sc, log) := axis_vars (lc_vars lc) d in
  (base_line d - of_Z 1 * (calculateOffset log (to_num (default VUndef (ds_data d !! j))) sc hop - zero))%num.

Definition value_points (d : dataset) : list (num * num) := map (fun j => (chart_x d j, chart_y d j)) (valued d).

Definition polyline (l : list (num * num)) : list canvas_op :=
  match l with
  | [] => []
  | p :: l => MoveTo p.1 p.2 :: map (fun p => LineTo p.1 p.2) l
  end.

(** The line, down to the zero line, and along it back to its first point. *)
Definition closed_area (d : dataset) : list canvas_op :=
  match value_points d with
  | [] => []
  | p :: l => polyline (p :: l) ++ [LineTo (List.last l p).1 (base_line d); LineTo p.1 (base_line d); ClosePath]
  end.

(** A line is stroked once, perhaps after parts of it. *)
Definition strokes_line (d : dataset) (ss : list (list canvas_op)) : Prop :=
  let p := polyline (value_points d) in exists parts, ss = parts ++ [p] /\ Forall (fun q => q `prefix_of` p) parts.

Lemma point_stat_place (i : nat) (d : dataset) (j : nat) : ds !! i = Some d -> j ∈ valued d ->
  point_xy (lc_stats lc) i j = (chart_x d j, chart_y d j) /\
  (fnum (point_stat (lc_stats lc) i j) "xAxisPosY" - fnum (point_stat (lc_stats lc) i j) "zeroY")%num = base_line d.
Proof.
  intros Hd [Hseq%in_seq Hv]%list_elem_of_In%filter_In.
  destruct (lookup_lt_is_Some_2 (ds_data d) j ltac:(lia)) as [value Hj].
  destruct (point_known i d j value Hd Hj) as (o & Ho & [(x & Hx & Hpos) (Hax & Hz & Hy) Hh] & _).
  unfold point_xy, point_stat, y_at, fnum. rewrite Ho. change (default ∅ (Some o)) with o.
  unfold has_value in Hv. rewrite Hj in Hv. apply negb_true_iff in Hv. rewrite Hx, Hax, Hz, Hy, (Hh Hv).
  split; [|done]. unfold chart_x, chart_y, base_line. rewrite Hpos, Hj. cbn [to_num ok_or].
  change (default VUndef (Some value)) with value. by destruct (axis_vars (lc_vars lc) d) as [[[hop zero] sc] log].
Qed.

Lemma line_path_polyline (i : nat) (d : dataset) (l : list nat) : ds !! i = Some d -> (forall j, j ∈ l -> j ∈ valued d) ->
  line_path (lc_stats lc) i l = polyline (map (fun j => (chart_x d j, chart_y d j)) l).
Proof.
  intros Hd Hl. destruct l as [|j l]; [done|]. cbn [line_path map polyline].
  rewrite (proj1 (point_stat_place i d j Hd ltac:(apply Hl; left))). f_equal. rewrite map_map.
  apply map_ext_in. intros k Hk. rewrite (proj1 (point_stat_place i d k Hd ltac:(apply Hl; right; by apply list_elem_of_In))).
  done.
Qed.

Lemma joined_valued (i : nat) (d : dataset) : ds !! i = Some d -> plain_dataset d ->
  joined (lc_stats lc) i d = valued d.
Proof.
  intros Hd Hpd. destruct (dataset_ready i d Hd Hpd) as (f & e & Hf & He & Hr).
  destruct (is_a_line _ _ _ _ _ _ Hr) as (o & Ho & _ & E1 & E2). pose proof (in_order _ _ _ _ _ _ Hr).
  pose proof (few_points _ _ _ _ _ _ Hr). unfold joined, point_stat. rewrite Ho. change (default ∅ (Some o)) with o.
  rewrite E1, E2. unfold position. change (to_num (VInt ?z)) with (of_Z z).
  rewrite !index_of_num_of_Z by (unfold safe; lia). rewrite !Nat2Z.id.
  exact (filter_seq_middle _ _ _ _ Hf He).
Qed.

Lemma point_stat_base (i : nat) (d : dataset) (j k : nat) : ds !! i = Some d ->
  (j < length (ds_data d))%nat -> (k < length (ds_data d))%nat ->
  (fnum (point_stat (lc_stats lc) i j) "xAxisPosY" - fnum (point_stat (lc_stats lc) i k) "zeroY")%num = base_line d.
Proof.
  intros Hd [v Hv]%lookup_lt_is_Some_2 [w Hw]%lookup_lt_is_Some_2.
  destruct (point_known i d j v Hd Hv) as (o & Ho & [_ (Hax & _) _] & _).
  destruct (point_known i d k w Hd Hw) as (o' & Ho' & [_ (_ & Hz & _) _] & _).
  unfold point_stat, fnum. rewrite Ho, Ho'. change (default ∅ (Some ?x)) with x. by rewrite Hax, Hz.
Qed.

Lemma area_closed (i : nat) (d : dataset) : ds !! i = Some d -> plain_dataset d ->
  area_path (lc_stats lc) i (joined (lc_stats lc) i d) = closed_area d.
Proof.
  intros Hd Hpd. rewrite (joined_valued i d Hd Hpd). unfold closed_area, value_points, area_path.
  pose proof (line_path_polyline i d (valued d) Hd ltac:(done)) as Hpath.
  assert (Hin : forall j, j ∈ valued d -> (j < length (ds_data d))%nat /\
            fnum (point_stat (lc_stats lc) i j) "xPos" = chart_x d j).
  { intros j Hj. split; [|exact (f_equal fst (proj1 (point_stat_place i d j Hd Hj)))].
    apply list_elem_of_In, filter_In in Hj as [Hj%in_seq _]. lia. }
  destruct (valued d) as [|j l] eqn:Hv; [done|]. rewrite Hpath. cbn [map].
  destruct (Hin j ltac:(left)) as [Hlt Hx]. rewrite Hx, !(point_stat_base i d) by (done || lia). f_equal. f_equal.
  assert (Hlast : List.last (j :: l) j ∈ j :: l).
  { destruct (exists_last (l := j :: l)) as (l' & x & ->); [done|]. rewrite List.last_last. apply elem_of_app. right. left. }
  f_equal. rewrite (proj2 (Hin _ Hlast)). destruct l as [|k l]; [done|].
  assert (Hm : forall (l : list nat) k a, List.last (map (fun j => (chart_x d j, chart_y d j)) (k :: l)) a =
                 (chart_x d (List.last (k :: l) j), chart_y d (List.last (k :: l) j))).
  { clear. intros l. induction l as [|x l IH]; intros k a; [done|]. exact (IH x a). }
  by rewrite (Hm l k).
Qed.

Lemma filled_areas : (forall i d, ds !! i = Some d -> plain_dataset d) ->
  concat (map (area_of cfg (lc_stats lc)) (imap pair ds)) =
    if truthy cfg.["datasetFill"] then map closed_area ds else [].
Proof.
  intros Hd. unfold area_of. destruct (truthy cfg.["datasetFill"]).
  - assert (Hsingle : forall (g : nat * dataset -> list canvas_op) l, concat (map (fun id => [g id]) l) = g <$> l).
    { intros g l. induction l as [|x l IH]; [done|]. cbn [map concat]. by rewrite IH. }
    rewrite (Hsingle (fun id => area_path (lc_stats lc) id.1 (joined (lc_stats lc) id.1 id.2))), fmap_imap.
    etransitivity; [|exact (imap_const closed_area ds)]. apply imap_ext. intros i d Hi. by apply area_closed, (Hd i).
  - by induction (imap pair ds).
Qed.

(** C4: a line chart shows its data.  When it was prepared for its animation and
    lines are drawn straight (the pages' setting), its last frame strokes, for every
    dataset, the polyline through the places of the values it has, in their order and
    leaving none out, and nothing but parts of these lines; with areas, it fills the
    area between each line and the zero line.  The place of a value is its abscissa
    and its distance from the zero line on the scale of its axis; the datasets are those
    of the page, missing points added at their ends. *)
Theorem line_chart_shows_data :
  Forall plain_dataset ds ->
  (single_point data = false -> ds = map (pad_dataset Line (length (labels data))) (datasets data)) /\
  exists t, drawLinesDataset callback eval_template measureText s align0 baseline0 cfg (lc_data lc) (lc_stats lc)
              (of_Z 1) no_tracing = (t, Ok tt) /\
    (exists sss, stroked (pen_after no_pen (drawn t)) = concat sss /\ Forall2 strokes_line ds sss) /\
    filled (pen_after no_pen (drawn t)) = if truthy cfg.["datasetFill"] then map closed_area ds else [].
Proof.
  intros Hall. assert (Hd : forall i d, ds !! i = Some d -> plain_dataset d) by (intros; by eapply Forall_lookup).
  split.
  { intros Hs. pose proof Hp as Hp'. apply prepare_line_prepared in Hp' as [(? & ? & [_ Hl]%axes_labels & _) _ _ _ _ _].
    unfold ds. rewrite Hl. unfold adapt_single. by rewrite Hs. }
  destruct (lines_through_points callback eval_template measureText s align0 baseline0 cfg (lc_data lc) (lc_stats lc) Hc)
    as (t & Ht & (sss & Hs & Hss) & Hf & _).
  { intros i d Hi. destruct (dataset_ready i d Hi (Hd i d Hi)) as (f & e & _ & _ & Hr). by exists f, e. }
  exists t. split; [done|]. split.
  - exists sss. split; [done|]. fold ds in Hss. apply Forall2_same_length_lookup.
    apply Forall2_same_length_lookup in Hss as [Hlen Hss]. rewrite length_imap in Hlen. split; [done|].
    intros i d ss Hi Hsi. destruct (Hss i (i, d) ss) as (parts & -> & Hparts); [by rewrite list_lookup_imap, Hi|done|].
    exists parts. cbn [fst snd] in Hparts |- *. rewrite (joined_valued i d Hi (Hd i d Hi)) in Hparts |- *.
    rewrite (line_path_polyline i d) in Hparts |- * by done. done.
  - rewrite Hf. fold ds. by apply filled_areas.
Qed.

End Shown.

(** *** A chart of a page *)

(** What the hypotheses of the theorems ask of the sample chart. *)
Definition sample_facts (lc : line_chart) : list jsval * list dataset * list bool :=
  (map (prop (lc_config lc)) ["bezierCurve"; "inGraphDataShow"; "annotateDisplay"; "datasetStrokeStyle";
      "defaultStrokeColor"; "defaultFillColor"],
   datasets (lc_data lc), map (fun k => truthy (lc_config lc).[k]) ["pointDot"; "datasetFill"]).

Lemma sample_chart_known : exists ops lc, sample_prepare (sample_page []) sample_samples = Ok (ops, Some lc) /\
  sample_facts lc = ([VBool false; VBool false; VBool false; VStr "solid"; VStr "rgba(220,220,220,1)";
                      VStr "rgba(220,220,220,0.5)"], [sample_dataset [VInt 12; VInt 40; VInt 26]], [false; true]).
Proof. apply known_chart. vm_compute. reflexivity. Qed.

Lemma sample_plain (lc : line_chart) f : sample_facts lc = ([VBool false; VBool false; VBool false; VStr "solid";
    VStr "rgba(220,220,220,1)"; VStr "rgba(220,220,220,0.5)"], f, [false; true]) -> plain_lines (lc_config lc).
Proof.
  unfold sample_facts. cbn [map]. intros Hf. injection Hf as E1 E2 E3 E4 E5 E6 _ E7 _.
  split; [| |split| | |]; rewrite ?E1, ?E2, ?E3, ?E4, ?E5, ?E6, ?E7; done.
Qed.

Lemma sample_dataset_plain (lc : line_chart) : plain_dataset lc (sample_dataset [VInt 12; VInt 40; VInt 26]).
Proof.
  split.
  - repeat split; vm_compute; discriminate.
  - cbn [sample_dataset ds_data length]. lia.
  - vm_compute. discriminate.
  - right. intros a j b _ [Hb%in_seq _]%list_elem_of_In%filter_In Hj. cbn [sample_dataset ds_data length] in Hb.
    assert (j < 3)%nat by lia. destruct j as [|[|[|j]]]; [vm_compute; reflexivity..|lia].
Qed.

Lemma line_chart_shows_data_witness :
  exists ops lc t, sample_prepare (sample_page []) sample_samples = Ok (ops, Some lc) /\
    drawLinesDataset (H := sample_math) (fun _ _ _ _ _ => Ok VUndef) (fun s _ => Ok s) (fun _ _ => of_Z 20)
      unit_scales "start" "alphabetic" (lc_config lc) (lc_data lc) (lc_stats lc) (of_Z 1) no_tracing = (t, Ok tt) /\
    filled (pen_after no_pen (drawn t)) =
      [closed_area (H := sample_math) VUndef VUndef lc (sample_dataset [VInt 12; VInt 40; VInt 26])].
Proof.
  destruct sample_chart_known as (ops & lc & Hp & Hf). exists ops, lc.
  pose proof (sample_plain lc _ Hf) as Hc. assert (Hd : datasets (lc_data lc) = [sample_dataset [VInt 12; VInt 40; VInt 26]]).
  { exact (f_equal (fun f => f.1.2) Hf). }
  destruct (line_chart_shows_data (H := sample_math) _ _ _ _ _ "start" "alphabetic" _ _ _ _ _ _ _ _ _ ops lc Hp Hc)
    as (_ & t & Ht & _ & Hfill).
  - rewrite Hd. constructor; [apply sample_dataset_plain|constructor].
  - exists t. split; [exact Hp|]. split; [exact Ht|]. rewrite Hfill, Hd.
    by rewrite (f_equal (fun f => nth 1 f.2 false) Hf : truthy (lc_config lc).["datasetFill"] = true).
Defined.
