(* ===== verification/Bars.v ===== *)
(** * Bars (ChartNew.js)

    What the four functions that draw bars share: the bounds of stacked data, the
    widths of bars, the paths of bars, their texts, and the loops over them.
    [VerticalBars] and [HorizontalBars] have the functions. *)

From stdpp Require Import base list strings gmap.
From Stdlib Require Import ZArith Lia SpecFloat.
From S2P Require Import Prelude Num Binary64 Value Options OptionValue Format Scale Easing Animation.
From S2P Require Import Stats Canvas Cross Legend Layout Axes Points Lines LineChart.

Open Scope string_scope.
Open Scope list_scope.
Open Scope Z_scope.

(** ** The bounds of stacked data *)

(** The ends of the stacks at a position while they grow, and the extremes of all
    ends so far. *)
Record stack_scan : Type := {
  scan_p : num;
  scan_n : num;
  upperValue : num;
  lowerValue : num
}.

Definition grow_stack (st : stack_scan) (value : jsval) : stack_scan :=
  if is_undefined value then st
  else
    let x := as_num value in
    let bound y := (if (y > upperValue st)%num then y else upperValue st,
                    if (y < lowerValue st)%num then y else lowerValue st) in
    if (x > n0)%num then
      let y := (scan_p st + x)%num in
      {| scan_p := y; scan_n := scan_n st; upperValue := (bound y).1; lowerValue := (bound y).2 |}
    else
      let y := (scan_n st + x)%num in
      {| scan_p := scan_p st; scan_n := y; upperValue := (bound y).1; lowerValue := (bound y).2 |}.

(** The datasets whose values are stacked for dataset [i], in the order in which
    they are visited. *)
Definition stack_order (i : nat) : list nat := 0%nat :: rev (seq 1 i).

Definition value_of (ds : list dataset) (k j : nat) : jsval := default VUndef (ds !! k ≫= fun d => ds_data d !! j).

Definition scan_stack (ds : list dataset) (i : nat) (e : num * num) (j : nat) : num * num :=
  let st := fold_left grow_stack (map (fun k => value_of ds k j) (stack_order i))
              {| scan_p := n0; scan_n := n0; upperValue := e.1; lowerValue := e.2 |} in
  (upperValue st, lowerValue st).

Definition scan_stacks (ds : list dataset) : num * num :=
  fold_left (fun e id => fold_left (scan_stack ds id.1) (seq 0 (length (ds_data id.2))) e)
    (imap pair ds) (neg_MAX_VALUE, MAX_VALUE).

(** How many labels fit beside the chart, at most and at least. *)
Definition label_room (chartTextScale : num) (c : config) (availableHeight : num) : num * num :=
  let labelHeight := Math_ceil (chartTextScale * fnum c "scaleFontSize")%num in
  (Math_floor (availableHeight / (labelHeight * lit 66 (-2))), Math_floor (availableHeight / labelHeight * lit 5 (-1)))%num.

Definition one_axis_bounds (up low : num) (room : num * num) : bounds :=
  {| maxValue := up; minValue := low; maxValue2 := NaN; minValue2 := NaN; dbAxis := false;
     maxSteps := room.1; minSteps := room.2 |}.

Section Bounds.

Context (callback : positive -> string -> Z -> Z -> jsval -> res jsval).
Context (c : config) (chartTextScale availableHeight : num) (data : chart_data).

Let limit (k reference : string) (computed : num) : res num :=
  limit_option callback c.[k] reference nullValue computed.

(** [getValueBounds] of stacked bars: limits come before the checks of the range. *)
Definition stacked_bounds : res bounds :=
  let '(up, low) := scan_stacks (datasets data) in
  let* low := limit "graphMin" "GRAPHMIN" low in
  let* up := limit "graphMax" "GRAPHMAX" up in
  let '(up, low) := normalise_range (fnum c "zeroValue") {| upper := up; lower := low; seen := true |} in
  Ok (one_axis_bounds up low (label_room chartTextScale c availableHeight)).

Definition extend_plain (e : num * num) (v : jsval) : num * num :=
  if is_undefined v then e
  else let x := as_num v in (if (x > e.1)%num then x else e.1, if (x < e.2)%num then x else e.2).

(** [getValueBounds] of horizontal bars, which have one axis. *)
Definition horizontal_bounds : res bounds :=
  let '(up, low) := fold_left (fun e d => fold_left extend_plain (ds_data d) e) (datasets data)
                      (neg_MAX_VALUE, MAX_VALUE) in
  let '(up, low) := normalise_range (fnum c "zeroValue") {| upper := up; lower := low; seen := true |} in
  let* low := limit "graphMin" "GRAPHMIN" low in
  let* up := limit "graphMax" "GRAPHMAX" up in
  Ok (one_axis_bounds up low (label_room chartTextScale c availableHeight)).

End Bounds.

(** A bar is at least one pixel wide. *)
Definition at_least_one (w : num) : num :=
  let w := if (w >= n0)%num && (w <= of_Z 1)%num then of_Z 1 else w in
  if (w < n0)%num && (w >= of_Z (-1))%num then of_Z (-1) else w.

Section Bars.

Context `{MathLib}.
Context (callback : positive -> string -> Z -> Z -> jsval -> res jsval).
Context (eval_template : string -> list (string * jsval) -> res string).
Context (measureText : string -> string -> num).
Context (s : ctx_scales) (align0 baseline0 : string).
Context (c : config) (data : chart_data) (statData : gmap (nat * nat) config) (barWidth : num).

(** ** One bar *)

Definition bar_value (d : dataset) (j : nat) : jsval := default VUndef (ds_data d !! j).

(** How much of a bar is drawn. *)
Definition bar_progress (animPc : num) (i j : nat) : tracer num :=
  let! p := eff_lift (animationCorrection animPc data c (Z.of_nat i) (Z.of_nat j) 1) in
  eff_ret (if (animVal p > of_Z 1)%num then (animVal p - of_Z 1)%num else animVal p).

(** The colours of a bar, which may depend on the area it covers. *)
Definition bar_styles (i j : nat) (d : dataset) (m : num) (left bottom right top : jsval) : tracer unit :=
  let! color := point_option callback c (of_Z 1) "COLOR" (ds_props d).["fillColor"] "defaultFillColor" i (Z.of_nat j)
    (VObj [("animationValue", VNum m); ("xPosLeft", left); ("yPosBottom", bottom);
           ("xPosRight", right); ("yPosTop", top)]) in
  do! emit [SetFillStyle color] in
  let! stroke := point_option callback c (of_Z 1) "STROKECOLOR" (ds_props d).["strokeColor"] "defaultStrokeColor"
                   i (Z.of_nat j) nullvalue in
  emit [SetStrokeStyle stroke].

Definition bar_dash (i j : nat) (d : dataset) : tracer (list Z) :=
  let! dash := point_option callback c (of_Z 1) "STROKESTYLE" (ds_props d).["datasetStrokeStyle"] "datasetStrokeStyle"
                 i (Z.of_nat j) nullvalue in
  eff_ret (lineStyleFn (to_str dash)).

(** A path that is stroked, if bars have strokes, and filled. *)
Definition fill_bar (i j : nat) (d : dataset) (outline : list canvas_op) : tracer unit :=
  do! emit (BeginPath :: outline) in
  do! eff_when (truthy c.["barShowStroke"]) (
    let! dash := bar_dash i j d in emit [SetLineDash dash; Stroke; SetLineDash []]) in
  emit [ClosePath; FillOp].

(** *** The ends of a stacked bar *)

(** [statData[k][j]] for the first dataset [k] with a value at the position. *)
Definition first_of_stack (o : config) (j : nat) : tracer config :=
  eff_lift (match index_of_num (fnum o "firstNotMissing") with
            | Some k => match statData !! (k, j) with Some f => Ok f | None => Throw TypeError end
            | None => Throw TypeError
            end).

(** Upwards: the fields [from] and [to] are ordinates. *)
Definition grown_up (base from to m : num) : num * num :=
  (base - m * (base - from), base - m * (base - to))%num.

(** To the right. *)
Definition grown_right (base from to m : num) : num * num :=
  (base + m * (from - base), base + m * (to - base))%num.

Definition stack_ends (grown : num -> num -> num -> num -> num * num) (from to : string) (o : config) (j : nat) (m : num)
    : tracer (num * num) :=
  if truthy c.["animationByDataset"] then
    eff_ret (fnum o from, (fnum o from + m * (fnum o to - fnum o from))%num)
  else
    let! f := first_of_stack o j in
    eff_ret (grown (fnum f from) (fnum o from) (fnum o to) m).

(** Missing values and zeros are not drawn in stacks. *)
Definition no_bar (d : dataset) (j : nat) : bool :=
  is_undefined (bar_value d j) || (as_num (bar_value d j) == n0)%num.

(** ** The text of a bar *)

(** The abscissa of the text, for three positions. *)
Definition text_x (i j : nat) (a b e : num) : tracer num :=
  let! pos := text_option callback c (of_Z 1) "INGRAPHDATAXPOSITION" "inGraphDataXPosition" i (Z.of_nat j) in
  let at_ x := let! p := text_option callback c (ctx_space s) "INGRAPHDATAPADDINGX" "inGraphDataPaddingX" i (Z.of_nat j) in
               eff_ret (to_num (js_add (VNum x) p)) in
  if loose_eq pos (VInt 1) then at_ a
  else if loose_eq pos (VInt 2) then at_ b
  else if loose_eq pos (VInt 3) then at_ e
  else eff_ret n0.

(** The ordinate, by the padding. *)
Definition text_y (i j : nat) (a b e : num -> num) : tracer num :=
  let! pos := text_option callback c (of_Z 1) "INGRAPHDATAYPOSITION" "inGraphDataYPosition" i (Z.of_nat j) in
  let at_ (y : num -> num) :=
    let! p := text_option callback c (ctx_space s) "INGRAPHDATAPADDINGY" "inGraphDataPaddingY" i (Z.of_nat j) in
    eff_ret (y (to_num p)) in
  if loose_eq pos (VInt 1) then at_ a
  else if loose_eq pos (VInt 2) then at_ b
  else if loose_eq pos (VInt 3) then at_ e
  else eff_ret n0.

(** The order of the steps of a text that is laid out before its string is read. *)
Definition placed_text (i j : nat) (o : config) (place : tracer (num * num)) : tracer unit :=
  do! emit [Save] in
  let! style := data_text_style callback s align0 baseline0 c i (Z.of_nat j) in
  do! emit [BeginPath] in
  let! xy := place in
  do! emit [Translate xy.1 xy.2] in
  let! dispString := text_string callback eval_template c i (Z.of_nat j) o in
  do! turn_text callback c i (Z.of_nat j) in
  do! boxed_text callback measureText s c i (Z.of_nat j) style.1.1 style.1.2 style.2 dispString in
  emit [Restore].

(** The order of stacked bars: the string is read first; [visible] tells the
    positions at which it is shown. *)
Definition stacked_text (i j : nat) (o : config) (before : list canvas_op) (place : tracer (num * num))
    (visible : num * num -> bool) : tracer unit :=
  do! emit [Save] in
  let! style := data_text_style callback s align0 baseline0 c i (Z.of_nat j) in
  let! dispString := text_string callback eval_template c i (Z.of_nat j) o in
  do! emit before in
  let! xy := place in
  do! eff_when (visible xy) (
    do! emit [Translate xy.1 xy.2] in
    do! turn_text callback c i (Z.of_nat j) in
    boxed_text callback measureText s c i (Z.of_nat j) style.1.1 style.1.2 style.2 dispString) in
  emit [Restore].

(** ** All bars *)

(** [for (i ...) for (j ...)] over the datasets that are drawn as bars. *)
Definition each_bar (skip : dataset -> bool) (f : nat -> dataset -> nat -> tracer unit) : tracer unit :=
  eff_iter (fun id => if skip id.2 then eff_ret tt
                      else eff_iter (f id.1 id.2) (seq 0 (length (ds_data id.2))))
    (imap pair (datasets data)).

(** The texts and annotations of the last frames. *)
Definition label_bars (skip : dataset -> bool) (animPc : num) (draw : nat -> nat -> config -> tracer unit) : tracer unit :=
  eff_when (animPc >= fnum c "animationStopValue")%num
    (each_bar skip (fun i d j =>
       label_with callback c (let! o := stat_Z statData i (Z.of_nat j) in draw i j o) i d j)).

Definition all_bars (d : dataset) : bool := false.

End Bars.
