(* ===== verification/StackBounds.v ===== *)
(** * The bounds of stacked bars (ChartNew.js)

    [getValueBounds] of stacked bars visits the datasets of a stack in another order
    than [initPassVariableData_part2] piles them up, and treats zero differently.
    For integers, where sums do not depend on the order, the bounds contain the end
    of every bar. *)

From stdpp Require Import base list strings gmap.
From Stdlib Require Import ZArith Lia SpecFloat Reals Lra.
From S2P Require Import Prelude Num Binary64 Value Options OptionValue Format Scale Easing Animation.
From S2P Require Import Stats Canvas Legend Layout Axes Points Lines LineChart Bars.

Open Scope string_scope.
Open Scope list_scope.
Open Scope Z_scope.

(** ** Sums of integers *)

Fixpoint pos_sum (l : list Z) : Z := match l with [] => 0 | z :: l => Z.max z 0 + pos_sum l end.
Fixpoint neg_sum (l : list Z) : Z := match l with [] => 0 | z :: l => Z.min z 0 + neg_sum l end.
Fixpoint abs_sum (l : list Z) : Z := match l with [] => 0 | z :: l => Z.abs z + abs_sum l end.

Lemma sums_app (l1 l2 : list Z) : pos_sum (l1 ++ l2) = pos_sum l1 + pos_sum l2 /\
  neg_sum (l1 ++ l2) = neg_sum l1 + neg_sum l2 /\ abs_sum (l1 ++ l2) = abs_sum l1 + abs_sum l2.
Proof. induction l1 as [|z l1 IH]; cbn [app pos_sum neg_sum abs_sum]; lia. Qed.

Lemma sums_permutation (l1 l2 : list Z) : l1 ≡ₚ l2 ->
  pos_sum l1 = pos_sum l2 /\ neg_sum l1 = neg_sum l2 /\ abs_sum l1 = abs_sum l2.
Proof. induction 1; cbn [pos_sum neg_sum abs_sum]; lia. Qed.

Lemma sums_bounded (l : list Z) : 0 <= pos_sum l <= abs_sum l /\ - abs_sum l <= neg_sum l <= 0.
Proof. induction l as [|z l IH]; cbn [pos_sum neg_sum abs_sum]; lia. Qed.

Lemma as_num_VInt (z : Z) : safe z -> as_num (VInt z) = of_Z z.
Proof.
  intros Hz. unfold as_num. cbn [to_num VInt]. destruct (decide (z = 0)) as [->|Hne]; [done|].
  rewrite nmul_of_Z by (unfold safe in *; lia). f_equal. lia.
Qed.

(** ** Stacks that grow *)

(** The extent of a stack's ends so far. *)
Definition ends_of (e : num * num) : extent := {| upper := e.1; lower := e.2; seen := true |}.
Definition scan_extent (st : stack_scan) : extent := ends_of (upperValue st, lowerValue st).

Lemma nlt_false (x y : num) : ordered x -> ordered y -> (x < y)%num = false -> (B2X y <= B2X x)%R.
Proof.
  intros Ox Oy Hf. apply Rnot_lt_le. intros Hlt. apply (nlt_spec x y Ox Oy) in Hlt. congruence.
Qed.

Lemma upper_bound (a y : num) : ordered a -> ordered y ->
  let m := if (y > a)%num then y else a in ordered m /\ (B2X a <= B2X m)%R /\ (B2X y <= B2X m)%R.
Proof.
  intros Oa Oy. change (y > a)%num with (a < y)%num. cbv zeta. destruct (a < y)%num eqn:Hlt; (split; [assumption|]).
  - pose proof (proj1 (nlt_spec _ _ Oa Oy) Hlt). split; lra.
  - pose proof (nlt_false _ _ Oa Oy Hlt). split; lra.
Qed.

Lemma lower_bound (a y : num) : ordered a -> ordered y ->
  let m := if (y < a)%num then y else a in ordered m /\ (B2X m <= B2X a)%R /\ (B2X m <= B2X y)%R.
Proof.
  intros Oa Oy. cbv zeta. destruct (y < a)%num eqn:Hlt; (split; [assumption|]).
  - pose proof (proj1 (nlt_spec _ _ Oy Oa) Hlt). split; lra.
  - pose proof (nlt_false _ _ Oy Oa Hlt). split; lra.
Qed.

Lemma ends_bound (e : num * num) (y : num) : proper_extent (ends_of e) -> ordered y ->
  let e' := ends_of (if (y > e.1)%num then y else e.1, if (y < e.2)%num then y else e.2) in
  proper_extent e' /\ wider (ends_of e) e' /\ inside e' y.
Proof.
  intros [Ou Ol] Oy. cbn [ends_of upper lower] in Ou, Ol.
  destruct (upper_bound e.1 y Ou Oy) as (U1 & U2 & U3), (lower_bound e.2 y Ol Oy) as (L1 & L2 & L3).
  split; [by split|]. split; [split; [exact L2|split; [exact U2|done]]|]. split; [split; [exact L3|exact U3]|done].
Qed.

(** The state of the scan after the values [l]: the ends of the two stacks, within
    the extent if they have values. *)
Record scanned (e0 : extent) (l : list Z) (st : stack_scan) : Prop := {
  at_ends : scan_p st = of_Z (pos_sum l) /\ scan_n st = of_Z (neg_sum l);
  scan_proper : proper_extent (scan_extent st);
  scan_wider : wider e0 (scan_extent st);
  pos_inside : forall z, z ∈ l -> 0 < z -> inside (scan_extent st) (scan_p st);
  neg_inside : forall z, z ∈ l -> z <= 0 -> inside (scan_extent st) (scan_n st)
}.

Lemma scanned_grow (e0 : extent) (l : list Z) (z : Z) (st : stack_scan) : abs_sum (l ++ [z]) < 2 ^ 53 ->
  scanned e0 l st -> scanned e0 (l ++ [z]) (grow_stack st (VInt z)).
Proof.
  intros Hsmall [[Hp Hn] Hproper Hwider Hpos Hneg].
  destruct (sums_app l [z]) as (Sp & Sn & Sa). cbn [pos_sum neg_sum abs_sum] in Sp, Sn, Sa.
  pose proof (sums_bounded l). assert (Hz : safe z) by (unfold safe; lia).
  unfold grow_stack. cbn [is_undefined VInt]. rewrite as_num_VInt by done.
  change (of_Z z > n0)%num with (of_Z 0 < of_Z z)%num. rewrite nlt_of_Z by (done || unfold safe; lia).
  assert (Hmem : forall y, y ∈ l ++ [z] -> y ∈ l \/ y = z).
  { intros y [Hy|Hy%list_elem_of_singleton]%elem_of_app; auto. }
  destruct (Z.ltb_spec 0 z) as [Hpz|Hnz].
  - rewrite Hp, nadd_of_Z by (unfold safe; lia).
    destruct (ends_bound (upperValue st, lowerValue st) (of_Z (pos_sum l + z)) Hproper (of_Z_ordered _)) as (P & W & I).
    split; cbn [scan_p scan_n]; [split; [f_equal; lia|rewrite Hn; f_equal; lia]|exact P|by eapply wider_trans| |].
    + intros y _ _. exact I.
    + intros y [Hy| ->]%Hmem Hle; [|lia]. eapply inside_wider; [|exact W]. by eapply Hneg.
  - rewrite Hn, nadd_of_Z by (unfold safe; lia).
    destruct (ends_bound (upperValue st, lowerValue st) (of_Z (neg_sum l + z)) Hproper (of_Z_ordered _)) as (P & W & I).
    split; cbn [scan_p scan_n]; [split; [rewrite Hp; f_equal; lia|f_equal; lia]|exact P|by eapply wider_trans| |].
    + intros y [Hy| ->]%Hmem Hle; [|lia]. eapply inside_wider; [|exact W]. by eapply Hpos.
    + intros y _ _. exact I.
Qed.

(** The values of a table. *)
Definition cell_value (o : option Z) : jsval := match o with Some z => VInt z | None => VUndef end.

Definition known (vs : list (option Z)) : list Z := omap (fun o : option Z => o) vs.

Lemma known_app (vs ws : list (option Z)) : known (vs ++ ws) = known vs ++ known ws.
Proof. apply omap_app. Qed.

Lemma scanned_values (e : num * num) (vs : list (option Z)) : proper_extent (ends_of e) -> abs_sum (known vs) < 2 ^ 53 ->
  scanned (ends_of e) (known vs)
    (fold_left grow_stack (map cell_value vs) {| scan_p := n0; scan_n := n0; upperValue := e.1; lowerValue := e.2 |}).
Proof.
  intros He. induction vs as [|o vs IH] using rev_ind; intros Hsmall.
  - split; cbn [scan_p scan_n]; [done|exact He|apply wider_refl|by intros z ?%elem_of_nil..].
  - rewrite known_app in Hsmall |- *. rewrite map_app, fold_left_app. cbn [map fold_left].
    destruct (sums_app (known vs) (known [o])) as (_ & _ & Sa). pose proof (sums_bounded (known [o])).
    specialize (IH ltac:(lia)). destruct o as [z|]; cbn [known omap list_omap cell_value] in *.
    + by apply scanned_grow.
    + by rewrite app_nil_r.
Qed.

(** ** All stacks *)

Section Table.

(** The data are integers and missing values: [table k j] is the value of dataset [k]
    at position [j]. *)
Context (ds : list dataset) (table : nat -> nat -> option Z).
Context (Htable : forall k j, value_of ds k j = cell_value (table k j)).

(** The values at a position of the first [n] datasets. *)
Definition column_of (n j : nat) : list Z := known (map (fun k => table k j) (seq 0 n)).

Context (Hsmall : forall j, abs_sum (column_of (length ds) j) < 2 ^ 53).

Lemma column_prefix (n j : nat) : (n <= length ds)%nat -> abs_sum (column_of n j) < 2 ^ 53.
Proof.
  intros Hn. pose proof (Hsmall j) as Hs. replace (length ds) with (n + (length ds - n))%nat in Hs by lia.
  unfold column_of in *. rewrite seq_app, map_app, known_app in Hs.
  destruct (sums_app (known (map (fun k => table k j) (seq 0 n)))
    (known (map (fun k => table k j) (seq (0 + n) (length ds - n))))) as (_ & _ & Sa).
  pose proof (sums_bounded (known (map (fun k => table k j) (seq (0 + n) (length ds - n))))). lia.
Qed.

Lemma column_step (n j : nat) : column_of (S n) j = column_of n j ++ known [table n j].
Proof. unfold column_of. by rewrite seq_S, map_app, known_app. Qed.

Lemma stack_order_all (i : nat) : stack_order i ≡ₚ seq 0 (S i).
Proof. unfold stack_order. cbn [seq]. by rewrite <- Permutation_rev. Qed.

Lemma visited_column (i j : nat) : known (map (fun k => table k j) (stack_order i)) ≡ₚ column_of (S i) j.
Proof. unfold column_of, known. by rewrite stack_order_all. Qed.

(** One stack: its extent grows, and contains the end of the bar of dataset [i]. *)
Definition bar_end (i j : nat) (z : Z) : num :=
  of_Z (if 0 <? z then pos_sum (column_of (S i) j) else neg_sum (column_of (S i) j)).

Lemma scan_stack_spec (i j : nat) (e : num * num) : (i < length ds)%nat -> proper_extent (ends_of e) ->
  proper_extent (ends_of (scan_stack ds i e j)) /\ wider (ends_of e) (ends_of (scan_stack ds i e j)) /\
  forall z, table i j = Some z -> inside (ends_of (scan_stack ds i e j)) (bar_end i j z).
Proof.
  intros Hi He. unfold scan_stack.
  replace (map (fun k => value_of ds k j) (stack_order i)) with (map cell_value (map (fun k => table k j) (stack_order i)))
    by (rewrite map_map; apply map_ext; intros k; by rewrite Htable).
  destruct (sums_permutation _ _ (visited_column i j)) as (Sp & Sn & Sa).
  destruct (scanned_values e (map (fun k => table k j) (stack_order i)) He) as [[Hp Hn] Hproper Hwider Hpos Hneg].
  { rewrite Sa. by apply column_prefix. }
  split; [exact Hproper|]. split; [exact Hwider|]. intros z Hz.
  assert (Hin : z ∈ known (map (fun k => table k j) (stack_order i))).
  { apply list_elem_of_omap. exists (Some z). split; [|done]. rewrite <- Hz.
    apply (elem_of_map_2 (fun k => table k j)). rewrite stack_order_all. apply elem_of_seq. lia. }
  unfold bar_end. destruct (Z.ltb_spec 0 z); [rewrite <- Sp, <- Hp; by eapply Hpos|rewrite <- Sn, <- Hn; by eapply Hneg].
Qed.

(** A loop whose steps widen an extent contains what one of its steps contains. *)
Lemma fold_widens {A} (step : num * num -> A -> num * num) (l : list A) (e : num * num) :
  (forall e x, x ∈ l -> proper_extent (ends_of e) ->
     proper_extent (ends_of (step e x)) /\ wider (ends_of e) (ends_of (step e x))) ->
  proper_extent (ends_of e) ->
  proper_extent (ends_of (fold_left step l e)) /\ wider (ends_of e) (ends_of (fold_left step l e)) /\
  forall x y, x ∈ l -> (forall e, proper_extent (ends_of e) -> inside (ends_of (step e x)) y) ->
    inside (ends_of (fold_left step l e)) y.
Proof.
  revert e. induction l as [|x l IH]; intros e Hstep He; cbn [fold_left].
  { split; [done|]. split; [apply wider_refl|]. by intros x y ?%elem_of_nil. }
  destruct (Hstep e x ltac:(by left) He) as [P W].
  destruct (IH (step e x)) as (P' & W' & I'); [intros e' x' Hx; apply Hstep; by right|done|].
  split; [done|]. split; [by eapply wider_trans|]. intros x' y [->|Hx]%elem_of_cons Hy; [|by eapply I'].
  eapply inside_wider; [by apply (Hy e He)|exact W'].
Qed.

Lemma scan_stacks_spec : proper_extent (ends_of (scan_stacks ds)) /\
  forall i j d z, ds !! i = Some d -> (j < length (ds_data d))%nat -> table i j = Some z ->
    inside (ends_of (scan_stacks ds)) (bar_end i j z).
Proof.
  assert (Hrow : forall i d e, ds !! i = Some d -> proper_extent (ends_of e) ->
    let e' := fold_left (scan_stack ds i) (seq 0 (length (ds_data d))) e in
    (proper_extent (ends_of e') /\ wider (ends_of e) (ends_of e')) /\
    forall j z, (j < length (ds_data d))%nat -> table i j = Some z -> inside (ends_of e') (bar_end i j z)).
  { intros i d e Hd He. apply lookup_lt_Some in Hd as Hi.
    destruct (fold_widens (scan_stack ds i) (seq 0 (length (ds_data d))) e) as (P & W & I); [|done|].
    { intros e' j _ He'. destruct (scan_stack_spec i j e' Hi He') as (? & ? & _). done. }
    split; [done|]. intros j z Hj Hz. apply (I j); [apply elem_of_seq; lia|]. intros e' He'.
    by apply (scan_stack_spec i j e' Hi He'). }
  assert (Hmem : forall i d, (i, d) ∈ imap pair ds -> ds !! i = Some d).
  { intros i d (k & d' & [= -> ->] & Hk)%elem_of_lookup_imap. done. }
  unfold scan_stacks.
  destruct (fold_widens (fun e id => fold_left (scan_stack ds id.1) (seq 0 (length (ds_data id.2))) e) (imap pair ds)
    (neg_MAX_VALUE, MAX_VALUE)) as (P & _ & I).
  - intros e [i d] Hin%Hmem He. exact (proj1 (Hrow i d e Hin He)).
  - split; split; done.
  - split; [exact P|]. intros i j d z Hd Hj Hz. apply (I (i, d)).
    + apply elem_of_lookup_imap. by exists i, d.
    + intros e He. by apply (Hrow i d e Hd He).
Qed.

(** ** The bars that are drawn *)

Lemma values_column (i j : nat) : (i <= length ds)%nat -> abs_sum (column_of i j) < 2 ^ 53 ->
  values_at (take i ds) j = map of_Z (column_of i j).
Proof.
  induction i as [|i IH]; intros Hi Hs; [done|].
  destruct (lookup_lt_is_Some_2 ds i ltac:(lia)) as [d Hd]. rewrite column_step in Hs |- *.
  destruct (sums_app (column_of i j) (known [table i j])) as (_ & _ & Sa).
  pose proof (sums_bounded (column_of i j)). pose proof (sums_bounded (known [table i j])).
  rewrite (take_S_r _ _ _ Hd), map_app. unfold values_at in *. rewrite omap_app, IH by lia. f_equal.
  cbn [omap list_omap]. pose proof (Htable i j) as Ht. unfold value_of in Ht. rewrite Hd in Ht. cbn [mbind option_bind] in Ht.
  destruct (ds_data d !! j) as [w|]; cbn [mbind option_bind default] in Ht |- *.
  - assert (w = cell_value (table i j)) as -> by exact Ht. unfold present.
    destruct (table i j) as [z|]; cbn [cell_value known omap list_omap map is_undefined VInt]; [|done].
    cbn [known omap list_omap abs_sum] in Sa, Hs. by rewrite as_num_VInt by (unfold safe; lia).
  - by destruct (table i j).
Qed.

(** The values of one side add up to its integer sum. *)
Lemma signed_sum (negative : bool) (a : Z) (l : list Z) : Z.abs a + abs_sum l < 2 ^ 53 ->
  sum_from (of_Z a) (List.filter (fun y => Bool.eqb (y < n0)%num negative) (map of_Z l)) =
  of_Z (a + if negative then neg_sum l else pos_sum l).
Proof.
  revert a. induction l as [|y l IH]; intros a Hs; cbn [abs_sum] in Hs.
  { unfold sum_from. cbn [map List.filter fold_left pos_sum neg_sum]. f_equal. destruct negative; lia. }
  pose proof (sums_bounded l). cbn [map List.filter pos_sum neg_sum].
  change (of_Z y < n0)%num with (of_Z y < of_Z 0)%num. rewrite nlt_of_Z by (unfold safe; lia).
  assert (Hadd : sum_from (of_Z a) (of_Z y :: List.filter (fun y => Bool.eqb (y < n0)%num negative) (map of_Z l)) =
                 sum_from (of_Z (a + y)) (List.filter (fun y => Bool.eqb (y < n0)%num negative) (map of_Z l))).
  { unfold sum_from. cbn [fold_left]. by rewrite nadd_of_Z by (unfold safe; lia). }
  destruct (Z.ltb_spec y 0), negative; cbn [Bool.eqb]; rewrite ?Hadd, IH by lia; f_equal; lia.
Qed.

(** Where the bar of a value ends. *)
Lemma drawn_end (i j : nat) (d : dataset) (z : Z) : ds !! i = Some d -> table i j = Some z -> z <> 0 ->
  (sum_from n0 (same_side (of_Z z) (values_at (take i ds) j)) + of_Z z)%num = bar_end i j z.
Proof.
  intros Hd Ht Hz. apply lookup_lt_Some in Hd as Hi. pose proof (column_prefix (S i) j ltac:(lia)) as Hs.
  unfold bar_end. rewrite column_step, Ht in Hs |- *. cbn [known omap list_omap] in Hs |- *.
  destruct (sums_app (column_of i j) [z]) as (Sp & Sn & Sa). cbn [pos_sum neg_sum abs_sum] in Sp, Sn, Sa.
  pose proof (sums_bounded (column_of i j)). rewrite values_column by lia. unfold same_side.
  change n0 with (of_Z 0) at 1. change (of_Z z < n0)%num with (of_Z z < of_Z 0)%num.
  rewrite (nlt_of_Z z 0) by (unfold safe; lia). rewrite signed_sum by lia. rewrite Z.add_0_l, Sp, Sn.
  destruct (Z.ltb_spec z 0), (Z.ltb_spec 0 z); try lia; rewrite nadd_of_Z by (unfold safe; lia); f_equal; lia.
Qed.


End Table.

(** *** Two stacks *)

Definition stacks_sample : list dataset := [
  {| ds_data := [VInt 3; VInt (-5)]; ds_props := ∅ |}; {| ds_data := [VInt 4; VUndef]; ds_props := ∅ |}].

Definition sample_table (k j : nat) : option Z :=
  match k, j with 0%nat, 0%nat => Some 3 | 0%nat, 1%nat => Some (-5) | 1%nat, 0%nat => Some 4 | _, _ => None end.

