(* ===== verification/VerticalBars.v ===== *)
(** * Vertical bars (ChartNew.js)

    [Bar] and [StackedBar]: everything before the animation, and the frames. *)

From stdpp Require Import base list strings gmap.
From Stdlib Require Import ZArith Lia SpecFloat.
From S2P Require Import Prelude Num Binary64 Value Options OptionValue Format Scale Easing Animation.
From S2P Require Import Stats Canvas Cross Legend Layout Axes Points Lines LineChart Bars.

Open Scope string_scope.
Open Scope list_scope.
Open Scope Z_scope.

(** A bar chart that is ready for its animation. *)
Record bar_chart : Type := {
  bc_config : config;
  bc_data : chart_data;
  bc_measures : measures;
  bc_bounds : bounds;
  bc_scale : scale;
  bc_scale2 : scale;
  bc_area : area;
  bc_barWidth : num;
  bc_vars : vars;
  bc_stats : gmap (nat * nat) config
}.

Definition bar_layout (horizontal : bool) : layout_kind :=
  {| reverseLegend_ := true; reverseAxis := horizontal; drawAxis := true; drawLegendOnData_ := true;
     legendBox_ := VBool true |}.

(** [data.datasets[i].type == "Line"] *)
Definition is_line_dataset (d : dataset) : bool := loose_eq (ds_props d).["type"] (VStr "Line").

(** [statData[i][0].tpchart = ...] for the datasets of a bar chart. *)
Fixpoint mark_types (i : nat) (ds : list dataset) (statData : gmap (nat * nat) config) : res (gmap (nat * nat) config) :=
  match ds with
  | [] => Ok statData
  | d :: ds =>
      match statData !! (i, 0%nat) with
      | Some o =>
          let t := if is_line_dataset d then VStr "Line" else VStr "Bar" in
          mark_types (S i) ds (<[(i, 0%nat) := <["tpchart" := t]> o]> statData)
      | None => Throw TypeError
      end
  end.

(** The number of datasets that are drawn as bars. *)
Definition nrOfBars (ds : list dataset) : Z :=
  Z.of_nat (length ds) - Z.of_nat (length (List.filter is_line_dataset ds)).

Section VerticalBars.

Context `{MathLib}.
Context (toLocaleTimeString : jsval -> string).
Context (callback : positive -> string -> Z -> Z -> jsval -> res jsval).
Context (eval_template : string -> list (string * jsval) -> res string).
Context (math_deviation : jsval -> option (nat -> num)).
Context (measureText : string -> string -> num).
Context (s : ctx_scales) (align0 baseline0 : string).
Context (width height canvas_width canvas_height : num).

Definition measure_bars (horizontal : bool) (t : chart_type) (c : config) (data : chart_data) (ylabels ylabels2 : axis_labels)
    : res (measures * list canvas_op) :=
  setMeasures toLocaleTimeString callback measureText s c t (bar_layout horizontal) width height canvas_width canvas_height
    (labels data) (map ds_props (datasets data)) ylabels ylabels2.

(** ** The scale *)

(** The scale of stacked bars that is given by options; it has a label for every
    step when labels have a template. *)
Definition given_scale (c : config) (template : string) : res scale :=
  let opt reference k := setOptionValue callback (of_Z 1) reference VUndef c.[k] (-1) (-1) nullValue in
  let* scaleStartValue := opt "SCALESTARTVALUE" "scaleStartValue" in
  let* scaleSteps := opt "SCALESTEPS" "scaleSteps" in
  let* scaleStepWidth := opt "SCALESTEPWIDTH" "scaleStepWidth" in
  let* n := loop_count (Math_floor (to_num scaleSteps) + of_Z 1)%num in
  let* ls :=
    if String.eqb template "" then Ok []
    else res_mapM (fun i => scale_label toLocaleTimeString eval_template c template (to_str c.["fmtYLabel"])
                              (to_num scaleStartValue + to_num scaleStepWidth * of_Z (Z.of_nat i))%num
                              (to_num scaleStepWidth)) (seq 0 n) in
  Ok {| steps := to_num scaleSteps; stepValue := to_num scaleStepWidth; graphMin := to_num scaleStartValue;
        scale_labels := ls |}.

(** The scale of stacked bars, whose bounds have room for steps. *)
Definition stacked_scale (fuel : nat) (c : config) (b : bounds) : res scale :=
  let template := if truthy c.["scaleShowLabels"] then to_str c.["scaleLabel"] else "" in
  if truthy c.["scaleOverride"] then given_scale c template
  else calculateScale toLocaleTimeString eval_template fuel 1 c (maxSteps b) (minSteps b) (maxValue b) (minValue b) template.

(** ** What is drawn *)

Section Drawing.

Context (c : config) (data : chart_data) (m : measures) (a : area) (sc sc2 : scale) (db : bool) (barWidth : num).

Let ln (k : string) : num := line s c k.
Let right : num := (a_yAxisPosX a + a_width a + ln "scaleTickSizeRight")%num.
Let x_of (i : nat) : num := (a_yAxisPosX a + of_Z (Z.of_nat i) * a_valueHop a)%num.

(** [drawScale]; [js] are the steps with a horizontal line. *)
Definition vertical_scale (js : list Z) : list canvas_op :=
  bar_scale s c a right
    (concat (map (fun i => bar_x_tick s c a (x_of i) i) (seq 0 (length (labels data)))) ++ [SetLineDash []])
    (concat (map (bar_y_tick s c a right) js)).

(** The labels of stacked bars are below the middle of the bars, those of bars
    below the middle of their position. *)
Definition stacked_labels : res (list canvas_op) :=
  drawLabels toLocaleTimeString s c m a
    (fun i => a_yAxisPosX a + space s c "barValueSpacing" + of_Z (Z.of_nat i) * a_valueHop a + barWidth / of_Z 2)%num
    (labels data) false sc no_scale.

Definition bar_labels : res (list canvas_op) :=
  drawLabels toLocaleTimeString s c m a (fun i => x_of i + a_valueHop a / of_Z 2)%num (labels data) db sc sc2.

(** *** Stacked bars *)

Context (statData : gmap (nat * nat) config).

Definition stacked_outline (left bottom right top : num) : list canvas_op :=
  [MoveTo left bottom; LineTo left top; LineTo right top; LineTo right bottom].

Definition draw_stacked_bar (animPc : num) (i : nat) (d : dataset) (j : nat) : tracer unit :=
  let! m := bar_progress c data animPc i j in
  if no_bar d j then eff_ret tt
  else
    let! o := stat_Z statData i (Z.of_nat j) in
    let! ends := stack_ends c statData grown_up "yPosBottom" "yPosTop" o j m in
    let '(botBar, topBar) := ends in
    do! bar_styles callback c i j d m o.["xPosLeft"] (VNum botBar) o.["xPosRight"] (VNum topBar) in
    eff_when (negb (m == n0)%num && negb (botBar == topBar)%num)
      (fill_bar callback c i j d (stacked_outline (fnum o "xPosLeft") botBar (fnum o "xPosRight") topBar)).

Let stacked_x (i j : nat) (o : config) : tracer num :=
  text_x callback s c i j (fnum o "xPosLeft") (fnum o "xPosLeft" + barWidth / of_Z 2)%num (fnum o "xPosLeft" + barWidth)%num.

Let stacked_y (i j : nat) (o : config) : tracer num :=
  text_y callback s c i j (fun p => fnum o "yPosBottom" - p)%num
    (fun p => (fnum o "yPosTop" + fnum o "yPosBottom") / of_Z 2 - p)%num (fun p => fnum o "yPosTop" - p)%num.

Definition draw_stacked_text (i j : nat) (o : config) : tracer unit :=
  stacked_text callback eval_template measureText s align0 baseline0 c i j o [BeginPath; BeginPath]
    (let! x := stacked_x i j o in let! y := stacked_y i j o in eff_ret (x, y))
    (fun xy => xy.2 > topNotUsableSize m)%num.

Definition stacked_drawing (animPc : num) : tracer unit :=
  do! emit [SetLineWidth (VNum (ln "barStrokeWidth"))] in
  do! each_bar data all_bars (draw_stacked_bar animPc) in
  label_bars callback c data statData all_bars animPc draw_stacked_text.

(** *** Bars *)

(** A bar with rounded upper corners; [fact] is -1 for a bar that grows downwards. *)
Definition roundRect (x y w h fact : num) (radius : jsval) : list canvas_op :=
  let r := to_num radius in
  let xr := to_num (js_add (VNum x) radius) in
  [MoveTo xr y; LineTo (x + w - r) y; QuadraticCurveTo (x + w) y (x + w) y;
   LineTo (x + w) (y - h + fact * r); QuadraticCurveTo (x + w) (y - h) (x + w - r) (y - h);
   LineTo xr (y - h); QuadraticCurveTo x (y - h) x (y - h + fact * r);
   LineTo x y; QuadraticCurveTo x y xr y]%num.

(** [data.datasets[i].data[j] < 0 ? -1 : 1] *)
Definition bar_sign (d : dataset) (j : nat) : num := if (to_num (bar_value d j) < n0)%num then of_Z (-1) else of_Z 1.

Definition draw_bar (animPc : num) (i : nat) (d : dataset) (j : nat) : tracer unit :=
  eff_when (negb (is_undefined (bar_value d j))) (
    let! m := bar_progress c data animPc i j in
    let! o := stat_Z statData i (Z.of_nat j) in
    let barHeight := (m * fnum o "barHeight" + ln "barStrokeWidth" / of_Z 2)%num in
    let x := fnum o "xPosLeft" in
    let y := fnum o "yPosBottom" in
    do! bar_styles callback c i j d m o.["xPosLeft"] o.["yPosBottom"] (VNum (x + barWidth)%num) (VNum (y - barHeight)%num) in
    do! emit [BeginPath] in
    let! dash := bar_dash callback c i j d in
    do! emit ([SetLineDash dash] ++ roundRect x y barWidth barHeight (bar_sign d j) c.["barBorderRadius"]) in
    emit ((if truthy c.["barShowStroke"] then [Stroke] else []) ++ [ClosePath; FillOp; SetLineDash []])).

Definition draw_bar_text (i j : nat) (o : config) : tracer unit :=
  placed_text callback eval_template measureText s align0 baseline0 c i j o (
    let! x := stacked_x i j o in
    let! y := text_y callback s c i j (fun p => fnum o "yPosBottom" - p)%num
                (fun p => (fnum o "yPosBottom" + fnum o "yPosTop") / of_Z 2 - p)%num (fun p => fnum o "yPosTop" - p)%num in
    eff_ret (x, y)).

(** The bars, then the datasets that are lines, then the texts of the bars. *)
Definition bar_drawing (animPc : num) : tracer unit :=
  do! emit [SetLineWidth (VNum (ln "barStrokeWidth"))] in
  do! each_bar data is_line_dataset (draw_bar animPc) in
  do! drawLinesDataset callback eval_template measureText s align0 baseline0 c data statData animPc in
  label_bars callback c data statData is_line_dataset animPc draw_bar_text.

End Drawing.

(** ** A stacked bar chart *)

(** What part2 reads of the variables of a chart of bars. *)
Definition bar_vars (a : area) (barWidth zeroY zeroY2 : num) (sc sc2 : scale) : vars := {|
  xAxisPosY := a_xAxisPosY a; yAxisPosX := a_yAxisPosX a; valueHop := a_valueHop a; nbValueHop := NaN;
  scaleHop := a_scaleHop a; zeroY := zeroY; calculatedScale := sc; logarithmic := VUndef;
  scaleHop2 := a_scaleHop2 a; zeroY2 := zeroY2; calculatedScale2 := sc2; logarithmic2 := VUndef;
  availableHeight := NaN; barWidth := barWidth; midPosX := NaN; midPosY := NaN; maxSize := NaN;
  int_radius := NaN; ext_radius := NaN |}.

Definition npoints_of (data : chart_data) : nat := length (default [] (ds_data <$> head (datasets data))).

Definition stacked_width (c : config) (a : area) : num :=
  at_least_one (a_valueHop a - line s c "scaleGridLineWidth" * of_Z 2 - space s c "barValueSpacing" * of_Z 2
                - line s c "barStrokeWidth" / of_Z 2 - of_Z 1)%num.

Definition prepare_stacked (fuel : nat) (xBegin xEnd : jsval) (c : config) (data : chart_data)
    : res (list canvas_op * option bar_chart) :=
  let* (stats, data) := initPassVariableData_axes toLocaleTimeString c StackedBar data in
  let c := <["logarithmic" := VBool false]> c in
  let* (m0, background) := measure_bars false StackedBar c data Nihil (Labels [""]) in
  let* b := stacked_bounds callback c (ctx_text s) (m_availableHeight m0) data in
  if room_for_steps b then
    let* sc := stacked_scale fuel c b in
    let* (m, around) := measure_bars false StackedBar c data (Labels (scale_labels sc)) NoLabels in
    let a := vertical_area s c (of_Z (Z.of_nat (length (labels data)))) m sc no_scale in
    let w := stacked_width c a in
    let* ls := stacked_labels c data m a sc w in
    let v := bar_vars a w NaN NaN sc no_scale in
    let* stats := initPassVariableData_part2 s c StackedBar (labels data) xBegin xEnd v (npoints_of data) stats
                    (datasets data) in
    Ok (background ++ around ++ ls,
        Some {| bc_config := c; bc_data := data; bc_measures := m; bc_bounds := b; bc_scale := sc; bc_scale2 := no_scale;
                bc_area := a; bc_barWidth := w; bc_vars := v; bc_stats := stats |})
  else Ok (background, None).

(** A frame: the scale, the data and the legend. *)
Definition frame_with (t : chart_type) (scale_ops : list canvas_op) (drawing : tracer unit) (bc : bar_chart)
    : res (list canvas_op * list (nat * nat)) :=
  let '(t', r) := drawing no_tracing in
  let* _ := r in
  let* legend := chart_legend toLocaleTimeString s (bc_config bc) (bc_measures bc) callback t (bc_data bc) in
  Ok (frame_order (bc_config bc) scale_ops (drawn t' ++ legend), annotated t').

Definition stacked_frame (bc : bar_chart) (animPc : num) : res (list canvas_op * list (nat * nat)) :=
  let* js := label_steps (bc_config bc) (bc_scale bc) in
  frame_with StackedBar (vertical_scale (bc_config bc) (bc_data bc) (bc_area bc) js)
    (stacked_drawing (bc_config bc) (bc_data bc) (bc_measures bc) (bc_barWidth bc) (bc_stats bc) animPc) bc.

(** ** A bar chart *)

Definition bar_width (c : config) (data : chart_data) (a : area) : num :=
  let n := of_Z (nrOfBars (datasets data)) in
  at_least_one ((a_valueHop a - line s c "scaleGridLineWidth" * of_Z 2 - space s c "barValueSpacing" * of_Z 2
                 - (space s c "barDatasetSpacing" * n - of_Z 1) - (line s c "barStrokeWidth" / of_Z 2 * n - of_Z 1)) / n)%num.

(** The bounds are those of a line chart with the same data. *)
Definition bar_bounds (c : config) (availableHeight : num) (data : chart_data) : res bounds :=
  getValueBounds callback math_deviation c (ctx_text s) availableHeight data.

(** The scales are those of a line chart with the same bounds. *)
Definition prepare_bar (fuel : nat) (xBegin xEnd : jsval) (c : config) (data : chart_data)
    : res (list canvas_op * option bar_chart) :=
  let* (stats, data) := initPassVariableData_axes toLocaleTimeString c Bar data in
  let* stats := mark_types 0 (datasets data) stats in
  let* (m0, background) := measure_bars false Bar c data Nihil (Labels [""]) in
  let* b := bar_bounds c (m_availableHeight m0) data in
  if room_for_steps b then
    let c := with_logarithmic c b in
    let* sc := first_scale toLocaleTimeString callback eval_template fuel c b in
    let* sc2 := second_scale toLocaleTimeString callback eval_template fuel c b in
    match sc, sc2 with
    | Some sc, Some sc2 =>
        let* (m, around) := measure_bars false Bar c data (Labels (scale_labels sc))
                              (if dbAxis b then Labels (scale_labels sc2) else NoLabels) in
        let a := vertical_area s c (of_Z (Z.of_nat (length (labels data)))) m sc sc2 in
        let w := bar_width c data a in
        let v := bar_vars a w (zero_offset c.["logarithmic"] (minValue b) sc (a_scaleHop a))
                   (zero_offset c.["logarithmic2"] (minValue2 b) sc2 (a_scaleHop2 a)) sc sc2 in
        let* stats := initPassVariableData_part2 s c Bar (labels data) xBegin xEnd v (npoints_of data) stats
                        (datasets data) in
        let* ls := bar_labels c data m a sc sc2 (dbAxis b) in
        Ok (background ++ around ++ ls,
            Some {| bc_config := c; bc_data := data; bc_measures := m; bc_bounds := b; bc_scale := sc; bc_scale2 := sc2;
                    bc_area := a; bc_barWidth := w; bc_vars := v; bc_stats := stats |})
    | _, _ => Ok (background, None)
    end
  else Ok (background, None).

Definition bar_frame (bc : bar_chart) (animPc : num) : res (list canvas_op * list (nat * nat)) :=
  let* n := loop_count (steps (bc_scale bc)) in
  frame_with Bar (vertical_scale (bc_config bc) (bc_data bc) (bc_area bc) (map Z.of_nat (seq 0 n)))
    (bar_drawing (bc_config bc) (bc_data bc) (bc_barWidth bc) (bc_stats bc) animPc) bc.

(** ** Bars with lines *)

Section Mixed.

Context (fuel : nat) (xBegin xEnd : jsval) (c : config) (data : chart_data).
Context (ops : list canvas_op) (bc : bar_chart).

Lemma prepared_bar : prepare_bar fuel xBegin xEnd c data = Ok (ops, Some bc) ->
  (exists stats stats', initPassVariableData_axes toLocaleTimeString c Bar data = Ok (stats, bc_data bc) /\
     mark_types 0 (datasets (bc_data bc)) stats = Ok stats' /\
     initPassVariableData_part2 s (bc_config bc) Bar (labels (bc_data bc)) xBegin xEnd (bc_vars bc) (npoints_of (bc_data bc))
       stats' (datasets (bc_data bc)) = Ok (bc_stats bc)) /\
  bc_config bc = with_logarithmic c (bc_bounds bc) /\
  exists zero zero2, bc_vars bc = bar_vars (bc_area bc) (bc_barWidth bc) zero zero2 (bc_scale bc) (bc_scale2 bc).
Proof.
  unfold prepare_bar. intros Hp. apply res_bind_Ok in Hp as ([stats data1] & Hs & Hp).
  apply res_bind_Ok in Hp as (stats' & Hm & Hp). apply res_bind_Ok in Hp as ([m0 bg] & _ & Hp).
  apply res_bind_Ok in Hp as (b & _ & Hp). destruct (room_for_steps b); [|by apply Ok_inj, (f_equal snd) in Hp].
  cbv zeta in Hp. apply res_bind_Ok in Hp as ([sc|] & _ & Hp); apply res_bind_Ok in Hp as ([sc2|] & _ & Hp);
    try (apply Ok_inj, (f_equal snd) in Hp; discriminate).
  apply res_bind_Ok in Hp as ([m around] & _ & Hp). apply res_bind_Ok in Hp as (stats2 & Hs2 & Hp).
  apply res_bind_Ok in Hp as (ls & _ & Hp). apply Ok_inj, (f_equal snd) in Hp. cbn [snd] in Hp. injection Hp as Hbc.
  rewrite <- Hbc. cbn [bc_config bc_data bc_vars bc_stats bc_area bc_barWidth bc_scale bc_scale2 bc_bounds].
  split; [|split; [done|eauto]]. exists stats, stats'. done.
Qed.

Lemma drawn_as (d : dataset) : tpdraw Bar d = if is_line_dataset d then Line else Bar.
Proof. done. Qed.


End Mixed.

End VerticalBars.

(** *** A bar and a line on a logarithmic axis *)

Definition mixed_page : config :=
  Bar_config no_personal_options (Some (of_fields [("animation", VBool false); ("logarithmic", VBool true)])).

Definition mixed_line : dataset := {| ds_data := [VInt 20; VInt 30]; ds_props := of_fields [("type", VStr "Line")] |}.

Definition mixed_data : chart_data := {|
  labels := [VStr "a"; VStr "b"]; datasets := [sample_dataset [VInt 10; VInt 25]; mixed_line] |}.

Definition sample_mixed : res (list canvas_op * option bar_chart) :=
  prepare_bar (H := sample_math) (fun _ => "") (fun _ _ _ _ _ => Ok VUndef) (fun s _ => Ok s) (fun _ => None)
    (fun _ _ => of_Z 20) unit_scales (of_Z 450) (of_Z 350) (of_Z 450) (of_Z 350) 100 VUndef VUndef mixed_page mixed_data.

Lemma mixed_known : exists ops bc, sample_mixed = Ok (ops, Some bc) /\
  ((bc_config bc).["logarithmic"], datasets (bc_data bc)) = (VBool true, datasets mixed_data).
Proof. apply known_chart. vm_compute. reflexivity. Qed.

