(* ===== verification/HorizontalBars.v ===== *)
(** * Horizontal bars (ChartNew.js)

    [HorizontalBar] and [HorizontalStackedBar], whose labels are beside the chart and
    whose scale is below it, and [reverseData]. *)

From stdpp Require Import base list strings gmap.
From Stdlib Require Import ZArith Lia SpecFloat.
From S2P Require Import Prelude Num Binary64 Value Options OptionValue Format Scale Easing Animation.
From S2P Require Import Stats Canvas Cross Legend Layout Axes Points Lines LineChart Bars VerticalBars.

Open Scope string_scope.
Open Scope list_scope.
Open Scope Z_scope.

(** ** Reversed data *)

Definition reverse_value (v : jsval) : jsval :=
  match v with
  | VArr l => VArr (rev l)
  | v => v
  end.

(** The labels and every array of a dataset. *)
Definition reverseData (data : chart_data) : chart_data :=
  {| labels := rev (labels data);
     datasets := map (fun d => {| ds_data := rev (ds_data d); ds_props := reverse_value <$> ds_props d |}) (datasets data) |}.

(** [ctx.reversed] and the data: a context reverses data once. *)
Definition reverse_once (c : config) (reversed : bool) (data : chart_data) : bool * chart_data :=
  if truthy c.["reverseOrder"] && negb reversed then (true, reverseData data) else (reversed, data).

Section HorizontalBars.

Context `{MathLib}.
Context (toLocaleTimeString : jsval -> string).
Context (callback : positive -> string -> Z -> Z -> jsval -> res jsval).
Context (eval_template : string -> list (string * jsval) -> res string).
Context (measureText : string -> string -> num).
Context (s : ctx_scales) (align0 baseline0 : string).
Context (width height canvas_width canvas_height : num).

(** ** What is drawn *)

Section Drawing.

Context (c : config) (data : chart_data) (m : measures) (a : area) (sc : scale) (barWidth : num).

Let ln (k : string) : num := line s c k.
Let step_x (i : nat) : num := (a_yAxisPosX a + of_Z (Z.of_nat i) * a_valueHop a)%num.
Let label_x (j : Z) : num := (a_yAxisPosX a + of_Z (j + 1) * a_valueHop a)%num.
Let label_lines (right : num) : list canvas_op :=
  concat (map (fun j => bar_y_tick s c a right (Z.of_nat j)) (seq 0 (length (labels data)))).

(** [drawScale] of bars; [n] is the number of steps. *)
Definition horizontal_scale (n : nat) : list canvas_op :=
  let right := (a_yAxisPosX a + a_width a + ln "scaleTickSizeRight")%num in
  bar_scale s c a right (concat (map (fun i => bar_x_tick s c a (step_x i) i) (seq 0 n)) ++ [SetLineDash []])
    (label_lines right).

(** That of stacked bars, where every step resets the dashes of the lines. *)
Definition horizontal_stacked_scale (js : list Z) : list canvas_op :=
  let right := (a_yAxisPosX a + a_width a)%num in
  bar_scale s c a right
    (concat (map (fun j => (if 0 <=? j then bar_x_tick s c a (step_x (Z.to_nat j)) (Z.to_nat j) else [])
                           ++ [SetLineDash []]) js))
    (label_lines right).

Definition horizontal_bar_labels : res (list canvas_op) :=
  horizontal_labels toLocaleTimeString s c m a label_x
    (fun j => a_xAxisPosY a - of_Z (Z.of_nat j) * a_scaleHop a - a_scaleHop a / of_Z 2)%num (labels data) sc.

Definition horizontal_stacked_labels : res (list canvas_op) :=
  horizontal_labels toLocaleTimeString s c m a label_x
    (fun j => a_xAxisPosY a - of_Z (Z.of_nat j + 1) * a_scaleHop a + barWidth / of_Z 2)%num (labels data) sc.

Context (statData : gmap (nat * nat) config).

(** *** Stacked bars *)

Definition horizontal_outline (left top right bottom : num) : list canvas_op :=
  [MoveTo left top; LineTo right top; LineTo right bottom; LineTo left bottom; LineTo left top].

Definition draw_horizontal_stacked_bar (animPc : num) (i : nat) (d : dataset) (j : nat) : tracer unit :=
  let! m := bar_progress c data animPc i j in
  if no_bar d j then eff_ret tt
  else
    let! o := stat_Z statData i (Z.of_nat j) in
    let! ends := stack_ends c statData grown_right "xPosLeft" "xPosRight" o j m in
    let '(leftBar, rightBar) := ends in
    do! bar_styles callback c i j d m (VNum leftBar) o.["yPosBottom"] (VNum rightBar) o.["yPosBottom"] in
    eff_when (negb (m == n0)%num && negb (loose_eq o.["xPosLeft"] o.["xPosRight"]))
      (fill_bar callback c i j d (horizontal_outline leftBar (fnum o "yPosTop") rightBar (fnum o "yPosBottom"))).

Definition draw_horizontal_stacked_text (i j : nat) (o : config) : tracer unit :=
  stacked_text callback eval_template measureText s align0 baseline0 c i j o [BeginPath]
    (let! x := text_x callback s c i j (fnum o "xPosLeft")
                 (fnum o "xPosLeft" + (fnum o "xPosRight" - fnum o "xPosLeft") / of_Z 2)%num (fnum o "xPosRight") in
     let! y := text_y callback s c i j (fun p => fnum o "yPosBottom" - p)%num
                 (fun p => fnum o "yPosBottom" - barWidth / of_Z 2 - p)%num (fun p => fnum o "yPosTop" - p)%num in
     eff_ret (x, y))
    (fun _ => true).

Definition horizontal_stacked_drawing (animPc : num) : tracer unit :=
  do! emit [SetLineWidth (VNum (ln "barStrokeWidth"))] in
  do! each_bar data all_bars (draw_horizontal_stacked_bar animPc) in
  label_bars callback c data statData all_bars animPc draw_horizontal_stacked_text.

(** *** Bars *)

(** A bar with rounded right corners; its axes are exchanged: [x] and [w] are
    vertical, [y] and [h] horizontal. *)
Definition horizontal_roundRect (x y w h zero fact : num) (radius : jsval) : list canvas_op :=
  let r := to_num radius in
  let xr := to_num (js_add (VNum x) radius) in
  [MoveTo (y + zero) xr; LineTo (y + zero) (x + w - r); QuadraticCurveTo (y + zero) (x + w) (y + zero) (x + w);
   LineTo (y + h - fact * r) (x + w); QuadraticCurveTo (y + h) (x + w) (y + h) (x + w - r);
   LineTo (y + h) xr; QuadraticCurveTo (y + h) x (y + h - fact * r) x;
   LineTo (y + zero) x; QuadraticCurveTo (y + zero) x (y + zero) xr]%num.

Definition draw_horizontal_bar (animPc : num) (i : nat) (d : dataset) (j : nat) : tracer unit :=
  do! emit [SetLineWidth (VNum (ln "barStrokeWidth"))] in
  let! m := bar_progress c data animPc i j in
  let! o := stat_Z statData i (Z.of_nat j) in
  let barHeight := (m * fnum o "barWidth" + ln "barStrokeWidth" / of_Z 2)%num in
  do! bar_styles callback c i j d m o.["xPosLeft"] o.["yPosBottom"] (VNum (fnum o "xPosLeft" + barHeight)%num)
        o.["yPosBottom"] in
  eff_when (negb (is_undefined (bar_value d j)))
    (fill_bar callback c i j d (horizontal_roundRect (fnum o "yPosTop") (fnum o "xPosLeft") barWidth barHeight n0
       (bar_sign d j) c.["barBorderRadius"])).

Definition draw_horizontal_text (i j : nat) (o : config) : tracer unit :=
  placed_text callback eval_template measureText s align0 baseline0 c i j o (
    let! y := text_y callback s c i j (fun p => fnum o "yPosTop" - p + barWidth)%num
                (fun p => fnum o "yPosTop" + barWidth / of_Z 2 - p)%num (fun p => fnum o "yPosTop" - p)%num in
    let! x := text_x callback s c i j (fnum o "xPosLeft") ((fnum o "xPosLeft" + fnum o "xPosRight") / of_Z 2)%num
                (fnum o "xPosRight") in
    eff_ret (x, y)).

Definition horizontal_drawing (animPc : num) : tracer unit :=
  do! each_bar data all_bars (draw_horizontal_bar animPc) in
  label_bars callback c data statData all_bars animPc draw_horizontal_text.

End Drawing.

(** ** A horizontal stacked bar chart *)

Definition horizontal_stacked_width (c : config) (data : chart_data) (a : area) : num :=
  at_least_one (a_scaleHop a - line s c "scaleGridLineWidth" * of_Z 2 - space s c "barValueSpacing" * of_Z 2
                - (space s c "barDatasetSpacing" * of_Z (Z.of_nat (length (datasets data))) - of_Z 1)
                - line s c "barStrokeWidth" / of_Z 2 - of_Z 1)%num.

Definition prepare_horizontal_stacked (fuel : nat) (xBegin xEnd : jsval) (reversed : bool) (c : config) (data : chart_data)
    : res (list canvas_op * option bar_chart) :=
  let data := (reverse_once c reversed data).2 in
  let* (stats, data) := initPassVariableData_axes toLocaleTimeString c HorizontalStackedBar data in
  let c := <["logarithmic" := VBool false]> c in
  let measure := measure_bars toLocaleTimeString callback measureText s width height canvas_width canvas_height
                   true HorizontalStackedBar c data in
  let* (m0, background) := measure Nihil (Labels [""]) in
  let* b := stacked_bounds callback c (ctx_text s) (m_availableHeight m0) data in
  if room_for_steps b then
    let* sc := stacked_scale toLocaleTimeString callback eval_template fuel c b in
    let* (m, around) := measure (Labels (scale_labels sc)) NoLabels in
    let a := horizontal_area s c (of_Z (Z.of_nat (length (labels data)))) m sc in
    let w := horizontal_stacked_width c data a in
    let* ls := horizontal_stacked_labels c data m a sc w in
    let v := bar_vars a w (HorizontalCalculateOffset n0 sc (a_scaleHop a)) NaN sc no_scale in
    let* stats := initPassVariableData_part2 s c HorizontalStackedBar (labels data) xBegin xEnd v (npoints_of data) stats
                    (datasets data) in
    Ok (background ++ around ++ ls,
        Some {| bc_config := c; bc_data := data; bc_measures := m; bc_bounds := b; bc_scale := sc; bc_scale2 := no_scale;
                bc_area := a; bc_barWidth := w; bc_vars := v; bc_stats := stats |})
  else Ok (background, None).

Definition horizontal_stacked_frame (bc : bar_chart) (animPc : num) : res (list canvas_op * list (nat * nat)) :=
  let* js := label_steps (bc_config bc) (bc_scale bc) in
  frame_with toLocaleTimeString callback s HorizontalStackedBar
    (horizontal_stacked_scale (bc_config bc) (bc_data bc) (bc_area bc) js)
    (horizontal_stacked_drawing (bc_config bc) (bc_data bc) (bc_barWidth bc) (bc_stats bc) animPc) bc.

(** ** A horizontal bar chart *)

Definition horizontal_width (c : config) (data : chart_data) (a : area) : num :=
  let n := of_Z (Z.of_nat (length (datasets data))) in
  at_least_one ((a_scaleHop a - line s c "scaleGridLineWidth" * of_Z 2 - space s c "barValueSpacing" * of_Z 2
                 - (space s c "barDatasetSpacing" * n - of_Z 1) - (line s c "barStrokeWidth" / of_Z 2 * n - of_Z 1)) / n)%num.

(** The first layout is that of stacked bars. *)
Definition prepare_horizontal (fuel : nat) (xBegin xEnd : jsval) (reversed : bool) (c : config) (data : chart_data)
    : res (list canvas_op * option bar_chart) :=
  let data := (reverse_once c reversed data).2 in
  let* (stats, data) := initPassVariableData_axes toLocaleTimeString c HorizontalBar data in
  let measure := measure_bars toLocaleTimeString callback measureText s width height canvas_width canvas_height true in
  let* (m0, background) := measure StackedBar c data Nihil (Labels [""]) in
  let* b := horizontal_bounds callback c (ctx_text s) (m_availableHeight m0) data in
  let c := if (minValue b <= n0)%num then <["logarithmic" := VBool false]> c else c in
  if room_for_steps b then
    let* sc := first_scale toLocaleTimeString callback eval_template fuel c b in
    match sc with
    | Some sc =>
        let* (m, around) := measure HorizontalBar c data (Labels (scale_labels sc)) NoLabels in
        let a := horizontal_area s c (of_Z (Z.of_nat (length (labels data)))) m sc in
        let w := horizontal_width c data a in
        let* ls := horizontal_bar_labels c data m a sc in
        let v := bar_vars a w (zero_offset c.["logarithmic"] (minValue b) sc (a_valueHop a)) NaN sc no_scale in
        let* stats := initPassVariableData_part2 s c HorizontalBar (labels data) xBegin xEnd v (npoints_of data) stats
                        (datasets data) in
        Ok (background ++ around ++ ls,
            Some {| bc_config := c; bc_data := data; bc_measures := m; bc_bounds := b; bc_scale := sc; bc_scale2 := no_scale;
                    bc_area := a; bc_barWidth := w; bc_vars := v; bc_stats := stats |})
    | None => Ok (background, None)
    end
  else Ok (background, None).

Definition horizontal_frame (bc : bar_chart) (animPc : num) : res (list canvas_op * list (nat * nat)) :=
  let* n := loop_count (steps (bc_scale bc)) in
  frame_with toLocaleTimeString callback s HorizontalBar (horizontal_scale (bc_config bc) (bc_data bc) (bc_area bc) n)
    (horizontal_drawing (bc_config bc) (bc_data bc) (bc_barWidth bc) (bc_stats bc) animPc) bc.

End HorizontalBars.

(** ** Reversing *)

(** The values that the labels of a chart have in a dataset. *)
Definition labelled (data : chart_data) (d : dataset) : list (jsval * jsval) := zip (labels data) (ds_data d).

Lemma reverse_value_involutive (v : jsval) : reverse_value (reverse_value v) = v.
Proof. destruct v; try done. cbn [reverse_value]. by rewrite rev_involutive. Qed.

Lemma reverse_dataset_involutive (d : dataset) :
  {| ds_data := rev (rev (ds_data d)); ds_props := reverse_value <$> (reverse_value <$> ds_props d) |} = d.
Proof.
  destruct d as [l p]. cbn [ds_data ds_props]. rewrite rev_involutive. f_equal.
  rewrite <- map_fmap_compose. rewrite (map_fmap_ext _ id) by (intros; apply reverse_value_involutive). apply map_fmap_id.
Qed.

Lemma zip_reverse {A B} (l : list A) (k : list B) : length l = length k -> zip (rev l) (rev k) = rev (zip l k).
Proof.
  revert k. induction l as [|x l IH]; intros [|y k] Hl; try done. injection Hl as Hl. cbn [rev].
  change (zip (x :: l) (y :: k)) with ((x, y) :: zip l k). cbn [rev]. rewrite <- IH by done.
  by rewrite zip_with_app by (by rewrite !length_rev).
Qed.

(** C40: data that are reversed twice are the data again; data that are reversed have
    the same labels and the same values for each label, in the opposite order, as long
    as every dataset has a value for each label.  A context reverses the first data it
    draws only. *)
Theorem reversed_data_keep_labels (data : chart_data) :
  reverseData (reverseData data) = data /\
  (forall i d, datasets data !! i = Some d -> length (ds_data d) = length (labels data) ->
     exists d', datasets (reverseData data) !! i = Some d' /\ labelled (reverseData data) d' = rev (labelled data d)) /\
  forall c, (reverse_once c true data).2 = data.
Proof.
  split; [|split].
  - destruct data as [ls ds]. unfold reverseData. cbn [labels datasets]. rewrite rev_involutive. f_equal.
    rewrite map_map. etransitivity; [|apply map_id]. apply map_ext. intros d. apply reverse_dataset_involutive.
  - intros i d Hd Hl. eexists. unfold reverseData at 1. cbn [datasets].
    split; [exact (list_lookup_fmap_Some_2 _ _ _ _ Hd)|]. unfold labelled. cbn [labels ds_data reverseData]. by apply zip_reverse.
  - intros c. unfold reverse_once. by rewrite andb_false_r.
Qed.

(** A dataset that is shorter than the labels: its value moves to another label. *)
Definition short_data : chart_data := {|
  labels := [VStr "a"; VStr "b"]; datasets := [{| ds_data := [VInt 7]; ds_props := ∅ |}] |}.

Example short_values_move :
  map (labelled short_data) (datasets short_data) = [[(VStr "a", VInt 7)]] /\
  map (labelled (reverseData short_data)) (datasets (reverseData short_data)) = [[(VStr "b", VInt 7)]].
Proof. split; reflexivity. Qed.

Definition reversible_data : chart_data := {|
  labels := [VStr "a"; VStr "b"]; datasets := [{| ds_data := [VInt 7; VInt 8]; ds_props := ∅ |}] |}.

Lemma reversed_data_keep_labels_witness :
  exists d', datasets (reverseData reversible_data) !! 0%nat = Some d' /\
    labelled (reverseData reversible_data) d' = [(VStr "b", VInt 8); (VStr "a", VInt 7)].
Proof. exact (proj1 (proj2 (reversed_data_keep_labels reversible_data)) 0%nat _ eq_refl eq_refl). Defined.
