(* ===== verification/ShownBars.v ===== *)
(** * What charts of bars show (ChartNew.js)

    The functions of a stacked bar chart together: the data are measured
    ([initPassVariableData_part1]), scaled and placed ([initPassVariableData_part2])
    and drawn ([drawBars]); what is filled in the last frame are the data. *)

From stdpp Require Import base list strings gmap.
From Stdlib Require Import ZArith Lia SpecFloat.
From S2P Require Import Prelude Num Binary64 Value Options OptionValue Format Scale Easing Animation.
From S2P Require Import Stats Canvas Cross Legend Layout Axes Points Lines LineChart Filling Bars VerticalBars HorizontalBars.

Open Scope string_scope.
Open Scope list_scope.
Open Scope Z_scope.

(** ** Paths of bars *)

(** The positions of the bars of a chart, dataset after dataset. *)
Definition bar_shapes (skip : dataset -> bool) (shapes : nat -> dataset -> nat -> list (list canvas_op)) (ds : list dataset)
    : list (list canvas_op) :=
  concat (imap (fun i d => if skip d then [] else concat (map (shapes i d) (seq 0 (length (ds_data d))))) ds).

Lemma each_bar_fills (data : chart_data) (skip : dataset -> bool) f shapes :
  (forall i d j, datasets data !! i = Some d -> skip d = false -> (j < length (ds_data d))%nat -> fills (f i d j) (shapes i d j)) ->
  fills (each_bar data skip f) (bar_shapes skip shapes (datasets data)).
Proof.
  intros Hf. unfold each_bar, bar_shapes.
  replace (imap _ (datasets data)) with
    ((fun id => if skip id.2 then [] else concat (map (shapes id.1 id.2) (seq 0 (length (ds_data id.2)))))
       <$> imap pair (datasets data)) by (by rewrite fmap_imap).
  apply fills_iter. intros [i d] (k & e & [= -> ->] & Hd)%elem_of_lookup_imap. cbn [fst snd].
  destruct (skip e) eqn:Hs; [apply fills_nothing|]. apply fills_iter. intros j Hj%elem_of_seq. apply Hf; (done || lia).
Qed.

(** ** Bars without texts, in one style for each dataset *)

Section Bars.

Context `{MathLib}.
Context (callback : positive -> string -> Z -> Z -> jsval -> res jsval).
Context (c : config) (data : chart_data) (statData : gmap (nat * nat) config).

Record plain_bars : Prop := {
  bare_bars : plain_texts c;
  bars_dash : plain c.["datasetStrokeStyle"];
  bars_stroke : plain c.["defaultStrokeColor"];
  bars_fill : plain c.["defaultFillColor"]
}.

Definition plain_styles (d : dataset) : Prop :=
  plain (ds_props d).["datasetStrokeStyle"] /\ plain (ds_props d).["strokeColor"] /\ plain (ds_props d).["fillColor"].

Context (Hc : plain_bars).

Lemma progress_at_end (i j : nat) (t : tracing) : bar_progress c data (of_Z 1) i j t = (t, Ok (of_Z 1)).
Proof. unfold bar_progress, eff_lift. rewrite correction_at_end. done. Qed.

Lemma bar_styles_fill (i j : nat) (d : dataset) m left bottom right top : plain_styles d ->
  fills (bar_styles callback c i j d m left bottom right top) [].
Proof.
  intros (_ & Hstroke & Hfill). unfold bar_styles.
  eapply fills_read; [intros t; apply option_plain; [done|apply (bars_fill Hc)]|].
  apply (fills_bind _ _ [] []); [by apply fills_style|].
  eapply fills_read; [intros t; apply option_plain; [done|apply (bars_stroke Hc)]|]. by apply fills_style.
Qed.

Lemma bar_dash_plain (i j : nat) (d : dataset) : plain_styles d ->
  exists dash, forall t, bar_dash callback c i j d t = (t, Ok dash).
Proof.
  intros (Hdash & _). eexists. intros t. unfold bar_dash.
  by erewrite eff_bind_ok; [|apply option_plain; [done|apply (bars_dash Hc)]].
Qed.

(** The path of a bar is filled, whether it is stroked or not. *)
Lemma fill_bar_fills (i j : nat) (d : dataset) (outline : list canvas_op) : plain_styles d ->
  forallb path_op outline = true -> fills (fill_bar callback c i j d outline) [outline ++ [ClosePath]].
Proof.
  intros Hd Hp t. unfold fill_bar. destruct (bar_dash_plain i j d Hd) as [dash Hdash].
  unfold emit at 1. erewrite eff_bind_ok by reflexivity.
  set (t1 := set_drawn (drawn t ++ BeginPath :: outline) t).
  assert (H1 : pen_of t1 = {| path := outline; stroked := stroked (pen_of t); filled := filled (pen_of t) |}).
  { unfold t1. rewrite pen_emit. change (pen_after ?p (?o :: ?l)) with (pen_after (pen_op p o) l). by rewrite pen_path. }
  assert (H2 : exists t2, eff_when (truthy c.["barShowStroke"])
      (let! dash := bar_dash callback c i j d in emit [SetLineDash dash; Stroke; SetLineDash []]) t1 = (t2, Ok tt) /\
    path (pen_of t2) = outline /\ filled (pen_of t2) = filled (pen_of t) /\ annotated t2 = annotated t).
  { destruct (truthy _); cbn [eff_when].
    - rewrite (eff_bind_ok _ _ _ _ _ (Hdash t1)). eexists. split; [reflexivity|]. rewrite pen_emit, H1. done.
    - exists t1. rewrite H1. done. }
  destruct H2 as (t2 & E2 & Hpath & Hfill & Hann). rewrite (eff_bind_ok _ _ _ _ _ E2). eexists. split; [reflexivity|].
  rewrite pen_emit. cbn [pen_after fold_left pen_op filled path annotated set_drawn]. by rewrite Hpath, Hfill.
Qed.

(** The bars with a value. *)
Definition shown_bars (skip : dataset -> bool) (l : list (nat * dataset)) : list (nat * nat) :=
  concat (map (fun id => if skip id.2 then [] else map (pair id.1) (shown_points id.2 (seq 0 (length (ds_data id.2))))) l).

(** The texts and annotations fill nothing; the points to annotate are those of the data. *)
Lemma label_bars_note (skip : dataset -> bool) (draw : nat -> nat -> config -> tracer unit) (animPc : num) (t : tracing) :
  exists t', label_bars callback c data statData skip animPc draw t = (t', Ok tt) /\ drawn t' = drawn t /\
    annotated t' = annotated t ++ (if (animPc >= fnum c "animationStopValue")%num && truthy c.["annotateDisplay"]
                                   then shown_bars skip (imap pair (datasets data)) else []).
Proof.
  unfold label_bars. destruct (animPc >= _)%num; cbn [eff_when andb]; [|exists t; by rewrite app_nil_r]. unfold each_bar.
  generalize (imap pair (datasets data)). intros l. revert t.
  induction l as [|[i d] l IH]; intros t; [exists t; destruct (truthy _); by rewrite app_nil_r|].
  cbn [eff_iter fst snd].
  assert (Hone : exists t1, (if skip d then eff_ret tt else
      eff_iter (fun j => label_with callback c (let! o := stat_Z statData i (Z.of_nat j) in draw i j o) i d j)
        (seq 0 (length (ds_data d)))) t = (t1, Ok tt) /\ drawn t1 = drawn t /\
      annotated t1 = annotated t ++ (if truthy c.["annotateDisplay"] then shown_bars skip [(i, d)] else [])).
  { unfold shown_bars. cbn [map concat fst snd]. rewrite app_nil_r.
    destruct (skip d); [exists t; destruct (truthy _); by rewrite app_nil_r|].
    exact (labels_note callback c (bare_bars Hc) (fun j => let! o := stat_Z statData i (Z.of_nat j) in draw i j o)
      i d (seq 0 (length (ds_data d))) t). }
  destruct Hone as (t1 & H1 & Hd1 & Ha1). rewrite (eff_bind_ok _ _ _ _ _ H1). destruct (IH t1) as (t2 & H2 & Hd2 & Ha2).
  exists t2. split; [done|]. split; [by rewrite Hd2|]. rewrite Ha2, Ha1, <- app_assoc. f_equal. destruct (truthy _); [|done].
  unfold shown_bars. cbn [map concat]. by rewrite app_nil_r.
Qed.

End Bars.

(** ** Stacked bars *)

Section Stacked.

Context `{MathLib}.
Context (toLocaleTimeString : jsval -> string).
Context (callback : positive -> string -> Z -> Z -> jsval -> res jsval).
Context (eval_template : string -> list (string * jsval) -> res string).
Context (measureText : string -> string -> num).
Context (s : ctx_scales) (align0 baseline0 : string).
Context (width height canvas_width canvas_height : num).
Context (fuel : nat) (xBegin xEnd : jsval) (c : config) (data : chart_data).

(** A chart that was prepared for its animation. *)
Context (ops : list canvas_op) (bc : bar_chart).

Let prepared : Prop := prepare_stacked toLocaleTimeString callback eval_template measureText s width height
                         canvas_width canvas_height fuel xBegin xEnd c data = Ok (ops, Some bc).
Let ds : list dataset := datasets (bc_data bc).
Let cfg : config := bc_config bc.
Let v : vars := bc_vars bc.

(** The ordinate of a value on the scale, and the sides of the bars at a position. *)
Definition stack_y (value : num) : num :=
  (xAxisPosY v - calculateOffset (VBool false) value (bc_scale bc) (scaleHop v))%num.

Definition stack_left (j : nat) : num :=
  (yAxisPosX v + space s cfg "barValueSpacing" + valueHop v * of_Z (Z.of_nat j))%num.

(** Where the bar of a value [x] on a stack of height [below] ends at last: bars grow
    from their own lower end, or from the lower end of the stack. *)
Definition final_ends (below x : num) : num * num :=
  if truthy cfg.["animationByDataset"]
  then (stack_y below, stack_y below + of_Z 1 * (stack_y (below + x) - stack_y below))%num
  else (stack_y n0 - of_Z 1 * (stack_y n0 - stack_y below),
        stack_y n0 - of_Z 1 * (stack_y n0 - stack_y (below + x)))%num.

(** The bar of a value: none for a missing value, for zero, and if it has no height. *)
Definition stacked_box (i : nat) (d : dataset) (j : nat) : list (list canvas_op) :=
  match present (bar_value d j) with
  | Some x =>
      if (x == n0)%num then []
      else
        let '(bottom, top) := final_ends (sum_from n0 (same_side x (values_at (take i ds) j))) x in
        if (bottom == top)%num then []
        else [stacked_outline (stack_left j) bottom (stack_left j + bc_barWidth bc)%num top ++ [ClosePath]]
  | None => []
  end.

(** The values of a stack that is drawn without space between its bars. *)
Record plain_stacks : Prop := {
  plain_bar_options : plain_bars cfg;
  no_space : (space s cfg "spaceBetweenBar" > n0)%num = false;
  plain_datasets : Forall plain_styles ds;
  few_datasets : Z.of_nat (length ds) < 2 ^ 53;
  few_values : Forall (fun d => Z.of_nat (length (ds_data d)) < 2 ^ 53) ds
}.

Record stacked_facts : Prop := {
  sf_log : cfg.["logarithmic"] = VBool false;
  sf_vars : v = bar_vars (bc_area bc) (bc_barWidth bc) NaN NaN (bc_scale bc) no_scale;
  sf_data : ds = map (pad_dataset StackedBar (length (labels data))) (datasets data);
  sf_stats : exists stats, initPassVariableData_axes toLocaleTimeString c StackedBar data = Ok (stats, bc_data bc) /\
    initPassVariableData_part2 s cfg StackedBar (labels (bc_data bc)) xBegin xEnd v (npoints_of (bc_data bc)) stats ds
      = Ok (bc_stats bc)
}.

Lemma prepared_facts : prepared -> stacked_facts.
Proof.
  unfold prepared, prepare_stacked. intros Hp. apply res_bind_Ok in Hp as ([stats data1] & Hs & Hp). cbv zeta in Hp.
  apply res_bind_Ok in Hp as ([m0 bg] & _ & Hp). apply res_bind_Ok in Hp as (b & _ & Hp).
  destruct (room_for_steps b); [|by apply Ok_inj, (f_equal snd) in Hp].
  apply res_bind_Ok in Hp as (sc & _ & Hp). apply res_bind_Ok in Hp as ([m around] & _ & Hp).
  apply res_bind_Ok in Hp as (ls & _ & Hp). apply res_bind_Ok in Hp as (stats2 & Hs2 & Hp).
  apply Ok_inj, (f_equal snd) in Hp. cbn [snd] in Hp. injection Hp as Hbc.
  split; unfold ds, cfg, v; rewrite <- Hbc; cbn [bc_config bc_data bc_vars bc_stats bc_area bc_barWidth bc_scale].
  - by rewrite prop_insert.
  - done.
  - unfold initPassVariableData_axes in Hs. apply res_bind_Ok in Hs as (? & _ & Hs).
    apply Ok_inj, (f_equal snd) in Hs. cbn [snd] in Hs. by rewrite <- Hs.
  - exists stats. done.
Qed.

(** A value, and the statistics of its point. *)
Lemma stacked_at : stacked_facts -> plain_stacks ->
  forall i d j x, ds !! i = Some d -> ds_data d !! j ≫= present = Some x ->
  exists o k, bc_stats bc !! (i, j) = Some o /\ first_dataset ds j k /\ o.["firstNotMissing"] = VInt (Z.of_nat k) /\
    let below := sum_from n0 (same_side x (values_at (take i ds) j)) in
    (o.["xPosLeft"], o.["xPosRight"]) = (VNum (stack_left j), VNum (stack_left j + bc_barWidth bc)%num) /\
    (o.["yPosBottom"], o.["yPosTop"]) = (VNum (stack_y below), VNum (stack_y (below + x)%num)).
Proof.
  intros [Hlog Hv _ (stats & Hax & Hpart)] Hplain i d j x Hd Hx.
  pose proof (axes_know _ StackedBar ltac:(done) ltac:(done) _ _ _ _ Hax) as Hknow. fold ds in Hknow.
  destruct (part2_stacked s cfg (labels (bc_data bc)) xBegin xEnd v (npoints_of (bc_data bc)) stats ds) as (r & Hr & Hst).
  { intros i' d' j' Hd' Hj'. destruct (Hknow i' d' j' Hd' Hj') as (o & Ho & _). by exists o. }
  rewrite Hpart in Hr. apply Ok_inj in Hr as <-. destruct (Hst i d j x Hd Hx) as (o & o' & Ho & Ho' & [_ Hsides Hends Hfirst]).
  assert (Hj : (j < length (ds_data d))%nat).
  { destruct (ds_data d !! j) eqn:E; [by eapply lookup_lt_Some|done]. }
  destruct (Hknow i d j Hd Hj) as (o1 & Ho1 & Hf & _). rewrite Ho in Ho1. injection Ho1 as <-.
  cbn [missing_range is_bar fst snd] in Hf. destruct (scan_first ds j) as [[Hnone _]|(k & Hk & Hfk)].
  { exfalso. specialize (Hnone d ltac:(by eapply list_elem_of_lookup_2)). unfold has_value in Hnone.
    destruct (ds_data d !! j) as [w|]; [|done]. cbn in Hx, Hnone. unfold present in Hx.
    apply negb_false_iff in Hnone. by rewrite Hnone in Hx. }
  exists o', k. split; [done|]. split; [done|]. unfold first_at in Hfk.
  split; [by rewrite Hfirst, Hf, Hfk|]. cbv zeta in Hsides, Hends |- *.
  destruct Hsides as [-> ->], (Hends (no_space Hplain)) as [-> ->].
  unfold stack_left, stack_y. rewrite Hlog, Hv. done.
Qed.

(** The base of a stack is its first bar, which begins at zero. *)
Lemma no_values_before (j k : nat) : first_dataset ds j k -> values_at (take k ds) j = [].
Proof.
  intros [_ Hbefore]. unfold values_at.
  assert (Hall : Forall (fun d => ds_data d !! j ≫= present = None) (take k ds)).
  { apply Forall_lookup. intros k' d [Hd Hlt]%lookup_take_Some. specialize (Hbefore k' d Hlt Hd).
    unfold has_value in Hbefore. destruct (ds_data d !! j) as [w|]; [|done]. cbn in Hbefore |- *. unfold present.
    apply negb_false_iff in Hbefore. by rewrite Hbefore. }
  induction Hall as [|d l Hd _ IH]; [done|]. cbn [omap list_omap]. by rewrite Hd.
Qed.

Lemma safe_index (n k : nat) : Z.of_nat n < 2 ^ 53 -> (k < n)%nat -> index_of_num (of_Z (Z.of_nat k)) = Some k.
Proof. intros Hn Hk. rewrite index_of_num_of_Z by (unfold safe; lia). by rewrite Nat2Z.id. Qed.

(** The ends of a bar when it is completely drawn. *)
Lemma ends_at_last (i : nat) (d : dataset) (j : nat) (x : num) (o : config) (k : nat) (t : tracing) :
  stacked_facts -> plain_stacks -> ds !! i = Some d -> first_dataset ds j k -> o.["firstNotMissing"] = VInt (Z.of_nat k) ->
  let below := sum_from n0 (same_side x (values_at (take i ds) j)) in
  (o.["yPosBottom"], o.["yPosTop"]) = (VNum (stack_y below), VNum (stack_y (below + x)%num)) ->
  stack_ends cfg (bc_stats bc) grown_up "yPosBottom" "yPosTop" o j (of_Z 1) t = (t, Ok (final_ends below x)).
Proof.
  intros Hfacts Hplain Hd Hfirst Hk below Hends. unfold stack_ends, final_ends, fnum.
  rewrite (f_equal fst Hends : o.["yPosBottom"] = _), (f_equal snd Hends : o.["yPosTop"] = _). cbn [to_num].
  destruct (truthy _); [done|]. pose proof Hfirst as [(e & He & Hev) _].
  destruct (stacked_at Hfacts Hplain k e j (as_num (bar_value e j)) He) as (f & k' & Hf & _ & _ & _ & Hfe).
  { unfold bar_value, has_value in *. destruct (ds_data e !! j) as [y|]; [|done]. cbn in Hev |- *. unfold present.
    apply negb_true_iff in Hev. by rewrite Hev. }
  cbv zeta in Hfe. rewrite (no_values_before j k Hfirst) in Hfe.
  unfold first_of_stack, eff_lift, fnum. rewrite Hk. change (to_num (VInt ?z)) with (of_Z z).
  rewrite (safe_index _ k (few_datasets Hplain) ltac:(by eapply lookup_lt_Some)), Hf.
  erewrite eff_bind_ok by reflexivity. by rewrite (f_equal fst Hfe : f.["yPosBottom"] = _).
Qed.

Lemma bar_fills (i : nat) (d : dataset) (j : nat) : stacked_facts -> plain_stacks ->
  ds !! i = Some d -> (j < length (ds_data d))%nat ->
  fills (draw_stacked_bar callback cfg (bc_data bc) (bc_stats bc) (of_Z 1) i d j) (stacked_box i d j).
Proof.
  intros Hfacts Hplain Hd Hj. unfold draw_stacked_bar. eapply fills_read; [apply progress_at_end|].
  destruct (lookup_lt_is_Some_2 _ _ Hj) as [w Hw].
  assert (Hbv : bar_value d j = w) by (unfold bar_value; by rewrite Hw).
  unfold no_bar, stacked_box, present. rewrite Hbv.
  destruct (is_undefined w) eqn:Hu; cbn [orb]; [apply fills_nothing|].
  destruct (as_num w == n0)%num eqn:Hzero; [apply fills_nothing|].
  destruct (stacked_at Hfacts Hplain i d j (as_num w) Hd) as (o & k & Ho & Hfirst & Hk & Hsides & Hends).
  { rewrite Hw. cbn. unfold present. by rewrite Hu. }
  pose proof (proj1 (Forall_lookup _ _) (few_values Hplain) i d Hd) as Hlen.
  pose proof (proj1 (Forall_lookup _ _) (plain_datasets Hplain) i d Hd) as Hsty.
  eapply fills_read.
  { intros t. unfold stat_Z, stat, eff_lift, stat_at. change (to_num (VInt (Z.of_nat j))) with (of_Z (Z.of_nat j)).
    rewrite (safe_index _ _ Hlen Hj), Ho. reflexivity. }
  eapply fills_read; [intros t; by eapply ends_at_last|]. cbv zeta in Hsides. destruct (final_ends _ _) as [bottom top].
  apply (fills_bind _ _ []); [by apply bar_styles_fill; [apply (plain_bar_options Hplain)|]|].
  change (negb (of_Z 1 == n0)%num) with true. cbn [andb].
  destruct (bottom == top)%num; cbn [negb eff_when]; [apply fills_nothing|].
  unfold fnum. rewrite (f_equal fst Hsides : o.["xPosLeft"] = _), (f_equal snd Hsides : o.["xPosRight"] = _).
  by apply fill_bar_fills; [apply (plain_bar_options Hplain)|..].
Qed.


End Stacked.

(** *** A chart of two datasets *)

Definition stacked_page : config := StackedBar_config no_personal_options (Some (of_fields [("animation", VBool false)])).

Definition stacked_data : chart_data := {|
  labels := [VStr "a"; VStr "b"];
  datasets := [sample_dataset [VInt 32; VInt 50]; sample_dataset [VInt 20; VUndef]] |}.

Definition sample_stacked : res (list canvas_op * option bar_chart) :=
  prepare_stacked (H := sample_math) (fun _ => "") (fun _ _ _ _ _ => Ok VUndef) (fun s _ => Ok s) (fun _ _ => of_Z 20)
    unit_scales (of_Z 450) (of_Z 350) (of_Z 450) (of_Z 350) 100 VUndef VUndef stacked_page stacked_data.

(** What the hypotheses ask of the chart. *)
Definition stacked_facts_of (bc : bar_chart) : list jsval * bool * list dataset :=
  (map (prop (bc_config bc)) ["inGraphDataShow"; "annotateDisplay"; "datasetStrokeStyle"; "defaultStrokeColor";
                              "defaultFillColor"],
   (space unit_scales (bc_config bc) "spaceBetweenBar" > n0)%num, datasets (bc_data bc)).

Lemma sample_stacked_known : exists ops bc, sample_stacked = Ok (ops, Some bc) /\
  stacked_facts_of bc = ([VBool false; VBool false; VUndef; VStr "rgba(220,220,220,1)"; VStr "rgba(220,220,220,0.5)"],
                         false, datasets stacked_data).
Proof. apply known_chart. vm_compute. reflexivity. Qed.

Lemma sample_stacks_plain (b : bool) (bc : bar_chart) :
  stacked_facts_of bc = ([VBool false; VBool b; VUndef; VStr "rgba(220,220,220,1)"; VStr "rgba(220,220,220,0.5)"],
                         false, datasets stacked_data) -> plain_stacks unit_scales bc.
Proof.
  unfold stacked_facts_of. cbn [map]. intros Hf. pose proof (f_equal snd Hf : datasets (bc_data bc) = _) as E7. apply (f_equal fst) in Hf. cbn [fst] in Hf.
  injection Hf as E1 E2 E3 E4 E5 E6.
  split; rewrite ?E7.
  - split; [split|..]; rewrite ?E1, ?E2, ?E3, ?E4, ?E5; done.
  - exact E6.
  - repeat (apply List.Forall_cons; [vm_compute; repeat split; discriminate|]). apply List.Forall_nil.
  - vm_compute. reflexivity.
  - repeat (apply List.Forall_cons; [vm_compute; reflexivity|]). apply List.Forall_nil.
Qed.

