(* ===== verification/BarFrames.v ===== *)
(** * Frames of bar charts (ChartNew.js)

    The drawing state of the context after a frame of a chart of bars. *)

From stdpp Require Import base list strings gmap.
From Stdlib Require Import ZArith Lia SpecFloat.
From S2P Require Import Prelude Num Binary64 Value Options OptionValue Format Scale Easing Animation.
From S2P Require Import Stats Canvas Cross Legend Layout Axes Points Lines LineChart Filling Bars VerticalBars HorizontalBars ShownBars.

Open Scope string_scope.
Open Scope list_scope.
Open Scope Z_scope.

(** ** The drawing state *)

Section DrawingState.

Context `{MathLib}.
Context (toLocaleTimeString : jsval -> string).
Context (callback : positive -> string -> Z -> Z -> jsval -> res jsval).
Context (eval_template : string -> list (string * jsval) -> res string).
Context (measureText : string -> string -> num).
Context (s : ctx_scales) (align0 baseline0 : string).
Context (c : config) (data : chart_data) (statData : gmap (nat * nat) config) (barWidth : num) (m : measures).

Lemma bar_styles_moves a i j d pc left bottom right top : moves a a (bar_styles callback c i j d pc left bottom right top).
Proof. unfold bar_styles. walk. Qed.
Lemma bar_dash_moves a i j d : moves a a (bar_dash callback c i j d).
Proof. unfold bar_dash. walk. Qed.
Lemma bar_progress_moves a animPc i j : moves a a (bar_progress c data animPc i j).
Proof. unfold bar_progress. walk. Qed.
Lemma stack_ends_moves a grown from to o j pc : moves a a (stack_ends c statData grown from to o j pc).
Proof. unfold stack_ends, first_of_stack. walk. Qed.
Lemma text_x_moves a i j x y z : moves a a (text_x callback s c i j x y z).
Proof. unfold text_x. walk. Qed.
Lemma text_y_moves a i j x y z : moves a a (text_y callback s c i j x y z).
Proof. unfold text_y. walk. Qed.
#[local] Hint Resolve bar_styles_moves bar_dash_moves bar_progress_moves stack_ends_moves text_x_moves text_y_moves : moves.

Lemma fill_bar_moves a i j d outline : forallb path_op outline = true -> moves a a (fill_bar callback c i j d outline).
Proof.
  intros Hp. unfold fill_bar. walk. apply moves_emit. intros n. cbn [save_depth].
  apply no_saving_depth. apply List.Forall_forall. intros o Ho. rewrite forallb_forall in Hp. specialize (Hp o Ho).
  by destruct o.
Qed.

Lemma placed_text_moves a i j o place : (forall b, moves b b place) ->
  moves a a (placed_text callback eval_template measureText s align0 baseline0 c i j o place).
Proof. intros Hp. unfold placed_text. walk. Qed.

Lemma stacked_text_moves a i j o before place visible : Forall no_saving before -> (forall b, moves b b place) ->
  moves a a (stacked_text callback eval_template measureText s align0 baseline0 c i j o before place visible).
Proof.
  intros Hb Hp. unfold stacked_text. walk; [apply moves_emit; intros n; by apply no_saving_depth|walk].
Qed.

Lemma each_bar_moves a skip f : (forall i d j, moves a a (f i d j)) -> moves a a (each_bar data skip f).
Proof. intros Hf. unfold each_bar. walk. Qed.

Lemma label_bars_moves a skip animPc draw : (forall i j o, moves a a (draw i j o)) ->
  moves a a (label_bars callback c data statData skip animPc draw).
Proof. intros Hd. unfold label_bars. walk. apply each_bar_moves. intros i d j. apply label_with_moves. walk. Qed.

(** *** Bars and their texts *)

Lemma draw_stacked_bar_moves a animPc i d j : moves a a (draw_stacked_bar callback c data statData animPc i d j).
Proof. unfold draw_stacked_bar. walk. by apply fill_bar_moves. Qed.

Lemma draw_stacked_text_moves a i j o :
  moves a a (draw_stacked_text callback eval_template measureText s align0 baseline0 c m barWidth i j o).
Proof. apply stacked_text_moves; [by repeat constructor|]. walk. Qed.

Lemma draw_bar_moves a animPc i d j : moves a a (draw_bar callback s c data barWidth statData animPc i d j).
Proof. unfold draw_bar. walk. apply moves_emit. intros n. by destruct (truthy _). Qed.

Lemma draw_bar_text_moves a i j o :
  moves a a (draw_bar_text callback eval_template measureText s align0 baseline0 c barWidth i j o).
Proof. apply placed_text_moves. walk. Qed.

Lemma draw_horizontal_stacked_bar_moves a animPc i d j :
  moves a a (draw_horizontal_stacked_bar callback c data statData animPc i d j).
Proof. unfold draw_horizontal_stacked_bar. walk. by apply fill_bar_moves. Qed.

Lemma draw_horizontal_stacked_text_moves a i j o :
  moves a a (draw_horizontal_stacked_text callback eval_template measureText s align0 baseline0 c barWidth i j o).
Proof. apply stacked_text_moves; [by repeat constructor|]. walk. Qed.

Lemma draw_horizontal_bar_moves a animPc i d j :
  moves a a (draw_horizontal_bar callback s c data barWidth statData animPc i d j).
Proof. unfold draw_horizontal_bar. walk. by apply fill_bar_moves. Qed.

Lemma draw_horizontal_text_moves a i j o :
  moves a a (draw_horizontal_text callback eval_template measureText s align0 baseline0 c barWidth i j o).
Proof. apply placed_text_moves. walk. Qed.

(** *** The data of a frame *)

Lemma stacked_drawing_moves a animPc :
  moves a a (stacked_drawing callback eval_template measureText s align0 baseline0 c data m barWidth statData animPc).
Proof.
  unfold stacked_drawing. walk; [apply each_bar_moves, draw_stacked_bar_moves|apply label_bars_moves, draw_stacked_text_moves].
Qed.

Lemma bar_drawing_moves a animPc :
  moves a a (bar_drawing callback eval_template measureText s align0 baseline0 c data barWidth statData animPc).
Proof.
  unfold bar_drawing. walk; [apply each_bar_moves, draw_bar_moves|apply drawLinesDataset_moves|].
  apply label_bars_moves, draw_bar_text_moves.
Qed.

Lemma horizontal_drawing_moves a animPc :
  moves a a (horizontal_drawing callback eval_template measureText s align0 baseline0 c data barWidth statData animPc).
Proof.
  unfold horizontal_drawing.
  walk; [apply each_bar_moves, draw_horizontal_bar_moves|apply label_bars_moves, draw_horizontal_text_moves].
Qed.

Lemma horizontal_stacked_drawing_moves a animPc :
  moves a a (horizontal_stacked_drawing callback eval_template measureText s align0 baseline0 c data barWidth statData animPc).
Proof.
  unfold horizontal_stacked_drawing. walk; [apply each_bar_moves, draw_horizontal_stacked_bar_moves|].
  apply label_bars_moves, draw_horizontal_stacked_text_moves.
Qed.

(** *** The scales *)

Context (ar : area).

Lemma vertical_scale_balanced js : balanced (vertical_scale s c data ar js).
Proof. apply bar_scale_balanced; [apply balanced_app; [|done]|]; by apply concat_balanced. Qed.

Lemma horizontal_scale_balanced n : balanced (horizontal_scale s c data ar n).
Proof. apply bar_scale_balanced; [apply balanced_app; [|done]|]; by apply concat_balanced. Qed.

Lemma horizontal_stacked_scale_balanced js : balanced (horizontal_stacked_scale s c data ar js).
Proof. apply bar_scale_balanced; apply concat_balanced; [|done]. intros j. by destruct (0 <=? j). Qed.

End DrawingState.

Section Frames.

Context `{MathLib}.
Context (toLocaleTimeString : jsval -> string).
Context (callback : positive -> string -> Z -> Z -> jsval -> res jsval).
Context (eval_template : string -> list (string * jsval) -> res string).
Context (measureText : string -> string -> num).
Context (s : ctx_scales) (align0 baseline0 : string).

Lemma frame_with_balanced t scale_ops drawing bc ops notes :
  balanced scale_ops -> (forall a, moves a a drawing) ->
  frame_with toLocaleTimeString callback s t scale_ops drawing bc = Ok (ops, notes) -> balanced ops.
Proof.
  intros Hs Hm. unfold frame_with. destruct (drawing no_tracing) as [t' r] eqn:Ht. intros Hf.
  apply res_bind_Ok in Hf as ([] & -> & Hf). apply res_bind_Ok in Hf as (legend & Hl%chart_legend_balanced & Hf).
  apply Ok_inj, (f_equal fst) in Hf. cbn [fst] in Hf. rewrite <- Hf.
  destruct (Hm 0%nat _ _ _ Ht) as (l & -> & Hd). apply frame_order_balanced; [done|]. by apply balanced_app.
Qed.

(** The frames of the four kinds of charts of bars. *)
Definition bar_frames : list (bar_chart -> num -> res (list canvas_op * list (nat * nat))) :=
  map (fun frame => frame toLocaleTimeString callback eval_template measureText s align0 baseline0)
    [stacked_frame; bar_frame; horizontal_frame; horizontal_stacked_frame].

(** C21: whatever the data, the options and the stage of the animation, a frame of a
    chart of bars, vertical or horizontal, stacked or not, that is drawn to its end has
    restored every drawing state it saved. *)
Theorem bar_frames_restore_state (bc : bar_chart) (animPc : num) frame ops notes :
  In frame bar_frames -> frame bc animPc = Ok (ops, notes) -> forall depth, save_depth depth ops = Some depth.
Proof.
  intros Hin Hf. unfold bar_frames in Hin. cbn [map In] in Hin.
  destruct Hin as [<- | [<- | [<- | [<- | []]]]]; apply res_bind_Ok in Hf as (js & _ & Hf); revert Hf;
    apply frame_with_balanced.
  - apply vertical_scale_balanced.
  - intros a. apply stacked_drawing_moves.
  - apply vertical_scale_balanced.
  - intros a. apply bar_drawing_moves.
  - apply horizontal_scale_balanced.
  - intros a. apply horizontal_drawing_moves.
  - apply horizontal_stacked_scale_balanced.
  - intros a. apply horizontal_stacked_drawing_moves.
Qed.

End Frames.

(** A frame of a chart of stacked bars. *)
Definition sample_frame (bc : bar_chart) : res (list canvas_op * list (nat * nat)) :=
  stacked_frame (H := sample_math) (fun _ => "") (fun _ _ _ _ _ => Ok VUndef) (fun v _ => Ok v) (fun _ _ => of_Z 20)
    unit_scales "start" "alphabetic" bc (of_Z 1).

Lemma sample_frame_drawn : exists ops bc, sample_stacked = Ok (ops, Some bc) /\
  match sample_frame bc with Ok _ => true | Throw _ => false end = true.
Proof. apply known_chart. vm_compute. reflexivity. Qed.

Lemma bar_frames_restore_state_witness :
  exists bc ops notes, sample_frame bc = Ok (ops, notes) /\ save_depth 0 ops = Some 0%nat.
Proof.
  destruct sample_frame_drawn as (_ & bc & _ & Hf). destruct (sample_frame bc) as [[ops notes]|] eqn:Hs; [|discriminate].
  exists bc, ops, notes. split; [exact Hs|].
  exact (bar_frames_restore_state (H := sample_math) _ _ _ _ _ _ _ bc (of_Z 1) _ ops notes (or_introl eq_refl) Hs 0%nat).
Defined.
