(* ===== verification/Segments.v ===== *)
(** * Segments (ChartNew.js)

    What [Pie], [Doughnut] and [PolarArea] share: the arcs of their segments at a
    stage of the animation, and the texts of the segments. *)

From stdpp Require Import base list strings gmap.
From Stdlib Require Import ZArith Lia SpecFloat.
From S2P Require Import Prelude Num Value Options OptionValue Format Scale Easing Animation Stats Canvas Points Lines.

Open Scope string_scope.
Open Scope list_scope.
Open Scope Z_scope.

(** ** State *)

(** [posAngle] and [labelRadius] are variables of the page: no function declares
    them, so that they keep their values from one text, one frame and one chart to the
    next; reading one that was never assigned throws. *)
Record page_angles : Type := {
  posAngle : option num;
  labelRadius : option num
}.

Record rounding : Type := {
  canvas : tracing;
  angles : page_angles;
  arcs : list nat                  (** the segments appended to [jsGraphAnnotate] *)
}.

Abbreviation rounder := (eff rounding).

Definition start_round (a : page_angles) : rounding := {| canvas := no_tracing; angles := a; arcs := [] |}.

(** A step that only draws. *)
Definition on_canvas {A} (m : tracer A) : rounder A := fun st =>
  let '(t, r) := m (canvas st) in ({| canvas := t; angles := angles st; arcs := arcs st |}, r).

Definition set_posAngle (x : num) : rounder unit :=
  eff_modify (fun st => {| canvas := canvas st; angles := {| posAngle := Some x; labelRadius := labelRadius (angles st) |};
                           arcs := arcs st |}).
Definition set_labelRadius (x : num) : rounder unit :=
  eff_modify (fun st => {| canvas := canvas st; angles := {| posAngle := posAngle (angles st); labelRadius := Some x |};
                           arcs := arcs st |}).
Definition annotate_arc (i : nat) : rounder unit :=
  eff_modify (fun st => {| canvas := canvas st; angles := angles st; arcs := arcs st ++ [i] |}).

Definition declared (x : option num) : res num :=
  match x with Some x => Ok x | None => Throw ReferenceError end.

Definition read_angle (f : page_angles -> option num) : rounder num := fun st => (st, declared (f (angles st))).

(** ** Angles *)

(** [(a + 2 * Math.PI) % (2 * Math.PI)] *)
Definition wrapped (a : num) : num := nrem (a + of_Z 2 * Math_PI)%num (of_Z 2 * Math_PI)%num.

Definition right_side (a : num) : bool :=
  (wrapped a > of_Z 3 * Math_PI / of_Z 2)%num || (wrapped a < Math_PI / of_Z 2)%num.
Definition left_side (a : num) : bool :=
  (wrapped a > Math_PI / of_Z 2)%num && (wrapped a < of_Z 3 * Math_PI / of_Z 2)%num.
Definition lower_side (a : num) : bool := (wrapped a > Math_PI)%num.

Definition degree : num := (Math_PI / of_Z 180)%num.

(** ** A kind of chart *)

(** What the kinds do in their own way. *)
Record segment_kind : Type := {
  is_drawn : jsval -> bool;                 (** by its value *)
  is_labelled : jsval -> bool;
  outline : config -> num -> num -> num -> list canvas_op;
                                            (** the arcs for the scale and two angles *)
  stroke_setup : list canvas_op;
  middle : config -> num;                   (** the angle in the middle of a segment *)
  radii : config -> list (Z * num);         (** the radii of the positions of texts *)
  hides_small : bool                        (** whether small segments have no text *)
}.

Section Segments.

Context `{MathLib}.
Context (callback : positive -> string -> Z -> Z -> jsval -> res jsval).
Context (eval_template : string -> list (string * jsval) -> res string).
Context (measureText : string -> string -> num).
Context (s : ctx_scales) (align0 baseline0 : string).
Context (c : config) (data : list config) (statData : gmap nat config).
Context (k : segment_kind) (midX midY : num).

Definition segment_stat (i : nat) : res config :=
  match statData !! i with Some o => Ok o | None => Throw TypeError end.

(** ** The segments *)

(** [scaleAnimation] and [rotateAnimation] *)
Definition animated (animationDecimal : num) (option : string) : num :=
  if truthy c.["animation"] && truthy c.[option] then animationDecimal else of_Z 1.

(** The angles between which a segment is drawn when the turn has come to [m];
    [None] for a segment that the turn has not reached. *)
Definition segment_ends (o : config) (m : num) : option (num * num) :=
  let start := fnum o "startAngle" in
  let stop := fnum o "endAngle" in
  let first := fnum o "firstAngle" in
  let turned := (m * of_Z 2 * Math_PI)%num in
  if loose_eq c.["animationByData"] (VStr "ByArc") then Some (start, (start + m * fnum o "segmentAngle")%num)
  else if truthy c.["animationByData"] then
    if (start - first < turned)%num
    then Some (start, if (stop - first > turned)%num then (first + turned)%num else stop)
    else None
  else Some ((first + m * (start - first))%num, (first + m * (stop - first))%num).

Definition no_data : chart_data := {| labels := []; datasets := [] |}.

Definition draw_segment (animationDecimal : num) (id : nat * config) : tracer unit :=
  let '(i, d) := id in
  let scaleAnimation := animated animationDecimal "animateScale" in
  let! turn := eff_lift (animationCorrection (animated animationDecimal "animateRotate") no_data c (Z.of_nat i) (-1) 0) in
  eff_when (is_drawn k d.["value"]) (
    do! emit [BeginPath] in
    let! o := eff_lift (segment_stat i) in
    match segment_ends o (mainVal turn) with
    | None => eff_ret tt
    | Some (start, stop) =>
        let others := VObj [("animationDecimal", VNum animationDecimal); ("scaleAnimation", VNum scaleAnimation)] in
        do! emit (outline k o scaleAnimation start stop ++ [ClosePath]) in
        let! color := point_option callback c (of_Z 1) "COLOR" d.["color"] "defaultFillColor" i (-1) others in
        do! emit [SetFillStyle color; FillOp] in
        eff_when (truthy c.["segmentShowStroke"]) (
          do! emit (stroke_setup k) in
          let! dash := point_option callback c (of_Z 1) "SEGMENTSTROKESTYLE" d.["segmentStrokeStyle"]
                         "segmentStrokeStyle" i (-1) others in
          emit [SetLineDash (lineStyleFn (to_str dash)); Stroke; SetLineDash []])
    end).

(** ** The texts *)

Definition segment_option (rescale : num) (reference key : string) (i : nat) : rounder jsval :=
  on_canvas (text_option callback c rescale reference key i (-1)).

(** The angle of a text: at the beginning, in the middle or at the end. *)
Definition place_angle (i : nat) (start mid stop : num) : rounder unit :=
  let! pos := segment_option (of_Z 1) "INGRAPHDATAANGLEPOSITION" "inGraphDataAnglePosition" i in
  let at_ a := let! p := segment_option (of_Z 1) "INGRAPHDATAPADDINANGLE" "inGraphDataPaddingAngle" i in
               set_posAngle (a + to_num p * degree)%num in
  if loose_eq pos (VInt 1) then at_ start
  else if loose_eq pos (VInt 2) then at_ mid
  else if loose_eq pos (VInt 3) then at_ stop
  else eff_ret tt.

(** The distance of a text from the centre, by the first position that applies. *)
Definition place_radius (i : nat) (l : list (Z * num)) : rounder unit :=
  let! pos := segment_option (of_Z 1) "INGRAPHDATARADIUSPOSITION" "inGraphDataRadiusPosition" i in
  match List.find (fun zr => loose_eq pos (VInt zr.1)) l with
  | Some (_, r) => let! p := segment_option (of_Z 1) "INGRAPHDATAPADDINGRADIUS" "inGraphDataPaddingRadius" i in
                   set_labelRadius (to_num (js_add (VNum r) p))
  | None => eff_ret tt
  end.

(** A horizontal alignment that depends on the side of the chart. *)
Definition side_align (i : nat) (on_right on_left : string) : rounder jsval :=
  let! rotate := segment_option (of_Z 1) "INGRAPHDATAROTATE" "inGraphDataRotate" i in
  if loose_eq rotate (VStr "inRadiusAxis") then eff_ret (VStr on_right)
  else let! a := read_angle posAngle in eff_ret (VStr (if right_side a then on_right else on_left)).

Definition place_align (i : nat) : rounder jsval :=
  let! align := segment_option (of_Z 1) "INGRAPHDATAALIGN" "inGraphDataAlign" i in
  if loose_eq align (VStr "off-center") then side_align i "left" "right"
  else if loose_eq align (VStr "to-center") then side_align i "right" "left"
  else eff_ret align.

Definition place_baseline (i : nat) : rounder jsval :=
  let! baseline := segment_option (of_Z 1) "INGRAPHDATAVALIGN" "inGraphDataVAlign" i in
  let by_side low high := let! a := read_angle posAngle in eff_ret (VStr (if lower_side a then low else high)) in
  if loose_eq baseline (VStr "off-center") then by_side "top" "bottom"
  else if loose_eq baseline (VStr "to-center") then by_side "bottom" "top"
  else eff_ret baseline.

Definition turn_segment_text (i : nat) : rounder unit :=
  let! rotate := segment_option (of_Z 1) "INGRAPHDATAROTATE" "inGraphDataRotate" i in
  let turned n := let! a := read_angle posAngle in on_canvas (emit [Rotate (of_Z n * Math_PI - a)%num]) in
  if loose_eq rotate (VStr "inRadiusAxis") then turned 2
  else if loose_eq rotate (VStr "inRadiusAxisRotateLabels") then
    let! a := read_angle posAngle in turned (if left_side a then 3 else 2)
  else on_canvas (emit [Rotate (to_num rotate * degree)%num]).

Definition draw_segment_text (i : nat) (o : config) : rounder unit :=
  let angle := fnum o "segmentAngle" in
  let start := fnum o "realStartAngle" in
  do! place_angle i start (middle k o) (start - angle)%num in
  do! place_radius i (radii k o) in
  do! on_canvas (emit [Save]) in
  let! align := place_align i in
  do! on_canvas (emit [SetTextAlign (to_str align)]) in
  let! baseline := place_baseline i in
  do! on_canvas (emit [SetTextBaseline (to_str baseline)]) in
  let! font := on_canvas (text_font callback s c i (-1)) in
  do! on_canvas (emit [SetFont font]) in
  let! color := segment_option (of_Z 1) "INGRAPHDATAFONTCOLOR" "inGraphDataFontColor" i in
  do! on_canvas (emit [SetFillStyle color]) in
  let! dispString := on_canvas (text_string callback eval_template c i (-1) o) in
  let! r := read_angle labelRadius in
  let! a := read_angle posAngle in
  do! on_canvas (emit [Translate (midX + r * Math_cos a) (midY - r * Math_sin a)])%num in
  do! turn_segment_text i in
  do! on_canvas (boxed_text callback measureText s c i (-1) font (assigned text_aligns align0 align)
                   (assigned text_baselines baseline0 baseline) dispString) in
  on_canvas (emit [Restore]).

(** The annotation and the text of a segment. *)
Definition label_segment (id : nat * config) : rounder unit :=
  let '(i, d) := id in
  eff_when (is_labelled k d.["value"]) (
    let! show := segment_option (of_Z 1) "ANNOTATEDISPLAY" "annotateDisplay" i in
    do! eff_when (truthy show) (annotate_arc i) in
    let! show := segment_option (of_Z 1) "INGRAPHDATASHOW" "inGraphDataShow" i in
    eff_when (truthy show) (
      let! o := on_canvas (eff_lift (segment_stat i)) in
      let! visible :=
        if hides_small k then
          let! least := segment_option (of_Z 1) "INGRAPHDATAMINIMUMANGLE" "inGraphDataMinimumAngle" i in
          eff_ret (fnum o "segmentAngle" >= degree * to_num least)%num
        else eff_ret true in
      eff_when visible (draw_segment_text i o))).

(** [drawPieSegments], [drawAllSegments] *)
Definition draw_segments (animationDecimal : num) : rounder unit :=
  do! on_canvas (eff_iter (draw_segment animationDecimal) (imap pair data)) in
  eff_when (animationDecimal >= fnum c "animationStopValue")%num
    (eff_iter label_segment (imap pair data)).

End Segments.
