(* ===== verification/Pies.v ===== *)
(** * Pies, doughnuts and polar areas (ChartNew.js)

    [Pie], [Doughnut] and [PolarArea]: everything before the animation, and the
    frames.  Fonts that are set only to measure a text are not recorded. *)

From stdpp Require Import base list strings gmap.
From Stdlib Require Import ZArith Lia SpecFloat.
From S2P Require Import Prelude Num Value Options OptionValue Format Scale Easing Animation.
From S2P Require Import Stats Canvas Cross Legend Layout Axes Points Lines LineChart Bars Segments.

Open Scope string_scope.
Open Scope list_scope.
Open Scope Z_scope.

(** A round chart that is ready for its animation. *)
Record round_chart : Type := {
  rc_config : config;
  rc_data : list config;
  rc_measures : measures;
  rc_midX : num;
  rc_midY : num;
  rc_radius : num;                (** of the whole chart *)
  rc_inner : num;                 (** of the hole of a doughnut *)
  rc_scale : scale;               (** of a polar area *)
  rc_scaleHop : num;
  rc_stats : gmap nat config
}.

(** Neither axes nor the legend on the data. *)
Definition round_layout : layout_kind :=
  {| reverseLegend_ := true; reverseAxis := false; drawAxis := false; drawLegendOnData_ := false; legendBox_ := VBool true |}.

Definition round_vars (midX midY inner outer : num) (sc : scale) (hop : num) : vars := {|
  xAxisPosY := NaN; yAxisPosX := NaN; valueHop := NaN; nbValueHop := NaN; scaleHop := hop; zeroY := NaN;
  calculatedScale := sc; logarithmic := VUndef; scaleHop2 := NaN; zeroY2 := NaN; calculatedScale2 := no_scale;
  logarithmic2 := VUndef; availableHeight := NaN; barWidth := NaN; midPosX := midX; midPosY := midY; maxSize := NaN;
  int_radius := inner; ext_radius := outer |}.

(** [config.logarithmic = false; config.logarithmic2 = false] *)
Definition not_logarithmic (c : config) : config :=
  <["logarithmic2" := VBool false]> (<["logarithmic" := VBool false]> c).

(** [Min([msr.availableHeight / 2, msr.availableWidth / 2])] *)
Definition half_size (m : measures) : num :=
  Math_min_list [(m_availableHeight m / of_Z 2)%num; (m_availableWidth m / of_Z 2)%num].

Section Pies.

Context `{MathLib}.
Context (toLocaleTimeString : jsval -> string).
Context (callback : positive -> string -> Z -> Z -> jsval -> res jsval).
Context (eval_template : string -> list (string * jsval) -> res string).
Context (measureText : string -> string -> num).
Context (s : ctx_scales) (align0 baseline0 : string).
Context (width height canvas_width canvas_height : num).

Definition measure_round (t : chart_type) (c : config) (data : list config) (ylabels : axis_labels)
    : res (measures * list canvas_op) :=
  setMeasures toLocaleTimeString callback measureText s c t round_layout width height canvas_width canvas_height
    [] data ylabels NoLabels.

(** ** The radius of pies *)

(** A value that has a segment. *)
Definition has_segment (v : jsval) : bool := negb (is_undefined v) && (as_num v >= n0)%num.

Section Radius.

Context (c : config) (data : list config) (statData : gmap nat config) (m : measures).

(** The texts of a doughnut are measured in their own size, those of a pie in that of
    the first one. *)
Context (size_of : nat -> nat).

(** What reading [posAngle] gives when nothing was assigned to it. *)
Context (unassigned : res num).

Let opt (rescale : num) (reference key : string) (i : nat) : res jsval :=
  setOptionValue callback rescale reference VUndef c.[key] (Z.of_nat i) (-1) nullValue.

Definition shows_outside : res bool :=
  let* show := isBooleanOptionTrue VUndef VUndef c.["inGraphDataShow"] in
  if negb (truthy show) then Ok false
  else
    let* pos := opt (of_Z 1) "INGRAPHDATARADIUSPOSITION" "inGraphDataRadiusPosition" 0 in
    if negb (loose_eq pos (VInt 3)) then Ok false
    else
      let* align := opt (of_Z 1) "INGRAPHDATAALIGN" "inGraphDataAlign" 0 in
      if negb (loose_eq align (VStr "off-center")) then Ok false
      else
        let* rotate := opt (of_Z 1) "INGRAPHDATAROTATE" "inGraphDataRotate" 0 in
        Ok (loose_eq rotate (VInt 0)).

Definition measured_font (i : nat) : res string :=
  let* style := opt (of_Z 1) "INGRAPHDATAFONTSTYLE" "inGraphDataFontStyle" i in
  let* size := opt (ctx_text s) "INGRAPHDATAFONTSIZE" "inGraphDataFontSize" (size_of i) in
  let* family := opt (of_Z 1) "INGRAPHDATAFONTFAMILY" "inGraphDataFontFamily" i in
  Ok (to_str style ++ " " ++ to_str size ++ "px " ++ to_str family)%string.

Definition text_angle (i : nat) (real angle : num) (before : option num) : res (option num) :=
  let* pos := opt (of_Z 1) "INGRAPHDATAANGLEPOSITION" "inGraphDataAnglePosition" i in
  let at_ a := let* p := opt (of_Z 1) "INGRAPHDATAPADDINANGLE" "inGraphDataPaddingAngle" i in
               Ok (Some (a + to_num p * degree)%num) in
  if loose_eq pos (VInt 1) then at_ real
  else if loose_eq pos (VInt 2) then at_ (real - angle / of_Z 2)%num
  else if loose_eq pos (VInt 3) then at_ (real - angle)%num
  else Ok before.

(** The texts around a pie leave it less room: the angle so far, the angle of the last
    text and the radius. *)
Fixpoint room_for_texts (l : list (nat * config)) (real : num) (pos : option num) (radius : num) : res (option num * num) :=
  match l with
  | [] => Ok (pos, radius)
  | (i, d) :: l =>
      if has_segment d.["value"] then
        let* font := measured_font i in
        let* o := segment_stat statData i in
        let* pos := text_angle i real (fnum o "segmentAngle") pos in
        let* template := opt (of_Z 1) "INGRAPHDATATMPL" "inGraphDataTmpl" i in
        let* dispString := tmplbis eval_template c template o in
        let* a := match pos with Some a => Ok a | None => unassigned end in
        let* padding := opt (of_Z 1) "INGRAPHDATAPADDINGRADIUS" "inGraphDataPaddingRadius" i in
        let most := (Math_abs ((m_availableWidth m / of_Z 2 - measureText font dispString) / Math_cos a)
                     - to_num padding - of_Z 5)%num in
        room_for_texts l (real - fnum o "segmentAngle")%num pos (if (most < radius)%num then most else radius)
      else room_for_texts l real pos radius
  end.

(** [calculateDrawingSize]: [posAngle] and the radius. *)
Definition calculateDrawingSize (pos : option num) : res (option num * num) :=
  let* outside := shows_outside in
  let* (pos, radius) :=
    if outside then
      let* size := opt (ctx_text s) "INGRAPHDATAFONTSIZE" "inGraphDataFontSize" 0 in
      let* padding := opt (of_Z 1) "INGRAPHDATAPADDINGRADIUS" "inGraphDataPaddingRadius" 0 in
      room_for_texts (imap pair data) (normalise_angle (fnum c "startAngle" * degree)) pos
        (half_size m - to_num size - to_num padding - of_Z 5)%num
    else Ok (pos, (half_size m - of_Z 5)%num) in
  Ok (pos, (radius * fnum c "radiusScale")%num).

End Radius.

Definition mid_x (m : measures) : num := (leftNotUsableSize m + m_availableWidth m / of_Z 2)%num.
Definition mid_y (m : measures) : num := (topNotUsableSize m + m_availableHeight m / of_Z 2)%num.

Definition prepare_pie (a : page_angles) (c : config) (data : list config)
    : res (page_angles * list canvas_op * option round_chart) :=
  let* stats := initPassVariableData_segments toLocaleTimeString c Pie data in
  let c := not_logarithmic c in
  let* (m, around) := measure_round Pie c data NoLabels in
  let* (pos, radius) := calculateDrawingSize c data stats m (fun _ => 0%nat) (Throw ReferenceError) (posAngle a) in
  let a := {| posAngle := pos; labelRadius := labelRadius a |} in
  if (radius > n0)%num then
    let* stats := place_segments toLocaleTimeString c Pie (round_vars (mid_x m) (mid_y m) n0 radius no_scale NaN) 0 data
                    stats in
    Ok (a, around, Some {| rc_config := c; rc_data := data; rc_measures := m; rc_midX := mid_x m; rc_midY := mid_y m;
                           rc_radius := radius; rc_inner := n0; rc_scale := no_scale; rc_scaleHop := NaN;
                           rc_stats := stats |})
  else Ok (a, around, None).

(** [posAngle] is a variable of its own where the room of the texts is calculated. *)
Definition prepare_doughnut (c : config) (data : list config) : res (list canvas_op * option round_chart) :=
  let* stats := initPassVariableData_segments toLocaleTimeString c Doughnut data in
  let c := not_logarithmic c in
  let* (m, around) := measure_round Doughnut c data NoLabels in
  let* (_, radius) := calculateDrawingSize c data stats m (fun i => i) (Ok NaN) None in
  let inner := (radius * (fnum c "percentageInnerCutout" / of_Z 100))%num in
  if (radius > n0)%num then
    let* stats := place_segments toLocaleTimeString c Doughnut
                    (round_vars (mid_x m) (mid_y m) inner radius no_scale NaN) 0 data stats in
    Ok (around, Some {| rc_config := c; rc_data := data; rc_measures := m; rc_midX := mid_x m; rc_midY := mid_y m;
                        rc_radius := radius; rc_inner := inner; rc_scale := no_scale; rc_scaleHop := NaN;
                        rc_stats := stats |})
  else Ok (around, None).

(** ** Polar areas *)

(** [getValueBounds], which is called before the chart is measured: the number of
    steps is calculated with variables that have no value yet. *)
Definition polar_bounds (c : config) (data : list config) : res bounds :=
  let '(up, low) := fold_left (fun e (d : config) => extend_plain e d.["value"]) data (neg_MAX_VALUE, MAX_VALUE) in
  let '(up, low) := normalise_range (fnum c "zeroValue") {| upper := up; lower := low; seen := true |} in
  let* low := limit_option callback c.["graphMin"] "GRAPHMIN" nullValue low in
  let* up := limit_option callback c.["graphMax"] "GRAPHMAX" nullValue up in
  Ok (one_axis_bounds up low (NaN, NaN)).

(** The scale of a chart whose size is not known yet. *)
Definition free_scale (fuel : nat) (c : config) (b : bounds) : res scale :=
  let template := if truthy c.["scaleShowLabels"] then to_str c.["scaleLabel"] else "" in
  if truthy c.["scaleOverride"] then
    overridden_scale toLocaleTimeString callback eval_template c 1 template "scaleStartValue" "scaleSteps"
      "scaleStepWidth" "SCALESTARTVALUE" "SCALESTEPS" "SCALESTEPWIDTH"
  else
    calculateScale toLocaleTimeString eval_template fuel 1 c (maxSteps b) (minSteps b) (maxValue b) (minValue b) template.

Definition prepare_polar (fuel : nat) (c : config) (data : list config) : res (list canvas_op * option round_chart) :=
  let* stats := initPassVariableData_segments toLocaleTimeString c PolarArea data in
  let* b := polar_bounds c data in
  let c := not_logarithmic c in
  let* sc := free_scale fuel c b in
  let* (m, around) := measure_round PolarArea c data (Labels (scale_labels sc)) in
  let hop := Math_floor ((Math_min_list [m_availableHeight m; m_availableWidth m] / of_Z 2 - of_Z 5) / steps sc)%num in
  if (hop > n0)%num then
    let radius := (hop * steps sc)%num in
    let* stats := place_segments toLocaleTimeString c PolarArea
                    (round_vars (mid_x m) (mid_y m) n0 radius sc hop) 0 data stats in
    Ok (around, Some {| rc_config := c; rc_data := data; rc_measures := m; rc_midX := mid_x m; rc_midY := mid_y m;
                        rc_radius := radius; rc_inner := n0; rc_scale := sc; rc_scaleHop := hop; rc_stats := stats |})
  else Ok (around, None).

(** ** The kinds of charts *)

Section Kinds.

Context (rc : round_chart).

Let c : config := rc_config rc.
Let midX : num := rc_midX rc.
Let midY : num := rc_midY rc.
Let stroke_width : canvas_op := SetLineWidth (VNum (line s c "segmentStrokeWidth")).
Let stroke_color : canvas_op := SetStrokeStyle c.["segmentStrokeColor"].

(** [typeof(data[i].value) == 'undefined' || 1*data[i].value < 0] *)
Definition without_text (v : jsval) : bool := is_undefined v || (as_num v < n0)%num.

Definition middle_angle (o : config) : num := (fnum o "realStartAngle" - fnum o "segmentAngle" / of_Z 2)%num.

Definition slice (radius start stop : num) : list canvas_op :=
  [Arc midX midY radius start stop false; LineTo midX midY].

(** The outer arc, and the inner one backwards. *)
Definition ring (outer inner start stop : num) : list canvas_op :=
  [Arc midX midY outer start stop false; Arc midX midY inner stop start true].

Definition pie_kind : segment_kind := {|
  is_drawn := has_segment; is_labelled v := negb (without_text v);
  outline _ scale start stop := slice (scale * rc_radius rc)%num start stop;
  stroke_setup := [stroke_width; stroke_color]; middle := middle_angle;
  radii _ := [(1, n0); (2, rc_radius rc / of_Z 2); (3, rc_radius rc)]%num; hides_small := true |}.

Definition doughnut_kind : segment_kind := {|
  is_drawn := has_segment; is_labelled v := negb (without_text v);
  outline _ scale start stop := ring (scale * rc_radius rc)%num (scale * rc_inner rc)%num start stop;
  stroke_setup := [stroke_width; stroke_color]; middle := middle_angle;
  radii _ := [(1, rc_inner rc); (2, rc_inner rc + (rc_radius rc - rc_inner rc) / of_Z 2); (3, rc_radius rc)]%num;
  hides_small := true |}.

Definition polar_kind : segment_kind := {|
  is_drawn v := negb (is_undefined v); is_labelled v := negb (is_undefined v);
  outline o scale start stop := slice (scale * fnum o "radiusOffset")%num start stop;
  stroke_setup := [stroke_color; stroke_width];
  middle o := ((of_Z 2 * fnum o "realStartAngle" - fnum o "segmentAngle") / of_Z 2)%num;
  radii o := [(1, n0); (2, fnum o "radiusOffset" / of_Z 2); (3, fnum o "radiusOffset"); (4, rc_scaleHop rc * steps (rc_scale rc))]%num;
  hides_small := false |}.

(** ** The scale of a polar area *)

(** A label of the scale.  The width of its backdrop is that of an object, not of a
    text: no number. *)
Definition polar_label (y : num) (label : string) : list canvas_op :=
  let size := text s c "scaleFontSize" in
  [SetTextAlign "center"; SetFont (font_of c.["scaleFontStyle"] size c.["scaleFontFamily"])]
  ++ (if truthy c.["scaleShowLabelBackdrop"] then
        let textWidth := NaN in
        [SetFillStyle c.["scaleBackdropColor"]; BeginPath;
         RectPath (Math_round (midX - textWidth / of_Z 2 - space s c "scaleBackdropPaddingX"))
           (Math_round (y - size * lit 5 (-1) - space s c "scaleBackdropPaddingY"))
           (Math_round (textWidth + space s c "scaleBackdropPaddingX" * of_Z 2))
           (Math_round (size + space s c "scaleBackdropPaddingY" * of_Z 2)); FillOp]%num
      else [])
  ++ [SetTextBaseline "middle"; SetFillStyle c.["scaleFontColor"]]
  ++ fillTextMultiLine label midX y "middle" size true.

Definition polar_circle (i : nat) : list canvas_op :=
  let r := (rc_scaleHop rc * of_Z (Z.of_nat i + 1))%num in
  (if truthy c.["scaleShowLine"] && on_grid c (Z.of_nat i + 1) "scaleGridLinesStep" then
     [BeginPath; Arc midX midY r n0 (Math_PI * of_Z 2)%num true; SetStrokeStyle c.["scaleLineColor"];
      SetLineWidth (VNum (line s c "scaleLineWidth")); SetLineDash (lineStyleFn (to_str c.["scaleLineStyle"])); Stroke;
      SetLineDash []]
   else [])
  ++ (if truthy c.["scaleShowLabels"] then polar_label (midY - r)%num (step_text (rc_scale rc) (Z.of_nat i)) else []).

(** [drawScale] *)
Definition polar_scale : res (list canvas_op) :=
  let* n := loop_count (steps (rc_scale rc)) in
  Ok (concat (map polar_circle (seq 0 n))).

(** ** The frames *)

Definition round_frame (t : chart_type) (k : segment_kind) (scale_ops : list canvas_op) (a : page_angles) (animPc : num)
    : res (list canvas_op * list nat * page_angles) :=
  let '(st, r) := draw_segments callback eval_template measureText s align0 baseline0 c (rc_data rc) (rc_stats rc) k
                    midX midY animPc (start_round a) in
  let* _ := r in
  let* legend := pending_legend toLocaleTimeString s c (rc_measures rc) callback t (rc_data rc) in
  Ok (frame_order c scale_ops (drawn (canvas st) ++ legend), arcs st, angles st).

Definition pie_frame (a : page_angles) (animPc : num) := round_frame Pie pie_kind [] a animPc.
Definition doughnut_frame (a : page_angles) (animPc : num) := round_frame Doughnut doughnut_kind [] a animPc.
Definition polar_frame (a : page_angles) (animPc : num) :=
  let* scale_ops := polar_scale in round_frame PolarArea polar_kind scale_ops a animPc.

End Kinds.

End Pies.
