(* ===== verification/Radars.v ===== *)
(** * Radars (ChartNew.js)

    [Radar]: everything before the animation, and the frames.  Fonts that are set only
    to measure a text are not recorded. *)

From stdpp Require Import base list strings gmap.
From Stdlib Require Import ZArith Lia SpecFloat.
From S2P Require Import Prelude Num Value Options OptionValue Format Scale Easing Animation.
From S2P Require Import Stats Canvas Cross Legend Layout Axes Points Lines LineChart Bars Segments Pies.

Open Scope string_scope.
Open Scope list_scope.
Open Scope Z_scope.

(** A radar that is ready for its animation. *)
Record radar_chart : Type := {
  ra_config : config;
  ra_data : chart_data;
  ra_measures : measures;
  ra_bounds : bounds;
  ra_scale : scale;
  ra_midX : num;
  ra_midY : num;
  ra_maxSize : num;
  ra_scaleHop : num;
  ra_stats : gmap (nat * nat) config
}.

Definition radar_layout (c : config) : layout_kind :=
  {| reverseLegend_ := true; reverseAxis := false; drawAxis := false; drawLegendOnData_ := true;
     legendBox_ := c.["datasetFill"] |}.

Definition radar_vars (midX midY size hop : num) (sc : scale) : vars := {|
  xAxisPosY := NaN; yAxisPosX := NaN; valueHop := NaN; nbValueHop := NaN; scaleHop := hop; zeroY := NaN;
  calculatedScale := sc; logarithmic := VUndef; scaleHop2 := NaN; zeroY2 := NaN; calculatedScale2 := no_scale;
  logarithmic2 := VUndef; availableHeight := NaN; barWidth := NaN; midPosX := midX; midPosY := midY; maxSize := size;
  int_radius := NaN; ext_radius := NaN |}.

(** [data.datasets[0].data.length] *)
Definition first_length (data : chart_data) : res nat :=
  match datasets data with d :: _ => Ok (length (ds_data d)) | [] => Throw TypeError end.

(** A range without values becomes one around zero. *)
Definition radar_range (zeroValue up low : num) : num * num :=
  let '(up, low) := if (up < low)%num then (n0, n0) else (up, low) in
  if (Math_abs (up - low) < zeroValue)%num then
    let '(up, low) := if (Math_abs up < zeroValue)%num then (lit 9 (-1), nneg (lit 9 (-1))) else (up, low) in
    if (up > n0)%num then (up * lit 11 (-1), low * lit 9 (-1))%num else (up * lit 9 (-1), low * lit 11 (-1))%num
  else (up, low).

Section Radars.

Context `{MathLib}.
Context (toLocaleTimeString : jsval -> string).
Context (callback : positive -> string -> Z -> Z -> jsval -> res jsval).
Context (eval_template : string -> list (string * jsval) -> res string).
Context (measureText : string -> string -> num).
Context (s : ctx_scales) (align0 baseline0 : string).
Context (width height canvas_width canvas_height : num).

(** [getValueBounds], which is called before the chart is measured. *)
Definition radar_bounds (c : config) (data : chart_data) : res bounds :=
  let '(up, low) := fold_left (fun e d => fold_left extend_plain (ds_data d) e) (datasets data)
                      (neg_MAX_VALUE, MAX_VALUE) in
  let '(up, low) := radar_range (fnum c "zeroValue") up low in
  let* low := limit_option callback c.["graphMin"] "GRAPHMIN" nullValue low in
  let* up := limit_option callback c.["graphMax"] "GRAPHMAX" nullValue up in
  Ok (one_axis_bounds up low (NaN, NaN)).

(** ** The size *)

(** [(2 * Math.PI) / data.datasets[0].data.length] *)
Definition rotation (npoints : nat) : num := (of_Z 2 * Math_PI / of_Z (Z.of_nat npoints))%num.

(** [config.startAngle * Math.PI / 180] *)
Definition start_angle (c : config) : num := (fnum c "startAngle" * Math_PI / of_Z 180)%num.

Definition faces_right (angle : num) : bool :=
  ((angle < Math_PI / of_Z 2)%num && (angle > nneg Math_PI / of_Z 2)%num) || (angle > of_Z 3 * Math_PI / of_Z 2)%num.

Definition point_label_font (c : config) : string :=
  font_of c.["pointLabelFontStyle"] (text s c "pointLabelFontSize") c.["pointLabelFontFamily"].

Section Sizes.

Context (c : config) (labels : list jsval) (m : measures) (rotationDegree : num).

Let w : num := m_availableWidth m.
Let h : num := m_availableHeight m.
Let size : num := text s c "scaleFontSize".

(** The width and the height of a label, together. *)
Definition label_extent (label : jsval) : num :=
  let '(tw, th) := measureTextMultiLine (measureText (point_label_font c)) (to_str label) size in (tw + th)%num.

(** [maxL] and [maxR]: the centre of a maximised graph lies between them. *)
Definition middle_range : num * num :=
  let half := (w / of_Z 2)%num in
  if truthy c.["graphMaximized"] then
    let '(_, l, r) := fold_left (fun '(angle, maxL, maxR) label =>
      let mxlb := ((w - label_extent label) / (of_Z 1 + Math_abs (Math_cos angle)))%num in
      let next := (angle - rotationDegree)%num in
      if faces_right angle then (next, maxL, if (mxlb < maxR)%num then mxlb else maxR)
      else if negb (Math_cos angle == n0)%num then (next, if (mxlb < maxL)%num then mxlb else maxL, maxR)
      else (next, maxL, maxR)) labels (start_angle c, half, half) in (l, r)
  else (half, half).

(** A label leaves less room for the chart: [rotateAngle], [mxlb] and [maxSize].  What is
    compared with zero in [Math.cos(rotateAngle != 0)] is the angle. *)
Definition fit_label (midX : num) (e : num * num * num) (label : jsval) : num * num * num :=
  let '(angle, mxlb, maxSize) := e in
  let smaller x y := if (x < y)%num then x else y in
  let mxlb :=
    if faces_right angle then ((w - midX - label_extent label) / Math_abs (Math_cos angle))%num
    else if truthy (VNum (Math_cos (if (angle == n0)%num then n0 else of_Z 1)))
         then ((midX - label_extent label) / Math_abs (Math_cos angle))%num
    else mxlb in
  let maxSize := smaller mxlb maxSize in
  let '(mxlb, maxSize) :=
    if (Math_sin angle * h / of_Z 2 > h / of_Z 2 - size * of_Z 2)%num then
      let mxlb := (Math_sin angle * h / of_Z 2 - lit 15 (-1) * size)%num in (mxlb, smaller mxlb maxSize)
    else (mxlb, maxSize) in
  ((angle - rotationDegree)%num, mxlb, maxSize).

Definition size_at (midX : num) : num :=
  (fold_left (fit_label midX) labels (start_angle c, NaN, Math_max_list [midX; (w - midX)%num])).2.

(** [for (midX = maxR, iter = 0; iter < nbiter; ++iter, midX += step)]: the largest size
    and where it was found. *)
Fixpoint best_middle (nbiter : nat) (midX step prevMaxSize midPosX : num) : num * num :=
  match nbiter with
  | O => (midPosX, prevMaxSize)
  | S n =>
      let maxSize := size_at midX in
      let '(mid, best) := if (maxSize > prevMaxSize)%num then ((midX + rightNotUsableSize m)%num, maxSize)
                          else (midPosX, prevMaxSize) in
      best_middle n (midX + step)%num step best mid
  end.

(** [midPosX] and [maxSize] *)
Definition calculateDrawingSizes : num * num :=
  let '(maxL, maxR) := middle_range in
  let nbiter := if truthy c.["graphMaximized"] then 40%nat else 1%nat in
  let step := ((w - maxL - maxR) / of_Z (Z.of_nat nbiter))%num in
  let '(mid, best) := best_middle nbiter maxR step n0 (maxR + rightNotUsableSize m)%num in
  (mid, (best - size / of_Z 2)%num).

End Sizes.

Definition prepare_radar (fuel : nat) (c : config) (data : chart_data) : res (list canvas_op * radar_chart) :=
  let* (stats, data) := initPassVariableData_axes toLocaleTimeString c Radar data in
  let* b := radar_bounds c data in
  let c := not_logarithmic c in
  let* sc := free_scale toLocaleTimeString callback eval_template fuel c b in
  let* (m, around) := setMeasures toLocaleTimeString callback measureText s c Radar (radar_layout c) width height
                        canvas_width canvas_height (labels data) (map ds_props (datasets data))
                        (Labels (scale_labels sc)) NoLabels in
  let* npoints := first_length data in
  let '(midX, size) := calculateDrawingSizes c (labels data) m (rotation npoints) in
  let hop := (size / steps sc)%num in
  let* stats := initPassVariableData_part2 s c Radar (labels data) VUndef VUndef (radar_vars midX (mid_y m) size hop sc)
                  npoints stats (datasets data) in
  Ok (around, {| ra_config := c; ra_data := data; ra_measures := m; ra_bounds := b; ra_scale := sc; ra_midX := midX;
                 ra_midY := mid_y m; ra_maxSize := size; ra_scaleHop := hop; ra_stats := stats |}).

(** ** The scale *)

Section Drawing.

Context (rc : radar_chart) (npoints : nat).

Let c : config := ra_config rc.
Let midX : num := ra_midX rc.
Let midY : num := ra_midY rc.
Let maxSize : num := ra_maxSize rc.
Let hop : num := ra_scaleHop rc.
Let turn : num := rotation npoints.
Let tx (k : string) : num := text s c k.
Let ln (k : string) : num := line s c k.
Let sp (k : string) : num := space s c k.

(** [(90 - config.startAngle) * Math.PI / 180] *)
Definition upright : num := ((of_Z 90 - fnum c "startAngle") * Math_PI / of_Z 180)%num.

(** A line from the centre to the rim, in the direction of a point. *)
Definition angle_line (h : nat) : res (list canvas_op) :=
  let* dash := setOptionValue callback (of_Z 1) "ANGLELINESTYLE" VUndef c.["angleLineStyle"] (Z.of_nat h) (-1) nullValue in
  Ok [Rotate turn; BeginPath; MoveTo n0 n0; LineTo n0 (nneg maxSize); SetLineDash (lineStyleFn (to_str dash)); Stroke;
      SetLineDash []].

Definition angle_lines : res (list canvas_op) :=
  if truthy c.["angleShowLineOut"] then
    let* ls := res_mapM angle_line (seq 0 npoints) in
    Ok ([SetStrokeStyle c.["angleLineColor"]; SetLineWidth (VNum (ln "angleLineWidth"))] ++ concat ls)
  else Ok [].

(** The polygon of a step. *)
Definition step_line (i : nat) : list canvas_op :=
  let y := (nneg hop * of_Z (Z.of_nat i + 1))%num in
  [BeginPath]
  ++ (if truthy c.["scaleShowLine"] && on_grid c (Z.of_nat i + 1) "scaleGridLinesStep" then
        [SetStrokeStyle c.["scaleLineColor"]; SetLineWidth (VNum (ln "scaleLineWidth")); MoveTo n0 y]
        ++ concat (repeat [Rotate turn; LineTo n0 y] npoints)
        ++ [ClosePath; SetLineDash (lineStyleFn (to_str c.["scaleLineStyle"])); Stroke; SetLineDash []]
      else []).

(** The label of a step, on the line of the first point. *)
Definition step_label (i : nat) : list canvas_op :=
  let size := tx "scaleFontSize" in
  let label := step_text (ra_scale rc) (Z.of_nat i) in
  let n := of_Z (Z.of_nat i + 1) in
  let x := (Math_cos (start_angle c) * (hop * n))%num in
  let y := (nneg (Math_sin (start_angle c)) * hop * n)%num in
  let font := font_of c.["scaleFontStyle"] size c.["scaleFontFamily"] in
  [SetTextAlign "center"; SetFont font; SetTextBaseline "middle"]
  ++ (if truthy c.["scaleShowLabelBackdrop"] then
        let textWidth := (measureTextMultiLine (measureText font) label size).1 in
        [SetFillStyle c.["scaleBackdropColor"]; BeginPath;
         RectPath (Math_round (x - textWidth / of_Z 2 - sp "scaleBackdropPaddingX"))
           (Math_round (y - size * lit 5 (-1) - sp "scaleBackdropPaddingY"))
           (Math_round (textWidth + sp "scaleBackdropPaddingX" * of_Z 2))
           (Math_round (size + sp "scaleBackdropPaddingY" * of_Z 2)); FillOp]%num
      else [])
  ++ [SetFillStyle c.["scaleFontColor"]] ++ fillTextMultiLine label x y "middle" size true.

(** The angle of a label of a point, brought between 0 and a full turn. *)
Definition label_angle (fuel : nat) (angle : num) : res num :=
  let* a := while fuel (fun a => a < n0)%num (fun a => a + of_Z 2 * Math_PI)%num angle in
  while fuel (fun a => a > of_Z 2 * Math_PI)%num (fun a => a - of_Z 2 * Math_PI)%num a.

Definition label_side (vangle : num) : string :=
  if (vangle == Math_PI)%num || (vangle == n0)%num then "center" else if (vangle > Math_PI)%num then "right" else "left".

Definition point_label (fuel : nat) (kl : nat * jsval) : res (list canvas_op) :=
  let size := tx "pointLabelFontSize" in
  let angle := (upright + turn * of_Z (Z.of_nat kl.1))%num in
  let opposite := (Math_sin angle * (maxSize + size))%num in
  let adjacent := (Math_cos angle * (maxSize + size))%num in
  let* vangle := label_angle fuel angle in
  Ok ([SetFont (point_label_font c); SetFillStyle c.["pointLabelFontColor"]; SetTextAlign (label_side vangle);
       SetTextBaseline "middle"]
      ++ fillTextMultiLine (to_str kl.2) opposite (nneg adjacent) "middle" size true).

(** [drawScale] *)
Definition radar_scale (fuel : nat) : res (list canvas_op) :=
  let* lines := angle_lines in
  let* n := loop_count (steps (ra_scale rc)) in
  let* ls := res_mapM (point_label fuel) (imap pair (labels (ra_data rc))) in
  Ok ([Save; Translate midX midY; Rotate upright] ++ lines ++ concat (map step_line (seq 0 n))
      ++ [Rotate (nneg (of_Z 90 - fnum c "startAngle") * Math_PI / of_Z 180)%num]
      ++ (if truthy c.["scaleShowLabels"] then concat (map step_label (seq 0 n)) else [])
      ++ concat ls ++ [Restore]).

(** ** The points *)

Let statData : gmap (nat * nat) config := ra_stats rc.

Let opt (rescale : num) (reference : string) (own : jsval) (k : string) (i : nat) (j : Z) (others : jsval) : tracer jsval :=
  point_option callback c rescale reference own k i j others.
Let nullvalue_true : jsval := VObj [("nullvalue", VBool true)].
Let stat_point (i j : nat) : tracer config := stat_Z statData i (Z.of_nat j).

(** Where a point is at a stage of the animation. *)
Definition radar_xy (o : config) (m : num) : num * num := (midX + m * fnum o "offsetX", midY - m * fnum o "offsetY")%num.

(** The outline of a dataset: whether it has begun, and the stage of the last point. *)
Definition outline_point (animationDecimal : num) (i : nat) (d : dataset) (e : bool * option num) (j : nat)
    : tracer (bool * option num) :=
  let! m := bar_progress c (ra_data rc) animationDecimal i j in
  if is_undefined (bar_value d j) then eff_ret (e.1, Some m)
  else
    let! o := stat_point i j in
    let '(x, y) := radar_xy o m in
    do! emit (if e.1 then [LineTo x y] else [BeginPath; MoveTo x y]) in
    eff_ret (true, Some m).

Definition radar_dot (i : nat) (d : dataset) (after : Z) (m : num) (k : nat) : tracer unit :=
  eff_when (negb (is_undefined (bar_value d k))) (
    do! emit [BeginPath] in
    let! markerShape := opt (of_Z 1) "MARKERSHAPE" (ds_props d).["markerShape"] "markerShape" i after nullvalue_true in
    let! markerRadius := opt (ctx_space s) "MARKERRADIUS" (ds_props d).["pointDotRadius"] "pointDotRadius" i after nullvalue_true in
    let! markerStrokeStyle := opt (of_Z 1) "MARKERSTROKESTYLE" (ds_props d).["pointDotStrokeStyle"] "pointDotStrokeStyle"
                                i after nullvalue_true in
    let! o := stat_point i k in
    let '(x, y) := radar_xy o m in
    emit (drawMarker x y (to_str markerShape) (to_num markerRadius) (to_str markerStrokeStyle))).

(** The colours of a dataset: the area up to its largest value. *)
Definition radar_fill (i : nat) (d : dataset) (m : option num) : tracer unit :=
  if truthy c.["datasetFill"] then
    let! o := stat_point i 0 in
    let grown := if truthy c.["animationLeftToRight"] then of_Z 1 else numo m in
    let! color := opt (of_Z 1) "COLOR" (ds_props d).["fillColor"] "defaultFillColor" i (-1)
      (VObj [("animationValue", numv m); ("midPosX", o.["midPosX"]); ("midPosY", o.["midPosY"]);
             ("ext_radius", VNum (grown * fnum o "calculated_offset_max")%num)]) in
    emit [SetFillStyle color]
  else emit [SetFillStyle (VStr "rgba(0,0,0,0)")].

Definition radar_dots (animationDecimal : num) (i : nat) (d : dataset) (m : num) : tracer unit :=
  eff_when (truthy c.["pointDot"] && (negb (truthy c.["animationLeftToRight"]) || (animationDecimal >= of_Z 1)%num)) (
    do! emit [BeginPath] in
    let! fill := opt (of_Z 1) "MARKERFILLCOLOR" (ds_props d).["pointColor"] "defaultStrokeColor" i (-1) nullvalue_true in
    do! emit [SetFillStyle fill] in
    let! stroke := opt (of_Z 1) "MARKERSTROKESTYLE" (ds_props d).["pointStrokeColor"] "defaultStrokeColor" i (-1) nullvalue_true in
    do! emit [SetStrokeStyle stroke] in
    let! width := opt (ctx_line s) "MARKERLINEWIDTH" (ds_props d).["pointDotStrokeWidth"] "pointDotStrokeWidth" i (-1)
                    nullvalue_true in
    do! emit [SetLineWidth width] in
    eff_iter (radar_dot i d (Z.of_nat (length (ds_data d))) m) (seq 0 (length (ds_data d)))).

Definition radar_dataset (animationDecimal : num) (before : option num) (id : nat * dataset) : tracer (option num) :=
  let '(i, d) := id in
  let! e := eff_fold (outline_point animationDecimal i d) (seq 0 (length (ds_data d))) (false, before) in
  let m := e.2 in
  do! emit [ClosePath] in
  do! radar_fill i d m in
  let! stroke := opt (of_Z 1) "STROKECOLOR" (ds_props d).["strokeColor"] "defaultStrokeColor" i (-1) nullvalue in
  do! emit [SetStrokeStyle stroke; SetLineWidth (VNum (ln "datasetStrokeWidth")); FillOp] in
  let! dash := opt (of_Z 1) "LINEDASH" (ds_props d).["datasetStrokeStyle"] "datasetStrokeStyle" i
                 (Z.of_nat (length (ds_data d))) nullvalue in
  do! emit [SetLineDash (lineStyleFn (to_str dash)); Stroke; SetLineDash []] in
  do! radar_dots animationDecimal i d (numo m) in
  eff_ret m.

(** ** The texts of the points *)

Let text_opt (rescale : num) (reference k : string) (i : nat) : tracer jsval := text_option callback c rescale reference k i (-1).

(** [(config.startAngle * Math.PI / 180 - j * rotationDegree + 4 * Math.PI) % (2 * Math.PI)] *)
Definition point_angle (j : nat) : num :=
  nrem (start_angle c - of_Z (Z.of_nat j) * turn + of_Z 4 * Math_PI)%num (of_Z 2 * Math_PI)%num.

Definition past_three_quarters (j : nat) : bool := (point_angle j > of_Z 3 * Math_PI / of_Z 2)%num.

Definition radar_align (i j : nat) (align : jsval) : tracer jsval :=
  let side (on_right : bool) (there other : string) :=
    let! rotate := text_opt (of_Z 1) "INGRAPHDATAROTATE" "inGraphDataRotate" i in
    eff_ret (VStr (if loose_eq rotate (VStr "inRadiusAxis") || on_right then there else other)) in
  if loose_eq align (VStr "off-center") then
    side (past_three_quarters j || (point_angle j <= Math_PI / of_Z 2)%num) "left" "right"
  else if loose_eq align (VStr "to-center") then
    side (past_three_quarters j || (point_angle j < Math_PI / of_Z 2)%num) "right" "left"
  else eff_ret align.

Definition radar_baseline (j : nat) (baseline : jsval) : jsval :=
  if loose_eq baseline (VStr "off-center") then VStr (if (point_angle j > Math_PI)%num then "bottom" else "top")
  else if loose_eq baseline (VStr "to-center") then VStr (if (point_angle j > Math_PI)%num then "top" else "bottom")
  else baseline.

(** [radiusPrt]: an unknown position leaves that of the text before. *)
Definition radius_part (i : nat) (o : config) (before : num) : tracer num :=
  let! pos := text_opt (of_Z 1) "INGRAPHDATARADIUSPOSITION" "inGraphDataRadiusPosition" i in
  let at_ r := let! p := text_opt (of_Z 1) "INGRAPHDATAPADDINGRADIUS" "inGraphDataPaddingRadius" i in
               eff_ret (to_num (js_add (VNum r) p)) in
  if loose_eq pos (VInt 1) then at_ n0
  else if loose_eq pos (VInt 2) then at_ (fnum o "calculated_offset" / of_Z 2)%num
  else if loose_eq pos (VInt 3) then at_ (fnum o "calculated_offset")
  else eff_ret before.

Definition radar_turn (i j : nat) : tracer unit :=
  let! rotate := text_opt (of_Z 1) "INGRAPHDATAROTATE" "inGraphDataRotate" i in
  let angle := (of_Z (Z.of_nat j) * turn)%num in
  if loose_eq rotate (VStr "inRadiusAxis") then emit [Rotate angle]
  else if loose_eq rotate (VStr "inRadiusAxisRotateLabels") then
    emit [Rotate (of_Z (if left_side angle then 3 else 2) * Math_PI + angle)%num]
  else emit [Rotate (to_num rotate * degree)%num].

Definition draw_radar_text (i j : nat) (radiusPrt : num) : tracer num :=
  do! emit [Save; BeginPath] in
  let! align0' := text_opt (of_Z 1) "INGRAPHDATAALIGN" "inGraphDataAlign" i in
  do! emit [SetTextAlign (to_str align0')] in
  let! baseline0' := text_opt (of_Z 1) "INGRAPHDATAVALIGN" "inGraphDataVAlign" i in
  do! emit [SetTextBaseline (to_str baseline0')] in
  let! align := radar_align i j align0' in
  let baseline := radar_baseline j baseline0' in
  do! emit [SetTextAlign (to_str align); SetTextBaseline (to_str baseline)] in
  let! font := text_font callback s c i (-1) in
  do! emit [SetFont font] in
  let! color := text_opt (of_Z 1) "INGRAPHDATAFONTCOLOR" "inGraphDataFontColor" i in
  do! emit [SetFillStyle color] in
  let! o := stat_point i j in
  let! radiusPrt := radius_part i o radiusPrt in
  let part := (radiusPrt / fnum o "calculated_offset")%num in
  let '(x, y) := if (fnum o "calculated_offset" > n0)%num
                 then (midX + fnum o "offsetX" * part, midY - fnum o "offsetY" * part)%num else (midX, midY) in
  do! emit [Translate x y] in
  do! radar_turn i j in
  let! dispString := text_string callback eval_template c i (-1) o in
  do! boxed_text callback measureText s c i (-1) font (assigned text_aligns (assigned text_aligns align0 align0') align)
        (assigned text_baselines (assigned text_baselines baseline0 baseline0') baseline) dispString in
  do! emit [Restore] in
  eff_ret radiusPrt.

(** The annotation and the text of a point. *)
Definition label_radar_point (radiusPrt : num) (idj : nat * dataset * nat) : tracer num :=
  let '(i, d, j) := idj in
  if is_undefined (bar_value d j) then eff_ret radiusPrt
  else
    let! show := text_option callback c (of_Z 1) "ANNOTATEDISPLAY" "annotateDisplay" i (Z.of_nat j) in
    do! eff_when (truthy show) (eff_modify (annotate i j)) in
    let! show := text_option callback c (of_Z 1) "INGRAPHDATASHOW" "inGraphDataShow" i (Z.of_nat j) in
    if truthy show then draw_radar_text i j radiusPrt else eff_ret radiusPrt.

Definition all_points : list (nat * dataset * nat) :=
  concat (imap (fun i d => map (fun j => (i, d, j)) (seq 0 (length (ds_data d)))) (datasets (ra_data rc))).

(** [drawAllDataPoints] *)
Definition radar_drawing (animationDecimal : num) : tracer unit :=
  do! emit [Save] in
  let! _ := eff_fold (radar_dataset animationDecimal) (imap pair (datasets (ra_data rc))) None in
  do! emit [Restore] in
  eff_when (animationDecimal >= fnum c "animationStopValue")%num (
    let! _ := eff_fold label_radar_point all_points NaN in eff_ret tt).

End Drawing.

(** ** A frame *)

(** [fuel] is for bringing the angles of labels within a turn. *)
Definition radar_frame (fuel : nat) (rc : radar_chart) (animPc : num) : res (list canvas_op * list (nat * nat)) :=
  let* npoints := first_length (ra_data rc) in
  let* scale_ops := radar_scale rc npoints fuel in
  let '(t, r) := radar_drawing rc npoints animPc no_tracing in
  let* _ := r in
  let* legend := chart_legend toLocaleTimeString s (ra_config rc) (ra_measures rc) callback Radar (ra_data rc) in
  Ok (frame_order (ra_config rc) scale_ops (drawn t ++ legend), annotated t).

End Radars.
