(* ===== verification/ShownSegments.v ===== *)
(** * What round charts show (ChartNew.js)

    The functions of a pie, a doughnut or a polar area together: the segments are
    measured ([initPassVariableData_part1]), placed ([initPassVariableData_part2]) and
    drawn; what is filled in the last frame are slices, one after the other. *)

From stdpp Require Import base list strings gmap.
From Stdlib Require Import ZArith Lia SpecFloat.
From S2P Require Import Prelude Num Value Options OptionValue Format Scale Easing Animation.
From S2P Require Import Stats Canvas Cross Legend Layout Axes Points Lines LineChart Filling Bars Segments Pies.

Open Scope string_scope.
Open Scope list_scope.
Open Scope Z_scope.

(** ** The angles of the segments *)

Section Slices.

Context `{MathLib}.
Context (toLocaleTimeString : jsval -> string).
Context (c : config) (t : chart_type) (p : pie_totals) (first : num).

(** A value that has a segment in a chart of this type. *)
Definition has_slice (v : jsval) : bool :=
  negb (is_undefined v) && (bool_decide (t = PolarArea) || (as_num v >= n0)%num).

(** The slices of the segments that have one: each begins where the one before ends. *)
Fixpoint slices (angle : num) (l : list (nat * config)) : list (nat * config * (num * num)) :=
  match l with
  | [] => []
  | (i, d) :: l =>
      if has_slice d.["value"] then
        let next := (angle + segment_angle t p d.["value"])%num in ((i, d), (angle, next)) :: slices next l
      else slices angle l
  end.

(** The fields of a segment that say where it is. *)
Definition arc_fields : list string := ["startAngle"; "endAngle"; "firstAngle"; "segmentAngle"].

Definition keeps (o o' : config) : Prop := forall k, k ∈ arc_fields -> o'.[k] = o.[k].

Definition kept (r r' : gmap nat config) (n : nat) : Prop :=
  forall o, r !! n = Some o -> exists o', r' !! n = Some o' /\ keeps o o'.

Definition spread (be : num * num) (o : config) : Prop :=
  o.["startAngle"] = VNum be.1 /\ o.["endAngle"] = VNum be.2 /\ o.["firstAngle"] = VNum first.

Lemma keeps_refl (o : config) : keeps o o.
Proof. by intros k _. Qed.

Lemma keeps_trans (o1 o2 o3 : config) : keeps o1 o2 -> keeps o2 o3 -> keeps o1 o3.
Proof. intros H1 H2 k Hk. by rewrite H2, H1. Qed.

Lemma kept_refl (r : gmap nat config) (n : nat) : kept r r n.
Proof. intros o Ho. exists o. by split; [|apply keeps_refl]. Qed.

Lemma kept_trans (r1 r2 r3 : gmap nat config) (n : nat) : kept r1 r2 n -> kept r2 r3 n -> kept r1 r3 n.
Proof.
  intros H1 H2 o Ho. destruct (H1 o Ho) as (o2 & Ho2 & K2). destruct (H2 o2 Ho2) as (o3 & Ho3 & K3).
  exists o3. split; [done|by eapply keeps_trans].
Qed.

Lemma keeps_spread (be : num * num) (o o' : config) : keeps o o' -> spread be o -> spread be o'.
Proof. intros K (H1 & H2 & H3). by repeat split; rewrite K by (cbn; set_solver). Qed.

(** Other fields may change. *)
Lemma keeps_fields (l : list (string * jsval)) (o : config) :
  Forall (fun k => last_field l k = None) arc_fields -> keeps o (set_fields l o).
Proof. intros Hl k Hk. rewrite List.Forall_forall in Hl. by rewrite set_fields_prop, Hl by by apply list_elem_of_In. Qed.

(** [if (prevNotMissing != -1) result[prevNotMissing].nextNotMissing = i] *)
Lemma kept_link (b : bool) (r : gmap nat config) (i : jsval) (m n : nat) :
  kept r (if b then r else alter (set_fields [("nextNotMissing", i)]) m r) n.
Proof.
  destruct b; [apply kept_refl|]. intros o Ho. destruct (decide (m = n)) as [->|Hne].
  - exists (set_fields [("nextNotMissing", i)] o). rewrite lookup_alter_eq, Ho. split; [done|].
    apply keeps_fields. by repeat constructor.
  - exists o. rewrite lookup_alter_ne by done. split; [done|apply keeps_refl].
Qed.

Lemma pie_point_slice (s s' : pie_pass) (i : nat) (d : config) :
  pie_point toLocaleTimeString c t p first s (i, d) = Ok s' ->
  (if has_slice d.["value"]
   then p_angle s' = (p_angle s + segment_angle t p d.["value"])%num /\
        exists o, p_result s' !! i = Some o /\ spread (p_angle s, p_angle s') o
   else p_angle s' = p_angle s) /\
  forall n, n <> i -> kept (p_result s) (p_result s') n.
Proof.
  unfold pie_point, has_slice. destruct (_ && _).
  - intros Hp. apply res_bind_Ok in Hp as (texts & _ & Hp). apply Ok_inj in Hp as <-. cbn [p_angle p_result].
    split; [split; [done|]|].
    + edestruct kept_link as (o & Ho & K); [apply lookup_insert_eq|]. exists o. split; [exact Ho|].
      eapply keeps_spread; [exact K|]. by repeat split; rewrite of_fields_prop, last_field_app.
    + intros n Hn. eapply kept_trans; [|apply kept_link]. intros o Ho. exists o.
      rewrite lookup_insert_ne by done. split; [done|apply keeps_refl].
  - intros Hp. apply Ok_inj in Hp as <-. split; [done|]. intros n Hn o Ho. exists o.
    cbn [p_result]. rewrite lookup_insert_ne by done. split; [done|apply keeps_refl].
Qed.

Lemma pie_points_slices (l : list (nat * config)) (s s' : pie_pass) : NoDup (map fst l) ->
  pie_points toLocaleTimeString c t p first l s = Ok s' ->
  (forall n, n ∉ map fst l -> kept (p_result s) (p_result s') n) /\
  forall i d be, ((i, d), be) ∈ slices (p_angle s) l -> exists o, p_result s' !! i = Some o /\ spread be o.
Proof.
  revert s. induction l as [|[i d] l IH]; intros s Hl Hs.
  { cbn [pie_points] in Hs. apply Ok_inj in Hs as <-. split; [intros; apply kept_refl|]. by intros i d be ?%elem_of_nil. }
  cbn [map fst] in Hl. apply NoDup_cons in Hl as [Hi Hl].
  cbn [pie_points] in Hs. apply res_bind_Ok in Hs as (s1 & H1 & Hs).
  destruct (pie_point_slice _ _ _ _ H1) as [Hsl Hk]. destruct (IH s1 Hl Hs) as [IHk IHs]. split.
  - intros n [Hn Hn']%not_elem_of_cons. eapply kept_trans; [by apply Hk|by apply IHk].
  - intros i' d' be. cbn [slices]. destruct (has_slice _).
    + destruct Hsl as (Ha & o & Ho & Hspread). rewrite <- Ha. intros [[= -> -> ->]|Hin]%elem_of_cons; [|by apply (IHs i' d')].
      destruct (IHk i Hi o Ho) as (o' & Ho' & K). exists o'. split; [done|by eapply keeps_spread].
    + rewrite <- Hsl. apply (IHs i' d').
Qed.

(** The distance of a segment from the centre. *)
Definition radius_of (v : vars) (value : jsval) : num :=
  if bool_decide (t = PolarArea) then calculateOffset c.["logarithmic"] (as_num value) (calculatedScale v) (scaleHop v)
  else ext_radius v.

Lemma segment_position_keeps (v : vars) (value : jsval) (o o' : config) :
  segment_position toLocaleTimeString c t v value o = Ok o' ->
  keeps o o' /\ o'.["radiusOffset"] = VNum (radius_of v value).
Proof.
  unfold segment_position. intros Hp. succeed. apply Ok_inj in Hp as <-.
  split; [apply keeps_fields; by repeat constructor|by rewrite set_fields_prop].
Qed.

Lemma place_segments_keep (v : vars) (l : list config) (i : nat) (r r' : gmap nat config) :
  place_segments toLocaleTimeString c t v i l r = Ok r' ->
  (forall n, (n < i)%nat -> r' !! n = r !! n) /\
  forall n d, l !! n = Some d -> exists o o', r !! (i + n)%nat = Some o /\ r' !! (i + n)%nat = Some o' /\ keeps o o' /\
    o'.["radiusOffset"] = VNum (radius_of v d.["value"]).
Proof.
  revert i r. induction l as [|d l IH]; intros i r Hp; cbn [place_segments] in Hp.
  { apply Ok_inj in Hp as <-. by split. }
  destruct (r !! i) as [o|] eqn:Ho; [|done]. apply res_bind_Ok in Hp as (o1 & H1 & Hp).
  apply segment_position_keeps in H1 as [K1 R1]. destruct (IH _ _ Hp) as [Hlow Hat]. split.
  - intros n Hn. rewrite Hlow by lia. by rewrite lookup_insert_ne by lia.
  - intros [|n] d' Hd; cbn [lookup list_lookup] in Hd.
    + injection Hd as ->. exists o, o1. rewrite Nat.add_0_r. split; [done|]. rewrite Hlow by lia.
      by rewrite lookup_insert_eq.
    + destruct (Hat n d' Hd) as (o2 & o2' & Ho2 & ?). exists o2, o2'.
      replace (i + S n)%nat with (S i + n)%nat by lia. by rewrite lookup_insert_ne in Ho2 by lia.
Qed.

End Slices.

(** The angle at which a chart begins. *)
Definition first_angle (c : config) : num := normalise_angle (nneg (fnum c "startAngle") * (Math_PI / of_Z 180))%num.

Lemma pair_indices {A} (l : list A) (n : nat) : map fst (imap (fun i x => (n + i, x)%nat) l) = seq n (length l).
Proof.
  revert n. induction l as [|x l IH]; intros n; [done|]. cbn [imap map fst length seq]. rewrite Nat.add_0_r. f_equal.
  rewrite <- IH. f_equal. apply imap_ext. intros i y _. cbn. f_equal. lia.
Qed.

Lemma NoDup_pairs {A} (l : list A) : NoDup (map fst (imap pair l)).
Proof. change (imap pair l) with (imap (fun i x => (0 + i, x)%nat) l). rewrite pair_indices. apply NoDup_seq. Qed.

Lemma slices_in t p angle (l : list (nat * config)) (x : nat * config * (num * num)) : x ∈ slices t p angle l -> x.1 ∈ l.
Proof.
  revert angle. induction l as [|[i d] l IH]; intros angle; cbn [slices]; [by intros ?%elem_of_nil|].
  destruct (has_slice _ _); [intros [->|Hin]%elem_of_cons; [by left|]|intros Hin]; right; by eapply IH.
Qed.

Lemma slices_have t p angle (l : list (nat * config)) (x : nat * config * (num * num)) : x ∈ slices t p angle l ->
  has_slice t x.1.2.["value"] = true.
Proof.
  revert angle. induction l as [|[i d] l IH]; intros angle; cbn [slices]; [by intros ?%elem_of_nil|].
  destruct (has_slice t d.["value"]) eqn:Hs; [intros [->|Hin]%elem_of_cons; [done|]|intros Hin]; by eapply IH.
Qed.

(** ** The last frame *)

Section Drawn.

Context `{MathLib}.
Context (toLocaleTimeString : jsval -> string).
Context (callback : positive -> string -> Z -> Z -> jsval -> res jsval).
Context (eval_template : string -> list (string * jsval) -> res string).
Context (measureText : string -> string -> num).
Context (s : ctx_scales) (align0 baseline0 : string).
Context (c0 c : config) (t : chart_type) (v : vars) (data : list config) (st0 st : gmap nat config).
Context (k : segment_kind) (midX midY : num).

Hypothesis Hmeasured : initPassVariableData_segments toLocaleTimeString c0 t data = Ok st0.
Hypothesis Hplaced : place_segments toLocaleTimeString c t v 0 data st0 = Ok st.

Let first : num := first_angle c0.
Let all_slices : list (nat * config * (num * num)) := slices t (pie_scan_all t data) first (imap pair data).

Lemma slice_placed (i : nat) (d : config) (be : num * num) : ((i, d), be) ∈ all_slices ->
  exists o, st !! i = Some o /\ spread first be o /\ o.["radiusOffset"] = VNum (radius_of c t v d.["value"]).
Proof.
  intros Hin. pose proof (slices_in _ _ _ _ _ Hin) as (j & e & Heq & Hd)%elem_of_lookup_imap.
  cbn [fst] in Heq. injection Heq as -> ->.
  pose proof Hmeasured as Hm. unfold initPassVariableData_segments in Hm.
  apply res_bind_Ok in Hm as (s' & Hs & Hm). apply Ok_inj in Hm as <-.
  destruct (proj2 (pie_points_slices _ _ _ _ _ _ _ _ (NoDup_pairs data) Hs) j e be Hin) as (o & Ho & Hspread).
  destruct (proj2 (place_segments_keep _ _ _ _ _ _ _ _ Hplaced) j e Hd) as (o1 & o2 & Ho1 & Ho2 & K & Hr).
  cbn [Nat.add] in Ho1, Ho2. rewrite Ho in Ho1. injection Ho1 as ->. exists o2. split; [done|].
  split; [by eapply keeps_spread|done].
Qed.

(** Texts and annotations that are the same for all segments, and none shown; all
    segments turn together. *)
Record plain_segments : Prop := {
  bare_segments : plain_texts c;
  segment_fill : plain c.["defaultFillColor"];
  segment_dash : plain c.["segmentStrokeStyle"];
  turn_together : c.["animationByData"] = VBool false;
  own_colours : Forall (fun d : config => plain d.["color"] /\ plain d.["segmentStrokeStyle"]) data
}.

(** What the kind of the chart draws for a segment. *)
Context (shape : config -> num -> num -> num -> list canvas_op).

Record drawn_kind : Prop := {
  drawn_slices : forall x, is_drawn k x = has_slice t x;
  only_style : forall p, pen_after p (stroke_setup k) = p;
  outlines : forall o d scale b e, o.["radiusOffset"] = VNum (radius_of c t v d.["value"]) ->
    outline k o scale b e = shape d scale b e;
  only_path : forall d scale b e, forallb path_op (shape d scale b e) = true
}.

Hypothesis Hc : plain_segments.
Hypothesis Hk : drawn_kind.

(** The end of the animation is the whole turn. *)
Definition swept (x : num) : num := (first + of_Z 1 * (x - first))%num.

Definition filled_slice (x : nat * config * (num * num)) : list canvas_op :=
  shape x.1.2 (of_Z 1) (swept x.2.1) (swept x.2.2) ++ [ClosePath].

Lemma animated_at_end (o : string) : animated c (of_Z 1) o = of_Z 1.
Proof. unfold animated. by destruct (_ && _). Qed.

(** A path that is begun, filled, and perhaps stroked. *)
Lemma segment_paint (i : nat) (d : config) (others : jsval) (l : list canvas_op) :
  plain d.["color"] -> plain d.["segmentStrokeStyle"] -> forallb path_op l = true ->
  fills (do! emit [BeginPath] in
         do! emit (l ++ [ClosePath]) in
         let! color := point_option callback c (of_Z 1) "COLOR" d.["color"] "defaultFillColor" i (-1) others in
         do! emit [SetFillStyle color; FillOp] in
         eff_when (truthy c.["segmentShowStroke"]) (
           do! emit (stroke_setup k) in
           let! dash := point_option callback c (of_Z 1) "SEGMENTSTROKESTYLE" d.["segmentStrokeStyle"]
                          "segmentStrokeStyle" i (-1) others in
           emit [SetLineDash (lineStyleFn (to_str dash)); Stroke; SetLineDash []])) [l ++ [ClosePath]].
Proof.
  intros Hcolor Hdash Hl tr.
  assert (Hp : forallb path_op (l ++ [ClosePath]) = true) by (rewrite List.forallb_app, Hl; done).
  unfold emit at 1. erewrite eff_bind_ok by reflexivity. unfold emit at 1. erewrite eff_bind_ok by reflexivity.
  erewrite eff_bind_ok by (apply option_plain; [done|apply (segment_fill Hc)]).
  unfold emit at 1. erewrite eff_bind_ok by reflexivity.
  match goal with |- exists t', eff_when _ _ ?t3 = _ /\ _ => set (tr3 := t3) end.
  assert (H3 : filled (pen_of tr3) = filled (pen_of tr) ++ [l ++ [ClosePath]]).
  { unfold tr3. rewrite !pen_emit. change (pen_after ?p [BeginPath]) with (pen_op p BeginPath). by rewrite (pen_path _ _ Hp). }
  destruct (truthy _); cbn [eff_when]; [|by exists tr3].
  unfold emit at 1. erewrite eff_bind_ok by reflexivity.
  erewrite eff_bind_ok by (apply option_plain; [done|apply (segment_dash Hc)]).
  eexists. split; [reflexivity|]. rewrite !pen_emit, (only_style Hk).
  cbn [pen_after fold_left pen_op filled annotated set_drawn]. by rewrite H3.
Qed.

(** A segment that was placed is filled from its beginning to its end. *)
Lemma slice_fills (i : nat) (d : config) (be : num * num) : ((i, d), be) ∈ all_slices ->
  fills (draw_segment callback c st k (of_Z 1) (i, d)) [filled_slice ((i, d), be)].
Proof.
  intros Hin tr. destruct (slice_placed i d be Hin) as (o & Ho & (Hb & He & Hf) & Hr).
  pose proof (slices_in _ _ _ _ _ Hin) as (j & e & Heq & Hd)%elem_of_lookup_imap. cbn [fst] in Heq. injection Heq as -> ->.
  pose proof (proj1 (Forall_lookup _ _) (own_colours Hc) j e Hd) as [Hcolor Hdash].
  pose proof (slices_have _ _ _ _ _ Hin) as Hhas. cbn [fst snd] in Hhas.
  unfold draw_segment. rewrite !animated_at_end, correction_at_end. unfold eff_lift at 1.
  erewrite eff_bind_ok by reflexivity. rewrite (drawn_slices Hk), Hhas. cbn [eff_when].
  unfold segment_stat. rewrite Ho.
  assert (Hends : segment_ends c o (mainVal (progress_of (of_Z 1) n0)) = Some (swept be.1, swept be.2)).
  { unfold segment_ends, fnum. rewrite (turn_together Hc), Hb, He, Hf. done. }
  refine (_ : exists t', eff_bind (emit [BeginPath]) _ tr = _ /\ _). unfold emit at 1. erewrite eff_bind_ok by reflexivity.
  unfold eff_lift. erewrite eff_bind_ok by reflexivity. rewrite Hends, (outlines Hk _ e) by done.
  exact (segment_paint j e _ _ Hcolor Hdash (only_path Hk e (of_Z 1) (swept be.1) (swept be.2)) tr).
Qed.

Lemma segments_fill (l : list (nat * config)) (angle : num) :
  (forall x, x ∈ slices t (pie_scan_all t data) angle l -> x ∈ all_slices) ->
  fills (eff_iter (draw_segment callback c st k (of_Z 1)) l)
    (map filled_slice (slices t (pie_scan_all t data) angle l)).
Proof.
  revert angle. induction l as [|[i d] l IH]; intros angle Hl; [apply fills_nothing|]. cbn [eff_iter slices] in Hl |- *.
  destruct (has_slice t d.["value"]) eqn:Hs.
  - cbn [map]. apply (fills_bind _ _ [_]); [apply slice_fills, Hl; left|]. apply IH. intros x Hx. apply Hl. by right.
  - apply (fills_bind _ _ []); [|by apply IH]. intros tr. exists tr. split; [|by rewrite app_nil_r].
    unfold draw_segment. rewrite !animated_at_end, correction_at_end. unfold eff_lift at 1.
    erewrite eff_bind_ok by reflexivity. by rewrite (drawn_slices Hk), Hs.
Qed.

(** *** Texts and annotations *)

Lemma note_option (reference key : string) (i : nat) (r : rounding) : plain c.[key] ->
  segment_option callback c (of_Z 1) reference key i r = (r, Ok c.[key]).
Proof.
  intros Hp. unfold segment_option, on_canvas, text_option. rewrite option_plain by done. by destruct r.
Qed.

Lemma label_segment_notes (l : list (nat * config)) (r : rounding) :
  exists r', eff_iter (label_segment callback eval_template measureText s align0 baseline0 c st k midX midY) l r = (r', Ok tt) /\
    canvas r' = canvas r /\ angles r' = angles r.
Proof.
  revert r. induction l as [|[i d] l IH]; intros r; [by exists r|]. cbn [eff_iter].
  destruct (no_texts _ (bare_segments Hc)) as [Hshow Hoff].
  assert (Hone : exists r1, label_segment callback eval_template measureText s align0 baseline0 c st k midX midY (i, d) r
                    = (r1, Ok tt) /\ canvas r1 = canvas r /\ angles r1 = angles r).
  { unfold label_segment. destruct (is_labelled k _); cbn [eff_when]; [|by exists r].
    rewrite (eff_bind_ok _ _ _ _ _ (note_option _ _ _ _ (plain_annotate _ (bare_segments Hc)))).
    destruct (truthy c.["annotateDisplay"]); cbn [eff_when]; (erewrite eff_bind_ok by reflexivity);
      rewrite (eff_bind_ok _ _ _ _ _ (note_option _ _ _ _ Hshow)), Hoff; cbn [eff_when]; by eexists. }
  destruct Hone as (r1 & H1 & Hc1 & Ha1). destruct (IH r1) as (r2 & H2 & Hc2 & Ha2).
  exists r2. rewrite (eff_bind_ok _ _ _ _ _ H1), H2, Hc2, Hc1, Ha2, Ha1. done.
Qed.

(** The frame of the whole turn. *)
Lemma segments_drawn (a : page_angles) :
  exists r, draw_segments callback eval_template measureText s align0 baseline0 c data st k midX midY (of_Z 1) (start_round a)
              = (r, Ok tt) /\
    filled (pen_after no_pen (drawn (canvas r))) = map filled_slice all_slices /\ angles r = a.
Proof.
  unfold draw_segments. destruct (segments_fill (imap pair data) first (fun x Hx => Hx) no_tracing) as (tr & Ht & Hf & _).
  erewrite eff_bind_ok by (unfold on_canvas; cbn [canvas start_round]; by rewrite Ht).
  destruct (of_Z 1 >= _)%num; cbn [eff_when].
  - edestruct label_segment_notes as (r & Hr & Hcan & Ha). exists r. split; [exact Hr|]. by rewrite Hcan, Ha.
  - eexists. split; [reflexivity|]. split; [exact Hf|done].
Qed.

End Drawn.

(** ** Charts that were prepared *)

Section Shown.

Context `{MathLib}.
Context (toLocaleTimeString : jsval -> string).
Context (callback : positive -> string -> Z -> Z -> jsval -> res jsval).
Context (eval_template : string -> list (string * jsval) -> res string).
Context (measureText : string -> string -> num).
Context (s : ctx_scales) (align0 baseline0 : string).
Context (width height canvas_width canvas_height : num).
Context (c : config) (data : list config).

(** What a chart of each type fills for a segment, at a scale and between two angles. *)
Inductive prepared_round : chart_type -> round_chart -> segment_kind -> (config -> num -> num -> num -> list canvas_op) -> Prop :=
| prepared_pie a a' ops rc :
    prepare_pie toLocaleTimeString callback eval_template measureText s width height canvas_width canvas_height a c data
      = Ok (a', ops, Some rc) ->
    prepared_round Pie rc (pie_kind s rc) (fun _ scale => slice rc (scale * rc_radius rc)%num)
| prepared_doughnut ops rc :
    prepare_doughnut toLocaleTimeString callback eval_template measureText s width height canvas_width canvas_height c data
      = Ok (ops, Some rc) ->
    prepared_round Doughnut rc (doughnut_kind s rc)
      (fun _ scale => ring rc (scale * rc_radius rc)%num (scale * rc_inner rc)%num)
| prepared_polar fuel ops rc :
    prepare_polar toLocaleTimeString callback eval_template measureText s width height canvas_width canvas_height fuel c data
      = Ok (ops, Some rc) ->
    prepared_round PolarArea rc (polar_kind s rc)
      (fun d scale => slice rc (scale * calculateOffset (VBool false) (as_num d.["value"]) (rc_scale rc) (rc_scaleHop rc))%num).

(** The segments were measured and placed. *)
Record measured_round (t : chart_type) (rc : round_chart) : Prop := {
  mr_data : rc_data rc = data;
  mr_log : (rc_config rc).["logarithmic"] = VBool false;
  mr_stats : exists st0, initPassVariableData_segments toLocaleTimeString c t data = Ok st0 /\
    place_segments toLocaleTimeString (rc_config rc) t
      (round_vars (rc_midX rc) (rc_midY rc) (rc_inner rc) (rc_radius rc) (rc_scale rc) (rc_scaleHop rc)) 0 data st0
      = Ok (rc_stats rc)
}.

Lemma prepared_measured t rc k shape : prepared_round t rc k shape -> measured_round t rc.
Proof.
  intros Hp. destruct Hp as [a a' ops rc Hp|ops rc Hp|fuel ops rc Hp];
    [unfold prepare_pie in Hp|unfold prepare_doughnut in Hp|unfold prepare_polar in Hp];
    apply res_bind_Ok in Hp as (st0 & H0 & Hp); succeed; cbv zeta in Hp;
    (destruct (_ > n0)%num; [|by apply Ok_inj, (f_equal snd) in Hp]);
    apply res_bind_Ok in Hp as (st1 & H1 & Hp); apply Ok_inj, (f_equal snd) in Hp; cbn [snd] in Hp;
    injection Hp as <-; (split; cbn [rc_data rc_config]; [done| |by exists st0]);
    unfold not_logarithmic; by rewrite prop_insert_ne, prop_insert.
Qed.

Lemma prepared_kind t rc k shape : prepared_round t rc k shape ->
  drawn_kind (rc_config rc) t
    (round_vars (rc_midX rc) (rc_midY rc) (rc_inner rc) (rc_radius rc) (rc_scale rc) (rc_scaleHop rc)) k shape.
Proof.
  intros Hp. pose proof (mr_log _ _ (prepared_measured _ _ _ _ Hp)) as Hlog.
  destruct Hp as [a a' ops rc Hp|ops rc Hp|fuel ops rc Hp]; split; try done.
  - intros x. cbn. unfold has_slice. by rewrite andb_true_r.
  - intros o d scale b e Hr. cbn [outline polar_kind]. unfold fnum. rewrite Hr.
    unfold radius_of. cbn. by rewrite Hlog.
Qed.


End Shown.

(** *** A pie of three values *)

Definition pie_page : config := Pie_config no_personal_options (Some (of_fields [("animation", VBool false)])).

Definition pie_data : list config :=
  [of_fields [("value", VInt 30); ("color", VStr "red"); ("title", VStr "a")];
   of_fields [("value", VInt (-5)); ("color", VStr "green"); ("title", VStr "b")];
   of_fields [("value", VInt 90); ("color", VStr "blue"); ("title", VStr "c")]].

Definition unassigned : page_angles := {| posAngle := None; labelRadius := None |}.

Definition sample_pie : res (page_angles * list canvas_op * option round_chart) :=
  prepare_pie (H := sample_math) (fun _ => "") (fun _ _ _ _ _ => Ok VUndef) (fun s _ => Ok s) (fun _ _ => of_Z 20)
    unit_scales (of_Z 450) (of_Z 350) (of_Z 450) (of_Z 350) unassigned pie_page pie_data.

(** What the hypotheses ask of the chart. *)
Definition pie_facts (rc : round_chart) : list jsval :=
  map (prop (rc_config rc)) ["inGraphDataShow"; "annotateDisplay"; "defaultFillColor"; "segmentStrokeStyle"; "animationByData"].

Lemma sample_pie_known : exists ops rc, sample_pie = Ok (ops, Some rc) /\
  pie_facts rc = [VBool false; VBool false; VStr "rgba(220,220,220,0.5)"; VStr "solid"; VBool false].
Proof. apply known_chart. vm_compute. reflexivity. Qed.

Lemma sample_pie_plain (rc : round_chart) :
  pie_facts rc = [VBool false; VBool false; VStr "rgba(220,220,220,0.5)"; VStr "solid"; VBool false] ->
  plain_segments (rc_config rc) pie_data.
Proof.
  unfold pie_facts. cbn [map]. intros Hf. injection Hf as E1 E2 E3 E4 E5.
  split; [split|..]; rewrite ?E1, ?E2, ?E3, ?E4, ?E5; try done.
  unfold pie_data. repeat (apply List.Forall_cons; [vm_compute; repeat split; discriminate|]). apply List.Forall_nil.
Qed.

