(* ===== verification/ShownRadars.v ===== *)
(** * What radars show (ChartNew.js)

    The functions of a radar together: its data are measured
    ([initPassVariableData_part1]), scaled and placed ([initPassVariableData_part2])
    and drawn; what the last frame fills and strokes are polygons through the data. *)

From stdpp Require Import base list strings gmap.
From Stdlib Require Import ZArith Lia SpecFloat.
From S2P Require Import Prelude Num Binary64 Value Options OptionValue Format Scale Easing Animation.
From S2P Require Import Stats Canvas Cross Legend Layout Axes Points Lines LineChart ShownData Filling Bars ShownBars.
From S2P Require Import Segments Pies Radars.

Open Scope string_scope.
Open Scope list_scope.
Open Scope Z_scope.

(** ** The places of the points *)

Section Places.

Context `{MathLib}.
Context (s : ctx_scales) (c : config) (labels : list jsval) (xBegin xEnd : jsval) (v : vars) (npoints : nat).

(** The angle of a point, and where it is seen from the centre. *)
Definition spoke (j : nat) : num := (start_angle c - of_Z (Z.of_nat j) * rotation npoints)%num.

Definition radar_offset (j : nat) (value : jsval) : num * num :=
  let offset := calculateOffset c.["logarithmic"] (to_num value) (calculatedScale v) (scaleHop v) in
  (Math_cos (spoke j) * offset, Math_sin (spoke j) * offset)%num.

Definition radar_placed (p p' : gmap (nat * nat) config) (i : nat) (d : dataset) (j : nat) (value : jsval) : Prop :=
  exists o', p' !! (i, j) = Some o' /\
    (o'.["offsetX"], o'.["offsetY"]) = (VNum (radar_offset j value).1, VNum (radar_offset j value).2).

Lemma part2_radar (statData r : gmap (nat * nat) config) (ds : list dataset) :
  initPassVariableData_part2 s c Radar labels xBegin xEnd v npoints statData ds = Ok r ->
  forall i d j value, ds !! i = Some d -> ds_data d !! j = Some value -> radar_placed statData r i d j value.
Proof.
  unfold initPassVariableData_part2. intros Hp. apply res_bind_Ok in Hp as (p & Hp & Hr). apply Ok_inj in Hr as <-.
  intros i d j value Hd Hj.
  refine (proj2 (place_datasets_steps s c labels xBegin xEnd v npoints Radar (fun _ => True) radar_placed _ _ _ _ _ _ Hp)
    i d j value Hd I Hj).
  - intros i' d' j' value' p1 p2 _ Hs. unfold place_point in Hs. cbn [tpdraw] in Hs.
    apply res_bind_Ok in Hs as (o & _ & Hs). apply res_bind_Ok in Hs as (above & _ & Hs). apply Ok_inj in Hs as <-.
    cbn [set_point placed]. eexists. rewrite lookup_insert_eq. split; [reflexivity|].
    unfold radar_point. rewrite !set_fields_prop. unfold spoke_line. by destruct (_ < _)%num.
  - intros i' d' j' value' p1 p2 q1 q2 E1 E2 (o' & ? & ?). exists o'. by rewrite <- E2.
Qed.

End Places.

(** ** The last frame *)

Section Drawn.

Context `{MathLib}.
Context (callback : positive -> string -> Z -> Z -> jsval -> res jsval).
Context (eval_template : string -> list (string * jsval) -> res string).
Context (measureText : string -> string -> num).
Context (s : ctx_scales) (align0 baseline0 : string).
Context (rc : radar_chart) (npoints : nat).

Let c : config := ra_config rc.
Let ds : list dataset := datasets (ra_data rc).

(** Datasets with a value, in one style each, without texts and dots. *)
Record plain_radar : Prop := {
  radar_styles : plain_bars c;
  no_radar_dots : truthy c.["pointDot"] = false;
  radar_datasets : Forall (fun d => plain_styles d /\ valued d <> [] /\ Z.of_nat (length (ds_data d)) < 2 ^ 53) ds
}.

Hypothesis Hc : plain_radar.

(** All points were placed. *)
Hypothesis Hplaced : forall i d j value, ds !! i = Some d -> ds_data d !! j = Some value ->
  exists o, ra_stats rc !! (i, j) = Some o.

Definition radar_point_at (i j : nat) : num * num := radar_xy rc (point_stat (ra_stats rc) i j) (of_Z 1).

Lemma radar_progress (i j : nat) (t : tracing) : bar_progress c (ra_data rc) (of_Z 1) i j t = (t, Ok (of_Z 1)).
Proof. unfold bar_progress, eff_lift. rewrite correction_at_end. done. Qed.

Lemma radar_stat (i : nat) (d : dataset) (j : nat) (t : tracing) : ds !! i = Some d -> (j < length (ds_data d))%nat ->
  stat_Z (ra_stats rc) i (Z.of_nat j) t = (t, Ok (point_stat (ra_stats rc) i j)).
Proof.
  intros Hd Hj. destruct (lookup_lt_is_Some_2 _ _ Hj) as [value Hv]. destruct (Hplaced i d j value Hd Hv) as (o & Ho).
  pose proof (proj1 (Forall_lookup _ _) (radar_datasets Hc) i d Hd) as (_ & _ & Hlen).
  unfold stat_Z, stat, eff_lift, stat_at, point_stat. change (to_num (VInt (Z.of_nat j))) with (of_Z (Z.of_nat j)).
  by rewrite (safe_index _ _ Hlen Hj), Ho.
Qed.

(** The path after some points: the first point begins it. *)
Definition outline_path (begun : bool) (old : list canvas_op) (ps : list (num * num)) : list canvas_op :=
  if begun then old ++ map (fun p => LineTo p.1 p.2) ps else match ps with [] => old | _ => polyline ps end.

(** The stage of the animation of the last point. *)
Definition last_stage (before : option num) (l : list nat) : option num :=
  match l with [] => before | _ => Some (of_Z 1) end.

Lemma outline_run (i : nat) (d : dataset) (l : list nat) (e : bool * option num) (t : tracing) : ds !! i = Some d ->
  (forall j, j ∈ l -> (j < length (ds_data d))%nat) ->
  exists t' m, eff_fold (outline_point rc (of_Z 1) i d) l e t = (t', Ok (m, last_stage e.2 l)) /\
    pen_of t' = {| path := outline_path e.1 (path (pen_of t)) (map (radar_point_at i) (List.filter (has_value d) l));
                   stroked := stroked (pen_of t); filled := filled (pen_of t) |} /\
    annotated t' = annotated t.
Proof.
  intros Hd. revert e t. induction l as [|j l IH]; intros [b m0] t Hl.
  { exists t, b. split; [done|]. split; [|done]. destruct b; cbn [fst map List.filter outline_path]; rewrite ?app_nil_r; by destruct (pen_of t). }
  cbn [eff_fold List.filter fst snd]. unfold outline_point at 1. fold c.
  destruct (has_value d j) eqn:Hv; unfold has_value in Hv.
  - apply negb_true_iff in Hv.
    set (xy := radar_point_at i j). set (t1 := set_drawn (drawn t ++ (if b then [LineTo xy.1 xy.2] else [BeginPath; MoveTo xy.1 xy.2])) t).
    destruct (IH (true, Some (of_Z 1)) t1 ltac:(intros; apply Hl; by right)) as (t' & m & Hrun & Hpen & Hann).
    exists t', m. split; [|split; [|done]].
    + erewrite eff_bind_ok; [rewrite Hrun; by destruct l|]. erewrite eff_bind_ok by apply radar_progress.
      unfold bar_value. rewrite Hv. erewrite eff_bind_ok by (apply (radar_stat i d); [done|apply Hl; left]).
      cbn [radar_xy fst snd]. erewrite eff_bind_ok by reflexivity. reflexivity.
    + rewrite Hpen. unfold t1. rewrite pen_emit. cbn [map fst]. fold xy. by destruct b; cbn; rewrite <- ?app_assoc.
  - apply negb_false_iff in Hv. destruct (IH (b, Some (of_Z 1)) t ltac:(intros; apply Hl; by right)) as (t' & m & Hrun & Hpen & Hann).
    exists t', m. split; [|done]. erewrite eff_bind_ok; [rewrite Hrun; by destruct l|].
    erewrite eff_bind_ok by apply radar_progress. unfold bar_value. by rewrite Hv.
Qed.

(** The polygon of a dataset goes through the places of its values. *)
Definition polygon (i : nat) (d : dataset) : list canvas_op := polyline (map (radar_point_at i) (valued d)) ++ [ClosePath].

Lemma radar_fill_styles (i : nat) (d : dataset) (m : option num) (t : tracing) : ds !! i = Some d -> valued d <> [] ->
  plain_styles d -> exists color, radar_fill callback rc i d m t = emit [SetFillStyle color] t.
Proof.
  intros Hd Hv (_ & _ & Hfill). unfold radar_fill. fold c. destruct (truthy _); [|by exists (VStr "rgba(0,0,0,0)")].
  assert (Hlen : (0 < length (ds_data d))%nat) by (unfold valued in Hv; destruct (ds_data d); [done|cbn; lia]).
  eexists. erewrite eff_bind_ok by (by apply (radar_stat i d 0)).
  erewrite eff_bind_ok by (apply option_plain; [done|apply (bars_fill _ (radar_styles Hc))]). reflexivity.
Qed.

Lemma radar_dataset_run (i : nat) (d : dataset) (before : option num) (t : tracing) : ds !! i = Some d ->
  exists t' m, radar_dataset callback s rc (of_Z 1) before (i, d) t = (t', Ok m) /\
    stroked (pen_of t') = stroked (pen_of t) ++ [polygon i d] /\ filled (pen_of t') = filled (pen_of t) ++ [polygon i d] /\
    annotated t' = annotated t.
Proof.
  intros Hd. pose proof (proj1 (Forall_lookup _ _) (radar_datasets Hc) i d Hd) as (Hsty & Hval & Hlen).
  pose proof Hsty as (Hdash & Hstroke & _). unfold radar_dataset. fold c.
  destruct (outline_run i d (seq 0 (length (ds_data d))) (false, before) t Hd) as (t1 & b & H1 & P1 & A1);
    [intros j Hj%elem_of_seq; lia|].
  erewrite eff_bind_ok by exact H1. unfold emit at 1. erewrite eff_bind_ok by reflexivity.
  match goal with |- context [eff_bind (radar_fill ?cb ?r ?x ?y ?m) ?f ?t2] =>
    destruct (radar_fill_styles x y m t2 Hd Hval Hsty) as [color Hcolor] end.
  unfold emit at 1 in Hcolor. erewrite eff_bind_ok by exact Hcolor.
  erewrite eff_bind_ok by (apply option_plain; [done|apply (bars_stroke _ (radar_styles Hc))]).
  unfold emit at 1. erewrite eff_bind_ok by reflexivity.
  erewrite eff_bind_ok by (apply option_plain; [done|apply (bars_dash _ (radar_styles Hc))]).
  unfold emit at 1. erewrite eff_bind_ok by reflexivity.
  unfold radar_dots. fold c. rewrite (no_radar_dots Hc). cbn [andb eff_when]. erewrite eff_bind_ok by reflexivity.
  eexists _, _. split; [reflexivity|]. rewrite !pen_emit, P1. fold (valued d). cbn [fst outline_path].
  assert (Hp : forall ps : list (num * num), ps <> [] -> (match ps with [] => path (pen_of t) | _ => polyline ps end) = polyline ps).
  { by intros []. }
  rewrite Hp by (intros Hm%map_eq_nil; done).
  cbn [pen_after fold_left pen_op path stroked filled annotated set_drawn]. by rewrite A1.
Qed.

Lemma radar_datasets_run (l : list dataset) (k : nat) (before : option num) (t : tracing) :
  (forall n d, l !! n = Some d -> ds !! (k + n)%nat = Some d) ->
  exists t' m, eff_fold (radar_dataset callback s rc (of_Z 1)) (imap (fun n d => (k + n, d)%nat) l) before t = (t', Ok m) /\
    stroked (pen_of t') = stroked (pen_of t) ++ imap (fun n d => polygon (k + n) d) l /\
    filled (pen_of t') = filled (pen_of t) ++ imap (fun n d => polygon (k + n) d) l /\ annotated t' = annotated t.
Proof.
  revert k before t. induction l as [|d l IH]; intros k before t Hl.
  { exists t, before. by rewrite !app_nil_r. }
  destruct (radar_dataset_run k d before t) as (t1 & m1 & H1 & S1 & F1 & A1); [by rewrite <- (Nat.add_0_r k); apply Hl|].
  destruct (IH (S k) m1 t1) as (t2 & m2 & H2 & S2 & F2 & A2).
  { intros n e He. replace (S k + n)%nat with (k + S n)%nat by lia. by apply Hl. }
  exists t2, m2. rewrite !imap_cons, Nat.add_0_r. cbn [eff_fold]. rewrite (eff_bind_ok _ _ _ _ _ H1).
  assert (Hs : forall B (f : nat -> dataset -> B), imap ((fun n d => f (k + n)%nat d) ∘ S) l = imap (fun n d => f (S k + n)%nat d) l).
  { intros B f. apply imap_ext. intros n e _. cbn. f_equal. lia. }
  rewrite (Hs _ (fun n d => (n, d))), H2, !Hs, S2, S1, F2, F1, A2, A1, <- !app_assoc. done.
Qed.

(** Texts and annotations change nothing that was drawn. *)
Lemma radar_labels_run (l : list (nat * dataset * nat)) (radiusPrt : num) (t : tracing) :
  exists t' r, eff_fold (label_radar_point callback eval_template measureText s align0 baseline0 rc npoints) l radiusPrt t
                 = (t', Ok r) /\ drawn t' = drawn t.
Proof.
  revert radiusPrt t. induction l as [|[[i d] j] l IH]; intros radiusPrt t; [by exists t, radiusPrt|]. cbn [eff_fold].
  assert (Hone : exists t1, label_radar_point callback eval_template measureText s align0 baseline0 rc npoints radiusPrt (i, d, j) t
                    = (t1, Ok radiusPrt) /\ drawn t1 = drawn t).
  { unfold label_radar_point. destruct (is_undefined _); [by exists t|]. fold c.
    destruct (no_texts _ (bare_bars _ (radar_styles Hc))) as [Hshow Hoff]. unfold text_option.
    erewrite eff_bind_ok by (apply option_plain; [done|apply (plain_annotate _ (bare_bars _ (radar_styles Hc)))]).
    destruct (truthy (styled _ _ _)); cbn [eff_when]; (erewrite eff_bind_ok by reflexivity);
      (erewrite eff_bind_ok by (apply option_plain; done)); unfold styled; cbn [is_undefined]; rewrite Hoff; by eexists. }
  destruct Hone as (t1 & H1 & D1). destruct (IH radiusPrt t1) as (t2 & r & H2 & D2).
  exists t2, r. by rewrite (eff_bind_ok _ _ _ _ _ H1), D2.
Qed.

Lemma radar_drawn : exists t, radar_drawing callback eval_template measureText s align0 baseline0 rc npoints (of_Z 1) no_tracing
                                = (t, Ok tt) /\
  filled (pen_after no_pen (drawn t)) = imap polygon ds /\ stroked (pen_after no_pen (drawn t)) = imap polygon ds.
Proof.
  unfold radar_drawing. unfold emit at 1. erewrite eff_bind_ok by reflexivity.
  match goal with |- context [eff_bind (eff_fold _ _ _) _ ?t0] =>
    destruct (radar_datasets_run ds 0 None t0) as (t1 & m & H1 & S1 & F1 & _); [done|] end.
  change (imap (fun n d => (0 + n, d)%nat) ds) with (imap pair ds) in H1. erewrite eff_bind_ok by exact H1.
  unfold emit at 1. erewrite eff_bind_ok by reflexivity.
  match goal with |- context [eff_when _ _ ?t] => set (t2 := t) end.
  assert (Hend : filled (pen_of t2) = imap polygon ds /\ stroked (pen_of t2) = imap polygon ds).
  { unfold t2. rewrite pen_emit. split; [exact F1|exact S1]. }
  destruct (of_Z 1 >= _)%num; cbn [eff_when]; [|by exists t2].
  destruct (radar_labels_run (all_points rc) NaN t2) as (t3 & r & H3 & D3). exists t3.
  erewrite eff_bind_ok by exact H3. split; [reflexivity|]. by rewrite D3.
Qed.

End Drawn.

(** ** A radar that was prepared *)

Section Shown.

Context `{MathLib}.
Context (toLocaleTimeString : jsval -> string).
Context (callback : positive -> string -> Z -> Z -> jsval -> res jsval).
Context (eval_template : string -> list (string * jsval) -> res string).
Context (measureText : string -> string -> num).
Context (s : ctx_scales) (align0 baseline0 : string).
Context (width height canvas_width canvas_height : num).
Context (fuel : nat) (c : config) (data : chart_data) (ops : list canvas_op) (rc : radar_chart).

Let prepared : Prop := prepare_radar toLocaleTimeString callback eval_template measureText s width height
                         canvas_width canvas_height fuel c data = Ok (ops, rc).
Let ds : list dataset := datasets (ra_data rc).

Lemma radar_prepared : prepared ->
  ds = map (pad_dataset Radar (length (labels data))) (datasets data) /\ (ra_config rc).["logarithmic"] = VBool false /\
  exists npoints stats, first_length (ra_data rc) = Ok npoints /\
    initPassVariableData_part2 s (ra_config rc) Radar (labels (ra_data rc)) VUndef VUndef
      (radar_vars (ra_midX rc) (ra_midY rc) (ra_maxSize rc) (ra_scaleHop rc) (ra_scale rc)) npoints stats ds
      = Ok (ra_stats rc).
Proof.
  unfold prepared, prepare_radar. intros Hp. apply res_bind_Ok in Hp as ([stats data1] & Hs & Hp). cbv zeta in Hp.
  apply res_bind_Ok in Hp as (b & _ & Hp). apply res_bind_Ok in Hp as (sc & _ & Hp).
  apply res_bind_Ok in Hp as ([m around] & _ & Hp). apply res_bind_Ok in Hp as (npoints & Hn & Hp).
  destruct (calculateDrawingSizes _ _ _ _ _ _) as [midX size]. apply res_bind_Ok in Hp as (stats2 & Hs2 & Hp).
  apply Ok_inj, (f_equal snd) in Hp. cbn [snd] in Hp. subst rc ds. cbn [ra_data ra_config ra_stats]. split; [|split].
  - unfold initPassVariableData_axes in Hs. apply res_bind_Ok in Hs as (? & _ & Hs).
    apply Ok_inj, (f_equal snd) in Hs. cbn [snd] in Hs. by rewrite <- Hs.
  - unfold not_logarithmic. by rewrite prop_insert_ne, prop_insert.
  - by exists npoints, stats.
Qed.

(** The place of a value on the canvas: in the direction of its label, as far from the
    centre as the scale says. *)
Definition radar_place (npoints : nat) (d : dataset) (j : nat) : num * num :=
  let angle := (start_angle (ra_config rc) - of_Z (Z.of_nat j) * rotation npoints)%num in
  let offset := calculateOffset (VBool false) (to_num (bar_value d j)) (ra_scale rc) (ra_scaleHop rc) in
  (ra_midX rc + of_Z 1 * (Math_cos angle * offset), ra_midY rc - of_Z 1 * (Math_sin angle * offset))%num.

Definition shown_polygon (npoints : nat) (d : dataset) : list canvas_op :=
  polyline (map (radar_place npoints d) (valued d)) ++ [ClosePath].

(** C7: a radar shows its data.  When it was prepared for its animation (datasets with
    values, in one style each, without dots and texts), its last frame fills and strokes one polygon
    for every dataset and nothing else: through the places of its values, in their order, leaving
    none out and closed at the end.  The place of a value is in the direction of its
    label, at the distance from the centre that the scale gives it; the datasets are those of
    the page, missing points added at their ends. *)
Theorem radar_shows_data : prepared -> plain_radar rc ->
  ds = map (pad_dataset Radar (length (labels data))) (datasets data) /\
  exists npoints t, first_length (ra_data rc) = Ok npoints /\
    radar_drawing callback eval_template measureText s align0 baseline0 rc npoints (of_Z 1) no_tracing = (t, Ok tt) /\
    filled (pen_after no_pen (drawn t)) = map (shown_polygon npoints) ds /\
    stroked (pen_after no_pen (drawn t)) = map (shown_polygon npoints) ds.
Proof.
  intros Hp Hc. destruct (radar_prepared Hp) as (Hds & Hlog & npoints & stats & Hn & Hpart).
  pose proof (part2_radar _ _ _ _ _ _ _ _ _ _ Hpart) as Hat.
  split; [done|]. exists npoints.
  destruct (radar_drawn callback eval_template measureText s align0 baseline0 rc npoints Hc) as (t & Ht & Hf & Hst).
  { intros i d j value Hd Hj. destruct (Hat i d j value Hd Hj) as (o & Ho & _). by exists o. }
  assert (Hpoly : imap (polygon rc) ds = map (shown_polygon npoints) ds).
  { etransitivity; [|exact (imap_const (shown_polygon npoints) ds)]. apply imap_ext. intros i d Hd.
    unfold polygon, shown_polygon, const. f_equal. f_equal. apply map_ext_in. intros j [Hj _]%filter_In. apply in_seq in Hj.
    destruct (lookup_lt_is_Some_2 (ds_data d) j ltac:(lia)) as [value Hv].
    destruct (Hat i d j value Hd Hv) as (o & Ho & Hxy). unfold radar_point_at, point_stat, radar_xy, fnum. rewrite Ho.
    change (default ∅ (Some o)) with o. rewrite (f_equal fst Hxy : o.["offsetX"] = _), (f_equal snd Hxy : o.["offsetY"] = _).
    unfold radar_offset, radar_place, bar_value. rewrite Hlog, Hv. done. }
  exists t. unfold ds in Hpoly. by rewrite Hf, Hst, Hpoly.
Qed.

End Shown.

(** *** A radar of two datasets *)

Definition radar_page : config :=
  Radar_config no_personal_options (Some (of_fields [("animation", VBool false); ("pointDot", VBool false)])).

Definition radar_data : chart_data := {|
  labels := [VStr "a"; VStr "b"; VStr "c"];
  datasets := [sample_dataset [VInt 32; VInt 50; VInt 41]; sample_dataset [VInt 20; VUndef; VInt 35]] |}.

Definition sample_radar : res (list canvas_op * option radar_chart) :=
  let* (ops, rc) := prepare_radar (H := sample_math) (fun _ => "") (fun _ _ _ _ _ => Ok VUndef) (fun s _ => Ok s)
    (fun _ _ => of_Z 20) unit_scales (of_Z 450) (of_Z 350) (of_Z 450) (of_Z 350) 100 radar_page radar_data in
  Ok (ops, Some rc).

(** What the hypotheses ask of the chart. *)
Definition radar_facts (rc : radar_chart) : list jsval * list dataset :=
  (map (prop (ra_config rc)) ["inGraphDataShow"; "annotateDisplay"; "datasetStrokeStyle"; "defaultStrokeColor";
                              "defaultFillColor"; "pointDot"], datasets (ra_data rc)).

Definition known_radar_facts : list jsval * list dataset :=
  ([VBool false; VBool false; VStr "solid"; VStr "rgba(220,220,220,1)"; VStr "rgba(220,220,220,0.5)"; VBool false],
   datasets radar_data).

Lemma sample_radar_known : exists ops rc, sample_radar = Ok (ops, Some rc) /\ radar_facts rc = known_radar_facts.
Proof. apply known_chart. vm_compute. reflexivity. Qed.

Lemma sample_radar_plain (rc : radar_chart) : radar_facts rc = known_radar_facts -> plain_radar rc.
Proof.
  unfold radar_facts, known_radar_facts. cbn [map]. intros Hf. pose proof (f_equal snd Hf : datasets (ra_data rc) = _) as E7.
  apply (f_equal fst) in Hf. cbn [fst] in Hf. injection Hf as E1 E2 E3 E4 E5 E6.
  split; rewrite ?E7.
  - split; [split|..]; rewrite ?E1, ?E2, ?E3, ?E4, ?E5; done.
  - by rewrite E6.
  - repeat (apply List.Forall_cons; [vm_compute; repeat split; discriminate|]). apply List.Forall_nil.
Qed.

Lemma radar_shows_data_witness : exists ops rc npoints t, sample_radar = Ok (ops, Some rc) /\
  radar_drawing (H := sample_math) (fun _ _ _ _ _ => Ok VUndef) (fun s _ => Ok s) (fun _ _ => of_Z 20) unit_scales
    "start" "alphabetic" rc npoints (of_Z 1) no_tracing = (t, Ok tt) /\
  map length (filled (pen_after no_pen (drawn t))) = [4; 3]%nat.
Proof.
  destruct sample_radar_known as (ops & rc & Hp & Hf). pose proof Hp as Hprep. unfold sample_radar in Hprep.
  apply res_bind_Ok in Hprep as ([ops' rc'] & Hprep & Heq). apply Ok_inj in Heq.
  pose proof (f_equal snd Heq) as Hrc. cbn [snd] in Hrc. assert (rc' = rc) as -> by congruence.
  destruct (radar_shows_data (H := sample_math) _ _ _ _ _ "start" "alphabetic" _ _ _ _ _ _ _ ops' rc Hprep
    (sample_radar_plain rc Hf)) as (_ & n & t & _ & Ht & Hfill & _).
  exists ops, rc, n, t. split; [exact Hp|]. split; [exact Ht|]. rewrite Hfill, (f_equal snd Hf : datasets (ra_data rc) = _).
  reflexivity.
Defined.
