(* ===== verification/RadarAngles.v ===== *)
(** * The angles of the labels of a radar (ChartNew.js)

    [drawScale] brings the angle of a label between zero and a full turn with two
    loops, on numbers that round. *)

From stdpp Require Import base list strings.
From Stdlib Require Import ZArith Lia SpecFloat Reals Lra.
From S2P Require Import Prelude Num Binary64 Value Options OptionValue Easing Canvas Lines LineChart Segments Pies Radars ShownRadars.

Open Scope Z_scope.

(** ** Numbers between bounds *)

(** A finite number between two real numbers. *)
Definition within (lo hi : R) (x : num) : Prop :=
  valid x = true /\ is_finite x = true /\ (lo <= B2X x <= hi)%R.

Lemma within_wider (lo hi lo' hi' : R) (x : num) : within lo hi x -> (lo' <= lo)%R -> (hi <= hi')%R -> within lo' hi' x.
Proof. intros (V & F & B) Hlo Hhi. split; [done|]. split; [done|lra]. Qed.

Lemma within_ordered (lo hi : R) (x : num) : within lo hi x -> ordered x.
Proof. intros (V & F & _). by apply finite_ordered. Qed.

Lemma safe_bound (z : Z) : safe z -> (Rabs (IZR z) <= bpow 53)%R.
Proof. intros Hz. rewrite <- abs_IZR, <- IZR_pow2 by lia. by apply IZR_le. Qed.

(** Rounding keeps bounds that are numbers, for results that are not too large. *)
Lemma rounds_within (x lo hi : R) (r : num) : rounds x r -> exact lo -> exact hi -> (lo <= x <= hi)%R ->
  (Rabs x <= bpow 53)%R -> within lo hi r.
Proof.
  intros Hr Hlo Hhi Hx Hs. split; [by apply Hr|]. split.
  - apply (rounds_small_finite x); [done|]. eapply Rle_trans; [exact Hs|]. apply bpow_le. lia.
  - split; [eapply rounds_ge|eapply rounds_le]; (done || lra).
Qed.

Lemma rounds_within_Z (x : R) (a b : Z) (r : num) : rounds x r -> safe a -> safe b -> (IZR a <= x <= IZR b)%R ->
  within (IZR a) (IZR b) r.
Proof.
  intros Hr Ha Hb Hx. apply (rounds_within x); auto using safe_exact.
  pose proof (safe_bound a Ha). pose proof (safe_bound b Hb). unfold Rabs in *.
  repeat match goal with H : context [Rcase_abs ?y] |- _ => destruct (Rcase_abs y) | |- context [Rcase_abs ?y] => destruct (Rcase_abs y) end; lra.
Qed.

Lemma of_Z_within (z : Z) : safe z -> within (IZR z) (IZR z) (of_Z z).
Proof. intros Hz. split; [apply of_Z_valid|]. split; [by apply of_Z_finite|]. rewrite of_Z_B2X by done. lra. Qed.

Definition full_turn : num := (of_Z 2 * Math_PI)%num.

Lemma full_turn_within : within 6 7 full_turn.
Proof.
  split; [reflexivity|]. split; [reflexivity|]. rewrite <- (of_Z_B2X 6), <- (of_Z_B2X 7) by (unfold safe; lia).
  split; apply nle_spec; try (by split); vm_compute; reflexivity.
Qed.

Lemma PI_within : within 3 4 Math_PI.
Proof.
  split; [reflexivity|]. split; [reflexivity|]. rewrite <- (of_Z_B2X 3), <- (of_Z_B2X 4) by (unfold safe; lia).
  split; apply nle_spec; try (by split); vm_compute; reflexivity.
Qed.

Lemma below_zero (x : num) : ordered x -> (x < n0)%num = true <-> (B2X x < 0)%R.
Proof. intros Hx. rewrite nlt_spec by (done || by split). done. Qed.

(** ** The two loops *)

Lemma turns_up (n : nat) (hi : R) (a : num) : safe (6 * Z.of_nat n) -> within (- IZR (6 * Z.of_nat n)) hi a ->
  forall fuel, (n <= fuel)%nat ->
  exists r, while fuel (fun a => a < n0)%num (fun a => a + of_Z 2 * Math_PI)%num a = Ok r /\
    (r = a /\ (0 <= B2X a)%R \/ within 0 (B2X full_turn) r).
Proof.
  pose proof full_turn_within as Hft. pose proof Hft as (Vt & Ft & Bt).
  revert hi a. induction n as [|n IH]; intros hi a Hs Ha fuel Hfuel; pose proof (within_ordered _ _ _ Ha) as Ho;
    destruct (a < n0)%num eqn:Hneg.
  - apply (below_zero a Ho) in Hneg. destruct Ha as (_ & _ & Hb). change (IZR (6 * Z.of_nat 0)) with 0%R in Hb. lra.
  - exists a. split; [by destruct fuel; cbn [while]; rewrite Hneg|]. left. split; [done|].
    destruct (Rlt_le_dec (B2X a) 0) as [Hlt|]; [|done]. apply (below_zero a Ho) in Hlt. congruence.
  - pose proof Hneg as Hlt. apply (below_zero a Ho) in Hlt. destruct fuel as [|fuel]; [lia|]. cbn [while]. rewrite Hneg.
    fold full_turn. destruct Ha as (Va & Fa & Hb).
    assert (Hn : (IZR (6 * Z.of_nat (S n)) = IZR (6 * Z.of_nat n) + 6)%R) by (rewrite <- plus_IZR; f_equal; lia).
    assert (Hw : within (- IZR (6 * Z.of_nat n)) (B2X full_turn) (nadd a full_turn)).
    { apply (rounds_within (B2X a + B2X full_turn)); [by apply nadd_rounds| |by apply valid_exact|lra|].
      - rewrite <- opp_IZR. apply safe_exact. unfold safe in *. lia.
      - pose proof (safe_bound (6 * Z.of_nat (S n)) Hs) as Hsb. assert (8 <= bpow 53)%R.
        { rewrite <- IZR_pow2 by lia. apply IZR_le. lia. }
        unfold Rabs in *. destruct (Rcase_abs (B2X a + B2X full_turn)), (Rcase_abs (IZR (6 * Z.of_nat (S n)))); lra. }
    destruct (IH _ _ ltac:(unfold safe in *; lia) Hw fuel ltac:(lia)) as (r & Hr & Hcase). exists r. split; [done|]. right.
    destruct Hcase as [[-> Hpos]|]; [|done]. destruct Hw as (V & F & B). split; [done|]. split; [done|lra].
  - exists a. split; [by destruct fuel; cbn [while]; rewrite Hneg|]. left. split; [done|].
    destruct (Rlt_le_dec (B2X a) 0) as [Hlt|]; [|done]. apply (below_zero a Ho) in Hlt. congruence.
Qed.

Lemma turns_down (n : nat) (a : num) : safe (6 * Z.of_nat n) -> within 0 (IZR (6 * Z.of_nat n)) a ->
  forall fuel, (n <= fuel)%nat ->
  exists r, while fuel (fun a => a > of_Z 2 * Math_PI)%num (fun a => a - of_Z 2 * Math_PI)%num a = Ok r /\
    within 0 (B2X full_turn) r.
Proof.
  pose proof full_turn_within as Hft. pose proof Hft as (Vt & Ft & Bt).
  revert a. induction n as [|n IH]; intros a Hs Ha fuel Hfuel; pose proof (within_ordered _ _ _ Ha) as Ho;
    pose proof Ha as (Va & Fa & Hb); pose proof (nlt_spec full_turn a (within_ordered _ _ _ Hft) Ho) as Hspec;
    (destruct (a > of_Z 2 * Math_PI)%num eqn:Hover;
      [change (nlt full_turn a = true) in Hover; pose proof Hover as Hlt; apply Hspec in Hlt|]).
  - change (IZR (6 * Z.of_nat 0)) with 0%R in Hb. lra.
  - exists a. split; [by destruct fuel; cbn [while]; rewrite Hover|]. change (IZR (6 * Z.of_nat 0)) with 0%R in Hb.
    split; [done|]. split; [done|lra].
  - destruct fuel as [|fuel]; [lia|]. cbn [while]. change (a > of_Z 2 * Math_PI)%num with (nlt full_turn a). rewrite Hover.
    fold full_turn. assert (Hn : (IZR (6 * Z.of_nat (S n)) = IZR (6 * Z.of_nat n) + 6)%R) by (rewrite <- plus_IZR; f_equal; lia).
    apply IH; [unfold safe in *; lia| |lia].
    apply (rounds_within_Z (B2X a - B2X full_turn) 0); [by apply nsub_rounds|unfold safe; lia|unfold safe in *; lia|lra].
  - exists a. split; [by destruct fuel; cbn [while]; rewrite Hover|]. split; [done|]. split; [done|].
    destruct (Rlt_le_dec (B2X full_turn) (B2X a)) as [Hlt|]; [|lra]. apply Hspec in Hlt.
    change (nlt full_turn a = false) in Hover. congruence.
Qed.

Lemma turn_stays (r : num) (fuel : nat) : within 0 (B2X full_turn) r ->
  while fuel (fun a => a > of_Z 2 * Math_PI)%num (fun a => a - of_Z 2 * Math_PI)%num r = Ok r.
Proof.
  intros (V & F & B).
  pose proof (nlt_spec full_turn r (within_ordered _ _ _ full_turn_within) (finite_ordered _ V F)) as Hspec.
  destruct fuel as [|fuel]; cbn [while]; change (r > of_Z 2 * Math_PI)%num with (nlt full_turn r);
    (destruct (nlt full_turn r) eqn:Hlt; [pose proof (proj1 Hspec eq_refl); lra|done]).
Qed.

(** Both loops, for an angle of less than [n] turns. *)
Lemma label_angle_within (n : nat) (a : num) (fuel : nat) : safe (6 * Z.of_nat n) ->
  within (- IZR (6 * Z.of_nat n)) (IZR (6 * Z.of_nat n)) a -> (n <= fuel)%nat ->
  exists r, label_angle fuel a = Ok r /\ within 0 (B2X full_turn) r.
Proof.
  intros Hs Ha Hfuel. unfold label_angle. destruct (turns_up n _ a Hs Ha fuel Hfuel) as (r & -> & Hr). cbn [res_bind].
  destruct Hr as [[-> Hpos]|Hr].
  - apply (turns_down n); [done| |done]. destruct Ha as (V & F & B). split; [done|]. split; [done|lra].
  - exists r. split; [by apply turn_stays|done].
Qed.

(** ** The angles of a radar *)

Lemma two_pi_over (n j : Z) (k : Z) : (0 <= j <= 50)%Z -> (2 ^ j <= n < 2 ^ (j + 1))%Z -> (0 <= k < n)%Z ->
  within 0 16 (full_turn / of_Z n * of_Z k)%num.
Proof.
  intros Hj Hn Hk. pose proof full_turn_within as (Vt & Ft & Bt).
  assert (H51 : (2 ^ (j + 1) <= 2 ^ 51)%Z) by (apply Z.pow_le_mono_r; lia).
  assert (Hsafe : safe n /\ safe k) by (unfold safe; lia). destruct Hsafe as [Sn Sk].
  assert (Hlow : (bpow j <= IZR n)%R) by (rewrite <- IZR_pow2 by lia; apply IZR_le; lia).
  assert (Hhigh : (IZR k <= bpow (j + 1))%R) by (rewrite <- IZR_pow2 by lia; apply IZR_le; lia).
  assert (Hk0 : (0 <= IZR k)%R) by (apply IZR_le; lia). pose proof (bpow_pos j).
  assert (Hdiv : within 0 (bpow (3 - j)) (full_turn / of_Z n)%num).
  { assert (Hq : (0 <= B2X full_turn / IZR n <= bpow (3 - j))%R).
    { split; [apply Rmult_le_pos; [lra|apply Rlt_le, Rinv_0_lt_compat; lra]|].
      apply (Rmult_le_reg_r (IZR n)); [lra|]. unfold Rdiv. rewrite Rmult_assoc, Rinv_l, Rmult_1_r by lra.
      apply Rle_trans with (bpow (3 - j) * bpow j)%R; [|apply Rmult_le_compat_l; [apply Rlt_le, bpow_pos|done]].
      rewrite <- bpow_plus. replace (3 - j + j)%Z with 3%Z by lia. rewrite <- (IZR_pow2 3) by lia. change (IZR (2 ^ 3)) with 8%R. lra. }
    apply (rounds_within (B2X full_turn / IZR n)); [| |split|exact Hq|].
    - rewrite <- (of_Z_B2X n) by done. apply ndiv_rounds; [exact Vt|apply of_Z_valid|exact Ft|by apply of_Z_finite|].
      rewrite of_Z_B2X by done. lra.
    - apply exact_0.
    - rewrite Rabs_pos_eq by apply Rlt_le, bpow_pos. apply representable_bpow. unfold emin64. lia.
    - rewrite Rabs_pos_eq by apply Rlt_le, bpow_pos. apply bpow_le. lia.
    - rewrite Rabs_pos_eq by lra. apply Rle_trans with (bpow (3 - j)); [lra|apply bpow_le; lia]. }
  destruct Hdiv as (V & F & B). apply (rounds_within_Z (B2X (full_turn / of_Z n)%num * IZR k) 0 16); try (unfold safe; lia).
  - rewrite <- (of_Z_B2X k) by done. apply nmul_rounds; [exact V|apply of_Z_valid|exact F|by apply of_Z_finite].
  - split; [apply Rmult_le_pos; [apply B|exact Hk0]|]. apply Rle_trans with (bpow (3 - j) * bpow (j + 1))%R.
    + apply Rmult_le_compat; [apply B|exact Hk0|apply B|exact Hhigh].
    + rewrite <- bpow_plus. replace (3 - j + (j + 1))%Z with 4%Z by lia. rewrite <- (IZR_pow2 4) by lia. apply Rle_refl.
Qed.

Lemma upright_within (rc : radar_chart) (z : Z) (m : nat) : (ra_config rc).["startAngle"] = VInt z ->
  (Z.abs z <= 180 * Z.of_nat m)%Z -> (Z.of_nat m <= 2 ^ 40)%Z ->
  within (IZR (- (2 + 4 * Z.of_nat m))) (IZR (2 + 4 * Z.of_nat m)) (upright rc).
Proof.
  intros Hz Hm Hlim. unfold upright, fnum. rewrite Hz. change (to_num (VInt z)) with (of_Z z).
  pose proof PI_within as (Vp & Fp & Bp). set (M := Z.of_nat m) in *.
  rewrite nsub_of_Z by (unfold safe; lia).
  assert (S1 : safe (90 - z)) by (unfold safe; lia).
  assert (H1 : (- IZR (90 + 180 * M) <= IZR (90 - z) <= IZR (90 + 180 * M))%R) by (rewrite <- opp_IZR; split; apply IZR_le; lia).
  assert (Hmul : within (IZR (- (360 + 720 * M))) (IZR (360 + 720 * M)) (of_Z (90 - z) * Math_PI)%num).
  { apply (rounds_within_Z (IZR (90 - z) * B2X Math_PI)); [|unfold safe; lia..|].
    - rewrite <- (of_Z_B2X (90 - z)) by done. apply nmul_rounds; [apply of_Z_valid|exact Vp|by apply of_Z_finite|exact Fp].
    - rewrite opp_IZR. replace (360 + 720 * M)%Z with ((90 + 180 * M) * 4)%Z by lia. rewrite mult_IZR.
      split; nra. }
  destruct Hmul as (V & F & B). apply (rounds_within_Z (B2X (of_Z (90 - z) * Math_PI)%num / IZR 180)); [|unfold safe; lia..|].
  - rewrite <- (of_Z_B2X 180) by (unfold safe; lia). apply ndiv_rounds; [exact V|apply of_Z_valid|exact F|by apply of_Z_finite|].
    rewrite of_Z_B2X by (unfold safe; lia). lra.
  - replace (360 + 720 * M)%Z with ((2 + 4 * M) * 180)%Z in B by lia. rewrite opp_IZR, mult_IZR in B. rewrite opp_IZR. lra.
Qed.

Lemma point_angle_within (rc : radar_chart) (z : Z) (m npoints k : nat) : (ra_config rc).["startAngle"] = VInt z ->
  (Z.abs z <= 180 * Z.of_nat m)%Z -> (Z.of_nat m <= 2 ^ 40)%Z -> (Z.of_nat npoints < 2 ^ 50)%Z -> (k < npoints)%nat ->
  within (- IZR (6 * Z.of_nat (m + 3))) (IZR (6 * Z.of_nat (m + 3))) (upright rc + rotation npoints * of_Z (Z.of_nat k))%num.
Proof.
  intros Hz Hm Hlim Hn Hk. pose proof (upright_within rc z m Hz Hm Hlim) as (V1 & F1 & B1).
  pose proof (Z.log2_spec (Z.of_nat npoints) ltac:(lia)) as Hlog.
  assert (0 <= Z.log2 (Z.of_nat npoints) < 50)%Z by (split; [apply Z.log2_nonneg|apply Z.log2_lt_pow2; lia]).
  rewrite <- Z.add_1_r in Hlog.
  pose proof (two_pi_over (Z.of_nat npoints) (Z.log2 (Z.of_nat npoints)) (Z.of_nat k) ltac:(lia) Hlog ltac:(lia)) as (V2 & F2 & B2).
  rewrite <- opp_IZR. apply (rounds_within_Z (B2X (upright rc) + B2X (rotation npoints * of_Z (Z.of_nat k))%num)).
  - apply nadd_rounds; [exact V1|exact V2|exact F1|exact F2].
  - unfold safe. lia.
  - unfold safe. lia.
  - change (rotation npoints) with (full_turn / of_Z (Z.of_nat npoints))%num. rewrite opp_IZR in B1 |- *.
    assert (IZR (6 * Z.of_nat (m + 3)) >= IZR (2 + 4 * Z.of_nat m) + 16)%R by (rewrite <- plus_IZR; apply Rle_ge, IZR_le; lia).
    lra.
Qed.

Section Labels.

Context `{MathLib}.
Context (s : ctx_scales) (rc : radar_chart) (npoints : nat).


End Labels.

Lemma sample_start : exists ops rc, sample_radar = Ok (ops, Some rc) /\
  ((ra_config rc).["startAngle"], labels (ra_data rc)) = (VInt 90, labels radar_data).
Proof. apply known_chart. vm_compute. reflexivity. Qed.

