(* ===== verification/RoundFrames.v ===== *)
(** * Frames of round charts (ChartNew.js)

    What a frame of a pie, a doughnut, a polar area or a radar leaves behind: the
    drawing state of the context, and the variables of the page. *)

From stdpp Require Import base list strings gmap.
From Stdlib Require Import ZArith Lia SpecFloat.
From S2P Require Import Prelude Num Value Options OptionValue Format Scale Easing Animation.
From S2P Require Import Stats Canvas Cross Legend Layout Axes Points Lines LineChart Filling Bars BarFrames Segments Pies Radars.
From S2P Require Import ShownSegments.

Open Scope string_scope.
Open Scope list_scope.
Open Scope Z_scope.

(** ** The drawing state *)

(** As [moves], for computations that also know the variables of the page. *)
Definition turns {A} (a b : nat) (m : rounder A) : Prop :=
  forall r r' x, m r = (r', Ok x) ->
    exists l, drawn (canvas r') = drawn (canvas r) ++ l /\ forall n, save_depth (a + n) l = Some (b + n)%nat.

Lemma turns_bind {A B} (a b e : nat) (m : rounder A) (f : A -> rounder B) :
  turns a b m -> (forall x, turns b e (f x)) -> turns a e (eff_bind m f).
Proof.
  intros Hm Hf r r' y. unfold eff_bind. destruct (m r) as [r1 [x|e1]] eqn:H1; [|done]. intros H2.
  destruct (Hm _ _ _ H1) as (l1 & Hl1 & Hd1). destruct (Hf _ _ _ _ H2) as (l2 & Hl2 & Hd2).
  exists (l1 ++ l2). split; [by rewrite Hl2, Hl1, app_assoc|]. intros n. by rewrite (save_depth_app _ (b + n)).
Qed.

Lemma turns_ret {A} (a : nat) (x : A) : turns a a (eff_ret x).
Proof. intros r r' y [= <- _]. exists []. by rewrite app_nil_r. Qed.

Lemma turns_still {A} (a : nat) (m : rounder A) : (forall r, canvas (m r).1 = canvas r) -> turns a a m.
Proof. intros Hm r r' y Hr. exists []. rewrite app_nil_r. split; [|done]. specialize (Hm r). by rewrite Hr in Hm; cbn in Hm; rewrite Hm. Qed.

Lemma turns_canvas {A} (a b : nat) (m : tracer A) : moves a b m -> turns a b (on_canvas m).
Proof.
  intros Hm r r' x. unfold on_canvas. destruct (m (canvas r)) as [t y] eqn:Ht. intros [= <- ->]. by apply (Hm _ _ _ Ht).
Qed.

Lemma turns_when (a : nat) (b : bool) (m : rounder unit) : turns a a m -> turns a a (eff_when b m).
Proof. intros Hm. destruct b; [done|apply turns_ret]. Qed.

Lemma turns_iter {A} (a : nat) (f : A -> rounder unit) (l : list A) : (forall x, turns a a (f x)) -> turns a a (eff_iter f l).
Proof. intros Hf. induction l as [|x l IH]; cbn [eff_iter]; [apply turns_ret|by eapply turns_bind]. Qed.

Lemma moves_fold {A B} (a : nat) (f : B -> A -> tracer B) (l : list A) (b : B) :
  (forall b x, moves a a (f b x)) -> moves a a (eff_fold f l b).
Proof.
  intros Hf. revert b. induction l as [|x l IH]; intros b; cbn [eff_fold]; [apply moves_ret|]. by eapply moves_bind.
Qed.

(** The structure of a computation is followed down to what it does on the canvas. *)
Ltac turn_walk :=
  repeat (cbv zeta; match goal with
    | |- forall _, _ => intros
    | |- turns _ _ (eff_bind _ _) => eapply turns_bind
    | |- turns _ _ (eff_when _ _) => apply turns_when
    | |- turns _ _ (eff_iter _ _) => apply turns_iter
    | |- turns _ _ (eff_ret _) => apply turns_ret
    | |- turns _ _ (on_canvas _) => apply turns_canvas; solve [walk]
    | |- turns _ _ (match ?x with _ => _ end) => destruct x
    | |- turns _ _ _ => first [solve [eauto with moves nocore] | apply turns_still; done]
    end).

Section Segments.

Context `{MathLib}.
Context (callback : positive -> string -> Z -> Z -> jsval -> res jsval).
Context (eval_template : string -> list (string * jsval) -> res string).
Context (measureText : string -> string -> num).
Context (s : ctx_scales) (align0 baseline0 : string).
Context (c : config) (data : list config) (statData : gmap nat config).
Context (k : segment_kind) (midX midY : num).

(** The outlines of a kind, and its strokes, save nothing. *)
Context (Houtline : forall o scale b e, Forall no_saving (outline k o scale b e)) (Hstroke : Forall no_saving (stroke_setup k)).

Lemma draw_segment_moves a animPc id : moves a a (draw_segment callback c statData k animPc id).
Proof.
  unfold draw_segment, segment_stat. walk.
  - apply moves_emit. intros depth. apply no_saving_depth, Forall_app. split; [apply Houtline|by repeat constructor].
  - apply moves_emit. intros depth. by apply no_saving_depth.
Qed.

Lemma segment_option_turns a rescale reference key i : turns a a (segment_option callback c rescale reference key i).
Proof. apply turns_canvas. walk. Qed.
#[local] Hint Resolve segment_option_turns : moves.

Lemma place_angle_turns a i start mid stop : turns a a (place_angle callback c i start mid stop).
Proof. unfold place_angle. turn_walk. Qed.
Lemma place_radius_turns a i l : turns a a (place_radius callback c i l).
Proof. unfold place_radius. turn_walk. Qed.
Lemma place_align_turns a i : turns a a (place_align callback c i).
Proof. unfold place_align, side_align. turn_walk. Qed.
Lemma place_baseline_turns a i : turns a a (place_baseline callback c i).
Proof. unfold place_baseline. turn_walk. Qed.
Lemma turn_segment_text_turns a i : turns a a (turn_segment_text callback c i).
Proof. unfold turn_segment_text. turn_walk. Qed.
#[local] Hint Resolve text_font_moves place_angle_turns place_radius_turns place_align_turns place_baseline_turns turn_segment_text_turns : moves.

Lemma draw_segment_text_turns a i o :
  turns a a (draw_segment_text callback eval_template measureText s align0 baseline0 c k midX midY i o).
Proof. unfold draw_segment_text. turn_walk. Qed.
#[local] Hint Resolve draw_segment_text_turns : moves.

Lemma label_segment_turns a id :
  turns a a (label_segment callback eval_template measureText s align0 baseline0 c statData k midX midY id).
Proof. unfold label_segment, segment_stat. turn_walk. Qed.
#[local] Hint Resolve label_segment_turns draw_segment_moves : moves.

Lemma draw_segments_turns a animPc :
  turns a a (draw_segments callback eval_template measureText s align0 baseline0 c data statData k midX midY animPc).
Proof. unfold draw_segments. turn_walk. Qed.

End Segments.

(** *** Radars *)

Section Radar.

Context `{MathLib}.
Context (toLocaleTimeString : jsval -> string).
Context (callback : positive -> string -> Z -> Z -> jsval -> res jsval).
Context (eval_template : string -> list (string * jsval) -> res string).
Context (measureText : string -> string -> num).
Context (s : ctx_scales) (align0 baseline0 : string).
Context (rc : radar_chart) (npoints : nat).

Lemma outline_point_moves a animPc i d e j : moves a a (outline_point rc animPc i d e j).
Proof. unfold outline_point. walk; [apply bar_progress_moves|]. apply moves_emit. intros depth. by destruct (e.1). Qed.

Lemma radar_dot_moves a i d after m k : moves a a (radar_dot callback s rc i d after m k).
Proof. unfold radar_dot. walk. apply moves_emit. intros. apply balanced_marker. Qed.

Lemma radar_fill_moves a i d m : moves a a (radar_fill callback rc i d m).
Proof. unfold radar_fill. walk. Qed.
#[local] Hint Resolve outline_point_moves radar_dot_moves radar_fill_moves moves_fold text_font_moves : moves.

Lemma radar_dots_moves a animPc i d m : moves a a (radar_dots callback s rc animPc i d m).
Proof. unfold radar_dots. walk. Qed.
#[local] Hint Resolve radar_dots_moves : moves.

Lemma radar_dataset_moves a animPc before id : moves a a (radar_dataset callback s rc animPc before id).
Proof. unfold radar_dataset. walk. Qed.
#[local] Hint Resolve radar_dataset_moves : moves.

Lemma draw_radar_text_moves a i j radiusPrt :
  moves a a (draw_radar_text callback eval_template measureText s align0 baseline0 rc npoints i j radiusPrt).
Proof. unfold draw_radar_text, radar_align, radius_part, radar_turn. walk. Qed.
#[local] Hint Resolve draw_radar_text_moves : moves.

Lemma label_radar_point_moves a radiusPrt idj :
  moves a a (label_radar_point callback eval_template measureText s align0 baseline0 rc npoints radiusPrt idj).
Proof. unfold label_radar_point. walk. Qed.
#[local] Hint Resolve label_radar_point_moves : moves.

Lemma radar_drawing_moves a animPc :
  moves a a (radar_drawing callback eval_template measureText s align0 baseline0 rc npoints animPc).
Proof. unfold radar_drawing. walk. Qed.

Lemma mapM_balanced {A} (f : A -> res (list canvas_op)) (l : list A) (lss : list (list canvas_op)) :
  (forall x ops, f x = Ok ops -> balanced ops) -> res_mapM f l = Ok lss -> balanced (concat lss).
Proof.
  intros Hf. revert lss. induction l as [|x l IH]; intros lss Hl; cbn [res_mapM] in Hl; [by apply Ok_inj in Hl as <-|].
  apply res_bind_Ok in Hl as (ops & Ho%Hf & Hl). apply res_bind_Ok in Hl as (rest & Hr & Hl). apply Ok_inj in Hl as <-.
  cbn [concat]. apply balanced_app; [done|by apply IH].
Qed.

Lemma angle_lines_balanced ops : angle_lines callback s rc npoints = Ok ops -> balanced ops.
Proof.
  unfold angle_lines. destruct (truthy _); [|by intros <-%Ok_inj]. intros Hl. apply res_bind_Ok in Hl as (ls & Hls & Hl).
  apply Ok_inj in Hl as <-. do 2 (apply balanced_cons; [done..|]). revert Hls. apply mapM_balanced. intros h ops.
  unfold angle_line. intros Ho. apply res_bind_Ok in Ho as (dash & _ & Ho). by apply Ok_inj in Ho as <-.
Qed.

Lemma repeat_balanced (l : list canvas_op) (n : nat) : balanced l -> balanced (concat (repeat l n)).
Proof. intros Hl. induction n as [|n IH]; cbn [repeat concat]; [done|by apply balanced_app]. Qed.

Lemma step_line_balanced i : balanced (step_line s rc npoints i).
Proof.
  apply balanced_cons; [done..|]. destruct (_ && _); [|done]. do 3 (apply balanced_cons; [done..|]).
  apply balanced_app; [|done]. by apply repeat_balanced.
Qed.

Lemma step_label_balanced i : balanced (step_label measureText s rc i).
Proof.
  unfold step_label. do 3 (apply balanced_cons; [done..|]). apply balanced_app; [by destruct (truthy _)|].
  apply balanced_cons; [done..|]. apply balanced_texts.
Qed.

Lemma radar_scale_balanced fuel ops : radar_scale callback measureText s rc npoints fuel = Ok ops -> balanced ops.
Proof.
  unfold radar_scale. intros Hs. apply res_bind_Ok in Hs as (lines & Hl%angle_lines_balanced & Hs).
  apply res_bind_Ok in Hs as (n & _ & Hs). apply res_bind_Ok in Hs as (ls & Hls & Hs). apply Ok_inj in Hs as <-.
  rewrite !app_assoc. apply (balanced_saved (_ :: _ :: _)). do 2 (apply balanced_cons; [done..|]).
  repeat apply balanced_app; try done.
  - apply concat_balanced, step_line_balanced.
  - destruct (truthy _); [|done]. apply concat_balanced, step_label_balanced.
  - revert Hls. apply mapM_balanced. intros kl ops. unfold point_label. intros Ho.
    apply res_bind_Ok in Ho as (vangle & _ & Ho). apply Ok_inj in Ho as <-.
    do 4 (apply balanced_cons; [done..|]). apply balanced_texts.
Qed.

End Radar.

(** *** Frames *)

Section Frames.

Context `{MathLib}.
Context (toLocaleTimeString : jsval -> string).
Context (callback : positive -> string -> Z -> Z -> jsval -> res jsval).
Context (eval_template : string -> list (string * jsval) -> res string).
Context (measureText : string -> string -> num).
Context (s : ctx_scales) (align0 baseline0 : string).

Lemma polar_scale_balanced (rc : round_chart) ops : polar_scale s rc = Ok ops -> balanced ops.
Proof.
  unfold polar_scale. intros Hs. apply res_bind_Ok in Hs as (n & _ & Hs). apply Ok_inj in Hs as <-.
  apply concat_balanced. intros i. unfold polar_circle. apply balanced_app; [by destruct (_ && _)|].
  destruct (truthy _); [|done]. unfold polar_label. do 2 (apply balanced_cons; [done..|]).
  apply balanced_app; [by destruct (truthy _)|]. do 2 (apply balanced_cons; [done..|]). apply balanced_texts.
Qed.

Definition saves_nothing (k : segment_kind) : Prop :=
  (forall o scale b e, Forall no_saving (outline k o scale b e)) /\ Forall no_saving (stroke_setup k).

Lemma pie_saves_nothing rc : saves_nothing (pie_kind s rc).
Proof. split; intros; by repeat constructor. Qed.
Lemma doughnut_saves_nothing rc : saves_nothing (doughnut_kind s rc).
Proof. split; intros; by repeat constructor. Qed.
Lemma polar_saves_nothing rc : saves_nothing (polar_kind s rc).
Proof. split; intros; by repeat constructor. Qed.

Lemma round_frame_balanced rc t k scale_ops a animPc ops notes a' : saves_nothing k -> balanced scale_ops ->
  round_frame toLocaleTimeString callback eval_template measureText s align0 baseline0 rc t k scale_ops a animPc
    = Ok (ops, notes, a') -> balanced ops.
Proof.
  intros [Ho Hst] Hs. unfold round_frame. destruct (draw_segments _ _ _ _ _ _ _ _ _ _ _ _ _ _) as [r x] eqn:Hr. intros Hf.
  apply res_bind_Ok in Hf as ([] & -> & Hf). apply res_bind_Ok in Hf as (legend & Hl%pending_legend_balanced & Hf).
  apply Ok_inj, (f_equal (fun x => x.1.1)) in Hf. cbn [fst] in Hf. rewrite <- Hf.
  destruct (draw_segments_turns callback eval_template measureText s align0 baseline0 _ (rc_data rc) (rc_stats rc) k
    (rc_midX rc) (rc_midY rc) Ho Hst 0%nat animPc _ _ _ Hr) as (l & -> & Hd).
  apply frame_order_balanced; [done|]. by apply balanced_app.
Qed.

Definition round_frames : list (round_chart -> page_angles -> num -> res (list canvas_op * list nat * page_angles)) :=
  map (fun frame => frame toLocaleTimeString callback eval_template measureText s align0 baseline0)
    [pie_frame; doughnut_frame; polar_frame].

(** C22: whatever the data, the options, the stage of the animation and the variables of
    the page, a frame of a pie, a doughnut, a polar area or a radar that is drawn to its end has
    restored every drawing state it saved. *)
Theorem round_frames_restore_state (animPc : num) :
  (forall frame rc a ops notes a', In frame round_frames -> frame rc a animPc = Ok (ops, notes, a') -> balanced ops) /\
  (forall fuel rc ops notes,
     radar_frame toLocaleTimeString callback eval_template measureText s align0 baseline0 fuel rc animPc = Ok (ops, notes) ->
     balanced ops).
Proof.
  split.
  - intros frame rc a ops notes a' Hin Hf. unfold round_frames in Hin. cbn [map In] in Hin.
    destruct Hin as [<- | [<- | [<- | []]]]; revert Hf.
    + by apply round_frame_balanced; [apply pie_saves_nothing|].
    + by apply round_frame_balanced; [apply doughnut_saves_nothing|].
    + unfold polar_frame. intros Hf. apply res_bind_Ok in Hf as (scale_ops & Hs%polar_scale_balanced & Hf). revert Hf.
      by apply round_frame_balanced; [apply polar_saves_nothing|].
  - intros fuel rc ops notes. unfold radar_frame. intros Hf. apply res_bind_Ok in Hf as (n & _ & Hf).
    apply res_bind_Ok in Hf as (scale_ops & Hs%radar_scale_balanced & Hf).
    destruct (radar_drawing _ _ _ _ _ _ _ _ _ _) as [t x] eqn:Ht. apply res_bind_Ok in Hf as ([] & -> & Hf).
    apply res_bind_Ok in Hf as (legend & Hl%chart_legend_balanced & Hf). apply Ok_inj, (f_equal fst) in Hf.
    cbn [fst] in Hf. rewrite <- Hf.
    destruct (radar_drawing_moves _ _ _ _ _ _ _ _ 0%nat _ _ _ _ Ht) as (l & -> & Hd).
    apply frame_order_balanced; [done|]. by apply balanced_app.
Qed.

End Frames.

(** A frame of a pie. *)
Definition sample_pie_frame (rc : round_chart) : res (list canvas_op * list nat * page_angles) :=
  pie_frame (H := sample_math) (fun _ => "") (fun _ _ _ _ _ => Ok VUndef) (fun v _ => Ok v) (fun _ _ => of_Z 20)
    unit_scales "start" "alphabetic" rc unassigned (of_Z 1).

Lemma sample_pie_frame_drawn : exists ops rc, sample_pie = Ok (ops, Some rc) /\
  match sample_pie_frame rc with Ok _ => true | Throw _ => false end = true.
Proof. apply known_chart. vm_compute. reflexivity. Qed.

Lemma round_frames_restore_state_witness :
  exists rc ops notes a, sample_pie_frame rc = Ok (ops, notes, a) /\ save_depth 0 ops = Some 0%nat.
Proof.
  destruct sample_pie_frame_drawn as (_ & rc & _ & Hf). destruct (sample_pie_frame rc) as [[[ops notes] a]|] eqn:Hs; [|discriminate].
  exists rc, ops, notes, a. split; [exact Hs|].
  exact (proj1 (round_frames_restore_state (H := sample_math) _ _ _ _ _ _ _ (of_Z 1)) _ rc unassigned ops notes a
    (or_introl eq_refl) Hs 0%nat).
Defined.
