(* ===== verification/PageAngles.v ===== *)
(** * Variables of the page (ChartNew.js)

    [posAngle] and [labelRadius] outlive the charts that assign them: when a chart does
    not depend on what the charts before it left there. *)

From stdpp Require Import base list strings gmap.
From Stdlib Require Import ZArith Lia SpecFloat.
From S2P Require Import Prelude Num Value Options OptionValue Format Scale Easing Animation.
From S2P Require Import Stats Canvas Cross Legend Layout Axes Points Lines LineChart Bars Segments Pies.
From S2P Require Import ShownSegments.

Open Scope string_scope.
Open Scope list_scope.
Open Scope Z_scope.

(** ** The texts of a chart *)

(** What was drawn is the same, the variables of the page need not be. *)
Definition alike (r1 r2 : rounding) : Prop := canvas r1 = canvas r2 /\ arcs r1 = arcs r2.

(** A computation whose result does not depend on the variables of the page. *)
Definition blind {A} (m : rounder A) : Prop :=
  forall r1 r2, alike r1 r2 -> (m r1).2 = (m r2).2 /\ alike (m r1).1 (m r2).1.

Lemma blind_bind {A B} (m : rounder A) (f : A -> rounder B) : blind m -> (forall x, blind (f x)) -> blind (eff_bind m f).
Proof.
  intros Hm Hf r1 r2 Hr. unfold eff_bind. destruct (Hm r1 r2 Hr) as [H1 H2].
  destruct (m r1) as [r1' x], (m r2) as [r2' y]. cbn [fst snd] in H1, H2. subst y. destruct x; [by apply Hf|done].
Qed.

Lemma blind_ret {A} (x : A) : blind (eff_ret x).
Proof. by intros r1 r2 Hr. Qed.

Lemma blind_canvas {A} (m : tracer A) : blind (on_canvas m).
Proof. intros r1 r2 [Hc Ha]. unfold on_canvas. rewrite Hc. by destruct (m (canvas r2)). Qed.

Lemma blind_annotate (i : nat) : blind (annotate_arc i).
Proof. intros r1 r2 [Hc Ha]. split; [done|]. split; cbn; [done|]. by rewrite Ha. Qed.

Lemma blind_when (b : bool) (m : rounder unit) : blind m -> blind (eff_when b m).
Proof. intros Hm. destruct b; [done|apply blind_ret]. Qed.

Lemma blind_iter {A} (f : A -> rounder unit) (l : list A) : (forall x, blind (f x)) -> blind (eff_iter f l).
Proof. intros Hf. induction l as [|x l IH]; cbn [eff_iter]; [apply blind_ret|by apply blind_bind]. Qed.

Section Texts.

Context `{MathLib}.
Context (callback : positive -> string -> Z -> Z -> jsval -> res jsval).
Context (eval_template : string -> list (string * jsval) -> res string).
Context (measureText : string -> string -> num).
Context (s : ctx_scales) (align0 baseline0 : string).
Context (c : config) (data : list config) (statData : gmap nat config) (k : segment_kind) (midX midY : num).

(** An option that is one of some positions, for every segment. *)
Definition one_of (cfg : config) (reference key : string) (positions : list Z) : Prop :=
  forall i v, setOptionValue callback (of_Z 1) reference VUndef cfg.[key] (Z.of_nat i) (-1) nullValue = Ok v ->
    exists z, z ∈ positions /\ loose_eq v (VInt z) = true.

Definition known_angles (cfg : config) : Prop := one_of cfg "INGRAPHDATAANGLEPOSITION" "inGraphDataAnglePosition" [1; 2; 3].
Definition known_radii (cfg : config) (l : list Z) : Prop := one_of cfg "INGRAPHDATARADIUSPOSITION" "inGraphDataRadiusPosition" l.

Hypothesis Hangles : known_angles c.
Hypothesis Hradii : forall o, known_radii c (map fst (radii k o)).

Lemma third_position {A} (cfg : config) (i : nat) (pos : jsval) (x1 x2 x3 x4 : A) : known_angles cfg ->
  setOptionValue callback (of_Z 1) "INGRAPHDATAANGLEPOSITION" VUndef cfg.["inGraphDataAnglePosition"] (Z.of_nat i) (-1)
    nullValue = Ok pos ->
  (if loose_eq pos (VInt 1) then x1 else if loose_eq pos (VInt 2) then x2 else if loose_eq pos (VInt 3) then x3 else x4)
  = (if loose_eq pos (VInt 1) then x1 else if loose_eq pos (VInt 2) then x2 else x3).
Proof.
  intros Hc Hpos. destruct (Hc i pos Hpos) as (z & Hz & Heq). rewrite !elem_of_cons in Hz.
  destruct Hz as [-> | [-> | [-> | []%elem_of_nil]]]; rewrite Heq; by repeat destruct (loose_eq _ _).
Qed.

(** The angle and the distance of a text do not depend on those before. *)
Lemma place_angle_run (i : nat) (start mid stop : num) : exists x, forall r,
  place_angle callback c i start mid stop r = match x with Ok a => set_posAngle a r | Throw e => (r, Throw e) end.
Proof.
  unfold place_angle, segment_option, on_canvas, text_option, point_option, eff_lift, eff_bind.
  destruct (setOptionValue _ _ "INGRAPHDATAANGLEPOSITION" _ _ _ _ _) as [pos|e] eqn:Hpos; [|by exists (Throw e); intros []].
  rewrite (third_position _ _ _ _ _ _ _ Hangles Hpos).
  destruct (setOptionValue _ _ "INGRAPHDATAPADDINANGLE" _ _ _ _ _) as [p|e] eqn:Hp.
  - exists (Ok ((if loose_eq pos (VInt 1) then start else if loose_eq pos (VInt 2) then mid else stop) + to_num p * degree)%num).
    intros []. by destruct (loose_eq pos (VInt 1)), (loose_eq pos (VInt 2)).
  - exists (Throw e). intros []. by destruct (loose_eq pos (VInt 1)), (loose_eq pos (VInt 2)).
Qed.

Lemma place_radius_run (i : nat) (o : config) : exists x, forall r,
  place_radius callback c i (radii k o) r = match x with Ok a => set_labelRadius a r | Throw e => (r, Throw e) end.
Proof.
  unfold place_radius, segment_option, on_canvas, text_option, point_option, eff_lift, eff_bind.
  destruct (setOptionValue _ _ "INGRAPHDATARADIUSPOSITION" _ _ _ _ _) as [pos|e] eqn:Hpos; [|by exists (Throw e); intros []].
  destruct (Hradii o i pos Hpos) as (z & (zr & Hz & Hin%list_elem_of_In)%elem_of_map & Heq). subst z.
  destruct (List.find _ (radii k o)) as [[z' rad]|] eqn:Hfind.
  - destruct (setOptionValue _ _ "INGRAPHDATAPADDINGRADIUS" _ _ _ _ _) as [p|e]; [|by exists (Throw e); intros []].
    exists (Ok (to_num (js_add (VNum rad) p))). by intros [].
  - by rewrite (List.find_none _ _ Hfind _ Hin) in Heq.
Qed.

Lemma draw_segment_text_blind (i : nat) (o : config) :
  blind (draw_segment_text callback eval_template measureText s align0 baseline0 c k midX midY i o).
Proof.
  intros r1 r2 [Hc Ha]. unfold draw_segment_text. cbv zeta.
  destruct (place_angle_run i (fnum o "realStartAngle") (middle k o) (fnum o "realStartAngle" - fnum o "segmentAngle")%num)
    as (x & Hx).
  destruct (place_radius_run i o) as (y & Hy).
  match goal with |- context [eff_bind (place_radius _ _ _ _) ?f] => generalize f end. intros rest.
  unfold eff_bind at 1 3 5 7. rewrite !Hx. destruct x as [x|e]; [|by repeat split].
  unfold set_posAngle, eff_modify. unfold eff_bind. rewrite !Hy. destruct y as [y|e]; [|by repeat split].
  unfold set_labelRadius, eff_modify. cbn [canvas arcs angles posAngle labelRadius]. by rewrite Hc, Ha.
Qed.

Lemma label_segment_blind (id : nat * config) :
  blind (label_segment callback eval_template measureText s align0 baseline0 c statData k midX midY id).
Proof.
  destruct id as [i d]. unfold label_segment, segment_option. apply blind_when, blind_bind; [apply blind_canvas|].
  intros show. apply blind_bind; [apply blind_when, blind_annotate|]. intros _. apply blind_bind; [apply blind_canvas|].
  intros show'. apply blind_when, blind_bind; [apply blind_canvas|]. intros o. apply blind_bind.
  - destruct (hides_small k); [|apply blind_ret]. apply blind_bind; [apply blind_canvas|]. intros least. apply blind_ret.
  - intros visible. apply blind_when, draw_segment_text_blind.
Qed.

Lemma draw_segments_blind (animPc : num) :
  blind (draw_segments callback eval_template measureText s align0 baseline0 c data statData k midX midY animPc).
Proof.
  apply blind_bind; [apply blind_canvas|]. intros _. apply blind_when, blind_iter. intros id. apply label_segment_blind.
Qed.

End Texts.

(** ** Charts *)

Section Charts.

Context `{MathLib}.
Context (toLocaleTimeString : jsval -> string).
Context (callback : positive -> string -> Z -> Z -> jsval -> res jsval).
Context (eval_template : string -> list (string * jsval) -> res string).
Context (measureText : string -> string -> num).
Context (s : ctx_scales) (align0 baseline0 : string).
Context (width height canvas_width canvas_height : num).

Lemma text_angle_fresh c i real angle pos1 pos2 : known_angles callback c ->
  text_angle callback c i real angle pos1 = text_angle callback c i real angle pos2.
Proof.
  intros Hc. unfold text_angle. destruct (setOptionValue _ _ "INGRAPHDATAANGLEPOSITION" _ _ _ _ _) as [pos|e] eqn:Hpos; [|done].
  cbn [res_bind]. by rewrite !(third_position _ _ _ _ _ _ _ _ Hc Hpos).
Qed.

Lemma room_for_texts_fresh c stats m size_of undef l real pos1 pos2 radius : known_angles callback c ->
  res_map snd (room_for_texts callback eval_template measureText s c stats m size_of undef l real pos1 radius) =
  res_map snd (room_for_texts callback eval_template measureText s c stats m size_of undef l real pos2 radius).
Proof.
  intros Hc. revert real pos1 pos2 radius. induction l as [|[i d] l IH]; intros real pos1 pos2 radius; [done|].
  cbn [room_for_texts]. destruct (has_segment _); [|apply IH].
  destruct (measured_font _ _ _ _ _) as [font|]; [|done]. cbn [res_bind]. destruct (segment_stat _ _) as [o|]; [|done].
  cbn [res_bind]. by rewrite (text_angle_fresh _ _ _ _ pos1 pos2 Hc).
Qed.

Lemma drawing_size_fresh c data stats m size_of undef pos1 pos2 : known_angles callback c ->
  res_map snd (calculateDrawingSize callback eval_template measureText s c data stats m size_of undef pos1) =
  res_map snd (calculateDrawingSize callback eval_template measureText s c data stats m size_of undef pos2).
Proof.
  intros Hc. unfold calculateDrawingSize. destruct (shows_outside _ _) as [[]|]; [|done|done]. cbn [res_bind].
  destruct (setOptionValue _ _ _ _ _ _ _ _) as [size|]; [|done]. cbn [res_bind].
  destruct (setOptionValue _ _ _ _ _ _ _ _) as [padding|]; [|done]. cbn [res_bind].
  match goal with |- context [room_for_texts _ _ _ _ _ _ _ _ _ ?l ?real pos1 ?radius] =>
    pose proof (room_for_texts_fresh c stats m size_of undef l real pos1 pos2 radius Hc) as Hr end.
  destruct (room_for_texts _ _ _ _ _ _ _ _ _ _ _ pos1 _) as [[p1 r1]|], (room_for_texts _ _ _ _ _ _ _ _ _ _ _ pos2 _) as [[p2 r2]|];
    cbn in Hr |- *; congruence.
Qed.

Lemma round_frame_fresh rc t k scale_ops a1 a2 animPc :
  known_angles callback (rc_config rc) -> (forall o, known_radii callback (rc_config rc) (map fst (radii k o))) ->
  res_map fst (round_frame toLocaleTimeString callback eval_template measureText s align0 baseline0 rc t k scale_ops a1 animPc) =
  res_map fst (round_frame toLocaleTimeString callback eval_template measureText s align0 baseline0 rc t k scale_ops a2 animPc).
Proof.
  intros Ha Hr. unfold round_frame.
  destruct (draw_segments_blind callback eval_template measureText s align0 baseline0 (rc_config rc) (rc_data rc) (rc_stats rc)
    k (rc_midX rc) (rc_midY rc) Ha Hr animPc (start_round a1) (start_round a2)) as [H1 [H2 H3]]; [done|].
  destruct (draw_segments _ _ _ _ _ _ _ _ _ _ _ _ _ (start_round a1)) as [st1 x1],
    (draw_segments _ _ _ _ _ _ _ _ _ _ _ _ _ (start_round a2)) as [st2 x2]. cbn [fst snd] in H1, H2, H3.
  subst x2. rewrite H2, H3. destruct x1; [|done]. cbn [res_bind]. by destruct (pending_legend _ _ _ _ _ _ _).
Qed.

(** C23: charts do not interfere through the variables [posAngle] and [labelRadius] of the
    page: as long as the options place every text at one of the known angles and
    distances, whatever earlier charts left in them (nothing, on a page without one)
    changes neither how a pie is prepared nor what a frame of a pie, a doughnut or a
    polar area draws and annotates, or which exception it raises. *)
Theorem round_charts_do_not_interfere (a1 a2 : page_angles) :
  (forall c data, known_angles callback (not_logarithmic c) ->
     res_map (fun x => (x.1.2, x.2))
       (prepare_pie toLocaleTimeString callback eval_template measureText s width height canvas_width canvas_height a1 c data) =
     res_map (fun x => (x.1.2, x.2))
       (prepare_pie toLocaleTimeString callback eval_template measureText s width height canvas_width canvas_height a2 c data)) /\
  (forall rc animPc, known_angles callback (rc_config rc) -> known_radii callback (rc_config rc) [1; 2; 3] ->
     let frame_of frame a := res_map fst (frame toLocaleTimeString callback eval_template measureText s align0 baseline0 rc a animPc) in
     frame_of pie_frame a1 = frame_of pie_frame a2 /\
     frame_of doughnut_frame a1 = frame_of doughnut_frame a2) /\
  (forall rc animPc, known_angles callback (rc_config rc) -> known_radii callback (rc_config rc) [1; 2; 3; 4] ->
     let frame_of a := res_map fst (polar_frame toLocaleTimeString callback eval_template measureText s align0 baseline0 rc a animPc) in
     frame_of a1 = frame_of a2).
Proof.
  split; [|split].
  - intros c data Hc. unfold prepare_pie. destruct (initPassVariableData_segments _ _ _ _) as [stats|]; [|done]. cbn [res_bind].
    destruct (measure_round _ _ _ _ _ _ _ _ _ _ _ _) as [[m around]|]; [|done]. cbn [res_bind].
    pose proof (drawing_size_fresh (not_logarithmic c) data stats m (fun _ => 0%nat) (Throw ReferenceError) (posAngle a1)
      (posAngle a2) Hc) as Hd.
    destruct (calculateDrawingSize _ _ _ _ _ _ _ _ _ _ (posAngle a1)) as [[p1 r1]|],
      (calculateDrawingSize _ _ _ _ _ _ _ _ _ _ (posAngle a2)) as [[p2 r2]|]; cbn in Hd; try discriminate;
    injection Hd as ->; [|done]. cbn [res_bind]. destruct (r2 > n0)%num; [|done]. by destruct (place_segments _ _ _ _ _ _ _).
  - intros rc animPc Ha Hr frame_of. split; by apply round_frame_fresh.
  - intros rc animPc Ha Hr frame_of. unfold frame_of, polar_frame. destruct (polar_scale s rc); [|done]. by apply round_frame_fresh.
Qed.

End Charts.

(** *** A pie with texts *)

Definition text_page : config :=
  Pie_config no_personal_options (Some (of_fields [("animation", VBool false); ("inGraphDataShow", VBool true)])).

Definition text_pie (a : page_angles) : res (page_angles * list canvas_op * option round_chart) :=
  prepare_pie (H := sample_math) (fun _ => "") (fun _ _ _ _ _ => Ok VUndef) (fun s _ => Ok s) (fun _ _ => of_Z 20)
    unit_scales (of_Z 450) (of_Z 350) (of_Z 450) (of_Z 350) a text_page pie_data.

Definition text_pie_frame (rc : round_chart) (a : page_angles) : res (list canvas_op * list nat * page_angles) :=
  pie_frame (H := sample_math) (fun _ => "") (fun _ _ _ _ _ => Ok VUndef) (fun s _ => Ok s) (fun _ _ => of_Z 20)
    unit_scales "start" "alphabetic" rc a (of_Z 1).

Definition left_behind : page_angles := {| posAngle := Some (of_Z 3); labelRadius := Some (of_Z 400) |}.

Lemma text_pie_known : exists ops rc, text_pie unassigned = Ok (ops, Some rc) /\
  ((rc_config rc).["inGraphDataAnglePosition"], (rc_config rc).["inGraphDataRadiusPosition"],
   match text_pie_frame rc unassigned with Ok _ => true | Throw _ => false end) = (VInt 2, VInt 3, true).
Proof. apply known_chart. vm_compute. reflexivity. Qed.

Lemma one_of_constant callback (c : config) reference key (z : Z) (l : list Z) : c.[key] = VInt z -> z ∈ l ->
  loose_eq (VInt z) (VInt z) = true -> one_of callback c reference key l.
Proof.
  intros Hk Hz Heq i v. rewrite Hk. unfold setOptionValue. change (rescaled (of_Z 1)) with (fun rv : jsval => rv).
  intros <-%Ok_inj. by exists z.
Qed.

Lemma round_charts_do_not_interfere_witness :
  exists ops rc drawn, text_pie unassigned = Ok (ops, Some rc) /\ res_map fst (text_pie_frame rc left_behind) = Ok drawn /\
    res_map fst (text_pie_frame rc unassigned) = Ok drawn.
Proof.
  destruct text_pie_known as (ops & rc & Hp & Hf).
  pose proof (f_equal snd Hf) as Hok. cbn [snd] in Hok. apply (f_equal fst) in Hf. cbn [fst] in Hf. injection Hf as Ha Hr.
  destruct (text_pie_frame rc unassigned) as [[x a]|e] eqn:Hx; [|discriminate].
  destruct (round_charts_do_not_interfere (H := sample_math) (fun _ => "") (fun _ _ _ _ _ => Ok VUndef) (fun s _ => Ok s)
    (fun _ _ => of_Z 20) unit_scales "start" "alphabetic" (of_Z 450) (of_Z 350) (of_Z 450) (of_Z 350) left_behind unassigned)
    as (_ & Hframes & _).
  destruct (Hframes rc (of_Z 1)) as [Heq _].
  - refine (one_of_constant _ _ _ _ 2 _ Ha _ eq_refl). by right; left.
  - refine (one_of_constant _ _ _ _ 3 _ Hr _ eq_refl). by right; right; left.
  - assert (Ht : res_map fst (text_pie_frame rc unassigned) = Ok x) by (rewrite Hx; reflexivity).
    exists ops, rc, x. exact (conj Hp (conj (eq_trans Heq Ht) Ht)).
Defined.
