(* ===== verification/Mouse.v ===== *)
(** * The mouse (ChartNew.js)

    What a chart does when the mouse is over it: [doMouseAction] finds the points, bars
    and segments under the mouse among those the drawings registered in
    [jsGraphAnnotate], shows the annotation of the first one, and calls the functions
    of the options; [defMouse] attaches the listeners.  Functions of the options are
    recorded as calls; they are taken not to draw charts themselves. *)

From stdpp Require Import base list strings gmap.
From Stdlib Require Import ZArith Lia SpecFloat.
From S2P Require Import Prelude Num Value Options OptionValue Stats Canvas Points Lines.

Open Scope string_scope.
Open Scope list_scope.
Open Scope Z_scope.

(** ** State *)

Inductive annotated_shape : Type := ARC | RECT | POINT.

(** An entry of [jsGraphAnnotate[id]]; [an_stats] is the object [statData] of the
    drawing that registered it. *)
Record annotation : Type := {
  an_shape : annotated_shape;
  an_stats : nat;
  an_i : nat;
  an_j : nat                (** of points and bars *)
}.

(** Where the statistics of a segment ([statData[i]]) or of a point ([statData[i][j]]) are. *)
Abbreviation stat_ref := (nat * nat * option nat)%type.

Definition ref_of (a : annotation) : stat_ref :=
  (an_stats a, an_i a, match an_shape a with ARC => None | _ => Some (an_j a) end).

(** What a frame registers: the segments of a round chart, the bars or the points of
    other charts. *)
Definition arc_entries (stats : nat) (l : list nat) : list annotation :=
  map (fun i => {| an_shape := ARC; an_stats := stats; an_i := i; an_j := 0 |}) l.
Definition point_entries (shape : annotated_shape) (stats : nat) (l : list (nat * nat)) : list annotation :=
  map (fun ij => {| an_shape := shape; an_stats := stats; an_i := ij.1; an_j := ij.2 |}) l.

(** The functions a mouse event may call: [chartJsMouseDown], or one of the options. *)
Inductive mouse_function : Type :=
| ChartJsMouseDown
| UserFunction (f : positive).

Inductive call : Type :=
| CallFunct (f : positive) (at_ : option stat_ref)   (** with the statistics under the mouse *)
| CallIn (a : annotation)                            (** [annotateFunctionIn] *)
| CallOut (a : annotation)
| CallSave.                                          (** [saveCanvas] *)

(** The page: one registry, one box and one shown annotation for all charts. *)
Record mouse_state : Type := {
  jsGraphAnnotate : gmap string (list annotation);
  statObjects : gmap stat_ref config;
  annotatePrevShow : option nat;                (** [None] for -1 *)
  box_style : list (string * jsval);            (** of the element [divCursor] *)
  box_shown : bool;
  box_text : string;                            (** [innerHTML] *)
  box_at : option (num * num);
  mouse_ops : list canvas_op;                   (** on the context of the chart *)
  calls : list call
}.

(** The position of the mouse, in the window and as the browser reports it. *)
Record mouse_event : Type := {
  clientX : num;
  clientY : num;
  pageX : num;
  pageY : num;
  event_x : num;
  event_y : num;
  which : Z
}.

(** [checkBrowser], and where the canvas is. *)
Record window : Type := {
  ns : bool;
  ie : bool;
  scrolled : num;
  innerWidth : num;
  rect_left : num;
  rect_top : num
}.

Abbreviation mouser := (eff mouse_state).

Definition put_stat (r : stat_ref) (o : config) : mouser unit := eff_modify (fun w =>
  {| jsGraphAnnotate := jsGraphAnnotate w; statObjects := <[r := o]> (statObjects w); annotatePrevShow := annotatePrevShow w;
     box_style := box_style w; box_shown := box_shown w; box_text := box_text w; box_at := box_at w;
     mouse_ops := mouse_ops w; calls := calls w |}).
Definition set_prevShow (p : option nat) : mouser unit := eff_modify (fun w =>
  {| jsGraphAnnotate := jsGraphAnnotate w; statObjects := statObjects w; annotatePrevShow := p;
     box_style := box_style w; box_shown := box_shown w; box_text := box_text w; box_at := box_at w;
     mouse_ops := mouse_ops w; calls := calls w |}).
Definition set_style (st : list (string * jsval)) : mouser unit := eff_modify (fun w =>
  {| jsGraphAnnotate := jsGraphAnnotate w; statObjects := statObjects w; annotatePrevShow := annotatePrevShow w;
     box_style := st; box_shown := box_shown w; box_text := box_text w; box_at := box_at w;
     mouse_ops := mouse_ops w; calls := calls w |}).
Definition set_shown (b : bool) : mouser unit := eff_modify (fun w =>
  {| jsGraphAnnotate := jsGraphAnnotate w; statObjects := statObjects w; annotatePrevShow := annotatePrevShow w;
     box_style := box_style w; box_shown := b; box_text := box_text w; box_at := box_at w;
     mouse_ops := mouse_ops w; calls := calls w |}).
Definition set_box_text (t : string) : mouser unit := eff_modify (fun w =>
  {| jsGraphAnnotate := jsGraphAnnotate w; statObjects := statObjects w; annotatePrevShow := annotatePrevShow w;
     box_style := box_style w; box_shown := box_shown w; box_text := t; box_at := box_at w;
     mouse_ops := mouse_ops w; calls := calls w |}).
Definition moveIt (x y : num) : mouser unit := eff_modify (fun w =>
  {| jsGraphAnnotate := jsGraphAnnotate w; statObjects := statObjects w; annotatePrevShow := annotatePrevShow w;
     box_style := box_style w; box_shown := box_shown w; box_text := box_text w; box_at := Some (x, y);
     mouse_ops := mouse_ops w; calls := calls w |}).
Definition mouse_emit (l : list canvas_op) : mouser unit := eff_modify (fun w =>
  {| jsGraphAnnotate := jsGraphAnnotate w; statObjects := statObjects w; annotatePrevShow := annotatePrevShow w;
     box_style := box_style w; box_shown := box_shown w; box_text := box_text w; box_at := box_at w;
     mouse_ops := mouse_ops w ++ l; calls := calls w |}).
Definition log_call (l : list call) : mouser unit := eff_modify (fun w =>
  {| jsGraphAnnotate := jsGraphAnnotate w; statObjects := statObjects w; annotatePrevShow := annotatePrevShow w;
     box_style := box_style w; box_shown := box_shown w; box_text := box_text w; box_at := box_at w;
     mouse_ops := mouse_ops w; calls := calls w ++ l |}).

(** [clearAnnotate], and what a drawing adds to the list of its chart. *)
Definition clearAnnotate (id : string) (w : mouse_state) : mouse_state :=
  {| jsGraphAnnotate := <[id := []]> (jsGraphAnnotate w); statObjects := statObjects w; annotatePrevShow := annotatePrevShow w;
     box_style := box_style w; box_shown := box_shown w; box_text := box_text w; box_at := box_at w;
     mouse_ops := mouse_ops w; calls := calls w |}.
Definition register (id : string) (l : list annotation) (w : mouse_state) : mouse_state :=
  {| jsGraphAnnotate := <[id := default [] (jsGraphAnnotate w !! id) ++ l]> (jsGraphAnnotate w);
     statObjects := statObjects w; annotatePrevShow := annotatePrevShow w;
     box_style := box_style w; box_shown := box_shown w; box_text := box_text w; box_at := box_at w;
     mouse_ops := mouse_ops w; calls := calls w |}.

(** ** What is under the mouse *)

Section Hits.

Context `{MathLib}.
Context (s : ctx_scales) (c : config) (x y : num).

Definition distance_to (px py : num) : num := Math_sqrt ((x - px) * (x - px) + (y - py) * (y - py))%num.

(** The angles of a segment are brought into one turn, and stay so. *)
Definition arc_turned (o : config) : config :=
  let start := normalise_angle (fnum o "startAngle") in
  let stop := normalise_angle (fnum o "endAngle") in
  set_fields [("startAngle", VNum start);
              ("endAngle", VNum (if (stop < start)%num then stop + of_Z 2 * Math_PI else stop)%num)] o.

Definition arc_covers (angle : num) (o : config) : bool :=
  let start := fnum o "startAngle" in
  let stop := fnum o "endAngle" in
  let turn := (of_Z 2 * Math_PI)%num in
  ((angle > start)%num && (angle < stop)%num)
  || ((angle > start - turn)%num && (angle < stop - turn)%num)
  || ((angle > start + turn)%num && (angle < stop + turn)%num).

Definition mouse_angle (o : config) (distance : num) : num :=
  let turn := (of_Z 2 * Math_PI)%num in
  let angle := nrem (nrem (Math_acos ((x - fnum o "midPosX") / distance)) turn + turn)%num turn in
  normalise_angle (if (y < fnum o "midPosY")%num then nneg angle else angle).

Definition arc_at (o : config) : config * bool :=
  let distance := distance_to (fnum o "midPosX") (fnum o "midPosY") in
  if (distance > fnum o "int_radius")%num && (distance < fnum o "radiusOffset")%num
  then let o' := arc_turned o in (o', arc_covers (mouse_angle o distance) o')
  else (o, false).

Definition rect_at (o : config) : bool :=
  let l := fnum o "xPosLeft" in let r := fnum o "xPosRight" in
  let b := fnum o "yPosBottom" in let t := fnum o "yPosTop" in
  (x > Math_min l r)%num && (x < Math_max l r)%num && (y < Math_max b t)%num && (y > Math_min b t)%num.

(** The distance to a point, or with [detectAnnotateOnFullLine] to the line between
    the ends of its annotation. *)
Definition hit_radius : num := space s c "pointHitDetectionRadius".

Definition line_distance (o : config) : num :=
  let x1 := fnum o "annotateStartPosX" in let x2 := fnum o "annotateEndPosX" in
  let y1 := fnum o "annotateStartPosY" in let y2 := fnum o "annotateEndPosY" in
  if (x < Math_min x1 x2 - hit_radius)%num || (x > Math_max x1 x2 + hit_radius)%num
     || (y < Math_min y1 y2 - hit_radius)%num || (y > Math_max y1 y2 + hit_radius)%num
  then (hit_radius + of_Z 1)%num
  else if is_undefined o.["D1A"] then Math_abs (x - fnum o "posX")%num
  else if is_undefined o.["D2A"] then Math_abs (y - fnum o "posY")%num
  else
    let D2B := (nneg (fnum o "D2A") * x + y)%num in
    let g := (nneg (fnum o "D1B" - D2B) / (fnum o "D1A" - fnum o "D2A"))%num in
    distance_to g (fnum o "D2A" * g + D2B)%num.

Definition point_at (o : config) : bool :=
  ((if truthy c.["detectAnnotateOnFullLine"] then line_distance o
    else distance_to (fnum o "posX") (fnum o "posY")) < hit_radius)%num.

(** Whether an annotation is under the mouse; testing a segment changes its statistics. *)
Definition touches (a : annotation) (o : config) : config * bool :=
  match an_shape a with
  | ARC => arc_at o
  | RECT => (o, rect_at o)
  | POINT => (o, point_at o)
  end.

End Hits.

(** ** [doMouseAction] *)

Inductive mouse_action : Type :=
| Annotate
| Mouseaction (f : mouse_function).

Section Action.

Context `{MathLib}.
Context (callback : positive -> string -> Z -> Z -> jsval -> res jsval).
Context (eval_template : string -> list (string * jsval) -> res string).
Context (measureText : string -> string -> num).
Context (s : ctx_scales) (win : window).

Definition fromLeft : num := of_Z 10.
Definition fromTop : num := of_Z 10.

(** The style of the box: a class of the page, or the options. *)
Definition annotate_style (c : config) : list (string * jsval) :=
  let named := truthy c.["annotateClassName"] in
  let own k := if named then VStr "" else c.[k] in
  [("className", if named then c.["annotateClassName"] else VStr "");
   ("border", own "annotateBorder"); ("padding", own "annotatePadding"); ("borderRadius", own "annotateBorderRadius");
   ("backgroundColor", own "annotateBackgroundColor"); ("color", own "annotateFontColor");
   ("fontFamily", own "annotateFontFamily");
   ("fontSize", VStr (if named then "" else (num_to_string (text s c "annotateFontSize") ++ "pt")%string));
   ("fontStyle", own "annotateFontStyle"); ("zIndex", VInt 999)].

Definition annotate_font (c : config) : string :=
  let st k := to_str (of_fields (annotate_style c)).[k] in
  (st "fontStyle" ++ " " ++ st "fontSize" ++ " " ++ st "fontFamily")%string.

(** [chartJsMouseDown] *)
Definition chartJsMouseDown (c : config) (button : Z) (at_ : option stat_ref) : list call :=
  let by_ b k := match c.[k] with VFun f => if button =? b then Some f else None | _ => None end in
  match by_ 1 "mouseDownLeft", by_ 2 "mouseDownMiddle", by_ 3 "mouseDownRight" with
  | Some f, _, _ | None, Some f, _ | None, None, Some f => [CallFunct f at_]
  | None, None, None => []
  end.

Definition call_function (c : config) (e : mouse_event) (f : mouse_function) (at_ : option stat_ref) : list call :=
  match f with
  | ChartJsMouseDown => chartJsMouseDown c (which e) at_
  | UserFunction f => [CallFunct f at_]
  end.

Section Chart.

Context (c : config) (id : string) (e : mouse_event).

(** [getMousePos] *)
Definition getMousePos : num * num := (clientX e - rect_left win, clientY e - rect_top win)%num.

Definition stat_of (a : annotation) : mouser config := fun w =>
  (w, match statObjects w !! ref_of a with Some o => Ok o | None => Throw TypeError end).

(** The entry of an annotation that was shown before. *)
Definition entry_of (k : nat) : mouser annotation := fun w =>
  (w, match jsGraphAnnotate w !! id ≫= (.!! k) with Some a => Ok a | None => Throw TypeError end).

(** The text of an annotation. *)
Definition annotation_text (a : annotation) (o : config) : res string :=
  let j := match an_shape a with ARC => -1 | _ => Z.of_nat (an_j a) end in
  let* template := setOptionValue callback (of_Z 1) "ANNOTATELABEL" VUndef c.["annotateLabel"] (Z.of_nat (an_i a)) j
                     (VObj [("otherVal", VBool true)]) in
  tmplbis eval_template c template o.

(** The box is moved beside the mouse. *)
Definition place_box (textWidth : num) : mouser unit :=
  let x := if ns win then pageX e else event_x e in
  let y := if ns win then pageY e else event_y e in
  let y := if ie win then (y + scrolled win)%num else y in
  if truthy c.["annotateRelocate"] && (x + fromLeft + textWidth > innerWidth win - rect_left win - of_Z 10)%num
  then moveIt (x + fromLeft - textWidth)%num (y + fromTop)%num
  else moveIt (x + fromLeft)%num (y + fromTop)%num.

Definition show_annotation (a : annotation) (o : config) : mouser unit :=
  let! dispString := eff_lift (annotation_text a o) in
  let textWidth := (measureTextMultiLine (measureText (annotate_font c)) dispString NaN).1 in
  do! mouse_emit [Restore] in
  do! set_box_text dispString in
  place_box textWidth.

(** Whether an annotation is under the mouse, which its statistics then remember. *)
Definition visit (a : annotation) : mouser bool :=
  let! o := stat_of a in
  let '(px, py) := getMousePos in
  let '(o, hit) := touches s c px py a o in
  do! put_stat (ref_of a) (if hit then set_fields [("graphPosX", VNum px); ("graphPosY", VNum py)] o else o) in
  eff_ret hit.

(** [config.annotateFunctionOut] for the annotation shown before. *)
Definition leave (k : nat) : mouser unit :=
  eff_when (is_function c.["annotateFunctionOut"]) (let! a := entry_of k in log_call [CallOut a]).

Definition leave_shown (p : option nat) : mouser unit := match p with Some k => leave k | None => eff_ret tt end.

(** Entry [k] is shown now. *)
Definition enter (k : nat) (a : annotation) : mouser unit :=
  let! prev := eff_gets annotatePrevShow in
  eff_when (negb (bool_decide (prev = Some k))) (
    do! leave_shown prev in
    do! set_prevShow (Some k) in
    eff_when (is_function c.["annotateFunctionIn"]) (log_call [CallIn a])).

(** The loop of an annotation ends at the first entry under the mouse. *)
Fixpoint annotate_loop (k : nat) (l : list annotation) : mouser bool :=
  match l with
  | [] => eff_ret false
  | a :: l =>
      let! hit := visit a in
      if hit then
        let! o := stat_of a in
        do! show_annotation a o in
        do! set_shown true in
        do! enter k a in
        eff_ret true
      else do! set_shown false in annotate_loop (S k) l
  end.

(** The loop of another action calls its function for every entry under the mouse. *)
Fixpoint function_loop (f : mouse_function) (l : list annotation) (onData : bool) : mouser bool :=
  match l with
  | [] => eff_ret onData
  | a :: l =>
      let! hit := visit a in
      do! eff_when hit (log_call (call_function c e f (Some (ref_of a)))) in
      function_loop f l (onData || hit)
  end.

Definition entries : mouser (list annotation) := fun w =>
  (w, match jsGraphAnnotate w !! id with Some l => Ok l | None => Throw TypeError end).

Definition doMouseAction (action : mouse_action) : mouser unit :=
  match action with
  | Annotate =>
      do! set_style (annotate_style c) in
      do! mouse_emit [Save; SetFont (annotate_font c)] in
      do! set_shown false in
      let! l := entries in
      let! show := annotate_loop 0 l in
      if show then eff_ret tt
      else
        let! prev := eff_gets annotatePrevShow in
        match prev with
        | Some k => do! leave k in set_prevShow None
        | None => eff_ret tt
        end
  | Mouseaction f =>
      let! l := entries in
      let! onData := function_loop f l false in
      eff_when (negb onData) (log_call (call_function c e f None))
  end.

End Chart.

End Action.

(** ** Listeners *)

(** [s.split(' ')] *)
Fixpoint split_spaces (str : string) : list string :=
  match str with
  | EmptyString => [""]
  | String a str =>
      if Ascii.eqb a (Ascii.ascii_of_nat 32) then "" :: split_spaces str
      else match split_spaces str with
           | w :: ws => String a w :: ws
           | [] => [String a ""]
           end
  end.

Inductive listener_act : Type :=
| DoAnnotate
| DoSave
| HideBox
| DoFunction (f : mouse_function) (checked : bool).

(** A listener of a canvas: a closure of its own, with the options it was made with. *)
Record listener : Type := {
  l_type : string;
  l_closure : nat;
  l_act : listener_act;
  l_config : config
}.

(** The listeners of a canvas, and [ctx._eventListeners]: the closures that are to be
    removed before they are replaced; and whether the page has its box [divCursor]. *)
Record canvas_listeners : Type := {
  listeners : list listener;
  eventListeners : gmap string nat;
  closures : nat;                     (** made so far *)
  cursorDivCreated : bool
}.

Definition no_listeners : canvas_listeners :=
  {| listeners := []; eventListeners := ∅; closures := 0; cursorDivCreated := false |}.

Section Listeners.

(** The names of functions; canvases of old browsers know [attachEvent] only. *)
Context (func_name : positive -> string).
Context (old_IE : bool).

Definition name_of (f : mouse_function) : string :=
  match f with ChartJsMouseDown => "chartJsMouseDown" | UserFunction f => func_name f end.

(** [addEventListener], [attachEvent] with a new closure. *)
Definition listen (type : string) (act : listener_act) (c : config) (m : canvas_listeners) : canvas_listeners :=
  {| listeners := listeners m ++ [{| l_type := type; l_closure := closures m; l_act := act; l_config := c |}];
     eventListeners := eventListeners m; closures := S (closures m); cursorDivCreated := cursorDivCreated m |}.

(** [removeEventListener], [detachEvent] *)
Definition unlisten (type : string) (closure : nat) (m : canvas_listeners) : canvas_listeners :=
  {| listeners := filter (fun l => ~ (l_type l = type /\ l_closure l = closure)) (listeners m);
     eventListeners := eventListeners m; closures := closures m; cursorDivCreated := cursorDivCreated m |}.

Definition attach (type : string) : string := if old_IE then "on" ++ type else type.

(** [add_event_listener]: a listener is removed with the type it was asked for. *)
Definition add_event_listener (type : string) (f : mouse_function) (checked : bool) (c : config) (m : canvas_listeners)
    : canvas_listeners :=
  let hash := (type ++ " " ++ name_of f)%string in
  let m := match eventListeners m !! hash with Some k => unlisten type k m | None => m end in
  let m := {| listeners := listeners m; eventListeners := <[hash := closures m]> (eventListeners m);
              closures := closures m; cursorDivCreated := cursorDivCreated m |} in
  let type := if negb old_IE && String.eqb type "mousewheel" then "DOMMouseScroll" else type in
  listen (attach type) (DoFunction f checked) c m.

Definition add_option_listener (type k : string) (c : config) (m : canvas_listeners) : canvas_listeners :=
  match c.[k] with VFun f => add_event_listener type (UserFunction f) false c m | _ => m end.

(** The event and the button of an option like ["mousedown left"]. *)
Definition first_word (v : jsval) : res string :=
  match v with VStr t => Ok (hd "" (split_spaces t)) | _ => Throw TypeError end.

Definition some_mouseDown (c : config) : bool :=
  is_function c.["mouseDownRight"] || is_function c.["mouseDownLeft"] || is_function c.["mouseDownMiddle"].

(** [defMouse], which every drawing of a chart calls. *)
Definition defMouse (c : config) (m : canvas_listeners) : res canvas_listeners :=
  let* display := isBooleanOptionTrue VUndef VUndef c.["annotateDisplay"] in
  let* m := if truthy display then
              let* type := first_word c.["annotateFunction"] in
              Ok (listen (attach type) DoAnnotate c
                    {| listeners := listeners m; eventListeners := eventListeners m; closures := closures m;
                       cursorDivCreated := true |})
            else Ok m in
  let* m := if truthy c.["savePng"] then
              let* type := first_word c.["savePngFunction"] in Ok (listen (attach type) DoSave c m)
            else Ok m in
  let m := listen (if old_IE then "onmousewheel" else "DOMMouseScroll") HideBox c m in
  let m := if some_mouseDown c then add_event_listener "mousedown" ChartJsMouseDown true c m else m in
  let m := add_option_listener "mousemove" "mouseMove" c m in
  let m := add_option_listener "mouseout" "mouseOut" c m in
  Ok (add_option_listener "mousewheel" "mouseWheel" c m).

(** Whether a listener answers to the button of an event. *)
Definition button_pressed (v : jsval) (button : Z) : bool :=
  match v with
  | VStr t => match split_spaces t with
              | _ :: b :: _ => (String.eqb b "left" && (button =? 1)) || (String.eqb b "middle" && (button =? 2))
                               || (String.eqb b "right" && (button =? 3))
              | _ => true
              end
  | _ => false
  end.

(** The listeners of an event are called in order, whatever one of them throws. *)
Section Events.

Context `{MathLib}.
Context (callback : positive -> string -> Z -> Z -> jsval -> res jsval).
Context (eval_template : string -> list (string * jsval) -> res string).
Context (measureText : string -> string -> num).
Context (s : ctx_scales) (win : window) (id : string).

Definition call_listener (e : mouse_event) (created : bool) (l : listener) : mouser unit :=
  let c := l_config l in
  let act := doMouseAction callback eval_template measureText s win c id e in
  match l_act l with
  | DoAnnotate => eff_when (button_pressed c.["annotateFunction"] (which e)) (act Annotate)
  | DoSave => eff_when (button_pressed c.["savePngFunction"] (which e)) (log_call [CallSave])
  | HideBox => eff_when created (set_shown false)
  | DoFunction f checked =>
      eff_when (negb checked || ((1 <=? which e) && (which e <=? 3))) (act (Mouseaction f))
  end.

Definition mouse_fires (type : string) (e : mouse_event) (m : canvas_listeners) (w : mouse_state) : mouse_state :=
  fold_left (fun w l => (call_listener e (cursorDivCreated m) l w).1) (filter (fun l => l_type l = attach type) (listeners m)) w.

End Events.

End Listeners.
