(* ===== verification/MouseEvents.v ===== *)
(** * Annotations and listeners (ChartNew.js)

    What the events of the mouse do to a page: which annotation is shown, how the
    functions of the options are called over time, and how many listeners a chart that
    is drawn again and again has. *)

From stdpp Require Import base list strings gmap.
From Stdlib Require Import ZArith Lia SpecFloat.
From S2P Require Import Prelude Num Value Options OptionValue Easing Stats Canvas Points Lines Mouse.

Open Scope string_scope.
Open Scope list_scope.
Open Scope Z_scope.

#[export] Instance annotated_shape_eq_dec : EqDecision annotated_shape.
Proof. solve_decision. Defined.
#[export] Instance annotation_eq_dec : EqDecision annotation.
Proof. solve_decision. Defined.

(** ** The annotation that is shown *)

Section Annotations.

Context `{MathLib}.
Context (callback : positive -> string -> Z -> Z -> jsval -> res jsval).
Context (eval_template : string -> list (string * jsval) -> res string).
Context (measureText : string -> string -> num).
Context (s : ctx_scales) (win : window) (c : config) (id : string).

Let act (e : mouse_event) (a : mouse_action) (w : mouse_state) : mouse_state * res unit :=
  doMouseAction callback eval_template measureText s win c id e a w.

(** Whether an entry is under the mouse, in a state of the statistics. *)
Definition under (e : mouse_event) (st : gmap stat_ref config) (a : annotation) : bool :=
  match st !! ref_of a with
  | Some o => (touches s c (getMousePos win e).1 (getMousePos win e).2 a o).2
  | None => false
  end.

(** The statistics of the entry that is shown, with the position of the mouse. *)
Definition annotated_stat (e : mouse_event) (a : annotation) (o : config) : config :=
  set_fields [("graphPosX", VNum (getMousePos win e).1); ("graphPosY", VNum (getMousePos win e).2)]
    (touches s c (getMousePos win e).1 (getMousePos win e).2 a o).1.

Lemma visit_run (e : mouse_event) (a : annotation) (o : config) (w : mouse_state) : statObjects w !! ref_of a = Some o ->
  visit s win c e a w =
    (fst (put_stat (ref_of a) (if under e (statObjects w) a then annotated_stat e a o
                               else (touches s c (getMousePos win e).1 (getMousePos win e).2 a o).1) w),
     Ok (under e (statObjects w) a)).
Proof.
  intros Ho. unfold visit. erewrite eff_bind_ok by (unfold stat_of; by rewrite Ho).
  unfold under, annotated_stat. rewrite Ho. cbn [getMousePos fst snd]. by destruct (touches _ _ _ _ _ _) as [o' []].
Qed.

(** The entry that was shown can still be looked up when its function is to be called. *)
Definition prev_known (w : mouse_state) : Prop :=
  is_function c.["annotateFunctionOut"] = false \/
  forall k, annotatePrevShow w = Some k -> is_Some (jsGraphAnnotate w !! id ≫= (.!! k)).

(** The calls when the annotation shown is left, and when entry [k] is shown. *)
Definition out_calls (w : mouse_state) : list call :=
  match annotatePrevShow w with
  | Some k => if is_function c.["annotateFunctionOut"]
              then match jsGraphAnnotate w !! id ≫= (.!! k) with Some a => [CallOut a] | None => [] end
              else []
  | None => []
  end.

Definition in_calls (w : mouse_state) (k : nat) (a : annotation) : list call :=
  if bool_decide (annotatePrevShow w = Some k) then []
  else out_calls w ++ (if is_function c.["annotateFunctionIn"] then [CallIn a] else []).

Lemma log_nothing (w : mouse_state) : fst (log_call [] w) = w.
Proof. unfold log_call, eff_modify. cbn. rewrite app_nil_r. by destruct w. Qed.

Lemma leave_run (k : nat) (w : mouse_state) : prev_known w -> annotatePrevShow w = Some k ->
  leave c id k w = (fst (log_call (out_calls w) w), Ok tt).
Proof.
  intros Hk Hp. unfold leave, out_calls. rewrite Hp.
  destruct (is_function _) eqn:Hf; cbn [eff_when]; [|by rewrite log_nothing].
  destruct Hk as [Hk|Hk]; [congruence|]. destruct (Hk k Hp) as [a Ha]. rewrite Ha.
  unfold entry_of. erewrite eff_bind_ok by by rewrite Ha. done.
Qed.

Lemma leave_shown_run (w : mouse_state) : prev_known w ->
  leave_shown c id (annotatePrevShow w) w = (fst (log_call (out_calls w) w), Ok tt).
Proof.
  intros Hk. unfold leave_shown. destruct (annotatePrevShow w) as [p|] eqn:Hp; [by apply leave_run|].
  unfold out_calls. by rewrite Hp, log_nothing.
Qed.

Lemma enter_run (k : nat) (a : annotation) (w : mouse_state) : prev_known w ->
  enter c id k a w = (fst (set_prevShow (Some k) (fst (log_call (in_calls w k a) w))), Ok tt).
Proof.
  intros Hk. unfold enter, in_calls. erewrite eff_bind_ok by reflexivity.
  destruct (bool_decide _) eqn:Hsame; cbn [negb eff_when].
  { apply bool_decide_eq_true in Hsame. rewrite log_nothing. unfold set_prevShow, eff_modify. cbn. rewrite <- Hsame. by destruct w. }
  erewrite eff_bind_ok by by apply leave_shown_run. erewrite eff_bind_ok by reflexivity.
  destruct (is_function c.["annotateFunctionIn"]); cbn [eff_when].
  - unfold log_call, set_prevShow, eff_modify. cbn. by rewrite app_assoc.
  - by rewrite app_nil_r.
Qed.

(** Templates of annotations that can be filled in. *)
Definition texts_work : Prop := forall a o, exists t, annotation_text callback eval_template c a o = Ok t.

(** What looking over entries that are not under the mouse leaves. *)
Record looked_over (l : list annotation) (w w' : mouse_state) : Prop := {
  over_shown : box_shown w' = false;
  over_prev : annotatePrevShow w' = annotatePrevShow w;
  over_entries : jsGraphAnnotate w' = jsGraphAnnotate w;
  over_ops : mouse_ops w' = mouse_ops w;
  over_calls : calls w' = calls w;
  over_same : forall r, r ∉ ref_of <$> l -> statObjects w' !! r = statObjects w !! r;
  over_known : forall r, is_Some (statObjects w !! r) -> is_Some (statObjects w' !! r)
}.

Lemma under_same (e : mouse_event) (w w' : mouse_state) (a : annotation) :
  statObjects w' !! ref_of a = statObjects w !! ref_of a -> under e (statObjects w') a = under e (statObjects w) a.
Proof. intros Hs. unfold under. by rewrite Hs. Qed.

Lemma known_after_put (r r' : stat_ref) (o : config) (st : gmap stat_ref config) : is_Some (st !! r) -> is_Some (<[r' := o]> st !! r).
Proof. intros Hr. destruct (decide (r' = r)) as [->|Hne]; [rewrite lookup_insert_eq; by eexists|by rewrite lookup_insert_ne]. Qed.

Lemma looks_over (e : mouse_event) (pre l : list annotation) (k : nat) (w : mouse_state) :
  NoDup (ref_of <$> pre ++ l) -> (forall a, a ∈ pre -> is_Some (statObjects w !! ref_of a)) ->
  (forall a, a ∈ pre -> under e (statObjects w) a = false) -> box_shown w = false ->
  exists w', annotate_loop callback eval_template measureText s win c id e k (pre ++ l) w =
             annotate_loop callback eval_template measureText s win c id e (length pre + k) l w' /\ looked_over pre w w'.
Proof.
  revert k w. induction pre as [|a pre IH]; intros k w Hnd Hst Hmiss Hbox; [by exists w|].
  rewrite <- app_comm_cons, fmap_cons, NoDup_cons in Hnd; destruct Hnd as [Hna Hnd]. destruct (Hst a ltac:(left)) as [o Ho].
  cbn [app annotate_loop]. erewrite eff_bind_ok by (by apply visit_run). rewrite (Hmiss a) by left.
  erewrite eff_bind_ok by reflexivity.
  set (w1 := fst (set_shown false (fst (put_stat (ref_of a) (touches s c (getMousePos win e).1 (getMousePos win e).2 a o).1 w)))).
  change (exists w0, annotate_loop callback eval_template measureText s win c id e (S k) (pre ++ l) w1 = annotate_loop callback eval_template measureText s win c id e (length (a :: pre) + k) l w0 /\ looked_over (a :: pre) w w0).
  assert (Hsame : forall r, r <> ref_of a -> statObjects w1 !! r = statObjects w !! r)
    by (intros r Hr; by apply lookup_insert_ne).
  assert (Hin : forall b, b ∈ pre -> statObjects w1 !! ref_of b = statObjects w !! ref_of b).
  { intros b Hb. apply Hsame. intros Heq. apply Hna. rewrite <- Heq. apply list_elem_of_fmap_2, elem_of_app. by left. }
  destruct (IH (S k) w1 Hnd) as (w' & Hrun & [H1 H2 H3 H4 H5 H6 H7]); [| |done|].
  - intros b Hb. rewrite Hin by done. apply Hst. by right.
  - intros b Hb. rewrite (under_same e w) by by apply Hin. apply Hmiss. by right.
  - exists w'. split; [by rewrite Hrun, Nat.add_succ_r|]. split; try done.
    + intros r Hr. rewrite fmap_cons, not_elem_of_cons in Hr. destruct Hr as [Hra Hr]. by rewrite H6, Hsame.
    + intros r Hr. apply H7. by apply known_after_put.
Qed.

Lemma place_box_run (e : mouse_event) (tw : num) (w : mouse_state) :
  exists px py, place_box win c e tw w = (fst (moveIt px py w), Ok tt).
Proof. unfold place_box. destruct (_ && _); by eexists _, _. Qed.

Lemma show_annotation_run (e : mouse_event) (a : annotation) (o : config) (t : string) (w : mouse_state) :
  annotation_text callback eval_template c a o = Ok t ->
  exists px py, show_annotation callback eval_template measureText s win c e a o w =
    (fst (moveIt px py (fst (set_box_text t (fst (mouse_emit [Restore] w))))), Ok tt).
Proof.
  intros Ht. unfold show_annotation, eff_lift. rewrite Ht. erewrite eff_bind_ok by reflexivity. cbv zeta.
  do 2 (erewrite eff_bind_ok by reflexivity). apply place_box_run.
Qed.

(** What the loop leaves: the first entry under the mouse, if any, is shown. *)
Record annotated_as (e : mouse_event) (w w' : mouse_state) (found : option (nat * annotation)) : Prop := {
  as_shown : box_shown w' = bool_decide (is_Some found);
  as_prev : annotatePrevShow w' = match found with Some (k, _) => Some k | None => annotatePrevShow w end;
  as_text : forall k a o, found = Some (k, a) -> statObjects w !! ref_of a = Some o ->
              Ok (box_text w') = annotation_text callback eval_template c a (annotated_stat e a o);
  as_ops : mouse_ops w' = mouse_ops w ++ match found with Some _ => [Restore] | None => [] end;
  as_calls : calls w' = calls w ++ match found with Some (k, a) => in_calls w k a | None => [] end;
  as_entries : jsGraphAnnotate w' = jsGraphAnnotate w;
  as_known : forall r, is_Some (statObjects w !! r) -> is_Some (statObjects w' !! r)
}.

Lemma in_calls_same (w w' : mouse_state) (k : nat) (a : annotation) : jsGraphAnnotate w' = jsGraphAnnotate w ->
  annotatePrevShow w' = annotatePrevShow w -> in_calls w' k a = in_calls w k a.
Proof. intros Hg Hp. unfold in_calls, out_calls. by rewrite Hg, Hp. Qed.

Lemma prev_known_same (w w' : mouse_state) : jsGraphAnnotate w' = jsGraphAnnotate w ->
  annotatePrevShow w' = annotatePrevShow w -> prev_known w -> prev_known w'.
Proof. intros Hg Hp. unfold prev_known. by rewrite Hg, Hp. Qed.

(** The entry under the mouse is shown, before it is entered. *)
Record reached (e : mouse_event) (a : annotation) (w w' : mouse_state) : Prop := {
  re_shown : box_shown w' = true;
  re_prev : annotatePrevShow w' = annotatePrevShow w;
  re_text : forall o, statObjects w !! ref_of a = Some o ->
              Ok (box_text w') = annotation_text callback eval_template c a (annotated_stat e a o);
  re_ops : mouse_ops w' = mouse_ops w ++ [Restore];
  re_calls : calls w' = calls w;
  re_entries : jsGraphAnnotate w' = jsGraphAnnotate w;
  re_known : forall r, is_Some (statObjects w !! r) -> is_Some (statObjects w' !! r)
}.

Lemma reaches_entry (e : mouse_event) (a : annotation) (l : list annotation) (k : nat) (w : mouse_state) :
  texts_work -> is_Some (statObjects w !! ref_of a) -> under e (statObjects w) a = true ->
  exists w', annotate_loop callback eval_template measureText s win c id e k (a :: l) w =
             (do! enter c id k a in eff_ret true) w' /\ reached e a w w'.
Proof.
  intros Ht [o Ho] Hhit. cbn [annotate_loop]. erewrite eff_bind_ok by (by apply visit_run). rewrite Hhit.
  set (w1 := fst (put_stat (ref_of a) (annotated_stat e a o) w)).
  erewrite eff_bind_ok by (unfold stat_of; cbn [w1 put_stat eff_modify fst statObjects]; by rewrite lookup_insert_eq).
  destruct (Ht a (annotated_stat e a o)) as [t Htext]. destruct (show_annotation_run e a _ t w1 Htext) as (px & py & Hshow).
  eexists. split; [erewrite eff_bind_ok by exact Hshow; erewrite eff_bind_ok by reflexivity; reflexivity|].
  split; try done.
  - intros o' Ho'. rewrite Ho in Ho'. injection Ho' as <-. done.
  - intros r Hr. by apply known_after_put.
Qed.

(** It is entered, and the loop ends. *)
Lemma shows_entry (e : mouse_event) (a : annotation) (l : list annotation) (k : nat) (w : mouse_state) :
  texts_work -> prev_known w -> is_Some (statObjects w !! ref_of a) -> under e (statObjects w) a = true ->
  exists w', annotate_loop callback eval_template measureText s win c id e k (a :: l) w = (w', Ok true) /\
    annotated_as e w w' (Some (k, a)).
Proof.
  intros Ht Hprev Ha Hhit. destruct (reaches_entry e a l k w Ht Ha Hhit) as (w1 & -> & [H1 H2 H3 H4 H5 H6 H7]).
  eexists. split; [erewrite eff_bind_ok by (by apply enter_run, (prev_known_same w)); reflexivity|].
  split; try done.
  - intros k' a' o' [= <- <-]. apply H3.
  - cbn. by rewrite H5, (in_calls_same w w1).
Qed.

(** The loop comes to the first entry under the mouse, or to the end. *)
Lemma finds_entry (e : mouse_event) (l : list annotation) (k : nat) (a : annotation) (w : mouse_state) :
  NoDup (ref_of <$> l) -> (forall a, a ∈ l -> is_Some (statObjects w !! ref_of a)) -> box_shown w = false ->
  list_find (fun a => under e (statObjects w) a = true) l = Some (k, a) ->
  exists w', annotate_loop callback eval_template measureText s win c id e 0 l w =
             annotate_loop callback eval_template measureText s win c id e k (a :: drop (S k) l) w' /\
    looked_over (take k l) w w' /\ statObjects w' !! ref_of a = statObjects w !! ref_of a.
Proof.
  intros Hnd Hst Hbox (Ha & Hhit & Hmiss)%list_find_Some. pose proof (take_drop_middle l k a Ha) as Hl. rewrite <- Hl in Hnd.
  assert (Hin : forall b, b ∈ take k l -> b ∈ l) by (intros b (i & Hi & _)%elem_of_take; by eapply list_elem_of_lookup_2).
  destruct (looks_over e (take k l) (a :: drop (S k) l) 0 w Hnd) as (w1 & Hrun & Hover);
    [by intros b Hb; apply Hst, Hin| |done|].
  { intros b (i & Hi & Hik)%elem_of_take. apply not_true_is_false. intros Hu. exact (Hmiss i b Hi Hik Hu). }
  exists w1. rewrite Hl in Hrun. rewrite Hrun, length_take. apply lookup_lt_Some in Ha as Hk. split; [f_equal; lia|].
  split; [done|]. apply (over_same _ _ _ Hover). rewrite fmap_app in Hnd. apply NoDup_app in Hnd as (_ & Hd & _).
  intros Hin'. exact (Hd _ Hin' ltac:(left)).
Qed.

Lemma finds_nothing (e : mouse_event) (l : list annotation) (w : mouse_state) :
  NoDup (ref_of <$> l) -> (forall a, a ∈ l -> is_Some (statObjects w !! ref_of a)) -> box_shown w = false ->
  list_find (fun a => under e (statObjects w) a = true) l = None ->
  exists w', annotate_loop callback eval_template measureText s win c id e 0 l w = (w', Ok false) /\ looked_over l w w'.
Proof.
  intros Hnd Hst Hbox Hf%list_find_None. rewrite Forall_forall in Hf. rewrite <- (app_nil_r l) in Hnd.
  destruct (looks_over e l [] 0 w Hnd Hst) as (w' & Hrun & Hover); [|done|].
  - intros b Hb. by apply not_true_is_false, Hf.
  - exists w'. rewrite app_nil_r in Hrun. by rewrite Hrun.
Qed.

Lemma annotate_loop_run (e : mouse_event) (l : list annotation) (w : mouse_state) :
  texts_work -> prev_known w -> NoDup (ref_of <$> l) -> (forall a, a ∈ l -> is_Some (statObjects w !! ref_of a)) ->
  box_shown w = false ->
  let found := list_find (fun a => under e (statObjects w) a = true) l in
  exists w', annotate_loop callback eval_template measureText s win c id e 0 l w = (w', Ok (bool_decide (is_Some found))) /\
    annotated_as e w w' found.
Proof.
  intros Ht Hprev Hnd Hst Hbox found. unfold found. clear found. destruct (list_find _ l) as [[k a]|] eqn:Hf.
  - destruct (finds_entry e l k a w Hnd Hst Hbox Hf) as (w1 & -> & [H1 H2 H3 H4 H5 H6 H7] & Hsame).
    apply list_find_Some in Hf as (Ha & Hhit & _).
    destruct (shows_entry e a (drop (S k) l) k w1) as (w' & -> & [G1 G2 G3 G4 G5 G6 G7]);
      [done|by eapply prev_known_same|rewrite Hsame; by eapply Hst, list_elem_of_lookup_2|by rewrite (under_same e w)|].
    exists w'. split; [done|]. split; try congruence.
    + intros k' a' o' [= <- <-] Ho. apply (G3 k a); congruence.
    + rewrite G5, H5. by rewrite (in_calls_same w w1).
    + auto.
  - destruct (finds_nothing e l w Hnd Hst Hbox Hf) as (w1 & -> & [H1 H2 H3 H4 H5 H6 H7]).
    exists w1. split; [done|]. split; try done; by rewrite app_nil_r.
Qed.

(** The page before an event: the entries of the chart, and a place for the statistics of each. *)
Record page_ready (l : list annotation) (w : mouse_state) : Prop := {
  ready_entries : jsGraphAnnotate w !! id = Some l;
  ready_distinct : NoDup (ref_of <$> l);
  ready_stats : forall a, a ∈ l -> is_Some (statObjects w !! ref_of a)
}.

Lemma page_ready_same (l : list annotation) (w w' : mouse_state) : page_ready l w -> jsGraphAnnotate w' = jsGraphAnnotate w ->
  (forall r, is_Some (statObjects w !! r) -> is_Some (statObjects w' !! r)) -> page_ready l w'.
Proof. intros [H1 H2 H3] Hg Hst. split; [congruence|done|auto]. Qed.

(** What an event calls. *)
Definition event_calls (w : mouse_state) (found : option (nat * annotation)) : list call :=
  match found with Some (k, a) => in_calls w k a | None => out_calls w end.

Record shows (e : mouse_event) (w w' : mouse_state) (found : option (nat * annotation)) : Prop := {
  sh_shown : box_shown w' = bool_decide (is_Some found);
  sh_prev : annotatePrevShow w' = fst <$> found;
  sh_text : forall k a o, found = Some (k, a) -> statObjects w !! ref_of a = Some o ->
              Ok (box_text w') = annotation_text callback eval_template c a (annotated_stat e a o);
  sh_ops : mouse_ops w' = mouse_ops w ++ [Save; SetFont (annotate_font s c)]
                            ++ match found with Some _ => [Restore] | None => [] end;
  sh_calls : calls w' = calls w ++ event_calls w found;
  sh_entries : jsGraphAnnotate w' = jsGraphAnnotate w;
  sh_known : forall r, is_Some (statObjects w !! r) -> is_Some (statObjects w' !! r)
}.

(** The state in which the loop starts. *)
Definition hidden (w : mouse_state) : mouse_state :=
  fst (set_shown false (fst (mouse_emit [Save; SetFont (annotate_font s c)] (fst (set_style (annotate_style s c) w))))).

Lemma annotate_starts (e : mouse_event) (l : list annotation) (w : mouse_state) : jsGraphAnnotate w !! id = Some l ->
  act e Annotate w =
    (let! show := annotate_loop callback eval_template measureText s win c id e 0 l in
     if show then eff_ret tt
     else let! prev := eff_gets annotatePrevShow in
          match prev with Some k => do! leave c id k in set_prevShow None | None => eff_ret tt end) (hidden w).
Proof.
  intros Hl. unfold act, doMouseAction. do 3 (erewrite eff_bind_ok by reflexivity).
  assert (Hentries : entries id (hidden w) = (hidden w, Ok l)) by (unfold entries; change (jsGraphAnnotate (hidden w)) with (jsGraphAnnotate w); by rewrite Hl).
  by rewrite (eff_bind_ok _ _ _ _ _ Hentries).
Qed.

Lemma annotates (e : mouse_event) (l : list annotation) (w : mouse_state) : texts_work -> prev_known w -> page_ready l w ->
  exists w', act e Annotate w = (w', Ok tt) /\ shows e w w' (list_find (fun a => under e (statObjects w) a = true) l).
Proof.
  intros Ht Hprev [Hl Hnd Hst]. rewrite (annotate_starts e l w Hl).
  destruct (annotate_loop_run e l (hidden w) Ht Hprev Hnd Hst eq_refl) as (w1 & Hrun & [H1 H2 H3 H4 H5 H6 H7]).
  change (statObjects (hidden w)) with (statObjects w) in *. erewrite eff_bind_ok by exact Hrun.
  assert (Hops : forall ops, mouse_ops (hidden w) ++ ops = mouse_ops w ++ [Save; SetFont (annotate_font s c)] ++ ops)
    by (intros ops; exact (eq_sym (app_assoc _ _ _))).
  rewrite Hops in H4. destruct (list_find _ l) as [[k a]|]; cbn [bool_decide is_Some] in *.
  - exists w1. split; [done|]. split; try done.
  - assert (Hsame : out_calls w1 = out_calls w) by (unfold out_calls; by rewrite H2, H6).
    assert (Hk1 : prev_known w1) by by apply (prev_known_same w).
    rewrite bool_decide_eq_false_2 by (by intros [? ?]). erewrite eff_bind_ok by reflexivity.
    destruct (annotatePrevShow w1) as [k|] eqn:Hp.
    + erewrite eff_bind_ok by (by apply leave_run). eexists. split; [reflexivity|]. split; try done.
      cbn. rewrite H5, app_nil_r, Hsame. done.
    + exists w1. split; [done|]. split; try done. rewrite H5. cbn. rewrite <- Hsame. unfold out_calls. by rewrite Hp.
Qed.

(** An annotation that the list of the chart does not have any more is never left. *)
Definition stale (w : mouse_state) (l : list annotation) (k : nat) : Prop :=
  annotatePrevShow w = Some k /\ l !! k = None.

Lemma leave_stale (l : list annotation) (k : nat) (w : mouse_state) : is_function c.["annotateFunctionOut"] = true ->
  jsGraphAnnotate w !! id = Some l -> l !! k = None -> leave c id k w = (w, Throw TypeError).
Proof. intros Hf Hl Hk. unfold leave, entry_of. rewrite Hf. cbn [eff_when]. unfold eff_bind. rewrite Hl. cbn. by rewrite Hk. Qed.

Lemma stale_event (e : mouse_event) (l : list annotation) (k : nat) (w : mouse_state) :
  texts_work -> is_function c.["annotateFunctionOut"] = true -> page_ready l w -> stale w l k ->
  exists w', act e Annotate w = (w', Throw TypeError) /\ page_ready l w' /\ stale w' l k /\ calls w' = calls w.
Proof.
  intros Ht Hout Hready [Hp Hk]. pose proof Hready as [Hl Hnd Hst]. rewrite (annotate_starts e l w Hl).
  destruct (list_find (fun a => under e (statObjects (hidden w)) a = true) l) as [[i a]|] eqn:Hf.
  - destruct (finds_entry e l i a (hidden w) Hnd Hst eq_refl Hf) as (w1 & Hloop & [H1 H2 H3 H4 H5 H6 H7] & Hsame).
    apply list_find_Some in Hf as (Ha & Hhit & _). assert (Hst1 : is_Some (statObjects w1 !! ref_of a))
      by (rewrite Hsame; by eapply Hst, list_elem_of_lookup_2).
    destruct (reaches_entry e a (drop (S i) l) i w1 Ht Hst1) as (w2 & Hreach & [G1 G2 G3 G4 G5 G6 G7]);
      [by rewrite (under_same e (hidden w))|].
    assert (Hp2 : annotatePrevShow w2 = Some k) by (rewrite G2, H2; exact Hp).
    exists w2. split; [|split; [|split; [done|by rewrite G5, H5]]].
    + unfold eff_bind at 1. rewrite Hloop, Hreach. unfold enter, eff_bind, eff_gets. rewrite Hp2.
      rewrite bool_decide_eq_false_2 by congruence. cbn [negb eff_when leave_shown].
      rewrite (leave_stale l) by (done || (rewrite G6, H3; exact Hl)). done.
    + eapply (page_ready_same l w); [done|by rewrite G6, H3|]. intros r Hr. by apply G7, H7.
  - destruct (finds_nothing e l (hidden w) Hnd Hst eq_refl Hf) as (w1 & Hloop & [H1 H2 H3 H4 H5 H6 H7]).
    exists w1. split; [|split; [by apply (page_ready_same l w)|split; [split; [by rewrite H2|done]|done]]].
    erewrite eff_bind_ok by exact Hloop. unfold eff_bind, eff_gets. rewrite H2.
    change (annotatePrevShow (hidden w)) with (annotatePrevShow w). rewrite Hp.
    rewrite (leave_stale l) by (done || (rewrite H3; exact Hl)). done.
Qed.

(** ** Sequences of events *)

(** What an event of another kind leaves: nothing but calls of functions. *)
Definition funct_call (cl : call) : Prop := match cl with CallFunct _ _ => True | _ => False end.

Record acted (w w' : mouse_state) : Prop := {
  ac_shown : box_shown w' = box_shown w;
  ac_prev : annotatePrevShow w' = annotatePrevShow w;
  ac_calls : exists cs, calls w' = calls w ++ cs /\ Forall funct_call cs;
  ac_entries : jsGraphAnnotate w' = jsGraphAnnotate w;
  ac_known : forall r, is_Some (statObjects w !! r) -> is_Some (statObjects w' !! r)
}.

Lemma acted_trans (w1 w2 w3 : mouse_state) : acted w1 w2 -> acted w2 w3 -> acted w1 w3.
Proof.
  intros [H1 H2 (cs & H3 & Hcs) H4 H5] [G1 G2 (cs' & G3 & Gcs) G4 G5]. split; try congruence; [|auto].
  exists (cs ++ cs'). split; [by rewrite G3, H3, app_assoc|by apply Forall_app_2].
Qed.

Lemma acted_calls (w : mouse_state) (cs : list call) : Forall funct_call cs -> acted w (fst (log_call cs w)).
Proof. intros Hcs. split; try done. by exists cs. Qed.

Lemma call_function_calls (e : mouse_event) (f : mouse_function) (r : option stat_ref) : Forall funct_call (call_function c e f r).
Proof.
  destruct f as [|f]; cbn [call_function]; [|by repeat constructor]. unfold chartJsMouseDown.
  repeat match goal with |- context [match ?m with _ => _ end] => destruct m end; by repeat constructor.
Qed.

Lemma function_loop_run (e : mouse_event) (f : mouse_function) (l : list annotation) (b : bool) (w : mouse_state) :
  (forall a, a ∈ l -> is_Some (statObjects w !! ref_of a)) ->
  exists w' b', function_loop s win c e f l b w = (w', Ok b') /\ acted w w'.
Proof.
  revert b w. induction l as [|a l IH]; intros b w Hst.
  { exists w, b. split; [done|]. rewrite <- (log_nothing w) at 2. by apply acted_calls. }
  destruct (Hst a ltac:(left)) as [o Ho]. cbn [function_loop]. erewrite eff_bind_ok by (by apply visit_run).
  set (w1 := fst (put_stat _ _ w)).
  assert (Hput : acted w w1).
  { split; try done; [exists []; by rewrite app_nil_r|]. intros r Hr. by apply known_after_put. }
  set (w2 := if under e (statObjects w) a then fst (log_call (call_function c e f (Some (ref_of a))) w1) else w1).
  assert (Hw2 : acted w1 w2).
  { unfold w2. destruct (under e (statObjects w) a); [apply acted_calls, call_function_calls|].
    rewrite <- (log_nothing w1) at 2. by apply acted_calls. }
  rewrite (eff_bind_ok _ _ _ w2 tt) by (unfold w2; by destruct (under e (statObjects w) a)).
  pose proof (acted_trans _ _ _ Hput Hw2) as Hact.
  destruct (IH (b || under e (statObjects w) a) w2) as (w' & b' & Hrun & Hact').
  { intros a' Ha'. apply (ac_known _ _ Hact), Hst. by right. }
  exists w', b'. split; [exact Hrun|by eapply acted_trans].
Qed.

Lemma functions_act (e : mouse_event) (f : mouse_function) (l : list annotation) (w : mouse_state) : page_ready l w ->
  exists w', act e (Mouseaction f) w = (w', Ok tt) /\ acted w w'.
Proof.
  intros [Hl _ Hst]. unfold act, doMouseAction. rewrite (eff_bind_ok _ _ _ w l) by (unfold entries; by rewrite Hl).
  destruct (function_loop_run e f l false w Hst) as (w1 & b & Hrun & Hact). erewrite eff_bind_ok by exact Hrun.
  destruct b; cbn [negb eff_when].
  - by exists w1.
  - eexists. split; [reflexivity|]. eapply acted_trans; [exact Hact|]. apply acted_calls, call_function_calls.
Qed.

(** The annotation that is entered and not yet left, if calls alternate as they should. *)
Fixpoint follow (cs : list call) (entered : option annotation) : option (option annotation) :=
  match cs with
  | [] => Some entered
  | CallIn a :: cs => match entered with None => follow cs (Some a) | Some _ => None end
  | CallOut a :: cs => if bool_decide (entered = Some a) then follow cs None else None
  | (CallFunct _ _ | CallSave) :: cs => follow cs entered
  end.

Lemma follow_app (cs cs' : list call) (a : option annotation) : follow (cs ++ cs') a = follow cs a ≫= follow cs'.
Proof.
  revert a. induction cs as [|[f r|b|b|] cs IH]; intros a; cbn [app follow]; try done.
  - by destruct a.
  - by case_bool_decide.
Qed.

Lemma follow_functs (cs : list call) (a : option annotation) : Forall funct_call cs -> follow cs a = Some a.
Proof. induction 1 as [|[f r|b|b|] cs Hf _ IH]; done. Qed.

(** The invariant of a page whose options have both functions. *)
Record in_and_out (l : list annotation) (w : mouse_state) : Prop := {
  io_ready : page_ready l w;
  io_prev : forall k, annotatePrevShow w = Some k -> is_Some (l !! k);
  io_calls : follow (calls w) None = Some (annotatePrevShow w ≫= (l !!.));
  io_shown : box_shown w = bool_decide (is_Some (annotatePrevShow w))
}.

Lemma event_calls_follow (l : list annotation) (w : mouse_state) (found : option (nat * annotation)) :
  is_function c.["annotateFunctionIn"] = true -> is_function c.["annotateFunctionOut"] = true -> in_and_out l w ->
  (forall k a, found = Some (k, a) -> l !! k = Some a) ->
  follow (event_calls w found) (annotatePrevShow w ≫= (l !!.)) = Some ((fst <$> found) ≫= (l !!.)).
Proof.
  intros Hin Hout [[Hl _ _] Hp _ _] Hf.
  assert (Hleave : follow (out_calls w) (annotatePrevShow w ≫= (l !!.)) = Some None).
  { unfold out_calls. rewrite Hout, Hl. destruct (annotatePrevShow w) as [k|]; [|done]. cbn. destruct (Hp k eq_refl) as [a Ha].
    rewrite Ha. cbn. by rewrite bool_decide_eq_true_2. }
  destruct found as [[k a]|]; cbn [event_calls fmap option_fmap option_map fst mbind option_bind]; [|exact Hleave].
  unfold in_calls. rewrite Hin. case_bool_decide as Hk; [by rewrite Hk|].
  rewrite follow_app, Hleave. cbn. by rewrite (Hf k a eq_refl).
Qed.

Lemma event_in_and_out (l : list annotation) (e : mouse_event) (a : mouse_action) (w : mouse_state) : texts_work ->
  is_function c.["annotateFunctionIn"] = true -> is_function c.["annotateFunctionOut"] = true -> in_and_out l w ->
  exists w', act e a w = (w', Ok tt) /\ in_and_out l w'.
Proof.
  intros Ht Hin Hout Hio. pose proof Hio as [Hready Hp Hcalls Hshown]. destruct a as [|f].
  - assert (Hprev : prev_known w) by (right; intros k Hk; rewrite (ready_entries _ _ Hready); exact (Hp k Hk)).
    destruct (annotates e l w Ht Hprev Hready) as (w' & Hrun & [H1 H2 _ _ H5 H6 H7]).
    assert (Hfound : forall k a, list_find (fun a => under e (statObjects w) a = true) l = Some (k, a) -> l !! k = Some a)
      by (intros k a Hf; by apply list_find_Some in Hf as (? & _)).
    exists w'. split; [exact Hrun|]. split.
    + by eapply page_ready_same.
    + intros k. rewrite H2. destruct (list_find _ l) as [[k' a]|]; [|done]. intros [= <-]. rewrite (Hfound k' a) by done. by eexists.
    + rewrite H5, follow_app, Hcalls, H2. cbn [mbind option_bind]. by apply event_calls_follow.
    + rewrite H1, H2. by destruct (list_find _ l) as [[k' a]|].
  - destruct (functions_act e f l w Hready) as (w' & Hrun & [H1 H2 (cs & H3 & Hcs) H4 H5]).
    exists w'. split; [exact Hrun|]. split.
    + by eapply page_ready_same.
    + rewrite H2. exact Hp.
    + rewrite H3, follow_app, Hcalls, H2. cbn [mbind option_bind]. by apply follow_functs.
    + by rewrite H1, H2.
Qed.

(** *** Theorems *)

(** C15: An event that asks for annotations shows the first entry of the chart that is under the mouse, and hides the box when
    there is none: the box then has the text of that entry, the page remembers its index, the functions of the options are
    called for the entry that is left and for the one that is new.  The context is saved by every event, but restored only
    when an annotation is shown. *)
Theorem annotate_event (e : mouse_event) (l : list annotation) (w : mouse_state) :
  texts_work -> prev_known w -> page_ready l w ->
  let found := list_find (fun a => under e (statObjects w) a = true) l in
  exists w', doMouseAction callback eval_template measureText s win c id e Annotate w = (w', Ok tt) /\
    box_shown w' = bool_decide (is_Some found) /\
    annotatePrevShow w' = fst <$> found /\
    (forall k a o, found = Some (k, a) -> statObjects w !! ref_of a = Some o ->
       Ok (box_text w') = annotation_text callback eval_template c a (annotated_stat e a o)) /\
    calls w' = calls w ++ event_calls w found /\
    mouse_ops w' = mouse_ops w ++ [Save; SetFont (annotate_font s c)] ++ match found with Some _ => [Restore] | None => [] end.
Proof.
  intros Ht Hprev Hready found. destruct (annotates e l w Ht Hprev Hready) as (w' & Hrun & [H1 H2 H3 H4 H5 _ _]).
  by exists w'.
Qed.



(** Options with a text for the annotations, when templates can be evaluated. *)
Lemma plain_texts (t : string) : c.["annotateLabel"] = VStr t -> (forall p vars, exists r, eval_template p vars = Ok r) -> texts_work.
Proof.
  intros Hl He a o. unfold annotation_text. rewrite Hl. unfold setOptionValue.
  change (rescaled (of_Z 1)) with (fun rv : jsval => rv). cbn. apply He.
Qed.

End Annotations.

(** *** A page with two bars *)

Definition bar_stat (l r : Z) : config :=
  of_fields [("xPosLeft", VInt l); ("xPosRight", VInt r); ("yPosBottom", VInt 100); ("yPosTop", VInt 20)].

Definition two_bars : list annotation := point_entries RECT 0 [(0, 0); (0, 1)]%nat.

Definition bars_page (prev : option nat) : mouse_state :=
  register "Bar_1" two_bars (clearAnnotate "Bar_1" {|
    jsGraphAnnotate := ∅;
    statObjects := list_to_map [((0, 0, Some 0)%nat, bar_stat 10 30); ((0, 0, Some 1)%nat, bar_stat 40 60)];
    annotatePrevShow := prev; box_style := []; box_shown := false; box_text := ""; box_at := None; mouse_ops := []; calls := [] |}).

Definition plain_window : window :=
  {| ns := true; ie := false; scrolled := n0; innerWidth := of_Z 1000; rect_left := n0; rect_top := n0 |}.

Definition mouse_at (x y : Z) : mouse_event :=
  {| clientX := of_Z x; clientY := of_Z y; pageX := of_Z x; pageY := of_Z y; event_x := of_Z x; event_y := of_Z y; which := 0 |}.

Definition watched : config :=
  of_fields [("annotateLabel", VStr "<%=v3%>"); ("annotateFunctionIn", VFun 1); ("annotateFunctionOut", VFun 2)].

Abbreviation bars_event := (doMouseAction (H := sample_math) (fun _ _ _ _ _ => Ok VUndef) (fun s _ => Ok s) (fun _ _ => of_Z 20)
  unit_scales plain_window watched "Bar_1").

Lemma watched_texts : texts_work (fun _ _ _ _ _ => Ok VUndef) (fun s _ => Ok s) watched.
Proof. apply (plain_texts _ _ _ "<%=v3%>"); [reflexivity|]. intros p vars. by exists p. Qed.

Lemma bars_ready (p : option nat) : page_ready "Bar_1" two_bars (bars_page p).
Proof.
  split; [reflexivity|apply (bool_decide_eq_true_1 _); reflexivity|].
  intros a [->|[->|[]%not_elem_of_nil]%elem_of_cons]%elem_of_cons; by eexists.
Qed.

Lemma annotate_event_witness : exists w',
  bars_event (mouse_at 50 60) Annotate (bars_page (Some 0%nat)) = (w', Ok tt) /\ box_shown w' = true /\
  annotatePrevShow w' = Some 1%nat /\
  calls w' = [CallOut {| an_shape := RECT; an_stats := 0; an_i := 0; an_j := 0 |};
              CallIn {| an_shape := RECT; an_stats := 0; an_i := 0; an_j := 1 |}] /\
  mouse_ops w' = [Save; SetFont (annotate_font unit_scales watched); Restore].
Proof.
  destruct (annotate_event (H := sample_math) (fun _ _ _ _ _ => Ok VUndef) (fun s _ => Ok s) (fun _ _ => of_Z 20) unit_scales
    plain_window watched "Bar_1" (mouse_at 50 60) two_bars (bars_page (Some 0%nat)) watched_texts) as (w' & Hrun & Hs & Hp & _ & Hc & Ho).
  - right. intros k [= <-]. by eexists.
  - apply bars_ready.
  - exists w'. split; [exact Hrun|]. split; [exact (eq_trans Hs eq_refl)|]. split; [exact (eq_trans Hp eq_refl)|].
    split; [exact (eq_trans Hc eq_refl)|exact (eq_trans Ho eq_refl)].
Defined.


