(* ===== verification/MouseListeners.v ===== *)
(** * The listeners of a canvas (ChartNew.js)

    Every drawing of a chart calls [defMouse], which adds listeners to its canvas: those
    of the functions of the options replace the ones of the drawing before, the others
    are added again.  Shown for browsers that know [addEventListener]. *)

From stdpp Require Import base list strings gmap.
From Stdlib Require Import ZArith Lia SpecFloat.
From S2P Require Import Prelude Num Value Options OptionValue Easing Stats Canvas Points Lines Mouse.

Open Scope string_scope.
Open Scope list_scope.
Open Scope Z_scope.

#[export] Instance mouse_function_eq_dec : EqDecision mouse_function.
Proof. solve_decision. Defined.
#[export] Instance listener_act_eq_dec : EqDecision listener_act.
Proof. solve_decision. Defined.

(** Listeners that a later drawing does not remove: all but those of the functions of
    the options, and those of the wheel, which are asked for as ["mousewheel"] but
    attached as ["DOMMouseScroll"]. *)
Definition accumulates (l : listener) : bool :=
  match l_act l with DoFunction _ _ => String.eqb (l_type l) "DOMMouseScroll" | _ => true end.

Definition kind (l : listener) : string * listener_act := (l_type l, l_act l).

Definition kinds (m : canvas_listeners) : list (string * listener_act) :=
  kind <$> filter (fun l => accumulates l = true) (listeners m).

(** What a drawing adds for good. *)
Definition event_of (v : jsval) : string := match v with VStr t => hd "" (split_spaces t) | _ => "" end.

Definition annotations_asked (c : config) : bool :=
  match isBooleanOptionTrue VUndef VUndef c.["annotateDisplay"] with Ok v => truthy v | Throw _ => false end.

Definition drawn_listeners (c : config) : list (string * listener_act) :=
  (if annotations_asked c then [(event_of c.["annotateFunction"], DoAnnotate)] else [])
  ++ (if truthy c.["savePng"] then [(event_of c.["savePngFunction"], DoSave)] else [])
  ++ [("DOMMouseScroll", HideBox)]
  ++ match c.["mouseWheel"] with VFun f => [("DOMMouseScroll", DoFunction (UserFunction f) false)] | _ => [] end.

(** Options whose types are right. *)
Record well_asked (c : config) : Prop := {
  asked_display : exists v, isBooleanOptionTrue VUndef VUndef c.["annotateDisplay"] = Ok v;
  asked_annotate : exists t, c.["annotateFunction"] = VStr t;
  asked_save : exists t, c.["savePngFunction"] = VStr t
}.

(** The types of the events whose listeners are replaced. *)
Definition replaced_types : list string := ["mousedown"; "mousemove"; "mouseout"].
Definition asked_types : list string := "mousewheel" :: replaced_types.

Section Drawings.

Context (func_name : positive -> string).

Abbreviation hash type f := (type ++ " " ++ name_of func_name f)%string.

(** A listener of a function of the options, known by its name. *)
Definition answers (type name : string) (l : listener) : Prop :=
  match l_act l with DoFunction f _ => l_type l = type /\ name_of func_name f = name | _ => False end.

#[export] Instance answers_dec (type name : string) (l : listener) : Decision (answers type name l).
Proof. unfold answers. destruct (l_act l); apply _. Defined.

Lemma hash_inj (t t' : string) (f f' : mouse_function) : t ∈ asked_types -> t' ∈ asked_types -> hash t f = hash t' f' ->
  t = t' /\ name_of func_name f = name_of func_name f'.
Proof.
  unfold asked_types, replaced_types. rewrite !elem_of_cons, !elem_of_nil.
  intros [->|[->|[->|[->|[]]]]] [->|[->|[->|[->|[]]]]] [=]; done.
Qed.

(** ** The invariant of a canvas *)

Record tidy (m : canvas_listeners) : Prop := {
  tidy_fresh : forall l, l ∈ listeners m -> (l_closure l < closures m)%nat;
  tidy_distinct : NoDup (l_closure <$> listeners m);
  tidy_replaced : forall l f b, l ∈ listeners m -> l_act l = DoFunction f b -> l_type l <> "DOMMouseScroll" ->
    l_type l ∈ replaced_types /\ eventListeners m !! hash (l_type l) f = Some (l_closure l);
  tidy_known : forall h k, eventListeners m !! h = Some k -> (k < closures m)%nat /\
    forall l, l ∈ listeners m -> l_closure l = k -> exists f b, l_act l = DoFunction f b
}.

Lemma no_listeners_tidy : tidy no_listeners.
Proof. split; cbn; try (intros l; by rewrite elem_of_nil). - constructor. - intros l f b. by rewrite elem_of_nil. - done. Qed.

Lemma fresh_closure (m : canvas_listeners) : tidy m -> closures m ∉ l_closure <$> listeners m.
Proof. intros Hm (l & Hc & Hl)%list_elem_of_fmap. pose proof (tidy_fresh _ Hm l Hl). lia. Qed.

(** A listener of the chart itself. *)
Lemma listen_tidy (type : string) (act : listener_act) (c : config) (m : canvas_listeners) : (forall f b, act <> DoFunction f b) ->
  tidy m -> tidy (listen type act c m).
Proof.
  intros Hact Hm. pose proof Hm as [H1 H2 H3 H4]. split; cbn.
  - intros l [Hl| ->%list_elem_of_singleton]%elem_of_app; [pose proof (H1 l Hl)|cbn]; lia.
  - rewrite fmap_app. apply NoDup_app. split; [done|]. split; [|apply NoDup_singleton].
    intros k Hk ->%list_elem_of_singleton. by apply (fresh_closure m).
  - intros l f b [Hl| ->%list_elem_of_singleton]%elem_of_app Ha; [by apply (H3 l f b)|by destruct (Hact f b)].
  - intros h k Hk. destruct (H4 h k Hk) as [Hlt Hf]. split; [lia|].
    intros l [Hl| ->%list_elem_of_singleton]%elem_of_app; [by apply Hf|cbn; lia].
Qed.

Lemma listen_kinds (type : string) (act : listener_act) (c : config) (m : canvas_listeners) :
  kinds (listen type act c m) = kinds m ++ (if accumulates {| l_type := type; l_closure := 0; l_act := act; l_config := c |}
                                            then [(type, act)] else []).
Proof.
  unfold kinds. cbn [listen listeners]. rewrite filter_app, fmap_app. f_equal.
  rewrite filter_cons. change (accumulates {| l_type := type; l_closure := closures m; l_act := act; l_config := c |})
    with (accumulates {| l_type := type; l_closure := 0; l_act := act; l_config := c |}).
  by destruct (accumulates _).
Qed.

(** A listener that is removed before it is replaced. *)
Definition unlistened (type : string) (f : mouse_function) (m : canvas_listeners) : canvas_listeners :=
  match eventListeners m !! hash type f with Some k => unlisten type k m | None => m end.

Lemma unlistened_elem (type : string) (f : mouse_function) (m : canvas_listeners) (l : listener) :
  l ∈ listeners (unlistened type f m) <->
  l ∈ listeners m /\ ~ (l_type l = type /\ eventListeners m !! hash type f = Some (l_closure l)).
Proof.
  unfold unlistened. destruct (eventListeners m !! hash type f) as [k|].
  - cbn [unlisten listeners]. rewrite list_elem_of_filter. split; intros [H1 H2]; split; try done; intros [Ht Hk]; apply H2 || apply H1;
      split; congruence.
  - split; [intros Hl; by split; [|intros [_ ?]]|by intros [? _]].
Qed.

Lemma unlistened_closures (type : string) (f : mouse_function) (m : canvas_listeners) : closures (unlistened type f m) = closures m.
Proof. unfold unlistened. by destruct (_ !! _). Qed.

Lemma unlistened_hashes (type : string) (f : mouse_function) (m : canvas_listeners) :
  eventListeners (unlistened type f m) = eventListeners m.
Proof. unfold unlistened. by destruct (_ !! _). Qed.

Lemma unlistened_distinct (type : string) (f : mouse_function) (m : canvas_listeners) : NoDup (l_closure <$> listeners m) ->
  NoDup (l_closure <$> listeners (unlistened type f m)).
Proof.
  intros Hnd. unfold unlistened. destruct (_ !! _); [|done]. eapply sublist_NoDup; [exact Hnd|].
  apply fmap_sublist, sublist_filter.
Qed.

Lemma add_listeners (type : string) (f : mouse_function) (b : bool) (c : config) (m : canvas_listeners) :
  add_event_listener func_name false type f b c m =
  {| listeners := listeners (unlistened type f m)
                    ++ [{| l_type := if String.eqb type "mousewheel" then "DOMMouseScroll" else type; l_closure := closures m;
                           l_act := DoFunction f b; l_config := c |}];
     eventListeners := <[hash type f := closures m]> (eventListeners m);
     closures := S (closures m); cursorDivCreated := cursorDivCreated m |}.
Proof. unfold add_event_listener, unlistened. by destruct (eventListeners m !! hash type f). Qed.

Lemma add_tidy (type : string) (f : mouse_function) (b : bool) (c : config) (m : canvas_listeners) : type ∈ asked_types ->
  tidy m -> tidy (add_event_listener func_name false type f b c m).
Proof.
  intros Htype Hm. pose proof Hm as [H1 H2 H3 H4]. rewrite add_listeners. split; cbn [listeners eventListeners closures].
  - intros l [[Hl _]%unlistened_elem| ->%list_elem_of_singleton]%elem_of_app; [pose proof (H1 l Hl)|cbn]; lia.
  - rewrite fmap_app. apply NoDup_app. split; [by apply unlistened_distinct|]. split; [|apply NoDup_singleton].
    intros k (l & -> & [Hl _]%unlistened_elem)%list_elem_of_fmap Hk%list_elem_of_singleton. pose proof (H1 l Hl). cbn in Hk. lia.
  - intros l f' b' [[Hl Hkept]%unlistened_elem| ->%list_elem_of_singleton]%elem_of_app Ha Hnw.
    + destruct (H3 l f' b' Hl Ha Hnw) as [Hin Hhash]. split; [done|]. rewrite lookup_insert_ne; [done|]. intros Heq.
      apply Hkept. assert (Hin' : l_type l ∈ asked_types) by by right.
      destruct (hash_inj _ _ _ _ Htype Hin' Heq) as [-> _]. split; [done|]. by rewrite Heq.
    + cbn in *. injection Ha as <- <-. apply elem_of_cons in Htype as [->|Htype]; [done|].
      assert (Hne : String.eqb type "mousewheel" = false) by (apply String.eqb_neq; intros ->; exact (bool_decide_eq_false_1 ("mousewheel" ∈ replaced_types) eq_refl Htype)).
      rewrite Hne. by rewrite lookup_insert_eq.
  - intros h k Hk. assert (Hcase : k = closures m \/ eventListeners m !! h = Some k).
    { destruct (decide (hash type f = h)) as [<-|Hne]; [rewrite lookup_insert_eq in Hk; left; congruence|].
      right. by rewrite lookup_insert_ne in Hk. }
    assert (Hlt : (k <= closures m)%nat) by (destruct Hcase as [->|Hc]; [lia|destruct (H4 h k Hc); lia]). split; [lia|].
    intros l [[Hl _]%unlistened_elem| ->%list_elem_of_singleton]%elem_of_app Hlk; [|by exists f, b].
    destruct Hcase as [->|Hc]; [pose proof (H1 l Hl); lia|]. by destruct (H4 h k Hc) as [_ Hf]; apply Hf.
Qed.

Lemma filter_kept {A} (P Q : A -> Prop) `{!forall x, Decision (P x)} `{!forall x, Decision (Q x)} (l : list A) :
  (forall x, x ∈ l -> P x -> Q x) -> filter P (filter Q l) = filter P l.
Proof.
  induction l as [|x l IH]; intros Hq; [done|]. rewrite (filter_cons Q).
  assert (Hl : filter P (filter Q l) = filter P l) by (apply IH; intros y Hy; apply Hq; by right).
  case_decide as Hx; rewrite !filter_cons; [by rewrite Hl|]. rewrite Hl.
  case_decide as Hp; [|done]. by destruct Hx; apply Hq; [left|].
Qed.

Lemma add_kinds (type : string) (f : mouse_function) (b : bool) (c : config) (m : canvas_listeners) : type ∈ asked_types ->
  tidy m -> kinds (add_event_listener func_name false type f b c m) =
            kinds m ++ (if String.eqb type "mousewheel" then [("DOMMouseScroll", DoFunction f b)] else []).
Proof.
  intros Htype Hm. rewrite add_listeners. unfold kinds at 1. cbn [listeners]. rewrite filter_app, fmap_app.
  assert (Hnw : String.eqb type "DOMMouseScroll" = false)
    by (apply String.eqb_neq; intros ->; exact (bool_decide_eq_false_1 ("DOMMouseScroll" ∈ asked_types) eq_refl Htype)).
  f_equal.
  - unfold unlistened. destruct (eventListeners m !! hash type f) as [k|] eqn:Hk; [|done]. unfold kinds. f_equal. apply filter_kept.
    intros l Hl Hacc [Ht Hc]. destruct (tidy_known _ Hm _ _ Hk) as [_ Hf]. destruct (Hf l Hl Hc) as (f' & b' & Ha).
    unfold accumulates in Hacc. rewrite Ha, Ht, Hnw in Hacc. done.
  - destruct (String.eqb type "mousewheel"); [done|]. rewrite filter_cons_False; [done|].
    unfold accumulates. cbn [l_act l_type]. by rewrite Hnw.
Qed.

(** ** Drawings *)

Lemma add_option_tidy (type k : string) (c : config) (m : canvas_listeners) : type ∈ asked_types -> tidy m ->
  tidy (add_option_listener func_name false type k c m) /\
  kinds (add_option_listener func_name false type k c m) =
    kinds m ++ match c.[k] with
               | VFun f => if String.eqb type "mousewheel" then [("DOMMouseScroll", DoFunction (UserFunction f) false)] else []
               | _ => []
               end.
Proof.
  intros Htype Hm. unfold add_option_listener.
  destruct (c.[k]); try by rewrite app_nil_r. split; [by apply add_tidy|by apply add_kinds].
Qed.

Lemma first_word_event (c : config) (k t : string) : c.[k] = VStr t -> first_word c.[k] = Ok (event_of c.[k]).
Proof. by intros ->. Qed.

Lemma defMouse_tidy (c : config) (m : canvas_listeners) : well_asked c -> tidy m ->
  exists m', defMouse func_name false c m = Ok m' /\ tidy m' /\ kinds m' = kinds m ++ drawn_listeners c.
Proof.
  intros [(v & Hv) (t & Ht) (t' & Ht')] Hm. unfold defMouse, drawn_listeners, annotations_asked. rewrite Hv. cbn [res_bind].
  rewrite (first_word_event _ _ _ Ht), (first_word_event _ _ _ Ht'). cbn [res_bind]. unfold attach.
  set (m1 := if truthy v then _ else Ok m).
  assert (H1 : exists x, m1 = Ok x /\ tidy x /\
    kinds x = kinds m ++ (if truthy v then [(event_of c.["annotateFunction"], DoAnnotate)] else [])).
  { unfold m1. destruct (truthy v); [|by exists m; rewrite app_nil_r].
    eexists. split; [reflexivity|]. split; [apply listen_tidy; [done|by destruct Hm]|by rewrite listen_kinds]. }
  destruct H1 as (x1 & -> & Hx1 & Hk1). cbn [res_bind].
  set (m2 := if truthy c.["savePng"] then _ else Ok x1).
  assert (H2 : exists x, m2 = Ok x /\ tidy x /\
    kinds x = kinds x1 ++ (if truthy c.["savePng"] then [(event_of c.["savePngFunction"], DoSave)] else [])).
  { unfold m2. destruct (truthy c.["savePng"]); [|by exists x1; rewrite app_nil_r].
    eexists. split; [reflexivity|]. split; [by apply listen_tidy|by rewrite listen_kinds]. }
  destruct H2 as (x2 & -> & Hx2 & Hk2). cbn [res_bind].
  set (x3 := listen "DOMMouseScroll" HideBox c x2).
  assert (Hx3 : tidy x3) by by apply listen_tidy. assert (Hk3 : kinds x3 = kinds x2 ++ [("DOMMouseScroll", HideBox)]) by apply listen_kinds.
  set (x4 := if some_mouseDown c then _ else x3).
  assert (Hx4 : tidy x4 /\ kinds x4 = kinds x3).
  { unfold x4. destruct (some_mouseDown c); [|done]. split; [apply add_tidy; [|done]|rewrite add_kinds by (done || by right; left); by rewrite app_nil_r].
    by right; left. }
  destruct Hx4 as [Hx4 Hk4].
  destruct (add_option_tidy "mousemove" "mouseMove" c x4) as [Hx5 Hk5]; [by right; right; left|done|].
  destruct (add_option_tidy "mouseout" "mouseOut" c _ ltac:(by right; right; right; left) Hx5) as [Hx6 Hk6].
  destruct (add_option_tidy "mousewheel" "mouseWheel" c _ ltac:(by left) Hx6) as [Hx7 Hk7].
  eexists. split; [reflexivity|]. split; [exact Hx7|]. rewrite Hk7, Hk6, Hk5, Hk4, Hk3, Hk2, Hk1. cbn [String.eqb].
  destruct (c.["mouseMove"]), (c.["mouseOut"]); cbn; by rewrite ?app_nil_r, <- ?app_assoc.
Qed.

(** Drawings one after the other. *)
Fixpoint draw_all (cs : list config) (m : canvas_listeners) : res canvas_listeners :=
  match cs with
  | [] => Ok m
  | c :: cs => let* m := defMouse func_name false c m in draw_all cs m
  end.

Lemma draw_all_tidy (cs : list config) (m : canvas_listeners) : Forall well_asked cs -> tidy m ->
  exists m', draw_all cs m = Ok m' /\ tidy m' /\ kinds m' = kinds m ++ concat (map drawn_listeners cs).
Proof.
  intros Hcs. revert m. induction Hcs as [|c cs Hc _ IH]; intros m Hm; [exists m; by rewrite app_nil_r|].
  destruct (defMouse_tidy c m Hc Hm) as (m1 & Hrun & Hm1 & Hk1). destruct (IH m1 Hm1) as (m' & Hrest & Hm' & Hk).
  exists m'. cbn [draw_all map concat]. rewrite Hrun. cbn [res_bind]. split; [done|]. split; [done|]. by rewrite Hk, Hk1, app_assoc.
Qed.

Lemma all_alike {A} (l : list A) : NoDup l -> (forall x y, x ∈ l -> y ∈ l -> x = y) -> (length l <= 1)%nat.
Proof.
  destruct l as [|x [|y l]]; cbn; intros Hnd Heq; try lia. exfalso. apply NoDup_cons in Hnd as [Hx _]. apply Hx.
  rewrite (Heq x y); [left|left|right; left].
Qed.

Lemma tidy_answers (type name : string) (m : canvas_listeners) : tidy m -> type ∈ replaced_types ->
  (length (filter (answers type name) (listeners m)) <= 1)%nat.
Proof.
  intros Hm Htype. rewrite <- (length_fmap l_closure). apply all_alike.
  { eapply sublist_NoDup; [apply (tidy_distinct _ Hm)|]. apply fmap_sublist, sublist_filter. }
  assert (Hclosure : forall l, answers type name l -> l ∈ listeners m ->
    eventListeners m !! (type ++ " " ++ name)%string = Some (l_closure l)).
  { intros l Ha Hl. unfold answers in Ha. destruct (l_act l) as [| | |f b] eqn:Hact; try done. destruct Ha as [<- <-].
    apply (tidy_replaced _ Hm l f b Hl Hact). intros Hd. rewrite Hd in Htype.
    exact (bool_decide_eq_false_1 ("DOMMouseScroll" ∈ replaced_types) eq_refl Htype). }
  intros x y (l & -> & [Ha Hl]%list_elem_of_filter)%list_elem_of_fmap (l' & -> & [Ha' Hl']%list_elem_of_filter)%list_elem_of_fmap.
  apply Hclosure in Hl, Hl'; try done. congruence.
Qed.

End Drawings.


(** *** A chart that is drawn three times *)

Definition listening : config :=
  of_fields [("annotateDisplay", VBool true); ("annotateFunction", VStr "mousemove"); ("savePng", VBool false);
             ("savePngFunction", VStr "mousedown right"); ("mouseDownLeft", VFun 1); ("mouseWheel", VFun 2)].

