(* ===== verification/HoverBars.v ===== *)
(** * The mouse on a chart of bars (ChartNew.js)

    The last frame of a stacked bar chart and the events of the mouse together: the
    rectangles that the frame filled are where the annotations are shown. *)

From stdpp Require Import base list strings gmap.
From Stdlib Require Import ZArith Lia SpecFloat.
From S2P Require Import Prelude Num Binary64 Value Options OptionValue Format Scale Easing Animation.
From S2P Require Import Stats Canvas Cross Legend Layout Axes Points Lines LineChart Filling Bars VerticalBars HorizontalBars.
From S2P Require Import ShownBars Mouse MouseEvents.

Open Scope string_scope.
Open Scope list_scope.
Open Scope Z_scope.

(** ** Lists of positions *)

Lemma shown_bars_elem (l : list (nat * dataset)) (p : nat * nat) (skip : dataset -> bool) :
  p ∈ shown_bars skip l <-> exists d, (p.1, d) ∈ l /\ skip d = false /\ p.2 ∈ shown_points d (seq 0 (length (ds_data d))).
Proof.
  unfold shown_bars. rewrite list_elem_of_In, in_concat. split.
  - intros (ps & ([i d] & <- & Hin)%in_map_iff & Hp). cbn [fst snd] in Hp. destruct (skip d) eqn:Hs; [done|].
    apply in_map_iff in Hp as (j & <- & Hj). exists d. rewrite !list_elem_of_In. done.
  - intros (d & Hin & Hs & Hp). eexists. split; [apply in_map_iff; exists (p.1, d); split; [reflexivity|by apply list_elem_of_In]|].
    cbn [fst snd]. rewrite Hs. apply in_map_iff. exists p.2. rewrite <- list_elem_of_In. by destruct p.
Qed.

Lemma shown_points_elem (d : dataset) (j : nat) :
  j ∈ shown_points d (seq 0 (length (ds_data d))) <-> exists x, ds_data d !! j ≫= present = Some x.
Proof.
  unfold shown_points. rewrite list_elem_of_In, filter_In, <- list_elem_of_In, elem_of_seq. unfold has_value, present. split.
  - intros [Hj Hv]. destruct (lookup_lt_is_Some_2 (ds_data d) j) as [w Hw]; [lia|]. rewrite Hw in *. cbn in *.
    apply negb_true_iff in Hv. rewrite Hv. by eexists.
  - intros (x & Hx). destruct (ds_data d !! j) as [w|] eqn:Hw; [|done]. apply lookup_lt_Some in Hw as Hlt. cbn in *.
    destruct (is_undefined w); [done|]. split; [lia|done].
Qed.

Lemma shown_bars_distinct (skip : dataset -> bool) (l : list (nat * dataset)) : NoDup l.*1 -> NoDup (shown_bars skip l).
Proof.
  induction l as [|[i d] l IH]; intros Hnd; [constructor|]. rewrite fmap_cons, NoDup_cons in Hnd. destruct Hnd as [Hi Hnd].
  change (shown_bars skip ((i, d) :: l)) with
    ((if skip d then [] else map (pair i) (shown_points d (seq 0 (length (ds_data d))))) ++ shown_bars skip l).
  apply NoDup_app. split; [|split; [|by apply IH]].
  - destruct (skip d); [constructor|]. apply (NoDup_fmap_2 (pair i)). apply NoDup_ListNoDup, List.NoDup_filter, List.seq_NoDup.
  - intros p Hp (e & Hin & _)%shown_bars_elem. apply Hi. destruct (skip d); [by apply elem_of_nil in Hp|].
    apply list_elem_of_In, in_map_iff in Hp as (j & <- & _). apply list_elem_of_fmap. by exists (i, e).
Qed.

(** ** Stacked bars *)

Section Hover.

Context `{MathLib}.
Context (toLocaleTimeString : jsval -> string).
Context (callback : positive -> string -> Z -> Z -> jsval -> res jsval).
Context (eval_template : string -> list (string * jsval) -> res string).
Context (measureText : string -> string -> num).
Context (s : ctx_scales) (align0 baseline0 : string).
Context (width height canvas_width canvas_height : num).
Context (fuel : nat) (xBegin xEnd : jsval) (c : config) (data : chart_data).
Context (ops : list canvas_op) (bc : bar_chart).
Context (win : window) (id : string) (stats : nat).

Let prepared : Prop := prepare_stacked toLocaleTimeString callback eval_template measureText s width height
                         canvas_width canvas_height fuel xBegin xEnd c data = Ok (ops, Some bc).
Let ds : list dataset := datasets (bc_data bc).
Let cfg : config := bc_config bc.

(** The corners of the bar of a value, and whether the mouse is inside of it. *)
Definition bar_corners (i j : nat) (x : num) : num * num * num * num :=
  let below := sum_from n0 (same_side x (values_at (take i ds) j)) in
  (stack_left s bc j, (stack_left s bc j + bc_barWidth bc)%num, stack_y bc below, stack_y bc (below + x)%num).

Definition inside (e : mouse_event) (i j : nat) (x : num) : bool :=
  let '(px, py) := getMousePos win e in
  let '(l, r, b, t) := bar_corners i j x in
  (px > Math_min l r)%num && (px < Math_max l r)%num && (py < Math_max b t)%num && (py > Math_min b t)%num.

Definition value_of_bar (i j : nat) : option num := (ds !! i) ≫= (fun d => ds_data d !! j ≫= present).

(** A page on which the chart was drawn: its bars are registered, with their statistics. *)
Definition chart_on_page (pts : list (nat * nat)) (w : mouse_state) : Prop :=
  jsGraphAnnotate w !! id = Some (point_entries RECT stats pts) /\
  forall i j o, bc_stats bc !! (i, j) = Some o -> statObjects w !! (stats, i, Some j) = Some o.

Definition rect_entry (p : nat * nat) : annotation := {| an_shape := RECT; an_stats := stats; an_i := p.1; an_j := p.2 |}.

Lemma bar_under (e : mouse_event) (pts : list (nat * nat)) (w : mouse_state) (i j : nat) (x : num) :
  prepared -> plain_stacks s bc -> chart_on_page pts w -> value_of_bar i j = Some x ->
  is_Some (statObjects w !! (stats, i, Some j)) /\
  under s win cfg e (statObjects w) (rect_entry (i, j)) = inside e i j x.
Proof.
  intros Hp Hplain [_ Hst] Hx. apply bind_Some in Hx as (d & Hd & Hx). eapply prepared_facts in Hp as Hfacts.
  destruct (stacked_at _ _ _ _ _ _ _ Hfacts Hplain i d j x Hd Hx) as (o & k & Ho & _ & _ & Hsides & Hends).
  pose proof (Hst i j o Ho) as Hw. split; [by eexists|]. cbv zeta in Hsides, Hends.
  unfold under, inside, bar_corners. change (ref_of (rect_entry (i, j))) with (stats, i, Some j). rewrite Hw.
  unfold touches. cbn [rect_entry an_shape snd]. unfold rect_at, fnum.
  rewrite (f_equal fst Hsides : o.["xPosLeft"] = _), (f_equal snd Hsides : o.["xPosRight"] = _).
  rewrite (f_equal fst Hends : o.["yPosBottom"] = _), (f_equal snd Hends : o.["yPosTop"] = _). reflexivity.
Qed.

Lemma value_of_shown (i j : nat) : (i, j) ∈ shown_bars all_bars (imap pair ds) <-> is_Some (value_of_bar i j).
Proof.
  rewrite shown_bars_elem. unfold value_of_bar. split.
  - intros (d & Hin & _ & Hj). apply elem_of_lookup_imap in Hin as (k & e & [= <- <-] & Hd). cbn [fst snd] in *.
    apply shown_points_elem in Hj as (x & Hx). rewrite Hd. by exists x.
  - intros (x & Hx). apply bind_Some in Hx as (d & Hd & Hx). exists d. split; [|split; [done|]].
    + apply elem_of_lookup_imap. by exists i, d.
    + apply shown_points_elem. by exists x.
Qed.

Lemma shown_distinct : NoDup (ref_of <$> point_entries RECT stats (shown_bars all_bars (imap pair ds))).
Proof.
  unfold point_entries. rewrite <- list_fmap_compose. apply NoDup_fmap_2.
  - intros [i j] [i' j'] [= -> ->]. done.
  - apply shown_bars_distinct. rewrite fmap_imap.
    assert (Hseq : imap (fun n d => ((n, d) : nat * dataset).1) ds = seq 0 (length ds)).
    { apply list_eq. intros k. rewrite list_lookup_imap. destruct (ds !! k) as [d|] eqn:Hd; cbn.
      - symmetry. apply lookup_seq. apply lookup_lt_Some in Hd. lia.
      - symmetry. apply lookup_seq_ge. by apply lookup_ge_None. }
    change (NoDup (imap (fun n d => ((n, d) : nat * dataset).1) ds)). rewrite Hseq. apply NoDup_seq.
Qed.

(** The last frame registers the bars of the values. *)
Lemma frame_registers : prepared -> plain_stacks s bc -> truthy cfg.["annotateDisplay"] = true ->
  (of_Z 1 >= fnum cfg "animationStopValue")%num = true ->
  exists t, stacked_drawing callback eval_template measureText s align0 baseline0 cfg (bc_data bc) (bc_measures bc)
              (bc_barWidth bc) (bc_stats bc) (of_Z 1) no_tracing = (t, Ok tt) /\
    annotated t = shown_bars all_bars (imap pair ds).
Proof.
  intros Hp Hplain Hshow Hstop. eapply prepared_facts in Hp as Hfacts. unfold stacked_drawing, emit.
  erewrite eff_bind_ok by reflexivity.
  destruct (each_bar_fills (bc_data bc) all_bars _ (stacked_box s bc)
    (fun i d j Hd _ Hj => bar_fills _ callback s _ _ _ _ bc i d j Hfacts Hplain Hd Hj)
    (set_drawn [SetLineWidth (VNum (line s cfg "barStrokeWidth"))] no_tracing)) as (t1 & E1 & _ & A1).
  cbn [drawn no_tracing app]. rewrite (eff_bind_ok _ _ _ _ _ E1).
  edestruct label_bars_note as (t2 & E2 & _ & A2); [exact (plain_bar_options _ _ Hplain)|].
  exists t2. split; [exact E2|]. unfold cfg in Hstop, Hshow. by rewrite A2, A1, Hstop, Hshow.
Qed.

Lemma page_is_ready (w : mouse_state) : prepared -> plain_stacks s bc -> chart_on_page (shown_bars all_bars (imap pair ds)) w ->
  page_ready id (point_entries RECT stats (shown_bars all_bars (imap pair ds))) w.
Proof.
  intros Hp Hplain Hpage. split; [exact (proj1 Hpage)|apply shown_distinct|].
  intros a ([i j] & -> & Hin)%list_elem_of_fmap. apply value_of_shown in Hin as [x Hx].
  exact (proj1 (bar_under (mouse_at 0 0) _ w i j x Hp Hplain Hpage Hx)).
Qed.


End Hover.

(** *** A chart with annotations, and the mouse inside of its second bar *)

Definition hover_page : config :=
  StackedBar_config no_personal_options (Some (of_fields [("animation", VBool false); ("annotateDisplay", VBool true)])).

Definition hover_chart : res (list canvas_op * option bar_chart) :=
  prepare_stacked (H := sample_math) (fun _ => "") (fun _ _ _ _ _ => Ok VUndef) (fun s _ => Ok s) (fun _ _ => of_Z 20)
    unit_scales (of_Z 450) (of_Z 350) (of_Z 450) (of_Z 350) 100 VUndef VUndef hover_page stacked_data.

Definition drawn_page (bc : bar_chart) (pts : list (nat * nat)) : mouse_state := {|
  jsGraphAnnotate := {["StackedBar_1" := point_entries RECT 0 pts]};
  statObjects := kmap (fun ij => (0%nat, ij.1, Some ij.2)) (bc_stats bc);
  annotatePrevShow := None; box_style := []; box_shown := false; box_text := ""; box_at := None; mouse_ops := []; calls := [] |}.

Definition hover_event : mouse_event := mouse_at 300 200.

Definition hover_inside (bc : bar_chart) (i j : nat) (x : num) : bool :=
  inside (H := sample_math) unit_scales bc plain_window hover_event i j x.

Definition hover_facts_of (bc : bar_chart) :=
  (stacked_facts_of bc,
   ((of_Z 1 >= fnum (bc_config bc) "animationStopValue")%num, is_function (bc_config bc).["annotateFunctionOut"],
    match (bc_config bc).["annotateLabel"] with VStr _ => true | _ => false end),
   (hover_inside bc 0 0 (of_Z 32), hover_inside bc 0 1 (of_Z 50), hover_inside bc 1 0 (of_Z 20))).

Definition hover_facts := (([VBool false; VBool true; VUndef; VStr "rgba(220,220,220,1)"; VStr "rgba(220,220,220,0.5)"],
                            false, datasets stacked_data), (true, false, true), (false, true, false)).

Lemma hover_chart_known : exists ops bc, hover_chart = Ok (ops, Some bc) /\ hover_facts_of bc = hover_facts.
Proof. apply known_chart. vm_compute. reflexivity. Qed.

Lemma hover_only (bc : bar_chart) (i j : nat) (x : num) : hover_facts_of bc = hover_facts ->
  value_of_bar bc i j = Some x -> hover_inside bc i j x = true -> (i, j) = (0%nat, 1%nat).
Proof.
  intros Hf. unfold value_of_bar. assert (Hd : datasets (bc_data bc) = datasets stacked_data) by exact (f_equal (fun p => p.1.1.2) Hf).
  rewrite Hd. pose proof (f_equal (fun p => p.2.1.1) Hf : hover_inside bc 0 0 (of_Z 32) = false) as H1.
  pose proof (f_equal (fun p => p.2.2) Hf : hover_inside bc 1 0 (of_Z 20) = false) as H2.
  destruct i as [|[|i]], j as [|[|j]]; intros Hx Hin; try discriminate Hx; try reflexivity.
  - assert (E : Some (of_Z 32) = Some x) by exact Hx. congruence.
  - assert (E : Some (of_Z 20) = Some x) by exact Hx. congruence.
Qed.

Lemma hover_texts (bc : bar_chart) : hover_facts_of bc = hover_facts ->
  texts_work (fun _ _ _ _ _ => Ok VUndef) (fun s _ => Ok s) (bc_config bc).
Proof.
  intros Hf. pose proof (f_equal (fun p => p.1.2.2) Hf) as Hl. cbn in Hl.
  destruct ((bc_config bc).["annotateLabel"]) eqn:E; try discriminate.
  eapply plain_texts; [exact E|]. intros p vars. by exists p.
Qed.

Lemma drawn_page_has_chart (bc : bar_chart) (pts : list (nat * nat)) :
  chart_on_page bc "StackedBar_1" 0 pts (drawn_page bc pts).
Proof.
  split; [apply lookup_singleton_eq|]. intros i j o Ho. cbn [drawn_page statObjects].
  change (0%nat, i, Some j) with ((fun ij => (0%nat, ij.1, Some ij.2)) (i, j)). rewrite lookup_kmap; [done|].
  intros [a b] [a' b'] [= -> ->]. done.
Qed.

